(* ===== verification/_CoqProject ===== *)
-Q . S2P
Prelude.v
Config.v
Fc.v
Asset.v
Records.v
Crypto.v
OrderedMap.v
CachedMap.v
Store.v
ChainState.v
ApplyUndo.v
EvalState.v
Names.v
BalanceOps.v
AccountOps.v
MarketOps.v
Transaction.v
MarketEngine.v
Matching.v
Blocks.v
Forks.v
Supply.v
Genesis.v
Queries.v
ExtendedKeys.v
Stateful.v
WalletDb.v
Conserve.v
TransactionFacts.v
Votes.v
OperationFacts.v
Divergences.v
ChainFacts.v
MarketFacts.v
Overlay.v
MarketFunds.v
MarketRuns.v
MarketExamples.v
BlockFacts.v
BlockFunds.v
Tidy.v
BlockVotes.v
ForkFacts.v
ChainRuns.v
PendingFacts.v
Reach.v
GenesisFacts.v
GenesisChain.v
QueryFacts.v
WalletFacts.v
WalletOrder.v
WalletRuns.v
BlockExamples.v
VoteExamples.v
QueryExamples.v
WalletExamples.v
