(* ===== verification/Prelude.v ===== *)
(** * The LarkX blockchain: a verification development

    LarkX is a delegated-proof-of-stake chain with market-issued assets.  This
    development models the part of it that decides what the chain's state is:
    the libraries [src/libraries/blockchain] and the persistent maps of
    [src/libraries/db], and the database of [src/libraries/wallet].  File names
    below are relative to them.

    ** How the program fits together, and where it is modelled

    A node keeps the tables of the chain in LevelDB through write-back caches.
    A block is applied to a pending state over these tables; each transaction
    of the block to a pending state over that one, and each market to another.
    A pending state answers lookups by looking through to the state below, and
    hands its changes down with [apply_changes] when its step succeeded.  Before
    the changes of a block reach the database, the state that undoes them is
    computed and kept, so that the block can be popped and another fork taken.

    - Arithmetic.  [Fc]: the numbers and times of the [fc] library, by interface.
      [Asset]: checked amounts, prices and their text ([asset.cpp]).
    - Data.  [Config]: constants.  [Records]: the records of the state and the
      operations.  [Crypto]: addresses, keys, ids and digests over an interface
      of hash functions ([address.cpp], [pts_address.cpp], [types.cpp],
      [block.cpp], [delegate_slate.cpp]).
    - Storage.  [OrderedMap]: iteration in key order.  [CachedMap]: the
      write-back cache ([cached_level_map.hpp]).  [Store]: the tables of the
      database and of a pending state.  [ChainState]: lookups, stores,
      [apply_changes] and [get_undo_state] over the stack of states
      ([chain_interface.cpp], [pending_chain_state.cpp], the accessors of
      [chain_database.cpp]).
    - Transactions.  [EvalState]: the evaluation state.  [Names], [BalanceOps],
      [AccountOps], [MarketOps]: the operations.  [Transaction]: the dispatch,
      the whole evaluation, and the builders of [transaction.cpp].
    - Markets.  [MarketEngine]: the state of the engine, the four payments and
      the status and history.  [Matching]: a trade, the matching loop, a whole
      run and the market step of a block ([market_engine.cpp]).
    - Blocks.  [Blocks]: checking a header and applying a block.  [Forks]: the
      block tree, extending and popping the chain, switching forks, the queue
      of pending transactions and block generation ([chain_database.cpp]).
    - Accounting.  [Supply]: the funds the tables hold, and the database's own
      count of them.
    - The start.  [Genesis]: the accounts, balances, slates, votes, assets and
      properties of the initial state ([genesis_config.hpp],
      [initialize_genesis] of [chain_database.cpp]).
    - Reading the chain.  [Queries]: the queries on blocks, forks, accounts,
      balances, order books, trades, feeds and burns, and the audit of the votes
      ([chain_database.cpp]).
    - The wallet.  [ExtendedKeys]: the keys deposits go to and their memos
      ([extended_address.cpp], [withdraw_types.cpp]).  [WalletDb]: the records of
      the wallet on disk and in memory, and every operation on them
      ([wallet_db.cpp], [wallet_records.cpp]), in the monad of [Stateful].

    Each C++ function is a definition of the same name where Coq's syntax
    allows, a method of a state class prefixed where two classes share it
    ([p_store_…] for [pending_chain_state], [db_store_…] for [chain_database]).
    [int64_t] arithmetic wraps ([s64]) where the code does not check it, and
    comparisons between signed and unsigned operands convert as C++ does.
    Evaluation is in [result]: a C++ exception is [Err] with its kind, and what
    the language leaves undefined is [Err undefined].  A step over a pending
    state that throws discards it, as the code does; in [Forks] exceptions keep
    the changes made before them, and the monad there returns the state always.

    ** What is shown

    - Funds.  [transaction_conserves], [trade_conserves], [market_conserves] and
      [block_conserves]: evaluating a transaction, a trade, a market or a whole
      block conserves what the chain holds of each asset less its share supply.
      They hold where no record is overwritten by one stored under its key, and
      the latter two for markets of assets their issuer issued: the trades of the
      others leak, as [trade_conserves] says and [MarketExamples] runs show.
      The proofs are in [Conserve], [MarketFunds], [MarketRuns], [BlockFunds];
      [calculate_supply_counts] ties the sums to the figures of the database.
    - Votes.  [votes_follow_stake] ([Votes]) and [block_keeps_votes]
      ([BlockVotes], over the states of [Votes]): the votes of every delegate
      are the stake behind it, through every transaction and every block.
    - Authority and fees.  [spending_authorized], [transaction_pays],
      [update_account_guarded], [register_keeps_names], [yield_bounded],
      [bid_cancelled] ([TransactionFacts], [OperationFacts]).
    - State.  [cached_map_refines_map], [apply_changes_answers],
      [overlay_applied], [undo_restores], [vote_index_preserved]
      ([CachedMap], [ApplyUndo], [Overlay]): the stack of states answers the
      lookups by key as one map per table does, and undoing a block restores the
      tables that [undo_restores] lists ([undo_incomplete] shows others it does not).
    - Chain.  [reachable_in_order] ([Reach]): in whatever order new blocks with the
      next number are pushed, blocks are stored beside the head and transactions
      arrive, the tree, the index and the database stay in order, over the order of a pending state ([Tidy]).  [genesis_in_order]
      ([GenesisChain], over [GenesisFacts]): the state that a well-formed
      configuration starts from is such a state.
      [valid_block_accepted], [push_pop_restores],
      [accepted_block_scheduled], [rejected_block_contained], [store_keeps_tree],
      [descendants_invalidated], [fork_history_linked] ([ForkFacts],
      [ChainRuns]); [generated_block_fits], [pending_transaction_admitted]
      ([PendingFacts]); [round_has_most_votes], [shuffle_permutes],
      [slots_accounted] ([BlockFacts]).
    - Queries.  [market_orders_listed]: the listing of a market returns the
      orders of its books in order; [vote_audit_exact]: the audit of the votes
      finds nothing exactly when they are the stake behind the delegates, on
      slates without negative ids ([QueryFacts]).
    - Wallet.  [wallet_stays_in_order], [wallet_reopens], [password_changed]
      ([WalletRuns], over [WalletFacts] and [WalletOrder]): memory and disk agree
      over runs of the operations of [wallet_step], and reopening brings all back.  [memo_delivered] ([ExtendedKeys]): the
      receiver of a deposit can spend it and reads its memo.
    - Termination.  [matching_terminates], [random_slate_drawn],
      [account_name_judged], [shuffle_permutes], [fork_history_linked],
      [descendants_invalidated].
    - Text and arithmetic.  [price_text_roundtrip] and [asset_exchange_no_gain]
      ([Asset]), [address_text_roundtrip] ([Crypto]).
    - Where the code parts from its intent: [Divergences], and the runs and
      lemmas [header_ignores_transactions] ([BlockFacts]), [god_not_stored],
      [records_by_vote_undefined], and those of [MarketExamples],
      [BlockExamples], [QueryExamples] and [WalletExamples].

    ** Fuel and bounds

    Recursion that is not structural takes fuel, and running out is [undefined].
    The matching loop takes the number of orders in the books: each iteration
    that goes on uses one up.  [is_valid_account_name] takes the length of the
    name.  The shuffle takes the number of delegates, as each outer iteration
    advances; counting missed slots takes the number of slots between two
    times.  Marking in the block tree takes the size of the tree, and the
    history of a fork the number of block records: no path through a tree that
    respects [previous] is longer.  Walking an order book takes the number of its
    orders.  Drawing a random slate has no bound
    that the code sets: [random_slate_drawn] says that some fuel is enough, and
    more of it makes no difference, when the generator draws every value sooner
    or later.  In each case a theorem shows it is enough.

    ** What is assumed

    The [fc] library is a git submodule: its integers, hashes, signatures, base58
    and serialization are the fields of the classes [Fc] and [Crypto], its curve
    and AES those of [Ecc], with laws ([FcLaws], [CryptoLaws], [EccLaws]) that
    state documented behaviour.  [fc_reference], [crypto_reference] and
    [ecc_reference] are instances; the runs and witnesses use them.  The
    generator of [boost::random] is the class [Prng], which draws in range and
    draws every value sooner or later ([PrngLaws]).  LevelDB is an ordered map.
    [std::unordered_set]s are visited in the order of [elements].  The theorems about blocks and transactions start from states
    whose tables are keyed by what their records say, as genesis and the
    operations leave them.

    ** What is not modelled

    Reading the text of a genesis file, reindexing from block files,
    checkpoints and the constant list of forks; the asset and proposal
    operations, which are not registered with the operation factory; NTP.  Observers, snapshots,
    logging and the statistics on processing time have no influence on the
    state.  If [apply_changes] to the database throws, the model keeps the
    database as it was; it does not throw for the states of blocks
    ([apply_changes_applied]).  Of the wallet the rest, the
    scanning of blocks and the commands, and the peer-to-peer node, the mail
    service, the programming interfaces and the graphical programs are outside
    the chain's state and are not modelled. *)
From stdpp Require Export prelude base gmap sets list strings sorting fin_maps.
From Stdlib Require Export ZArith Lia.
#[export] Set Default Goal Selector "!".
Global Open Scope Z_scope.

(** ** Exceptions and fallible computations

    [exn] names the exceptions of [exceptions.hpp] the modelled code throws,
    [assert_failure] stands for [FC_ASSERT], [key_not_found] and [bad_cast] for
    the library exceptions of a failed lookup or conversion, [other_exception]
    for [FC_THROW] without a kind, and [undefined]
    marks a step the C++ program leaves undefined (a null or past-the-end
    dereference). *)
Inductive exn : Type :=
  | assert_failure | key_not_found | bad_cast | undefined
  | addition_overflow | subtraction_overflow | asset_type_mismatch
  | asset_divide_by_self | asset_divide_by_zero
  | duplicate_transaction | zero_amount | zero_price
  | unknown_block | block_older_than_undo_history
  | block_numbers_not_sequential | invalid_previous_block_id
  | invalid_block_time | time_in_past | time_in_future
  | invalid_block_digest | invalid_delegate_signee | failed_checkpoint_verification
  | negative_deposit | not_a_delegate | unknown_balance_record
  | insufficient_funds | missing_signature | invalid_claim_password
  | invalid_withdraw_condition | negative_withdraw | expired_transaction
  | invalid_transaction_expiration
  | invalid_account_name | unknown_account_id | missing_parent_account_signature
  | account_already_registered | account_key_in_use | account_retracted
  | unknown_delegate_slate | too_may_delegates_in_slate
  | unknown_asset_id | unknown_asset_symbol | invalid_pts_address
  | insufficient_fee | negative_fee | missing_deposit | insufficient_relay_fee
  | invalid_market | unknown_market_order | insufficient_feeds
  | unsupported_chain_operation | unknown_transaction
  | unknown_account | invalid_asset_amount | private_key_not_found | invalid_cancel
  | double_cover | key_already_registered | other_exception.

#[export] Instance exn_eq_dec : EqDecision exn.
Proof. solve_decision. Defined.

Inductive result (A : Type) : Type :=
  | Ok (a : A)
  | Err (e : exn).
Arguments Ok {A} a.
Arguments Err {A} e.

Definition rbind {A B} (m : result A) (k : A → result B) : result B :=
  match m with Ok a => k a | Err e => Err e end.

Definition of_option {A} (e : exn) (o : option A) : result A :=
  match o with Some a => Ok a | None => Err e end.

Declare Scope larkx_scope.
Delimit Scope larkx_scope with larkx.
Notation "'let*' x ':=' c 'in' k" := (rbind c (λ x, k))
  (at level 10, x pattern, c at level 100, k at level 200) : larkx_scope.
Notation "'ensure' b 'else' e 'in' k" := (if (b : bool) then k else Err e)
  (at level 10, b at level 100, e at level 100, k at level 200) : larkx_scope.
Global Open Scope larkx_scope.

Definition is_ok {A} (m : result A) : Prop := ∃ a, m = Ok a.

(** ** Closed runs

    [by_evaluation] proves an equation between closed terms by conversion, which
    evaluates as far as the right side asks; integers are compared by [Z.eqb].  So
    that a run is not compared with itself field by field, [by_running] only
    evaluates whether it succeeds. *)
Definition okb {A} (m : result A) : bool := match m with Ok _ => true | Err _ => false end.
Definition ok_or {A} (d : A) (m : result A) : A := match m with Ok a => a | Err _ => d end.
Lemma ok_or_Ok {A} (d : A) (m : result A) : okb m = true → m = Ok (ok_or d m).
Proof. by destruct m. Qed.
Lemma ok_or_pair {A S} (d : A) (r : result A * S) : okb r.1 = true → r = (Ok (ok_or d r.1), r.2).
Proof. by destruct r as [[]]. Qed.
Lemma err_pair {A S} (e : exn) (r : result A * S) : r.1 = Err e → r = (Err e, r.2).
Proof. destruct r as [[] ?]; simpl; congruence. Qed.
Lemma some_or {A} (d : A) (o : option A) :
  match o with Some _ => true | None => false end = true → o = Some (default d o).
Proof. by destruct o. Qed.
Ltac by_evaluation :=
  lazymatch goal with |- @eq Z _ _ => apply Z.eqb_eq | _ => idtac end;
  match goal with |- _ = ?y => exact_no_check (eq_refl y) end.
Ltac by_running :=
  match goal with
  | |- ?m = Ok _ => refine (ok_or_Ok _ m _); by_evaluation
  | |- ?r = (Ok _, _) => refine (ok_or_pair _ r _); by_evaluation
  | |- ?r = (Err _, _) => refine (err_pair _ r _); by_evaluation
  end.

(** The monadic fold: the C++ loops that may throw out of the body. *)
Fixpoint rfold {A S} (f : A → S → result S) (l : list A) (s : S) : result S :=
  match l with
  | [] => Ok s
  | x :: l' => let* s' := f x s in rfold f l' s'
  end.

Lemma rbind_Ok {A B} (m : result A) (k : A → result B) b :
  rbind m k = Ok b ↔ ∃ a, m = Ok a ∧ k a = Ok b.
Proof. destruct m; simpl; split; [eauto|by intros (? & [= ->] & ?)|done|by intros (? & ? & ?)]. Qed.

Lemma ensure_Ok {A} (b : bool) e (m : result A) a :
  (if b then m else Err e) = Ok a ↔ b = true ∧ m = Ok a.
Proof. destruct b; intuition congruence. Qed.

Lemma of_option_Ok {A} e (o : option A) a : of_option e o = Ok a ↔ o = Some a.
Proof. destruct o; simpl; intuition congruence. Qed.

(** An invariant of the body is an invariant of the loop. *)
Lemma rfold_inv {A S} (P : S → Prop) (f : A → S → result S) l s s' :
  (∀ x s1 s2, x ∈ l → P s1 → f x s1 = Ok s2 → P s2) →
  P s → rfold f l s = Ok s' → P s'.
Proof.
  revert s. induction l as [|x l IH]; simpl; intros s Hf Hs Hr; [naive_solver|].
  apply rbind_Ok in Hr as (s1 & H1 & H2).
  eapply IH; [|eapply (Hf x s s1); [set_solver|done|done]|done].
  intros; eapply Hf; eauto. set_solver.
Qed.

Lemma rfold_app {A S} (f : A → S → result S) l1 l2 s :
  rfold f (l1 ++ l2) s = rbind (rfold f l1 s) (rfold f l2).
Proof.
  revert s. induction l1 as [|x l1 IH]; intros s; simpl; [done|].
  destruct (f x s); simpl; [apply IH|done].
Qed.

(** [res_inv H] takes apart a successful run: binds, guards and lookups. *)
Ltac res_step H :=
  match type of H with
  | rbind _ _ = Ok _ =>
      let a := fresh "v" in let H1 := fresh "Hv" in
      apply rbind_Ok in H as (a & H1 & H); res_step H1; res_step H
  | (if _ then _ else Err _) = Ok _ =>
      let H1 := fresh "Hg" in apply ensure_Ok in H as [H1 H]; res_step H
  | (let _ := _ in _) = Ok _ => cbv zeta in H; res_step H
  | of_option _ _ = Ok _ => apply of_option_Ok in H
  | Ok _ = Ok _ => injection H as H; try subst
  | Err _ = Ok _ => discriminate H
  | _ => idtac
  end.
Ltac res_inv H := cbv beta in H; res_step H.

(** ** Machine integers

    [share_type] is [int64_t].  A computed value is reduced to its width, with
    the two's complement wrap-around of the platforms the program is built
    for, by [s64], [u64], [u32] and [s32]. *)
Definition two63 : Z := 2 ^ 63.
Definition two64 : Z := 2 ^ 64.
Definition INT64_MAX : Z := 2 ^ 63 - 1.
Definition INT64_MIN : Z := - 2 ^ 63.
Definition s64 (z : Z) : Z := (z + 2 ^ 63) mod 2 ^ 64 - 2 ^ 63.
Definition u64 (z : Z) : Z := z mod 2 ^ 64.
Definition u32 (z : Z) : Z := z mod 2 ^ 32.
Definition s32 (z : Z) : Z := (z + 2 ^ 31) mod 2 ^ 32 - 2 ^ 31.

Definition in_s64 (z : Z) : Prop := INT64_MIN ≤ z ≤ INT64_MAX.
#[export] Instance in_s64_dec z : Decision (in_s64 z).
Proof. unfold in_s64. apply _. Defined.

Ltac unfold_int := unfold in_s64, INT64_MIN, INT64_MAX, two63, two64 in *.

Lemma s64_range z : in_s64 (s64 z).
Proof. unfold_int. unfold s64. pose proof (Z.mod_pos_bound (z + 2^63) (2^64)). lia. Qed.

Lemma s64_id z : in_s64 z → s64 z = z.
Proof. unfold_int. unfold s64. intros H. rewrite Z.mod_small; lia. Qed.

Lemma u64_id z : 0 ≤ z < 2 ^ 64 → u64 z = z.
Proof. apply Z.mod_small. Qed.

Lemma s64_decomp z : ∃ k, s64 z = z + k * 2 ^ 64.
Proof.
  exists (- ((z + 2 ^ 63) / 2 ^ 64)). unfold s64.
  pose proof (Z.div_mod (z + 2^63) (2^64)). lia.
Qed.

(** Congruence modulo the width of [share_type]: what wrap-around preserves. *)
Definition eq64 (x y : Z) : Prop := (2 ^ 64 | x - y).
Infix "≡₆₄" := eq64 (at level 70, no associativity) : larkx_scope.

#[export] Instance eq64_equiv : Equivalence eq64.
Proof.
  split.
  - intros x. exists 0. lia.
  - intros x y [k H]. exists (- k). lia.
  - intros x y z [k H] [l H']. exists (k + l). lia.
Qed.
#[export] Instance eq64_add : Proper (eq64 ==> eq64 ==> eq64) Z.add.
Proof. intros x x' [k H] y y' [l H']. exists (k + l). lia. Qed.
#[export] Instance eq64_sub : Proper (eq64 ==> eq64 ==> eq64) Z.sub.
Proof. intros x x' [k H] y y' [l H']. exists (k - l). lia. Qed.
#[export] Instance eq64_opp : Proper (eq64 ==> eq64) Z.opp.
Proof. intros x x' [k H]. exists (- k). lia. Qed.

Lemma s64_eq64 z : s64 z ≡₆₄ z.
Proof. destruct (s64_decomp z) as [k ->]. exists k. lia. Qed.

Lemma eq64_eq x y : x = y → x ≡₆₄ y.
Proof. by intros ->. Qed.

Lemma eq64_exact x y : in_s64 x → in_s64 y → x ≡₆₄ y → x = y.
Proof. unfold_int. intros ? ? [k H]. assert (k = 0) by lia. lia. Qed.

(** [solve64] proves a congruence of sums of wrapped terms. *)
Ltac solve64 := rewrite ?s64_eq64; apply eq64_eq; lia.

(** ** Sums over finite maps *)
Section gsum.
Context {K V : Type} `{Countable K}.
Implicit Types (f : K → V → Z) (m : gmap K V).

Definition gsum f m : Z := map_fold (λ k v acc, f k v + acc) 0 m.

Lemma gsum_empty f : gsum f ∅ = 0.
Proof. apply map_fold_empty. Qed.

Lemma gsum_insert_None f m k v :
  m !! k = None → gsum f (<[k:=v]> m) = f k v + gsum f m.
Proof.
  intros Hk. unfold gsum. rewrite map_fold_insert_L; [done| |done].
  intros. lia.
Qed.

Lemma gsum_delete f m k v :
  m !! k = Some v → gsum f m = f k v + gsum f (delete k m).
Proof.
  intros Hk. rewrite <- (insert_delete_id m k v Hk) at 1.
  by rewrite gsum_insert_None by apply lookup_delete_eq.
Qed.

Definition contrib f (k : K) (o : option V) : Z := from_option (f k) 0 o.

Lemma gsum_insert f m k v :
  gsum f (<[k:=v]> m) = gsum f m - contrib f k (m !! k) + f k v.
Proof.
  unfold contrib. destruct (m !! k) as [w|] eqn:Hk; simpl.
  - rewrite (gsum_delete f m k w Hk).
    rewrite <- (insert_delete_eq m k v).
    rewrite gsum_insert_None by apply lookup_delete_eq. lia.
  - rewrite gsum_insert_None by done. lia.
Qed.

Lemma gsum_delete' f m k :
  gsum f (delete k m) = gsum f m - contrib f k (m !! k).
Proof.
  unfold contrib. destruct (m !! k) as [w|] eqn:Hk; simpl.
  - rewrite (gsum_delete f m k w Hk). lia.
  - rewrite delete_id by done. lia.
Qed.

Lemma gsum_ext f g m :
  (∀ k v, m !! k = Some v → f k v = g k v) → gsum f m = gsum g m.
Proof.
  revert m. refine (map_ind _ _ _).
  - done.
  - intros k v m Hk IH Hfg. rewrite !gsum_insert_None by done.
    rewrite (Hfg k v) by apply lookup_insert_eq. f_equal. apply IH.
    intros k' v' Hk'. apply Hfg. rewrite lookup_insert_ne; [done|congruence].
Qed.

Lemma gsum_nonneg f m :
  (∀ k v, m !! k = Some v → 0 ≤ f k v) → 0 ≤ gsum f m.
Proof.
  revert m. refine (map_ind _ _ _).
  - intros _. by rewrite gsum_empty.
  - intros k v m Hk IH Hf. rewrite gsum_insert_None by done.
    assert (0 ≤ f k v) by (apply Hf, lookup_insert_eq).
    assert (0 ≤ gsum f m); [|lia]. apply IH. intros k' v' Hk'. apply Hf.
    rewrite lookup_insert_ne; [done|congruence].
Qed.

Lemma gsum_ge_elem f m k v :
  (∀ k v, m !! k = Some v → 0 ≤ f k v) → m !! k = Some v → f k v ≤ gsum f m.
Proof.
  intros Hf Hk. rewrite (gsum_delete f m k v Hk).
  assert (0 ≤ gsum f (delete k m)); [|lia]. apply gsum_nonneg.
  intros k' v' Hk'. apply lookup_delete_Some in Hk' as [_ Hk']. by apply Hf.
Qed.
End gsum.

Create HintDb larkx discriminated.
#[export] Hint Rewrite @gsum_insert @gsum_empty @gsum_delete' : larkx.
#[export] Hint Resolve s64_range s64_eq64 : larkx.
