(* ===== verification/Config.v ===== *)
(** Configuration constants of the chain: the macros of [config.hpp],
    [pts_config.hpp], [fork_blocks.hpp] and [chain_interface.hpp] the modelled
    code uses, at their literal values. *)
From S2P Require Export Prelude.

(** [config.hpp] *)
Definition BTS_BLOCKCHAIN_SYMBOL : string := "XCL".
Definition BTS_BLOCKCHAIN_NAME : string := "LarkX".
Definition BTS_BLOCKCHAIN_DESCRIPTION : string := "LarkX P2P Currency".
Definition BTS_BLOCKCHAIN_PRECISION : Z := 100000.
Definition BTS_BLOCKCHAIN_MAX_TRANSACTION_EXPIRATION_SEC : Z := 60 * 60 * 24 * 2.
Definition BTS_BLOCKCHAIN_MIN_YIELD_PERIOD_SEC : Z := 60 * 60 * 24.
Definition BTS_BLOCKCHAIN_MIN_BURN_FEE : Z := BTS_BLOCKCHAIN_PRECISION * 10.
Definition BTS_BLOCKCHAIN_DEFAULT_RELAY_FEE : Z := 10000.
Definition BTS_BLOCKCHAIN_MAX_SHORT_PERIOD_SEC : Z := 2 * 60 * 60.
Definition BTS_BLOCKCHAIN_NUM_DELEGATES : Z := 101.
Definition BTS_BLOCKCHAIN_MAX_SLATE_SIZE : Z :=
  BTS_BLOCKCHAIN_NUM_DELEGATES + BTS_BLOCKCHAIN_NUM_DELEGATES / 10.
Definition BTS_BLOCKCHAIN_MIN_FEEDS : Z := BTS_BLOCKCHAIN_NUM_DELEGATES / 2 + 1.
Definition BTS_BLOCKCHAIN_MAX_UNDO_HISTORY : Z := BTS_BLOCKCHAIN_NUM_DELEGATES * 4.
Definition BTS_BLOCKCHAIN_ENABLE_NEGATIVE_VOTES : bool := false.
Definition BTS_MAX_DELEGATE_PAY_PER_BLOCK : Z := 1 * BTS_BLOCKCHAIN_PRECISION.
Definition BTS_BLOCKCHAIN_BLOCK_INTERVAL_SEC : Z := 10.
Definition BTS_BLOCKCHAIN_MIN_NAME_SIZE : Z := 1.
Definition BTS_BLOCKCHAIN_MAX_NAME_SIZE : Z := 63.
Definition BTS_BLOCKCHAIN_MAX_SYMBOL_SIZE : Z := 5.
Definition BTS_BLOCKCHAIN_MIN_SYMBOL_SIZE : Z := 3.
Definition BTS_BLOCKCHAIN_MAX_SHARES : Z := 1000 * 1000 * 1000 * 1000 * 1000.
Definition BTS_BLOCKCHAIN_INITIAL_SHARES : Z := BTS_BLOCKCHAIN_MAX_SHARES / 100.
Definition BTS_BLOCKCHAIN_BLOCKS_PER_HOUR : Z :=
  60 * 60 / BTS_BLOCKCHAIN_BLOCK_INTERVAL_SEC.
Definition BTS_BLOCKCHAIN_BLOCKS_PER_DAY : Z := BTS_BLOCKCHAIN_BLOCKS_PER_HOUR * 24.
Definition BTS_BLOCKCHAIN_BLOCKS_PER_YEAR : Z := BTS_BLOCKCHAIN_BLOCKS_PER_DAY * 365.
Definition BTS_BLOCKCHAIN_AVERAGE_TRX_SIZE : Z := 512.
Definition BTS_BLOCKCHAIN_MAX_PENDING_QUEUE_SIZE : Z := 10.
Definition BTS_BLOCKCHAIN_MAX_BLOCK_SIZE : Z :=
  10 * BTS_BLOCKCHAIN_AVERAGE_TRX_SIZE * BTS_BLOCKCHAIN_MAX_PENDING_QUEUE_SIZE.
Definition BTS_BLOCKCHAIN_DELEGATE_REGISTRATION_FEE : Z :=
  BTS_BLOCKCHAIN_BLOCKS_PER_DAY * 14.

(** [pts_config.hpp] *)
Definition PTS_INITIAL_MIN_LENGTH : Z := 5.
Definition PTS_ACCOUNT_REG_FEE : Z := 1000000.
Definition GENESIS_VOTE_PERMILLE : Z := 80.

(** [fork_blocks.hpp] defines [FORK_25] as [-1]; every use compares it with an
    unsigned 32-bit block number, so the usual arithmetic conversions turn it
    into [2^32 - 1]. *)
Definition FORK_25 : Z := u32 (-1).
Definition BTS_CHECK_CANONICAL_SIGNATURE_FORK_BLOCK_NUM : Z := FORK_25.

(** [chain_interface.hpp] *)
Definition MAX_RECENT_OPERATIONS : nat := 20.

(** [asset.cpp]: the denominator of a [price]'s fixed-point ratio. *)
Definition BTS_PRICE_PRECISION : Z := u64 (BTS_BLOCKCHAIN_MAX_SHARES * 1000).
