(* ===== verification/Fc.v ===== *)
(** The arithmetic and time types of the [fc] library (a git submodule that is
    not part of this repository).  A value of [fc::uint128], [fc::bigint] or
    [fc::time_point_sec] is represented by the integer it denotes, so equality
    and order are those of [Z]; its operations are the fields of [Fc], and what
    the code relies on is stated by [FcLaws].  [fc_reference] is an instance
    that satisfies the laws: the witnesses of the theorems use it. *)
From Stdlib Require Export Ascii.
From S2P Require Export Config.

(** ** The operations *)
Class Fc := {
  (* fc::uint128 *)
  u128_of_int64 : Z → Z;
  u128_of_uint64 : Z → Z;
  u128_add : Z → Z → Z;
  u128_sub : Z → Z → Z;
  u128_mul : Z → Z → Z;
  u128_div : Z → Z → Z;
  u128_mod : Z → Z → Z;
  u128_to_uint64 : Z → Z;
  u128_high_bits : Z → Z;
  u128_low_bits : Z → Z;
  u128_to_integer : Z → result Z;
  u128_to_string : Z → string;
  (* fc::bigint *)
  big_mul : Z → Z → Z;
  big_div : Z → Z → Z;
  big_log2 : Z → Z;
  big_to_int64 : Z → result Z;
  big_to_uint128 : Z → Z;
  (* fc::real128 *)
  real128 : Type;
  real_of_uint64 : Z → real128;
  real_add : real128 → real128 → real128;
  real_sub : real128 → real128 → real128;
  real_mul : real128 → real128 → real128;
  real_div : real128 → real128 → real128;
  real_to_uint64 : real128 → Z;
  (* fc::time_point_sec, in seconds since the epoch *)
  tps_add : Z → Z → Z;
  tps_sub : Z → Z → Z;
  tps_diff : Z → Z → Z
}.

(** ** Decimal notation *)
Definition digit_char (d : Z) : ascii := ascii_of_nat (Z.to_nat (48 + d)).
Definition digit_of (c : ascii) : Z := Z.of_nat (nat_of_ascii c) - 48.
Definition is_digit (d : Z) : Prop := 0 ≤ d ≤ 9.
Fixpoint chars (ds : list Z) : string :=
  match ds with [] => EmptyString | d :: ds' => String (digit_char d) (chars ds') end.
Definition digits_value (acc : Z) (ds : list Z) : Z :=
  foldl (λ a d, a * 10 + d) acc ds.

(** [s] is the usual decimal notation of [z]: no leading zero. *)
Definition is_decimal (s : string) (z : Z) : Prop :=
  ∃ d ds, s = chars (d :: ds) ∧ Forall is_digit (d :: ds) ∧
    digits_value 0 (d :: ds) = z ∧ (d = 0 → ds = []).

(** ** What the code relies on *)
Definition in_u128 (z : Z) : Prop := 0 ≤ z < 2 ^ 128.

Class FcLaws (F : Fc) : Prop := {
  u128_of_int64_spec z : 0 ≤ z ≤ INT64_MAX → u128_of_int64 z = z;
  u128_of_uint64_spec z : 0 ≤ z < 2 ^ 64 → u128_of_uint64 z = z;
  u128_add_spec a b : 0 ≤ a → 0 ≤ b → a + b < 2 ^ 128 → u128_add a b = a + b;
  u128_sub_spec a b : in_u128 a → 0 ≤ b ≤ a → u128_sub a b = a - b;
  u128_mul_spec a b : 0 ≤ a → 0 ≤ b → a * b < 2 ^ 128 → u128_mul a b = a * b;
  u128_div_spec a b : in_u128 a → 0 < b → u128_div a b = a / b;
  u128_mod_spec a b : in_u128 a → 0 < b → u128_mod a b = a mod b;
  u128_low_bits_spec a : 0 ≤ a < 2 ^ 64 → u128_low_bits a = a;
  u128_to_uint64_spec a : 0 ≤ a < 2 ^ 64 → u128_to_uint64 a = a;
  u128_to_integer_spec a : 0 ≤ a < 2 ^ 32 → u128_to_integer a = Ok a;
  u128_to_string_spec a : in_u128 a → is_decimal (u128_to_string a) a;
  big_mul_spec a b : big_mul a b = a * b;
  big_div_spec a b : b ≠ 0 → big_div a b = Z.quot a b;
  big_log2_spec a : Z.abs a < 2 ^ 64 → big_log2 a < 128;
  big_to_int64_spec a : in_s64 a → big_to_int64 a = Ok a;
  big_to_uint128_spec a : in_u128 a → big_to_uint128 a = a;
  tps_add_spec t d : 0 ≤ t → 0 ≤ d → t + d < 2 ^ 32 → tps_add t d = t + d;
  tps_sub_spec t d : t < 2 ^ 32 → 0 ≤ d ≤ t → tps_sub t d = t - d;
  tps_diff_spec t t' : 0 ≤ t < 2 ^ 32 → 0 ≤ t' < 2 ^ 32 → tps_diff t t' = t - t'
}.

(** ** A reference instance *)
Fixpoint dec_digits (fuel : nat) (z : Z) (acc : list Z) : list Z :=
  match fuel with
  | O => acc
  | S n => if z <? 10 then z :: acc else dec_digits n (z / 10) (z mod 10 :: acc)
  end.

Definition u128_wrap (z : Z) : Z := z mod 2 ^ 128.

#[export] Instance fc_reference : Fc := {|
  u128_of_int64 z := u128_wrap z;
  u128_of_uint64 z := u128_wrap z;
  u128_add a b := u128_wrap (a + b);
  u128_sub a b := u128_wrap (a - b);
  u128_mul a b := u128_wrap (a * b);
  u128_div a b := a / b;
  u128_mod a b := a mod b;
  u128_to_uint64 a := a mod 2 ^ 64;
  u128_high_bits a := a / 2 ^ 64;
  u128_low_bits a := a mod 2 ^ 64;
  u128_to_integer a := if a <? 2 ^ 32 then Ok a else Err assert_failure;
  u128_to_string a := chars (dec_digits 40 a []);
  big_mul a b := a * b;
  big_div a b := Z.quot a b;
  big_log2 a := Z.log2 (Z.abs a) + 1;
  big_to_int64 a := if bool_decide (in_s64 a) then Ok a else Err assert_failure;
  big_to_uint128 a := u128_wrap a;
  real128 := Z;
  real_of_uint64 a := a * 10 ^ 18;
  real_add a b := a + b;
  real_sub a b := a - b;
  real_mul a b := a * b / 10 ^ 18;
  real_div a b := a * 10 ^ 18 / b;
  real_to_uint64 a := u64 (a / 10 ^ 18);
  tps_add t d := u32 (t + d);
  tps_sub t d := u32 (t - d);
  tps_diff t t' := t - t'
|}.

Lemma digits_value_app acc ds1 ds2 :
  digits_value acc (ds1 ++ ds2) = digits_value (digits_value acc ds1) ds2.
Proof. apply foldl_app. Qed.

Lemma digits_value_acc acc ds :
  digits_value acc ds = acc * 10 ^ Z.of_nat (length ds) + digits_value 0 ds.
Proof.
  unfold digits_value. revert acc.
  induction ds as [|d ds IH] using rev_ind; intros acc; simpl; [lia|].
  rewrite !foldl_app, length_app. simpl. rewrite IH.
  replace (Z.of_nat (length ds + 1)) with (Z.succ (Z.of_nat (length ds))) by lia.
  rewrite Z.pow_succ_r by lia. ring.
Qed.

Lemma digits_value_bounds ds :
  Forall is_digit ds → 0 ≤ digits_value 0 ds < 10 ^ Z.of_nat (length ds).
Proof.
  induction ds as [|d ds IH] using rev_ind; intros Hds; [simpl; unfold digits_value; simpl; lia|].
  apply Forall_app in Hds as [Hds Hd]. apply Forall_cons_1 in Hd as [Hd _].
  unfold digits_value. rewrite foldl_app, length_app. simpl.
  replace (Z.of_nat (length ds + 1)) with (Z.succ (Z.of_nat (length ds))) by lia.
  rewrite Z.pow_succ_r by lia. specialize (IH Hds).
  unfold digits_value, is_digit in *. 
  generalize dependent (10 ^ Z.of_nat (length ds)).
  generalize (foldl (λ a d : Z, a * 10 + d) 0 ds). intros v p Hv. lia.
Qed.

Lemma dec_digits_decimal fuel z acc :
  0 ≤ z < 10 ^ Z.of_nat fuel → (0 < fuel)%nat → Forall is_digit acc →
  ∃ d ds, dec_digits fuel z acc = d :: ds ∧ Forall is_digit (d :: ds) ∧
    digits_value 0 (d :: ds) = digits_value z acc ∧ (d = 0 → ds = acc ∧ z = 0).
Proof.
  revert z acc. induction fuel as [|fuel IH]; intros z acc Hz Hf Hacc; [lia|]; simpl.
  destruct (Z.ltb_spec z 10) as [Hlt|Hge].
  - exists z, acc. split_and!; [done| |unfold digits_value; simpl; f_equal; lia|naive_solver].
    constructor; [unfold is_digit; lia|done].
  - assert (Hf' : (0 < fuel)%nat).
    { destruct fuel; [|lia]. simpl in Hz. lia. }
    assert (Hz' : 0 ≤ z / 10 < 10 ^ Z.of_nat fuel).
    { split; [apply Z.div_pos; lia|]. apply Z.div_lt_upper_bound; [lia|].
      replace (Z.of_nat (S fuel)) with (Z.succ (Z.of_nat fuel)) in Hz by lia.
      rewrite Z.pow_succ_r in Hz; lia. }
    pose proof (Z.mod_pos_bound z 10 ltac:(lia)) as Hm.
    destruct (IH (z / 10) (z mod 10 :: acc)) as (d & ds & -> & Hds & Hv & H0); [done|done| |].
    { constructor; [unfold is_digit; lia|done]. }
    exists d, ds. split_and!; [done|done| |].
    + etransitivity; [exact Hv|]. unfold digits_value. simpl. f_equal.
      pose proof (Z.div_mod z 10). lia.
    + intros Hd. destruct (H0 Hd) as [_ Hz0]. pose proof (Z.div_mod z 10). lia.
Qed.

Lemma u128_wrap_id z : 0 ≤ z < 2 ^ 128 → u128_wrap z = z.
Proof. apply Z.mod_small. Qed.

Lemma reference_to_string z : in_u128 z → is_decimal (chars (dec_digits 40 z [])) z.
Proof.
  unfold in_u128. intros Hz.
  destruct (dec_digits_decimal 40 z []) as (d & ds & E & Hds & Hv & H0).
  { change (Z.of_nat 40) with 40. lia. }
  { lia. }
  { constructor. }
  exists d, ds. rewrite E. split_and!; [done|done|exact Hv|naive_solver].
Qed.

#[export] Instance fc_reference_laws : FcLaws fc_reference.
Proof.
  split; unfold in_u128; cbn -[Z.pow Z.log2 Z.quot dec_digits]; intros;
    rewrite ?u128_wrap_id by (unfold_int; nia); try done.
  - apply Z.mod_small. lia.
  - apply Z.mod_small. lia.
  - by rewrite (proj2 (Z.ltb_lt _ _)) by lia.
  - by apply reference_to_string.
  - destruct (decide (a = 0)) as [->|]; [done|].
    assert (Z.log2 (Z.abs a) < 64); [|lia]. apply Z.log2_lt_pow2; lia.
  - by rewrite bool_decide_eq_true_2.
  - apply Z.mod_small. lia.
  - apply Z.mod_small. lia.
Qed.
