(* ===== verification/Asset.v ===== *)
(** Assets and prices ([asset.hpp], [asset.cpp]): checked 64-bit amounts and
    fixed-point exchange ratios. *)
From S2P Require Export Fc.

(** ** Data *)
Record asset := Asset { amount : Z; asset_id : Z }.
Record price := Price { ratio : Z; base_asset_id : Z; quote_asset_id : Z }.

#[export] Instance asset_eq_dec : EqDecision asset.
Proof. solve_decision. Defined.
#[export] Instance price_eq_dec : EqDecision price.
Proof. solve_decision. Defined.

(** The default constructors [asset()] and [price()]. *)
Definition asset_default : asset := Asset 0 0.
Definition price_default : price := Price 0 0 0.
Definition asset_pair (p : price) : Z * Z := (quote_asset_id p, base_asset_id p).

(** ** Comparisons: [==], [!=], [<] and [>] on assets ignore the asset id,
    [<=] and [>=] require it to agree; [==] on prices compares only ratios. *)
Definition asset_eqb (l r : asset) : bool := amount l =? amount r.
Definition asset_ltb (l r : asset) : bool := amount l <? amount r.
Definition asset_gtb (l r : asset) : bool := amount r <? amount l.
Definition asset_leb (l r : asset) : bool :=
  (asset_id l =? asset_id r) && (amount l <=? amount r).
Definition asset_geb (l r : asset) : bool :=
  (asset_id l =? asset_id r) && (amount r <=? amount l).

Definition price_eqb (l r : price) : bool := ratio l =? ratio r.
(** The source's [operator !=] also answers whether the ratios are equal. *)
Definition price_neqb (l r : price) : bool := ratio l =? ratio r.
Definition price_ltb (l r : price) : bool :=
  if quote_asset_id l <? quote_asset_id r then true
  else if quote_asset_id r <? quote_asset_id l then false
  else if base_asset_id l <? base_asset_id r then true
  else if base_asset_id r <? base_asset_id l then false
  else ratio l <? ratio r.
Definition price_gtb (l r : price) : bool :=
  if quote_asset_id r <? quote_asset_id l then true
  else if quote_asset_id l <? quote_asset_id r then false
  else if base_asset_id r <? base_asset_id l then true
  else if base_asset_id l <? base_asset_id r then false
  else ratio r <? ratio l.
Definition price_leb (l r : price) : bool :=
  (ratio l <=? ratio r) && bool_decide (asset_pair l = asset_pair r).
Definition price_geb (l r : price) : bool :=
  (ratio r <=? ratio l) && bool_decide (asset_pair l = asset_pair r).

(** [std::min] and [std::max] return the first argument on a tie. *)
Definition asset_min (l r : asset) : asset := if asset_ltb r l then r else l.
Definition asset_min3 (a b c : asset) : asset := asset_min (asset_min a b) c.
Definition price_min (l r : price) : price := if price_ltb r l then r else l.
Definition price_max (l r : price) : price := if price_ltb l r then r else l.

(** ** Checked addition and subtraction *)
Definition asset_add (a o : asset) : result asset :=
  ensure asset_id a =? asset_id o else assert_failure in
  if ((0 <? amount o) && (INT64_MAX - amount o <? amount a))
     || ((amount o <? 0) && (amount a <? INT64_MIN - amount o))
  then Err addition_overflow
  else Ok (Asset (s64 (amount a + amount o)) (asset_id a)).

Definition asset_sub (a o : asset) : result asset :=
  ensure asset_id a =? asset_id o else assert_failure in
  if ((0 <? amount o) && (amount a <? INT64_MIN + amount o))
     || ((amount o <? 0) && (INT64_MAX + amount o <? amount a))
  then Err subtraction_overflow
  else Ok (Asset (s64 (amount a - amount o)) (asset_id a)).

Definition asset_neg (a : asset) : asset := Asset (s64 (- amount a)) (asset_id a).

(** Multiplication and division by an unsigned constant: the usual arithmetic
    conversions make both operands [uint64_t].  The product is built by the
    one-argument constructor, so it loses the asset id. *)
Definition asset_scale (a : asset) (constant : Z) : asset :=
  Asset (s64 (u64 (amount a) * constant)) 0.
Definition asset_unscale (a : asset) (constant : Z) : asset :=
  Asset (s64 (u64 (amount a) / constant)) (asset_id a).

(** ** Prices *)
Section price.
Context `{!Fc}.

(** [operator / ( asset, asset )]: the asset with the lower id becomes the
    denominator, whatever the order of the operands. *)
Definition asset_div (a b : asset) : result price :=
  if asset_id a =? asset_id b then Err asset_divide_by_self else
  let '(l, r) := if asset_id a <? asset_id b then (b, a) else (a, b) in
  if amount r =? 0 then Err asset_divide_by_zero else
  Ok (Price (big_to_uint128
               (big_div (big_mul (amount l) BTS_PRICE_PRECISION) (amount r)))
            (asset_id r) (asset_id l)).

(** [operator * ( asset, price )] *)
Definition asset_mul (a : asset) (p : price) : result asset :=
  if asset_id a =? base_asset_id p then
    let amnt := big_div (big_mul (amount a) (ratio p)) BTS_PRICE_PRECISION in
    if 128 <=? big_log2 amnt then Err addition_overflow else
    let* x := big_to_int64 amnt in Ok (Asset x (quote_asset_id p))
  else if asset_id a =? quote_asset_id p then
    let rslt := big_div (big_mul (amount a) BTS_PRICE_PRECISION) (ratio p) in
    if 128 <=? big_log2 rslt then Err addition_overflow else
    let* x := big_to_int64 rslt in Ok (Asset x (base_asset_id p))
  else Err asset_type_mismatch.

(** [asset::operator * ( uint128_t )] *)
Definition asset_mul_fixed (a : asset) (fix6464 : Z) : asset :=
  let bi := big_mul (amount a) fix6464 in
  let bi := big_div bi BTS_PRICE_PRECISION in
  Asset (s64 (u128_high_bits (big_to_uint128 bi))) (asset_id a).

(** The constructor [price( double a, quote, base )] at [a = 0], the only
    value the order-book code passes it. *)
Definition price_zero (q b : Z) : result price :=
  ensure b <? q else assert_failure in Ok (Price 0 b q).

(** ** Text: [ratio_string] and [set_ratio_from_string] *)
Fixpoint trim_zeros (s : string) : string :=
  match s with
  | EmptyString => EmptyString
  | String c s' =>
      match trim_zeros s' with
      | EmptyString => if digit_of c =? 0 then EmptyString else String c EmptyString
      | t => String c t
      end
  end.

Definition string_tail (s : string) : string :=
  match s with EmptyString => EmptyString | String _ s' => s' end.

Definition ratio_string (p : price) : string :=
  trim_zeros
    (String.append (u128_to_string (u128_div (ratio p) BTS_PRICE_PRECISION))
      (String.append "."
        (string_tail (u128_to_string
           (u128_add (u128_mod (ratio p) BTS_PRICE_PRECISION) BTS_PRICE_PRECISION))))).

(** The two scanning loops; each returns what it accumulated and the rest of
    the text.  At the end of a C string the next character is the
    terminator, which is not a digit. *)
Fixpoint scan_int (int_part : Z) (c : string) : Z * string :=
  match c with
  | EmptyString => (int_part, c)
  | String ch c' =>
      if bool_decide (is_digit (digit_of ch))
      then scan_int (u64 (int_part * 10 + digit_of ch)) c'
      else (int_part, c)
  end.

Fixpoint scan_frac (frac_part frac_magnitude : Z) (c : string) : Z * Z * string :=
  match c with
  | EmptyString => (frac_part, frac_magnitude, c)
  | String ch c' =>
      if bool_decide (is_digit (digit_of ch))
      then scan_frac (s64 (frac_part * 10 + digit_of ch)) (s64 (frac_magnitude * 10)) c'
      else (frac_part, frac_magnitude, c)
  end.

(** The fractional part, after the point: returns the ratio with it added.
    A magnitude that wrapped to zero makes the division undefined. *)
Definition set_fraction (r : Z) (c : string) : result (Z * string) :=
  match c with
  | String ch c' =>
      if bool_decide (is_digit (digit_of ch)) then
        let '(frac_part, frac_magnitude, rest) := scan_frac (digit_of ch) 10 c' in
        if u64 frac_magnitude =? 0 then Err undefined else
        Ok (u128_add r (u128_mul (u128_of_int64 frac_part)
                                 (BTS_PRICE_PRECISION / u64 frac_magnitude)), rest)
      else Ok (r, c)
  | EmptyString => Ok (r, c)
  end.

(** Returns the ratio and the unread suffix (the C++ returns its offset).
    [assert( *c == '.' )] guards only debug builds. *)
Definition set_ratio_from_string (ratio_str : string) : result (Z * string) :=
  let '(r, c) :=
    match ratio_str with
    | String ch c' =>
        if bool_decide (is_digit (digit_of ch)) then
          let '(int_part, rest) := scan_int (digit_of ch) c' in
          (u128_mul int_part BTS_PRICE_PRECISION, rest)
        else (0, ratio_str)
    | EmptyString => (0, ratio_str)
    end in
  match c with
  | String ch c' => if bool_decide (ch = "."%char) then set_fraction r c' else Ok (r, c)
  | EmptyString => Ok (r, c)
  end.
End price.

(** ** Order *)
Lemma price_ltb_spec l r :
  price_ltb l r = true ↔
  quote_asset_id l < quote_asset_id r ∨
  (quote_asset_id l = quote_asset_id r ∧
    (base_asset_id l < base_asset_id r ∨
     (base_asset_id l = base_asset_id r ∧ ratio l < ratio r))).
Proof. unfold price_ltb. repeat case_match; lia. Qed.

Lemma price_gtb_ltb l r : price_gtb l r = price_ltb r l.
Proof. unfold price_gtb, price_ltb. repeat case_match; lia. Qed.

Lemma price_ltb_irrefl p : price_ltb p p = false.
Proof. apply not_true_iff_false. rewrite price_ltb_spec. lia. Qed.

Lemma price_ltb_trans p q r :
  price_ltb p q = true → price_ltb q r = true → price_ltb p r = true.
Proof. rewrite !price_ltb_spec. lia. Qed.

Lemma price_ltb_total p q : price_ltb p q = false → price_ltb q p = false → p = q.
Proof.
  intros H1%not_true_iff_false H2%not_true_iff_false.
  rewrite price_ltb_spec in H1. rewrite price_ltb_spec in H2.
  destruct p, q; simpl in *. f_equal; lia.
Qed.

(** ** Checked arithmetic *)
Lemma asset_add_ok a o :
  in_s64 (amount a) → in_s64 (amount o) → asset_id a = asset_id o →
  asset_add a o =
    if decide (in_s64 (amount a + amount o))
    then Ok (Asset (amount a + amount o) (asset_id a)) else Err addition_overflow.
Proof.
  intros Ha Ho Hid. unfold asset_add. rewrite Hid, Z.eqb_refl.
  case_decide as Hs.
  - rewrite s64_id by done. unfold_int. case_match eqn:E; [|done]. lia.
  - unfold_int. case_match eqn:E; [done|]. lia.
Qed.

Lemma asset_sub_ok a o :
  in_s64 (amount a) → in_s64 (amount o) → asset_id a = asset_id o →
  asset_sub a o =
    if decide (in_s64 (amount a - amount o))
    then Ok (Asset (amount a - amount o) (asset_id a)) else Err subtraction_overflow.
Proof.
  intros Ha Ho Hid. unfold asset_sub. rewrite Hid, Z.eqb_refl.
  case_decide as Hs.
  - rewrite s64_id by done. unfold_int. case_match eqn:E; [|done]. lia.
  - unfold_int. case_match eqn:E; [done|]. lia.
Qed.

Lemma asset_add_inv a o b :
  asset_add a o = Ok b →
  asset_id a = asset_id o ∧ asset_id b = asset_id a ∧ amount b = s64 (amount a + amount o).
Proof.
  unfold asset_add. intros H. res_inv H. apply Z.eqb_eq in Hg.
  case_match; [done|]. by injection H as <-.
Qed.

Lemma asset_sub_inv a o b :
  asset_sub a o = Ok b →
  asset_id a = asset_id o ∧ asset_id b = asset_id a ∧ amount b = s64 (amount a - amount o).
Proof.
  unfold asset_sub. intros H. res_inv H. apply Z.eqb_eq in Hg.
  case_match; [done|]. by injection H as <-.
Qed.

(** ** Exchange *)
Lemma price_precision_value : BTS_PRICE_PRECISION = 10 ^ 18.
Proof. reflexivity. Qed.

Section exchange.
Context `{!Fc, !FcLaws _}.

Lemma asset_mul_base a p n :
  asset_id a = base_asset_id p → 0 ≤ amount a → 0 ≤ ratio p →
  n = amount a * ratio p / BTS_PRICE_PRECISION → n ≤ INT64_MAX →
  asset_mul a p = Ok (Asset n (quote_asset_id p)).
Proof.
  intros Hid Ha Hr Hn Hmax. unfold asset_mul. rewrite Hid, Z.eqb_refl.
  rewrite big_mul_spec, big_div_spec by done.
  rewrite Z.quot_div_nonneg by (rewrite ?price_precision_value; nia).
  rewrite <- Hn. assert (0 ≤ n) by (subst; apply Z.div_pos; [nia|rewrite price_precision_value; lia]).
  pose proof (big_log2_spec n) as Hl. unfold_int.
  destruct (Z.leb_spec 128 (big_log2 n)); [lia|].
  rewrite big_to_int64_spec by (unfold_int; lia). done.
Qed.

Lemma asset_mul_quote a p n :
  asset_id a = quote_asset_id p → base_asset_id p ≠ quote_asset_id p →
  0 ≤ amount a → 0 < ratio p →
  n = amount a * BTS_PRICE_PRECISION / ratio p → n ≤ INT64_MAX →
  asset_mul a p = Ok (Asset n (base_asset_id p)).
Proof.
  intros Hid Hne Ha Hr Hn Hmax. unfold asset_mul. rewrite Hid.
  destruct (Z.eqb_spec (quote_asset_id p) (base_asset_id p)); [lia|].
  rewrite Z.eqb_refl. rewrite big_mul_spec, big_div_spec by lia.
  rewrite Z.quot_div_nonneg by (rewrite ?price_precision_value; nia).
  rewrite <- Hn. assert (0 ≤ n) by (subst; apply Z.div_pos; [rewrite price_precision_value; nia|lia]).
  pose proof (big_log2_spec n) as Hl. unfold_int.
  destruct (Z.leb_spec 128 (big_log2 n)); [lia|].
  rewrite big_to_int64_spec by (unfold_int; lia). done.
Qed.
End exchange.

Lemma floor_exchange_le a r q : 0 ≤ a → 0 < r → 0 < q → a * r / q * q / r ≤ a.
Proof.
  intros Ha Hr Hq. apply Z.div_le_upper_bound; [lia|].
  pose proof (Z.mul_div_le (a * r) q Hq). lia.
Qed.

Lemma floor_exchange_le_INT a r q n :
  0 ≤ a → 0 < r → 0 < q → a ≤ n → a * r / q * q / r ≤ n.
Proof. intros. etransitivity; [by apply floor_exchange_le|done]. Qed.

(** ** Text *)
Lemma digit_of_char d : is_digit d → digit_of (digit_char d) = d.
Proof.
  unfold is_digit. intros Hd.
  assert (d = 0 ∨ d = 1 ∨ d = 2 ∨ d = 3 ∨ d = 4 ∨ d = 5 ∨ d = 6 ∨ d = 7 ∨ d = 8 ∨ d = 9)
    as Hcases by lia.
  repeat destruct Hcases as [->|Hcases]; try reflexivity. by subst.
Qed.

Definition starts_with_digit (s : string) : bool :=
  match s with
  | EmptyString => false
  | String c _ => bool_decide (is_digit (digit_of c))
  end.

Lemma digits_value_mono acc ds : Forall is_digit ds → 0 ≤ acc → acc ≤ digits_value acc ds.
Proof.
  intros Hds Ha. rewrite digits_value_acc.
  pose proof (digits_value_bounds ds Hds). pose proof (Z.pow_pos_nonneg 10 (Z.of_nat (length ds))).
  nia.
Qed.

Lemma scan_int_chars ds acc rest :
  Forall is_digit ds → 0 ≤ acc → digits_value acc ds < 2 ^ 64 → starts_with_digit rest = false →
  scan_int acc (String.append (chars ds) rest) = (digits_value acc ds, rest).
Proof.
  revert acc. induction ds as [|d ds IH]; intros acc Hds Ha Hv Hrest; simpl.
  - destruct rest as [|c rest]; [done|]. simpl in *. by rewrite Hrest.
  - apply Forall_cons_1 in Hds as [Hd Hds]. rewrite digit_of_char by done.
    rewrite bool_decide_eq_true_2 by done.
    change (digits_value acc (d :: ds)) with (digits_value (acc * 10 + d) ds) in *.
    assert (0 ≤ acc * 10 + d) by (unfold is_digit in *; lia).
    pose proof (digits_value_mono (acc * 10 + d) ds Hds ltac:(done)).
    rewrite u64_id by lia. by apply IH.
Qed.

Lemma scan_frac_chars ds acc mag rest :
  Forall is_digit ds → 0 ≤ acc < mag →
  mag * 10 ^ Z.of_nat (length ds) ≤ 10 ^ 18 → starts_with_digit rest = false →
  scan_frac acc mag (String.append (chars ds) rest) =
    (digits_value acc ds, mag * 10 ^ Z.of_nat (length ds), rest).
Proof.
  revert acc mag. induction ds as [|d ds IH]; intros acc mag Hds Ha Hm Hrest.
  - change (10 ^ Z.of_nat 0) with 1. rewrite Z.mul_1_r.
    destruct rest as [|c rest]; [done|]. simpl in *. by rewrite Hrest.
  - apply Forall_cons_1 in Hds as [Hd Hds].
    change (String.append (chars (d :: ds)) rest)
      with (String (digit_char d) (String.append (chars ds) rest)).
    cbn [scan_frac]. rewrite digit_of_char by done.
    rewrite bool_decide_eq_true_2 by done.
    change (digits_value acc (d :: ds)) with (digits_value (acc * 10 + d) ds).
    simpl length in *. rewrite Nat2Z.inj_succ, Z.pow_succ_r in * by lia.
    pose proof (Z.pow_pos_nonneg 10 (Z.of_nat (length ds)) ltac:(lia) ltac:(lia)).
    unfold is_digit in *. assert (mag * 10 ≤ 10 ^ 18) by nia.
    rewrite !s64_id by (unfold_int; lia).
    rewrite IH by (try done; nia). f_equal. f_equal. ring.
Qed.

Lemma trim_zeros_app s t :
  trim_zeros t ≠ EmptyString → trim_zeros (String.append s t) = String.append s (trim_zeros t).
Proof.
  intros Ht. induction s as [|c s IH]; [done|].
  change (String.append (String c s) t) with (String c (String.append s t)).
  cbn [trim_zeros]. rewrite IH. destruct s; [|done].
  cbn [String.append]. by destruct (trim_zeros t).
Qed.

Lemma trim_zeros_chars ds :
  Forall is_digit ds →
  ∃ ds' n, trim_zeros (chars ds) = chars ds' ∧ ds = ds' ++ replicate n 0.
Proof.
  induction ds as [|d ds IH]; intros Hds; simpl; [by exists [], 0%nat|].
  apply Forall_cons_1 in Hds as [Hd Hds]. destruct (IH Hds) as (ds' & n & -> & ->).
  destruct ds' as [|d' ds']; simpl.
  - rewrite digit_of_char by done. destruct (Z.eqb_spec d 0) as [->|].
    + by exists [], (S n).
    + by exists [d], n.
  - by exists (d :: d' :: ds'), n.
Qed.

Lemma digits_value_zeros acc n :
  digits_value acc (replicate n 0) = acc * 10 ^ Z.of_nat n.
Proof.
  revert acc. induction n as [|n IH]; intros acc; [unfold digits_value; simpl; lia|].
  change (digits_value acc (replicate (S n) 0))
    with (digits_value (acc * 10 + 0) (replicate n 0)).
  rewrite IH, Nat2Z.inj_succ, Z.pow_succ_r by lia. ring.
Qed.

(** A number in [10^18, 2*10^18) prints as a one followed by 18 digits. *)
Lemma decimal_frac s m :
  0 ≤ m < 10 ^ 18 → is_decimal s (m + 10 ^ 18) →
  ∃ es, string_tail s = chars es ∧ Forall is_digit es ∧
    Z.of_nat (length es) = 18 ∧ digits_value 0 es = m.
Proof.
  intros Hm (e & es & -> & Hds & Hv & He). apply Forall_cons_1 in Hds as [Hd Hds].
  change (digits_value 0 (e :: es)) with (digits_value e es) in Hv.
  rewrite digits_value_acc in Hv. pose proof (digits_value_bounds es Hds) as Hb.
  assert (e ≠ 0).
  { intros ->. rewrite (He eq_refl) in Hv. unfold digits_value in Hv. simpl in Hv. lia. }
  unfold is_digit in Hd. assert (Hl : Z.of_nat (length es) = 18).
  { destruct (Z.lt_total (Z.of_nat (length es)) 18) as [Hl|[Hl|Hl]]; [|done|].
    - pose proof (Z.pow_le_mono_r 10 (Z.of_nat (length es)) 17 ltac:(lia) ltac:(lia)). nia.
    - pose proof (Z.pow_le_mono_r 10 19 (Z.of_nat (length es)) ltac:(lia) ltac:(lia)). nia. }
  exists es. rewrite Hl in *. split_and!; [done|done|done|nia].
Qed.

Lemma chars_nil_r ds : String.append (chars ds) EmptyString = chars ds.
Proof.
  induction ds as [|d ds IH]; [done|].
  change (String (digit_char d) (String.append (chars ds) EmptyString)
          = String (digit_char d) (chars ds)). by rewrite IH.
Qed.

(** Reading back the 18 (or fewer, once trimmed) digits after the point. *)
Lemma set_fraction_chars `{!Fc, !FcLaws _} r m es :
  Forall is_digit es → digits_value 0 es * 10 ^ (18 - Z.of_nat (length es)) = m →
  Z.of_nat (length es) ≤ 18 → 0 ≤ r → 0 ≤ m → r + m < 2 ^ 128 →
  set_fraction r (chars es) = Ok (r + m, EmptyString).
Proof.
  intros Hes Hv Hlen Hr Hm Hrm. destruct es as [|e es]; cbn [chars set_fraction].
  - unfold digits_value in Hv. simpl in Hv. do 2 f_equal. lia.
  - apply Forall_cons_1 in Hes as [He Hes]. rewrite digit_of_char by done.
    rewrite bool_decide_eq_true_2 by done.
    cbn [length] in *. rewrite Nat2Z.inj_succ in *.
    pose proof (Z.pow_le_mono_r 10 (Z.of_nat (length es)) 17 ltac:(lia) ltac:(lia)).
    pose proof (Z.pow_pos_nonneg 10 (Z.of_nat (length es)) ltac:(lia) ltac:(lia)).
    rewrite <- (chars_nil_r es).
    unfold is_digit in He.
    rewrite scan_frac_chars by (try done; lia).
    change (digits_value 0 (e :: es)) with (digits_value e es) in Hv.
    pose proof (digits_value_bounds es Hes). pose proof (digits_value_acc e es).
    rewrite u64_id by lia.
    destruct (Z.eqb_spec (10 * 10 ^ Z.of_nat (length es)) 0); [nia|].
    rewrite u128_of_int64_spec by (unfold_int; nia).
    assert (BTS_PRICE_PRECISION / (10 * 10 ^ Z.of_nat (length es))
            = 10 ^ (18 - Z.succ (Z.of_nat (length es)))) as ->.
    { rewrite price_precision_value.
      replace 18 with ((18 - Z.succ (Z.of_nat (length es))) + Z.succ (Z.of_nat (length es)))
        at 1 by lia.
      rewrite Z.pow_add_r, (Z.pow_succ_r 10 (Z.of_nat (length es))) by lia.
      apply Z.div_mul. lia. }
    rewrite u128_mul_spec, u128_add_spec; [by rewrite Hv|lia|lia|lia| |apply Z.pow_nonneg; lia|lia].
    nia.
Qed.

(** Printing a price and reading the text back
    restores the ratio exactly, and the whole text is read, for every price
    whose integer part fits the 64-bit accumulator of the parser. *)
Theorem price_text_roundtrip `{!Fc, !FcLaws _} (p : price) :
  0 ≤ ratio p < 2 ^ 64 * BTS_PRICE_PRECISION →
  set_ratio_from_string (ratio_string p) = Ok (ratio p, EmptyString).
Proof.
  rewrite price_precision_value. intros HR. unfold ratio_string.
  set (q := ratio p / 10 ^ 18). set (m := ratio p mod 10 ^ 18).
  assert (Hq : 0 ≤ q < 2 ^ 64).
  { subst q. split; [apply Z.div_pos; lia|apply Z.div_lt_upper_bound; lia]. }
  assert (Hm : 0 ≤ m < 10 ^ 18) by (subst m; apply Z.mod_pos_bound; lia).
  assert (Hqm : ratio p = q * 10 ^ 18 + m).
  { subst q m. pose proof (Z.div_mod (ratio p) (10 ^ 18)). lia. }
  rewrite price_precision_value, u128_div_spec, u128_mod_spec by (unfold in_u128; lia).
  fold q m. rewrite u128_add_spec by lia.
  destruct (u128_to_string_spec q) as (d & ds & Eq & Hds & Hv & _); [unfold in_u128; lia|].
  destruct (decimal_frac (u128_to_string (m + 10 ^ 18)) m) as (es & Em & Hes & Hlen & Hve);
    [done|apply u128_to_string_spec; unfold in_u128; lia|].
  rewrite Em, Eq. clear Em Eq.
  destruct (trim_zeros_chars es Hes) as (es' & n & Ht & ->).
  apply Forall_app in Hes as [Hes' _]. rewrite length_app, length_replicate in Hlen.
  rewrite digits_value_app, digits_value_zeros in Hve.
  assert (Htrim : trim_zeros (String.append "." (chars (es' ++ replicate n 0)))
                  = String "." (chars es')).
  { change (String.append "." (chars (es' ++ replicate n 0)))
      with (String "." (chars (es' ++ replicate n 0))).
    cbn [trim_zeros]. rewrite Ht. by destruct (chars es'). }
  rewrite trim_zeros_app by (by rewrite Htrim). rewrite Htrim.
  unfold set_ratio_from_string.
  change (String.append (chars (d :: ds)) (String "." (chars es')))
    with (String (digit_char d) (String.append (chars ds) (String "." (chars es')))).
  apply Forall_cons_1 in Hds as [Hd Hds].
  change (digits_value 0 (d :: ds)) with (digits_value d ds) in Hv.
  rewrite digit_of_char, bool_decide_eq_true_2 by done. unfold is_digit in Hd.
  rewrite scan_int_chars by (try done; lia). rewrite Hv.
  rewrite u128_mul_spec, price_precision_value by (rewrite ?price_precision_value; lia).
  cbn match. rewrite bool_decide_eq_true_2 by done.
  rewrite (set_fraction_chars _ m es') by
    (try done; try lia; rewrite <- Hve; do 2 f_equal; lia).
  by rewrite Hqm.
Qed.

Definition example_price : price := Price 12340000000000000 0 3.
Lemma price_text_roundtrip_witness :
  ratio_string example_price = "0.01234"%string ∧
  set_ratio_from_string (ratio_string example_price) = Ok (12340000000000000, EmptyString).
Proof.
  split; [vm_compute; reflexivity|].
  apply (price_text_roundtrip example_price). vm_compute. split; [discriminate|reflexivity].
Defined.

(** [asset::operator+=] returns the exact sum when it
    fits [int64_t] and throws [addition_overflow] exactly when it does not, so
    no addition of two assets of the same id ever wraps; the same for [-=] and
    [subtraction_overflow]. *)
Theorem asset_add_checked (a o : asset) :
  in_s64 (amount a) → in_s64 (amount o) → asset_id a = asset_id o →
  asset_add a o =
    (if decide (in_s64 (amount a + amount o))
     then Ok (Asset (amount a + amount o) (asset_id a)) else Err addition_overflow) ∧
  asset_sub a o =
    (if decide (in_s64 (amount a - amount o))
     then Ok (Asset (amount a - amount o) (asset_id a)) else Err subtraction_overflow).
Proof. intros. by rewrite asset_add_ok, asset_sub_ok. Qed.

Lemma asset_add_checked_witness :
  asset_add (Asset INT64_MAX 1) (Asset 1 1) = Err addition_overflow ∧
  asset_sub (Asset INT64_MAX 1) (Asset 1 1) = Ok (Asset (INT64_MAX - 1) 1).
Proof.
  destruct (asset_add_checked (Asset INT64_MAX 1) (Asset 1 1)) as [H1 H2];
    [split; vm_compute; discriminate|split; vm_compute; discriminate|reflexivity|].
  split; [rewrite H1|rewrite H2]; vm_compute; reflexivity.
Defined.

(** Converting a non-negative amount at a price
    and the result back never yields more than the amount one started with,
    in either direction, and both conversions succeed whenever the
    intermediate amount fits [int64_t]. *)
Theorem asset_exchange_no_gain `{!Fc, !FcLaws _} (a : asset) (p : price) :
  base_asset_id p ≠ quote_asset_id p →
  asset_id a = base_asset_id p ∨ asset_id a = quote_asset_id p →
  0 ≤ amount a ≤ INT64_MAX → 0 < ratio p →
  amount a * ratio p / BTS_PRICE_PRECISION ≤ INT64_MAX →
  amount a * BTS_PRICE_PRECISION / ratio p ≤ INT64_MAX →
  ∃ b c, asset_mul a p = Ok b ∧ asset_mul b p = Ok c ∧
    asset_id c = asset_id a ∧ 0 ≤ amount c ≤ amount a.
Proof.
  intros Hne Hid Ha Hr Hmax1 Hmax2.
  assert (0 < BTS_PRICE_PRECISION) by done.
  destruct Hid as [Hid|Hid].
  - pose proof (floor_exchange_le (amount a) (ratio p) BTS_PRICE_PRECISION
                  ltac:(lia) Hr ltac:(done)) as Hle.
    assert (0 ≤ amount a * ratio p / BTS_PRICE_PRECISION) by (apply Z.div_pos; nia).
    eexists _, _. split; [eapply asset_mul_base; eauto; lia|].
    split; [eapply asset_mul_quote; simpl; eauto; lia|]. simpl.
    split; [done|]. split; [apply Z.div_pos; nia|done].
  - pose proof (floor_exchange_le (amount a) BTS_PRICE_PRECISION (ratio p)
                  ltac:(lia) ltac:(done) Hr) as Hle.
    assert (0 ≤ amount a * BTS_PRICE_PRECISION / ratio p) by (apply Z.div_pos; nia).
    eexists _, _. split; [eapply asset_mul_quote; eauto; lia|].
    split; [eapply asset_mul_base; simpl; eauto; lia|]. simpl.
    split; [done|]. split; [apply Z.div_pos; nia|done].
Qed.

Lemma asset_exchange_no_gain_witness :
  ∃ b c, asset_mul (Asset 100000 3) example_price = Ok b ∧
    asset_mul b example_price = Ok c ∧ asset_id c = 3 ∧ 0 ≤ amount c ≤ 100000.
Proof.
  apply (asset_exchange_no_gain (Asset 100000 3) example_price);
    [vm_compute; discriminate|right; reflexivity|split; vm_compute; discriminate
    |vm_compute; reflexivity|vm_compute; discriminate|vm_compute; discriminate].
Defined.
