(* ===== verification/Records.v ===== *)
(** The records of the chain's state and of its operations
    ([withdraw_types.hpp], [balance_record.hpp], [asset_record.hpp],
    [account_record.hpp], [market_records.hpp], [feed_operations.hpp],
    [block_record.hpp], [transaction.hpp], the [*_operations.hpp] files).

    Field names carry a short prefix of their record.  Addresses, public keys,
    digests and ids of hashes are represented by the integer they spell; the
    default-constructed one is [0].  Structures the C++ stores packed inside a
    byte vector next to a type tag ([withdraw_condition], [operation]) are
    represented by what they unpack to.  Every record comes with a functional
    update [set_<field>] for the fields the code assigns. *)
From S2P Require Export Asset.

Abbreviation address := Z (only parsing).
Abbreviation public_key_type := Z (only parsing).
Abbreviation digest_type := Z (only parsing).

(** ** Dynamic values: what the chain keeps in [fc::variant]s *)
Inductive variant :=
  | v_null
  | v_int (z : Z)
  | v_hash (h : digest_type)
  | v_ids (l : list Z)
  | v_pairs (l : list (Z * Z))
  | v_price (p : price)
  | v_opaque (code : Z).

Definition variant_is_null (v : variant) : bool :=
  match v with v_null => true | _ => false end.
Definition as_int (v : variant) : result Z :=
  match v with v_int z => Ok z | _ => Err bad_cast end.
Definition as_hash (v : variant) : result digest_type :=
  match v with v_hash h => Ok h | _ => Err bad_cast end.
Definition as_ids (v : variant) : result (list Z) :=
  match v with v_ids l => Ok l | _ => Err bad_cast end.
Definition as_pairs (v : variant) : result (list (Z * Z)) :=
  match v with v_pairs l => Ok l | _ => Err bad_cast end.
Definition as_price (v : variant) : result price :=
  match v with v_price p => Ok p | _ => Err bad_cast end.

(** ** Withdraw conditions and balances *)
Record titan_memo := TitanMemo {
  tm_one_time_key : public_key_type;
  tm_encrypted_memo_data : list Z
}.

Inductive withdraw_data :=
  | withdraw_null
  | withdraw_with_signature (owner : address) (memo : option titan_memo)
  | withdraw_with_multi_sig (required : Z) (owners : list address) (memo : option titan_memo)
  | withdraw_with_password (payee payor : address) (timeout : Z) (password_hash : digest_type)
                           (memo : option titan_memo)
  | withdraw_option (optionor optionee : address) (date : Z) (strike_price : price)
  | withdraw_with_escrow (sender receiver escrow : address) (agreement_digest : digest_type)
                         (memo : option titan_memo).

Record withdraw_condition := WithdrawCondition {
  wc_asset_id : Z;
  wc_delegate_slate_id : Z;
  wc_data : withdraw_data
}.

Record genesis_record := GenesisRecord {
  gr_initial_balance : asset;
  gr_claim_addr : string
}.

Record balance_record := BalanceRecord {
  br_balance : Z;
  br_condition : withdraw_condition;
  br_genesis_info : option genesis_record;
  br_last_update : Z;
  br_deposit_date : Z
}.
Definition set_br_balance (v : Z) (r : balance_record) : balance_record :=
  BalanceRecord v (br_condition r) (br_genesis_info r) (br_last_update r)
    (br_deposit_date r).
Definition set_br_last_update (v : Z) (r : balance_record) : balance_record :=
  BalanceRecord (br_balance r) (br_condition r) (br_genesis_info r) v
    (br_deposit_date r).
Definition set_br_deposit_date (v : Z) (r : balance_record) : balance_record :=
  BalanceRecord (br_balance r) (br_condition r) (br_genesis_info r)
    (br_last_update r) v.

(** [balance_record( const withdraw_condition& )] *)
Definition balance_record_of (c : withdraw_condition) : balance_record :=
  BalanceRecord 0 c None 0 0.
(** [balance_record( owner, balance, delegate_id )] *)
Definition balance_record_owned (owner : address) (b : asset) (delegate_id : Z)
    : balance_record :=
  BalanceRecord (amount b)
    (WithdrawCondition (asset_id b) delegate_id (withdraw_with_signature owner None))
    None 0 0.
Definition br_asset_id (r : balance_record) : Z := wc_asset_id (br_condition r).
Definition br_delegate_slate_id (r : balance_record) : Z :=
  wc_delegate_slate_id (br_condition r).
Definition br_get_balance (r : balance_record) : asset :=
  Asset (br_balance r) (br_asset_id r).
Definition br_make_null (r : balance_record) : balance_record := set_br_balance 0 r.
Definition br_owner (r : balance_record) : address :=
  match wc_data (br_condition r) with withdraw_with_signature o _ => o | _ => 0 end.

(** ** Assets *)
Record asset_record := AssetRecord {
  ar_id : Z;
  ar_symbol : string;
  ar_name : string;
  ar_description : string;
  ar_public_data : variant;
  ar_issuer_account_id : Z;
  ar_precision : Z;
  ar_registration_date : Z;
  ar_last_update : Z;
  ar_current_share_supply : Z;
  ar_maximum_share_supply : Z;
  ar_collected_fees : Z
}.
Definition set_ar_issuer_account_id (v : Z) (r : asset_record) : asset_record :=
  AssetRecord (ar_id r) (ar_symbol r) (ar_name r) (ar_description r)
    (ar_public_data r) v (ar_precision r) (ar_registration_date r)
    (ar_last_update r) (ar_current_share_supply r) (ar_maximum_share_supply
    r) (ar_collected_fees r).
Definition set_ar_current_share_supply (v : Z) (r : asset_record) : asset_record :=
  AssetRecord (ar_id r) (ar_symbol r) (ar_name r) (ar_description r)
    (ar_public_data r) (ar_issuer_account_id r) (ar_precision r)
    (ar_registration_date r) (ar_last_update r) v (ar_maximum_share_supply
    r) (ar_collected_fees r).
Definition set_ar_collected_fees (v : Z) (r : asset_record) : asset_record :=
  AssetRecord (ar_id r) (ar_symbol r) (ar_name r) (ar_description r)
    (ar_public_data r) (ar_issuer_account_id r) (ar_precision r)
    (ar_registration_date r) (ar_last_update r) (ar_current_share_supply r)
    (ar_maximum_share_supply r) v.

Definition market_issued_asset : Z := -2.
Definition market_feed_issued_asset : Z := -3.

Definition ar_available_shares (r : asset_record) : Z :=
  s64 (ar_maximum_share_supply r - ar_current_share_supply r).
Definition ar_can_issue_amount (r : asset_record) (amount : Z) : bool :=
  if amount <=? 0 then false else
  let new_share_supply := s64 (ar_current_share_supply r + amount) in
  (ar_current_share_supply r <? new_share_supply)
  && (new_share_supply <=? ar_maximum_share_supply r).
Definition ar_can_issue (r : asset_record) (a : asset) : bool :=
  if negb (ar_id r =? asset_id a) then false else ar_can_issue_amount r (amount a).
Definition ar_is_null (r : asset_record) : bool := ar_issuer_account_id r =? -1.
Definition ar_is_market_issued (r : asset_record) : bool :=
  (ar_issuer_account_id r =? market_issued_asset)
  || (ar_issuer_account_id r =? market_feed_issued_asset).
Definition ar_uses_market_feed (r : asset_record) : bool :=
  ar_issuer_account_id r =? market_feed_issued_asset.
Definition ar_make_null (r : asset_record) : asset_record := set_ar_issuer_account_id (-1) r.
Definition ar_get_precision (r : asset_record) : Z :=
  if ar_precision r =? 0 then 1 else ar_precision r.

(** ** Accounts *)
Record delegate_stats := DelegateStats {
  ds_votes_for : Z;
  ds_blocks_produced : Z;
  ds_blocks_missed : Z;
  ds_next_secret_hash : digest_type;
  ds_last_block_num_produced : Z;
  ds_pay_rate : Z;
  ds_pay_balance : Z
}.
Definition set_ds_votes_for (v : Z) (r : delegate_stats) : delegate_stats :=
  DelegateStats v (ds_blocks_produced r) (ds_blocks_missed r)
    (ds_next_secret_hash r) (ds_last_block_num_produced r) (ds_pay_rate r)
    (ds_pay_balance r).
Definition set_ds_blocks_produced (v : Z) (r : delegate_stats) : delegate_stats :=
  DelegateStats (ds_votes_for r) v (ds_blocks_missed r) (ds_next_secret_hash
    r) (ds_last_block_num_produced r) (ds_pay_rate r) (ds_pay_balance r).
Definition set_ds_blocks_missed (v : Z) (r : delegate_stats) : delegate_stats :=
  DelegateStats (ds_votes_for r) (ds_blocks_produced r) v
    (ds_next_secret_hash r) (ds_last_block_num_produced r) (ds_pay_rate r)
    (ds_pay_balance r).
Definition set_ds_next_secret_hash (v : digest_type) (r : delegate_stats) : delegate_stats :=
  DelegateStats (ds_votes_for r) (ds_blocks_produced r) (ds_blocks_missed r)
    v (ds_last_block_num_produced r) (ds_pay_rate r) (ds_pay_balance r).
Definition set_ds_last_block_num_produced (v : Z) (r : delegate_stats) : delegate_stats :=
  DelegateStats (ds_votes_for r) (ds_blocks_produced r) (ds_blocks_missed r)
    (ds_next_secret_hash r) v (ds_pay_rate r) (ds_pay_balance r).
Definition set_ds_pay_rate (v : Z) (r : delegate_stats) : delegate_stats :=
  DelegateStats (ds_votes_for r) (ds_blocks_produced r) (ds_blocks_missed r)
    (ds_next_secret_hash r) (ds_last_block_num_produced r) v (ds_pay_balance
    r).
Definition set_ds_pay_balance (v : Z) (r : delegate_stats) : delegate_stats :=
  DelegateStats (ds_votes_for r) (ds_blocks_produced r) (ds_blocks_missed r)
    (ds_next_secret_hash r) (ds_last_block_num_produced r) (ds_pay_rate r)
    v.

(** [delegate_stats( uint8_t pr = 0 )] *)
Definition delegate_stats_new (pr : Z) : delegate_stats := DelegateStats 0 0 0 0 0 pr 0.

(** [account_meta_info]: its type tag and packed data. *)
Record account_meta_info := AccountMetaInfo {
  am_type : Z;
  am_data : list Z
}.

(** [active_key_history] is a [std::map] from the time of the change to the
    key: an association list sorted by time. *)
Record account_record := AccountRecord {
  ac_id : Z;
  ac_name : string;
  ac_public_data : variant;
  ac_owner_key : public_key_type;
  ac_active_key_history : list (Z * public_key_type);
  ac_registration_date : Z;
  ac_last_update : Z;
  ac_delegate_info : option delegate_stats;
  ac_meta_data : option account_meta_info
}.
Definition set_ac_public_data (v : variant) (r : account_record) : account_record :=
  AccountRecord (ac_id r) (ac_name r) v (ac_owner_key r)
    (ac_active_key_history r) (ac_registration_date r) (ac_last_update r)
    (ac_delegate_info r) (ac_meta_data r).
Definition set_ac_owner_key (v : public_key_type) (r : account_record) : account_record :=
  AccountRecord (ac_id r) (ac_name r) (ac_public_data r) v
    (ac_active_key_history r) (ac_registration_date r) (ac_last_update r)
    (ac_delegate_info r) (ac_meta_data r).
Definition set_ac_active_key_history (v : list (Z * public_key_type)) (r : account_record) : account_record :=
  AccountRecord (ac_id r) (ac_name r) (ac_public_data r) (ac_owner_key r) v
    (ac_registration_date r) (ac_last_update r) (ac_delegate_info r)
    (ac_meta_data r).
Definition set_ac_last_update (v : Z) (r : account_record) : account_record :=
  AccountRecord (ac_id r) (ac_name r) (ac_public_data r) (ac_owner_key r)
    (ac_active_key_history r) (ac_registration_date r) v (ac_delegate_info
    r) (ac_meta_data r).
Definition set_ac_delegate_info (v : option delegate_stats) (r : account_record) : account_record :=
  AccountRecord (ac_id r) (ac_name r) (ac_public_data r) (ac_owner_key r)
    (ac_active_key_history r) (ac_registration_date r) (ac_last_update r) v
    (ac_meta_data r).
Definition set_ac_meta_data (v : option account_meta_info) (r : account_record) : account_record :=
  AccountRecord (ac_id r) (ac_name r) (ac_public_data r) (ac_owner_key r)
    (ac_active_key_history r) (ac_registration_date r) (ac_last_update r)
    (ac_delegate_info r) v.

Definition ac_is_null (r : account_record) : bool := ac_owner_key r =? 0.
Definition ac_make_null (r : account_record) : account_record := set_ac_owner_key 0 r.
Definition ac_is_delegate (r : account_record) : bool :=
  match ac_delegate_info r with Some _ => true | None => false end.
Definition ac_delegate_pay_balance (r : account_record) : result Z :=
  let* d := of_option assert_failure (ac_delegate_info r) in Ok (ds_pay_balance d).
Definition ac_net_votes (r : account_record) : result Z :=
  let* d := of_option assert_failure (ac_delegate_info r) in Ok (ds_votes_for d).
Definition ac_adjust_votes_for (delta : Z) (r : account_record) : result account_record :=
  let* d := of_option assert_failure (ac_delegate_info r) in
  Ok (set_ac_delegate_info (Some (set_ds_votes_for (s64 (ds_votes_for d + delta)) d)) r).
(** The entry with the greatest time, [rbegin()->second]. *)
Definition ac_active_key (r : account_record) : public_key_type :=
  match last (ac_active_key_history r) with Some (_, k) => k | None => 0 end.
Definition ac_is_retracted (r : account_record) : bool := ac_active_key r =? 0.
(** [std::map::operator[]=] on the sorted association list. *)
Fixpoint history_set (now : Z) (k : public_key_type) (h : list (Z * public_key_type))
    : list (Z * public_key_type) :=
  match h with
  | [] => [(now, k)]
  | (t, k') :: h' =>
      if now <? t then (now, k) :: h
      else if now =? t then (now, k) :: h'
      else (t, k') :: history_set now k h'
  end.
Definition ac_set_active_key (now : Z) (k : public_key_type) (r : account_record)
    : result account_record :=
  ensure negb (now =? 0) else assert_failure in
  Ok (set_ac_active_key_history (history_set now k (ac_active_key_history r)) r).
Definition ac_delegate_pay_rate (r : account_record) : Z :=
  match ac_delegate_info r with Some d => ds_pay_rate d | None => 255 end.

Record burn_record_key := BurnRecordKey {
  bk_account_id : Z;
  bk_transaction_id : digest_type
}.
Record burn_record_value := BurnRecordValue {
  bv_amount : asset;
  bv_message : string;
  bv_signer : option Z
}.
Definition bv_is_null (v : burn_record_value) : bool := amount (bv_amount v) =? 0.
Definition burn_record_value_default : burn_record_value :=
  BurnRecordValue asset_default EmptyString None.
#[export] Instance burn_record_key_eq_dec : EqDecision burn_record_key.
Proof. solve_decision. Defined.
#[export] Instance burn_record_key_countable : Countable burn_record_key.
Proof.
  apply (inj_countable' (λ k, (bk_account_id k, bk_transaction_id k))
           (λ p, BurnRecordKey p.1 p.2)). by intros [].
Defined.

(** ** Delegate slates, feeds and slots *)
Definition delegate_slate : Type := list Z.

Record feed_index := FeedIndex { fi_feed_id : Z; fi_delegate_id : Z }.
#[export] Instance feed_index_eq_dec : EqDecision feed_index.
Proof. solve_decision. Defined.
#[export] Instance feed_index_countable : Countable feed_index.
Proof.
  apply (inj_countable' (λ k, (fi_feed_id k, fi_delegate_id k)) (λ p, FeedIndex p.1 p.2)).
  by intros [].
Defined.
Record feed_record := FeedRecord {
  fr_feed : feed_index;
  fr_value : variant;
  fr_last_update : Z
}.
Definition fr_is_null (r : feed_record) : bool := variant_is_null (fr_value r).

Record slot_record := SlotRecord {
  sl_start_time : Z;
  sl_block_producer_id : Z;
  sl_block_id : option digest_type
}.
Definition slot_record_default : slot_record := SlotRecord 0 0 None.
Definition sl_is_null (r : slot_record) : bool := sl_start_time r =? 0.

(** ** Markets *)
Record market_index_key := MarketIndexKey { order_price : price; owner : address }.
#[export] Instance market_index_key_eq_dec : EqDecision market_index_key.
Proof. solve_decision. Defined.
#[export] Instance market_index_key_countable : Countable market_index_key.
Proof.
  apply (inj_countable'
    (λ k, (ratio (order_price k), base_asset_id (order_price k),
           quote_asset_id (order_price k), owner k))
    (λ p, MarketIndexKey (Price p.1.1.1 p.1.1.2 p.1.2) p.2)). by intros [[] ?].
Defined.
(** [std::tie( order_price, owner )] compared lexicographically. *)
Definition mik_ltb (a b : market_index_key) : bool :=
  if price_ltb (order_price a) (order_price b) then true
  else if price_ltb (order_price b) (order_price a) then false
  else owner a <? owner b.

Inductive time_granularity_enum := each_block | each_hour | each_day.
#[export] Instance time_granularity_eq_dec : EqDecision time_granularity_enum.
Proof. solve_decision. Defined.
Definition granularity_index (g : time_granularity_enum) : Z :=
  match g with each_block => 0 | each_hour => 1 | each_day => 2 end.
Definition granularity_of_index (z : Z) : time_granularity_enum :=
  if z =? 0 then each_block else if z =? 1 then each_hour else each_day.
Record market_history_key := MarketHistoryKey {
  mhk_quote_id : Z;
  mhk_base_id : Z;
  mhk_granularity : time_granularity_enum;
  mhk_timestamp : Z
}.
#[export] Instance market_history_key_eq_dec : EqDecision market_history_key.
Proof. solve_decision. Defined.
#[export] Instance market_history_key_countable : Countable market_history_key.
Proof.
  apply (inj_countable'
    (λ k, (mhk_quote_id k, mhk_base_id k, granularity_index (mhk_granularity k),
           mhk_timestamp k))
    (λ p, MarketHistoryKey p.1.1.1 p.1.1.2 (granularity_of_index p.1.2) p.2)).
  by intros [? ? [] ?].
Defined.
Definition mhk_ltb (a b : market_history_key) : bool :=
  if mhk_base_id a <? mhk_base_id b then true else if mhk_base_id b <? mhk_base_id a then false
  else if mhk_quote_id a <? mhk_quote_id b then true
  else if mhk_quote_id b <? mhk_quote_id a then false
  else if granularity_index (mhk_granularity a) <? granularity_index (mhk_granularity b) then true
  else if granularity_index (mhk_granularity b) <? granularity_index (mhk_granularity a) then false
  else mhk_timestamp a <? mhk_timestamp b.

Record market_history_record := MarketHistoryRecord {
  mh_highest_bid : price;
  mh_lowest_ask : price;
  mh_opening_price : price;
  mh_closing_price : price;
  mh_volume : Z
}.

Definition mhr_eqb (a b : market_history_record) : bool :=
  price_eqb (mh_highest_bid a) (mh_highest_bid b)
  && price_eqb (mh_lowest_ask a) (mh_lowest_ask b) && (mh_volume a =? mh_volume b).

Record order_record := OrderRecord {
  or_balance : Z;
  or_short_price_limit : option price;
  or_last_update : Z
}.
Definition set_or_balance (v : Z) (r : order_record) : order_record :=
  OrderRecord v (or_short_price_limit r) (or_last_update r).
Definition set_or_short_price_limit (v : option price) (r : order_record) : order_record :=
  OrderRecord (or_balance r) v (or_last_update r).
Definition set_or_last_update (v : Z) (r : order_record) : order_record :=
  OrderRecord (or_balance r) (or_short_price_limit r) v.

Definition order_record_default : order_record := OrderRecord 0 None 0.
Definition order_record_of (b : Z) : order_record := OrderRecord b None 0.
Definition or_is_null (r : order_record) : bool := or_balance r =? 0.

Inductive order_type_enum := null_order | bid_order | ask_order | short_order | cover_order.
#[export] Instance order_type_eq_dec : EqDecision order_type_enum.
Proof. solve_decision. Defined.

Record collateral_record := CollateralRecord {
  cr_collateral_balance : Z;
  cr_payoff_balance : Z;
  cr_interest_rate : price;
  cr_expiration : Z
}.
Definition set_cr_collateral_balance (v : Z) (r : collateral_record) : collateral_record :=
  CollateralRecord v (cr_payoff_balance r) (cr_interest_rate r)
    (cr_expiration r).
Definition set_cr_payoff_balance (v : Z) (r : collateral_record) : collateral_record :=
  CollateralRecord (cr_collateral_balance r) v (cr_interest_rate r)
    (cr_expiration r).
Definition set_cr_interest_rate (v : price) (r : collateral_record) : collateral_record :=
  CollateralRecord (cr_collateral_balance r) (cr_payoff_balance r) v
    (cr_expiration r).
Definition set_cr_expiration (v : Z) (r : collateral_record) : collateral_record :=
  CollateralRecord (cr_collateral_balance r) (cr_payoff_balance r)
    (cr_interest_rate r) v.

Definition collateral_record_default : collateral_record :=
  CollateralRecord 0 0 price_default 0.
Definition cr_is_null (r : collateral_record) : bool :=
  (0 =? cr_payoff_balance r) && (0 =? cr_collateral_balance r).

Record market_order := MarketOrder {
  mo_type : order_type_enum;
  mo_market_index : market_index_key;
  mo_state : order_record;
  mo_collateral : option Z;
  mo_interest_rate : option price;
  mo_expiration : option Z
}.
Definition set_mo_state (v : order_record) (r : market_order) : market_order :=
  MarketOrder (mo_type r) (mo_market_index r) v (mo_collateral r)
    (mo_interest_rate r) (mo_expiration r).
Definition set_mo_collateral (v : option Z) (r : market_order) : market_order :=
  MarketOrder (mo_type r) (mo_market_index r) (mo_state r) v
    (mo_interest_rate r) (mo_expiration r).

Record market_transaction := MarketTransaction {
  mt_bid_owner : address;
  mt_ask_owner : address;
  mt_bid_price : price;
  mt_ask_price : price;
  mt_bid_paid : asset;
  mt_bid_received : asset;
  mt_short_collateral : option asset;
  mt_ask_paid : asset;
  mt_ask_received : asset;
  mt_returned_collateral : option asset;
  mt_bid_type : order_type_enum;
  mt_ask_type : order_type_enum;
  mt_fees_collected : asset
}.
Definition set_mt_bid_owner (v : address) (r : market_transaction) : market_transaction :=
  MarketTransaction v (mt_ask_owner r) (mt_bid_price r) (mt_ask_price r)
    (mt_bid_paid r) (mt_bid_received r) (mt_short_collateral r) (mt_ask_paid
    r) (mt_ask_received r) (mt_returned_collateral r) (mt_bid_type r)
    (mt_ask_type r) (mt_fees_collected r).
Definition set_mt_ask_owner (v : address) (r : market_transaction) : market_transaction :=
  MarketTransaction (mt_bid_owner r) v (mt_bid_price r) (mt_ask_price r)
    (mt_bid_paid r) (mt_bid_received r) (mt_short_collateral r) (mt_ask_paid
    r) (mt_ask_received r) (mt_returned_collateral r) (mt_bid_type r)
    (mt_ask_type r) (mt_fees_collected r).
Definition set_mt_bid_price (v : price) (r : market_transaction) : market_transaction :=
  MarketTransaction (mt_bid_owner r) (mt_ask_owner r) v (mt_ask_price r)
    (mt_bid_paid r) (mt_bid_received r) (mt_short_collateral r) (mt_ask_paid
    r) (mt_ask_received r) (mt_returned_collateral r) (mt_bid_type r)
    (mt_ask_type r) (mt_fees_collected r).
Definition set_mt_ask_price (v : price) (r : market_transaction) : market_transaction :=
  MarketTransaction (mt_bid_owner r) (mt_ask_owner r) (mt_bid_price r) v
    (mt_bid_paid r) (mt_bid_received r) (mt_short_collateral r) (mt_ask_paid
    r) (mt_ask_received r) (mt_returned_collateral r) (mt_bid_type r)
    (mt_ask_type r) (mt_fees_collected r).
Definition set_mt_bid_paid (v : asset) (r : market_transaction) : market_transaction :=
  MarketTransaction (mt_bid_owner r) (mt_ask_owner r) (mt_bid_price r)
    (mt_ask_price r) v (mt_bid_received r) (mt_short_collateral r)
    (mt_ask_paid r) (mt_ask_received r) (mt_returned_collateral r)
    (mt_bid_type r) (mt_ask_type r) (mt_fees_collected r).
Definition set_mt_bid_received (v : asset) (r : market_transaction) : market_transaction :=
  MarketTransaction (mt_bid_owner r) (mt_ask_owner r) (mt_bid_price r)
    (mt_ask_price r) (mt_bid_paid r) v (mt_short_collateral r) (mt_ask_paid
    r) (mt_ask_received r) (mt_returned_collateral r) (mt_bid_type r)
    (mt_ask_type r) (mt_fees_collected r).
Definition set_mt_short_collateral (v : option asset) (r : market_transaction) : market_transaction :=
  MarketTransaction (mt_bid_owner r) (mt_ask_owner r) (mt_bid_price r)
    (mt_ask_price r) (mt_bid_paid r) (mt_bid_received r) v (mt_ask_paid r)
    (mt_ask_received r) (mt_returned_collateral r) (mt_bid_type r)
    (mt_ask_type r) (mt_fees_collected r).
Definition set_mt_ask_paid (v : asset) (r : market_transaction) : market_transaction :=
  MarketTransaction (mt_bid_owner r) (mt_ask_owner r) (mt_bid_price r)
    (mt_ask_price r) (mt_bid_paid r) (mt_bid_received r)
    (mt_short_collateral r) v (mt_ask_received r) (mt_returned_collateral r)
    (mt_bid_type r) (mt_ask_type r) (mt_fees_collected r).
Definition set_mt_ask_received (v : asset) (r : market_transaction) : market_transaction :=
  MarketTransaction (mt_bid_owner r) (mt_ask_owner r) (mt_bid_price r)
    (mt_ask_price r) (mt_bid_paid r) (mt_bid_received r)
    (mt_short_collateral r) (mt_ask_paid r) v (mt_returned_collateral r)
    (mt_bid_type r) (mt_ask_type r) (mt_fees_collected r).
Definition set_mt_returned_collateral (v : option asset) (r : market_transaction) : market_transaction :=
  MarketTransaction (mt_bid_owner r) (mt_ask_owner r) (mt_bid_price r)
    (mt_ask_price r) (mt_bid_paid r) (mt_bid_received r)
    (mt_short_collateral r) (mt_ask_paid r) (mt_ask_received r) v
    (mt_bid_type r) (mt_ask_type r) (mt_fees_collected r).
Definition set_mt_bid_type (v : order_type_enum) (r : market_transaction) : market_transaction :=
  MarketTransaction (mt_bid_owner r) (mt_ask_owner r) (mt_bid_price r)
    (mt_ask_price r) (mt_bid_paid r) (mt_bid_received r)
    (mt_short_collateral r) (mt_ask_paid r) (mt_ask_received r)
    (mt_returned_collateral r) v (mt_ask_type r) (mt_fees_collected r).
Definition set_mt_ask_type (v : order_type_enum) (r : market_transaction) : market_transaction :=
  MarketTransaction (mt_bid_owner r) (mt_ask_owner r) (mt_bid_price r)
    (mt_ask_price r) (mt_bid_paid r) (mt_bid_received r)
    (mt_short_collateral r) (mt_ask_paid r) (mt_ask_received r)
    (mt_returned_collateral r) (mt_bid_type r) v (mt_fees_collected r).
Definition set_mt_fees_collected (v : asset) (r : market_transaction) : market_transaction :=
  MarketTransaction (mt_bid_owner r) (mt_ask_owner r) (mt_bid_price r)
    (mt_ask_price r) (mt_bid_paid r) (mt_bid_received r)
    (mt_short_collateral r) (mt_ask_paid r) (mt_ask_received r)
    (mt_returned_collateral r) (mt_bid_type r) (mt_ask_type r) v.

Definition market_transaction_default : market_transaction :=
  MarketTransaction 0 0 price_default price_default asset_default asset_default None
    asset_default asset_default None null_order null_order asset_default.

Record market_status := MarketStatus {
  ms_quote_id : Z;
  ms_base_id : Z;
  ms_current_feed_price : option price;
  ms_last_valid_feed_price : option price;
  ms_last_error : option exn
}.
Definition set_ms_current_feed_price (v : option price) (r : market_status) : market_status :=
  MarketStatus (ms_quote_id r) (ms_base_id r) v (ms_last_valid_feed_price r)
    (ms_last_error r).
Definition set_ms_last_valid_feed_price (v : option price) (r : market_status) : market_status :=
  MarketStatus (ms_quote_id r) (ms_base_id r) (ms_current_feed_price r) v
    (ms_last_error r).
Definition set_ms_last_error (v : option exn) (r : market_status) : market_status :=
  MarketStatus (ms_quote_id r) (ms_base_id r) (ms_current_feed_price r)
    (ms_last_valid_feed_price r) v.

Definition market_status_default : market_status := MarketStatus 0 0 None None None.
(** [market_status( quote, base )] *)
Definition market_status_new (quote base : Z) : result market_status :=
  ensure base <? quote else assert_failure in Ok (MarketStatus quote base None None None).
Definition ms_is_null (s : market_status) : bool := ms_quote_id s =? ms_base_id s.
Definition ms_update_feed_price (feed : option price) (s : market_status) : market_status :=
  let s := set_ms_current_feed_price feed s in
  match feed with Some _ => set_ms_last_valid_feed_price feed s | None => s end.

(** ** Operations *)
Inductive operation :=
  | withdraw_operation (balance_id : address) (amount : Z) (claim_input_data : list Z)
  | withdraw_all_operation (balance_id : address) (claim_input_data : list Z)
  | deposit_operation (amount : Z) (condition : withdraw_condition)
  | register_account_operation (name : string) (public_data : variant)
      (owner_key active_key : public_key_type) (delegate_pay_rate : Z)
      (meta_data : option account_meta_info)
  | update_account_operation (account_id : Z) (public_data : option variant)
      (active_key : option public_key_type) (delegate_pay_rate : Z)
  | withdraw_pay_operation (amount : Z) (account_id : Z)
  | bid_operation (amount : Z) (bid_index : market_index_key)
  | ask_operation (amount : Z) (ask_index : market_index_key)
  | short_operation (amount : Z) (short_index : market_index_key)
      (short_price_limit : option price)
  | cover_operation (amount : Z) (cover_index : market_index_key)
      (new_cover_price : option price)
  | add_collateral_operation (amount : Z) (cover_index : market_index_key)
  | remove_collateral_operation (amount : Z) (owner : address)
  | define_delegate_slate_operation (slate : delegate_slate)
  | update_feed_operation (feed : feed_index) (value : variant)
  | burn_operation (amount : asset) (account_id : Z) (message : string)
      (message_signature : option Z)
  | link_account_operation (source_account destination_account : Z) (data : variant)
  | release_escrow_operation (escrow_id released_by : address)
      (amount_to_receiver amount_to_sender : Z)
  | claim_operation (balance_id : address) (amount : Z) (source : list Z)
      (dest : public_key_type) (sig : Z)
  | unregistered_operation (type : Z).

(** [operation_type_enum]: the tag each operation is registered under. *)
Definition operation_type (o : operation) : Z :=
  match o with
  | withdraw_operation _ _ _ => 1
  | deposit_operation _ _ => 2
  | register_account_operation _ _ _ _ _ _ => 3
  | update_account_operation _ _ _ _ => 4
  | withdraw_pay_operation _ _ => 5
  | bid_operation _ _ => 12
  | ask_operation _ _ => 13
  | cover_operation _ _ _ => 15
  | add_collateral_operation _ _ => 16
  | remove_collateral_operation _ _ => 17
  | define_delegate_slate_operation _ => 18
  | update_feed_operation _ _ => 19
  | burn_operation _ _ _ _ => 20
  | link_account_operation _ _ _ => 21
  | withdraw_all_operation _ _ => 22
  | release_escrow_operation _ _ _ _ => 23
  | claim_operation _ _ _ _ _ => 24
  | short_operation _ _ _ => 34
  | unregistered_operation t => t
  end.

(** ** Transactions *)
Record transaction := Transaction {
  tx_expiration : Z;
  tx_delegate_slate_id : option Z;
  tx_operations : list operation
}.
Definition set_tx_operations (v : list operation) (r : transaction) : transaction :=
  Transaction (tx_expiration r) (tx_delegate_slate_id r) v.

Record signed_transaction := SignedTransaction {
  st_trx : transaction;
  st_signatures : list Z
}.

Definition signed_transaction_default : signed_transaction :=
  SignedTransaction (Transaction 0 None []) [].
(** [transaction_record]: of the evaluation state it inherits, the chain reads
    back only the transaction itself. *)
Record transaction_record := TransactionRecord {
  tr_trx : signed_transaction;
  tr_chain_location : Z * Z
}.

Definition transaction_record_default : transaction_record :=
  TransactionRecord signed_transaction_default (0, 0).

(** ** Blocks ([block.hpp]) *)
Record block_header := BlockHeader {
  bh_previous : digest_type;
  bh_block_num : Z;
  bh_timestamp : Z;
  bh_transaction_digest : digest_type;
  bh_next_secret_hash : digest_type;
  bh_previous_secret : digest_type
}.
Definition block_header_default : block_header := BlockHeader 0 0 0 0 0 0.
Record signed_block_header := SignedBlockHeader {
  sbh_header : block_header;
  sbh_delegate_signature : Z
}.
Definition signed_block_header_default : signed_block_header :=
  SignedBlockHeader block_header_default 0.
Record digest_block := DigestBlock {
  db_header : signed_block_header;
  db_user_transaction_ids : list digest_type
}.
Record full_block := FullBlock {
  fb_header : signed_block_header;
  fb_user_transactions : list signed_transaction
}.

(** ** What a market order offers ([market_records.cpp]) *)
Section market_order.
Context `{!Fc}.

Definition mo_get_owner (o : market_order) : address := owner (mo_market_index o).
Definition mo_get_price (o : market_order) : price := order_price (mo_market_index o).
Definition mo_get_balance (o : market_order) : result asset :=
  let p := order_price (mo_market_index o) in
  match mo_type o with
  | bid_order | cover_order => Ok (Asset (or_balance (mo_state o)) (quote_asset_id p))
  | ask_order | short_order => Ok (Asset (or_balance (mo_state o)) (base_asset_id p))
  | null_order => Err assert_failure
  end.
Definition mo_get_highest_cover_price (o : market_order) : result price :=
  ensure bool_decide (mo_type o = cover_order) else assert_failure in
  let* c := of_option undefined (mo_collateral o) in
  asset_div (Asset (or_balance (mo_state o)) (quote_asset_id (mo_get_price o))) (Asset c 0).
Definition mo_get_quantity (o : market_order) : result asset :=
  match mo_type o with
  | bid_order => let* b := mo_get_balance o in asset_mul b (mo_get_price o)
  | ask_order | short_order => mo_get_balance o
  | cover_order =>
      let* c := of_option undefined (mo_collateral o) in Ok (Asset (Z.quot (s64 (c * 3)) 4) 0)
  | null_order => Err assert_failure
  end.
Definition mo_get_quote_quantity (o : market_order) : result asset :=
  match mo_type o with
  | bid_order | cover_order => mo_get_balance o
  | ask_order | short_order => let* b := mo_get_balance o in asset_mul b (mo_get_price o)
  | null_order => Err assert_failure
  end.
End market_order.
