(* ===== verification/Crypto.v ===== *)
(** Hashing, addresses and identifiers ([address.cpp], [pts_address.cpp],
    [types.cpp], [block.cpp], [delegate_slate.cpp] and the digests of
    [transaction.cpp]).

    The hash functions, base58, the elliptic-curve operations and the binary
    serialization belong to the [fc] library: they are the fields of [Crypto].
    A hash value or a key is represented by the integer its bytes spell,
    most significant byte first, so that the order of the integers is the
    byte order the code compares by. *)
From S2P Require Export Records.

(** ** Bytes *)
Fixpoint be_bytes (n : nat) (z : Z) : list Z :=
  match n with O => [] | S n' => be_bytes n' (z / 256) ++ [z mod 256] end.
Definition be_value (l : list Z) : Z := foldl (λ a b, a * 256 + b) 0 l.
Fixpoint le_value (l : list Z) : Z :=
  match l with [] => 0 | b :: l' => b + 256 * le_value l' end.
Definition is_byte (b : Z) : Prop := 0 ≤ b < 256.

Fixpoint string_bytes (s : string) : list Z :=
  match s with
  | EmptyString => []
  | String c s' => Z.of_nat (nat_of_ascii c) :: string_bytes s'
  end.
Fixpoint string_drop (n : nat) (s : string) : string :=
  match n, s with
  | S n', String _ s' => string_drop n' s'
  | _, _ => s
  end.

Class Crypto := {
  sha256 : list Z → digest_type;
  sha512 : list Z → digest_type;
  ripemd160 : list Z → digest_type;
  (* the overloads that hash another hash *)
  sha256_of_sha256 : digest_type → digest_type;
  sha256_of_sha512 : digest_type → digest_type;
  (* the word [_hash[x]] of a sha256, a 64-bit unsigned integer *)
  sha256_word : digest_type → Z → Z;
  ripemd160_of_sha512 : digest_type → digest_type;
  to_base58 : list Z → string;
  from_base58 : string → result (list Z);
  (* the uncompressed point of a compressed public key: 65 bytes *)
  serialize_ecc_point : public_key_type → list Z;
  (* fc::ecc::public_key( signature, digest, enforce_canonical ) *)
  recover_key : Z → digest_type → bool → result public_key_type;
  (* fc::raw::pack *)
  pack_condition : withdraw_condition → list Z;
  pack_slate : delegate_slate → list Z;
  pack_transaction : transaction → list Z;
  pack_signed_transaction : signed_transaction → list Z;
  pack_digest : digest_type → list Z;
  pack_block_header : block_header → list Z;
  pack_signed_block_header : signed_block_header → list Z;
  pack_full_block : full_block → list Z;
  pack_ids : list digest_type → list Z;
  pack_binary_key : list Z → Z → list Z;
  unpack_binary_key : list Z → result (list Z * Z);
  pack_variant : variant → list Z;
  pack_ripemd160 : digest_type → list Z;
  pack_public_key : public_key_type → list Z;
  unpack_withdraw_with_pts : list Z → result (public_key_type * Z);
  (* fc::variant::as< fc::ripemd160 > *)
  variant_as_ripemd160 : variant → result digest_type
}.

(** What the code relies on.  [no_condition_collision] idealises the collision
    resistance of the hash behind a balance id, and [slate_hash_nonzero] that no
    slate hashes to the id that stands for having none. *)
Class CryptoLaws (C : Crypto) : Prop := {
  base58_roundtrip l : Forall is_byte l → from_base58 (to_base58 l) = Ok l;
  base58_empty : to_base58 [] = EmptyString;
  from_base58_throws s : from_base58 s ≠ Err undefined;
  unpack_binary_key_throws l : unpack_binary_key l ≠ Err undefined;
  binary_key_roundtrip data check :
    length data = 33%nat → 0 ≤ check < 2 ^ 32 →
    unpack_binary_key (pack_binary_key data check) = Ok (data, check);
  binary_key_bytes data check :
    Forall is_byte data → data ≠ [] → 0 ≤ check < 2 ^ 32 →
    Forall is_byte (pack_binary_key data check) ∧ pack_binary_key data check ≠ [];
  no_condition_collision c c' :
    ripemd160_of_sha512 (sha512 (pack_condition c)) =
    ripemd160_of_sha512 (sha512 (pack_condition c')) → c = c';
  slate_hash_nonzero l : le_value (take 8 (be_bytes 32 (sha256 l))) ≠ 0
}.

Section crypto.
Context `{!Crypto}.

(** ** [address] *)
Definition BTS_ADDRESS_PREFIX : string := "XCL".
Definition address_of_condition (c : withdraw_condition) : address :=
  ripemd160_of_sha512 (sha512 (pack_condition c)).
Definition address_of_key (k : public_key_type) : address :=
  ripemd160_of_sha512 (sha512 (be_bytes 33 k)).
Definition address_of_pts (p : list Z) : address := ripemd160 p.

(** A decoded text shorter than 24 bytes passes the two length checks although
    the comparison reads up to offset 24. *)
Definition address_is_valid (base58str : string) : result bool :=
  ensure 3 <? Z.of_nat (String.length base58str) else assert_failure in
  ensure String.prefix BTS_ADDRESS_PREFIX base58str else assert_failure in
  let* v := from_base58 (string_drop 3 base58str) in
  ensure 4 <? Z.of_nat (length v) else assert_failure in
  ensure Z.of_nat (length v) <=? 24 else assert_failure in
  let checksum := be_bytes 20 (ripemd160 (take (length v - 4) v)) in
  ensure 24 <=? Z.of_nat (length v) else undefined in
  ensure bool_decide (take 4 (drop 20 v) = take 4 checksum) else assert_failure in
  Ok true.
Definition address_of_string (base58str : string) : result address :=
  let* ok := address_is_valid base58str in
  ensure ok else assert_failure in
  let* v := from_base58 (string_drop 3 base58str) in
  let n := Nat.min (length v - 4) 20 in
  Ok (be_value (take n v ++ replicate (20 - n) 0)).
Definition string_of_address (a : address) : string :=
  let bin := be_bytes 20 a in
  let checksum := be_bytes 20 (ripemd160 bin) in
  String.append BTS_ADDRESS_PREFIX (to_base58 (bin ++ take 4 checksum)).

(** ** [public_key_type] as text *)
Definition key_check (data : list Z) : Z := le_value (take 4 (be_bytes 20 (ripemd160 data))).
Definition public_key_of_string (base58str : string) : result public_key_type :=
  ensure 3 <? Z.of_nat (String.length base58str) else assert_failure in
  ensure String.prefix BTS_ADDRESS_PREFIX base58str else assert_failure in
  let* bin := from_base58 (string_drop 3 base58str) in
  let* k := unpack_binary_key bin in
  ensure key_check k.1 =? k.2 else assert_failure in
  Ok (be_value k.1).
Definition string_of_public_key (k : public_key_type) : string :=
  let data := be_bytes 33 k in
  String.append BTS_ADDRESS_PREFIX (to_base58 (pack_binary_key data (key_check data))).

(** ** [pts_address]: a version byte, 20 bytes of hash, a 4-byte checksum *)
Definition pts_checksum (payload : list Z) : list Z :=
  take 4 (be_bytes 32 (sha256_of_sha256 (sha256 payload))).
Definition pts_address_of_key (pub : public_key_type) (compressed : bool) (version : Z)
    : list Z :=
  let sha2 := if compressed then sha256 (be_bytes 33 pub)
              else sha256 (serialize_ecc_point pub) in
  let rep := ripemd160 (be_bytes 32 sha2) in
  let payload := version :: be_bytes 20 rep in
  payload ++ pts_checksum payload.
Definition pts_version (p : list Z) : Z := default 0 (head p).
Definition pts_is_valid (p : list Z) : bool :=
  bool_decide (take 4 (drop 21 p) = pts_checksum (take 21 p)).
Definition pts_address_of_string (base58str : string) : result (list Z) :=
  let* v := from_base58 base58str in
  let n := Nat.min (length v) 25 in
  let addr := take n v ++ replicate (25 - n) 0 in
  ensure pts_is_valid addr else invalid_pts_address in Ok addr.
Definition string_of_pts_address (p : list Z) : string := to_base58 p.

Definition newline : string := String (ascii_of_nat 10) EmptyString.
Definition signature_magic (version : Z) : result string :=
  if version =? 0 then Ok (String.append "Bitcoin Signed Message:" newline)
  else if version =? 56 then Ok (String.append "BitShares-PTS Signed Message:" newline)
  else Err invalid_pts_address.
(** [add]: the text behind a one-byte length. *)
Definition hasher_add (data : string) : result (list Z) :=
  ensure Z.of_nat (String.length data) <? 253 else assert_failure in
  Ok (Z.of_nat (String.length data) :: string_bytes data).
Definition double_hash (message : string) (version : Z) : result digest_type :=
  let* magic := signature_magic version in
  let* a := hasher_add magic in
  let* b := hasher_add message in
  let single := sha256 (a ++ b) in
  Ok (sha256 (be_bytes 32 single)).

(** ** Identifiers and digests *)
Definition slate_id (s : delegate_slate) : Z :=
  match s with
  | [] => 0
  | _ => le_value (take 8 (be_bytes 32 (sha256 (pack_slate s))))
  end.
Definition trx_digest (chain_id : digest_type) (t : transaction) : digest_type :=
  sha256 (pack_transaction t ++ pack_digest chain_id).
Definition trx_id (t : signed_transaction) : digest_type :=
  ripemd160_of_sha512 (sha512 (pack_signed_transaction t)).
Definition trx_permanent_id (t : signed_transaction) : digest_type :=
  ripemd160 (pack_signed_transaction (SignedTransaction (st_trx t) [])).
Definition trx_data_size (t : signed_transaction) : Z :=
  Z.of_nat (length (pack_signed_transaction t)).

Definition header_digest (h : block_header) : digest_type := sha256 (pack_block_header h).
Definition block_id (h : signed_block_header) : digest_type :=
  ripemd160_of_sha512 (sha512 (pack_signed_block_header h)).
Definition signee (enforce_canonical : bool) (h : signed_block_header)
    : result public_key_type :=
  recover_key (sbh_delegate_signature h) (header_digest (sbh_header h)) enforce_canonical.
Definition validate_signee (expected_signee : public_key_type) (enforce_canonical : bool)
    (h : signed_block_header) : result bool :=
  let* k := signee enforce_canonical h in Ok (k =? expected_signee).
Definition block_size (b : full_block) : Z := Z.of_nat (length (pack_full_block b)).
Definition digest_block_of (b : full_block) : digest_block :=
  DigestBlock (fb_header b) (trx_id <$> fb_user_transactions b).
Definition calculate_transaction_digest (b : digest_block) : digest_type :=
  sha256_of_sha512 (sha512 (pack_ids (db_user_transaction_ids b))).
Definition validate_digest (b : digest_block) : bool :=
  calculate_transaction_digest b =? bh_transaction_digest (sbh_header (db_header b)).
Fixpoint insert_unique (seen : gset Z) (ids : list digest_type) : bool :=
  match ids with
  | [] => true
  | id :: ids' => if bool_decide (id ∈ seen) then false else insert_unique ({[id]} ∪ seen) ids'
  end.
Definition validate_unique (b : digest_block) : bool :=
  insert_unique ∅ (db_user_transaction_ids b).

(** [balance_record::id] and the signers of a burn message. *)
Definition br_id (r : balance_record) : address := address_of_condition (br_condition r).
Definition ac_active_address (r : account_record) : address := address_of_key (ac_active_key r).
Definition bv_signer_key (v : burn_record_value) : result public_key_type :=
  let* s := of_option assert_failure (bv_signer v) in
  let digest := match bv_message v with EmptyString => 0 | m => sha256 (string_bytes m) end in
  recover_key s digest false.
End crypto.

(** ** A reference instance *)
#[export] Instance titan_memo_eq_dec : EqDecision titan_memo.
Proof. solve_decision. Defined.
#[export] Instance withdraw_data_eq_dec : EqDecision withdraw_data.
Proof. solve_decision. Defined.
#[export] Instance withdraw_condition_eq_dec : EqDecision withdraw_condition.
Proof. solve_decision. Defined.

Definition ref_pack_memo (m : option titan_memo) : list Z :=
  match m with None => [0] | Some m => 1 :: tm_one_time_key m :: tm_encrypted_memo_data m end.
Definition ref_pack_data (d : withdraw_data) : list Z :=
  match d with
  | withdraw_null => [0]
  | withdraw_with_signature o m => 1 :: o :: ref_pack_memo m
  | withdraw_with_multi_sig r os m => 2 :: r :: Z.of_nat (length os) :: os ++ ref_pack_memo m
  | withdraw_with_password p q t h m => 3 :: p :: q :: t :: h :: ref_pack_memo m
  | withdraw_option o e d p =>
      [4; o; e; d; ratio p; base_asset_id p; quote_asset_id p]
  | withdraw_with_escrow s r e d m => 5 :: s :: r :: e :: d :: ref_pack_memo m
  end.
Definition ref_pack_condition (c : withdraw_condition) : list Z :=
  wc_asset_id c :: wc_delegate_slate_id c :: ref_pack_data (wc_data c).
Definition ref_hash (bits : Z) (l : list Z) : Z :=
  foldl (λ a b, Z.land (a * 257 + b + 1) 4294967295) bits l.
Fixpoint ref_bytes_string (l : list Z) : string :=
  match l with
  | [] => EmptyString
  | b :: l' => String (ascii_of_nat (Z.to_nat b)) (ref_bytes_string l')
  end.

#[export] Instance crypto_reference : Crypto := {|
  sha256 l := 2 ^ 255 + ref_hash 256 l;
  sha512 l := Z.pos (encode l);
  ripemd160 := ref_hash 160;
  sha256_of_sha256 z := (z * 257 + 1) mod 2 ^ 256;
  sha256_of_sha512 z := z mod 2 ^ 256;
  sha256_word z x := Z.shiftr z (64 * x) mod 2 ^ 64;
  ripemd160_of_sha512 z := z;
  to_base58 := ref_bytes_string;
  from_base58 s := Ok (string_bytes s);
  serialize_ecc_point k := be_bytes 65 k;
  recover_key sig _ _ := Ok sig;
  pack_condition := ref_pack_condition;
  pack_slate s := s;
  pack_transaction t := [tx_expiration t; Z.of_nat (length (tx_operations t))];
  pack_signed_transaction t :=
    tx_expiration (st_trx t) :: Z.of_nat (length (tx_operations (st_trx t))) :: st_signatures t;
  pack_digest d := be_bytes 32 d;
  pack_block_header h := [bh_previous h; bh_block_num h; bh_timestamp h];
  pack_signed_block_header h := [bh_previous (sbh_header h); bh_block_num (sbh_header h);
                                 bh_timestamp (sbh_header h); sbh_delegate_signature h];
  pack_full_block b := [bh_block_num (sbh_header (fb_header b))];
  pack_ids l := l;
  pack_binary_key data check := be_bytes 4 check ++ data;
  unpack_binary_key l :=
    ensure 4 <=? Z.of_nat (length l) else assert_failure in
    Ok (drop 4 l, be_value (take 4 l));
  pack_variant v := match v with v_int z => [1; z] | v_null => [0] | _ => [2] end;
  pack_ripemd160 := be_bytes 20;
  pack_public_key := be_bytes 33;
  unpack_withdraw_with_pts l :=
    match l with k :: sig :: _ => Ok (k, sig) | _ => Err assert_failure end;
  variant_as_ripemd160 := as_hash
|}.

Lemma ref_pack_memo_inj m m' : ref_pack_memo m = ref_pack_memo m' → m = m'.
Proof. destruct m as [[]|], m' as [[]|]; simpl; congruence. Qed.

Lemma ref_pack_condition_inj c c' : ref_pack_condition c = ref_pack_condition c' → c = c'.
Proof.
  destruct c as [a s d], c' as [a' s' d']. unfold ref_pack_condition; simpl.
  intros [= -> -> H]. f_equal. destruct d, d'; simpl in H; try discriminate H;
    simplify_eq; try done; try (f_equal; by apply ref_pack_memo_inj).
  - assert (owners = owners0 ∧ ref_pack_memo memo = ref_pack_memo memo0) as [-> Hm]
      by (apply app_inj_1; [lia|done]).
    f_equal. by apply ref_pack_memo_inj.
  - by destruct strike_price, strike_price0; simpl in *; subst.
Qed.

Lemma string_bytes_ref l : Forall is_byte l → string_bytes (ref_bytes_string l) = l.
Proof.
  induction l as [|b l IH]; [done|]. intros [Hb Hl]%Forall_cons_1. simpl.
  rewrite IH by done. f_equal. unfold is_byte in Hb.
  rewrite nat_ascii_embedding by lia. lia.
Qed.

(** ** Facts about bytes *)
Lemma be_bytes_length n z : length (be_bytes n z) = n.
Proof.
  revert z. induction n as [|n IH]; intros z; simpl; [done|].
  rewrite length_app, IH. simpl. lia.
Qed.

Lemma be_bytes_bytes n z : Forall is_byte (be_bytes n z).
Proof.
  revert z. induction n as [|n IH]; intros z; simpl; [constructor|].
  apply Forall_app. split; [apply IH|]. constructor; [|done].
  unfold is_byte. apply Z.mod_pos_bound. lia.
Qed.

Lemma be_value_bytes n z : 0 ≤ z < 256 ^ Z.of_nat n → be_value (be_bytes n z) = z.
Proof.
  revert z. induction n as [|n IH]; intros z Hz.
  - simpl in *. unfold be_value. simpl. lia.
  - rewrite Nat2Z.inj_succ, Z.pow_succ_r in Hz by lia.
    cbn [be_bytes]. unfold be_value in *. rewrite foldl_app. simpl. rewrite IH.
    + pose proof (Z.div_mod z 256 ltac:(lia)). lia.
    + split; [apply Z.div_pos; lia|apply Z.div_lt_upper_bound; lia].
Qed.

Lemma le_value_bounds l :
  Forall is_byte l → 0 ≤ le_value l < 256 ^ Z.of_nat (length l).
Proof.
  induction 1 as [|b l Hb Hl IH]; simpl length; [done|].
  rewrite Nat2Z.inj_succ, Z.pow_succ_r by lia. cbn [le_value]. unfold is_byte in Hb. nia.
Qed.

Lemma string_drop_append p s : string_drop (String.length p) (String.append p s) = s.
Proof. by induction p as [|c p IH]. Qed.

Lemma string_prefix_append p s : String.prefix p (String.append p s) = true.
Proof.
  induction p as [|c p IH]; [by destruct s|]. simpl.
  destruct (ascii_dec c c); [apply IH|done].
Qed.

Lemma string_length_append p s :
  String.length (String.append p s) = (String.length p + String.length s)%nat.
Proof. induction p as [|c p IH]; simpl; [done|]. by rewrite IH. Qed.

Lemma be_bytes_head n z : be_bytes (S n) z = (z / 256 ^ Z.of_nat n) mod 256 :: be_bytes n z.
Proof.
  revert z. induction n as [|n IH]; intros z; [cbn; by rewrite Z.div_1_r|].
  change (be_bytes (S (S n)) z) with (be_bytes (S n) (z / 256) ++ [z mod 256]). rewrite IH. simpl.
  rewrite Z.div_div by lia. do 3 f_equal.
  rewrite Nat2Z.inj_succ, Z.pow_succ_r by lia. lia.
Qed.
Lemma ref_hash_range n l : 0 ≤ n < 2 ^ 32 → 0 ≤ ref_hash n l < 2 ^ 32.
Proof.
  unfold ref_hash. revert n. induction l as [|b l IH]; intros n Hn; [done|]. simpl. apply IH.
  change 4294967295 with (Z.ones 32). rewrite Z.land_ones by lia. apply Z.mod_pos_bound. lia.
Qed.

#[export] Instance crypto_reference_laws : CryptoLaws crypto_reference.
Proof.
  split; cbn -[ref_pack_condition be_bytes encode Z.leb take drop].
  - intros l Hl. by rewrite string_bytes_ref.
  - done.
  - done.
  - intros l. by destruct (Z.leb _ _).
  - intros data check Hd Hc. rewrite length_app, be_bytes_length.
    rewrite (proj2 (Z.leb_le _ _)) by lia.
    rewrite take_app_length', drop_app_length' by (by rewrite be_bytes_length).
    by rewrite be_value_bytes.
  - intros data check Hd Hne Hc. split.
    + apply Forall_app. split; [apply be_bytes_bytes|done].
    + intros H. apply (f_equal length) in H. rewrite length_app, be_bytes_length in H. simpl in H. lia.
  - intros c c' [= H]. by apply ref_pack_condition_inj, (inj encode).
  - intros l. pose proof (ref_hash_range 256 l ltac:(lia)) as Hh.
    rewrite be_bytes_head. change (256 ^ Z.of_nat 31) with (2 ^ 248).
    assert ((2 ^ 255 + ref_hash 256 l) / 2 ^ 248 = 128) as ->.
    { symmetry; apply Z.div_unique with (ref_hash 256 l); lia. }
    change (128 mod 256) with 128. cbn [take le_value].
    pose proof (le_value_bounds (take 7 (be_bytes 31 (2 ^ 255 + ref_hash 256 l)))) as Hb.
    assert (0 ≤ le_value (take 7 (be_bytes 31 (2 ^ 255 + ref_hash 256 l)))); [|lia].
    apply Hb, Forall_take, be_bytes_bytes.
Qed.

Section texts.
Context `{!Crypto, !CryptoLaws _}.

Lemma prefixed_text l s :
  Forall is_byte l → l ≠ [] → s = String.append BTS_ADDRESS_PREFIX (to_base58 l) →
  (3 <? Z.of_nat (String.length s)) = true ∧ String.prefix BTS_ADDRESS_PREFIX s = true ∧
  from_base58 (string_drop 3 s) = Ok l.
Proof.
  intros Hl Hne ->. rewrite string_prefix_append.
  change 3%nat with (String.length BTS_ADDRESS_PREFIX). rewrite string_drop_append.
  rewrite (base58_roundtrip l Hl). split; [|done].
  rewrite string_length_append. change (String.length BTS_ADDRESS_PREFIX) with 3%nat.
  destruct (to_base58 l) eqn:E; [|apply Z.ltb_lt; cbn [String.length]; lia].
  pose proof (base58_roundtrip l Hl) as Hd.
  pose proof (base58_roundtrip [] (Forall_nil_2 _)) as Hnil.
  rewrite base58_empty in Hnil. rewrite E, Hnil in Hd. by injection Hd as <-.
Qed.

Lemma take_drop_sum n k (l : list Z) : length l = (n + k)%nat → length (drop n l) = k.
Proof. intros Hlen. rewrite length_drop. lia. Qed.

Lemma string_of_address_valid a :
  address_is_valid (string_of_address a) = Ok true ∧
  ∃ chk, length chk = 4%nat ∧
    from_base58 (string_drop 3 (string_of_address a)) = Ok (be_bytes 20 a ++ chk).
Proof.
  set (bin := be_bytes 20 a). set (chk := take 4 (be_bytes 20 (ripemd160 bin))).
  assert (Hbin : length bin = 20%nat) by apply be_bytes_length.
  assert (Hchk : length chk = 4%nat) by (subst chk; by rewrite length_take, be_bytes_length).
  destruct (prefixed_text (bin ++ chk) (string_of_address a)) as (Hlen & Hpre & Hdec).
  { apply Forall_app. split; [apply be_bytes_bytes|]. apply Forall_take, be_bytes_bytes. }
  { intros Hnil. apply (f_equal length) in Hnil. rewrite length_app, Hbin in Hnil. done. }
  { done. }
  assert (Hl : length (bin ++ chk) = 24%nat) by (rewrite length_app; lia).
  split; [|by exists chk]. unfold address_is_valid. rewrite Hlen, Hpre, Hdec.
  assert (Hc : take 4 (be_bytes 20 (ripemd160 bin)) = chk) by done. clearbody chk bin.
  cbv beta iota zeta delta [rbind]. rewrite Hl.
  change (4 <? Z.of_nat 24) with true. change (Z.of_nat 24 <=? 24) with true.
  change (24 <=? Z.of_nat 24) with true. change (24 - 4)%nat with 20%nat. cbv iota.
  rewrite take_app_length', drop_app_length' by done. rewrite Hc, take_ge by lia.
  by rewrite bool_decide_eq_true_2.
Qed.
End texts.

(** The text of an address passes validation and
    reads back as the same address, for every 20-byte address. *)
Theorem address_text_roundtrip `{!Crypto, !CryptoLaws _} (a : address) :
  0 ≤ a < 2 ^ 160 →
  address_is_valid (string_of_address a) = Ok true ∧
  address_of_string (string_of_address a) = Ok a.
Proof.
  intros Ha. destruct (string_of_address_valid a) as (Hv & chk & Hchk & Hdec).
  split; [done|]. unfold address_of_string. rewrite Hv, Hdec. cbn [rbind].
  rewrite length_app, be_bytes_length, Hchk. change (Nat.min (20 + 4 - 4) 20) with 20%nat.
  change (replicate (20 - 20) 0) with (@nil Z). rewrite app_nil_r.
  rewrite take_app_length' by (by rewrite be_bytes_length).
  by rewrite be_value_bytes.
Qed.

Lemma address_text_roundtrip_witness :
  address_is_valid (string_of_address 123456789) = Ok true ∧
  address_of_string (string_of_address 123456789) = Ok 123456789.
Proof. apply address_text_roundtrip. split; [discriminate|reflexivity]. Defined.

(** The text of a public key, with the check
    word appended to its 33 bytes, reads back as the same key. *)
Theorem public_key_text_roundtrip `{!Crypto, !CryptoLaws _} (k : public_key_type) :
  0 ≤ k < 2 ^ 264 → public_key_of_string (string_of_public_key k) = Ok k.
Proof.
  intros Hk. unfold public_key_of_string.
  assert (Hl : length (take 4 (be_bytes 20 (ripemd160 (be_bytes 33 k)))) = 4%nat)
    by (by rewrite length_take, be_bytes_length).
  pose proof (le_value_bounds (take 4 (be_bytes 20 (ripemd160 (be_bytes 33 k))))
    ltac:(apply Forall_take, be_bytes_bytes)) as Hc.
  rewrite Hl in Hc. change (256 ^ Z.of_nat 4) with (2 ^ 32) in Hc.
  fold (key_check (be_bytes 33 k)) in Hc.
  destruct (binary_key_bytes (be_bytes 33 k) (key_check (be_bytes 33 k))) as [Hb Hne];
    [apply be_bytes_bytes| |done|].
  { intros Hnil. apply (f_equal length) in Hnil. rewrite be_bytes_length in Hnil. done. }
  destruct (prefixed_text _ (string_of_public_key k) Hb Hne eq_refl) as (-> & -> & ->).
  cbn [rbind]. rewrite binary_key_roundtrip; [|apply be_bytes_length|done].
  cbn -[be_value be_bytes key_check]. rewrite Z.eqb_refl. by rewrite be_value_bytes.
Qed.

Lemma public_key_text_roundtrip_witness :
  public_key_of_string (string_of_public_key 987654321) = Ok 987654321.
Proof. apply public_key_text_roundtrip. split; [discriminate|reflexivity]. Defined.
