(* ===== verification/OrderedMap.v ===== *)
(** Ordered iteration over a finite map: what the code reads off [std::map] and
    the iterators of [cached_level_map].  A map is a [gmap]; [map_asc] lists it
    in the key order, and an iterator is the key it stands on, or nothing at
    the end. *)
From S2P Require Export Crypto.

(** A strict total order of keys, with its decision. *)
Class KeyOrder (K : Type) := {
  key_lt : K → K → Prop;
  key_lt_dec : RelDecision key_lt;
  key_lt_strict : StrictOrder key_lt;
  key_lt_total a b : key_lt a b ∨ a = b ∨ key_lt b a
}.
#[export] Existing Instances key_lt_dec key_lt_strict.

#[export] Program Instance Z_order : KeyOrder Z := {| key_lt := Z.lt |}.
Next Obligation. lia. Qed.

#[export] Program Instance mik_order : KeyOrder market_index_key :=
  {| key_lt a b := mik_ltb a b = true;
     key_lt_dec a b := bool_eq_dec (mik_ltb a b) true |}.
Next Obligation.
  split.
  - intros a. unfold complement, mik_ltb. by rewrite price_ltb_irrefl, Z.ltb_irrefl.
  - intros a b c. unfold mik_ltb.
    destruct (price_ltb (order_price a) (order_price b)) eqn:E1;
      destruct (price_ltb (order_price b) (order_price c)) eqn:E2;
      destruct (price_ltb (order_price b) (order_price a)) eqn:E3;
      destruct (price_ltb (order_price c) (order_price b)) eqn:E4; try done;
    rewrite ?price_ltb_spec, <- ?not_true_iff_false, ?price_ltb_spec in *;
    destruct (price_ltb (order_price a) (order_price c)) eqn:E5;
    destruct (price_ltb (order_price c) (order_price a)) eqn:E6; try done;
    rewrite <- ?not_true_iff_false, ?price_ltb_spec in *; lia.
Qed.
Next Obligation.
  intros a b. unfold mik_ltb.
  destruct (price_ltb (order_price a) (order_price b)) eqn:E1; [by left|].
  destruct (price_ltb (order_price b) (order_price a)) eqn:E2; [by right; right|].
  pose proof (price_ltb_total _ _ E1 E2) as Hp.
  destruct (Z.lt_total (owner a) (owner b)) as [H|[H|H]].
  - left. lia.
  - right; left. destruct a, b; simpl in *; congruence.
  - right; right. lia.
Qed.

#[export] Program Instance feed_index_order : KeyOrder feed_index :=
  {| key_lt a b := fi_feed_id a < fi_feed_id b ∨
       (fi_feed_id a = fi_feed_id b ∧ fi_delegate_id a < fi_delegate_id b) |}.
Next Obligation. intros a b. apply _. Defined.
Next Obligation. split; [intros a; unfold complement; lia|intros a b c; lia]. Qed.
Next Obligation.
  intros [a1 a2] [b1 b2]; simpl.
  destruct (Z.lt_total a1 b1) as [?|[->|?]]; [by left; left| |by right; right; left].
  destruct (Z.lt_total a2 b2) as [?|[->|?]]; [by left; right|by right; left|].
  right; right. by right.
Qed.

#[export] Program Instance pair_order {A B} `{KeyOrder A, KeyOrder B, EqDecision A} :
    KeyOrder (A * B) :=
  {| key_lt a b := key_lt a.1 b.1 ∨ (a.1 = b.1 ∧ key_lt a.2 b.2) |}.
Next Obligation. intros. intros a b. apply _. Defined.
Next Obligation.
  intros. split.
  - intros [a b] [Hl|[_ Hl]]; simpl in Hl; exact (irreflexivity _ _ Hl).
  - intros [a1 b1] [a2 b2] [a3 b3] [H1|[H1 H1']] [H2|[H2 H2']]; simpl in *; subst.
    + left. by etrans.
    + by left.
    + by left.
    + right. split; [done|]. by etrans.
Qed.
Next Obligation.
  intros A B ?? ? [a1 b1] [a2 b2]; simpl.
  destruct (key_lt_total a1 a2) as [?|[->|?]]; [by left; left| |by right; right; left].
  destruct (key_lt_total b1 b2) as [?|[->|?]]; [by left; right|by right; left|].
  right; right. by right.
Qed.

Section ordered.
Context {K V : Type} `{Countable K, !KeyOrder K}.
Implicit Types (m : gmap K V) (k : K) (v : V) (l : list (K * V)).

Definition key_le (a b : K * V) : Prop := ¬ key_lt b.1 a.1.
#[export] Instance key_le_dec : RelDecision key_le.
Proof. intros a b. unfold key_le. apply _. Defined.

Definition map_asc m : list (K * V) := merge_sort key_le (map_to_list m).

(** Iterators over a map: [begin], [last], [lower_bound], [++] and [--]. *)
Definition it_begin m : option K := fst <$> head (map_asc m).
Definition it_last m : option K := fst <$> last (map_asc m).
Definition it_find k m : option K := match m !! k with Some _ => Some k | None => None end.
Definition it_lower_bound k m : option K :=
  fst <$> head (filter (λ x, ¬ key_lt x.1 k) (map_asc m)).
Definition it_next k m : option K :=
  fst <$> head (filter (λ x, key_lt k x.1) (map_asc m)).
Definition it_prev k m : option K :=
  fst <$> last (filter (λ x, key_lt x.1 k) (map_asc m)).

(** The loop [for( auto itr = begin(); itr.valid(); ++itr )]. *)
Fixpoint it_collect (fuel : nat) (it : option K) m : list (K * V) :=
  match fuel, it with
  | S n, Some k =>
      match m !! k with
      | Some v => (k, v) :: it_collect n (it_next k m) m
      | None => []
      end
  | _, _ => []
  end.

#[local] Instance key_le_total : Total key_le.
Proof.
  intros a b. unfold key_le. destruct (decide (key_lt b.1 a.1)) as [Hl|]; [|by left].
  right. intros Hl'. exact (irreflexivity _ _ (transitivity Hl Hl')).
Qed.
#[local] Instance key_le_trans : Transitive key_le.
Proof.
  intros a b c Hab Hbc Hca. unfold key_le in *.
  destruct (key_lt_total a.1 b.1) as [Hl|[Hl|Hl]]; [|rewrite Hl in *; done|done].
  apply Hbc. by etrans.
Qed.

Lemma map_asc_perm m : map_asc m ≡ₚ map_to_list m.
Proof. apply merge_sort_Permutation. Qed.

Lemma elem_of_map_asc m k v : (k, v) ∈ map_asc m ↔ m !! k = Some v.
Proof. rewrite map_asc_perm. apply elem_of_map_to_list. Qed.

Lemma map_asc_NoDup m : NoDup (map_asc m).*1.
Proof. rewrite map_asc_perm. apply NoDup_fst_map_to_list. Qed.

Lemma map_asc_sorted m : StronglySorted key_le (map_asc m).
Proof. apply (StronglySorted_merge_sort _). Qed.

Lemma map_asc_length m : length (map_asc m) = size m.
Proof. by rewrite map_asc_perm, length_map_to_list. Qed.

(** Consecutive entries are strictly increasing. *)
Lemma map_asc_split m l1 x l2 :
  map_asc m = l1 ++ x :: l2 →
  Forall (λ y, key_lt y.1 x.1) l1 ∧ Forall (λ y, key_lt x.1 y.1) l2.
Proof.
  intros E. pose proof (map_asc_sorted m) as Hs. pose proof (map_asc_NoDup m) as Hn.
  rewrite E in Hs, Hn. rewrite fmap_app, fmap_cons in Hn.
  apply NoDup_app in Hn as (_ & Hd & Hn). apply NoDup_cons in Hn as [Hx _].
  split; apply Forall_forall; intros y Hy.
  - destruct (key_lt_total y.1 x.1) as [Hl|[Hl|Hl]]; [done| |].
    + exfalso. apply (Hd y.1); [by apply (list_elem_of_fmap_2 fst)|]. rewrite Hl. left.
    + exfalso. eapply (StronglySorted_app_1_elem_of key_le l1 (x :: l2)) in Hs; [|done|left].
      by apply Hs.
  - destruct (key_lt_total x.1 y.1) as [Hl|[Hl|Hl]]; [done| |].
    + exfalso. apply Hx. rewrite Hl. by apply (list_elem_of_fmap_2 fst).
    + exfalso. apply StronglySorted_app_1_r in Hs. apply StronglySorted_inv in Hs as [_ Hs].
      eapply Forall_forall in Hs; [|done]. by apply Hs.
Qed.

Lemma it_next_split m l1 k v l2 :
  map_asc m = l1 ++ (k, v) :: l2 → it_next k m = fst <$> head l2.
Proof.
  intros E. destruct (map_asc_split m l1 (k, v) l2 E) as [H1 H2]. unfold it_next. rewrite E.
  rewrite filter_app, filter_cons_False by (simpl; intros Hx; exact (irreflexivity _ _ Hx)).
  replace (filter (λ x : K * V, key_lt k x.1) l1) with (@nil (K * V)).
  - simpl. f_equal. f_equal. clear E. induction H2 as [|y l2 Hy _ IH]; [done|].
    rewrite filter_cons_True by done. by f_equal.
  - symmetry. clear E. induction H1 as [|y l1 Hy _ IH]; [done|].
    rewrite filter_cons_False; [done|]. simpl in *. intros Hk.
    exact (irreflexivity _ _ (transitivity Hy Hk)).
Qed.

Lemma it_collect_split m l1 l2 n :
  map_asc m = l1 ++ l2 → (length l2 ≤ n)%nat → it_collect n (fst <$> head l2) m = l2.
Proof.
  revert l1 l2. induction n as [|n IH]; intros l1 [|[k v] l2] E Hn; simpl in *;
    try done; try lia.
  assert (m !! k = Some v) as ->.
  { apply elem_of_map_asc. rewrite E. apply elem_of_app. right. left. }
  f_equal. rewrite (it_next_split m l1 k v l2 E).
  apply (IH (l1 ++ [(k, v)])); [by rewrite <- app_assoc|lia].
Qed.

(** Walking a map from [begin] with [++] visits every
    entry exactly once, in strictly increasing key order, and stops after as
    many steps as the map has entries. *)
Theorem iteration_complete m :
  it_collect (size m) (it_begin m) m = map_asc m ∧
  StronglySorted key_le (map_asc m) ∧ NoDup (map_asc m).*1 ∧
  (∀ k v, (k, v) ∈ it_collect (size m) (it_begin m) m ↔ m !! k = Some v).
Proof.
  assert (it_collect (size m) (it_begin m) m = map_asc m) as E.
  { apply (it_collect_split m []); [done|]. by rewrite map_asc_length. }
  rewrite E. split_and!; [done|apply map_asc_sorted|apply map_asc_NoDup|apply elem_of_map_asc].
Qed.

(** [begin] and [last] stand on the least and the greatest key. *)
Lemma it_last_spec m k :
  it_last m = Some k → is_Some (m !! k) ∧ ∀ k' v, m !! k' = Some v → k' = k ∨ key_lt k' k.
Proof.
  unfold it_last. destruct (last (map_asc m)) as [[k0 v0]|] eqn:E; simpl; [|done].
  intros [= <-]. apply last_Some in E as [l E].
  destruct (map_asc_split m l (k0, v0) [] E) as [Hl _]. split.
  - exists v0. apply elem_of_map_asc. rewrite E. apply elem_of_app. right. left.
  - intros k' v Hk. apply elem_of_map_asc in Hk. rewrite E in Hk.
    apply elem_of_app in Hk as [Hk|Hk].
    + right. eapply Forall_forall in Hl; [|done]. done.
    + left. apply list_elem_of_singleton in Hk. congruence.
Qed.

Lemma it_begin_None m : it_begin m = None ↔ m = ∅.
Proof.
  unfold it_begin. split.
  - destruct (map_asc m) eqn:E; simpl; [|done]. intros _. apply map_eq. intros k.
    rewrite lookup_empty. destruct (m !! k) eqn:Hk; [|done].
    apply elem_of_map_asc in Hk. rewrite E in Hk. by apply elem_of_nil in Hk.
  - intros ->. unfold map_asc. by rewrite map_to_list_empty.
Qed.

(** How many entries an iterator has at and below it, or at and above it: a
    step takes one away, so a loop that steps an iterator ends. *)
Definition rank_down (it : option K) m : nat :=
  from_option (λ k, length (filter (λ x, ¬ key_lt k x.1) (map_asc m))) 0%nat it.
Definition rank_up (it : option K) m : nat :=
  from_option (λ k, length (filter (λ x, ¬ key_lt x.1 k) (map_asc m))) 0%nat it.

Lemma filter_length_lt (P Q : K * V → Prop) `{!∀ x, Decision (P x), !∀ x, Decision (Q x)} l x :
  (∀ y, P y → Q y) → x ∈ l → Q x → ¬ P x → (length (filter P l) < length (filter Q l))%nat.
Proof.
  intros HPQ Hx HQ HP.
  assert (∀ l', length (filter P l') ≤ length (filter Q l'))%nat as Hle.
  { induction l' as [|z l' IH]; [done|]. rewrite !filter_cons.
    repeat case_decide; simpl; try lia. exfalso. auto. }
  apply list_elem_of_split in Hx as (l1 & l2 & ->).
  rewrite !filter_app, !length_app, filter_cons_False, filter_cons_True by done.
  pose proof (Hle l1). pose proof (Hle l2). simpl. lia.
Qed.

Lemma rank_down_le it m : (rank_down it m ≤ size m)%nat.
Proof.
  rewrite <- map_asc_length. destruct it; simpl; [apply length_filter|lia].
Qed.
Lemma rank_up_le it m : (rank_up it m ≤ size m)%nat.
Proof.
  rewrite <- map_asc_length. destruct it; simpl; [apply length_filter|lia].
Qed.

Lemma it_prev_lt m k k' : it_prev k m = Some k' → is_Some (m !! k') ∧ key_lt k' k.
Proof.
  unfold it_prev. destruct (last _) as [[k0 v0]|] eqn:E; simpl; [|done]. intros [= <-].
  apply last_Some in E as [l E].
  assert ((k0, v0) ∈ filter (λ x : K * V, key_lt x.1 k) (map_asc m)) as Hin.
  { rewrite E. apply elem_of_app. right. left. }
  apply list_elem_of_filter in Hin as [Hl Hin]. split; [|done].
  exists v0. by apply elem_of_map_asc.
Qed.
Lemma it_next_gt m k k' : it_next k m = Some k' → is_Some (m !! k') ∧ key_lt k k'.
Proof.
  unfold it_next. destruct (head _) as [[k0 v0]|] eqn:E; simpl; [|done]. intros [= <-].
  assert ((k0, v0) ∈ filter (λ x : K * V, key_lt k x.1) (map_asc m)) as Hin.
  { destruct (filter _ _) as [|x l] eqn:E2; simplify_eq/=. left. }
  apply list_elem_of_filter in Hin as [Hl Hin]. split; [|done].
  exists v0. by apply elem_of_map_asc.
Qed.

Lemma rank_down_prev m k v :
  m !! k = Some v → (rank_down (it_prev k m) m < rank_down (Some k) m)%nat.
Proof.
  intros Hk. apply elem_of_map_asc in Hk. pose proof (irreflexivity key_lt k) as Hir.
  destruct (it_prev k m) as [k'|] eqn:E; simpl.
  - apply it_prev_lt in E as [_ Hl]. apply (filter_length_lt _ _ _ (k, v)); simpl; auto.
    intros y Hy Hky. apply Hy. by etrans.
  - assert ((k, v) ∈ filter (λ x : K * V, ¬ key_lt k x.1) (map_asc m)) as Hin
      by (apply list_elem_of_filter; auto).
    destruct (filter _ _); simpl; [by apply elem_of_nil in Hin|lia].
Qed.
Lemma rank_up_next m k v :
  m !! k = Some v → (rank_up (it_next k m) m < rank_up (Some k) m)%nat.
Proof.
  intros Hk. apply elem_of_map_asc in Hk. pose proof (irreflexivity key_lt k) as Hir.
  destruct (it_next k m) as [k'|] eqn:E; simpl.
  - apply it_next_gt in E as [_ Hl]. apply (filter_length_lt _ _ _ (k, v)); simpl; auto.
    intros y Hy Hky. apply Hy. by etrans.
  - assert ((k, v) ∈ filter (λ x : K * V, ¬ key_lt x.1 k) (map_asc m)) as Hin
      by (apply list_elem_of_filter; auto).
    destruct (filter _ _); simpl; [by apply elem_of_nil in Hin|lia].
Qed.
End ordered.
