(* ===== verification/CachedMap.v ===== *)
(** The persistent maps of the chain ([cached_level_map.hpp]): a cache that
    holds every entry, over a LevelDB store that is written either on every
    change or, between [set_write_through( false )] and the next [flush], in
    one batch. *)
From S2P Require Export OrderedMap.

(** ** The store underneath

    [level_map] wraps LevelDB, which is not part of the repository: a type of
    handles, what a handle holds, and the three ways the cache writes to it. *)
Inductive batch_op (K V : Type) :=
  | batch_store (k : K) (v : V)
  | batch_remove (k : K).
Arguments batch_store {K V} k v.
Arguments batch_remove {K V} k.

Definition batch_apply {K V} `{Countable K} (m : gmap K V) (o : batch_op K V) : gmap K V :=
  match o with batch_store k v => <[k := v]> m | batch_remove k => delete k m end.

Class LevelMap (K V : Type) `{Countable K} := {
  level_map : Type;
  lm_contents : level_map → gmap K V;
  lm_store : level_map → K → V → level_map;
  lm_remove : level_map → K → level_map;
  lm_commit : level_map → list (batch_op K V) → level_map
}.
Class LevelMapLaws (K V : Type) `{Countable K} (L : LevelMap K V) : Prop := {
  lm_store_spec d k v : lm_contents (lm_store d k v) = <[k := v]> (lm_contents d);
  lm_remove_spec d k : lm_contents (lm_remove d k) = delete k (lm_contents d);
  lm_commit_spec d b : lm_contents (lm_commit d b) = foldl batch_apply (lm_contents d) b
}.

(** A store that is the map it holds. *)
#[export] Instance level_map_reference K V `{Countable K} : LevelMap K V := {|
  level_map := gmap K V;
  lm_contents d := d;
  lm_store d k v := <[k := v]> d;
  lm_remove d k := delete k d;
  lm_commit d b := foldl batch_apply d b
|}.
#[export] Instance level_map_reference_laws K V `{Countable K} :
  LevelMapLaws K V (level_map_reference K V).
Proof. by split. Qed.

(** ** The cached map *)
Section cached.
Context {K V : Type} `{Countable K, !KeyOrder K, L : !LevelMap K V}.

Record cached_level_map := CachedLevelMap {
  cm_db : level_map;
  cm_cache : gmap K V;
  cm_dirty_store : gset K;
  cm_dirty_remove : gset K;
  cm_write_through : bool
}.
Implicit Types (c : cached_level_map).

(** [open] adds every stored entry to the (empty) cache. *)
Definition cm_open (d : level_map) (write_through : bool) c : cached_level_map :=
  CachedLevelMap d (foldl (λ m x, <[x.1 := x.2]> m) (cm_cache c) (map_asc (lm_contents d)))
    (cm_dirty_store c) (cm_dirty_remove c) write_through.

Definition flush_stores (cache : gmap K V) (keys : list K) : result (list (batch_op K V)) :=
  rfold (λ k b, let* v := of_option assert_failure (cache !! k) in
                Ok (b ++ [batch_store k v])) keys [].
Definition cm_flush c : result cached_level_map :=
  let* stores := flush_stores (cm_cache c) (elements (cm_dirty_store c)) in
  let batch := stores ++ (batch_remove <$> elements (cm_dirty_remove c)) in
  Ok (CachedLevelMap (lm_commit (cm_db c) batch) (cm_cache c) ∅ ∅ (cm_write_through c)).

Definition cm_close c : result cached_level_map :=
  let* c := cm_flush c in
  Ok (CachedLevelMap (cm_db c) ∅ ∅ ∅ (cm_write_through c)).

Definition cm_set_write_through (write_through : bool) c : result cached_level_map :=
  let* c := if negb (cm_write_through c) && write_through then cm_flush c else Ok c in
  Ok (CachedLevelMap (cm_db c) (cm_cache c) (cm_dirty_store c) (cm_dirty_remove c)
        write_through).

Definition cm_fetch_optional (k : K) c : option V := cm_cache c !! k.
Definition cm_fetch (k : K) c : result V := of_option key_not_found (cm_cache c !! k).

Definition cm_store (k : K) (v : V) c : cached_level_map :=
  let cache := <[k := v]> (cm_cache c) in
  if cm_write_through c
  then CachedLevelMap (lm_store (cm_db c) k v) cache (cm_dirty_store c) (cm_dirty_remove c) true
  else CachedLevelMap (cm_db c) cache ({[k]} ∪ cm_dirty_store c) (cm_dirty_remove c ∖ {[k]}) false.

Definition cm_remove (k : K) c : cached_level_map :=
  let cache := delete k (cm_cache c) in
  if cm_write_through c
  then CachedLevelMap (lm_remove (cm_db c) k) cache (cm_dirty_store c) (cm_dirty_remove c) true
  else CachedLevelMap (cm_db c) cache (cm_dirty_store c ∖ {[k]}) ({[k]} ∪ cm_dirty_remove c) false.

Definition cm_size c : Z := Z.of_nat (size (cm_cache c)).
Definition cm_last c : option (K * V) := last (map_asc (cm_cache c)).

(** Iterators: the key an iterator stands on, or nothing at the end.  [--] on
    the first entry moves to the end. *)
Definition cm_begin c : option K := it_begin (cm_cache c).
Definition cm_it_last c : option K := it_last (cm_cache c).
Definition cm_find (k : K) c : option K := it_find k (cm_cache c).
Definition cm_lower_bound (k : K) c : option K := it_lower_bound k (cm_cache c).
Definition cm_it_next (k : K) c : option K := it_next k (cm_cache c).
Definition cm_it_prev (k : K) c : option K := it_prev k (cm_cache c).

(** A run of the operations that change the map. *)
Inductive cm_op :=
  | op_store (k : K) (v : V)
  | op_remove (k : K)
  | op_flush
  | op_set_write_through (b : bool).
Definition cm_step (o : cm_op) c : result cached_level_map :=
  match o with
  | op_store k v => Ok (cm_store k v c)
  | op_remove k => Ok (cm_remove k c)
  | op_flush => cm_flush c
  | op_set_write_through b => cm_set_write_through b c
  end.
Definition cm_run (ops : list cm_op) c : result cached_level_map := rfold cm_step ops c.

(** What the operations mean: a plain map. *)
Definition spec_step (o : cm_op) (m : gmap K V) : gmap K V :=
  match o with
  | op_store k v => <[k := v]> m
  | op_remove k => delete k m
  | op_flush | op_set_write_through _ => m
  end.

(** ** Invariant *)
Record cm_inv c : Prop := {
  inv_store : ∀ k, k ∈ cm_dirty_store c → is_Some (cm_cache c !! k);
  inv_remove : ∀ k, k ∈ cm_dirty_remove c → cm_cache c !! k = None;
  inv_clean : ∀ k, k ∉ cm_dirty_store c → k ∉ cm_dirty_remove c →
    lm_contents (cm_db c) !! k = cm_cache c !! k;
  inv_through : cm_write_through c = true → cm_dirty_store c = ∅ ∧ cm_dirty_remove c = ∅
}.

Lemma flush_stores_ok (m : gmap K V) ks b :
  (∀ k, k ∈ ks → is_Some (m !! k)) →
  ∃ b', rfold (λ k b, let* v := of_option assert_failure (m !! k) in
                Ok (b ++ [batch_store k v])) ks b = Ok (b ++ b') ∧
    ∀ (d : gmap K V) k, foldl batch_apply d b' !! k =
      if decide (k ∈ ks) then m !! k else d !! k.
Proof.
  revert b. induction ks as [|k0 ks IH]; intros b Hks.
  - exists []. rewrite app_nil_r. split; [done|]. intros d k. rewrite decide_False; [done|]. set_solver.
  - destruct (Hks k0) as [v0 Hv0]; [set_solver|]. simpl. rewrite Hv0. simpl.
    destruct (IH (b ++ [batch_store k0 v0])) as (b' & -> & Hb'); [set_solver|].
    exists (batch_store k0 v0 :: b'). rewrite <- app_assoc. split; [done|].
    intros d k. cbn [foldl batch_apply]. rewrite Hb'. destruct (decide (k ∈ ks)).
    + rewrite decide_True; [done|set_solver].
    + destruct (decide (k = k0)) as [->|].
      * rewrite lookup_insert_eq, decide_True; [done|set_solver].
      * rewrite lookup_insert_ne by done. rewrite decide_False; [done|set_solver].
Qed.

Lemma batch_removes (d : gmap K V) (ks : list K) k :
  foldl batch_apply d (batch_remove <$> ks) !! k = if decide (k ∈ ks) then None else d !! k.
Proof.
  revert d. induction ks as [|k0 ks IH]; intros d.
  - rewrite decide_False; [done|set_solver].
  - rewrite fmap_cons. cbn [foldl batch_apply]. rewrite IH. destruct (decide (k ∈ ks)).
    + rewrite decide_True; [done|set_solver].
    + destruct (decide (k = k0)) as [->|].
      * rewrite lookup_delete_eq, decide_True; [done|set_solver].
      * rewrite lookup_delete_ne by done. rewrite decide_False; [done|set_solver].
Qed.

Context `{!LevelMapLaws K V L}.

Lemma flush_spec c :
  cm_inv c → ∃ c', cm_flush c = Ok c' ∧ cm_inv c' ∧ cm_cache c' = cm_cache c ∧
    lm_contents (cm_db c') = cm_cache c ∧
    cm_write_through c' = cm_write_through c ∧
    cm_dirty_store c' = ∅ ∧ cm_dirty_remove c' = ∅.
Proof.
  intros [Hs Hr Hc Ht]. unfold cm_flush, flush_stores.
  destruct (flush_stores_ok (cm_cache c) (elements (cm_dirty_store c)) []) as (b & -> & Hb).
  { intros k. rewrite elem_of_elements. apply Hs. }
  assert (Hdb : foldl batch_apply (lm_contents (cm_db c))
                  (b ++ (batch_remove <$> elements (cm_dirty_remove c))) = cm_cache c).
  { apply map_eq. intros k. rewrite foldl_app, batch_removes, Hb.
    case_decide as H1; rewrite elem_of_elements in H1; [by rewrite Hr|].
    case_decide as H2; rewrite elem_of_elements in H2; [done|by apply Hc]. }
  eexists. split; [reflexivity|]. simpl. rewrite lm_commit_spec, Hdb. split_and!; try done.
  split; simpl.
  - intros k Hk. by apply not_elem_of_empty in Hk.
  - intros k Hk. by apply not_elem_of_empty in Hk.
  - intros. by rewrite lm_commit_spec, Hdb.
  - done.
Qed.

Lemma cm_step_spec o c :
  cm_inv c → ∃ c', cm_step o c = Ok c' ∧ cm_inv c' ∧ cm_cache c' = spec_step o (cm_cache c).
Proof.
  intros Hinv. destruct o as [k v|k| |b].
  - eexists. split; [reflexivity|]. split; [|unfold cm_store; simpl; by destruct (cm_write_through c)].
    destruct Hinv as [Hs Hr Hc Ht]. unfold cm_store. destruct (cm_write_through c) eqn:E.
    + destruct (Ht eq_refl) as [Es Er]. rewrite Es, Er in *. split; simpl; try done.
      intros k' Hk1 Hk2. rewrite lm_store_spec, !lookup_insert. case_decide; [done|]. by apply Hc.
    + split; simpl; try done.
      * intros k' Hk'. rewrite lookup_insert. case_decide; [done|]. apply Hs. set_solver.
      * intros k' Hk'. rewrite lookup_insert_ne by set_solver. apply Hr. set_solver.
      * intros k' H1 H2. rewrite lookup_insert_ne by set_solver. apply Hc; set_solver.
  - eexists. split; [reflexivity|]. split; [|unfold cm_remove; simpl; by destruct (cm_write_through c)].
    destruct Hinv as [Hs Hr Hc Ht]. unfold cm_remove. destruct (cm_write_through c) eqn:E.
    + destruct (Ht eq_refl) as [Es Er]. rewrite Es, Er in *. split; simpl; try done.
      intros k' Hk1 Hk2. rewrite lm_remove_spec, !lookup_delete. case_decide; [done|]. by apply Hc.
    + split; simpl; try done.
      * intros k' Hk'. rewrite lookup_delete_ne by set_solver. apply Hs. set_solver.
      * intros k' Hk'. rewrite lookup_delete. case_decide; [done|]. apply Hr. set_solver.
      * intros k' H1 H2. rewrite lookup_delete_ne by set_solver. apply Hc; set_solver.
  - destruct (flush_spec c Hinv) as (c' & ? & ? & ? & _). by exists c'.
  - simpl. unfold cm_set_write_through. destruct (negb (cm_write_through c) && b) eqn:E.
    + destruct (flush_spec c Hinv) as (c' & -> & Hi & Hca & Hdb & Hw & Hds & Hdr). simpl.
      eexists. split; [reflexivity|]. split; [|done].
      destruct Hi. split; simpl; auto.
    + simpl. eexists. split; [reflexivity|]. split; [|done]. destruct Hinv as [Hs Hr Hc Ht].
      split; simpl; auto. intros ->. destruct (cm_write_through c); [by apply Ht|done].
Qed.

Lemma cm_run_spec ops c :
  cm_inv c → ∃ c', cm_run ops c = Ok c' ∧ cm_inv c' ∧
    cm_cache c' = foldl (λ m o, spec_step o m) (cm_cache c) ops.
Proof.
  unfold cm_run. revert c. induction ops as [|o ops IH]; intros c Hinv; [by exists c|].
  destruct (cm_step_spec o c Hinv) as (c1 & E1 & H1 & Hm1). simpl. rewrite E1. simpl.
  destruct (IH c1 H1) as (c' & -> & ? & Hc'). exists c'. by rewrite Hc', Hm1.
Qed.

Lemma foldl_insert_lookup (l : list (K * V)) (m m' : gmap K V) k :
  (∀ k v, (k, v) ∈ l → m' !! k = Some v) →
  foldl (λ m x, <[x.1 := x.2]> m) m l !! k = if decide (k ∈ l.*1) then m' !! k else m !! k.
Proof.
  revert m. induction l as [|[k0 v0] l IH]; intros m Hl.
  - rewrite decide_False; [done|set_solver].
  - cbn [foldl]. rewrite IH by (intros; apply Hl; by right). rewrite fmap_cons.
    destruct (decide (k ∈ l.*1)).
    + rewrite decide_True; [done|by right].
    + simpl. destruct (decide (k = k0)) as [->|].
      * rewrite lookup_insert_eq, decide_True; [|by left]. symmetry. apply Hl. left.
      * rewrite lookup_insert_ne by done. rewrite decide_False; [done|].
        intros [?|?]%elem_of_cons; done.
Qed.

(** Opening a store on an empty cache loads it, and the invariant holds. *)
Lemma cm_open_spec d b c :
  cm_cache c = ∅ → cm_dirty_store c = ∅ → cm_dirty_remove c = ∅ →
  cm_inv (cm_open d b c) ∧ cm_cache (cm_open d b c) = lm_contents d.
Proof.
  intros Hm Hs Hr. assert (Hc : cm_cache (cm_open d b c) = lm_contents d).
  { simpl. rewrite Hm. apply map_eq. intros k.
    rewrite (foldl_insert_lookup _ _ (lm_contents d)) by (intros ??; apply elem_of_map_asc).
    case_decide as Hk; [done|]. rewrite lookup_empty. symmetry. apply eq_None_not_Some.
    intros [v Hv]. apply Hk. apply elem_of_map_asc in Hv.
    by apply (list_elem_of_fmap_2 fst) in Hv. }
  split; [|done]. split.
  - simpl. rewrite Hs. set_solver.
  - simpl. rewrite Hr. set_solver.
  - intros k _ _. by rewrite Hc.
  - simpl. by rewrite Hs, Hr.
Qed.
End cached.

(** C15 (cached_map_refines_map). From an opened store, any run of stores,
    removals, flushes and changes of the write mode behaves like the same run
    on a plain map: no step throws, every lookup answers as the plain map, and
    a closing [flush] succeeds and leaves exactly that map in the store. *)
Theorem cached_map_refines_map {K V : Type} `{Countable K, !KeyOrder K}
    {L : LevelMap K V} `{!LevelMapLaws K V L} (d : level_map) (b : bool) (c : cached_level_map)
    (ops : list (@cm_op K V)) :
  cm_cache c = ∅ → cm_dirty_store c = ∅ → cm_dirty_remove c = ∅ →
  ∃ c' c'', cm_run ops (cm_open d b c) = Ok c' ∧ cm_flush c' = Ok c'' ∧
    (∀ k, cm_fetch_optional k c' = foldl (λ m o, spec_step o m) (lm_contents d) ops !! k) ∧
    lm_contents (cm_db c'') = foldl (λ m o, spec_step o m) (lm_contents d) ops.
Proof.
  intros Hm Hs Hr. destruct (cm_open_spec d b c Hm Hs Hr) as [Hi Hc].
  destruct (cm_run_spec ops _ Hi) as (c' & E & Hi' & Hc'). rewrite Hc in Hc'.
  destruct (flush_spec c' Hi') as (c'' & E' & _ & _ & Hdb & _).
  exists c', c''. split_and!; [done|done|unfold cm_fetch_optional; by rewrite Hc'|by rewrite Hdb].
Qed.

Definition example_db : @level_map Z Z _ _ (level_map_reference Z Z) := (∅ : gmap Z Z).
Definition example_ops : list (@cm_op Z Z) :=
  [op_store 1 10; op_set_write_through false; op_store 2 20; op_remove 1; op_store 3 30].
Lemma cached_map_refines_map_witness :
  ∃ c' c'', cm_run example_ops (cm_open example_db true (CachedLevelMap example_db ∅ ∅ ∅ true))
              = Ok c' ∧ cm_flush c' = Ok c'' ∧
    (∀ k, cm_fetch_optional k c' =
       foldl (λ m o, spec_step o m) (lm_contents example_db) example_ops !! k) ∧
    lm_contents (cm_db c'') = foldl (λ m o, spec_step o m) (lm_contents example_db) example_ops.
Proof.
  exact (cached_map_refines_map example_db true
           (CachedLevelMap example_db ∅ ∅ ∅ true) example_ops eq_refl eq_refl eq_refl).
Defined.
