(* ===== verification/Store.v ===== *)
(** The data of the chain: the tables of [chain_database]
    ([chain_database_impl.hpp]) and of a [pending_chain_state].

    Each LevelDB table is the map its [cached_level_map] or [level_map] holds
    (see [CachedMap]).  [db_unique_transactions] maps an expiration to the
    digests that expire then; [db_delegate_votes] is the index of delegates by
    votes; [db_wall_clock] is the reading of the system clock the database
    falls back to before the first block. *)
From S2P Require Export CachedMap.

Record chain_database := ChainDatabase {
  db_properties : gmap Z variant;
  db_assets : gmap Z asset_record;
  db_symbol_index : gmap string Z;
  db_slates : gmap Z delegate_slate;
  db_accounts : gmap Z account_record;
  db_account_index : gmap string Z;
  db_address_to_account : gmap address Z;
  db_delegate_votes : gset (Z * Z);
  db_balances : gmap address balance_record;
  db_burns : gmap burn_record_key burn_record_value;
  db_transactions : gmap digest_type transaction_record;
  db_unique_transactions : gmap Z (gset digest_type);
  db_slots : gmap Z slot_record;
  db_bids : gmap market_index_key order_record;
  db_asks : gmap market_index_key order_record;
  db_shorts : gmap market_index_key order_record;
  db_collateral : gmap market_index_key collateral_record;
  db_feeds : gmap feed_index feed_record;
  db_market_statuses : gmap (Z * Z) market_status;
  db_market_history : gmap market_history_key market_history_record;
  db_market_transactions : gmap Z (list market_transaction);
  db_recent_operations : gmap Z (list operation);
  db_head_block_header : signed_block_header;
  db_head_block_id : digest_type;
  db_chain_id : digest_type;
  db_skip_signature_verification : bool;
  db_relay_fee : Z;
  db_wall_clock : Z
}.
Definition set_db_properties (v : gmap Z variant) (r : chain_database) : chain_database :=
  ChainDatabase v (db_assets r) (db_symbol_index r) (db_slates r)
    (db_accounts r) (db_account_index r) (db_address_to_account r)
    (db_delegate_votes r) (db_balances r) (db_burns r) (db_transactions r)
    (db_unique_transactions r) (db_slots r) (db_bids r) (db_asks r)
    (db_shorts r) (db_collateral r) (db_feeds r) (db_market_statuses r)
    (db_market_history r) (db_market_transactions r) (db_recent_operations
    r) (db_head_block_header r) (db_head_block_id r) (db_chain_id r)
    (db_skip_signature_verification r) (db_relay_fee r) (db_wall_clock r).
Definition set_db_assets (v : gmap Z asset_record) (r : chain_database) : chain_database :=
  ChainDatabase (db_properties r) v (db_symbol_index r) (db_slates r)
    (db_accounts r) (db_account_index r) (db_address_to_account r)
    (db_delegate_votes r) (db_balances r) (db_burns r) (db_transactions r)
    (db_unique_transactions r) (db_slots r) (db_bids r) (db_asks r)
    (db_shorts r) (db_collateral r) (db_feeds r) (db_market_statuses r)
    (db_market_history r) (db_market_transactions r) (db_recent_operations
    r) (db_head_block_header r) (db_head_block_id r) (db_chain_id r)
    (db_skip_signature_verification r) (db_relay_fee r) (db_wall_clock r).
Definition set_db_symbol_index (v : gmap string Z) (r : chain_database) : chain_database :=
  ChainDatabase (db_properties r) (db_assets r) v (db_slates r) (db_accounts
    r) (db_account_index r) (db_address_to_account r) (db_delegate_votes r)
    (db_balances r) (db_burns r) (db_transactions r) (db_unique_transactions
    r) (db_slots r) (db_bids r) (db_asks r) (db_shorts r) (db_collateral r)
    (db_feeds r) (db_market_statuses r) (db_market_history r)
    (db_market_transactions r) (db_recent_operations r)
    (db_head_block_header r) (db_head_block_id r) (db_chain_id r)
    (db_skip_signature_verification r) (db_relay_fee r) (db_wall_clock r).
Definition set_db_slates (v : gmap Z delegate_slate) (r : chain_database) : chain_database :=
  ChainDatabase (db_properties r) (db_assets r) (db_symbol_index r) v
    (db_accounts r) (db_account_index r) (db_address_to_account r)
    (db_delegate_votes r) (db_balances r) (db_burns r) (db_transactions r)
    (db_unique_transactions r) (db_slots r) (db_bids r) (db_asks r)
    (db_shorts r) (db_collateral r) (db_feeds r) (db_market_statuses r)
    (db_market_history r) (db_market_transactions r) (db_recent_operations
    r) (db_head_block_header r) (db_head_block_id r) (db_chain_id r)
    (db_skip_signature_verification r) (db_relay_fee r) (db_wall_clock r).
Definition set_db_accounts (v : gmap Z account_record) (r : chain_database) : chain_database :=
  ChainDatabase (db_properties r) (db_assets r) (db_symbol_index r)
    (db_slates r) v (db_account_index r) (db_address_to_account r)
    (db_delegate_votes r) (db_balances r) (db_burns r) (db_transactions r)
    (db_unique_transactions r) (db_slots r) (db_bids r) (db_asks r)
    (db_shorts r) (db_collateral r) (db_feeds r) (db_market_statuses r)
    (db_market_history r) (db_market_transactions r) (db_recent_operations
    r) (db_head_block_header r) (db_head_block_id r) (db_chain_id r)
    (db_skip_signature_verification r) (db_relay_fee r) (db_wall_clock r).
Definition set_db_account_index (v : gmap string Z) (r : chain_database) : chain_database :=
  ChainDatabase (db_properties r) (db_assets r) (db_symbol_index r)
    (db_slates r) (db_accounts r) v (db_address_to_account r)
    (db_delegate_votes r) (db_balances r) (db_burns r) (db_transactions r)
    (db_unique_transactions r) (db_slots r) (db_bids r) (db_asks r)
    (db_shorts r) (db_collateral r) (db_feeds r) (db_market_statuses r)
    (db_market_history r) (db_market_transactions r) (db_recent_operations
    r) (db_head_block_header r) (db_head_block_id r) (db_chain_id r)
    (db_skip_signature_verification r) (db_relay_fee r) (db_wall_clock r).
Definition set_db_address_to_account (v : gmap address Z) (r : chain_database) : chain_database :=
  ChainDatabase (db_properties r) (db_assets r) (db_symbol_index r)
    (db_slates r) (db_accounts r) (db_account_index r) v (db_delegate_votes
    r) (db_balances r) (db_burns r) (db_transactions r)
    (db_unique_transactions r) (db_slots r) (db_bids r) (db_asks r)
    (db_shorts r) (db_collateral r) (db_feeds r) (db_market_statuses r)
    (db_market_history r) (db_market_transactions r) (db_recent_operations
    r) (db_head_block_header r) (db_head_block_id r) (db_chain_id r)
    (db_skip_signature_verification r) (db_relay_fee r) (db_wall_clock r).
Definition set_db_delegate_votes (v : gset (Z * Z)) (r : chain_database) : chain_database :=
  ChainDatabase (db_properties r) (db_assets r) (db_symbol_index r)
    (db_slates r) (db_accounts r) (db_account_index r)
    (db_address_to_account r) v (db_balances r) (db_burns r)
    (db_transactions r) (db_unique_transactions r) (db_slots r) (db_bids r)
    (db_asks r) (db_shorts r) (db_collateral r) (db_feeds r)
    (db_market_statuses r) (db_market_history r) (db_market_transactions r)
    (db_recent_operations r) (db_head_block_header r) (db_head_block_id r)
    (db_chain_id r) (db_skip_signature_verification r) (db_relay_fee r)
    (db_wall_clock r).
Definition set_db_balances (v : gmap address balance_record) (r : chain_database) : chain_database :=
  ChainDatabase (db_properties r) (db_assets r) (db_symbol_index r)
    (db_slates r) (db_accounts r) (db_account_index r)
    (db_address_to_account r) (db_delegate_votes r) v (db_burns r)
    (db_transactions r) (db_unique_transactions r) (db_slots r) (db_bids r)
    (db_asks r) (db_shorts r) (db_collateral r) (db_feeds r)
    (db_market_statuses r) (db_market_history r) (db_market_transactions r)
    (db_recent_operations r) (db_head_block_header r) (db_head_block_id r)
    (db_chain_id r) (db_skip_signature_verification r) (db_relay_fee r)
    (db_wall_clock r).
Definition set_db_burns (v : gmap burn_record_key burn_record_value) (r : chain_database) : chain_database :=
  ChainDatabase (db_properties r) (db_assets r) (db_symbol_index r)
    (db_slates r) (db_accounts r) (db_account_index r)
    (db_address_to_account r) (db_delegate_votes r) (db_balances r) v
    (db_transactions r) (db_unique_transactions r) (db_slots r) (db_bids r)
    (db_asks r) (db_shorts r) (db_collateral r) (db_feeds r)
    (db_market_statuses r) (db_market_history r) (db_market_transactions r)
    (db_recent_operations r) (db_head_block_header r) (db_head_block_id r)
    (db_chain_id r) (db_skip_signature_verification r) (db_relay_fee r)
    (db_wall_clock r).
Definition set_db_transactions (v : gmap digest_type transaction_record) (r : chain_database) : chain_database :=
  ChainDatabase (db_properties r) (db_assets r) (db_symbol_index r)
    (db_slates r) (db_accounts r) (db_account_index r)
    (db_address_to_account r) (db_delegate_votes r) (db_balances r)
    (db_burns r) v (db_unique_transactions r) (db_slots r) (db_bids r)
    (db_asks r) (db_shorts r) (db_collateral r) (db_feeds r)
    (db_market_statuses r) (db_market_history r) (db_market_transactions r)
    (db_recent_operations r) (db_head_block_header r) (db_head_block_id r)
    (db_chain_id r) (db_skip_signature_verification r) (db_relay_fee r)
    (db_wall_clock r).
Definition set_db_unique_transactions (v : gmap Z (gset digest_type)) (r : chain_database) : chain_database :=
  ChainDatabase (db_properties r) (db_assets r) (db_symbol_index r)
    (db_slates r) (db_accounts r) (db_account_index r)
    (db_address_to_account r) (db_delegate_votes r) (db_balances r)
    (db_burns r) (db_transactions r) v (db_slots r) (db_bids r) (db_asks r)
    (db_shorts r) (db_collateral r) (db_feeds r) (db_market_statuses r)
    (db_market_history r) (db_market_transactions r) (db_recent_operations
    r) (db_head_block_header r) (db_head_block_id r) (db_chain_id r)
    (db_skip_signature_verification r) (db_relay_fee r) (db_wall_clock r).
Definition set_db_slots (v : gmap Z slot_record) (r : chain_database) : chain_database :=
  ChainDatabase (db_properties r) (db_assets r) (db_symbol_index r)
    (db_slates r) (db_accounts r) (db_account_index r)
    (db_address_to_account r) (db_delegate_votes r) (db_balances r)
    (db_burns r) (db_transactions r) (db_unique_transactions r) v (db_bids
    r) (db_asks r) (db_shorts r) (db_collateral r) (db_feeds r)
    (db_market_statuses r) (db_market_history r) (db_market_transactions r)
    (db_recent_operations r) (db_head_block_header r) (db_head_block_id r)
    (db_chain_id r) (db_skip_signature_verification r) (db_relay_fee r)
    (db_wall_clock r).
Definition set_db_bids (v : gmap market_index_key order_record) (r : chain_database) : chain_database :=
  ChainDatabase (db_properties r) (db_assets r) (db_symbol_index r)
    (db_slates r) (db_accounts r) (db_account_index r)
    (db_address_to_account r) (db_delegate_votes r) (db_balances r)
    (db_burns r) (db_transactions r) (db_unique_transactions r) (db_slots r)
    v (db_asks r) (db_shorts r) (db_collateral r) (db_feeds r)
    (db_market_statuses r) (db_market_history r) (db_market_transactions r)
    (db_recent_operations r) (db_head_block_header r) (db_head_block_id r)
    (db_chain_id r) (db_skip_signature_verification r) (db_relay_fee r)
    (db_wall_clock r).
Definition set_db_asks (v : gmap market_index_key order_record) (r : chain_database) : chain_database :=
  ChainDatabase (db_properties r) (db_assets r) (db_symbol_index r)
    (db_slates r) (db_accounts r) (db_account_index r)
    (db_address_to_account r) (db_delegate_votes r) (db_balances r)
    (db_burns r) (db_transactions r) (db_unique_transactions r) (db_slots r)
    (db_bids r) v (db_shorts r) (db_collateral r) (db_feeds r)
    (db_market_statuses r) (db_market_history r) (db_market_transactions r)
    (db_recent_operations r) (db_head_block_header r) (db_head_block_id r)
    (db_chain_id r) (db_skip_signature_verification r) (db_relay_fee r)
    (db_wall_clock r).
Definition set_db_shorts (v : gmap market_index_key order_record) (r : chain_database) : chain_database :=
  ChainDatabase (db_properties r) (db_assets r) (db_symbol_index r)
    (db_slates r) (db_accounts r) (db_account_index r)
    (db_address_to_account r) (db_delegate_votes r) (db_balances r)
    (db_burns r) (db_transactions r) (db_unique_transactions r) (db_slots r)
    (db_bids r) (db_asks r) v (db_collateral r) (db_feeds r)
    (db_market_statuses r) (db_market_history r) (db_market_transactions r)
    (db_recent_operations r) (db_head_block_header r) (db_head_block_id r)
    (db_chain_id r) (db_skip_signature_verification r) (db_relay_fee r)
    (db_wall_clock r).
Definition set_db_collateral (v : gmap market_index_key collateral_record) (r : chain_database) : chain_database :=
  ChainDatabase (db_properties r) (db_assets r) (db_symbol_index r)
    (db_slates r) (db_accounts r) (db_account_index r)
    (db_address_to_account r) (db_delegate_votes r) (db_balances r)
    (db_burns r) (db_transactions r) (db_unique_transactions r) (db_slots r)
    (db_bids r) (db_asks r) (db_shorts r) v (db_feeds r) (db_market_statuses
    r) (db_market_history r) (db_market_transactions r)
    (db_recent_operations r) (db_head_block_header r) (db_head_block_id r)
    (db_chain_id r) (db_skip_signature_verification r) (db_relay_fee r)
    (db_wall_clock r).
Definition set_db_feeds (v : gmap feed_index feed_record) (r : chain_database) : chain_database :=
  ChainDatabase (db_properties r) (db_assets r) (db_symbol_index r)
    (db_slates r) (db_accounts r) (db_account_index r)
    (db_address_to_account r) (db_delegate_votes r) (db_balances r)
    (db_burns r) (db_transactions r) (db_unique_transactions r) (db_slots r)
    (db_bids r) (db_asks r) (db_shorts r) (db_collateral r) v
    (db_market_statuses r) (db_market_history r) (db_market_transactions r)
    (db_recent_operations r) (db_head_block_header r) (db_head_block_id r)
    (db_chain_id r) (db_skip_signature_verification r) (db_relay_fee r)
    (db_wall_clock r).
Definition set_db_market_statuses (v : gmap (Z * Z) market_status) (r : chain_database) : chain_database :=
  ChainDatabase (db_properties r) (db_assets r) (db_symbol_index r)
    (db_slates r) (db_accounts r) (db_account_index r)
    (db_address_to_account r) (db_delegate_votes r) (db_balances r)
    (db_burns r) (db_transactions r) (db_unique_transactions r) (db_slots r)
    (db_bids r) (db_asks r) (db_shorts r) (db_collateral r) (db_feeds r) v
    (db_market_history r) (db_market_transactions r) (db_recent_operations
    r) (db_head_block_header r) (db_head_block_id r) (db_chain_id r)
    (db_skip_signature_verification r) (db_relay_fee r) (db_wall_clock r).
Definition set_db_market_history (v : gmap market_history_key market_history_record) (r : chain_database) : chain_database :=
  ChainDatabase (db_properties r) (db_assets r) (db_symbol_index r)
    (db_slates r) (db_accounts r) (db_account_index r)
    (db_address_to_account r) (db_delegate_votes r) (db_balances r)
    (db_burns r) (db_transactions r) (db_unique_transactions r) (db_slots r)
    (db_bids r) (db_asks r) (db_shorts r) (db_collateral r) (db_feeds r)
    (db_market_statuses r) v (db_market_transactions r)
    (db_recent_operations r) (db_head_block_header r) (db_head_block_id r)
    (db_chain_id r) (db_skip_signature_verification r) (db_relay_fee r)
    (db_wall_clock r).
Definition set_db_market_transactions (v : gmap Z (list market_transaction)) (r : chain_database) : chain_database :=
  ChainDatabase (db_properties r) (db_assets r) (db_symbol_index r)
    (db_slates r) (db_accounts r) (db_account_index r)
    (db_address_to_account r) (db_delegate_votes r) (db_balances r)
    (db_burns r) (db_transactions r) (db_unique_transactions r) (db_slots r)
    (db_bids r) (db_asks r) (db_shorts r) (db_collateral r) (db_feeds r)
    (db_market_statuses r) (db_market_history r) v (db_recent_operations r)
    (db_head_block_header r) (db_head_block_id r) (db_chain_id r)
    (db_skip_signature_verification r) (db_relay_fee r) (db_wall_clock r).
Definition set_db_recent_operations (v : gmap Z (list operation)) (r : chain_database) : chain_database :=
  ChainDatabase (db_properties r) (db_assets r) (db_symbol_index r)
    (db_slates r) (db_accounts r) (db_account_index r)
    (db_address_to_account r) (db_delegate_votes r) (db_balances r)
    (db_burns r) (db_transactions r) (db_unique_transactions r) (db_slots r)
    (db_bids r) (db_asks r) (db_shorts r) (db_collateral r) (db_feeds r)
    (db_market_statuses r) (db_market_history r) (db_market_transactions r)
    v (db_head_block_header r) (db_head_block_id r) (db_chain_id r)
    (db_skip_signature_verification r) (db_relay_fee r) (db_wall_clock r).
Definition set_db_head_block_header (v : signed_block_header) (r : chain_database) : chain_database :=
  ChainDatabase (db_properties r) (db_assets r) (db_symbol_index r)
    (db_slates r) (db_accounts r) (db_account_index r)
    (db_address_to_account r) (db_delegate_votes r) (db_balances r)
    (db_burns r) (db_transactions r) (db_unique_transactions r) (db_slots r)
    (db_bids r) (db_asks r) (db_shorts r) (db_collateral r) (db_feeds r)
    (db_market_statuses r) (db_market_history r) (db_market_transactions r)
    (db_recent_operations r) v (db_head_block_id r) (db_chain_id r)
    (db_skip_signature_verification r) (db_relay_fee r) (db_wall_clock r).
Definition set_db_head_block_id (v : digest_type) (r : chain_database) : chain_database :=
  ChainDatabase (db_properties r) (db_assets r) (db_symbol_index r)
    (db_slates r) (db_accounts r) (db_account_index r)
    (db_address_to_account r) (db_delegate_votes r) (db_balances r)
    (db_burns r) (db_transactions r) (db_unique_transactions r) (db_slots r)
    (db_bids r) (db_asks r) (db_shorts r) (db_collateral r) (db_feeds r)
    (db_market_statuses r) (db_market_history r) (db_market_transactions r)
    (db_recent_operations r) (db_head_block_header r) v (db_chain_id r)
    (db_skip_signature_verification r) (db_relay_fee r) (db_wall_clock r).
Definition set_db_chain_id (v : digest_type) (r : chain_database) : chain_database :=
  ChainDatabase (db_properties r) (db_assets r) (db_symbol_index r)
    (db_slates r) (db_accounts r) (db_account_index r)
    (db_address_to_account r) (db_delegate_votes r) (db_balances r)
    (db_burns r) (db_transactions r) (db_unique_transactions r) (db_slots r)
    (db_bids r) (db_asks r) (db_shorts r) (db_collateral r) (db_feeds r)
    (db_market_statuses r) (db_market_history r) (db_market_transactions r)
    (db_recent_operations r) (db_head_block_header r) (db_head_block_id r)
    v (db_skip_signature_verification r) (db_relay_fee r) (db_wall_clock r).
Definition set_db_skip_signature_verification (v : bool) (r : chain_database) : chain_database :=
  ChainDatabase (db_properties r) (db_assets r) (db_symbol_index r)
    (db_slates r) (db_accounts r) (db_account_index r)
    (db_address_to_account r) (db_delegate_votes r) (db_balances r)
    (db_burns r) (db_transactions r) (db_unique_transactions r) (db_slots r)
    (db_bids r) (db_asks r) (db_shorts r) (db_collateral r) (db_feeds r)
    (db_market_statuses r) (db_market_history r) (db_market_transactions r)
    (db_recent_operations r) (db_head_block_header r) (db_head_block_id r)
    (db_chain_id r) v (db_relay_fee r) (db_wall_clock r).
Definition set_db_relay_fee (v : Z) (r : chain_database) : chain_database :=
  ChainDatabase (db_properties r) (db_assets r) (db_symbol_index r)
    (db_slates r) (db_accounts r) (db_account_index r)
    (db_address_to_account r) (db_delegate_votes r) (db_balances r)
    (db_burns r) (db_transactions r) (db_unique_transactions r) (db_slots r)
    (db_bids r) (db_asks r) (db_shorts r) (db_collateral r) (db_feeds r)
    (db_market_statuses r) (db_market_history r) (db_market_transactions r)
    (db_recent_operations r) (db_head_block_header r) (db_head_block_id r)
    (db_chain_id r) (db_skip_signature_verification r) v (db_wall_clock r).
Definition set_db_wall_clock (v : Z) (r : chain_database) : chain_database :=
  ChainDatabase (db_properties r) (db_assets r) (db_symbol_index r)
    (db_slates r) (db_accounts r) (db_account_index r)
    (db_address_to_account r) (db_delegate_votes r) (db_balances r)
    (db_burns r) (db_transactions r) (db_unique_transactions r) (db_slots r)
    (db_bids r) (db_asks r) (db_shorts r) (db_collateral r) (db_feeds r)
    (db_market_statuses r) (db_market_history r) (db_market_transactions r)
    (db_recent_operations r) (db_head_block_header r) (db_head_block_id r)
    (db_chain_id r) (db_skip_signature_verification r) (db_relay_fee r) v.


(** ** The overlay of not yet applied changes *)

Record pending_chain_state := PendingChainState {
  p_market_transactions : list market_transaction;
  p_assets : gmap Z asset_record;
  p_slates : gmap Z delegate_slate;
  p_accounts : gmap Z account_record;
  p_balances : gmap address balance_record;
  p_account_id_index : gmap string Z;
  p_symbol_id_index : gmap string Z;
  p_transactions : gmap digest_type transaction_record;
  p_unique_transactions : gset digest_type;
  p_properties : gmap Z variant;
  p_key_to_account : gmap address Z;
  p_bids : gmap market_index_key order_record;
  p_asks : gmap market_index_key order_record;
  p_shorts : gmap market_index_key order_record;
  p_collateral : gmap market_index_key collateral_record;
  p_slots : gmap Z slot_record;
  p_market_history : gmap market_history_key market_history_record;
  p_market_statuses : gmap (Z * Z) market_status;
  p_recent_operations : gmap Z (list operation);
  p_feeds : gmap feed_index feed_record;
  p_burns : gmap burn_record_key burn_record_value;
  p_dirty_markets : gset (Z * Z)
}.
Definition set_p_market_transactions (v : list market_transaction) (r : pending_chain_state) : pending_chain_state :=
  PendingChainState v (p_assets r) (p_slates r) (p_accounts r) (p_balances
    r) (p_account_id_index r) (p_symbol_id_index r) (p_transactions r)
    (p_unique_transactions r) (p_properties r) (p_key_to_account r) (p_bids
    r) (p_asks r) (p_shorts r) (p_collateral r) (p_slots r)
    (p_market_history r) (p_market_statuses r) (p_recent_operations r)
    (p_feeds r) (p_burns r) (p_dirty_markets r).
Definition set_p_assets (v : gmap Z asset_record) (r : pending_chain_state) : pending_chain_state :=
  PendingChainState (p_market_transactions r) v (p_slates r) (p_accounts r)
    (p_balances r) (p_account_id_index r) (p_symbol_id_index r)
    (p_transactions r) (p_unique_transactions r) (p_properties r)
    (p_key_to_account r) (p_bids r) (p_asks r) (p_shorts r) (p_collateral r)
    (p_slots r) (p_market_history r) (p_market_statuses r)
    (p_recent_operations r) (p_feeds r) (p_burns r) (p_dirty_markets r).
Definition set_p_slates (v : gmap Z delegate_slate) (r : pending_chain_state) : pending_chain_state :=
  PendingChainState (p_market_transactions r) (p_assets r) v (p_accounts r)
    (p_balances r) (p_account_id_index r) (p_symbol_id_index r)
    (p_transactions r) (p_unique_transactions r) (p_properties r)
    (p_key_to_account r) (p_bids r) (p_asks r) (p_shorts r) (p_collateral r)
    (p_slots r) (p_market_history r) (p_market_statuses r)
    (p_recent_operations r) (p_feeds r) (p_burns r) (p_dirty_markets r).
Definition set_p_accounts (v : gmap Z account_record) (r : pending_chain_state) : pending_chain_state :=
  PendingChainState (p_market_transactions r) (p_assets r) (p_slates r) v
    (p_balances r) (p_account_id_index r) (p_symbol_id_index r)
    (p_transactions r) (p_unique_transactions r) (p_properties r)
    (p_key_to_account r) (p_bids r) (p_asks r) (p_shorts r) (p_collateral r)
    (p_slots r) (p_market_history r) (p_market_statuses r)
    (p_recent_operations r) (p_feeds r) (p_burns r) (p_dirty_markets r).
Definition set_p_balances (v : gmap address balance_record) (r : pending_chain_state) : pending_chain_state :=
  PendingChainState (p_market_transactions r) (p_assets r) (p_slates r)
    (p_accounts r) v (p_account_id_index r) (p_symbol_id_index r)
    (p_transactions r) (p_unique_transactions r) (p_properties r)
    (p_key_to_account r) (p_bids r) (p_asks r) (p_shorts r) (p_collateral r)
    (p_slots r) (p_market_history r) (p_market_statuses r)
    (p_recent_operations r) (p_feeds r) (p_burns r) (p_dirty_markets r).
Definition set_p_account_id_index (v : gmap string Z) (r : pending_chain_state) : pending_chain_state :=
  PendingChainState (p_market_transactions r) (p_assets r) (p_slates r)
    (p_accounts r) (p_balances r) v (p_symbol_id_index r) (p_transactions r)
    (p_unique_transactions r) (p_properties r) (p_key_to_account r) (p_bids
    r) (p_asks r) (p_shorts r) (p_collateral r) (p_slots r)
    (p_market_history r) (p_market_statuses r) (p_recent_operations r)
    (p_feeds r) (p_burns r) (p_dirty_markets r).
Definition set_p_transactions (v : gmap digest_type transaction_record) (r : pending_chain_state) : pending_chain_state :=
  PendingChainState (p_market_transactions r) (p_assets r) (p_slates r)
    (p_accounts r) (p_balances r) (p_account_id_index r) (p_symbol_id_index
    r) v (p_unique_transactions r) (p_properties r) (p_key_to_account r)
    (p_bids r) (p_asks r) (p_shorts r) (p_collateral r) (p_slots r)
    (p_market_history r) (p_market_statuses r) (p_recent_operations r)
    (p_feeds r) (p_burns r) (p_dirty_markets r).
Definition set_p_unique_transactions (v : gset digest_type) (r : pending_chain_state) : pending_chain_state :=
  PendingChainState (p_market_transactions r) (p_assets r) (p_slates r)
    (p_accounts r) (p_balances r) (p_account_id_index r) (p_symbol_id_index
    r) (p_transactions r) v (p_properties r) (p_key_to_account r) (p_bids r)
    (p_asks r) (p_shorts r) (p_collateral r) (p_slots r) (p_market_history
    r) (p_market_statuses r) (p_recent_operations r) (p_feeds r) (p_burns r)
    (p_dirty_markets r).
Definition set_p_properties (v : gmap Z variant) (r : pending_chain_state) : pending_chain_state :=
  PendingChainState (p_market_transactions r) (p_assets r) (p_slates r)
    (p_accounts r) (p_balances r) (p_account_id_index r) (p_symbol_id_index
    r) (p_transactions r) (p_unique_transactions r) v (p_key_to_account r)
    (p_bids r) (p_asks r) (p_shorts r) (p_collateral r) (p_slots r)
    (p_market_history r) (p_market_statuses r) (p_recent_operations r)
    (p_feeds r) (p_burns r) (p_dirty_markets r).
Definition set_p_key_to_account (v : gmap address Z) (r : pending_chain_state) : pending_chain_state :=
  PendingChainState (p_market_transactions r) (p_assets r) (p_slates r)
    (p_accounts r) (p_balances r) (p_account_id_index r) (p_symbol_id_index
    r) (p_transactions r) (p_unique_transactions r) (p_properties r) v
    (p_bids r) (p_asks r) (p_shorts r) (p_collateral r) (p_slots r)
    (p_market_history r) (p_market_statuses r) (p_recent_operations r)
    (p_feeds r) (p_burns r) (p_dirty_markets r).
Definition set_p_bids (v : gmap market_index_key order_record) (r : pending_chain_state) : pending_chain_state :=
  PendingChainState (p_market_transactions r) (p_assets r) (p_slates r)
    (p_accounts r) (p_balances r) (p_account_id_index r) (p_symbol_id_index
    r) (p_transactions r) (p_unique_transactions r) (p_properties r)
    (p_key_to_account r) v (p_asks r) (p_shorts r) (p_collateral r) (p_slots
    r) (p_market_history r) (p_market_statuses r) (p_recent_operations r)
    (p_feeds r) (p_burns r) (p_dirty_markets r).
Definition set_p_asks (v : gmap market_index_key order_record) (r : pending_chain_state) : pending_chain_state :=
  PendingChainState (p_market_transactions r) (p_assets r) (p_slates r)
    (p_accounts r) (p_balances r) (p_account_id_index r) (p_symbol_id_index
    r) (p_transactions r) (p_unique_transactions r) (p_properties r)
    (p_key_to_account r) (p_bids r) v (p_shorts r) (p_collateral r) (p_slots
    r) (p_market_history r) (p_market_statuses r) (p_recent_operations r)
    (p_feeds r) (p_burns r) (p_dirty_markets r).
Definition set_p_shorts (v : gmap market_index_key order_record) (r : pending_chain_state) : pending_chain_state :=
  PendingChainState (p_market_transactions r) (p_assets r) (p_slates r)
    (p_accounts r) (p_balances r) (p_account_id_index r) (p_symbol_id_index
    r) (p_transactions r) (p_unique_transactions r) (p_properties r)
    (p_key_to_account r) (p_bids r) (p_asks r) v (p_collateral r) (p_slots
    r) (p_market_history r) (p_market_statuses r) (p_recent_operations r)
    (p_feeds r) (p_burns r) (p_dirty_markets r).
Definition set_p_collateral (v : gmap market_index_key collateral_record) (r : pending_chain_state) : pending_chain_state :=
  PendingChainState (p_market_transactions r) (p_assets r) (p_slates r)
    (p_accounts r) (p_balances r) (p_account_id_index r) (p_symbol_id_index
    r) (p_transactions r) (p_unique_transactions r) (p_properties r)
    (p_key_to_account r) (p_bids r) (p_asks r) (p_shorts r) v (p_slots r)
    (p_market_history r) (p_market_statuses r) (p_recent_operations r)
    (p_feeds r) (p_burns r) (p_dirty_markets r).
Definition set_p_slots (v : gmap Z slot_record) (r : pending_chain_state) : pending_chain_state :=
  PendingChainState (p_market_transactions r) (p_assets r) (p_slates r)
    (p_accounts r) (p_balances r) (p_account_id_index r) (p_symbol_id_index
    r) (p_transactions r) (p_unique_transactions r) (p_properties r)
    (p_key_to_account r) (p_bids r) (p_asks r) (p_shorts r) (p_collateral r)
    v (p_market_history r) (p_market_statuses r) (p_recent_operations r)
    (p_feeds r) (p_burns r) (p_dirty_markets r).
Definition set_p_market_history (v : gmap market_history_key market_history_record) (r : pending_chain_state) : pending_chain_state :=
  PendingChainState (p_market_transactions r) (p_assets r) (p_slates r)
    (p_accounts r) (p_balances r) (p_account_id_index r) (p_symbol_id_index
    r) (p_transactions r) (p_unique_transactions r) (p_properties r)
    (p_key_to_account r) (p_bids r) (p_asks r) (p_shorts r) (p_collateral r)
    (p_slots r) v (p_market_statuses r) (p_recent_operations r) (p_feeds r)
    (p_burns r) (p_dirty_markets r).
Definition set_p_market_statuses (v : gmap (Z * Z) market_status) (r : pending_chain_state) : pending_chain_state :=
  PendingChainState (p_market_transactions r) (p_assets r) (p_slates r)
    (p_accounts r) (p_balances r) (p_account_id_index r) (p_symbol_id_index
    r) (p_transactions r) (p_unique_transactions r) (p_properties r)
    (p_key_to_account r) (p_bids r) (p_asks r) (p_shorts r) (p_collateral r)
    (p_slots r) (p_market_history r) v (p_recent_operations r) (p_feeds r)
    (p_burns r) (p_dirty_markets r).
Definition set_p_recent_operations (v : gmap Z (list operation)) (r : pending_chain_state) : pending_chain_state :=
  PendingChainState (p_market_transactions r) (p_assets r) (p_slates r)
    (p_accounts r) (p_balances r) (p_account_id_index r) (p_symbol_id_index
    r) (p_transactions r) (p_unique_transactions r) (p_properties r)
    (p_key_to_account r) (p_bids r) (p_asks r) (p_shorts r) (p_collateral r)
    (p_slots r) (p_market_history r) (p_market_statuses r) v (p_feeds r)
    (p_burns r) (p_dirty_markets r).
Definition set_p_feeds (v : gmap feed_index feed_record) (r : pending_chain_state) : pending_chain_state :=
  PendingChainState (p_market_transactions r) (p_assets r) (p_slates r)
    (p_accounts r) (p_balances r) (p_account_id_index r) (p_symbol_id_index
    r) (p_transactions r) (p_unique_transactions r) (p_properties r)
    (p_key_to_account r) (p_bids r) (p_asks r) (p_shorts r) (p_collateral r)
    (p_slots r) (p_market_history r) (p_market_statuses r)
    (p_recent_operations r) v (p_burns r) (p_dirty_markets r).
Definition set_p_burns (v : gmap burn_record_key burn_record_value) (r : pending_chain_state) : pending_chain_state :=
  PendingChainState (p_market_transactions r) (p_assets r) (p_slates r)
    (p_accounts r) (p_balances r) (p_account_id_index r) (p_symbol_id_index
    r) (p_transactions r) (p_unique_transactions r) (p_properties r)
    (p_key_to_account r) (p_bids r) (p_asks r) (p_shorts r) (p_collateral r)
    (p_slots r) (p_market_history r) (p_market_statuses r)
    (p_recent_operations r) (p_feeds r) v (p_dirty_markets r).
Definition set_p_dirty_markets (v : gset (Z * Z)) (r : pending_chain_state) : pending_chain_state :=
  PendingChainState (p_market_transactions r) (p_assets r) (p_slates r)
    (p_accounts r) (p_balances r) (p_account_id_index r) (p_symbol_id_index
    r) (p_transactions r) (p_unique_transactions r) (p_properties r)
    (p_key_to_account r) (p_bids r) (p_asks r) (p_shorts r) (p_collateral r)
    (p_slots r) (p_market_history r) (p_market_statuses r)
    (p_recent_operations r) (p_feeds r) (p_burns r) v.


(** [pending_chain_state( prev_state )] *)
Definition pending_chain_state_empty : pending_chain_state :=
  PendingChainState [] ∅ ∅ ∅ ∅ ∅ ∅ ∅ ∅ ∅ ∅ ∅ ∅ ∅ ∅ ∅ ∅ ∅ ∅ ∅ ∅ ∅.

(** What [FC_REFLECT] lists: the part of a pending state that survives being
    written to and read back from the undo database. *)
Definition pending_chain_state_reflected (p : pending_chain_state) : pending_chain_state :=
  PendingChainState [] (p_assets p) (p_slates p) (p_accounts p) (p_balances p)
    (p_account_id_index p) (p_symbol_id_index p) (p_transactions p) ∅ (p_properties p) ∅
    (p_bids p) (p_asks p) (p_shorts p) (p_collateral p) (p_slots p) ∅ (p_market_statuses p) ∅
    (p_feeds p) (p_burns p) (p_dirty_markets p).

Definition chain_database_empty (chain_id : digest_type) : chain_database :=
  ChainDatabase ∅ ∅ ∅ ∅ ∅ ∅ ∅ ∅ ∅ ∅ ∅ ∅ ∅ ∅ ∅ ∅ ∅ ∅ ∅ ∅ ∅ ∅
    signed_block_header_default 0 chain_id false BTS_BLOCKCHAIN_DEFAULT_RELAY_FEE 0.

(** A state of the chain: the database, or an overlay on another state whose
    [weak_ptr] may have expired. *)
Inductive chain_state :=
  | Expired
  | Database (d : chain_database)
  | Pending (p : pending_chain_state) (prev : chain_state).

(** ** Properties ([chain_property_enum]) *)
Definition last_asset_id_prop : Z := 0.
Definition last_account_id_prop : Z := 1.
Definition last_proposal_id : Z := 2.
Definition last_random_seed_id : Z := 3.
Definition active_delegate_list_id : Z := 4.
Definition chain_id_prop : Z := 5.
Definition confirmation_requirement : Z := 6.
Definition dirty_markets_prop : Z := 8.
