(* ===== verification/ChainState.v ===== *)
(** The states of the chain and their operations ([chain_interface.hpp],
    [pending_chain_state.cpp], and the accessors of [chain_database.cpp]): a
    [pending_chain_state] collects changes over the state below it, reads
    through to that state what it does not hold, applies its changes to it, and
    computes the changes that would undo its own.

    Loops over [std::unordered_map] and [std::map] members run over
    [map_to_list]: each step of these loops writes entries of its own key. *)
From S2P Require Export Store.

(** ** Slots of time ([time.cpp]) *)
Definition get_slot_number (timestamp : Z) : Z :=
  u32 (timestamp / BTS_BLOCKCHAIN_BLOCK_INTERVAL_SEC).
Definition get_slot_start_time (slot_number : Z) : Z :=
  u32 (slot_number * BTS_BLOCKCHAIN_BLOCK_INTERVAL_SEC).
Definition slot_start_of (timestamp : Z) : Z := get_slot_start_time (get_slot_number timestamp).

(** ** Reading through *)
Section look.
Context {K V : Type} `{Countable K}.
Variable fp : pending_chain_state → gmap K V.
Variable fd : chain_database → gmap K V.

(** Look in this state, then in the one below if there is one. *)
Fixpoint look_through (k : K) (s : chain_state) : option V :=
  match s with
  | Expired => None
  | Database d => fd d !! k
  | Pending p prev => match fp p !! k with Some v => Some v | None => look_through k prev end
  end.

(** The same, where the code dereferences the state below unchecked. *)
Fixpoint look_through_deref (k : K) (s : chain_state) : result (option V) :=
  match s with
  | Expired => Err undefined
  | Database d => Ok (fd d !! k)
  | Pending p prev =>
      match fp p !! k with Some v => Ok (Some v) | None => look_through_deref k prev end
  end.

(** The table a state presents: its own entries over those below. *)
Fixpoint eff (s : chain_state) : gmap K V :=
  match s with Expired => ∅ | Database d => fd d | Pending p prev => fp p ∪ eff prev end.

Lemma look_through_eff k s : look_through k s = eff s !! k.
Proof.
  induction s as [|d|p prev IH]; simpl; [by rewrite lookup_empty|done|].
  rewrite lookup_union, IH. by destruct (fp p !! k), (eff prev !! k).
Qed.

Lemma eff_pending_insert p p' prev k v :
  fp p' = <[k := v]> (fp p) → eff (Pending p' prev) = <[k := v]> (eff (Pending p prev)).
Proof. intros E. simpl. by rewrite E, insert_union_l. Qed.

Lemma eff_pending_same p p' prev :
  fp p' = fp p → eff (Pending p' prev) = eff (Pending p prev).
Proof. intros E. simpl. by rewrite E. Qed.
End look.

Definition fold_map {K V S} `{Countable K} (f : K → V → S → S) (m : gmap K V) (s : S) : S :=
  foldl (λ s x, f x.1 x.2 s) s (map_to_list m).

Section chain_state.
Context `{!Crypto}.

(** ** Simple accessors *)
Definition get_asset_record : Z → chain_state → option asset_record :=
  look_through p_assets db_assets.
Definition get_balance_record : address → chain_state → option balance_record :=
  look_through p_balances db_balances.
Definition get_account_record : Z → chain_state → option account_record :=
  look_through p_accounts db_accounts.
Definition get_delegate_slate : Z → chain_state → option delegate_slate :=
  look_through p_slates db_slates.
Definition get_bid_record : market_index_key → chain_state → option order_record :=
  look_through p_bids db_bids.
Definition get_ask_record : market_index_key → chain_state → option order_record :=
  look_through p_asks db_asks.
Definition get_short_record : market_index_key → chain_state → option order_record :=
  look_through p_shorts db_shorts.
Definition get_collateral_record : market_index_key → chain_state → option collateral_record :=
  look_through p_collateral db_collateral.
Definition get_slot_record : Z → chain_state → option slot_record :=
  look_through p_slots db_slots.
Definition get_feed : feed_index → chain_state → result (option feed_record) :=
  look_through_deref p_feeds db_feeds.
Definition fetch_burn_record : burn_record_key → chain_state → result (option burn_record_value) :=
  look_through_deref p_burns db_burns.
Definition get_market_status (quote_id base_id : Z) : chain_state → result (option market_status) :=
  look_through_deref p_market_statuses db_market_statuses (quote_id, base_id).

(** A pending state does not read market history through. *)
Definition get_market_history_record (k : market_history_key) (s : chain_state)
    : option market_history_record :=
  match s with
  | Expired => None
  | Database d => db_market_history d !! k
  | Pending p _ => p_market_history p !! k
  end.

Fixpoint get_asset_record_by_symbol (symbol : string) (s : chain_state) : option asset_record :=
  match s with
  | Expired => None
  | Database d =>
      match db_symbol_index d !! symbol with Some id => get_asset_record id s | None => None end
  | Pending p prev =>
      match p_symbol_id_index p !! symbol with
      | Some id => get_asset_record id s
      | None => get_asset_record_by_symbol symbol prev
      end
  end.
Fixpoint get_account_record_by_name (name : string) (s : chain_state) : option account_record :=
  match s with
  | Expired => None
  | Database d =>
      match db_account_index d !! name with Some id => get_account_record id s | None => None end
  | Pending p prev =>
      match p_account_id_index p !! name with
      | Some id => get_account_record id s
      | None => get_account_record_by_name name prev
      end
  end.
Fixpoint get_account_record_by_address (owner : address) (s : chain_state)
    : result (option account_record) :=
  match s with
  | Expired => Err assert_failure
  | Database d =>
      match db_address_to_account d !! owner with
      | Some id => Ok (get_account_record id s)
      | None => Ok None
      end
  | Pending p prev =>
      match p_key_to_account p !! owner with
      | Some id => Ok (get_account_record id s)
      | None => get_account_record_by_address owner prev
      end
  end.

Fixpoint get_property (property_id : Z) (s : chain_state) : result variant :=
  match s with
  | Expired => Ok v_null
  | Database d => of_option key_not_found (db_properties d !! property_id)
  | Pending p prev =>
      match p_properties p !! property_id with
      | Some v => Ok v
      | None => get_property property_id prev
      end
  end.

Fixpoint get_head_block_num (s : chain_state) : result Z :=
  match s with
  | Expired => Err assert_failure
  | Database d => Ok (bh_block_num (sbh_header (db_head_block_header d)))
  | Pending _ prev => get_head_block_num prev
  end.

(** The time of the head block; before the first block, the start of the slot
    before the current one. *)
Definition db_now (d : chain_database) : Z :=
  let h := sbh_header (db_head_block_header d) in
  if bh_block_num h <=? 0
  then get_slot_start_time (u32 (get_slot_number (db_wall_clock d) - 1))
  else bh_timestamp h.
Fixpoint now (s : chain_state) : result Z :=
  match s with
  | Expired => Err assert_failure
  | Database d => Ok (db_now d)
  | Pending _ prev => now prev
  end.

Fixpoint is_known_transaction (exp : Z) (id : digest_type) (s : chain_state) : result bool :=
  match s with
  | Expired => Err undefined
  | Database d =>
      Ok match db_unique_transactions d !! exp with
         | Some ids => bool_decide (id ∈ ids)
         | None => false
         end
  | Pending p prev =>
      if bool_decide (id ∈ p_unique_transactions p) then Ok true
      else is_known_transaction exp id prev
  end.

(** With [exact] unset, the record whose id follows [trx_id] when the first
    four bytes agree. *)
Definition db_get_transaction (trx_id' : digest_type) (exact : bool) (d : chain_database)
    : result (option transaction_record) :=
  match db_transactions d !! trx_id' with
  | Some r =>
      ensure trx_id (tr_trx r) =? trx_id' else assert_failure in Ok (Some r)
  | None =>
      if exact then Ok None else
      match it_lower_bound trx_id' (db_transactions d) with
      | Some id =>
          if bool_decide (take 4 (be_bytes 20 id) = take 4 (be_bytes 20 trx_id'))
          then Ok (db_transactions d !! id) else Ok None
      | None => Ok None
      end
  end.
Fixpoint get_transaction (trx_id' : digest_type) (exact : bool) (s : chain_state)
    : result (option transaction_record) :=
  match s with
  | Expired => Err undefined
  | Database d => db_get_transaction trx_id' exact d
  | Pending p prev =>
      match p_transactions p !! trx_id' with
      | Some r => Ok (Some r)
      | None => get_transaction trx_id' exact prev
      end
  end.

Fixpoint get_lowest_ask_record (quote_id base_id : Z) (s : chain_state)
    : result (option market_order) :=
  match s with
  | Expired => Ok None
  | Database d =>
      let* p := price_zero quote_id base_id in
      match it_lower_bound (MarketIndexKey p 0) (db_asks d) with
      | Some k =>
          if (quote_asset_id (order_price k) =? quote_id)
             && (base_asset_id (order_price k) =? base_id)
          then Ok ((λ o, MarketOrder ask_order k o None None None) <$> db_asks d !! k)
          else Ok None
      | None => Ok None
      end
  | Pending p prev =>
      match prev with
      | Expired => Ok None
      | _ =>
          let* pending := get_lowest_ask_record quote_id base_id prev in
          match pending with
          | None => Ok None
          | Some o =>
              let* st := of_option undefined (get_ask_record (mo_market_index o) s) in
              Ok (Some (set_mo_state st o))
          end
      end
  end.

(** ** Derived accessors ([chain_interface.cpp]) *)
Definition last_asset_id (s : chain_state) : result Z :=
  let* v := get_property last_asset_id_prop s in as_int v.
Definition last_account_id (s : chain_state) : result Z :=
  let* v := get_property last_account_id_prop s in as_int v.
Definition get_active_delegates (s : chain_state) : result (list Z) :=
  let* v := get_property active_delegate_list_id s in as_ids v.
Definition is_active_delegate (id : Z) (s : chain_state) : result bool :=
  let* active := get_active_delegates s in Ok (bool_decide (id ∈ active)).
Definition get_required_confirmations (s : chain_state) : result Z :=
  let* v := get_property confirmation_requirement s in as_int v.
Definition get_current_random_seed (s : chain_state) : result digest_type :=
  let* v := get_property last_random_seed_id s in as_hash v.
(** Any exception on the way means no market is dirty. *)
Definition get_dirty_markets (s : chain_state) : gset (Z * Z) :=
  match (let* v := get_property dirty_markets_prop s in as_pairs v) with
  | Ok l => list_to_set l
  | Err _ => ∅
  end.
Definition get_delegate_pay_rate (s : chain_state) : result Z :=
  let* r := of_option assert_failure (get_asset_record 0 s) in
  Ok BTS_MAX_DELEGATE_PAY_PER_BLOCK.
Definition get_account_registration_fee : Z := PTS_ACCOUNT_REG_FEE.
Definition get_delegate_registration_fee_base (s : chain_state) : result Z :=
  let* rate := get_delegate_pay_rate s in
  Ok (s64 (Z.quot (s64 (rate * BTS_BLOCKCHAIN_DELEGATE_REGISTRATION_FEE))
                  BTS_BLOCKCHAIN_NUM_DELEGATES)).
Definition get_asset_registration_fee (s : chain_state) : result Z :=
  let* rate := get_delegate_pay_rate s in
  Ok (s64 (rate * (BTS_BLOCKCHAIN_BLOCKS_PER_DAY * 14))).

(** ** Stores into the database: a null record removes its entry *)
Definition put {K V} `{Countable K} (null : V → bool) (k : K) (v : V) (m : gmap K V) : gmap K V :=
  if null v then delete k m else <[k := v]> m.

Definition db_set_property (id : Z) (v : variant) (d : chain_database) : chain_database :=
  set_db_properties (put variant_is_null id v (db_properties d)) d.
Definition db_store_asset_record (r : asset_record) (d : chain_database) : chain_database :=
  if ar_is_null r
  then set_db_symbol_index (delete (ar_symbol r) (db_symbol_index d))
         (set_db_assets (delete (ar_id r) (db_assets d)) d)
  else set_db_symbol_index (<[ar_symbol r := ar_id r]> (db_symbol_index d))
         (set_db_assets (<[ar_id r := r]> (db_assets d)) d).
(** Balance records are kept when they are empty. *)
Definition db_store_balance_record (r : balance_record) (d : chain_database) : chain_database :=
  set_db_balances (<[br_id r := r]> (db_balances d)) d.

Definition key_addresses (r : account_record) : list address :=
  (λ x, address_of_key x.2) <$> ac_active_key_history r.
Definition drop_votes (old : option account_record) (id : Z) (votes : gset (Z * Z))
    : gset (Z * Z) :=
  match old ≫= ac_delegate_info with
  | Some i => votes ∖ {[(ds_votes_for i, id)]}
  | None => votes
  end.
Definition db_store_account_record (r : account_record) (d : chain_database) : chain_database :=
  let old_rec := db_accounts d !! ac_id r in
  match ac_is_null r, old_rec with
  | true, Some old =>
      set_db_delegate_votes (drop_votes old_rec (ac_id r) (db_delegate_votes d))
        (set_db_address_to_account
           (foldl (λ m a, delete a m) (db_address_to_account d) (key_addresses old))
           (set_db_account_index (delete (ac_name r) (db_account_index d))
              (set_db_accounts (delete (ac_id r) (db_accounts d)) d)))
  | true, None => d
  | false, _ =>
      let votes := drop_votes old_rec (ac_id r) (db_delegate_votes d) in
      let votes := match ac_delegate_info r with
                   | Some i => {[(ds_votes_for i, ac_id r)]} ∪ votes
                   | None => votes
                   end in
      set_db_delegate_votes votes
        (set_db_address_to_account
           (foldl (λ m a, <[a := ac_id r]> m) (db_address_to_account d) (key_addresses r))
           (set_db_account_index (<[ac_name r := ac_id r]> (db_account_index d))
              (set_db_accounts (<[ac_id r := r]> (db_accounts d)) d)))
  end.

Definition push_recent (o : operation) (q : gmap Z (list operation)) : gmap Z (list operation) :=
  let l := default [] (q !! operation_type o) ++ [o] in
  <[operation_type o := if decide (MAX_RECENT_OPERATIONS < length l)%nat then drop 1 l else l]> q.
Definition db_store_recent_operation (o : operation) (d : chain_database) : chain_database :=
  set_db_recent_operations (push_recent o (db_recent_operations d)) d.

Definition db_store_transaction (id : digest_type) (r : transaction_record) (d : chain_database)
    : result chain_database :=
  let t := st_trx (tr_trx r) in
  let digest := trx_digest (db_chain_id d) t in
  let digests := default ∅ (db_unique_transactions d !! tx_expiration t) in
  match tx_operations t with
  | [] =>
      let d := set_db_transactions (delete id (db_transactions d)) d in
      Ok (set_db_unique_transactions
            (<[tx_expiration t := digests ∖ {[digest]}]> (db_unique_transactions d)) d)
  | _ =>
      ensure id =? trx_id (tr_trx r) else assert_failure in
      let d := set_db_transactions (<[id := r]> (db_transactions d)) d in
      if db_now d <? tx_expiration t then
        let inserted := negb (bool_decide (digest ∈ digests)) in
        let d := set_db_unique_transactions
                   (<[tx_expiration t := {[digest]} ∪ digests]> (db_unique_transactions d)) d in
        ensure (bh_block_num (sbh_header (db_head_block_header d)) <? FORK_25) || inserted
          else assert_failure in
        Ok d
      else Ok d
  end.

Definition db_store_bid_record (k : market_index_key) (r : order_record) (d : chain_database) :=
  set_db_bids (put or_is_null k r (db_bids d)) d.
Definition db_store_ask_record (k : market_index_key) (r : order_record) (d : chain_database) :=
  set_db_asks (put or_is_null k r (db_asks d)) d.
Definition db_store_short_record (k : market_index_key) (r : order_record) (d : chain_database) :=
  set_db_shorts (put or_is_null k r (db_shorts d)) d.
Definition db_store_collateral_record (k : market_index_key) (r : collateral_record)
    (d : chain_database) :=
  set_db_collateral (put cr_is_null k r (db_collateral d)) d.
Definition db_store_delegate_slate (id : Z) (s : delegate_slate) (d : chain_database) :=
  set_db_slates (put (λ s, bool_decide (s = [])) id s (db_slates d)) d.
Definition db_store_slot_record (r : slot_record) (d : chain_database) :=
  set_db_slots (put sl_is_null (sl_start_time r) r (db_slots d)) d.
Definition db_store_market_history_record (k : market_history_key) (r : market_history_record)
    (d : chain_database) :=
  set_db_market_history (put (λ r, mh_volume r =? 0) k r (db_market_history d)) d.
Definition db_store_market_status (s : market_status) (d : chain_database) :=
  set_db_market_statuses (put ms_is_null (ms_quote_id s, ms_base_id s) s (db_market_statuses d)) d.
Definition db_set_feed (r : feed_record) (d : chain_database) :=
  set_db_feeds (put fr_is_null (fr_feed r) r (db_feeds d)) d.
Definition db_store_burn_record (k : burn_record_key) (v : burn_record_value) (d : chain_database) :=
  set_db_burns (put bv_is_null k v (db_burns d)) d.
Definition db_set_market_transactions (trxs : list market_transaction) (d : chain_database) :=
  let n := u32 (bh_block_num (sbh_header (db_head_block_header d)) + 1) in
  set_db_market_transactions
    (put (λ l, bool_decide (length l = 0%nat)) n trxs (db_market_transactions d)) d.

(** ** Stores into a pending state *)
Definition p_set_property (id : Z) (v : variant) (p : pending_chain_state) :=
  set_p_properties (<[id := v]> (p_properties p)) p.
Definition p_store_asset_record (r : asset_record) (p : pending_chain_state) :=
  set_p_assets (<[ar_id r := r]> (p_assets p)) p.
Definition p_store_balance_record (r : balance_record) (p : pending_chain_state) :=
  set_p_balances (<[br_id r := r]> (p_balances p)) p.
Definition p_store_account_record (r : account_record) (p : pending_chain_state) :=
  set_p_key_to_account
    (<[address_of_key (ac_owner_key r) := ac_id r]>
       (foldl (λ m a, <[a := ac_id r]> m) (p_key_to_account p) (key_addresses r)))
    (set_p_account_id_index (<[ac_name r := ac_id r]> (p_account_id_index p))
       (set_p_accounts (<[ac_id r := r]> (p_accounts p)) p)).
Definition p_store_recent_operation (o : operation) (p : pending_chain_state) :=
  set_p_recent_operations (push_recent o (p_recent_operations p)) p.

(** The digest is checked against the state below; without one the record is
    stored as it is. *)
Definition p_store_transaction (id : digest_type) (r : transaction_record)
    (p : pending_chain_state) (prev : chain_state) : result pending_chain_state :=
  let t := st_trx (tr_trx r) in
  let p := set_p_transactions (<[id := r]> (p_transactions p)) p in
  let* p :=
    match prev with
    | Expired => Ok p
    | _ =>
        let* prop := get_property chain_id_prop prev in
        let* chain := as_hash prop in
        let digest := trx_digest chain t in
        let inserted := negb (bool_decide (digest ∈ p_unique_transactions p)) in
        let p := set_p_unique_transactions ({[digest]} ∪ p_unique_transactions p) p in
        let* n := get_head_block_num prev in
        ensure (n <? FORK_25) || inserted else assert_failure in Ok p
    end in
  Ok (foldl (λ p o, p_store_recent_operation o p) p (tx_operations t)).

Definition mark_dirty (k : market_index_key) (p : pending_chain_state) :=
  set_p_dirty_markets ({[asset_pair (order_price k)]} ∪ p_dirty_markets p) p.
Definition p_store_bid_record (k : market_index_key) (r : order_record) (p : pending_chain_state) :=
  mark_dirty k (set_p_bids (<[k := r]> (p_bids p)) p).
Definition p_store_ask_record (k : market_index_key) (r : order_record) (p : pending_chain_state) :=
  mark_dirty k (set_p_asks (<[k := r]> (p_asks p)) p).
Definition p_store_short_record (k : market_index_key) (r : order_record)
    (p : pending_chain_state) :=
  mark_dirty k (set_p_shorts (<[k := r]> (p_shorts p)) p).
Definition p_store_collateral_record (k : market_index_key) (r : collateral_record)
    (p : pending_chain_state) :=
  mark_dirty k (set_p_collateral (<[k := r]> (p_collateral p)) p).
Definition p_set_market_dirty (quote_id base_id : Z) (p : pending_chain_state) :=
  set_p_dirty_markets ({[(quote_id, base_id)]} ∪ p_dirty_markets p) p.
Definition p_store_delegate_slate (id : Z) (s : delegate_slate) (p : pending_chain_state) :=
  set_p_slates (<[id := s]> (p_slates p)) p.
Definition p_store_slot_record (r : slot_record) (p : pending_chain_state) :=
  set_p_slots (<[sl_start_time r := r]> (p_slots p)) p.
Definition p_store_market_history_record (k : market_history_key) (r : market_history_record)
    (p : pending_chain_state) :=
  set_p_market_history (<[k := r]> (p_market_history p)) p.
Definition p_store_market_status (s : market_status) (p : pending_chain_state) :=
  set_p_market_statuses (<[(ms_quote_id s, ms_base_id s) := s]> (p_market_statuses p)) p.
Definition p_set_feed (r : feed_record) (p : pending_chain_state) :=
  set_p_feeds (<[fr_feed r := r]> (p_feeds p)) p.
Definition p_store_burn_record (k : burn_record_key) (v : burn_record_value)
    (p : pending_chain_state) :=
  set_p_burns (<[k := v]> (p_burns p)) p.

(** ** Stores into a state: the virtual functions of [chain_interface] *)
Definition on_state (f : chain_database → chain_database)
    (g : pending_chain_state → pending_chain_state) (s : chain_state) : chain_state :=
  match s with
  | Expired => Expired
  | Database d => Database (f d)
  | Pending p prev => Pending (g p) prev
  end.
Definition set_property id v := on_state (db_set_property id v) (p_set_property id v).
Definition store_asset_record r := on_state (db_store_asset_record r) (p_store_asset_record r).
Definition store_balance_record r :=
  on_state (db_store_balance_record r) (p_store_balance_record r).
Definition store_account_record r :=
  on_state (db_store_account_record r) (p_store_account_record r).
Definition store_bid_record k r := on_state (db_store_bid_record k r) (p_store_bid_record k r).
Definition store_ask_record k r := on_state (db_store_ask_record k r) (p_store_ask_record k r).
Definition store_short_record k r :=
  on_state (db_store_short_record k r) (p_store_short_record k r).
Definition store_collateral_record k r :=
  on_state (db_store_collateral_record k r) (p_store_collateral_record k r).
Definition store_delegate_slate id sl :=
  on_state (db_store_delegate_slate id sl) (p_store_delegate_slate id sl).
Definition store_slot_record r := on_state (db_store_slot_record r) (p_store_slot_record r).
Definition store_market_history_record k r :=
  on_state (db_store_market_history_record k r) (p_store_market_history_record k r).
Definition store_market_status st :=
  on_state (db_store_market_status st) (p_store_market_status st).
Definition set_feed r := on_state (db_set_feed r) (p_set_feed r).
Definition store_burn_record k v := on_state (db_store_burn_record k v) (p_store_burn_record k v).
Definition store_recent_operation o :=
  on_state (db_store_recent_operation o) (p_store_recent_operation o).
Definition set_market_transactions l :=
  on_state (db_set_market_transactions l) (set_p_market_transactions l).
Definition store_transaction (id : digest_type) (r : transaction_record) (s : chain_state)
    : result chain_state :=
  match s with
  | Expired => Err undefined
  | Database d => let* d := db_store_transaction id r d in Ok (Database d)
  | Pending p prev => let* p := p_store_transaction id r p prev in Ok (Pending p prev)
  end.
(** A [std::set] of markets as the sorted array its variant holds. *)
Definition market_list (d : gset (Z * Z)) : list (Z * Z) :=
  (map_asc (set_to_map (λ x, (x, ())) d : gmap (Z * Z) ())).*1.
Definition set_dirty_markets (d : gset (Z * Z)) : chain_state → chain_state :=
  set_property dirty_markets_prop (v_pairs (market_list d)).
Definition set_active_delegates (ids : list Z) : chain_state → chain_state :=
  set_property active_delegate_list_id (v_ids ids).
Definition new_asset_id (s : chain_state) : result (Z * chain_state) :=
  let* id := last_asset_id s in
  let next_id := s32 (id + 1) in
  Ok (next_id, set_property last_asset_id_prop (v_int next_id) s).
Definition new_account_id (s : chain_state) : result (Z * chain_state) :=
  let* id := last_account_id s in
  let next_id := s32 (id + 1) in
  Ok (next_id, set_property last_account_id_prop (v_int next_id) s).

(** ** [apply_changes]: the state below with the changes of [p] applied *)
Definition apply_tables (p : pending_chain_state) (s : chain_state) : chain_state :=
  let s := fold_map set_property (p_properties p) s in
  let s := fold_map (λ _ r, store_asset_record r) (p_assets p) s in
  let s := fold_map (λ _ r, store_account_record r) (p_accounts p) s in
  let s := fold_map (λ _ r, store_balance_record r) (p_balances p) s in
  let s := fold_map store_bid_record (p_bids p) s in
  let s := fold_map store_ask_record (p_asks p) s in
  let s := fold_map store_short_record (p_shorts p) s in
  fold_map store_collateral_record (p_collateral p) s.
Definition apply_rest (p : pending_chain_state) (s : chain_state) : chain_state :=
  let s := fold_map store_delegate_slate (p_slates p) s in
  let s := fold_map (λ _ r, store_slot_record r) (p_slots p) s in
  let s := fold_map store_market_history_record (p_market_history p) s in
  let s := fold_map (λ _ st, store_market_status st) (p_market_statuses p) s in
  let s := fold_map (λ _ r, set_feed r) (p_feeds p) s in
  let s := fold_map (λ _ l s, foldl (λ s o, store_recent_operation o s) s l)
             (p_recent_operations p) s in
  let s := fold_map store_burn_record (p_burns p) s in
  let s := set_market_transactions (p_market_transactions p) s in
  set_dirty_markets (p_dirty_markets p) s.
Definition apply_changes (p : pending_chain_state) (prev : chain_state) : result chain_state :=
  match prev with
  | Expired => Ok Expired
  | _ =>
      let s := apply_tables p prev in
      let* s := rfold (λ x, store_transaction x.1 x.2) (map_to_list (p_transactions p)) s in
      Ok (apply_rest p s)
  end.

(** ** [get_undo_state]: what reverts the changes of [p] over [prev]

    The undo state is a pending state with no state below it. *)
Definition undo_through {K V} `{Countable K} (get : K → chain_state → option V)
    (undo : K → V → V) (store : K → V → pending_chain_state → pending_chain_state)
    (prev : chain_state) : gmap K V → pending_chain_state → pending_chain_state :=
  fold_map (λ k v, store k match get k prev with Some v' => v' | None => undo k v end).
Definition get_undo_state (p : pending_chain_state) (prev : chain_state)
    : result pending_chain_state :=
  ensure match prev with Expired => false | _ => true end else assert_failure in
  let* u := rfold (λ x u, let* v := get_property x.1 prev in Ok (p_set_property x.1 v u))
              (map_to_list (p_properties p)) pending_chain_state_empty in
  let u := undo_through get_asset_record (λ _, ar_make_null) (λ _, p_store_asset_record)
             prev (p_assets p) u in
  let u := undo_through get_delegate_slate (λ _ _, []) p_store_delegate_slate
             prev (p_slates p) u in
  let u := undo_through get_account_record (λ _, ac_make_null) (λ _, p_store_account_record)
             prev (p_accounts p) u in
  let u := undo_through get_balance_record (λ _, br_make_null) (λ _, p_store_balance_record)
             prev (p_balances p) u in
  let* u := rfold (λ x u,
              let* r := get_transaction x.1 true prev in
              p_store_transaction x.1 (default transaction_record_default r) u Expired)
              (map_to_list (p_transactions p)) u in
  let u := undo_through get_bid_record (λ _ _, order_record_default) p_store_bid_record
             prev (p_bids p) u in
  let u := undo_through get_ask_record (λ _ _, order_record_default) p_store_ask_record
             prev (p_asks p) u in
  let u := undo_through get_short_record (λ _ _, order_record_default) p_store_short_record
             prev (p_shorts p) u in
  let u := undo_through get_collateral_record (λ _ _, collateral_record_default)
             p_store_collateral_record prev (p_collateral p) u in
  let u := undo_through get_slot_record (λ _ _, slot_record_default) (λ _, p_store_slot_record)
             prev (p_slots p) u in
  let* u := rfold (λ x u,
              let* st := get_market_status x.1.1 x.1.2 prev in
              Ok (p_store_market_status (default market_status_default st) u))
              (map_to_list (p_market_statuses p)) u in
  let* u := rfold (λ x u,
              let* f := get_feed x.1 prev in
              Ok (p_set_feed (default (FeedRecord x.1 v_null 0) f) u))
              (map_to_list (p_feeds p)) u in
  let u := fold_map (λ k _, p_store_burn_record k burn_record_value_default) (p_burns p) u in
  Ok (p_set_property dirty_markets_prop (v_pairs (market_list (get_dirty_markets prev))) u).

(** ** The median of the delegates' feeds *)
Definition price_le (a b : price) : Prop := price_ltb b a = false.
#[export] Instance price_le_dec : RelDecision price_le.
Proof. intros a b. unfold price_le. apply _. Defined.
(** The feeds of an asset in key order, [lower_bound( feed_index{asset_id} )]
    onwards; [delegate_id] of the bound is zero. *)
Definition feeds_of (asset_id : Z) (d : chain_database) : list (feed_index * feed_record) :=
  filter (λ x, fi_feed_id x.1 = asset_id ∧ 0 ≤ fi_delegate_id x.1) (map_asc (db_feeds d)).
Definition usable_feed (asset_id base_id : Z) (active : list Z) (d : chain_database)
    (x : feed_index * feed_record) : option price :=
  if bool_decide (fi_delegate_id x.1 ∈ active) then
    if db_now d <? fr_last_update x.2 + 24 * 60 * 60 then
      match fr_value x.2 with
      | v_price p =>
          if (quote_asset_id p =? asset_id) && (base_asset_id p =? base_id)
          then Some p else None
      | _ => None
      end
    else None
  else None.
Fixpoint get_median_delegate_price (asset_id base_id : Z) (s : chain_state)
    : result (option price) :=
  match s with
  | Expired => Err undefined
  | Database d =>
      let* active := get_active_delegates s in
      let prices := omap (usable_feed asset_id base_id active d) (feeds_of asset_id d) in
      if Z.of_nat (length prices) <? BTS_BLOCKCHAIN_MIN_FEEDS then Ok None
      else Ok (merge_sort price_le prices !! (length prices / 2)%nat)
  | Pending _ prev => get_median_delegate_price asset_id base_id prev
  end.
End chain_state.
