(* ===== verification/ApplyUndo.v ===== *)
(** Applying and undoing a pending state.

    Over the database, [apply_changes] makes every lookup answer as the pending
    state did, and applying the state [get_undo_state] computed restores the
    tables.  Both rest on one fact per table: the loop over the entries of a
    pending table writes each entry once ([fold_put]). *)
From S2P Require Export ChainState.

(** ** One table *)
Definition drop_null {V} (null : V → bool) (o : option V) : option V :=
  match o with Some v => if null v then None else Some v | None => None end.

Section table.
Context {K V : Type} `{Countable K}.
Implicit Types (m t : gmap K V).

Lemma fold_put (null : V → bool) (key : K → V → K) (g : K → V → V) m t k :
  (∀ k v, m !! k = Some v → key k v = k) →
  fold_map (λ k v, put null (key k v) (g k v)) m t !! k =
    match m !! k with Some v => drop_null null (Some (g k v)) | None => t !! k end.
Proof.
  unfold fold_map. intros Hkey.
  assert (Hin : ∀ k v, (k, v) ∈ map_to_list m → m !! k = Some v) by (intros ??; apply elem_of_map_to_list).
  assert (Hout : ∀ k, k ∉ (map_to_list m).*1 → m !! k = None).
  { intros k' Hk'. apply eq_None_not_Some. intros [v Hv]. apply Hk'.
    apply elem_of_map_to_list in Hv. by apply (list_elem_of_fmap_2 fst) in Hv. }
  destruct (decide (k ∈ (map_to_list m).*1)) as [Hk|Hk].
  - pose proof (NoDup_fst_map_to_list m) as Hnd. clear Hout.
    induction (map_to_list m) as [|[k0 v0] l IH] using rev_ind.
    { by apply elem_of_nil in Hk. }
    rewrite fmap_app in Hk, Hnd. rewrite foldl_app. cbn [foldl fst snd].
    assert (H0 : m !! k0 = Some v0) by (apply Hin, elem_of_app; right; left).
    rewrite (Hkey k0 v0 H0). destruct (decide (k = k0)) as [->|Hne].
    + rewrite H0. unfold put. simpl. destruct (null (g k0 v0)); [by rewrite lookup_delete_eq|by rewrite lookup_insert_eq].
    + assert (k ∈ l.*1) as Hk'.
      { apply elem_of_app in Hk as [?|Hk]; [done|]. apply list_elem_of_singleton in Hk. done. }
      apply NoDup_app in Hnd as (Hnd & _ & _).
      assert (∀ k v, (k, v) ∈ l → m !! k = Some v) as Hin'
        by (intros; apply Hin, elem_of_app; by left).
      specialize (IH Hin' Hk' Hnd). unfold put at 1.
      destruct (null (g k0 v0)); [rewrite lookup_delete_ne by done|rewrite lookup_insert_ne by done]; exact IH.
  - rewrite (Hout k Hk). clear Hout. induction (map_to_list m) as [|[k0 v0] l IH] using rev_ind; [done|].
    rewrite fmap_app in Hk. apply not_elem_of_app in Hk as [Hk Hk0].
    rewrite foldl_app. cbn [foldl fst snd].
    assert (H0 : m !! k0 = Some v0) by (apply Hin, elem_of_app; right; left).
    rewrite (Hkey k0 v0 H0). assert (k ≠ k0) by (intros ->; apply Hk0; left).
    assert (∀ k v, (k, v) ∈ l → m !! k = Some v) as Hin'
      by (intros; apply Hin, elem_of_app; by left).
    specialize (IH Hin' Hk). unfold put at 1.
    destruct (null (g k0 v0)); [rewrite lookup_delete_ne by done|rewrite lookup_insert_ne by done]; exact IH.
Qed.

Lemma fold_put_id (null : V → bool) m t k :
  fold_map (put null) m t !! k =
    match m !! k with Some v => drop_null null (Some v) | None => t !! k end.
Proof. by apply (fold_put null (λ k _, k) (λ _ v, v)). Qed.

Lemma fold_insert (key : K → V → K) (g : K → V → V) m t k :
  (∀ k v, m !! k = Some v → key k v = k) →
  fold_map (λ k v, <[key k v := g k v]>) m t !! k =
    match m !! k with Some v => Some (g k v) | None => t !! k end.
Proof.
  intros Hk. etransitivity; [exact (fold_put (λ _, false) key g m t k Hk)|by destruct (m !! k)].
Qed.

(** Writing a field of a record in a loop writes it once. *)
Lemma fold_field {S T K' V'} `{Countable K'} (get : S → T) (set : T → S → S)
    (h : K' → V' → T → T) (f : K' → V' → S → S) (m : gmap K' V') s :
  (∀ k v s, f k v s = set (h k v (get s)) s) → (∀ x s, get (set x s) = x) →
  (∀ x y s, set x (set y s) = set x s) → (∀ s, set (get s) s = s) →
  fold_map f m s = set (fold_map h m (get s)) s.
Proof.
  intros Hf Hgs Hss Hsg. unfold fold_map. generalize (map_to_list m) as l. intros l.
  induction l as [|x l IH] using rev_ind; simpl; [by rewrite Hsg|].
  rewrite !foldl_app. simpl. by rewrite IH, Hf, Hgs, Hss.
Qed.

(** A loop that throws or does what a pure loop does. *)
Lemma rfold_foldl {X S} (f : X → S → result S) (g : X → S → S) l s s' :
  (∀ x s s', f x s = Ok s' → s' = g x s) → rfold f l s = Ok s' →
  s' = foldl (λ s x, g x s) s l.
Proof.
  intros Hf. revert s. induction l as [|x l IH]; intros s Hr; simpl in *; [by injection Hr as <-|].
  apply rbind_Ok in Hr as (s1 & H1 & Hr). rewrite (Hf _ _ _ H1) in Hr. by apply IH.
Qed.

Lemma fold_map_ext_in {K' V' S} `{Countable K'} (f f' : K' → V' → S → S) (m : gmap K' V') s :
  (∀ k v s, m !! k = Some v → f k v s = f' k v s) → fold_map f m s = fold_map f' m s.
Proof.
  intros Hf. unfold fold_map.
  assert (Hin : ∀ k v, (k, v) ∈ map_to_list m → m !! k = Some v) by (intros ??; apply elem_of_map_to_list).
  revert s. induction (map_to_list m) as [|[k v] l IH]; intros s; [done|]. simpl.
  rewrite Hf by (apply Hin; left). apply IH. intros. apply Hin. by right.
Qed.

Lemma fold_on_db {K' V'} `{Countable K'} (f : K' → V' → chain_database → chain_database)
    (g : K' → V' → pending_chain_state → pending_chain_state) (m : gmap K' V') d :
  fold_map (λ k v, on_state (f k v) (g k v)) m (Database d) = Database (fold_map f m d).
Proof.
  unfold fold_map. generalize (map_to_list m) as l. intros l.
  induction l as [|x l IH] using rev_ind; [done|]. rewrite !foldl_app. simpl. by rewrite IH.
Qed.

(** The entry that undoes an entry of [m] over the table [t]. *)
Lemma undo_entry (null : V → bool) (undo : K → V → V) m t (t' u : gmap K V) k :
  (∀ k v, t !! k = Some v → null v = false) → (∀ k v, null (undo k v) = true) →
  t' !! k = match m !! k with Some v => drop_null null (Some v) | None => t !! k end →
  u !! k = match m !! k with
           | Some v => Some match t !! k with Some w => w | None => undo k v end
           | None => None
           end →
  match u !! k with Some v => drop_null null (Some v) | None => t' !! k end = t !! k.
Proof.
  intros Ht Hu Ht' ->. destruct (m !! k) as [v|] eqn:E; [|done].
  destruct (t !! k) as [w|] eqn:E'; simpl; [by rewrite (Ht k w)|by rewrite Hu].
Qed.
End table.

(** ** The loops of [apply_changes] over the database, in closed form *)
Section closed.
Context `{!Crypto}.

Ltac field_loop :=
  rewrite fold_on_db; f_equal;
  match goal with |- fold_map ?f ?m ?d = ?set (fold_map ?h ?m (?get ?d)) ?d =>
    apply (fold_field get set h f m d);
      [by intros ? ? []|by intros ? []|by intros ? ? []|by intros []]
  end.

Lemma apply_properties p d :
  fold_map set_property (p_properties p) (Database d) =
  Database (set_db_properties (fold_map (put variant_is_null) (p_properties p) (db_properties d)) d).
Proof. unfold set_property. field_loop. Qed.
Lemma apply_balances p d :
  fold_map (λ _ r, store_balance_record r) (p_balances p) (Database d) =
  Database (set_db_balances (fold_map (λ _ r, <[br_id r := r]>) (p_balances p) (db_balances d)) d).
Proof. unfold store_balance_record. field_loop. Qed.
Lemma apply_bids p d :
  fold_map store_bid_record (p_bids p) (Database d) =
  Database (set_db_bids (fold_map (put or_is_null) (p_bids p) (db_bids d)) d).
Proof. unfold store_bid_record. field_loop. Qed.
Lemma apply_asks p d :
  fold_map store_ask_record (p_asks p) (Database d) =
  Database (set_db_asks (fold_map (put or_is_null) (p_asks p) (db_asks d)) d).
Proof. unfold store_ask_record. field_loop. Qed.
Lemma apply_shorts p d :
  fold_map store_short_record (p_shorts p) (Database d) =
  Database (set_db_shorts (fold_map (put or_is_null) (p_shorts p) (db_shorts d)) d).
Proof. unfold store_short_record. field_loop. Qed.
Lemma apply_collateral p d :
  fold_map store_collateral_record (p_collateral p) (Database d) =
  Database (set_db_collateral (fold_map (put cr_is_null) (p_collateral p) (db_collateral d)) d).
Proof. unfold store_collateral_record. field_loop. Qed.
Lemma apply_slates p d :
  fold_map store_delegate_slate (p_slates p) (Database d) =
  Database (set_db_slates
    (fold_map (put (λ s, bool_decide (s = []))) (p_slates p) (db_slates d)) d).
Proof. unfold store_delegate_slate. field_loop. Qed.
Lemma apply_slots p d :
  fold_map (λ _ r, store_slot_record r) (p_slots p) (Database d) =
  Database (set_db_slots
    (fold_map (λ _ r, put sl_is_null (sl_start_time r) r) (p_slots p) (db_slots d)) d).
Proof. unfold store_slot_record. field_loop. Qed.
Lemma apply_history p d :
  fold_map store_market_history_record (p_market_history p) (Database d) =
  Database (set_db_market_history
    (fold_map (put (λ r, mh_volume r =? 0)) (p_market_history p) (db_market_history d)) d).
Proof. unfold store_market_history_record. field_loop. Qed.
Lemma apply_statuses p d :
  fold_map (λ _ st, store_market_status st) (p_market_statuses p) (Database d) =
  Database (set_db_market_statuses
    (fold_map (λ _ st, put ms_is_null (ms_quote_id st, ms_base_id st) st)
       (p_market_statuses p) (db_market_statuses d)) d).
Proof. unfold store_market_status. field_loop. Qed.
Lemma apply_feeds p d :
  fold_map (λ _ r, set_feed r) (p_feeds p) (Database d) =
  Database (set_db_feeds
    (fold_map (λ _ r, put fr_is_null (fr_feed r) r) (p_feeds p) (db_feeds d)) d).
Proof. unfold set_feed. field_loop. Qed.
Lemma apply_burns p d :
  fold_map store_burn_record (p_burns p) (Database d) =
  Database (set_db_burns (fold_map (put bv_is_null) (p_burns p) (db_burns d)) d).
Proof. unfold store_burn_record. field_loop. Qed.
Lemma apply_recent p d :
  fold_map (λ _ l s, foldl (λ s o, store_recent_operation o s) s l) (p_recent_operations p)
    (Database d) =
  Database (set_db_recent_operations
    (fold_map (λ _ l q, foldl (λ q o, push_recent o q) q l) (p_recent_operations p)
       (db_recent_operations d)) d).
Proof.
  assert (Hl : ∀ l d, foldl (λ s o, store_recent_operation o s) (Database d) l =
    Database (set_db_recent_operations
      (foldl (λ q o, push_recent o q) (db_recent_operations d) l) d)).
  { intros l. induction l as [|o l IH] using rev_ind; intros d'; [by destruct d'|].
    rewrite !foldl_app. simpl. rewrite IH. by destruct d'. }
  unfold fold_map. generalize (map_to_list (p_recent_operations p)) as l. intros l.
  induction l as [|x l IH] using rev_ind; [by destruct d|].
  rewrite !foldl_app. simpl. rewrite IH, Hl. by destruct d.
Qed.
Lemma apply_assets p d :
  ∃ idx, fold_map (λ _ r, store_asset_record r) (p_assets p) (Database d) =
    Database (set_db_symbol_index idx (set_db_assets
      (fold_map (λ _ r, put ar_is_null (ar_id r) r) (p_assets p) (db_assets d)) d)).
Proof.
  unfold fold_map. generalize (map_to_list (p_assets p)) as l. intros l.
  induction l as [|x l IH] using rev_ind; [exists (db_symbol_index d); by destruct d|].
  rewrite !foldl_app. destruct IH as [idx ->]. simpl. unfold db_store_asset_record, put.
  destruct (ar_is_null x.2); eexists; by destruct d.
Qed.
Lemma apply_accounts p d :
  ∃ a b c, fold_map (λ _ r, store_account_record r) (p_accounts p) (Database d) =
    Database (set_db_delegate_votes a (set_db_address_to_account b (set_db_account_index c
      (set_db_accounts
        (fold_map (λ _ r, put ac_is_null (ac_id r) r) (p_accounts p) (db_accounts d)) d)))).
Proof.
  unfold fold_map. generalize (map_to_list (p_accounts p)) as l. intros l.
  induction l as [|x l IH] using rev_ind;
    [exists (db_delegate_votes d), (db_address_to_account d), (db_account_index d); by destruct d|].
  rewrite !foldl_app. destruct IH as (a & b & c & ->). simpl. unfold db_store_account_record, put.
  simpl. set (m := foldl _ _ l). destruct (ac_is_null x.2) eqn:E.
  - destruct (m !! ac_id x.2) as [old|] eqn:Eo.
    + by eexists _, _, _.
    + rewrite delete_id by done. by exists a, b, c.
  - by eexists _, _, _.
Qed.

(** A transaction record without operations means removal. *)
Definition tr_is_null (r : transaction_record) : bool :=
  match tx_operations (st_trx (tr_trx r)) with [] => true | _ => false end.
Lemma apply_transactions l d s :
  rfold (λ x, store_transaction x.1 x.2) l (Database d) = Ok s →
  ∃ u, s = Database (set_db_unique_transactions u (set_db_transactions
    (foldl (λ m x, put tr_is_null x.1 x.2 m) (db_transactions d) l) d)).
Proof.
  revert d. induction l as [|x l IH]; intros d Hs.
  - injection Hs as <-. exists (db_unique_transactions d). by destruct d.
  - cbn [rfold] in Hs. apply rbind_Ok in Hs as (s1 & H1 & Hs). simpl in H1.
    apply rbind_Ok in H1 as (d1 & H1 & [= <-]).
    assert (∃ u, d1 = set_db_unique_transactions u
              (set_db_transactions (put tr_is_null x.1 x.2 (db_transactions d)) d)) as [u ->].
    { unfold db_store_transaction in H1. unfold put, tr_is_null.
      destruct (tx_operations (st_trx (tr_trx x.2))) eqn:E; [injection H1 as <-; by eexists|].
      apply ensure_Ok in H1 as [_ H1].
      destruct (_ <? _) in H1; [apply ensure_Ok in H1 as [_ H1]|];
        injection H1 as <-; [eexists; by destruct d|].
      exists (db_unique_transactions d). by destruct d. }
    destruct (IH _ Hs) as [u' ->]. eexists. by destruct d.
Qed.
End closed.

(** ** The undo state, in closed form *)
Section undo.
Context `{!Crypto}.

(** The entry of the state below, or the record that removes it. *)
Definition before {K V} `{Countable K} (t : gmap K V) (undo : K → V → V) (k : K) (v : V) : V :=
  match t !! k with Some w => w | None => undo k v end.

Ltac field_loop get set :=
  match goal with |- fold_map ?f ?m ?d = set (fold_map ?h ?m (get ?d)) ?d =>
    apply (fold_field get set h f m d);
      [by intros ? ? []|by intros ? []|by intros ? ? []|by intros []]
  end.

Lemma undo_assets (d : chain_database) m (u : pending_chain_state) :
  undo_through get_asset_record (λ _, ar_make_null) (λ _, p_store_asset_record) (Database d) m u =
  set_p_assets (fold_map (λ k v, let r := before (db_assets d) (λ _, ar_make_null) k v in
                                 <[ar_id r := r]>) m (p_assets u)) u.
Proof. unfold undo_through. field_loop p_assets set_p_assets. Qed.
Lemma undo_slates (d : chain_database) m (u : pending_chain_state) :
  undo_through get_delegate_slate (λ _ _, []) p_store_delegate_slate (Database d) m u =
  set_p_slates (fold_map (λ k v, <[k := before (db_slates d) (λ _ _, []) k v]>) m (p_slates u)) u.
Proof. unfold undo_through. field_loop p_slates set_p_slates. Qed.
Lemma undo_balances (d : chain_database) m (u : pending_chain_state) :
  undo_through get_balance_record (λ _, br_make_null) (λ _, p_store_balance_record)
    (Database d) m u =
  set_p_balances (fold_map (λ k v, let r := before (db_balances d) (λ _, br_make_null) k v in
                                   <[br_id r := r]>) m (p_balances u)) u.
Proof. unfold undo_through. field_loop p_balances set_p_balances. Qed.
Lemma undo_slots (d : chain_database) m (u : pending_chain_state) :
  undo_through get_slot_record (λ _ _, slot_record_default) (λ _, p_store_slot_record)
    (Database d) m u =
  set_p_slots (fold_map (λ k v, let r := before (db_slots d) (λ _ _, slot_record_default) k v in
                                <[sl_start_time r := r]>) m (p_slots u)) u.
Proof. unfold undo_through. field_loop p_slots set_p_slots. Qed.

Ltac dirty_loop :=
  unfold undo_through, fold_map;
  match goal with |- context [map_to_list ?m] =>
    induction (map_to_list m) as [|? ? ?] using rev_ind end;
  [match goal with |- context [foldl _ ?u []] => exists (p_dirty_markets u); by destruct u end
  |match goal with Hl : ex _ |- _ =>
     destruct Hl as [? Hl]; rewrite !foldl_app; cbn [foldl]; rewrite Hl; by eexists end].

Lemma undo_bids (d : chain_database) m (u : pending_chain_state) : ∃ dm,
  undo_through get_bid_record (λ _ _, order_record_default) p_store_bid_record (Database d) m u =
  set_p_dirty_markets dm (set_p_bids
    (fold_map (λ k v, <[k := before (db_bids d) (λ _ _, order_record_default) k v]>) m
       (p_bids u)) u).
Proof. dirty_loop. Qed.
Lemma undo_asks (d : chain_database) m (u : pending_chain_state) : ∃ dm,
  undo_through get_ask_record (λ _ _, order_record_default) p_store_ask_record (Database d) m u =
  set_p_dirty_markets dm (set_p_asks
    (fold_map (λ k v, <[k := before (db_asks d) (λ _ _, order_record_default) k v]>) m
       (p_asks u)) u).
Proof. dirty_loop. Qed.
Lemma undo_shorts (d : chain_database) m (u : pending_chain_state) : ∃ dm,
  undo_through get_short_record (λ _ _, order_record_default) p_store_short_record
    (Database d) m u =
  set_p_dirty_markets dm (set_p_shorts
    (fold_map (λ k v, <[k := before (db_shorts d) (λ _ _, order_record_default) k v]>) m
       (p_shorts u)) u).
Proof. dirty_loop. Qed.
Lemma undo_collateral (d : chain_database) m (u : pending_chain_state) : ∃ dm,
  undo_through get_collateral_record (λ _ _, collateral_record_default)
    p_store_collateral_record (Database d) m u =
  set_p_dirty_markets dm (set_p_collateral
    (fold_map (λ k v, <[k := before (db_collateral d) (λ _ _, collateral_record_default) k v]>) m
       (p_collateral u)) u).
Proof. dirty_loop. Qed.
Lemma undo_accounts (d : chain_database) m (u : pending_chain_state) : ∃ a b,
  undo_through get_account_record (λ _, ac_make_null) (λ _, p_store_account_record)
    (Database d) m u =
  set_p_key_to_account a (set_p_account_id_index b (set_p_accounts
    (fold_map (λ k v, let r := before (db_accounts d) (λ _, ac_make_null) k v in
                      <[ac_id r := r]>) m (p_accounts u)) u)).
Proof.
  unfold undo_through, fold_map. generalize (map_to_list m) as l. intros l.
  induction l as [|x l IH] using rev_ind;
    [exists (p_key_to_account u), (p_account_id_index u); by destruct u|].
  destruct IH as (a & b & IH). rewrite !foldl_app. cbn [foldl]. rewrite IH. by eexists _, _.
Qed.
Lemma undo_burns (m : gmap burn_record_key burn_record_value) u :
  fold_map (λ k _, p_store_burn_record k burn_record_value_default) m u =
  set_p_burns (fold_map (λ k _, <[k := burn_record_value_default]>) m (p_burns u)) u.
Proof. field_loop p_burns set_p_burns. Qed.
Lemma undo_feeds (d : chain_database) (m : gmap feed_index feed_record) u :
  fold_map (λ k _, p_set_feed (default (FeedRecord k v_null 0) (db_feeds d !! k))) m u =
  set_p_feeds (fold_map (λ k v, let r := default (FeedRecord k v_null 0) (db_feeds d !! k) in
                                <[fr_feed r := r]>) m (p_feeds u)) u.
Proof. field_loop p_feeds set_p_feeds. Qed.
Lemma undo_statuses (d : chain_database) (m : gmap (Z * Z) market_status) u :
  fold_map (λ k _, p_store_market_status
              (default market_status_default (db_market_statuses d !! k))) m u =
  set_p_market_statuses
    (fold_map (λ k v, let s := default market_status_default (db_market_statuses d !! k) in
                      <[(ms_quote_id s, ms_base_id s) := s]>) m (p_market_statuses u)) u.
Proof. field_loop p_market_statuses set_p_market_statuses. Qed.
Lemma undo_properties (d : chain_database) (m : gmap Z variant) u :
  fold_map (λ k v, p_set_property k (default v (db_properties d !! k))) m u =
  set_p_properties (fold_map (λ k v, <[k := default v (db_properties d !! k)]>) m
                      (p_properties u)) u.
Proof. field_loop p_properties set_p_properties. Qed.
Lemma recent_loop l u :
  ∃ q, foldl (λ p o, p_store_recent_operation o p) u l = set_p_recent_operations q u.
Proof.
  induction l as [|o l IH] using rev_ind; [exists (p_recent_operations u); by destruct u|].
  destruct IH as [q IH]. rewrite foldl_app. simpl. rewrite IH. by eexists.
Qed.
End undo.

(** ** Well-formed states *)
Section wf.
Context `{!Crypto}.

(** Records are stored under their own keys. *)
Record keyed (p : pending_chain_state) : Prop := {
  k_assets k r : p_assets p !! k = Some r → ar_id r = k;
  k_accounts k r : p_accounts p !! k = Some r → ac_id r = k;
  k_balances k r : p_balances p !! k = Some r → br_id r = k;
  k_feeds k r : p_feeds p !! k = Some r → fr_feed r = k
}.
(** Transaction records are stored under their ids, or stand for removal. *)
Definition trx_keyed (p : pending_chain_state) : Prop :=
  ∀ k r, p_transactions p !! k = Some r → tr_is_null r = true ∨ trx_id (tr_trx r) = k.

(** A database holds no null record. *)
Record db_wf (d : chain_database) : Prop := {
  w_properties k v : db_properties d !! k = Some v → variant_is_null v = false;
  w_assets k r : db_assets d !! k = Some r → ar_is_null r = false ∧ ar_id r = k;
  w_accounts k r : db_accounts d !! k = Some r → ac_is_null r = false ∧ ac_id r = k;
  w_balances k r : db_balances d !! k = Some r → br_id r = k;
  w_bids k r : db_bids d !! k = Some r → or_is_null r = false;
  w_asks k r : db_asks d !! k = Some r → or_is_null r = false;
  w_shorts k r : db_shorts d !! k = Some r → or_is_null r = false;
  w_collateral k r : db_collateral d !! k = Some r → cr_is_null r = false;
  w_slates k s : db_slates d !! k = Some s → s ≠ [];
  w_feeds k r : db_feeds d !! k = Some r → fr_is_null r = false ∧ fr_feed r = k;
  w_transactions k r : db_transactions d !! k = Some r →
    tr_is_null r = false ∧ trx_id (tr_trx r) = k
}.

Definition merged {K V} `{Countable K} (null : V → bool) (m t : gmap K V) (k : K) : option V :=
  match m !! k with Some v => drop_null null (Some v) | None => t !! k end.
Definition slate_is_null (s : delegate_slate) : bool := bool_decide (s = []).
Definition head_num (d : chain_database) : Z := bh_block_num (sbh_header (db_head_block_header d)).

(** What applying [p] to [d] leaves in [d']. *)
Record applied (p : pending_chain_state) (d d' : chain_database) : Prop := {
  a_properties k : k ≠ dirty_markets_prop →
    db_properties d' !! k = merged variant_is_null (p_properties p) (db_properties d) k;
  a_dirty : db_properties d' !! dirty_markets_prop =
    Some (v_pairs (market_list (p_dirty_markets p)));
  a_assets k : db_assets d' !! k = merged ar_is_null (p_assets p) (db_assets d) k;
  a_accounts k : db_accounts d' !! k = merged ac_is_null (p_accounts p) (db_accounts d) k;
  a_balances k : db_balances d' !! k = merged (λ _, false) (p_balances p) (db_balances d) k;
  a_bids k : db_bids d' !! k = merged or_is_null (p_bids p) (db_bids d) k;
  a_asks k : db_asks d' !! k = merged or_is_null (p_asks p) (db_asks d) k;
  a_shorts k : db_shorts d' !! k = merged or_is_null (p_shorts p) (db_shorts d) k;
  a_collateral k : db_collateral d' !! k = merged cr_is_null (p_collateral p) (db_collateral d) k;
  a_slates k : db_slates d' !! k = merged slate_is_null (p_slates p) (db_slates d) k;
  a_feeds k : db_feeds d' !! k = merged fr_is_null (p_feeds p) (db_feeds d) k;
  a_transactions k :
    db_transactions d' !! k = merged tr_is_null (p_transactions p) (db_transactions d) k;
  a_head : db_head_block_header d' = db_head_block_header d
}.

Lemma apply_transactions_ok l d :
  head_num d < FORK_25 →
  Forall (λ x, tr_is_null x.2 = true ∨ trx_id (tr_trx x.2) = x.1) l →
  ∃ s, rfold (λ x, store_transaction x.1 x.2) l (Database d) = Ok s.
Proof.
  intros Hn Hl. revert d Hn. induction Hl as [|x l Hx _ IH]; intros d Hn; [by eexists|].
  cbn [rfold]. assert (∃ d1, store_transaction x.1 x.2 (Database d) = Ok (Database d1) ∧
                         head_num d1 < FORK_25) as (d1 & -> & Hn1); [|by apply IH].
  simpl. unfold db_store_transaction, tr_is_null in *.
  destruct (tx_operations (st_trx (tr_trx x.2))) eqn:E; [eexists; split; [reflexivity|done]|].
  destruct Hx as [Hx|Hx]; [done|]. rewrite Hx, Z.eqb_refl.
  destruct (_ <? tx_expiration _); [|by eexists].
  unfold head_num in *. cbn -[FORK_25]. rewrite (proj2 (Z.ltb_lt _ _) Hn). simpl. by eexists.
Qed.

Lemma apply_changes_applied p d :
  keyed p → trx_keyed p → head_num d < FORK_25 →
  ∃ d', apply_changes p (Database d) = Ok (Database d') ∧ applied p d d'.
Proof.
  intros [Ha Hc Hb Hf] Ht Hn. unfold apply_changes, apply_tables. cbv zeta.
  rewrite apply_properties. edestruct (apply_assets p) as [i1 E1]; rewrite E1; clear E1.
  edestruct (apply_accounts p) as (i2 & i3 & i4 & E1); rewrite E1; clear E1.
  rewrite apply_balances, apply_bids, apply_asks, apply_shorts, apply_collateral.
  match goal with |- context [rfold ?f ?l (Database ?d0)] =>
    destruct (apply_transactions_ok l d0) as [s Hs] end; [done| |].
  { apply Forall_forall. intros [k r] Hk. apply elem_of_map_to_list in Hk. by apply Ht. }
  rewrite Hs. destruct (apply_transactions _ _ _ Hs) as [i5 ->]. clear Hs.
  unfold apply_rest. cbv zeta. cbn [rbind].
  rewrite apply_slates, apply_slots, apply_history, apply_statuses, apply_feeds, apply_recent,
    apply_burns.
  eexists. split; [reflexivity|].
  split; intros; cbn -[merged fold_map market_list dirty_markets_prop]; unfold merged.
  - unfold put. simpl. rewrite lookup_insert_ne by done. apply fold_put_id.
  - by rewrite lookup_insert_eq.
  - apply (fold_put ar_is_null (λ _ r, ar_id r) (λ _ v, v)), Ha.
  - apply (fold_put ac_is_null (λ _ r, ac_id r) (λ _ v, v)), Hc.
  - apply (fold_insert (λ _ r, br_id r) (λ _ v, v)), Hb.
  - apply fold_put_id.
  - apply fold_put_id.
  - apply fold_put_id.
  - apply fold_put_id.
  - apply fold_put_id.
  - apply (fold_put fr_is_null (λ _ r, fr_feed r) (λ _ v, v)), Hf.
  - apply fold_put_id.
  - done.
Qed.
End wf.

(** ** The undo state *)
Section undo_spec.
Context `{!Crypto}.

(** [u] holds, for every entry of [p], the entry of [d] or what removes it. *)
Record undone (p u : pending_chain_state) (d : chain_database) : Prop := {
  u_properties k : k ≠ dirty_markets_prop →
    p_properties u !! k = (λ v, default v (db_properties d !! k)) <$> p_properties p !! k;
  u_assets k :
    p_assets u !! k = before (db_assets d) (λ _, ar_make_null) k <$> p_assets p !! k;
  u_accounts k :
    p_accounts u !! k = before (db_accounts d) (λ _, ac_make_null) k <$> p_accounts p !! k;
  u_balances k :
    p_balances u !! k = before (db_balances d) (λ _, br_make_null) k <$> p_balances p !! k;
  u_bids k : p_bids u !! k = before (db_bids d) (λ _ _, order_record_default) k <$> p_bids p !! k;
  u_asks k : p_asks u !! k = before (db_asks d) (λ _ _, order_record_default) k <$> p_asks p !! k;
  u_shorts k :
    p_shorts u !! k = before (db_shorts d) (λ _ _, order_record_default) k <$> p_shorts p !! k;
  u_collateral k : p_collateral u !! k =
    before (db_collateral d) (λ _ _, collateral_record_default) k <$> p_collateral p !! k;
  u_slates k : p_slates u !! k = before (db_slates d) (λ _ _, []) k <$> p_slates p !! k;
  u_feeds k : p_feeds u !! k =
    before (db_feeds d) (λ i _, FeedRecord i v_null 0) k <$> p_feeds p !! k;
  u_transactions k : p_transactions u !! k =
    before (db_transactions d) (λ _ _, transaction_record_default) k <$> p_transactions p !! k
}.

Lemma fold_insert_empty {K V} `{Countable K} (key : K → V → K) (g : K → V → V)
    (m : gmap K V) k :
  (∀ k v, m !! k = Some v → key k v = k) →
  fold_map (λ k v, <[key k v := g k v]>) m (∅ : gmap K V) !! k = g k <$> m !! k.
Proof. intros Hk. rewrite fold_insert by done. rewrite lookup_empty. by destruct (m !! k). Qed.

Lemma fold_insert_g {K V} `{Countable K} (key : V → K) (g : K → V → V) (m : gmap K V) k :
  (∀ k v, m !! k = Some v → key (g k v) = k) →
  fold_map (λ k v, let r := g k v in <[key r := r]>) m (∅ : gmap K V) !! k = g k <$> m !! k.
Proof. intros Hk. by apply (fold_insert_empty (λ k v, key (g k v)) g). Qed.

Lemma undo_transactions d (l : list (digest_type * transaction_record)) u u' :
  rfold (λ x u, let* r := get_transaction x.1 true (Database d) in
          p_store_transaction x.1 (default transaction_record_default r) u Expired) l u = Ok u' →
  ∃ q, u' = set_p_recent_operations q (set_p_transactions
    (foldl (λ m x, <[x.1 := before (db_transactions d) (λ _ _, transaction_record_default) x.1 x.2]> m)
       (p_transactions u) l) u).
Proof.
  revert u. induction l as [|x l IH]; intros u Hr.
  { injection Hr as <-. exists (p_recent_operations u). by destruct u. }
  cbn [rfold] in Hr. apply rbind_Ok in Hr as (u1 & H1 & Hr). apply rbind_Ok in H1 as (o & Ho & H1).
  assert (default transaction_record_default o
          = before (db_transactions d) (λ _ _, transaction_record_default) x.1 x.2) as Eo.
  { simpl in Ho. unfold db_get_transaction in Ho. unfold before.
    destruct (db_transactions d !! x.1); [apply ensure_Ok in Ho as [_ Ho]|]; by injection Ho as <-. }
  rewrite Eo in H1. unfold p_store_transaction in H1. cbn [rbind] in H1. injection H1 as <-.
  destruct (recent_loop (tx_operations (st_trx (tr_trx (before (db_transactions d)
    (λ _ _, transaction_record_default) x.1 x.2))))
    (set_p_transactions (<[x.1 := before (db_transactions d)
       (λ _ _, transaction_record_default) x.1 x.2]> (p_transactions u)) u)) as [q Hq].
  rewrite Hq in Hr. destruct (IH _ Hr) as [q' ->]. eexists. by destruct u.
Qed.

Lemma undo_transactions_ok d (l : list (digest_type * transaction_record)) u :
  (∀ k r, db_transactions d !! k = Some r → trx_id (tr_trx r) = k) →
  ∃ u', rfold (λ x u, let* r := get_transaction x.1 true (Database d) in
          p_store_transaction x.1 (default transaction_record_default r) u Expired) l u = Ok u'.
Proof.
  intros Hd. revert u. induction l as [|x l IH]; intros u; [by eexists|]. cbn [rfold].
  simpl get_transaction. unfold db_get_transaction.
  destruct (db_transactions d !! x.1) as [r|] eqn:E.
  - rewrite (Hd _ _ E), Z.eqb_refl. apply IH.
  - apply IH.
Qed.

Lemma rfold_pure {X S} (f : X → S → result S) (g : X → S → S) l s :
  (∀ x s, f x s = Ok (g x s)) → rfold f l s = Ok (foldl (λ s x, g x s) s l).
Proof. intros Hf. revert s. induction l as [|x l IH]; intros s; [done|]. simpl. rewrite Hf. apply IH. Qed.

Lemma get_properties_ok d (l : list (Z * variant)) u :
  (∀ x, x ∈ l → is_Some (db_properties d !! x.1)) →
  rfold (λ x u, let* v := get_property x.1 (Database d) in Ok (p_set_property x.1 v u)) l u =
  Ok (foldl (λ u x, p_set_property x.1 (default x.2 (db_properties d !! x.1)) u) u l).
Proof.
  revert u. induction l as [|x l IH]; intros u Hl; [done|]. cbn [rfold foldl get_property].
  destruct (Hl x) as [v Hv]; [left|]. rewrite Hv. simpl. apply IH. intros. apply Hl. by right.
Qed.

Lemma get_undo_state_undone p d :
  keyed p → db_wf d → (∀ k, is_Some (p_properties p !! k) → is_Some (db_properties d !! k)) →
  ∃ u, get_undo_state p (Database d) = Ok u ∧ undone p u d.
Proof.
  intros [Ha Hc Hb Hf] Hd Hprop. unfold get_undo_state.
  rewrite get_properties_ok.
  2: { intros [k v] Hk. apply elem_of_map_to_list in Hk. apply Hprop. simpl. by rewrite Hk. }
  change (foldl (λ u x, p_set_property x.1 (default x.2 (db_properties d !! x.1)) u)
            pending_chain_state_empty (map_to_list (p_properties p)))
    with (fold_map (λ k v, p_set_property k (default v (db_properties d !! k)))
            (p_properties p) pending_chain_state_empty).
  cbn [rbind]. cbv zeta.
  rewrite undo_properties, undo_assets, undo_slates.
  edestruct (undo_accounts d (p_accounts p)) as (i1 & i2 & E); rewrite E; clear E.
  rewrite undo_balances.
  match goal with |- context [rfold _ (map_to_list (p_transactions p)) ?u0] =>
    destruct (undo_transactions_ok d (map_to_list (p_transactions p)) u0) as [u1 Hu1] end;
    [by intros; eapply w_transactions|].
  rewrite Hu1. cbn [rbind]. destruct (undo_transactions _ _ _ _ Hu1) as [i3 ->]. clear Hu1.
  edestruct (undo_bids d (p_bids p)) as [i4 E]; rewrite E; clear E.
  edestruct (undo_asks d (p_asks p)) as [i5 E]; rewrite E; clear E.
  edestruct (undo_shorts d (p_shorts p)) as [i6 E]; rewrite E; clear E.
  edestruct (undo_collateral d (p_collateral p)) as [i7 E]; rewrite E; clear E.
  rewrite undo_slots.
  rewrite (rfold_pure _ (λ x, p_store_market_status
    (default market_status_default (db_market_statuses d !! x.1)))) by (by intros [[] ?] ?).
  cbn [rbind].
  match goal with |- context [foldl ?f ?u0 (map_to_list (p_market_statuses p))] =>
    change (foldl f u0 (map_to_list (p_market_statuses p))) with
      (fold_map (λ k _, p_store_market_status
         (default market_status_default (db_market_statuses d !! k))) (p_market_statuses p) u0) end.
  rewrite undo_statuses.
  rewrite (rfold_pure _ (λ x, p_set_feed (default (FeedRecord x.1 v_null 0) (db_feeds d !! x.1))))
    by (by intros [] ?).
  cbn [rbind].
  match goal with |- context [foldl ?f ?u0 (map_to_list (p_feeds p))] =>
    change (foldl f u0 (map_to_list (p_feeds p))) with
      (fold_map (λ k _, p_set_feed (default (FeedRecord k v_null 0) (db_feeds d !! k)))
        (p_feeds p) u0) end.
  rewrite undo_feeds, undo_burns.
  eexists. split; [reflexivity|].
  split; intros k; cbn -[fold_map before market_list get_dirty_markets dirty_markets_prop].
  - intros Hk. rewrite lookup_insert_ne by done.
    by apply (fold_insert_empty (λ k _, k) (λ k v, default v (db_properties d !! k))).
  - apply (fold_insert_g ar_id). intros k' v Hv. unfold before.
    destruct (db_assets d !! k') eqn:E; [by eapply w_assets|]. exact (Ha k' v Hv).
  - apply (fold_insert_g ac_id). intros k' v Hv. unfold before.
    destruct (db_accounts d !! k') eqn:E; [by eapply w_accounts|]. exact (Hc k' v Hv).
  - apply (fold_insert_g br_id). intros k' v Hv. unfold before.
    destruct (db_balances d !! k') eqn:E; [by eapply w_balances|]. exact (Hb k' v Hv).
  - by apply (fold_insert_empty (λ k _, k)).
  - by apply (fold_insert_empty (λ k _, k)).
  - by apply (fold_insert_empty (λ k _, k)).
  - by apply (fold_insert_empty (λ k _, k)).
  - by apply (fold_insert_empty (λ k _, k)).
  - etransitivity; [apply (fold_insert_g fr_feed (λ k _, default (FeedRecord k v_null 0) (db_feeds d !! k)))|].
    + intros k' v Hv. destruct (db_feeds d !! k') eqn:E; simpl; [by eapply w_feeds|done].
    + unfold before. by destruct (db_feeds d !! k).
  - by apply (fold_insert_empty (λ k _, k)).
Qed.
End undo_spec.

(** ** Theorems *)
Section theorems.
Context `{!Crypto}.

Lemma merged_look {K V} `{Countable K} (null : V → bool) (m t : gmap K V) (k : K) :
  (∀ v, t !! k = Some v → null v = false) →
  merged null m t k = drop_null null (match m !! k with Some v => Some v | None => t !! k end).
Proof.
  intros Ht. unfold merged. destruct (m !! k); [done|].
  destruct (t !! k) as [v|] eqn:E; [simpl; by rewrite (Ht v)|done].
Qed.

(** C16 (apply_changes_answers). Applying a pending state to the database
    succeeds, and afterwards the database answers the lookups by key of assets,
    balances, accounts, bids, asks, shorts, positions and slates as the pending
    state did, a record that means deletion being absent.  The lookup of an
    account by the address of its owner is not among them
    ([owner_address_forgotten]). *)
Theorem apply_changes_answers (p : pending_chain_state) (d : chain_database) :
  keyed p → trx_keyed p → db_wf d → head_num d < FORK_25 →
  ∃ d', apply_changes p (Database d) = Ok (Database d') ∧
    let before_s := Pending p (Database d) in let after_s := Database d' in
    (∀ k, get_asset_record k after_s = drop_null ar_is_null (get_asset_record k before_s)) ∧
    (∀ k, get_balance_record k after_s = get_balance_record k before_s) ∧
    (∀ k, get_account_record k after_s = drop_null ac_is_null (get_account_record k before_s)) ∧
    (∀ k, get_bid_record k after_s = drop_null or_is_null (get_bid_record k before_s)) ∧
    (∀ k, get_ask_record k after_s = drop_null or_is_null (get_ask_record k before_s)) ∧
    (∀ k, get_short_record k after_s = drop_null or_is_null (get_short_record k before_s)) ∧
    (∀ k, get_collateral_record k after_s =
          drop_null cr_is_null (get_collateral_record k before_s)) ∧
    (∀ k, get_delegate_slate k after_s = drop_null slate_is_null (get_delegate_slate k before_s)).
Proof.
  intros Hk Ht Hd Hn. destruct (apply_changes_applied p d Hk Ht Hn) as (d' & E & Hap).
  exists d'. split; [exact E|]. simpl.
  split_and!; intros k;
    [rewrite (a_assets p d d' Hap)|rewrite (a_balances p d d' Hap)
    |rewrite (a_accounts p d d' Hap)|rewrite (a_bids p d d' Hap)
    |rewrite (a_asks p d d' Hap)|rewrite (a_shorts p d d' Hap)
    |rewrite (a_collateral p d d' Hap)|rewrite (a_slates p d d' Hap)];
    try (apply merged_look; intros v Hv).
  - by eapply w_assets.
  - unfold merged. by destruct (p_balances p !! k).
  - by eapply w_accounts.
  - by eapply w_bids.
  - by eapply w_asks.
  - by eapply w_shorts.
  - by eapply w_collateral.
  - unfold slate_is_null. apply bool_decide_eq_false_2. by eapply w_slates.
Qed.

Lemma undo_keyed p u d : keyed p → db_wf d → undone p u d → keyed (pending_chain_state_reflected u).
Proof.
  intros [Ha Hc Hb Hf] Hd Hu. split; intros k r; cbn.
  - rewrite (u_assets p u d Hu). intros (v & Hv & ->)%fmap_Some. unfold before.
    destruct (db_assets d !! k) eqn:E; [by eapply w_assets|exact (Ha k v Hv)].
  - rewrite (u_accounts p u d Hu). intros (v & Hv & ->)%fmap_Some. unfold before.
    destruct (db_accounts d !! k) eqn:E; [by eapply w_accounts|exact (Hc k v Hv)].
  - rewrite (u_balances p u d Hu). intros (v & Hv & ->)%fmap_Some. unfold before.
    destruct (db_balances d !! k) eqn:E; [by eapply w_balances|exact (Hb k v Hv)].
  - rewrite (u_feeds p u d Hu). intros (v & Hv & ->)%fmap_Some. unfold before.
    destruct (db_feeds d !! k) eqn:E; [by eapply w_feeds|done].
Qed.

Lemma undo_trx_keyed p u d : db_wf d → undone p u d → trx_keyed (pending_chain_state_reflected u).
Proof.
  intros Hd Hu k r. cbn. rewrite (u_transactions p u d Hu). intros (v & Hv & ->)%fmap_Some.
  unfold before. destruct (db_transactions d !! k) eqn:E; [right; by eapply w_transactions|by left].
Qed.

(** One table through apply and undo. *)
Lemma table_restored {K V} `{Countable K} (null : V → bool) (undo : K → V → V)
    (m t t1 u t2 : gmap K V) :
  (∀ k, t1 !! k = merged null m t k) → (∀ k, u !! k = before t undo k <$> m !! k) →
  (∀ k, t2 !! k = merged null u t1 k) →
  (∀ k v, t !! k = Some v → null v = false) → (∀ k v, null (undo k v) = true) → t2 = t.
Proof.
  intros H1 Hu H2 Ht Hn. apply map_eq. intros k. rewrite H2. unfold merged.
  apply (undo_entry null undo m); [done|done|apply H1|]. rewrite Hu. unfold before.
  by destruct (m !! k).
Qed.

(** The tables the theorem below is about. *)
Definition same_tables (d d' : chain_database) : Prop :=
  db_properties d' = db_properties d ∧ db_assets d' = db_assets d ∧
  db_accounts d' = db_accounts d ∧ db_balances d' = db_balances d ∧ db_bids d' = db_bids d ∧
  db_asks d' = db_asks d ∧ db_shorts d' = db_shorts d ∧ db_collateral d' = db_collateral d ∧
  db_slates d' = db_slates d ∧ db_feeds d' = db_feeds d ∧ db_transactions d' = db_transactions d.
Definition restored (d d' : chain_database) : Prop :=
  db_assets d' = db_assets d ∧ db_accounts d' = db_accounts d ∧
  db_bids d' = db_bids d ∧ db_asks d' = db_asks d ∧ db_shorts d' = db_shorts d ∧
  db_collateral d' = db_collateral d ∧ db_slates d' = db_slates d ∧
  db_feeds d' = db_feeds d ∧ db_transactions d' = db_transactions d ∧
  (∀ k, k ≠ dirty_markets_prop → db_properties d' !! k = db_properties d !! k) ∧
  (∀ k r, db_balances d !! k = Some r → db_balances d' !! k = Some r) ∧
  (∀ k r, db_balances d !! k = None → db_balances d' !! k = Some r → br_balance r = 0).
Lemma undone_restored p u d d1 d1' d2 :
  db_wf d → (∀ k, is_Some (p_properties p !! k) → is_Some (db_properties d !! k)) →
  undone p u d → applied p d d1 → same_tables d1 d1' →
  applied (pending_chain_state_reflected u) d1' d2 → restored d d2.
Proof.
  intros Hd Hprop [] [] (Et1 & Et2 & Et3 & Et4 & Et5 & Et6 & Et7 & Et8 & Et9 & Et10 & Et11) [].
  rewrite ?Et1, ?Et2, ?Et3, ?Et4, ?Et5, ?Et6, ?Et7, ?Et8, ?Et9, ?Et10, ?Et11 in *.
  split_and!; try done.
  - eapply (table_restored ar_is_null _ _ _ _ _ _ a_assets0 u_assets0 a_assets1); [by intros ?? [? _]%(w_assets d Hd)|done].
  - eapply (table_restored ac_is_null _ _ _ _ _ _ a_accounts0 u_accounts0 a_accounts1); [by intros ?? [? _]%(w_accounts d Hd)|done].
  - eapply (table_restored or_is_null _ _ _ _ _ _ a_bids0 u_bids0 a_bids1); [by apply w_bids|done].
  - eapply (table_restored or_is_null _ _ _ _ _ _ a_asks0 u_asks0 a_asks1); [by apply w_asks|done].
  - eapply (table_restored or_is_null _ _ _ _ _ _ a_shorts0 u_shorts0 a_shorts1); [by apply w_shorts|done].
  - eapply (table_restored cr_is_null _ _ _ _ _ _ a_collateral0 u_collateral0 a_collateral1); [by apply w_collateral|done].
  - eapply (table_restored slate_is_null _ _ _ _ _ _ a_slates0 u_slates0 a_slates1); [|done].
    intros k s Hs. apply bool_decide_eq_false_2. by eapply w_slates.
  - eapply (table_restored fr_is_null _ _ _ _ _ _ a_feeds0 u_feeds0 a_feeds1); [by intros ?? [? _]%(w_feeds d Hd)|done].
  - eapply (table_restored tr_is_null _ _ _ _ _ _ a_transactions0 u_transactions0 a_transactions1); [by intros ?? [? _]%(w_transactions d Hd)|done].
  - intros k Hne. rewrite a_properties1 by done. unfold merged. cbn. rewrite u_properties0 by done.
    rewrite a_properties0 by done. unfold merged.
    destruct (p_properties p !! k) as [v|] eqn:Ep; [|done]. simpl.
    destruct (Hprop k) as [w Hw]; [by rewrite Ep|]. rewrite Hw. simpl. by rewrite (w_properties d Hd k w).
  - intros k r Hr. rewrite a_balances1. unfold merged. cbn. rewrite u_balances0, a_balances0.
    unfold merged, before. rewrite Hr. by destruct (p_balances p !! k).
  - intros k r Hr. rewrite a_balances1. unfold merged. cbn. rewrite u_balances0, a_balances0.
    unfold merged, before. rewrite Hr. destruct (p_balances p !! k); simpl; [|done]. by intros [= <-].
Qed.

(** C13 (undo_restores). Applying a block's pending state and then the undo state
    computed before it, in the form it is read back from disk, succeeds and
    restores the assets, accounts, orders, positions, slates, feeds and
    transaction records of the database, and its properties except the list of
    dirty markets; every balance that existed is restored, and one the block
    created is left with amount zero.  Slots, market statuses and the list of
    dirty markets are not restored ([undo_incomplete]), and of burns and history
    nothing is said. *)
Theorem undo_restores (p : pending_chain_state) (d : chain_database) :
  keyed p → trx_keyed p → db_wf d → head_num d < FORK_25 →
  (∀ k, is_Some (p_properties p !! k) → is_Some (db_properties d !! k)) →
  ∃ u d1 d2, get_undo_state p (Database d) = Ok u ∧
    apply_changes p (Database d) = Ok (Database d1) ∧
    apply_changes (pending_chain_state_reflected u) (Database d1) = Ok (Database d2) ∧
    db_assets d2 = db_assets d ∧ db_accounts d2 = db_accounts d ∧
    db_bids d2 = db_bids d ∧ db_asks d2 = db_asks d ∧ db_shorts d2 = db_shorts d ∧
    db_collateral d2 = db_collateral d ∧ db_slates d2 = db_slates d ∧
    db_feeds d2 = db_feeds d ∧ db_transactions d2 = db_transactions d ∧
    (∀ k, k ≠ dirty_markets_prop → db_properties d2 !! k = db_properties d !! k) ∧
    (∀ k r, db_balances d !! k = Some r → db_balances d2 !! k = Some r) ∧
    (∀ k r, db_balances d !! k = None → db_balances d2 !! k = Some r → br_balance r = 0).
Proof.
  intros Hk Ht Hd Hn Hprop.
  destruct (get_undo_state_undone p d Hk Hd Hprop) as (u & Eu & Hu).
  destruct (apply_changes_applied p d Hk Ht Hn) as (d1 & E1 & H1).
  destruct (apply_changes_applied (pending_chain_state_reflected u) d1) as (d2 & E2 & H2).
  { by eapply undo_keyed. }
  { by eapply undo_trx_keyed. }
  { unfold head_num. by rewrite (a_head p d d1 H1). }
  exists u, d1, d2. do 3 (split; [done|]). by eapply (undone_restored p u d d1 d1 d2).
Qed.
End theorems.

(** A block that spends a balance, opens an ask and registers an account. *)
Definition example_condition (o : address) : withdraw_condition :=
  WithdrawCondition 0 0 (withdraw_with_signature o None).
Definition example_account (id : Z) : account_record :=
  AccountRecord id "alice" v_null 77 [(5, 78)] 5 5 None None.
Definition example_ask : market_index_key := MarketIndexKey (Price (10 ^ 18) 0 3) 9.
Definition example_d : chain_database :=
  set_db_properties (list_to_map [(last_account_id_prop, v_int 4); (chain_id_prop, v_hash 1);
      (dirty_markets_prop, v_pairs [])])
    (set_db_balances {[ br_id (BalanceRecord 500 (example_condition 8) None 0 0) :=
                        BalanceRecord 500 (example_condition 8) None 0 0 ]}
       (chain_database_empty 1)).
Definition example_p : pending_chain_state :=
  p_store_ask_record example_ask (order_record_of 100)
    (p_store_account_record (example_account 5)
      (p_set_property last_account_id_prop (v_int 5)
        (p_store_balance_record (BalanceRecord 100 (example_condition 8) None 0 0)
          pending_chain_state_empty))).

Lemma lookup_one {K V} `{Countable K} (m : gmap K V) (k k' : K) (v v' : V) :
  m = <[k := v]> ∅ → m !! k' = Some v' → k' = k ∧ v' = v.
Proof.
  intros ->. intros [[-> ->]|[_ Hk]]%lookup_insert_Some; [done|]. by rewrite lookup_empty in Hk.
Qed.
Lemma lookup_none {K V} `{Countable K} (m : gmap K V) (k' : K) (v' : V) :
  m = ∅ → m !! k' = Some v' → False.
Proof. intros ->. by rewrite lookup_empty. Qed.

Lemma example_keyed : keyed example_p ∧ trx_keyed example_p.
Proof.
  split; [split|]; intros k r Hr; try (by apply lookup_none in Hr).
  - by apply (lookup_one _ 5 _ (example_account 5)) in Hr as [-> ->].
  - by apply (lookup_one _ (br_id (BalanceRecord 100 (example_condition 8) None 0 0)) _
                (BalanceRecord 100 (example_condition 8) None 0 0)) in Hr as [-> ->].
Defined.
Lemma example_wf : db_wf example_d.
Proof.
  split; intros k r Hr; try (by apply lookup_none in Hr).
  - apply elem_of_list_to_map_2 in Hr.
    repeat (apply elem_of_cons in Hr as [[= -> ->]|Hr]; [reflexivity|]). by apply elem_of_nil in Hr.
  - by apply (lookup_one _ (br_id (BalanceRecord 500 (example_condition 8) None 0 0)) _
                (BalanceRecord 500 (example_condition 8) None 0 0)) in Hr as [-> ->].
Defined.
Lemma example_properties k :
  is_Some (p_properties example_p !! k) → is_Some (db_properties example_d !! k).
Proof.
  intros [v Hv]. apply (lookup_one _ last_account_id_prop _ (v_int 5)) in Hv as [-> _]; [|done].
  exists (v_int 4). vm_compute. reflexivity.
Defined.

Lemma apply_changes_answers_witness :
  ∃ d', apply_changes example_p (Database example_d) = Ok (Database d') ∧
    get_ask_record example_ask (Database d') = Some (order_record_of 100).
Proof.
  destruct (apply_changes_answers example_p example_d (proj1 example_keyed) (proj2 example_keyed)
              example_wf) as (d' & E & _ & _ & _ & _ & Ha & _); [vm_compute; reflexivity|].
  exists d'. split; [exact E|]. rewrite Ha. vm_compute. reflexivity.
Defined.

Lemma undo_restores_witness :
  ∃ u d1 d2, get_undo_state example_p (Database example_d) = Ok u ∧
    apply_changes example_p (Database example_d) = Ok (Database d1) ∧
    apply_changes (pending_chain_state_reflected u) (Database d1) = Ok (Database d2) ∧
    db_asks d2 = ∅ ∧ db_accounts d2 = ∅.
Proof.
  destruct (undo_restores example_p example_d (proj1 example_keyed) (proj2 example_keyed)
              example_wf) as (u & d1 & d2 & E1 & E2 & E3 & _ & Hc & _ & Hk & _);
    [vm_compute; reflexivity|exact example_properties|].
  exists u, d1, d2. split_and!; [exact E1|exact E2|exact E3|exact Hk|exact Hc].
Defined.

(** ** Indexes of the database *)
Section indexes.
Context `{!Crypto}.

(** The vote index lists every delegate once, under its current votes. *)
Definition vote_index (d : chain_database) : Prop :=
  ∀ v id, (v, id) ∈ db_delegate_votes d ↔
    ∃ r i, db_accounts d !! id = Some r ∧ ac_delegate_info r = Some i ∧ ds_votes_for i = v.

Lemma drop_votes_spec d id v id' :
  vote_index d →
  (v, id') ∈ drop_votes (db_accounts d !! id) id (db_delegate_votes d) ↔
    id' ≠ id ∧ (v, id') ∈ db_delegate_votes d.
Proof.
  intros Hd. unfold drop_votes. destruct (db_accounts d !! id) as [r|] eqn:E; simpl.
  - destruct (ac_delegate_info r) as [i|] eqn:Ei.
    + rewrite elem_of_difference, elem_of_singleton. split.
      * intros [H1 H2]. split; [|done]. intros ->. apply H2.
        apply Hd in H1 as (r' & i' & Hr & Hi & <-). congruence.
      * intros [Hne H1]. split; [done|congruence].
    + split; [|by intros [_ ?]]. intros H1. split; [|done]. intros ->.
      apply Hd in H1 as (r' & i' & Hr & Hi & _). congruence.
  - split; [|by intros [_ ?]]. intros H1. split; [|done]. intros ->.
    apply Hd in H1 as (r' & i' & Hr & _). congruence.
Qed.

Lemma store_account_indexed (r : account_record) (d : chain_database) :
  vote_index d → vote_index (db_store_account_record r d).
Proof.
  intros Hd. unfold db_store_account_record. cbv zeta.
  assert (Hdrop := λ v id', drop_votes_spec d (ac_id r) v id' Hd).
  destruct (ac_is_null r) eqn:Enull.
  - destruct (db_accounts d !! ac_id r) as [old|] eqn:Eold; [|done].
    intros v id. cbn. rewrite Hdrop. rewrite (Hd v id). split.
    + intros [Hne (r' & i' & Hr & Hi)]. exists r', i'. by rewrite lookup_delete_ne.
    + intros (r' & i' & Hr & Hi). apply lookup_delete_Some in Hr as [Hne Hr].
      split; [done|]. by exists r', i'.
  - assert (Hgoal : ∀ votes : gset (Z * Z), (∀ v id, (v, id) ∈ votes ↔
        (id = ac_id r ∧ ∃ i, ac_delegate_info r = Some i ∧ ds_votes_for i = v) ∨
        (id ≠ ac_id r ∧ (v, id) ∈ db_delegate_votes d)) →
      ∀ v id, (v, id) ∈ votes ↔ ∃ r' i, <[ac_id r := r]> (db_accounts d) !! id = Some r' ∧
        ac_delegate_info r' = Some i ∧ ds_votes_for i = v).
    { intros votes Hv v id. rewrite Hv, (Hd v id). destruct (decide (id = ac_id r)) as [->|Hne].
      - rewrite lookup_insert_eq. split; [|naive_solver].
        intros [(_ & i & Hi)|[]]; [|done]. by exists r, i.
      - rewrite lookup_insert_ne by done. naive_solver. }
    assert (Hfin : ∀ v id, (v, id) ∈
        match ac_delegate_info r with
        | Some i => {[(ds_votes_for i, ac_id r)]} ∪
                      drop_votes (db_accounts d !! ac_id r) (ac_id r) (db_delegate_votes d)
        | None => drop_votes (db_accounts d !! ac_id r) (ac_id r) (db_delegate_votes d)
        end ↔ (id = ac_id r ∧ ∃ i, ac_delegate_info r = Some i ∧ ds_votes_for i = v) ∨
              (id ≠ ac_id r ∧ (v, id) ∈ db_delegate_votes d)).
    { intros v id. destruct (ac_delegate_info r) as [i|].
      - rewrite elem_of_union, elem_of_singleton, Hdrop. naive_solver.
      - rewrite Hdrop. naive_solver. }
    intros v id. exact (Hgoal _ Hfin v id).
Qed.
(** C17 (vote_index_preserved). Storing an account in the database, whether it
    inserts, updates or removes the record, keeps the delegate vote index
    exact: one entry per delegate, under its current vote count. *)
Theorem vote_index_preserved (r : account_record) (d : chain_database) :
  vote_index d → vote_index (db_store_account_record r d).
Proof. apply store_account_indexed. Qed.

(** An account stored into a pending state is
    found by the address of its owner key; once stored into the database it is
    not, unless that key is also one of its active keys: the database indexes
    active keys only. *)
Theorem owner_address_forgotten (r : account_record) (p : pending_chain_state)
    (d : chain_database) :
  let a := address_of_key (ac_owner_key r) in
  ac_is_null r = false → a ∉ key_addresses r → db_address_to_account d !! a = None →
  get_account_record_by_address a (Pending (p_store_account_record r p) (Database d)) =
    Ok (Some r) ∧
  get_account_record_by_address a (Database (db_store_account_record r d)) = Ok None.
Proof.
  intros a Hnull Ha Hd. simpl. subst a. split.
  - rewrite lookup_insert_eq. unfold get_account_record. simpl. by rewrite lookup_insert_eq.
  - unfold db_store_account_record. rewrite Hnull. cbv zeta.
    assert (Hl : ∀ l (m : gmap address Z), address_of_key (ac_owner_key r) ∉ l → m !! address_of_key (ac_owner_key r) = None →
      foldl (λ m a, <[a := ac_id r]> m) m l !! address_of_key (ac_owner_key r) = None).
    { intros l. induction l as [|a l IH]; intros m Hl Hm; simpl; [done|].
      apply not_elem_of_cons in Hl as [Hne Hl]. apply IH; [done|]. by rewrite lookup_insert_ne. }
    destruct (ac_delegate_info r); cbn; by rewrite Hl.
Qed.
End indexes.

Definition example_delegate : account_record :=
  AccountRecord 5 "bob" v_null 77 [(5, 78)] 5 5 (Some (set_ds_votes_for 40 (delegate_stats_new 3))) None.
Lemma vote_index_preserved_witness :
  vote_index (db_store_account_record example_delegate (chain_database_empty 1)) ∧
  db_delegate_votes (db_store_account_record example_delegate (chain_database_empty 1)) = {[(40, 5)]}.
Proof.
  split; [|vm_compute; reflexivity]. apply (vote_index_preserved example_delegate).
  intros v id. split; [intros Hv; by apply not_elem_of_empty in Hv|].
  intros (r & i & Hr & _). by apply lookup_none in Hr.
Defined.
Lemma owner_address_forgotten_witness :
  get_account_record_by_address (address_of_key 77)
    (Database (db_store_account_record (example_account 5) (chain_database_empty 1))) = Ok None.
Proof.
  apply (owner_address_forgotten (example_account 5) pending_chain_state_empty
           (chain_database_empty 1)); [reflexivity| |reflexivity].
  intros Hx. apply list_elem_of_singleton in Hx. discriminate Hx.
Defined.

(** ** What undoing does not restore *)
Definition example_slot : slot_record := SlotRecord 10 4 None.
Definition fork_d : chain_database :=
  set_db_properties (list_to_map [(chain_id_prop, v_hash 1); (dirty_markets_prop, v_pairs [(4, 0)])])
    (chain_database_empty 1).
Definition fork_p : pending_chain_state :=
  p_store_market_status (MarketStatus 3 0 None None None)
    (p_store_slot_record example_slot
      (p_store_ask_record example_ask (order_record_of 100) pending_chain_state_empty)).

(** Popping a block does not restore everything: the slot
    record and the market status the block created stay in the database, and
    the list of dirty markets becomes the markets of the popped block instead
    of the list the previous block left. *)
Theorem undo_incomplete :
  ∃ u d1 d2, get_undo_state fork_p (Database fork_d) = Ok u ∧
    apply_changes fork_p (Database fork_d) = Ok (Database d1) ∧
    apply_changes (pending_chain_state_reflected u) (Database d1) = Ok (Database d2) ∧
    (get_slot_record 10 (Database fork_d) = None ∧
     get_slot_record 10 (Database d2) = Some example_slot) ∧
    (get_market_status 3 0 (Database fork_d) = Ok None ∧
     get_market_status 3 0 (Database d2) = Ok (Some (MarketStatus 3 0 None None None))) ∧
    (get_dirty_markets (Database fork_d) = {[(4, 0)]} ∧
     get_dirty_markets (Database d2) = {[(3, 0)]}).
Proof.
  eexists _, _, _. split; [vm_compute; reflexivity|]. split; [vm_compute; reflexivity|].
  split; [vm_compute; reflexivity|]. vm_compute. repeat split.
Qed.
