(* ===== verification/EvalState.v ===== *)
(** The evaluation of one transaction ([transaction_evaluation_state.hpp] and
    [.cpp]): what its operations withdrew and deposited, the fees and deposits
    they require, and the votes they move, over the chain state they change.

    [es_net_delegate_votes] keeps the one field of a [vote_state].  Maps whose
    iteration order the code observes are walked in key order ([map_asc]); for
    the [unordered_map]s the order of [map_to_list] stands for any order. *)
From S2P Require Export ApplyUndo.

Record transaction_evaluation_state := EvalState {
  es_trx : signed_transaction;
  es_signed_keys : gset address;
  es_validation_error : option exn;
  es_required_deposits : gmap address asset;
  es_provided_deposits : gmap address asset;
  es_deposits : gmap Z asset;
  es_withdraws : gmap Z asset;
  es_yield : gmap Z Z;
  es_deltas : gmap Z asset;
  es_required_fees : asset;
  es_alt_fees_paid : asset;
  es_balance : gmap Z Z;
  es_net_delegate_votes : gmap Z Z;
  es_current_state : chain_state;
  es_chain_id : digest_type;
  es_skip_signature_check : bool;
  es_current_op_index : Z
}.
Definition set_es_trx (v : signed_transaction) (r : transaction_evaluation_state) : transaction_evaluation_state :=
  EvalState v (es_signed_keys r) (es_validation_error r)
    (es_required_deposits r) (es_provided_deposits r) (es_deposits r)
    (es_withdraws r) (es_yield r) (es_deltas r) (es_required_fees r)
    (es_alt_fees_paid r) (es_balance r) (es_net_delegate_votes r)
    (es_current_state r) (es_chain_id r) (es_skip_signature_check r)
    (es_current_op_index r).
Definition set_es_signed_keys (v : gset address) (r : transaction_evaluation_state) : transaction_evaluation_state :=
  EvalState (es_trx r) v (es_validation_error r) (es_required_deposits r)
    (es_provided_deposits r) (es_deposits r) (es_withdraws r) (es_yield r)
    (es_deltas r) (es_required_fees r) (es_alt_fees_paid r) (es_balance r)
    (es_net_delegate_votes r) (es_current_state r) (es_chain_id r)
    (es_skip_signature_check r) (es_current_op_index r).
Definition set_es_validation_error (v : option exn) (r : transaction_evaluation_state) : transaction_evaluation_state :=
  EvalState (es_trx r) (es_signed_keys r) v (es_required_deposits r)
    (es_provided_deposits r) (es_deposits r) (es_withdraws r) (es_yield r)
    (es_deltas r) (es_required_fees r) (es_alt_fees_paid r) (es_balance r)
    (es_net_delegate_votes r) (es_current_state r) (es_chain_id r)
    (es_skip_signature_check r) (es_current_op_index r).
Definition set_es_required_deposits (v : gmap address asset) (r : transaction_evaluation_state) : transaction_evaluation_state :=
  EvalState (es_trx r) (es_signed_keys r) (es_validation_error r) v
    (es_provided_deposits r) (es_deposits r) (es_withdraws r) (es_yield r)
    (es_deltas r) (es_required_fees r) (es_alt_fees_paid r) (es_balance r)
    (es_net_delegate_votes r) (es_current_state r) (es_chain_id r)
    (es_skip_signature_check r) (es_current_op_index r).
Definition set_es_provided_deposits (v : gmap address asset) (r : transaction_evaluation_state) : transaction_evaluation_state :=
  EvalState (es_trx r) (es_signed_keys r) (es_validation_error r)
    (es_required_deposits r) v (es_deposits r) (es_withdraws r) (es_yield r)
    (es_deltas r) (es_required_fees r) (es_alt_fees_paid r) (es_balance r)
    (es_net_delegate_votes r) (es_current_state r) (es_chain_id r)
    (es_skip_signature_check r) (es_current_op_index r).
Definition set_es_deposits (v : gmap Z asset) (r : transaction_evaluation_state) : transaction_evaluation_state :=
  EvalState (es_trx r) (es_signed_keys r) (es_validation_error r)
    (es_required_deposits r) (es_provided_deposits r) v (es_withdraws r)
    (es_yield r) (es_deltas r) (es_required_fees r) (es_alt_fees_paid r)
    (es_balance r) (es_net_delegate_votes r) (es_current_state r)
    (es_chain_id r) (es_skip_signature_check r) (es_current_op_index r).
Definition set_es_withdraws (v : gmap Z asset) (r : transaction_evaluation_state) : transaction_evaluation_state :=
  EvalState (es_trx r) (es_signed_keys r) (es_validation_error r)
    (es_required_deposits r) (es_provided_deposits r) (es_deposits r) v
    (es_yield r) (es_deltas r) (es_required_fees r) (es_alt_fees_paid r)
    (es_balance r) (es_net_delegate_votes r) (es_current_state r)
    (es_chain_id r) (es_skip_signature_check r) (es_current_op_index r).
Definition set_es_yield (v : gmap Z Z) (r : transaction_evaluation_state) : transaction_evaluation_state :=
  EvalState (es_trx r) (es_signed_keys r) (es_validation_error r)
    (es_required_deposits r) (es_provided_deposits r) (es_deposits r)
    (es_withdraws r) v (es_deltas r) (es_required_fees r) (es_alt_fees_paid
    r) (es_balance r) (es_net_delegate_votes r) (es_current_state r)
    (es_chain_id r) (es_skip_signature_check r) (es_current_op_index r).
Definition set_es_deltas (v : gmap Z asset) (r : transaction_evaluation_state) : transaction_evaluation_state :=
  EvalState (es_trx r) (es_signed_keys r) (es_validation_error r)
    (es_required_deposits r) (es_provided_deposits r) (es_deposits r)
    (es_withdraws r) (es_yield r) v (es_required_fees r) (es_alt_fees_paid
    r) (es_balance r) (es_net_delegate_votes r) (es_current_state r)
    (es_chain_id r) (es_skip_signature_check r) (es_current_op_index r).
Definition set_es_required_fees (v : asset) (r : transaction_evaluation_state) : transaction_evaluation_state :=
  EvalState (es_trx r) (es_signed_keys r) (es_validation_error r)
    (es_required_deposits r) (es_provided_deposits r) (es_deposits r)
    (es_withdraws r) (es_yield r) (es_deltas r) v (es_alt_fees_paid r)
    (es_balance r) (es_net_delegate_votes r) (es_current_state r)
    (es_chain_id r) (es_skip_signature_check r) (es_current_op_index r).
Definition set_es_alt_fees_paid (v : asset) (r : transaction_evaluation_state) : transaction_evaluation_state :=
  EvalState (es_trx r) (es_signed_keys r) (es_validation_error r)
    (es_required_deposits r) (es_provided_deposits r) (es_deposits r)
    (es_withdraws r) (es_yield r) (es_deltas r) (es_required_fees r) v
    (es_balance r) (es_net_delegate_votes r) (es_current_state r)
    (es_chain_id r) (es_skip_signature_check r) (es_current_op_index r).
Definition set_es_balance (v : gmap Z Z) (r : transaction_evaluation_state) : transaction_evaluation_state :=
  EvalState (es_trx r) (es_signed_keys r) (es_validation_error r)
    (es_required_deposits r) (es_provided_deposits r) (es_deposits r)
    (es_withdraws r) (es_yield r) (es_deltas r) (es_required_fees r)
    (es_alt_fees_paid r) v (es_net_delegate_votes r) (es_current_state r)
    (es_chain_id r) (es_skip_signature_check r) (es_current_op_index r).
Definition set_es_net_delegate_votes (v : gmap Z Z) (r : transaction_evaluation_state) : transaction_evaluation_state :=
  EvalState (es_trx r) (es_signed_keys r) (es_validation_error r)
    (es_required_deposits r) (es_provided_deposits r) (es_deposits r)
    (es_withdraws r) (es_yield r) (es_deltas r) (es_required_fees r)
    (es_alt_fees_paid r) (es_balance r) v (es_current_state r) (es_chain_id
    r) (es_skip_signature_check r) (es_current_op_index r).
Definition set_es_current_state (v : chain_state) (r : transaction_evaluation_state) : transaction_evaluation_state :=
  EvalState (es_trx r) (es_signed_keys r) (es_validation_error r)
    (es_required_deposits r) (es_provided_deposits r) (es_deposits r)
    (es_withdraws r) (es_yield r) (es_deltas r) (es_required_fees r)
    (es_alt_fees_paid r) (es_balance r) (es_net_delegate_votes r) v
    (es_chain_id r) (es_skip_signature_check r) (es_current_op_index r).
Definition set_es_skip_signature_check (v : bool) (r : transaction_evaluation_state) : transaction_evaluation_state :=
  EvalState (es_trx r) (es_signed_keys r) (es_validation_error r)
    (es_required_deposits r) (es_provided_deposits r) (es_deposits r)
    (es_withdraws r) (es_yield r) (es_deltas r) (es_required_fees r)
    (es_alt_fees_paid r) (es_balance r) (es_net_delegate_votes r)
    (es_current_state r) (es_chain_id r) v (es_current_op_index r).
Definition set_es_current_op_index (v : Z) (r : transaction_evaluation_state) : transaction_evaluation_state :=
  EvalState (es_trx r) (es_signed_keys r) (es_validation_error r)
    (es_required_deposits r) (es_provided_deposits r) (es_deposits r)
    (es_withdraws r) (es_yield r) (es_deltas r) (es_required_fees r)
    (es_alt_fees_paid r) (es_balance r) (es_net_delegate_votes r)
    (es_current_state r) (es_chain_id r) (es_skip_signature_check r) v.


(** The constructor: everything empty over [current_state]. *)
Definition eval_state_new (s : chain_state) (chain_id : digest_type)
    : transaction_evaluation_state :=
  EvalState signed_transaction_default ∅ None ∅ ∅ ∅ ∅ ∅ ∅ asset_default asset_default ∅ ∅
    s chain_id false 0.

(** [reset] leaves the provided deposits, the yield, the deltas and the two
    fee totals as they are. *)
Definition reset (e : transaction_evaluation_state) : transaction_evaluation_state :=
  EvalState (es_trx e) ∅ None ∅ (es_provided_deposits e) ∅ ∅ (es_yield e) (es_deltas e)
    (es_required_fees e) (es_alt_fees_paid e) ∅ ∅
    (es_current_state e) (es_chain_id e) (es_skip_signature_check e) (es_current_op_index e).

Definition on_current_state (f : chain_state → chain_state) (e : transaction_evaluation_state)
    : transaction_evaluation_state :=
  set_es_current_state (f (es_current_state e)) e.

(** [unordered_map< asset_id, asset >]: insert or [+=]. *)
Definition accumulate {K} `{Countable K} (k : K) (a : asset) (m : gmap K asset)
    : result (gmap K asset) :=
  match m !! k with
  | None => Ok (<[k := a]> m)
  | Some b => let* c := asset_add b a in Ok (<[k := c]> m)
  end.

Section eval_state.
Context `{!Fc, !Crypto}.
Implicit Types (e : transaction_evaluation_state).

Definition check_signature (a : address) e : bool :=
  es_skip_signature_check e || bool_decide (a ∈ es_signed_keys e).

(** ** Account names ([chain_interface.cpp]) *)
Definition dot : ascii := ascii_of_nat 46.
Fixpoint after_dot (s : string) : option string :=
  match s with
  | EmptyString => None
  | String c s' => if bool_decide (c = dot) then Some s' else after_dot s'
  end.
Definition get_parent_account_name (account_name : string) : option string :=
  after_dot account_name.

(** Each step removes at least the dot, so the length of the name bounds the
    number of steps. *)
Fixpoint any_parent_has_signed_loop (fuel : nat) (parent_name : option string) e : bool :=
  match fuel, parent_name with
  | S n, Some name =>
      let next := any_parent_has_signed_loop n (get_parent_account_name name) e in
      match get_account_record_by_name name (es_current_state e) with
      | None => next
      | Some parent =>
          if ac_is_retracted parent then next
          else if check_signature (address_of_key (ac_active_key parent)) e then true
          else if check_signature (address_of_key (ac_owner_key parent)) e then true
          else next
      end
  | _, _ => false
  end.
Definition any_parent_has_signed (account_name : string) e : bool :=
  any_parent_has_signed_loop (String.length account_name)
    (get_parent_account_name account_name) e.
Definition account_or_any_parent_has_signed (r : account_record) e : bool :=
  if ac_is_retracted r then any_parent_has_signed (ac_name r) e
  else if check_signature (address_of_key (ac_active_key r)) e then true
  else if check_signature (address_of_key (ac_owner_key r)) e then true
  else any_parent_has_signed (ac_name r) e.

Definition verify_delegate_id (id : Z) e : result () :=
  let* r := of_option unknown_account_id (get_account_record id (es_current_state e)) in
  ensure ac_is_delegate r else not_a_delegate in Ok ().

(** ** Tracking funds and votes *)
Definition add_required_deposit (owner_key : address) (amount : asset) e
    : result transaction_evaluation_state :=
  let* slate := of_option assert_failure (tx_delegate_slate_id (st_trx (es_trx e))) in
  let balance_id := address_of_condition
    (WithdrawCondition (asset_id amount) slate (withdraw_with_signature owner_key None)) in
  let* m := accumulate balance_id amount (es_required_deposits e) in
  Ok (set_es_required_deposits m e).

Definition sub_balance (balance_id : address) (amnt : asset) e
    : result transaction_evaluation_state :=
  let* provided :=
    if balance_id =? 0 then Ok (es_provided_deposits e)
    else accumulate balance_id amnt (es_provided_deposits e) in
  let* deposits := accumulate (asset_id amnt) amnt (es_deposits e) in
  let balance :=
    match es_balance e !! asset_id amnt with
    | Some b => <[asset_id amnt := s64 (b - amount amnt)]> (es_balance e)
    | None => <[asset_id amnt := s64 (- amount amnt)]> (es_balance e)
    end in
  Ok (set_es_deltas (<[es_current_op_index e := amnt]> (es_deltas e))
       (set_es_balance balance
         (set_es_deposits deposits (set_es_provided_deposits provided e)))).

Definition add_balance (amnt : asset) e : result transaction_evaluation_state :=
  let* withdraws := accumulate (asset_id amnt) amnt (es_withdraws e) in
  let balance :=
    match es_balance e !! asset_id amnt with
    | None => <[asset_id amnt := amount amnt]> (es_balance e)
    | Some b => <[asset_id amnt := s64 (b + amount amnt)]> (es_balance e)
    end in
  Ok (set_es_deltas (<[es_current_op_index e := asset_neg amnt]> (es_deltas e))
       (set_es_balance balance (set_es_withdraws withdraws e))).

Definition vote_for (delegate_id amount : Z) (votes : gmap Z Z) : gmap Z Z :=
  <[delegate_id := s64 (default 0 (votes !! delegate_id) + amount)]> votes.
Definition adjust_vote (slate_id amount : Z) e : result transaction_evaluation_state :=
  if slate_id =? 0 then Ok e else
  let* slate := of_option unknown_delegate_slate
                  (get_delegate_slate slate_id (es_current_state e)) in
  Ok (set_es_net_delegate_votes
        (foldl (λ votes id,
           vote_for (Z.abs id)
             (if BTS_BLOCKCHAIN_ENABLE_NEGATIVE_VOTES && (id <? 0) then - amount else amount)
             votes) (es_net_delegate_votes e) slate) e).

Definition validate_asset (a : asset) e : result () :=
  let* r := of_option unknown_asset_id (get_asset_record (asset_id a) (es_current_state e)) in
  Ok ().

Definition get_fees (id : Z) e : Z := default 0 (es_balance e !! id).

(** ** After the operations *)
Definition update_delegate_votes e : result transaction_evaluation_state :=
  rfold (λ x e,
    let* r := of_option assert_failure (get_account_record x.1 (es_current_state e)) in
    let* r := ac_adjust_votes_for x.2 r in
    Ok (on_current_state (store_account_record r) e))
    (map_to_list (es_net_delegate_votes e)) e.

(** [required_fees > xts_fees] compares amounts. *)
Definition validate_required_fee e : result () :=
  let xts_fees := match es_balance e !! 0 with
                  | Some f => asset_add asset_default (Asset f 0)
                  | None => Ok asset_default
                  end in
  let* xts_fees := xts_fees in
  let* xts_fees := asset_add xts_fees (es_alt_fees_paid e) in
  ensure negb (asset_gtb (es_required_fees e) xts_fees) else insufficient_fee in Ok ().

(** Fees paid in a market-issued asset count at two thirds of the median feed
    price. *)
Definition alt_fee (fee : Z * Z) e : result transaction_evaluation_state :=
  ensure 0 <=? fee.2 else negative_fee in
  if (fee.1 =? 0) || (fee.2 =? 0) then Ok e else
  let* r := of_option unknown_asset_id (get_asset_record fee.1 (es_current_state e)) in
  if negb (ar_is_market_issued r) then Ok e else
  let* median := get_median_delegate_price fee.1 0 (es_current_state e) in
  match median with
  | None => Ok e
  | Some p =>
      let* converted := asset_mul (Asset (Z.quot (s64 (fee.2 * 2)) 3) fee.1) p in
      let* alt := asset_add (es_alt_fees_paid e) converted in
      Ok (set_es_alt_fees_paid alt e)
  end.
Definition collect_fee (fee : Z * Z) e : result transaction_evaluation_state :=
  ensure 0 <=? fee.2 else negative_fee in
  if 0 <? fee.2 then
    let* r := of_option unknown_asset_id (get_asset_record fee.1 (es_current_state e)) in
    Ok (on_current_state
          (store_asset_record (set_ar_collected_fees (s64 (ar_collected_fees r + fee.2)) r)) e)
  else Ok e.
(** A required deposit that was not provided at all makes the code dereference
    the end of the map. *)
Definition check_required_deposit (d : address * asset) e : result transaction_evaluation_state :=
  let* provided := of_option undefined (es_provided_deposits e !! d.1) in
  ensure negb (asset_ltb provided d.2) else missing_deposit in Ok e.
Definition post_evaluate e : result transaction_evaluation_state :=
  let e := set_es_balance (<[0 := default 0 (es_balance e !! 0)]> (es_balance e)) e in
  let* e := rfold alt_fee (map_asc (es_balance e)) e in
  let* e := rfold collect_fee (map_asc (es_balance e)) e in
  rfold check_required_deposit (map_to_list (es_required_deposits e)) e.

(** ** Signatures: a signature counts for the key's address and for the six
    addresses of other chains *)
Definition key_signs (key : public_key_type) : list address :=
  [address_of_key key;
   address_of_pts (pts_address_of_key key false 28); address_of_pts (pts_address_of_key key true 28);
   address_of_pts (pts_address_of_key key false 56); address_of_pts (pts_address_of_key key true 56);
   address_of_pts (pts_address_of_key key false 0); address_of_pts (pts_address_of_key key true 0)].
Definition recover_signed_keys (enforce_canonical : bool) (digest : digest_type) (sigs : list Z)
    (keys : gset address) : result (gset address) :=
  rfold (λ sig keys, let* key := recover_key sig digest enforce_canonical in
                     Ok (list_to_set (key_signs key) ∪ keys)) sigs keys.
End eval_state.
