(* ===== verification/Names.v ===== *)
(** Account and symbol names ([chain_interface.cpp], [account_record.cpp]). *)
From S2P Require Export EvalState.

(** ** Character classes of the C locale *)
Definition code (c : ascii) : Z := Z.of_nat (nat_of_ascii c).
Definition isupper (c : ascii) : bool := (65 <=? code c) && (code c <=? 90).
Definition islower (c : ascii) : bool := (97 <=? code c) && (code c <=? 122).
Definition isdigit (c : ascii) : bool := (48 <=? code c) && (code c <=? 57).
Definition isalpha (c : ascii) : bool := isupper c || islower c.
Definition isalnum (c : ascii) : bool := isalpha c || isdigit c.
Definition dash : ascii := ascii_of_nat 45.

Fixpoint string_last (s : string) : option ascii :=
  match s with
  | EmptyString => None
  | String c EmptyString => Some c
  | String _ s' => string_last s'
  end.
Fixpoint before_dot (s : string) : string :=
  match s with
  | EmptyString => EmptyString
  | String c s' => if bool_decide (c = dot) then EmptyString else String c (before_dot s')
  end.
Fixpoint string_forall (P : ascii → bool) (s : string) : bool :=
  match s with EmptyString => true | String c s' => P c && string_forall P s' end.

(** The name's last character: alphanumeric and not upper case.  [std::string]
    holds at least one character where the code asks. *)
Definition ends_well (s : string) : bool :=
  match string_last s with Some c => isalnum c && negb (isupper c) | None => false end.
Definition name_char (c : ascii) : bool :=
  (isalnum c && negb (isupper c)) || bool_decide (c = dash).

Section names.
Context `{!Crypto}.

(** [try { ... return false; } catch (...) {}]: whether the text parses; the
    out-of-bounds read of [address::is_valid] is not an exception. *)
Definition parses {A} (m : result A) : result bool :=
  match m with Ok _ => Ok true | Err undefined => Err undefined | Err _ => Ok false end.

(** The label before the first dot. *)
Definition valid_label (str : string) : bool :=
  ends_well (before_dot str) && string_forall name_char (before_dot str).

Fixpoint is_valid_account_name_fuel (fuel : nat) (str : string) : result bool :=
  match fuel with
  | O => Err undefined
  | S n =>
      if Z.of_nat (String.length str) <? BTS_BLOCKCHAIN_MIN_NAME_SIZE then Ok false else
      if BTS_BLOCKCHAIN_MAX_NAME_SIZE <? Z.of_nat (String.length str) then Ok false else
      if negb match str with String c _ => isalpha c | EmptyString => false end then Ok false else
      if negb (ends_well str) then Ok false else
      if negb (valid_label str) then Ok false else
      let* is_pts := parses (pts_address_of_string str) in
      if is_pts then Ok false else
      let* is_address := parses (address_is_valid str) in
      if is_address then Ok false else
      let* is_key := parses (public_key_of_string str) in
      if is_key then Ok false else
      match after_dot str with
      | None | Some EmptyString => Ok true
      | Some supername => is_valid_account_name_fuel n supername
      end
  end.
Definition is_valid_account_name (str : string) : result bool :=
  is_valid_account_name_fuel (S (String.length str)) str.
End names.

Definition is_valid_symbol_name (name : string) : bool :=
  if BTS_BLOCKCHAIN_MAX_SYMBOL_SIZE <? Z.of_nat (String.length name) then false
  else if Z.of_nat (String.length name) <? BTS_BLOCKCHAIN_MIN_SYMBOL_SIZE then false
  else string_forall (λ c, isalnum c && isupper c) name.

Definition banned_names : list string :=
  ["ac"; "academy"; "accountants"; "active"; "actor"; "ad"; "ae"; "aero"; "af"; "ag"; "agency";
   "ai"; "airforce"; "al"; "am"; "an"; "ao"; "aq"; "ar"; "archi"; "army"; "arpa"; "as"; "asia";
   "associates"; "at"; "attorney"; "au"; "auction"; "audio"; "autos"; "aw"; "ax"; "axa"; "az";
   "ba"; "backup"; "bar"; "bargains"; "bayern"; "bb"; "bd"; "be"; "beer"; "bter"; "btc38";
   "berlin"; "best"; "bf"; "bg"; "bh"; "bi"; "bid"; "bike"; "bio"; "biz"; "bj"; "bm"; "bmw";
   "bn"; "bo"; "boo"; "boutique"; "br"; "brussels"; "bs"; "bt"; "build"; "builders";
   "business"; "buzz"; "bv"; "bw"; "by"; "bz"; "bzh"; "ca"; "cab"; "cal"; "camera"; "camp";
   "cancerresearch"; "capetown"; "capital"; "caravan"; "cards"; "care"; "career"; "careers";
   "cash"; "cat"; "catering"; "cc"; "cd"; "center"; "ceo"; "cern"; "cf"; "cg"; "ch"; "channel";
   "cheap"; "christmas"; "chrome"; "church"; "ci"; "citic"; "city"; "ck"; "cl"; "claims";
   "cleaning"; "click"; "clothing"; "club"; "cm"; "cn"; "co"; "codes"; "coffee"; "college";
   "cologne"; "com"; "community"; "company"; "computer"; "condos"; "construction";
   "consulting"; "contractors"; "cooking"; "cool"; "coop"; "country"; "cr"; "credit";
   "creditcard"; "cruises"; "cu"; "cuisinella"; "cv"; "cw"; "cx"; "cy"; "cymru"; "cz"; "dad";
   "dance"; "dating"; "day"; "de"; "deals"; "degree"; "democrat"; "desi"; "diamonds"; "diet";
   "digital"; "direct"; "directory"; "discount"; "dj"; "dk"; "dm"; "dnp"; "do"; "domains";
   "dz"; "eat"; "ec"; "edu"; "education"; "ee"; "eg"; "email"; "engineer"; "engineering";
   "enterprises"; "equipment"; "er"; "es"; "esq"; "estate"; "et"; "eu"; "eus"; "events";
   "exchange"; "expert"; "exposed"; "fail"; "farm"; "feedback"; "fi"; "finance"; "financial";
   "fish"; "fishing"; "fitness"; "fj"; "fk"; "flights"; "florist"; "fly"; "fm"; "fo"; "foo";
   "foundation"; "fr"; "frl"; "frogans"; "fund"; "furniture"; "futbol"; "ga"; "gal"; "gallery";
   "gb"; "gbiz"; "gd"; "ge"; "gent"; "gf"; "gg"; "gh"; "gi"; "gift"; "gifts"; "gives"; "gl";
   "glass"; "gle"; "global"; "globo"; "gm"; "gmail"; "gmo"; "gmx"; "gn"; "google"; "gop";
   "gov"; "gp"; "gq"; "gr"; "graphics"; "gratis"; "green"; "gripe"; "gs"; "gt"; "gu"; "guide";
   "guitars"; "guru"; "gw"; "gy"; "hamburg"; "haus"; "healthcare"; "help"; "here"; "hiphop";
   "hiv"; "hk"; "hm"; "hn"; "holdings"; "holiday"; "homes"; "horse"; "host"; "hosting";
   "house"; "how"; "hr"; "ht"; "hu"; "id"; "ie"; "il"; "im"; "immo"; "immobilien"; "in";
   "industries"; "info"; "ing"; "ink"; "institute"; "insure"; "int"; "international";
   "investments"; "io"; "iq"; "ir"; "is"; "it"; "je"; "jetzt"; "jm"; "jo"; "jobs"; "joburg";
   "jp"; "juegos"; "kaufen"; "ke"; "kg"; "kh"; "ki"; "kim"; "kitchen"; "kiwi"; "km"; "kn";
   "koeln"; "kp"; "kr"; "krd"; "kred"; "kw"; "ky"; "kz"; "la"; "lacaixa"; "land"; "lawyer";
   "lb"; "lc"; "lease"; "lgbt"; "li"; "life"; "lighting"; "limited"; "limo"; "link"; "lk";
   "loans"; "london"; "lotto"; "lr"; "ls"; "lt"; "ltda"; "lu"; "luxe"; "luxury"; "lv"; "ly";
   "ma"; "maison"; "management"; "market"; "marketing"; "mc"; "md"; "me"; "media"; "meet";
   "melbourne"; "meme"; "menu"; "mg"; "mh"; "miami"; "microsoft"; "mil"; "mini"; "mk"; "ml";
   "mm"; "mn"; "mo"; "mobi"; "moda"; "moe"; "money"; "monash"; "mortgage"; "moscow";
   "motorcycles"; "mov"; "mp"; "mq"; "mr"; "ms"; "mt"; "music"; "mu"; "museum"; "mv"; "mw";
   "mx"; "my"; "mz"; "na"; "nagoya"; "name"; "navy"; "nc"; "ne"; "net"; "network"; "neustar";
   "new"; "nexus"; "nf"; "ng"; "ngo"; "nhk"; "ni"; "ninja"; "nl"; "no"; "np"; "nr"; "nra";
   "nrw"; "nu"; "nyc"; "nz"; "okinawa"; "om"; "ong"; "onl"; "ooo"; "org"; "organic"; "offline";
   "otsuka"; "ovh"; "pa"; "paris"; "partners"; "parts"; "pe"; "pf"; "pg"; "ph"; "photo";
   "photography"; "photos"; "physio"; "pics"; "pictures"; "pink"; "pizza"; "pk"; "pl"; "place";
   "plumbing"; "pm"; "pn"; "post"; "pr"; "praxi"; "press"; "pro"; "prod"; "productions";
   "prof"; "properties"; "property"; "ps"; "pt"; "pub"; "pw"; "py"; "qa"; "qpon"; "quebec";
   "re"; "realtor"; "recipes"; "red"; "rehab"; "reise"; "reisen"; "ren"; "rentals"; "repair";
   "report"; "republican"; "rest"; "restaurant"; "reviews"; "rich"; "rio"; "ro"; "rocks";
   "rodeo"; "rs"; "rsvp"; "ru"; "ruhr"; "rw"; "ryukyu"; "sa"; "saarland"; "sarl"; "sb"; "sc";
   "sca"; "scb"; "schmidt"; "schule"; "scot"; "sd"; "se"; "services"; "sexy"; "sg"; "sh";
   "shiksha"; "shoes"; "si"; "singles"; "sj"; "sk"; "sl"; "sm"; "sn"; "so"; "social";
   "software"; "sohu"; "solar"; "solutions"; "soy"; "space"; "spiegel"; "sr"; "st"; "su";
   "supplies"; "supply"; "support"; "surf"; "suzuki"; "sv"; "sx"; "sy"; "systems"; "sz";
   "tatar"; "tattoo"; "tax"; "tc"; "td"; "technology"; "tel"; "tf"; "tg"; "th"; "tienda";
   "tips"; "tirol"; "tj"; "tk"; "tl"; "tm"; "tn"; "to"; "today"; "tokyo"; "tools"; "top";
   "town"; "toys"; "tp"; "tr"; "trade"; "training"; "travel"; "tt"; "tv"; "tw"; "twitter";
   "tz"; "ua"; "ug"; "uk"; "university"; "uno"; "uol"; "us"; "uy"; "uz"; "va"; "vacations";
   "vc"; "ve"; "vegas"; "ventures"; "versicherung"; "vet"; "vg"; "vi"; "viajes"; "villas";
   "vision"; "vlaanderen"; "vn"; "vodka"; "vote"; "voting"; "voto"; "voyage"; "vu"; "wales";
   "watch"; "webcam"; "website"; "wed"; "wf"; "whoswho"; "wien"; "wiki"; "williamhill"; "wme";
   "works"; "world"; "ws"; "wtc"; "wtf"; "xxx"; "xyz"; "yachts"; "yandex"; "ye"; "yokohama";
   "youtube"; "yt"; "za"; "zip"; "zm"; "zone"; "zw"; "local"; "localhost, vk, vkontakte"]%string.

(** ** Names never fail to be judged *)
Lemma after_dot_shorter s p : after_dot s = Some p → (String.length p < String.length s)%nat.
Proof.
  induction s as [|c s IH]; simpl; [done|]. case_bool_decide; [intros [= ->]; lia|].
  intros Hp%IH. lia.
Qed.

Lemma lower_not_prefixed c s :
  isupper c = false → String.prefix BTS_ADDRESS_PREFIX (String c s) = false.
Proof.
  intros Hc. change BTS_ADDRESS_PREFIX with (String "X" "CL"). cbn [String.prefix].
  destruct (ascii_dec "X" c) as [E|]; [|done]. rewrite <- E in Hc. vm_compute in Hc. done.
Qed.

Section name_facts.
Context `{!Crypto, !CryptoLaws _}.

Lemma parses_pts str : ∃ b, parses (pts_address_of_string str) = Ok b.
Proof.
  unfold pts_address_of_string. pose proof (from_base58_throws str) as Hd.
  destruct (from_base58 str) as [v|e]; simpl.
  - destruct (pts_is_valid _); simpl; by eexists.
  - destruct e; try done; by eexists.
Qed.

(** A text that does not start with the prefix is no address and no key. *)
Lemma parses_unprefixed str :
  String.prefix BTS_ADDRESS_PREFIX str = false →
  parses (address_is_valid str) = Ok false ∧ parses (public_key_of_string str) = Ok false.
Proof.
  intros Hp. unfold address_is_valid, public_key_of_string. rewrite Hp.
  by destruct (3 <? _).
Qed.

Lemma valid_label_unprefixed str :
  valid_label str = true → String.prefix BTS_ADDRESS_PREFIX str = false.
Proof.
  unfold valid_label. intros [He Hf]%andb_true_iff. destruct str as [|c s]; [done|].
  simpl in Hf, He. case_bool_decide; [done|]. simpl in Hf.
  apply andb_true_iff in Hf as [Hc _]. apply lower_not_prefixed.
  unfold name_char in Hc. apply orb_true_iff in Hc as [Hc|Hc].
  - apply andb_true_iff in Hc as [_ Hc]. by apply negb_true_iff.
  - apply bool_decide_eq_true in Hc as ->. done.
Qed.

(** What one level of the recursion decides, the parent aside. *)
Definition level_ok (str : string) : Prop :=
  1 ≤ Z.of_nat (String.length str) ≤ 63 ∧
  (∃ c s, str = String c s ∧ isalpha c = true) ∧
  ends_well str = true ∧ valid_label str = true ∧
  parses (pts_address_of_string str) = Ok false.
Definition parent_ok (valid : string → result bool) (str : string) : Prop :=
  match after_dot str with
  | None | Some EmptyString => True
  | Some p => valid p = Ok true
  end.

Lemma name_step n str :
  (∀ p, after_dot str = Some p → ∃ b, is_valid_account_name_fuel n p = Ok b) →
  ∃ b, is_valid_account_name_fuel (S n) str = Ok b ∧
    (b = true ↔ level_ok str ∧ parent_ok (is_valid_account_name_fuel n) str).
Proof.
  intros Hrec. cbn [is_valid_account_name_fuel].
  change BTS_BLOCKCHAIN_MIN_NAME_SIZE with 1. change BTS_BLOCKCHAIN_MAX_NAME_SIZE with 63.
  unfold level_ok.
  destruct (Z.ltb_spec (Z.of_nat (String.length str)) 1); [exists false; split; [done|split; [done|lia]]|].
  destruct (Z.ltb_spec 63 (Z.of_nat (String.length str))); [exists false; split; [done|split; [done|lia]]|].
  destruct str as [|c s]; [simpl in *; lia|].
  destruct (isalpha c) eqn:Hc; [|exists false; split; [done|split; [done|]];
    intros [(_ & (c' & s' & [= <- <-] & Hc') & _) _]; congruence].
  cbn [negb]. destruct (ends_well (String c s)) eqn:He; [|exists false; split; [done|naive_solver]].
  cbn [negb]. destruct (valid_label (String c s)) eqn:Hv; [|exists false; split; [done|naive_solver]].
  cbn [negb]. destruct (parses_pts (String c s)) as [b Hb]. rewrite Hb. cbn [rbind].
  destruct b; [exists false; split; [done|split; [done|]];
    intros [(_ & _ & _ & _ & Hb') _]; congruence|].
  destruct (parses_unprefixed _ (valid_label_unprefixed _ Hv)) as [-> ->]. cbn [rbind].
  unfold parent_ok. destruct (after_dot (String c s)) as [[|c' p]|] eqn:Ed.
  - exists true. split; [done|]. split; [intros _|done]. split_and!; try done. by exists c, s.
  - destruct (Hrec _ eq_refl) as [b Hr]. exists b. split; [done|]. rewrite Hr. split.
    + intros ->. split_and!; try done. by exists c, s.
    + by intros [_ [= ->]].
  - exists true. split; [done|]. split; [intros _|done]. split_and!; try done. by exists c, s.
Qed.

Lemma name_total n str :
  (String.length str < n)%nat → ∃ b, is_valid_account_name_fuel n str = Ok b.
Proof.
  revert str. induction n as [|n IH]; intros str Hn; [lia|].
  destruct (name_step n str) as (b & Hb & _); [|by exists b].
  intros p Hp%after_dot_shorter. apply IH. lia.
Qed.

Lemma name_fuel n m str :
  (String.length str < n)%nat → (String.length str < m)%nat →
  is_valid_account_name_fuel n str = is_valid_account_name_fuel m str.
Proof.
  revert m str. induction n as [|n IH]; intros [|m] str Hn Hm; try lia.
  destruct (name_step n str) as (b & Hb & Hspec).
  { intros p Hp%after_dot_shorter. apply name_total. lia. }
  destruct (name_step m str) as (b' & Hb' & Hspec').
  { intros p Hp%after_dot_shorter. apply name_total. lia. }
  rewrite Hb, Hb'. f_equal. apply eq_true_iff_eq. rewrite Hspec, Hspec'.
  unfold parent_ok. destruct (after_dot str) as [[|c p]|] eqn:Ed; try done.
  apply after_dot_shorter in Ed. rewrite (IH m (String c p)) by lia. done.
Qed.

(** C39 (account_name_judged). Validation of an account name always ends with an
    answer (no undefined step is reached, whatever the text), and accepts a
    name exactly when it has 1 to 63 characters, starts with a letter, ends
    with and consists in its first label of lower-case letters, digits and
    dashes, is no PTS address, and its parent name is itself valid. *)
Theorem account_name_judged (str : string) :
  ∃ b, is_valid_account_name str = Ok b ∧
    (b = true ↔ level_ok str ∧ parent_ok is_valid_account_name str).
Proof.
  unfold is_valid_account_name. destruct (name_step (String.length str) str) as (b & Hb & Hspec).
  { intros p Hp%after_dot_shorter. by apply name_total. }
  exists b. split; [done|]. rewrite Hspec. unfold parent_ok.
  destruct (after_dot str) as [[|c p]|] eqn:Ed; try done.
  apply after_dot_shorter in Ed.
  by rewrite (name_fuel (String.length str) (S (String.length (String c p))) (String c p)) by lia.
Qed.
End name_facts.

Lemma account_name_judged_witness :
  ∃ b, is_valid_account_name "alice.bob" = Ok b ∧
    (b = true ↔ level_ok "alice.bob" ∧ parent_ok is_valid_account_name "alice.bob").
Proof. exact (account_name_judged "alice.bob"). Defined.

(** The last entry of the reserved words is one
    text that holds three of them, so none of the three is reserved. *)
Theorem last_banned_names_missing :
  ("localhost, vk, vkontakte"%string ∈ banned_names) ∧
  ("localhost"%string ∉ banned_names) ∧ ("vk"%string ∉ banned_names) ∧
  ("vkontakte"%string ∉ banned_names).
Proof.
  assert (Hdec : ∀ n, bool_decide (n ∈ banned_names) = true → n ∈ banned_names)
    by (intros n Hn; by apply bool_decide_eq_true in Hn).
  assert (Hdec' : ∀ n, bool_decide (n ∈ banned_names) = false → n ∉ banned_names)
    by (intros n Hn; by apply bool_decide_eq_false in Hn).
  split_and!; [apply Hdec|apply Hdec'|apply Hdec'|apply Hdec']; vm_compute; reflexivity.
Qed.
