(* ===== verification/BalanceOps.v ===== *)
(** Balance operations ([balance_operations.cpp]): slates, deposits, genesis
    claims, withdrawals with their yield, burns, and the two operations whose
    first assertion always fails.  Each [evaluate] is one definition from the
    operation's fields and the evaluation state to the new state; the branches
    behind a failing assertion are translated too. *)
From S2P Require Export Names.

Section balance_ops.
Context `{!Fc, !Crypto}.
Implicit Types (e : transaction_evaluation_state).

(** ** Yield of market-issued assets *)
Definition seconds_per_year : Z :=
  BTS_BLOCKCHAIN_BLOCKS_PER_YEAR * BTS_BLOCKCHAIN_BLOCK_INTERVAL_SEC.

(** The discount of less than a year: 80% scales with the elapsed time and 20%
    with its square. *)
Definition scale_yield (original_yield elapsed : Z) : Z :=
  let yield := u128_div (u128_mul original_yield 8) 10 in
  let delta_yield := u128_sub original_yield yield in
  let yield := u128_div (u128_mul yield elapsed) seconds_per_year in
  let delta_yield := u128_div (u128_mul delta_yield elapsed) seconds_per_year in
  let delta_yield := u128_div (u128_mul delta_yield elapsed) seconds_per_year in
  u128_add yield delta_yield.

Definition calculate_yield (r : balance_record) (now amount yield_pool share_supply : Z)
    : result asset :=
  let zero := Asset 0 (br_asset_id r) in
  if amount <=? 0 then Ok zero else
  if share_supply <=? 0 then Ok zero else
  if yield_pool <=? 0 then Ok zero else
  let elapsed := tps_diff now (br_deposit_date r) in
  if BTS_BLOCKCHAIN_MIN_YIELD_PERIOD_SEC <? elapsed then
    let amount_withdrawn := u128_mul (u128_of_int64 amount) 1000000 in
    let current_supply := u128_of_int64 (s64 (share_supply - yield_pool)) in
    let fee_fund := u128_of_int64 yield_pool in
    ensure negb (current_supply =? 0) else undefined in
    let yield := u128_div (u128_mul amount_withdrawn fee_fund) current_supply in
    let yield := if elapsed <? seconds_per_year then scale_yield yield elapsed else yield in
    let yield_amount := u128_to_uint64 (u128_div yield 1000000) in
    if (0 <? yield_amount) && (yield_amount <? u64 yield_pool)
    then Ok (Asset (s64 yield_amount) (br_asset_id r)) else Ok zero
  else Ok zero.

(** ** Slates and deposits *)
Definition define_delegate_slate_evaluate (slate : delegate_slate) e
    : result transaction_evaluation_state :=
  let id := slate_id slate in
  ensure Z.of_nat (length slate) <=? BTS_BLOCKCHAIN_MAX_SLATE_SIZE
    else too_may_delegates_in_slate in
  match get_delegate_slate id (es_current_state e) with
  | Some _ => Ok e
  | None =>
      let* ok := rfold (λ delegate _, verify_delegate_id (Z.abs delegate) e) slate () in
      Ok (on_current_state (store_delegate_slate id slate) e)
  end.

(** The average of the old date and now, weighted by the amounts. *)
Definition average_deposit_date (r : balance_record) (now amount : Z) : result Z :=
  let avg := u128_add (u128_mul (u128_of_int64 (br_deposit_date r)) (u128_of_int64 (br_balance r)))
                      (u128_mul (u128_of_int64 now) (u128_of_int64 amount)) in
  let total := u128_of_int64 (s64 (br_balance r + amount)) in
  ensure negb (total =? 0) else undefined in
  u128_to_integer (u128_div avg total).

Definition deposit_evaluate (amount : Z) (condition : withdraw_condition) e
    : result transaction_evaluation_state :=
  ensure 0 <? amount else negative_deposit in
  let deposit_balance_id := address_of_condition condition in
  let r := default (balance_record_of condition)
             (get_balance_record deposit_balance_id (es_current_state e)) in
  let* now := now (es_current_state e) in
  let r := set_br_last_update now r in
  let* date := if br_balance r =? 0 then Ok now else average_deposit_date r now amount in
  let r := set_br_deposit_date date r in
  let r := set_br_balance (s64 (br_balance r + amount)) r in
  let* e := sub_balance deposit_balance_id (Asset amount (br_asset_id r)) e in
  let* e := if (br_asset_id r =? 0) && negb (br_delegate_slate_id r =? 0)
            then adjust_vote (br_delegate_slate_id r) amount e else Ok e in
  Ok (on_current_state (store_balance_record r) e).

(** ** Claims of genesis balances *)
Definition claim_to_sign (source : list Z) (dest : public_key_type) : string :=
  String.append "Transfer " (String.append (string_of_pts_address source)
    (String.append " to " (string_of_public_key dest))).
Definition validate_claim_signature (source : list Z) (dest : public_key_type) (sig : Z)
    : result () :=
  let* hash := double_hash (claim_to_sign source dest) (pts_version source) in
  let* key := recover_key sig hash false in
  ensure bool_decide (pts_address_of_key key true (pts_version source) = source)
    else assert_failure in Ok ().
Definition check_claim_input (id : address) e : result balance_record :=
  let* r := of_option unknown_balance_record (get_balance_record id (es_current_state e)) in
  ensure br_asset_id r =? 0 else assert_failure in
  ensure bool_decide (is_Some (br_genesis_info r)) else assert_failure in
  Ok r.
Definition withdraw_claim_input (amount : Z) (r : balance_record) e
    : result transaction_evaluation_state :=
  ensure br_balance r =? amount else assert_failure in
  let* e := if br_delegate_slate_id r =? 0 then Ok e
            else adjust_vote (br_delegate_slate_id r) (s64 (- amount)) e in
  let* now := now (es_current_state e) in
  let r := set_br_last_update now (set_br_balance 0 r) in
  add_balance (Asset amount 0) (on_current_state (store_balance_record r) e).
Definition claim_evaluate (balance_id : address) (amount : Z) (source : list Z)
    (dest : public_key_type) (sig : Z) e : result transaction_evaluation_state :=
  let* ok := validate_claim_signature source dest sig in
  let* r := check_claim_input balance_id e in
  let* e := withdraw_claim_input amount r e in
  ensure check_signature (address_of_key dest) e else missing_signature in
  Ok e.

(** ** Withdrawals *)

(** A balance owned by the address of a key of another chain: the claim data
    carry a new key, signed by the old one. *)
Definition check_pts_signature (owner : address) (claim_input_data : list Z) e : result () :=
  let* pts_sig := unpack_withdraw_with_pts claim_input_data in
  let* prop := get_property chain_id_prop (es_current_state e) in
  let* chain := variant_as_ripemd160 prop in
  let digest := sha256 (pack_ripemd160 chain ++ pack_public_key pts_sig.1) in
  let* test_key := recover_key pts_sig.2 digest true in
  if bool_decide (owner ∈ [address_of_key test_key;
                           address_of_pts (pts_address_of_key test_key false 56);
                           address_of_pts (pts_address_of_key test_key true 56);
                           address_of_pts (pts_address_of_key test_key false 0);
                           address_of_pts (pts_address_of_key test_key true 0)])
  then ensure check_signature (address_of_key pts_sig.1) e else missing_signature in Ok ()
  else Err missing_signature.

Definition check_multi_sig (required : Z) (owners : list address) e : result () :=
  let valid := Z.of_nat (length (filter (λ a, check_signature a e = true) owners)) in
  ensure required <=? valid else missing_signature in Ok ().
Definition check_password (payee payor : address) (timeout : Z) (password_hash : digest_type)
    (claim_input_data : list Z) e : result () :=
  let* now := now (es_current_state e) in
  if timeout <? now then
    ensure check_signature payor e else missing_signature in Ok ()
  else
    ensure check_signature payee e else missing_signature in
    ensure 20 <=? Z.of_nat (length claim_input_data) else invalid_claim_password in
    ensure password_hash =? ripemd160 claim_input_data else invalid_claim_password in Ok ().
Definition check_option (optionor optionee : address) (date : Z) (strike_price : price)
    (amount : asset) e : result transaction_evaluation_state :=
  let* now := now (es_current_state e) in
  if date <? now then
    ensure check_signature optionor e else missing_signature in Ok e
  else
    ensure check_signature optionee e else missing_signature in
    let* pay_amount := asset_mul amount strike_price in
    add_required_deposit optionee pay_amount e.

(** The switch on the condition's type. *)
Definition check_withdraw_condition (c : withdraw_condition) (amount : Z)
    (claim_input_data : list Z) e : result transaction_evaluation_state :=
  match wc_data c with
  | withdraw_with_signature owner _ =>
      match claim_input_data with
      | [] => ensure check_signature owner e else missing_signature in Ok e
      | _ => let* ok := check_pts_signature owner claim_input_data e in Ok e
      end
  | withdraw_with_multi_sig required owners _ =>
      ensure false else assert_failure in
      let* ok := check_multi_sig required owners e in Ok e
  | withdraw_with_password payee payor timeout password_hash _ =>
      ensure false else assert_failure in
      let* ok := check_password payee payor timeout password_hash claim_input_data e in Ok e
  | withdraw_option optionor optionee date strike_price =>
      ensure false else assert_failure in
      check_option optionor optionee date strike_price (Asset amount (wc_asset_id c)) e
  | withdraw_null | withdraw_with_escrow _ _ _ _ _ => Err invalid_withdraw_condition
  end.

Definition add_yield (id amount : Z) e : transaction_evaluation_state :=
  set_es_yield (<[id := s64 (default 0 (es_yield e !! id) + amount)]> (es_yield e)) e.

(** What a withdrawal pays out on top: the record with its yield, and the asset
    record without it. *)
Definition pay_yield (r : balance_record) (a : asset_record) (now : Z) e
    : result (balance_record * transaction_evaluation_state) :=
  let* y := calculate_yield r now (br_balance r) (ar_collected_fees a)
              (ar_current_share_supply a) in
  if 0 <? amount y then
    let a := set_ar_collected_fees (s64 (ar_collected_fees a - amount y)) a in
    let r := set_br_deposit_date now (set_br_balance (s64 (br_balance r + amount y)) r) in
    Ok (r, on_current_state (store_asset_record a) (add_yield (br_asset_id r) (amount y) e))
  else Ok (r, e).

Definition withdraw_evaluate (balance_id : address) (amount : Z) (claim_input_data : list Z) e
    : result transaction_evaluation_state :=
  ensure 0 <? amount else negative_deposit in
  let* r := of_option unknown_balance_record (get_balance_record balance_id (es_current_state e)) in
  ensure amount <=? br_balance r else insufficient_funds in
  let* e := check_withdraw_condition (br_condition r) amount claim_input_data e in
  let* e := if (br_asset_id r =? 0) && negb (br_delegate_slate_id r =? 0)
            then adjust_vote (br_delegate_slate_id r) (s64 (- amount)) e else Ok e in
  let* a := of_option assert_failure (get_asset_record (br_asset_id r) (es_current_state e)) in
  let* now := now (es_current_state e) in
  let* re := if ar_is_market_issued a then pay_yield r a now e else Ok (r, e) in
  let r := re.1 in let e := re.2 in
  let r := set_br_last_update now (set_br_balance (s64 (br_balance r - amount)) r) in
  add_balance (Asset amount (br_asset_id r)) (on_current_state (store_balance_record r) e).

(** Here the yield goes to the transaction instead of the record. *)
Definition withdraw_all_body (balance_id : address) (claim_input_data : list Z) e
    : result transaction_evaluation_state :=
  let* r := of_option unknown_balance_record (get_balance_record balance_id (es_current_state e)) in
  ensure negb (br_balance r =? 0) else insufficient_funds in
  let* e := check_withdraw_condition (br_condition r) (br_balance r) claim_input_data e in
  let* e := if (br_asset_id r =? 0) && negb (br_delegate_slate_id r =? 0)
            then adjust_vote (br_delegate_slate_id r) (s64 (- br_balance r)) e else Ok e in
  let* a := of_option assert_failure (get_asset_record (br_asset_id r) (es_current_state e)) in
  let* now := now (es_current_state e) in
  let* re :=
    if ar_is_market_issued a then
      let* y := calculate_yield r now (br_balance r) (ar_collected_fees a)
                  (ar_current_share_supply a) in
      if 0 <? amount y then
        let a := set_ar_collected_fees (s64 (ar_collected_fees a - amount y)) a in
        let* e := add_balance y e in
        Ok (set_br_deposit_date now r,
            on_current_state (store_asset_record a) (add_yield (br_asset_id r) (amount y) e))
      else Ok (r, e)
    else Ok (r, e) in
  let r := re.1 in
  let* e := add_balance (Asset (br_balance r) (br_asset_id r)) re.2 in
  let r := set_br_last_update now (set_br_balance 0 r) in
  Ok (on_current_state (store_balance_record r) e).
Definition withdraw_all_evaluate (balance_id : address) (claim_input_data : list Z) e
    : result transaction_evaluation_state :=
  ensure false else assert_failure in withdraw_all_body balance_id claim_input_data e.

(** ** Burning *)

(** [BTS_BLOCKCHAIN_MIN_BURN_FEE] is a [uint64_t], so the amount is converted to
    one before it is compared. *)
Definition burn_evaluate (amnt : asset) (account_id : Z) (message : string)
    (message_signature : option Z) e : result transaction_evaluation_state :=
  ensure match message with EmptyString => true | _ => asset_id amnt =? 0 end
    else assert_failure in
  ensure negb (asset_id amnt =? 0) || (BTS_BLOCKCHAIN_MIN_BURN_FEE <=? u64 (amount amnt))
    else assert_failure in
  let* a := of_option assert_failure (get_asset_record (asset_id amnt) (es_current_state e)) in
  ensure negb (ar_is_market_issued a) else assert_failure in
  let a := set_ar_current_share_supply (s64 (ar_current_share_supply a - amount amnt)) a in
  let e := on_current_state (store_asset_record a) e in
  let* e := sub_balance 0 amnt e in
  let* ok := if account_id =? 0 then Ok ()
             else let* r := of_option assert_failure
                    (get_account_record (Z.abs account_id) (es_current_state e)) in Ok () in
  Ok (on_current_state
        (store_burn_record (BurnRecordKey account_id (trx_id (es_trx e)))
           (BurnRecordValue amnt message message_signature)) e).

(** ** Escrow *)
Definition release_escrow_body (escrow_id released_by : address)
    (amount_to_receiver amount_to_sender : Z) e : result transaction_evaluation_state :=
  let* r := of_option assert_failure (get_balance_record escrow_id (es_current_state e)) in
  ensure check_signature released_by e else assert_failure in
  match wc_data (br_condition r) with
  | withdraw_with_escrow sender receiver escrow _ _ =>
      let total_released := s64 (amount_to_sender + amount_to_receiver) in
      ensure total_released <=? br_balance r else assert_failure in
      ensure amount_to_sender <=? total_released else assert_failure in
      let r := set_br_balance (s64 (br_balance r - total_released)) r in
      let* ok :=
        if sender =? released_by then
          ensure amount_to_sender =? 0 else assert_failure in Ok ()
        else if receiver =? released_by then
          ensure amount_to_receiver =? 0 else assert_failure in Ok ()
        else if escrow =? released_by then Ok ()
        else Err assert_failure in
      Ok (on_current_state (store_balance_record r) e)
  | _ => Err assert_failure
  end.
Definition release_escrow_evaluate (escrow_id released_by : address)
    (amount_to_receiver amount_to_sender : Z) e : result transaction_evaluation_state :=
  ensure false else assert_failure in
  release_escrow_body escrow_id released_by amount_to_receiver amount_to_sender e.
End balance_ops.
