(* ===== verification/AccountOps.v ===== *)
(** The operations on accounts ([account_operations.cpp]) and on price feeds
    ([feed_operations.cpp]). *)
From S2P Require Export BalanceOps.

Section account_ops.
Context `{!Fc, !Crypto}.
Implicit Types (e : transaction_evaluation_state).

(** [register_account_operation::is_delegate], and the same test of an update:
    [delegate_pay_rate] is a [uint8_t], 255 for an account that is none. *)
Definition op_is_delegate (delegate_pay_rate : Z) : bool := delegate_pay_rate <=? 100.

Definition require_fee (fee : Z) e : result transaction_evaluation_state :=
  let* fees := asset_add (es_required_fees e) (Asset fee 0) in
  Ok (set_es_required_fees fees e).
(** A delegate pays in proportion to the pay rate it asks for. *)
Definition require_delegate_fee (delegate_pay_rate : Z) e : result transaction_evaluation_state :=
  let* max_reg_fee := get_delegate_registration_fee_base (es_current_state e) in
  require_fee (Z.quot (s64 (max_reg_fee * delegate_pay_rate)) 100) e.

Definition register_account_evaluate (name : string) (public_data : variant)
    (owner_key active_key : public_key_type) (delegate_pay_rate : Z)
    (meta_data : option account_meta_info) e : result transaction_evaluation_state :=
  let* now := now (es_current_state e) in
  let* valid := is_valid_account_name name in
  ensure valid else invalid_account_name in
  ensure PTS_INITIAL_MIN_LENGTH <=? Z.of_nat (String.length name) else assert_failure in
  let* e := require_fee get_account_registration_fee e in
  ensure bool_decide (name ∉ banned_names) else assert_failure in
  ensure match get_account_record_by_name name (es_current_state e) with
         | Some _ => false | None => true end else account_already_registered in
  ensure match get_parent_account_name name with
         | Some _ => any_parent_has_signed name e
         | None => true end else missing_parent_account_signature in
  let* same_key := get_account_record_by_address (address_of_key active_key)
                     (es_current_state e) in
  ensure match same_key with Some _ => false | None => true end else account_key_in_use in
  let* id_state := new_account_id (es_current_state e) in
  let e := set_es_current_state id_state.2 e in
  let r := AccountRecord id_state.1 name public_data owner_key [] now now None None in
  let* r := ac_set_active_key now active_key r in
  let* re :=
    if op_is_delegate delegate_pay_rate then
      let* e := require_delegate_fee delegate_pay_rate e in
      Ok (set_ac_delegate_info
            (Some (set_ds_pay_rate delegate_pay_rate (delegate_stats_new 0))) r, e)
    else Ok (r, e) in
  let r := set_ac_meta_data meta_data re.1 in
  Ok (on_current_state (store_account_record r) re.2).

(** The key change of an update: the owner or a parent must sign it; without
    one the active key is enough. *)
Definition authorize_update (active_key : option public_key_type) (r : account_record) e
    : result account_record :=
  match active_key with
  | Some k =>
      if negb (k =? ac_active_key r) then
        let* same_key := get_account_record_by_address (address_of_key k) (es_current_state e) in
        ensure match same_key with Some _ => false | None => true end else account_key_in_use in
        ensure check_signature (address_of_key (ac_owner_key r)) e
               || any_parent_has_signed (ac_name r) e else missing_signature in
        let* now := now (es_current_state e) in
        ac_set_active_key now k r
      else ensure account_or_any_parent_has_signed r e else missing_signature in Ok r
  | None => ensure account_or_any_parent_has_signed r e else missing_signature in Ok r
  end.
Definition update_delegate_info (delegate_pay_rate : Z) (r : account_record) e
    : result (account_record * transaction_evaluation_state) :=
  ensure negb (ac_is_delegate r) || op_is_delegate delegate_pay_rate else assert_failure in
  if op_is_delegate delegate_pay_rate then
    match ac_delegate_info r with
    | Some d =>
        ensure delegate_pay_rate <=? ds_pay_rate d else assert_failure in
        Ok (set_ac_delegate_info (Some (set_ds_pay_rate delegate_pay_rate d)) r, e)
    | None =>
        let* e := require_delegate_fee delegate_pay_rate e in
        Ok (set_ac_delegate_info
              (Some (set_ds_pay_rate delegate_pay_rate (delegate_stats_new 0))) r, e)
    end
  else Ok (r, e).
(** The new key is set, and checked to be free, a second time. *)
Definition set_new_key (active_key : option public_key_type) (now : Z) (r : account_record) e
    : result account_record :=
  match active_key with
  | Some k =>
      let* r := ac_set_active_key now k r in
      let* same_key := get_account_record_by_address (address_of_key k) (es_current_state e) in
      ensure match same_key with Some _ => false | None => true end else account_key_in_use in
      Ok r
  | None => Ok r
  end.
Definition update_account_evaluate (account_id : Z) (public_data : option variant)
    (active_key : option public_key_type) (delegate_pay_rate : Z) e
    : result transaction_evaluation_state :=
  let* r := of_option unknown_account_id (get_account_record account_id (es_current_state e)) in
  ensure negb (ac_is_retracted r) else account_retracted in
  let* r := authorize_update active_key r e in
  let r := match public_data with Some v => set_ac_public_data v r | None => r end in
  let* re := update_delegate_info delegate_pay_rate r e in
  let e := re.2 in
  let* now := now (es_current_state e) in
  let r := set_ac_last_update now re.1 in
  let* r := set_new_key active_key now r e in
  Ok (on_current_state (store_account_record r) e).

Definition withdraw_pay_evaluate (amount account_id : Z) e
    : result transaction_evaluation_state :=
  ensure 0 <? amount else negative_withdraw in
  let pay_to_account_id := Z.abs account_id in
  let* r := of_option unknown_account_id
              (get_account_record pay_to_account_id (es_current_state e)) in
  ensure negb (ac_is_retracted r) else account_retracted in
  let* d := of_option not_a_delegate (ac_delegate_info r) in
  ensure check_signature (address_of_key (ac_active_key r)) e else missing_signature in
  let e := set_es_net_delegate_votes
             (vote_for pay_to_account_id (- amount) (es_net_delegate_votes e)) e in
  ensure amount <=? ds_pay_balance d else insufficient_funds in
  let r := set_ac_delegate_info (Some (set_ds_pay_balance (s64 (ds_pay_balance d - amount)) d)) r in
  add_balance (Asset amount 0) (on_current_state (store_account_record r) e).

(** Linking is switched off by its first assertion; the rest stores nothing. *)
Definition link_account_body (source_account destination_account : Z) e
    : result transaction_evaluation_state :=
  let* src := of_option unknown_account_id (get_account_record source_account (es_current_state e)) in
  ensure negb (ac_is_retracted src) else account_retracted in
  let* dst := of_option unknown_account_id
                (get_account_record destination_account (es_current_state e)) in
  ensure negb (ac_is_retracted dst) else account_retracted in
  ensure account_or_any_parent_has_signed src e else missing_signature in
  Ok e.
Definition link_account_evaluate (source_account destination_account : Z) e
    : result transaction_evaluation_state :=
  ensure false else assert_failure in link_account_body source_account destination_account e.

(** ** Feeds *)

(** The database's override refuses the call. *)
Definition set_market_dirty (quote_id base_id : Z) (s : chain_state) : result chain_state :=
  match s with
  | Expired => Err undefined
  | Database _ => Err assert_failure
  | Pending p prev => Ok (Pending (p_set_market_dirty quote_id base_id p) prev)
  end.
Definition update_feed_evaluate (feed : feed_index) (value : variant) e
    : result transaction_evaluation_state :=
  let* active := is_active_delegate (fi_delegate_id feed) (es_current_state e) in
  ensure active else assert_failure in
  let* r := of_option undefined
              (get_account_record (fi_delegate_id feed) (es_current_state e)) in
  ensure check_signature (address_of_key (ac_active_key r)) e else assert_failure in
  let* now := now (es_current_state e) in
  let e := on_current_state (set_feed (FeedRecord feed value now)) e in
  let* s := set_market_dirty (fi_feed_id feed) 0 (es_current_state e) in
  Ok (set_es_current_state s e).
End account_ops.
