(* ===== verification/MarketOps.v ===== *)
(** The operations on market orders ([market_operations.cpp]), with the interest
    of a short position they share with the market engine ([market_engine.cpp]). *)
From S2P Require Export AccountOps.

Section market_ops.
Context `{!Fc, !Crypto}.
Implicit Types (e : transaction_evaluation_state).

(** ** Interest

    [fc::real128] is built from a [uint64_t]; the result is converted back to
    the signed amount of an asset. *)
Definition real_of_amount (a : Z) : real128 := real_of_uint64 (u64 a).
Definition percent_of_year (age_seconds : Z) : real128 :=
  real_div (real_of_uint64 age_seconds) (real_of_uint64 (365 * 24 * 60 * 60)).
Definition apr_rate (apr : price) : result real128 :=
  let* n := asset_mul (Asset BTS_BLOCKCHAIN_MAX_SHARES (base_asset_id apr)) apr in
  Ok (real_div (real_of_amount (amount n)) (real_of_amount BTS_BLOCKCHAIN_MAX_SHARES)).
Definition get_interest_paid (total_amount_paid : asset) (apr : price) (age_seconds : Z)
    : result asset :=
  let total_paid := real_of_amount (amount total_amount_paid) in
  let* iapr := apr_rate apr in
  let delta_principle := real_div total_paid
    (real_add (real_of_uint64 1) (real_mul iapr (percent_of_year age_seconds))) in
  let interest_paid := real_sub total_paid delta_principle in
  Ok (Asset (s64 (real_to_uint64 interest_paid)) (asset_id total_amount_paid)).
Definition get_interest_owed (principle : asset) (apr : price) (age_seconds : Z)
    : result asset :=
  let total_principle := real_of_amount (amount principle) in
  let* iapr := apr_rate apr in
  let interest_owed := real_mul (real_mul total_principle iapr) (percent_of_year age_seconds) in
  Ok (Asset (s64 (real_to_uint64 interest_owed)) (asset_id principle)).

(** ** Bids, asks and shorts

    A negative amount takes funds out of an existing order, a positive one puts
    them in; the balance of the order moves by the amount either way. *)
Definition move_order_funds (amnt : Z) (delta_amount : asset) (current : option order_record) e
    : result (order_record * transaction_evaluation_state) :=
  ensure negb (amnt =? 0) else zero_amount in
  if amnt <? 0 then
    let* o := of_option unknown_market_order current in
    ensure s64 (Z.abs amnt) <=? or_balance o else insufficient_funds in
    let* e := add_balance (asset_neg delta_amount) e in Ok (o, e)
  else
    let* e := sub_balance 0 delta_amount e in
    Ok (default order_record_default current, e).
Definition touch_order (amnt now : Z) (o : order_record) : order_record :=
  set_or_balance (s64 (or_balance o + amnt)) (set_or_last_update now o).

Definition bid_evaluate (amnt : Z) (bid_index : market_index_key) e
    : result transaction_evaluation_state :=
  ensure negb (price_eqb (order_price bid_index) price_default) else zero_price in
  ensure check_signature (owner bid_index) e else missing_signature in
  let delta_amount := Asset amnt (quote_asset_id (order_price bid_index)) in
  let* ok := validate_asset delta_amount e in
  let* oe := move_order_funds amnt delta_amount (get_bid_record bid_index (es_current_state e)) e in
  let* now := now (es_current_state oe.2) in
  Ok (on_current_state (store_bid_record bid_index (touch_order amnt now oe.1)) oe.2).

Definition ask_evaluate (amnt : Z) (ask_index : market_index_key) e
    : result transaction_evaluation_state :=
  ensure negb (price_eqb (order_price ask_index) price_default) else zero_price in
  ensure check_signature (owner ask_index) e else missing_signature in
  let delta_amount := Asset amnt (base_asset_id (order_price ask_index)) in
  let* ok := validate_asset delta_amount e in
  let* oe := move_order_funds amnt delta_amount (get_ask_record ask_index (es_current_state e)) e in
  let* now := now (es_current_state oe.2) in
  let o := touch_order amnt now oe.1 in
  ensure 0 <=? or_balance o else assert_failure in
  Ok (on_current_state (store_ask_record ask_index o) oe.2).

(** [fc::uint128( 10, 0 )] has 10 in its high word. *)
Definition max_short_ratio : Z := 10 * 2 ^ 64.
(** Only a withdrawal has to be signed by the owner. *)
Definition short_evaluate (amnt : Z) (short_index : market_index_key)
    (short_price_limit : option price) e : result transaction_evaluation_state :=
  let p := order_price short_index in
  ensure ratio p <? max_short_ratio else assert_failure in
  ensure base_asset_id p <? quote_asset_id p else assert_failure in
  let delta_amount := Asset amnt (base_asset_id p) in
  ensure asset_id delta_amount =? 0 else assert_failure in
  let* ok := validate_asset delta_amount e in
  let* a := of_option assert_failure (get_asset_record (quote_asset_id p) (es_current_state e)) in
  ensure ar_is_market_issued a else assert_failure in
  let current := get_short_record short_index (es_current_state e) in
  ensure negb (amnt =? 0) else zero_amount in
  ensure negb (amnt <? 0) || check_signature (owner short_index) e else missing_signature in
  let* oe := move_order_funds amnt delta_amount current e in
  let* now := now (es_current_state oe.2) in
  let o := touch_order amnt now (set_or_short_price_limit short_price_limit oe.1) in
  ensure 0 <=? or_balance o else assert_failure in
  Ok (on_current_state (store_short_record short_index o) oe.2).

(** ** Covering a short position *)

(** The age of a position, from the period it was granted and what is left of
    it; a [uint32_t] in the calls it is passed to. *)
Definition cover_elapsed (c : collateral_record) (now : Z) : Z :=
  let start_time := tps_sub (cr_expiration c) BTS_BLOCKCHAIN_MAX_SHORT_PERIOD_SEC in
  let elapsed := tps_diff now start_time in
  u32 (if elapsed <? 0 then 0 else elapsed).

(** How a payment is split into principal and interest, and the position that
    is left. *)
Definition split_cover_payment (delta_amount : asset) (c : collateral_record) (now : Z)
    : result (asset * asset * collateral_record) :=
  let elapsed_sec := cover_elapsed c now in
  let principle := Asset (cr_payoff_balance c) (asset_id delta_amount) in
  let* interest := get_interest_owed principle (cr_interest_rate c) elapsed_sec in
  let* total_debt := asset_add interest principle in
  if asset_geb delta_amount total_debt then
    let* interest_paid := asset_sub delta_amount principle in
    Ok (principle, interest_paid, set_cr_payoff_balance 0 c)
  else
    let* interest_paid := get_interest_paid delta_amount (cr_interest_rate c) elapsed_sec in
    let* principle_paid := asset_sub delta_amount interest_paid in
    Ok (principle_paid, interest_paid,
        set_cr_payoff_balance (s64 (cr_payoff_balance c - amount principle_paid)) c).

(** The price at which two thirds of the collateral just pay the debt. *)
Definition call_price (payoff quote_id collateral base_id : Z) : result price :=
  asset_div (Asset payoff quote_id) (Asset (Z.quot (s64 (collateral * 2)) 3) base_id).

(** The key of the position that is left: its call price, or the price the owner
    asks for when that is higher. *)
Definition cover_key (cover_index : market_index_key) (new_cover_price : option price)
    (c : collateral_record) : result market_index_key :=
  let p := order_price cover_index in
  let* new_call_price := call_price (cr_payoff_balance c) (quote_asset_id p)
                           (cr_collateral_balance c) (base_asset_id p) in
  Ok (MarketIndexKey
        match new_cover_price with
        | Some n => if price_gtb n new_call_price then n else new_call_price
        | None => new_call_price
        end (owner cover_index)).
(** Store what is left under its new key, or pay the collateral back. *)
Definition reindex_cover (cover_index : market_index_key) (new_cover_price : option price)
    (c : collateral_record) e : result transaction_evaluation_state :=
  if 0 <? cr_payoff_balance c then
    let* k := cover_key cover_index new_cover_price c in
    Ok (on_current_state (store_collateral_record k c) e)
  else
    add_balance (Asset (cr_collateral_balance c) (base_asset_id (order_price cover_index))) e.

(** The payment: the debt goes down and the old entry is removed. *)
Definition cover_settle (amnt : Z) (cover_index : market_index_key)
    (new_cover_price : option price) e : result (collateral_record * transaction_evaluation_state) :=
  let p := order_price cover_index in
  ensure negb (price_eqb p price_default) else zero_price in
  ensure negb ((amnt =? 0) && negb (bool_decide (is_Some new_cover_price))) else zero_amount in
  ensure negb (amnt <? 0) else negative_deposit in
  let delta_amount := Asset amnt (quote_asset_id p) in
  ensure check_signature (owner cover_index) e else missing_signature in
  let* e := sub_balance 0 delta_amount e in
  let* c := of_option unknown_market_order (get_collateral_record cover_index (es_current_state e)) in
  let* a := of_option assert_failure (get_asset_record (quote_asset_id p) (es_current_state e)) in
  let* now := now (es_current_state e) in
  let* split := split_cover_payment delta_amount c now in
  let principle_paid := split.1.1 in
  let interest_paid := split.1.2 in
  let c := split.2 in
  ensure 0 <=? amount principle_paid else assert_failure in
  ensure 0 <=? amount interest_paid else assert_failure in
  ensure 0 <=? cr_payoff_balance c else assert_failure in
  let a := set_ar_collected_fees (s64 (ar_collected_fees a + amount interest_paid))
             (set_ar_current_share_supply
                (s64 (ar_current_share_supply a - amount principle_paid)) a) in
  let e := on_current_state (store_asset_record a) e in
  let e := on_current_state (store_collateral_record cover_index collateral_record_default) e in
  ensure base_asset_id (cr_interest_rate c) <? quote_asset_id (cr_interest_rate c)
    else assert_failure in
  Ok (c, e).
Definition cover_evaluate (amnt : Z) (cover_index : market_index_key)
    (new_cover_price : option price) e : result transaction_evaluation_state :=
  let* ce := cover_settle amnt cover_index new_cover_price e in
  reindex_cover cover_index new_cover_price ce.1 ce.2.

(** Adding collateral needs no signature of the owner. *)
Definition add_collateral_settle (amnt : Z) (cover_index : market_index_key) e
    : result (collateral_record * transaction_evaluation_state) :=
  let p := order_price cover_index in
  ensure negb (price_eqb p price_default) else zero_price in
  ensure negb (amnt =? 0) else zero_amount in
  ensure negb (amnt <? 0) else negative_deposit in
  let* e := sub_balance 0 (Asset amnt (base_asset_id p)) e in
  let* c := of_option unknown_market_order (get_collateral_record cover_index (es_current_state e)) in
  let c := set_cr_collateral_balance (s64 (cr_collateral_balance c + amnt)) c in
  Ok (c, on_current_state (store_collateral_record cover_index collateral_record_default) e).
Definition add_collateral_evaluate (amnt : Z) (cover_index : market_index_key) e
    : result transaction_evaluation_state :=
  let* ce := add_collateral_settle amnt cover_index e in
  let* k := cover_key cover_index None ce.1 in
  Ok (on_current_state (store_collateral_record k ce.1) ce.2).

Definition remove_collateral_evaluate (amnt : Z) (owner : address) e
    : result transaction_evaluation_state :=
  Err assert_failure.
End market_ops.
