(* ===== verification/Transaction.v ===== *)
(** Transactions: the dispatch of their operations ([operation_factory.hpp],
    [operations.cpp]), their evaluation ([transaction_evaluation_state.cpp]) and
    the builders of [transaction.cpp]. *)
From S2P Require Export MarketOps.

Section transaction.
Context `{!Fc, !Crypto}.
Implicit Types (e : transaction_evaluation_state) (t : transaction).

(** [operation_factory::evaluate]: the operations registered at start-up. *)
Definition evaluate_operation (o : operation) e : result transaction_evaluation_state :=
  match o with
  | withdraw_operation id amount data => withdraw_evaluate id amount data e
  | withdraw_all_operation id data => withdraw_all_evaluate id data e
  | deposit_operation amount condition => deposit_evaluate amount condition e
  | register_account_operation name data owner active rate meta =>
      register_account_evaluate name data owner active rate meta e
  | update_account_operation id data active rate => update_account_evaluate id data active rate e
  | withdraw_pay_operation amount id => withdraw_pay_evaluate amount id e
  | bid_operation amount k => bid_evaluate amount k e
  | ask_operation amount k => ask_evaluate amount k e
  | short_operation amount k limit => short_evaluate amount k limit e
  | cover_operation amount k p => cover_evaluate amount k p e
  | add_collateral_operation amount k => add_collateral_evaluate amount k e
  | remove_collateral_operation amount o => remove_collateral_evaluate amount o e
  | define_delegate_slate_operation s => define_delegate_slate_evaluate s e
  | update_feed_operation f v => update_feed_evaluate f v e
  | burn_operation amount id message sig => burn_evaluate amount id message sig e
  | link_account_operation src dst _ => link_account_evaluate src dst e
  | release_escrow_operation id by_ to_receiver to_sender =>
      release_escrow_evaluate id by_ to_receiver to_sender e
  | claim_operation id amount source dest sig => claim_evaluate id amount source dest sig e
  | unregistered_operation _ => Err unsupported_chain_operation
  end.

(** The loop over the operations, counting them. *)
Definition next_op e : transaction_evaluation_state :=
  set_es_current_op_index (u32 (es_current_op_index e + 1)) e.
Definition evaluate_operations (l : list operation) e : result transaction_evaluation_state :=
  rfold (λ o e, let* e := evaluate_operation o e in Ok (next_op e))
    l (set_es_current_op_index 0 e).

(** The checks before the operations: expiration and duplicates. *)
Definition check_expiration (t : signed_transaction) e : result () :=
  let* now := now (es_current_state e) in
  ensure negb (tx_expiration (st_trx t) <=? now) else expired_transaction in
  ensure negb (tps_add now BTS_BLOCKCHAIN_MAX_TRANSACTION_EXPIRATION_SEC
               <? tx_expiration (st_trx t)) else invalid_transaction_expiration in
  let* known := is_known_transaction (tx_expiration (st_trx t))
                  (trx_digest (es_chain_id e) (st_trx t)) (es_current_state e) in
  if known then
    let* n := get_head_block_num (es_current_state e) in
    ensure negb (FORK_25 <=? n) else duplicate_transaction in Ok ()
  else Ok ().

(** Up to the operations: the state is reset, the transaction checked and
    recorded, and the addresses its signatures stand for collected. *)
Definition begin_evaluate (t : signed_transaction) (skip_signature_check enforce_canonical : bool) e
    : result transaction_evaluation_state :=
  let e := set_es_skip_signature_check skip_signature_check (reset e) in
  let* ok := check_expiration t e in
  let e := set_es_trx t e in
  if skip_signature_check then Ok e
  else
    let* keys := recover_signed_keys enforce_canonical (trx_digest (es_chain_id e) (st_trx t))
                   (st_signatures t) (es_signed_keys e) in
    Ok (set_es_signed_keys keys e).
Definition evaluate (t : signed_transaction) (skip_signature_check enforce_canonical : bool) e
    : result transaction_evaluation_state :=
  let* e := begin_evaluate t skip_signature_check enforce_canonical e in
  let* e := evaluate_operations (tx_operations (st_trx t)) e in
  let* e := post_evaluate e in
  let* ok := validate_required_fee e in
  update_delegate_votes e.

(** ** Building transactions *)
Definition push_operation (o : operation) t : transaction :=
  set_tx_operations (tx_operations t ++ [o]) t.
Definition tx_define_delegate_slate (s : delegate_slate) t : result transaction :=
  ensure negb (bool_decide (s = [])) else assert_failure in
  Ok (push_operation (define_delegate_slate_operation s) t).
Definition tx_burn (quantity : asset) (for_or_against : Z) (message : string) (sig : option Z) t
    : result transaction :=
  ensure match message with EmptyString => true | _ => asset_id quantity =? 0 end
    else assert_failure in
  Ok (push_operation (burn_operation quantity for_or_against message sig) t).
Definition tx_bid (quantity : asset) (price_per_unit : price) (o : address) t : transaction :=
  push_operation (bid_operation (amount quantity) (MarketIndexKey price_per_unit o)) t.
Definition tx_ask (quantity : asset) (price_per_unit : price) (o : address) t : transaction :=
  push_operation (ask_operation (amount quantity) (MarketIndexKey price_per_unit o)) t.
Definition tx_short_sell (quantity : asset) (interest_rate : price) (o : address)
    (limit_price : option price) t : transaction :=
  push_operation (short_operation (amount quantity) (MarketIndexKey interest_rate o) limit_price) t.
Definition tx_withdraw (account : address) (amount : Z) t : result transaction :=
  ensure 0 <? amount else assert_failure in
  Ok (push_operation (withdraw_operation account amount []) t).
Definition tx_withdraw_pay (account amount : Z) t : result transaction :=
  ensure 0 <? amount else assert_failure in
  Ok (push_operation (withdraw_pay_operation amount account) t).
(** [deposit_operation( owner, amount, slate )] *)
Definition tx_deposit (o : address) (a : asset) (slate_id : Z) t : result transaction :=
  ensure 0 <? amount a else assert_failure in
  Ok (push_operation
        (deposit_operation (amount a)
           (WithdrawCondition (asset_id a) slate_id (withdraw_with_signature o None))) t).
Definition tx_deposit_multisig (required : Z) (owners : list address) (a : asset) (slate_id : Z) t
    : result transaction :=
  ensure 0 <? amount a else assert_failure in
  Ok (push_operation
        (deposit_operation (amount a)
           (WithdrawCondition (asset_id a) slate_id
              (withdraw_with_multi_sig required owners None))) t).
Definition tx_register_account (name : string) (public_data : variant)
    (master active : public_key_type) (pay_rate : Z) (info : option account_meta_info) t
    : transaction :=
  push_operation (register_account_operation name public_data master active pay_rate info) t.
Definition tx_update_account (account_id delegate_pay_rate : Z) (public_data : option variant)
    (active : option public_key_type) t : transaction :=
  push_operation (update_account_operation account_id public_data active delegate_pay_rate) t.
Definition tx_cover (a : asset) (order_idx : market_index_key) t : transaction :=
  push_operation (cover_operation (amount a) order_idx None) t.
Definition tx_add_collateral (collateral_amount : Z) (order_idx : market_index_key) t
    : transaction :=
  push_operation (add_collateral_operation collateral_amount order_idx) t.
Definition tx_publish_feed (feed_id delegate_id : Z) (value : variant) t : transaction :=
  push_operation (update_feed_operation (FeedIndex feed_id delegate_id) value) t.
Definition is_cancel t : bool :=
  existsb (λ o, match o with
                | bid_operation amount _ | ask_operation amount _
                | short_operation amount _ _ => amount <? 0
                | _ => false
                end) (tx_operations t).
Definition is_claim t : bool :=
  existsb (λ o, match o with claim_operation _ _ _ _ _ => true | _ => false end)
    (tx_operations t).
End transaction.
