(* ===== verification/MarketEngine.v ===== *)
(** The market engine ([market_engine.hpp], [market_engine.cpp]): once a block,
    each dirty market matches its bids and shorts, best first, against its
    margin calls and asks.

    The engine collects its changes in a pending state of its own over the state
    of the block; it reads the order books from the database below, which does
    not change while it runs, through the iterators of [OrderedMap].  An
    exception on the way leaves the state of the block as it was but for the
    status of the market.  Only the caught exception's kind is kept in
    [last_error].

    The members of [market_engine] are the fields of its record; the local
    variables of [execute] that live across the iterations are [match_locals]. *)
From S2P Require Export Transaction.

#[export] Program Instance mhk_order : KeyOrder market_history_key :=
  {| key_lt a b := mhk_ltb a b = true;
     key_lt_dec a b := bool_eq_dec (mhk_ltb a b) true |}.
Next Obligation.
  split.
  - intros a. unfold complement, mhk_ltb. by rewrite !Z.ltb_irrefl.
  - intros a b c. unfold mhk_ltb. repeat case_match; lia.
Qed.
Next Obligation.
  intros [q b g t] [q' b' g' t']. unfold mhk_ltb; simpl.
  destruct (Z.lt_total b b') as [?|[->|?]]; [left; repeat case_match; lia| |
    right; right; repeat case_match; lia].
  destruct (Z.lt_total q q') as [?|[->|?]]; [left; repeat case_match; lia| |
    right; right; repeat case_match; lia].
  destruct (Z.lt_total (granularity_index g) (granularity_index g')) as [?|[Hg|?]];
    [left; repeat case_match; lia| |right; right; repeat case_match; lia].
  destruct (Z.lt_total t t') as [?|[->|?]]; [left; repeat case_match; lia| |
    right; right; repeat case_match; lia].
  right; left. f_equal. by destruct g, g'.
Qed.

Record market_engine := MarketEngine {
  me_pending : pending_chain_state;
  me_prior : chain_state;
  me_db : chain_database;
  me_current_bid : option market_order;
  me_current_ask : option market_order;
  me_current_collat : collateral_record;
  me_quote_id : Z;
  me_base_id : Z;
  me_feed_price : option price;
  me_orders_filled : Z;
  me_market_transactions : list market_transaction;
  me_bid_itr : option market_index_key;
  me_ask_itr : option market_index_key;
  me_short_itr : option market_index_key;
  me_collateral_itr : option market_index_key
}.
Definition set_me_pending (v : pending_chain_state) (r : market_engine) : market_engine :=
  MarketEngine v (me_prior r) (me_db r) (me_current_bid r) (me_current_ask
    r) (me_current_collat r) (me_quote_id r) (me_base_id r) (me_feed_price
    r) (me_orders_filled r) (me_market_transactions r) (me_bid_itr r)
    (me_ask_itr r) (me_short_itr r) (me_collateral_itr r).
Definition set_me_current_bid (v : option market_order) (r : market_engine) : market_engine :=
  MarketEngine (me_pending r) (me_prior r) (me_db r) v (me_current_ask r)
    (me_current_collat r) (me_quote_id r) (me_base_id r) (me_feed_price r)
    (me_orders_filled r) (me_market_transactions r) (me_bid_itr r)
    (me_ask_itr r) (me_short_itr r) (me_collateral_itr r).
Definition set_me_current_ask (v : option market_order) (r : market_engine) : market_engine :=
  MarketEngine (me_pending r) (me_prior r) (me_db r) (me_current_bid r) v
    (me_current_collat r) (me_quote_id r) (me_base_id r) (me_feed_price r)
    (me_orders_filled r) (me_market_transactions r) (me_bid_itr r)
    (me_ask_itr r) (me_short_itr r) (me_collateral_itr r).
Definition set_me_current_collat (v : collateral_record) (r : market_engine) : market_engine :=
  MarketEngine (me_pending r) (me_prior r) (me_db r) (me_current_bid r)
    (me_current_ask r) v (me_quote_id r) (me_base_id r) (me_feed_price r)
    (me_orders_filled r) (me_market_transactions r) (me_bid_itr r)
    (me_ask_itr r) (me_short_itr r) (me_collateral_itr r).
Definition set_me_orders_filled (v : Z) (r : market_engine) : market_engine :=
  MarketEngine (me_pending r) (me_prior r) (me_db r) (me_current_bid r)
    (me_current_ask r) (me_current_collat r) (me_quote_id r) (me_base_id r)
    (me_feed_price r) v (me_market_transactions r) (me_bid_itr r)
    (me_ask_itr r) (me_short_itr r) (me_collateral_itr r).
Definition set_me_market_transactions (v : list market_transaction) (r : market_engine) : market_engine :=
  MarketEngine (me_pending r) (me_prior r) (me_db r) (me_current_bid r)
    (me_current_ask r) (me_current_collat r) (me_quote_id r) (me_base_id r)
    (me_feed_price r) (me_orders_filled r) v (me_bid_itr r) (me_ask_itr r)
    (me_short_itr r) (me_collateral_itr r).
Definition set_me_bid_itr (v : option market_index_key) (r : market_engine) : market_engine :=
  MarketEngine (me_pending r) (me_prior r) (me_db r) (me_current_bid r)
    (me_current_ask r) (me_current_collat r) (me_quote_id r) (me_base_id r)
    (me_feed_price r) (me_orders_filled r) (me_market_transactions r) v
    (me_ask_itr r) (me_short_itr r) (me_collateral_itr r).
Definition set_me_ask_itr (v : option market_index_key) (r : market_engine) : market_engine :=
  MarketEngine (me_pending r) (me_prior r) (me_db r) (me_current_bid r)
    (me_current_ask r) (me_current_collat r) (me_quote_id r) (me_base_id r)
    (me_feed_price r) (me_orders_filled r) (me_market_transactions r)
    (me_bid_itr r) v (me_short_itr r) (me_collateral_itr r).
Definition set_me_short_itr (v : option market_index_key) (r : market_engine) : market_engine :=
  MarketEngine (me_pending r) (me_prior r) (me_db r) (me_current_bid r)
    (me_current_ask r) (me_current_collat r) (me_quote_id r) (me_base_id r)
    (me_feed_price r) (me_orders_filled r) (me_market_transactions r)
    (me_bid_itr r) (me_ask_itr r) v (me_collateral_itr r).
Definition set_me_collateral_itr (v : option market_index_key) (r : market_engine) : market_engine :=
  MarketEngine (me_pending r) (me_prior r) (me_db r) (me_current_bid r)
    (me_current_ask r) (me_current_collat r) (me_quote_id r) (me_base_id r)
    (me_feed_price r) (me_orders_filled r) (me_market_transactions r)
    (me_bid_itr r) (me_ask_itr r) (me_short_itr r) v.

Record match_locals := MatchLocals {
  ml_engine : market_engine;
  ml_quote : asset_record;
  ml_base : asset_record;
  ml_last_orders_filled : Z;
  ml_trading_volume : asset;
  ml_opening_price : price;
  ml_closing_price : price
}.
Definition set_ml_engine (v : market_engine) (r : match_locals) : match_locals :=
  MatchLocals v (ml_quote r) (ml_base r) (ml_last_orders_filled r)
    (ml_trading_volume r) (ml_opening_price r) (ml_closing_price r).

Section engine.
Context `{!Fc, !Crypto}.
Implicit Types (g : market_engine) (m : market_transaction).

Definition me_state g : chain_state := Pending (me_pending g) (me_prior g).
Definition engine_new (ps : chain_state) (d : chain_database) (quote_id base_id : Z)
    : market_engine :=
  MarketEngine pending_chain_state_empty ps d None None collateral_record_default quote_id base_id
    None 0 [] None None None None.
Definition on_pending (f : pending_chain_state → pending_chain_state) g : market_engine :=
  set_me_pending (f (me_pending g)) g.

(** ** Taking the next order from the books *)
Definition in_market (k : market_index_key) g : bool :=
  (quote_asset_id (order_price k) =? me_quote_id g)
  && (base_asset_id (order_price k) =? me_base_id g).
Definition get_next_short g : result (bool * market_engine) :=
  match me_short_itr g with
  | None => Ok (false, g)
  | Some k =>
      let* o := of_option undefined (db_shorts (me_db g) !! k) in
      if in_market k g then
        Ok (true,
            set_me_current_bid
              (Some (MarketOrder short_order k o (Some (or_balance o)) (Some (order_price k)) None))
              (set_me_short_itr (it_prev k (db_shorts (me_db g))) g))
      else Ok (false, g)
  end.
Definition has_quantity (o : option market_order) : result bool :=
  match o with
  | Some o => let* q := mo_get_quantity o in Ok (0 <? amount q)
  | None => Ok false
  end.
Definition fetch_bid g : result (bool * market_engine) :=
  match me_bid_itr g with
  | None => get_next_short g
  | Some k =>
      let* o := of_option undefined (db_bids (me_db g) !! k) in
      if in_market k g then
        let* short :=
          match me_feed_price g with
          | Some feed => if price_ltb (order_price k) feed then get_next_short g else Ok (false, g)
          | None => Ok (false, g)
          end in
        if short.1 then Ok short
        else Ok (true, set_me_bid_itr (it_prev k (db_bids (me_db g)))
                         (set_me_current_bid (Some (MarketOrder bid_order k o None None None)) g))
      else get_next_short g
  end.
Definition get_next_bid g : result (bool * market_engine) :=
  let* b := has_quantity (me_current_bid g) in
  if b then Ok (true, g)
  else fetch_bid (set_me_current_bid None (set_me_orders_filled (s32 (me_orders_filled g + 1)) g)).

(** The margin call on top of the book, if it can be called. *)
Definition fetch_cover g : result (bool * market_engine) :=
  match me_current_bid g, me_collateral_itr g with
  | Some _, Some k =>
      let* c := of_option undefined (db_collateral (me_db g) !! k) in
      let* now := now (me_state g) in
      if in_market k g then
        let g := set_me_current_collat c g in
        if match me_feed_price g with Some feed => price_gtb (order_price k) feed | None => false end
           || (cr_expiration c <=? now)
        then
          Ok (true,
              set_me_collateral_itr (it_prev k (db_collateral (me_db g)))
                (set_me_current_ask
                   (Some (MarketOrder cover_order k (order_record_of (cr_payoff_balance c))
                            (Some (cr_collateral_balance c)) (Some (cr_interest_rate c))
                            (Some (cr_expiration c)))) g))
        else Ok (false, set_me_collateral_itr None g)
      else Ok (false, set_me_collateral_itr None g)
  | _, _ => Ok (false, g)
  end.
Definition fetch_ask g : result (bool * market_engine) :=
  match me_ask_itr g with
  | None => Ok (false, g)
  | Some k =>
      let* o := of_option undefined (db_asks (me_db g) !! k) in
      let g := set_me_ask_itr (it_next k (db_asks (me_db g))) g in
      if in_market k g
      then Ok (true, set_me_current_ask (Some (MarketOrder ask_order k o None None None)) g)
      else Ok (false, g)
  end.
Definition get_next_ask g : result (bool * market_engine) :=
  if match me_current_ask g with Some o => 0 <? or_balance (mo_state o) | None => false end
  then Ok (true, g)
  else
    let* cover := fetch_cover (set_me_orders_filled (s32 (me_orders_filled g + 1))
                                 (set_me_current_ask None g)) in
    if cover.1 then Ok cover else fetch_ask cover.2.

(** ** Paying the parties of a match *)

(** The balance a party is paid to: the one its address owns in the asset. *)
Definition pay_owner (o : address) (id payment : Z) g : result market_engine :=
  let cond := WithdrawCondition id 0 (withdraw_with_signature o None) in
  let* now := now (me_state g) in
  let r := default (balance_record_owned o (Asset 0 id) 0)
             (get_balance_record (address_of_condition cond) (me_state g)) in
  let r := set_br_deposit_date now
             (set_br_last_update now (set_br_balance (s64 (br_balance r + payment)) r)) in
  Ok (on_pending (p_store_balance_record r) g).
Definition set_balance (b : Z) (o : market_order) : market_order :=
  set_mo_state (set_or_balance b (mo_state o)) o.
Definition require_types (o : market_order) (t ty : order_type_enum) : bool :=
  bool_decide (mo_type o = ty) && bool_decide (t = ty).
Definition add_fees (f : Z) (a : asset_record) : asset_record :=
  set_ar_collected_fees (s64 (ar_collected_fees a + f)) a.
Definition add_supply (x : Z) (a : asset_record) : asset_record :=
  set_ar_current_share_supply (s64 (ar_current_share_supply a + x)) a.

(** A remainder too small to cover with is added to the collateral; the
    comparison is unsigned, so only a remainder that is not negative is small. *)
Definition final_collateral (balance collateral : asset) (base : asset_record) : result asset :=
  let* rest := asset_sub balance collateral in
  if (u64 (amount rest) <? ar_precision base / 100) && asset_gtb balance collateral
  then asset_add collateral rest else Ok collateral.
Definition pay_current_short m (quote base : asset_record) g
    : result (market_transaction * asset_record * market_engine) :=
  let* bid := of_option undefined (me_current_bid g) in
  ensure require_types bid (mt_bid_type m) short_order else assert_failure in
  let* balance := mo_get_balance bid in
  let* short_collateral := of_option undefined (mt_short_collateral m) in
  let* short_collateral := final_collateral balance short_collateral base in
  let m := set_mt_short_collateral (Some short_collateral) m in
  let quote := add_supply (amount (mt_bid_paid m)) quote in
  let* collateral := asset_add short_collateral (mt_ask_paid m) in
  let bid' := set_balance (s64 (amount balance - amount short_collateral)) bid in
  if amount (mt_bid_paid m) <=? 0 then
    ensure 0 <=? amount (mt_bid_paid m) else assert_failure in
    Ok (m, quote, set_me_current_bid (Some bid') g)
  else
    let call_collateral := Asset (Z.quot (s64 (amount collateral * 2)) 3) (asset_id collateral) in
    let* cover_price := asset_div (mt_bid_paid m) call_collateral in
    let cover_index := MarketIndexKey cover_price (mo_get_owner bid) in
    let c := default collateral_record_default (get_collateral_record cover_index (me_state g)) in
    let* now := now (me_state g) in
    let c := CollateralRecord (s64 (cr_collateral_balance c + amount collateral))
               (s64 (cr_payoff_balance c + amount (mt_bid_paid m)))
               (order_price (mo_market_index bid))
               (tps_add now BTS_BLOCKCHAIN_MAX_SHORT_PERIOD_SEC) in
    ensure 0 <=? cr_payoff_balance c else assert_failure in
    ensure 0 <=? cr_collateral_balance c else assert_failure in
    ensure base_asset_id (cr_interest_rate c) <? quote_asset_id (cr_interest_rate c)
      else assert_failure in
    ensure 0 <=? or_balance (mo_state bid') else assert_failure in
    let g := on_pending (p_store_collateral_record cover_index c) g in
    let g := on_pending (p_store_short_record (mo_market_index bid) (mo_state bid')) g in
    Ok (m, quote, set_me_current_bid (Some bid') g).

(** What is left of a bid buys nothing: it goes to the fees. *)
Definition pay_current_bid m (quote : asset_record) g : result (asset_record * market_engine) :=
  let* bid := of_option undefined (me_current_bid g) in
  ensure require_types bid (mt_bid_type m) bid_order else assert_failure in
  let bid := set_balance (s64 (or_balance (mo_state bid) - amount (mt_bid_paid m))) bid in
  ensure 0 <=? or_balance (mo_state bid) else assert_failure in
  let* g := pay_owner (mt_bid_owner m) (me_base_id g) (amount (mt_bid_received m)) g in
  let* rest := mo_get_quote_quantity bid in
  let* buys := asset_mul rest (mo_get_price bid) in
  let dust := amount buys =? 0 in
  let quote := if dust then add_fees (amount rest) quote else quote in
  let bid := if dust then set_balance 0 bid else bid in
  Ok (quote, set_me_current_bid (Some bid)
               (on_pending (p_store_bid_record (mo_market_index bid) (mo_state bid)) g)).
Definition pay_current_ask m (base : asset_record) g : result (asset_record * market_engine) :=
  let* ask := of_option undefined (me_current_ask g) in
  ensure require_types ask (mt_ask_type m) ask_order else assert_failure in
  let ask := set_balance (s64 (or_balance (mo_state ask) - amount (mt_ask_paid m))) ask in
  ensure 0 <=? or_balance (mo_state ask) else assert_failure in
  let* g := pay_owner (mt_ask_owner m) (me_quote_id g) (amount (mt_ask_received m)) g in
  let* rest := mo_get_quantity ask in
  let* buys := asset_mul rest (mo_get_price ask) in
  let dust := amount buys =? 0 in
  let base := if dust then add_fees (amount rest) base else base in
  let ask := if dust then set_balance 0 ask else ask in
  Ok (base, set_me_current_ask (Some ask)
              (on_pending (p_store_ask_record (mo_market_index ask) (mo_state ask)) g)).

Definition get_current_cover_age g : result Z :=
  let* ask := of_option undefined (me_current_ask g) in
  let* expiration := of_option undefined (mo_expiration ask) in
  let* now := now (me_state g) in
  Ok (u32 (BTS_BLOCKCHAIN_MAX_SHORT_PERIOD_SEC - tps_diff expiration now)).
Definition get_current_cover_debt g : result asset :=
  let* ask := of_option undefined (me_current_ask g) in
  let* balance := mo_get_balance ask in
  let* age := get_current_cover_age g in
  let* interest := get_interest_owed balance (cr_interest_rate (me_current_collat g)) age in
  asset_add interest balance.

(** The part of a payment on the current cover that is principal, the part that
    is interest, and the principal that is left. *)
Definition split_payment (ask : market_order) (received : asset) (quote_id : Z) g
    : result (asset * asset * Z) :=
  let principle := Asset (cr_payoff_balance (me_current_collat g)) quote_id in
  let* cover_age := get_current_cover_age g in
  let* total_debt := get_current_cover_debt g in
  if asset_geb received total_debt then
    let* interest_paid := asset_sub received principle in
    Ok (principle, interest_paid, 0)
  else
    let* interest_paid :=
      get_interest_paid received (cr_interest_rate (me_current_collat g)) cover_age in
    let* principle_paid := asset_sub received interest_paid in
    Ok (principle_paid, interest_paid, s64 (or_balance (mo_state ask) - amount principle_paid)).

(** What is left of the collateral of a position that owes nothing goes back to
    its owner, less a fee of 5% unless the position had expired. *)
Definition return_collateral (ask : market_order) (collateral : Z) m g
    : result (market_transaction * market_engine) :=
  let* now := now (me_state g) in
  let expired := cr_expiration (me_current_collat g) <=? now in
  let fee := if expired then 0 else Z.quot (s64 (collateral * 5000)) 100000 in
  let* m :=
    if expired then Ok m
    else
      ensure amount (mt_fees_collected m) =? 0 else assert_failure in
      let* fees := asset_add (mt_fees_collected m) (Asset fee (me_base_id g)) in
      Ok (set_mt_fees_collected fees m) in
  let left_over_collateral := s64 (collateral - fee) in
  let* g := pay_owner (mo_get_owner ask) (me_base_id g) left_over_collateral g in
  Ok (set_mt_returned_collateral (Some (Asset left_over_collateral 0)) m, g).
Definition pay_current_cover m (quote : asset_record) g
    : result (market_transaction * asset_record * market_engine) :=
  let* ask := of_option undefined (me_current_ask g) in
  ensure require_types ask (mt_ask_type m) cover_order else assert_failure in
  let rate := cr_interest_rate (me_current_collat g) in
  ensure base_asset_id rate <? quote_asset_id rate else assert_failure in
  let* split := split_payment ask (mt_ask_received m) (ar_id quote) g in
  let principle_paid := split.1.1 in
  let interest_paid := split.1.2 in
  ensure 0 <=? amount principle_paid else assert_failure in
  ensure 0 <=? amount interest_paid else assert_failure in
  ensure 0 <=? split.2 else assert_failure in
  let* collateral := of_option undefined (mo_collateral ask) in
  let collateral := s64 (collateral - amount (mt_ask_paid m)) in
  ensure 0 <=? collateral else assert_failure in
  let quote := add_fees (amount interest_paid) (add_supply (- amount principle_paid) quote) in
  (* without collateral, what is still owed is taken out of the fees *)
  let quote := if collateral =? 0 then add_fees (- split.2) quote else quote in
  let balance := if collateral =? 0 then 0 else split.2 in
  let settled := (balance =? 0) && (0 <? collateral) in
  let* mg := if settled then return_collateral ask collateral m g else Ok (m, g) in
  let collateral := if settled then 0 else collateral in
  let c := set_cr_payoff_balance balance
             (set_cr_collateral_balance collateral (me_current_collat g)) in
  Ok (mg.1, quote,
      set_me_current_ask (Some (set_mo_collateral (Some collateral) (set_balance balance ask)))
        (set_me_current_collat c
           (on_pending (p_store_collateral_record (mo_market_index ask) c) mg.2))).

(** A match is recorded unless it is an automatic cancellation, which pays
    nothing; the record has to balance. *)
Definition push_market_transaction m g : result market_engine :=
  ensure
    negb (negb (amount (mt_ask_paid m) =? 0) || negb (amount (mt_ask_received m) =? 0)
          || negb (asset_id (mt_bid_received m) =? 0) || negb (amount (mt_bid_paid m) =? 0))
    || ((0 <=? amount (mt_bid_paid m)) && (0 <=? amount (mt_ask_paid m))
        && (0 <=? amount (mt_bid_received m)) && (0 <=? amount (mt_ask_received m))
        && asset_geb (mt_bid_paid m) (mt_ask_received m)
        && asset_geb (mt_ask_paid m) (mt_bid_received m)
        && (0 <=? amount (mt_fees_collected m)))
    else assert_failure in
  Ok (set_me_market_transactions (me_market_transactions g ++ [m]) g).

Definition cancel_current_short m (quote_asset_id : Z) g
    : result (market_transaction * market_engine) :=
  let* bid := of_option undefined (me_current_bid g) in
  ensure require_types bid (mt_bid_type m) short_order else assert_failure in
  let* balance := mo_get_balance bid in
  let m := set_mt_short_collateral None
             (set_mt_bid_paid (Asset 0 quote_asset_id)
                (set_mt_bid_received balance
                   (set_mt_ask_received (Asset 0 quote_asset_id)
                      (set_mt_ask_paid asset_default m)))) in
  let* g := pay_owner (mt_bid_owner m) 0 (amount balance) g in
  let bid := set_balance 0 bid in
  Ok (m, set_me_current_bid (Some bid)
           (on_pending (p_store_short_record (mo_market_index bid) (mo_state bid)) g)).
Definition cancel_short (x : market_index_key * order_record) g : result market_engine :=
  let bid := MarketOrder short_order x.1 x.2 None None None in
  let m := set_mt_bid_type short_order
             (set_mt_bid_owner (mo_get_owner bid) market_transaction_default) in
  let* mg := cancel_current_short m (quote_asset_id (order_price x.1))
               (set_me_current_bid (Some bid) g) in
  push_market_transaction mg.1 mg.2.
Definition cancel_all_shorts g : result (market_engine * chain_state) :=
  let* g := rfold cancel_short (map_asc (db_shorts (me_db g))) g in
  let* prior := apply_changes (me_pending g) (me_prior g) in Ok (g, prior).
End engine.
