(* ===== verification/Matching.v ===== *)
(** The matching loop of the market engine ([market_engine::execute] of
    [market_engine.cpp]) and the market step of a block
    ([chain_database_impl::execute_markets] of [chain_database.cpp]).

    The loop runs on fuel; [matching_terminates] of [MarketFacts] shows that the
    number of orders in the books is enough. *)
From S2P Require Export MarketEngine.

Section matching.
Context `{!Fc, !Crypto}.
Implicit Types (g : market_engine) (m : market_transaction) (l : match_locals).

(** ** What becomes of a pair of orders: one of them is skipped, the matching
    stops, or they trade at the prices settled here *)
Inductive match_outcome :=
  | skip_bid | skip_ask | stop_matching | trade (m : market_transaction).
Definition minimum_ask (feed : price) : price :=
  Price (u128_div (u128_mul (ratio feed) 9) 10) (base_asset_id feed) (quote_asset_id feed).
Definition initial_transaction (bid ask : market_order) : market_transaction :=
  set_mt_ask_type (mo_type ask)
    (set_mt_bid_type (mo_type bid)
       (set_mt_ask_price (mo_get_price ask)
          (set_mt_bid_price (mo_get_price bid)
             (set_mt_ask_owner (mo_get_owner ask)
                (set_mt_bid_owner (mo_get_owner bid) market_transaction_default))))).
(** A short trades at the feed price, or at its limit when that is lower. *)
Definition short_price (limit : option price) (feed ask_price : price) : option price :=
  match limit with
  | Some p => if price_ltb p ask_price then None else Some (price_min p feed)
  | None => Some feed
  end.
(** A margin call trades at the bid, but not before its call price is reached
    or it has expired, nor below 90% of the feed price. *)
Definition cover_waits (m : market_transaction) (feed : price) (expiration now : Z) : bool :=
  (price_ltb (mt_ask_price m) (mt_bid_price m) && (now <? expiration))
  || price_ltb (mt_bid_price m) (minimum_ask feed).
Definition settle_ask (ask : market_order) (quote : asset_record) m g : result match_outcome :=
  if decide (mo_type ask = cover_order) then
    ensure ar_is_market_issued quote else assert_failure in
    match me_feed_price g with
    | None => Ok skip_ask
    | Some feed =>
        let* now := now (me_state g) in
        if cover_waits m feed (cr_expiration (me_current_collat g)) now then Ok skip_ask
        else Ok (trade (set_mt_ask_price (mt_bid_price m) m))
    end
  else if price_ltb (mt_bid_price m) (mt_ask_price m) then Ok stop_matching
  else Ok (trade m).
Definition settle_prices (bid ask : market_order) (quote : asset_record) g
    : result match_outcome :=
  let m := initial_transaction bid ask in
  if decide (mo_type bid = short_order) then
    ensure ar_is_market_issued quote else assert_failure in
    match me_feed_price g with
    | None => Ok skip_bid
    | Some feed =>
        match short_price (or_short_price_limit (mo_state bid)) feed (mt_ask_price m) with
        | None => Ok skip_bid
        | Some p => settle_ask ask quote (set_mt_bid_price p m) g
        end
    end
  else settle_ask ask quote m g.

(** ** The four kinds of trade *)
Definition collateral_rate g : result price :=
  let* feed := of_option undefined (me_feed_price g) in
  Ok (Price (u128_div (ratio feed) 2) (base_asset_id feed) (quote_asset_id feed)).
Definition cover_collateral (ask : market_order) g : result asset :=
  let* c := of_option undefined (mo_collateral ask) in Ok (Asset c (me_base_id g)).
Definition exchange (paid_by_ask received_by_ask : asset) m : market_transaction :=
  set_mt_bid_paid received_by_ask
    (set_mt_bid_received paid_by_ask
       (set_mt_ask_paid paid_by_ask (set_mt_ask_received received_by_ask m))).

(** Each kind first fixes what changes hands ... *)
Definition cover_short_terms (bid ask : market_order) m g : result market_transaction :=
  let* rate := collateral_rate g in
  let* cover_collateral := cover_collateral ask g in
  let* max_usd_cover_can_afford := asset_mul cover_collateral (mt_bid_price m) in
  let* cover_debt := get_current_cover_debt g in
  let* balance := mo_get_balance bid in
  let* usd_for_short_sale := asset_mul balance rate in
  let usd_exchanged := asset_min3 usd_for_short_sale max_usd_cover_can_afford cover_debt in
  let* ask_paid :=
    if asset_eqb usd_exchanged max_usd_cover_can_afford then Ok cover_collateral
    else asset_mul usd_exchanged (mt_ask_price m) in
  let m := exchange ask_paid usd_exchanged m in
  let* short_collateral :=
    if asset_eqb usd_exchanged usd_for_short_sale then Ok balance
    else asset_mul (mt_bid_paid m) rate in
  Ok (set_mt_short_collateral (Some short_collateral) m).
Definition cover_bid_terms (bid ask : market_order) m g : result market_transaction :=
  let* cover_collateral := cover_collateral ask g in
  let* max_usd_cover_can_afford := asset_mul cover_collateral (mt_bid_price m) in
  let* cover_debt := get_current_cover_debt g in
  let* usd_for_sale := mo_get_balance bid in
  let usd_exchanged := asset_min3 usd_for_sale max_usd_cover_can_afford cover_debt in
  let* ask_paid :=
    if asset_eqb usd_exchanged max_usd_cover_can_afford then Ok cover_collateral
    else asset_mul usd_exchanged (mt_ask_price m) in
  Ok (exchange ask_paid usd_exchanged m).
Definition ask_short_terms (bid ask : market_order) m g : result market_transaction :=
  let* rate := collateral_rate g in
  let* ask_quantity_usd := mo_get_quote_quantity ask in
  let* balance := mo_get_balance bid in
  let* short_quantity_usd := asset_mul balance rate in
  let usd_exchanged := asset_min short_quantity_usd ask_quantity_usd in
  if asset_eqb usd_exchanged short_quantity_usd then
    let* ask_paid := asset_mul usd_exchanged (mt_ask_price m) in
    Ok (set_mt_short_collateral (Some balance) (exchange ask_paid usd_exchanged m))
  else
    let* ask_paid := mo_get_balance ask in
    let* short_collateral := asset_mul usd_exchanged rate in
    Ok (set_mt_short_collateral (Some short_collateral) (exchange ask_paid usd_exchanged m)).
(** Everyone gets the price they asked for; the difference is a fee. *)
Definition ask_bid_terms (bid ask : market_order) m : result market_transaction :=
  let* bid_quantity_xts := mo_get_quantity bid in
  let* ask_quantity_xts := mo_get_quantity ask in
  let quantity_xts := asset_min bid_quantity_xts ask_quantity_xts in
  let* ask_received := asset_mul quantity_xts (mt_ask_price m) in
  let* bid_paid := asset_mul quantity_xts (mt_bid_price m) in
  let* bid_paid :=
    if asset_eqb quantity_xts bid_quantity_xts then mo_get_balance bid else Ok bid_paid in
  let* ask_paid :=
    if asset_eqb quantity_xts ask_quantity_xts then mo_get_balance ask else Ok quantity_xts in
  let* fees := asset_sub bid_paid ask_received in
  Ok (set_mt_fees_collected fees
        (set_mt_bid_received quantity_xts
           (set_mt_ask_paid ask_paid
              (set_mt_bid_paid bid_paid (set_mt_ask_received ask_received m))))).

(** ... and then pays the parties.  After a short has matched an ask, the ask
    is paid with the record of the quote asset. *)
Definition execute_trade (bid ask : market_order) m (quote base : asset_record) g
    : result (market_transaction * asset_record * asset_record * market_engine) :=
  match mo_type ask, mo_type bid with
  | cover_order, short_order =>
      let* m := cover_short_terms bid ask m g in
      let* s := pay_current_short m quote base g in
      let* c := pay_current_cover s.1.1 s.1.2 s.2 in
      Ok (c.1.1, c.1.2, base, c.2)
  | cover_order, bid_order =>
      let* m := cover_bid_terms bid ask m g in
      let* b := pay_current_bid m quote g in
      let* c := pay_current_cover m b.1 b.2 in
      Ok (c.1.1, c.1.2, base, c.2)
  | ask_order, short_order =>
      let* m := ask_short_terms bid ask m g in
      let* s := pay_current_short m quote base g in
      let* a := pay_current_ask s.1.1 s.1.2 s.2 in
      Ok (s.1.1, a.1, base, a.2)
  | ask_order, bid_order =>
      let* m := ask_bid_terms bid ask m in
      let* b := pay_current_bid m quote g in
      let* a := pay_current_ask m base b.2 in
      Ok (m, b.1, a.1, a.2)
  | _, _ => Ok (m, quote, base, g)
  end.

(** What [execute] keeps of a trade: volume, prices and fees. *)
Definition add_volume m (volume : asset) : result asset :=
  if asset_id (mt_ask_received m) =? 0 then asset_add volume (mt_ask_received m)
  else if asset_id (mt_bid_received m) =? 0 then asset_add volume (mt_bid_received m)
  else Ok volume.
Definition collect_market_fees m (quote base : asset_record) : asset_record * asset_record :=
  let fees := mt_fees_collected m in
  if asset_id fees =? ar_id base then (quote, add_fees (amount fees) base)
  else if asset_id fees =? ar_id quote then (add_fees (amount fees) quote, base)
  else (quote, base).
Definition make_trade (bid ask : market_order) m l : result match_locals :=
  let* t := execute_trade bid ask m (ml_quote l) (ml_base l) (ml_engine l) in
  let m := t.1.1.1 in
  let* g := push_market_transaction m t.2 in
  let* volume := add_volume m (ml_trading_volume l) in
  let opening :=
    if price_eqb (ml_opening_price l) price_default then mt_bid_price m else ml_opening_price l in
  let records := collect_market_fees m t.1.1.2 t.1.2 in
  Ok (MatchLocals g records.1 records.2 (ml_last_orders_filled l) volume opening (mt_bid_price m)).

(** ** The loop *)
Definition match_step l : result (bool * match_locals) :=
  let* b := get_next_bid (ml_engine l) in
  if negb b.1 then Ok (false, set_ml_engine b.2 l) else
  let* a := get_next_ask b.2 in
  if negb a.1 then Ok (false, set_ml_engine a.2 l) else
  let g := a.2 in
  ensure negb (me_orders_filled g =? ml_last_orders_filled l) else assert_failure in
  let l := MatchLocals g (ml_quote l) (ml_base l) (me_orders_filled g) (ml_trading_volume l)
             (ml_opening_price l) (ml_closing_price l) in
  let* bid := of_option undefined (me_current_bid g) in
  let* ask := of_option undefined (me_current_ask g) in
  let* outcome := settle_prices bid ask (ml_quote l) g in
  match outcome with
  | skip_bid => Ok (true, set_ml_engine (set_me_current_bid None g) l)
  | skip_ask => Ok (true, set_ml_engine (set_me_current_ask None g) l)
  | stop_matching => Ok (false, l)
  | trade m => let* l := make_trade bid ask m l in Ok (true, l)
  end.
Fixpoint match_orders (fuel : nat) l : option (result match_locals) :=
  match fuel with
  | O => None
  | S n =>
      match match_step l with
      | Err e => Some (Err e)
      | Ok (true, l') => match_orders n l'
      | Ok (false, l') => Some (Ok l')
      end
  end.
(** Enough for every order to be taken from its book once. *)
Definition match_fuel (d : chain_database) : nat :=
  2 + size (db_bids d) + size (db_shorts d) + size (db_asks d) + size (db_collateral d).

(** ** Market history *)
Definition same_granularity (k : market_history_key) (gr : time_granularity_enum) g : bool :=
  (mhk_quote_id k =? me_quote_id g) && (mhk_base_id k =? me_base_id g)
  && bool_decide (mhk_granularity k = gr).
(** The entry of an hour or a day: an existing one is written back only when the
    new record extends its extremes. *)
Definition merge_history (new old : market_history_record) : option market_history_record :=
  if price_gtb (mh_highest_bid new) (mh_highest_bid old)
     || price_ltb (mh_lowest_ask new) (mh_lowest_ask old)
  then Some (MarketHistoryRecord (price_max (mh_highest_bid new) (mh_highest_bid old))
               (price_min (mh_lowest_ask new) (mh_lowest_ask old)) (mh_opening_price old)
               (mh_closing_price new) (s64 (mh_volume old + mh_volume new)))
  else None.
Definition update_period (gr : time_granularity_enum) (seconds timestamp : Z)
    (new : market_history_record) g : market_engine :=
  let key := MarketHistoryKey (me_quote_id g) (me_base_id g) gr
               (tps_sub timestamp (timestamp mod seconds)) in
  match db_market_history (me_db g) !! key with
  | Some old =>
      match merge_history new old with
      | Some r => on_pending (p_store_market_history_record key r) g
      | None => g
      end
  | None => on_pending (p_store_market_history_record key new) g
  end.
(** The entry of the block, unless the one before it in this market is the same. *)
Definition update_block (timestamp : Z) (new : market_history_record) g : market_engine :=
  let history := db_market_history (me_db g) in
  let head := bh_timestamp (sbh_header (db_head_block_header (me_db g))) in
  let key := MarketHistoryKey (me_quote_id g) (me_base_id g) each_block head in
  let last_key := match it_lower_bound key history with
                  | Some k => it_prev k history
                  | None => it_last history
                  end in
  let repeated :=
    match last_key with
    | Some k => same_granularity k each_block g
                && match history !! k with Some r => mhr_eqb r new | None => false end
    | None => false
    end in
  if repeated then g
  else on_pending (p_store_market_history_record
                     (MarketHistoryKey (me_quote_id g) (me_base_id g) each_block timestamp) new) g.
Definition update_market_history (volume : asset) (opening closing : price) (timestamp : Z) g
    : result market_engine :=
  if negb (0 <? amount volume) then Ok g else
  let* b := get_next_bid g in
  if negb b.1 then Ok b.2 else
  let* a := get_next_ask b.2 in
  if negb a.1 then Ok a.2 else
  let g := a.2 in
  let* bid := of_option undefined (me_current_bid g) in
  let* ask := of_option undefined (me_current_ask g) in
  let new := MarketHistoryRecord (mo_get_price bid) (mo_get_price ask) opening closing
               (amount volume) in
  Ok (update_period each_day (60 * 60 * 24) timestamp new
        (update_period each_hour (60 * 60) timestamp new (update_block timestamp new g))).

(** ** [execute] *)
Definition before_pair {V} (k : market_index_key) (table : gmap market_index_key V)
    : option market_index_key :=
  match it_lower_bound k table with Some k' => it_prev k' table | None => it_last table end.
(** The iterators stand on the best order of each book. *)
Definition open_books g : result (asset_record * asset_record * market_engine) :=
  let d := me_db g in
  let quote_id := me_quote_id g in
  let base_id := me_base_id g in
  let* quote := of_option assert_failure (get_asset_record quote_id (me_state g)) in
  let* base := of_option assert_failure (get_asset_record base_id (me_state g)) in
  let* next_pair := if s32 (base_id + 1) =? quote_id then price_zero (s32 (quote_id + 1)) 0
                    else price_zero quote_id (s32 (base_id + 1)) in
  let* this_pair := price_zero quote_id base_id in
  let next := MarketIndexKey next_pair 0 in
  let asks := match it_lower_bound (MarketIndexKey this_pair 0) (db_asks d) with
              | Some k => Some k
              | None => it_begin (db_asks d)
              end in
  let* feed := get_median_delegate_price quote_id base_id (Database d) in
  Ok (quote, base,
      MarketEngine (me_pending g) (me_prior g) d (me_current_bid g) (me_current_ask g)
        (me_current_collat g) quote_id base_id feed (me_orders_filled g)
        (me_market_transactions g) (before_pair next (db_bids d)) asks
        (before_pair next (db_shorts d)) (before_pair next (db_collateral d))).
Definition check_feeds (quote : asset_record) g : result () :=
  if ar_is_market_issued quote then
    let* st := get_market_status (me_quote_id g) (me_base_id g) (me_state g) in
    ensure bool_decide (is_Some (st ≫= ms_last_valid_feed_price))
           || bool_decide (is_Some (me_feed_price g)) else insufficient_feeds in Ok ()
  else Ok ().
(** The status of the market with the feed the engine saw. *)
Definition next_market_status (err : option exn) (s : chain_state) g : result market_status :=
  let* st := get_market_status (me_quote_id g) (me_base_id g) s in
  let* st := match st with
             | Some st => Ok st
             | None => market_status_new (me_quote_id g) (me_base_id g)
             end in
  Ok (set_ms_last_error err (ms_update_feed_price (me_feed_price g) st)).
Definition run_market (quote base : asset_record) g : result match_locals :=
  let* ok := check_feeds quote g in
  let* b := get_next_bid g in
  let* a := get_next_ask b.2 in
  let l := MatchLocals a.2 quote base (-1) (Asset 0 (me_base_id g)) price_default price_default in
  default (Err undefined) (match_orders (match_fuel (me_db g)) l).
Definition finish_market (timestamp : Z) l : result (list market_transaction * chain_state) :=
  let g := on_pending (p_store_asset_record (ml_base l))
             (on_pending (p_store_asset_record (ml_quote l)) (ml_engine l)) in
  let* st := next_market_status None (me_state g) g in
  let g := on_pending (p_store_market_status st) g in
  let* g := update_market_history (ml_trading_volume l) (ml_opening_price l)
              (ml_closing_price l) timestamp g in
  let* prior := apply_changes (me_pending g) (me_prior g) in
  Ok (me_market_transactions g, prior).
(** An exception: only the market's status changes. *)
Definition fail_market (e : exn) g : result (list market_transaction * chain_state) :=
  let* st := next_market_status (Some e) (me_prior g) g in
  Ok ([], store_market_status st (me_prior g)).
Definition execute (timestamp : Z) g : result (list market_transaction * chain_state) :=
  match open_books g with
  | Err e => fail_market e g
  | Ok (quote, base, g) =>
      match (let* l := run_market quote base g in finish_market timestamp l) with
      | Err e => fail_market e g
      | Ok r => Ok r
      end
  end.

(** ** The markets of a block

    The dirty markets are those the database below remembers; the trades of a
    market that failed are not recorded. *)
Definition execute_market (d : chain_database) (timestamp : Z) (pair : Z * Z)
    (x : list market_transaction * chain_state)
    : result (list market_transaction * chain_state) :=
  ensure pair.2 <? pair.1 else assert_failure in
  let* r := execute timestamp (engine_new x.2 d pair.1 pair.2) in
  Ok (x.1 ++ r.1, r.2).
Definition execute_markets (d : chain_database) (timestamp : Z) (pending : chain_state)
    : result chain_state :=
  let* x := rfold (execute_market d timestamp) (market_list (get_dirty_markets (Database d)))
              ([], pending) in
  Ok (set_market_transactions x.1 x.2).
End matching.
