(* ===== verification/Blocks.v ===== *)
(** Applying a block to the state of the chain ([chain_database.cpp]): the
    schedule of the delegates, the checks on a block's header, the pay and the
    statistics of the delegates, the transactions, and the shuffle of the next
    round.

    The steps of a block change a pending state over the database; the steps of
    [chain_database_impl] that read [self] read the database itself, which does
    not change until the end of the block. *)
From S2P Require Export Matching.

(** ** Delegates by votes

    The index is a map sorted by [vote_del]: more votes first, then lower ids. *)
Definition vote_del_le (a b : Z * Z) : Prop := b.1 < a.1 ∨ (a.1 = b.1 ∧ a.2 ≤ b.2).
#[export] Instance vote_del_le_dec : RelDecision vote_del_le.
Proof. intros a b. unfold vote_del_le. apply _. Defined.
Definition sorted_votes (d : chain_database) : list (Z * Z) :=
  merge_sort vote_del_le (elements (db_delegate_votes d)).
Definition get_delegates_by_vote (first count : nat) (d : chain_database) : list Z :=
  take count (drop first (sorted_votes d)).*2.
Definition next_round_active_delegates (d : chain_database) : list Z :=
  get_delegates_by_vote 0 (Z.to_nat BTS_BLOCKCHAIN_NUM_DELEGATES) d.

(** ** The shuffle of the delegates

    [swap_at i j] is [std::swap( v[i], v[j] )]. *)
Definition swap_at {A} (i j : nat) (l : list A) : list A :=
  match l !! i, l !! j with
  | Some x, Some y => <[j := x]> (<[i := y]> l)
  | _, _ => l
  end.

Section blocks.
Context `{!Fc, !Crypto}.
Implicit Types (b : full_block) (d : chain_database) (s : chain_state).

(** The words of one hash shuffle four places; the step of the outer loop then
    skips the place after them. *)
Fixpoint shuffle_words (words : list Z) (i : nat) (l : list Z) : nat * list Z :=
  match words with
  | [] => (i, l)
  | w :: ws =>
      if decide (i < length l)%nat
      then shuffle_words ws (S i) (swap_at i (Z.to_nat (w mod Z.of_nat (length l))) l)
      else (i, l)
  end.
Fixpoint shuffle_from (fuel : nat) (rand_seed : digest_type) (i : nat) (l : list Z)
    : option (list Z) :=
  if decide (i < length l)%nat then
    match fuel with
    | O => None
    | S n =>
        let r := shuffle_words (sha256_word rand_seed <$> [0; 1; 2; 3]) i l in
        shuffle_from n (sha256_of_sha256 rand_seed) (S r.1) r.2
    end
  else Some l.
(** As many rounds as there are delegates are enough. *)
Definition shuffle (seed : digest_type) (l : list Z) : option (list Z) :=
  shuffle_from (length l) (sha256 (pack_ripemd160 seed)) 0 l.
Definition update_active_delegate_list b d s : result chain_state :=
  if bh_block_num (sbh_header (fb_header b)) mod BTS_BLOCKCHAIN_NUM_DELEGATES =? 0 then
    let* seed := get_current_random_seed s in
    let* active_del := of_option undefined (shuffle seed (next_round_active_delegates d)) in
    Ok (set_active_delegates active_del s)
  else Ok s.
Definition update_random_seed (new_secret : digest_type) s : result chain_state :=
  let* current_seed := get_current_random_seed s in
  Ok (set_property last_random_seed_id
        (v_hash (ripemd160_of_sha512
                   (sha512 (pack_ripemd160 new_secret ++ pack_ripemd160 current_seed)))) s).

(** ** Who signs a slot *)
Definition require_delegate (r : option account_record) : result account_record :=
  let* r := of_option assert_failure r in
  ensure ac_is_delegate r else assert_failure in Ok r.
Definition get_delegate_record_for_signee (block_signee : public_key_type) d
    : result account_record :=
  let* r := get_account_record_by_address (address_of_key block_signee) (Database d) in
  require_delegate r.
Definition slot_delegate (timestamp : Z) (ordered_delegates : list Z) : result Z :=
  of_option assert_failure
    (ordered_delegates !! Z.to_nat (get_slot_number timestamp mod BTS_BLOCKCHAIN_NUM_DELEGATES)).
Definition get_slot_signee (timestamp : Z) (ordered_delegates : list Z) d : result account_record :=
  let* delegate_id := slot_delegate timestamp ordered_delegates in
  require_delegate (get_account_record delegate_id (Database d)).
(** The first slot of the coming round that one of [delegate_ids] produces; the
    loop visits as many slots as there are delegates. *)
Fixpoint next_producible (fuel : nat) (next_block_time last_block_time : Z)
    (active delegate_ids : list Z) : result (option Z) :=
  match fuel with
  | O => Ok None
  | S n =>
      if next_block_time <? last_block_time then
        let* delegate_id := slot_delegate next_block_time active in
        if bool_decide (delegate_id ∈ delegate_ids) then Ok (Some next_block_time)
        else next_producible n (tps_add next_block_time BTS_BLOCKCHAIN_BLOCK_INTERVAL_SEC)
               last_block_time active delegate_ids
      else Ok None
  end.
Definition get_next_producible_block_timestamp (delegate_ids : list Z) d : result (option Z) :=
  let next_block_time := slot_start_of (db_wall_clock d) in
  let next_block_time :=
    if next_block_time <=? db_now d
    then tps_add next_block_time BTS_BLOCKCHAIN_BLOCK_INTERVAL_SEC else next_block_time in
  let last_block_time :=
    tps_add next_block_time (BTS_BLOCKCHAIN_NUM_DELEGATES * BTS_BLOCKCHAIN_BLOCK_INTERVAL_SEC) in
  let* active := get_active_delegates (Database d) in
  next_producible (S (Z.to_nat BTS_BLOCKCHAIN_NUM_DELEGATES)) next_block_time last_block_time
    active delegate_ids.

(** ** The header *)
Definition fb_head b : block_header := sbh_header (fb_header b).
Definition fb_id b : digest_type := block_id (fb_header b).
(** [digest_block digest_data( block )]: overload resolution prefers the
    constructor from a [signed_block_header], to whose base class a [full_block]
    converts, to the conversion operator of [full_block]; so the copy has the
    header of the block and no transactions. *)
Definition header_digest_block b : digest_block := DigestBlock (fb_header b) [].
Definition verify_header b (block_signee : public_key_type) d : result () :=
  let h := fb_head b in
  let head := sbh_header (db_head_block_header d) in
  ensure negb ((1 <? bh_block_num h) && negb (bh_block_num h =? u32 (bh_block_num head + 1)))
    else block_numbers_not_sequential in
  ensure bh_previous h =? db_head_block_id d else invalid_previous_block_id in
  ensure bh_timestamp h mod BTS_BLOCKCHAIN_BLOCK_INTERVAL_SEC =? 0 else invalid_block_time in
  ensure negb ((1 <? bh_block_num h) && (bh_timestamp h <=? bh_timestamp head))
    else time_in_past in
  ensure negb (tps_add (db_wall_clock d) (BTS_BLOCKCHAIN_BLOCK_INTERVAL_SEC * 2)
               <? bh_timestamp h) else time_in_future in
  let digest_data := header_digest_block b in
  ensure validate_digest digest_data else invalid_block_digest in
  ensure validate_unique digest_data else assert_failure in
  let* active := get_active_delegates (Database d) in
  let* expected_delegate := get_slot_signee (bh_timestamp h) active d in
  ensure block_signee =? ac_active_key expected_delegate else invalid_delegate_signee in
  Ok ().

(** ** What the delegates did *)
Definition pending_delegate (id : Z) s : result (account_record * delegate_stats) :=
  let* r := of_option assert_failure (get_account_record id s) in
  let* i := of_option assert_failure (ac_delegate_info r) in Ok (r, i).
Definition produced_stats b (i : delegate_stats) : delegate_stats :=
  set_ds_last_block_num_produced (bh_block_num (fb_head b))
    (set_ds_next_secret_hash (bh_next_secret_hash (fb_head b))
       (set_ds_blocks_produced (u32 (ds_blocks_produced i + 1)) i)).
(** A delegate that has produced a block before reveals the secret it committed
    to then. *)
Definition secret_revealed b (i : delegate_stats) : bool :=
  if 0 <? ds_blocks_produced i
  then ripemd160 (pack_ripemd160 (bh_previous_secret (fb_head b))) =? ds_next_secret_hash i
  else true.
Definition record_produced b (delegate_id : Z) s : result chain_state :=
  let* r := pending_delegate delegate_id s in
  ensure secret_revealed b r.2 else assert_failure in
  let s := store_account_record (set_ac_delegate_info (Some (produced_stats b r.2)) r.1) s in
  Ok (store_slot_record (SlotRecord (bh_timestamp (fb_head b)) delegate_id (Some (fb_id b))) s).
Definition record_missed (active : list Z) (block_timestamp : Z) d s : result chain_state :=
  let* signee := get_slot_signee block_timestamp active d in
  let* r := pending_delegate (ac_id signee) s in
  let i := set_ds_blocks_missed (u32 (ds_blocks_missed r.2 + 1)) r.2 in
  let s := store_account_record (set_ac_delegate_info (Some i) r.1) s in
  Ok (store_slot_record (SlotRecord block_timestamp (ac_id signee) None) s).
Fixpoint record_all_missed (fuel : nat) (active : list Z) (block_timestamp produced : Z)
    (required_confirmations : Z) d s : option (result (Z * chain_state)) :=
  if block_timestamp <? produced then
    match fuel with
    | O => None
    | S n =>
        match record_missed active block_timestamp d s with
        | Err e => Some (Err e)
        | Ok s' =>
            record_all_missed n active
              (tps_add block_timestamp BTS_BLOCKCHAIN_BLOCK_INTERVAL_SEC) produced
              (s64 (required_confirmations + 2)) d s'
        end
    end
  else Some (Ok (required_confirmations, s)).
(** The number of slots between the two blocks. *)
Definition missed_fuel (block_timestamp produced : Z) : nat :=
  Z.to_nat ((produced - block_timestamp) / BTS_BLOCKCHAIN_BLOCK_INTERVAL_SEC + 1).
Definition first_missed b d : Z :=
  let head := sbh_header (db_head_block_header d) in
  if 0 <? bh_block_num head
  then tps_add (bh_timestamp head) BTS_BLOCKCHAIN_BLOCK_INTERVAL_SEC
  else bh_timestamp (fb_head b).
Definition clamp_confirmations (n : Z) : Z :=
  let n := if n <? 1 then 1 else n in
  if BTS_BLOCKCHAIN_NUM_DELEGATES * 3 <? n then 3 * BTS_BLOCKCHAIN_NUM_DELEGATES else n.
Definition update_delegate_production_info b (block_signee : public_key_type) d s
    : result chain_state :=
  let* delegate := get_delegate_record_for_signee block_signee d in
  let* s := record_produced b (ac_id delegate) s in
  let* required_confirmations := get_required_confirmations s in
  let* active := get_active_delegates (Database d) in
  let* r := default (Err undefined)
              (record_all_missed (missed_fuel (first_missed b d) (bh_timestamp (fb_head b))) active
                 (first_missed b d) (bh_timestamp (fb_head b)) required_confirmations d s) in
  Ok (set_property confirmation_requirement (v_int (clamp_confirmations (s64 (r.1 - 1)))) r.2).

(** The pay comes out of the fees; what the delegate does not accept of it is
    destroyed. *)
Definition pay_delegate (block_signee : public_key_type) d s : result chain_state :=
  let* delegate := get_delegate_record_for_signee block_signee d in
  let* r := pending_delegate (ac_id delegate) s in
  let pay_rate_percent := ds_pay_rate r.2 in
  ensure (0 <=? pay_rate_percent) && (pay_rate_percent <=? 100) else assert_failure in
  let* max_available_paycheck := get_delegate_pay_rate s in
  let accepted_paycheck := Z.quot (s64 (pay_rate_percent * max_available_paycheck)) 100 in
  let* base := of_option assert_failure (get_asset_record 0 s) in
  let s := store_asset_record
             (set_ar_collected_fees (s64 (ar_collected_fees base - max_available_paycheck)) base) s in
  let i := set_ds_votes_for (s64 (ds_votes_for r.2 + accepted_paycheck))
             (set_ds_pay_balance (s64 (ds_pay_balance r.2 + accepted_paycheck)) r.2) in
  let s := store_account_record (set_ac_delegate_info (Some i) r.1) s in
  let* base := of_option assert_failure (get_asset_record 0 s) in
  Ok (store_asset_record
        (set_ar_current_share_supply
           (s64 (ar_current_share_supply base - (max_available_paycheck - accepted_paycheck))) base)
        s).

(** ** The transactions *)
Definition apply_transaction b d (t : signed_transaction) (x : Z * chain_state)
    : result (Z * chain_state) :=
  let* e := evaluate t (db_skip_signature_verification d)
              (BTS_CHECK_CANONICAL_SIGNATURE_FORK_BLOCK_NUM <? bh_block_num (fb_head b))
              (eval_state_new x.2 (db_chain_id d)) in
  let* s := store_transaction (trx_id t)
              (TransactionRecord (es_trx e) (bh_block_num (fb_head b), x.1)) (es_current_state e) in
  Ok (u32 (x.1 + 1), s).
Definition apply_transactions b d s : result chain_state :=
  let* x := rfold (apply_transaction b d) (fb_user_transactions b) (0, s) in Ok x.2.

(** ** All the steps of a block, on a pending state over the database *)
Definition apply_block b (block_signee : public_key_type) d s : result chain_state :=
  let* s := update_delegate_production_info b block_signee d s in
  let* s := pay_delegate block_signee d s in
  let* s := execute_markets d (bh_timestamp (fb_head b)) s in
  let* s := apply_transactions b d s in
  let* s := update_active_delegate_list b d s in
  update_random_seed (bh_previous_secret (fb_head b)) s.
End blocks.
