(* ===== verification/Forks.v ===== *)
(** The block tree and the chain that is built on it ([chain_database.cpp]):
    storing and linking blocks, extending the chain, popping blocks and
    switching between forks, and the transactions waiting for a block.

    The tables of [chain_database_impl] the evaluation of a block does not read
    are here, in [chain], beside the [chain_database] it does.  Here exceptions
    do not undo what was done before them: an operation takes the chain and
    returns a result together with the chain it leaves, also when it throws.

    The time it took to process a block, the observers, the snapshots and the
    mutex are left out.  A std::unordered_set is visited in the order of
    [elements]; the C++ leaves that order open.  The loops over the block tree
    run on fuel, and running out of it is [undefined]: the C++ would not return. *)
From S2P Require Export Blocks.

(** ** The block tree ([block_fork_data] of [chain_database.hpp]) *)
Record block_fork_data := BlockForkData {
  bf_next_blocks : gset digest_type;
  bf_is_linked : bool;
  bf_is_valid : option bool;
  bf_invalid_reason : option exn;
  bf_is_included : bool;
  bf_is_known : bool
}.
Definition block_fork_data_default : block_fork_data := BlockForkData ∅ false None None false false.
Definition set_bf_next_blocks (v : gset digest_type) (r : block_fork_data) : block_fork_data :=
  BlockForkData v (bf_is_linked r) (bf_is_valid r) (bf_invalid_reason r) (bf_is_included
    r) (bf_is_known r).
Definition set_bf_is_linked (v : bool) (r : block_fork_data) : block_fork_data :=
  BlockForkData (bf_next_blocks r) v (bf_is_valid r) (bf_invalid_reason r)
    (bf_is_included r) (bf_is_known r).
Definition set_bf_is_valid (v : option bool) (r : block_fork_data) : block_fork_data :=
  BlockForkData (bf_next_blocks r) (bf_is_linked r) v (bf_invalid_reason r)
    (bf_is_included r) (bf_is_known r).
Definition set_bf_invalid_reason (v : option exn) (r : block_fork_data) : block_fork_data :=
  BlockForkData (bf_next_blocks r) (bf_is_linked r) (bf_is_valid r) v (bf_is_included r)
    (bf_is_known r).
Definition set_bf_is_included (v : bool) (r : block_fork_data) : block_fork_data :=
  BlockForkData (bf_next_blocks r) (bf_is_linked r) (bf_is_valid r) (bf_invalid_reason
    r) v (bf_is_known r).
Definition set_bf_is_known (v : bool) (r : block_fork_data) : block_fork_data :=
  BlockForkData (bf_next_blocks r) (bf_is_linked r) (bf_is_valid r) (bf_invalid_reason
    r) (bf_is_included r) v.
Definition bf_invalid (r : block_fork_data) : bool := match bf_is_valid r with Some v => negb v | None => false end.
Definition bf_valid (r : block_fork_data) : bool := match bf_is_valid r with Some v => v | None => false end.
Definition bf_can_link (r : block_fork_data) : bool := bf_is_linked r && negb (bf_invalid r).

(** [block_record], without the time it took to process. *)
Record block_record := BlockRecord {
  bkr_digest_block : digest_block;
  bkr_random_seed : digest_type;
  bkr_block_size : Z;
  bkr_latency : Z
}.
Definition bkr_header (r : block_record) : block_header := sbh_header (db_header (bkr_digest_block r)).

(** ** The chain *)
Record chain := Chain {
  c_db : chain_database;
  c_fork_numbers : gmap Z (list digest_type);
  c_forks : gmap digest_type block_fork_data;
  c_undo_states : gmap digest_type pending_chain_state;
  c_block_ids : gmap Z digest_type;
  c_block_records : gmap digest_type block_record;
  c_blocks : gmap digest_type full_block;
  c_pending_transactions : gmap digest_type signed_transaction;
  c_pending_fees : gmap (Z * digest_type) transaction_evaluation_state;
  c_pending_state : option pending_chain_state
}.
Definition set_c_db (v : chain_database) (r : chain) : chain :=
  Chain v (c_fork_numbers r) (c_forks r) (c_undo_states r) (c_block_ids r)
    (c_block_records r) (c_blocks r) (c_pending_transactions r) (c_pending_fees r)
    (c_pending_state r).
Definition set_c_fork_numbers (v : gmap Z (list digest_type)) (r : chain) : chain :=
  Chain (c_db r) v (c_forks r) (c_undo_states r) (c_block_ids r) (c_block_records r)
    (c_blocks r) (c_pending_transactions r) (c_pending_fees r) (c_pending_state r).
Definition set_c_forks (v : gmap digest_type block_fork_data) (r : chain) : chain :=
  Chain (c_db r) (c_fork_numbers r) v (c_undo_states r) (c_block_ids r) (c_block_records
    r) (c_blocks r) (c_pending_transactions r) (c_pending_fees r) (c_pending_state r).
Definition set_c_undo_states (v : gmap digest_type pending_chain_state) (r : chain) : chain :=
  Chain (c_db r) (c_fork_numbers r) (c_forks r) v (c_block_ids r) (c_block_records r)
    (c_blocks r) (c_pending_transactions r) (c_pending_fees r) (c_pending_state r).
Definition set_c_block_ids (v : gmap Z digest_type) (r : chain) : chain :=
  Chain (c_db r) (c_fork_numbers r) (c_forks r) (c_undo_states r) v (c_block_records r)
    (c_blocks r) (c_pending_transactions r) (c_pending_fees r) (c_pending_state r).
Definition set_c_block_records (v : gmap digest_type block_record) (r : chain) : chain :=
  Chain (c_db r) (c_fork_numbers r) (c_forks r) (c_undo_states r) (c_block_ids r) v
    (c_blocks r) (c_pending_transactions r) (c_pending_fees r) (c_pending_state r).
Definition set_c_blocks (v : gmap digest_type full_block) (r : chain) : chain :=
  Chain (c_db r) (c_fork_numbers r) (c_forks r) (c_undo_states r) (c_block_ids r)
    (c_block_records r) v (c_pending_transactions r) (c_pending_fees r) (c_pending_state
    r).
Definition set_c_pending_transactions (v : gmap digest_type signed_transaction) (r : chain) : chain :=
  Chain (c_db r) (c_fork_numbers r) (c_forks r) (c_undo_states r) (c_block_ids r)
    (c_block_records r) (c_blocks r) v (c_pending_fees r) (c_pending_state r).
Definition set_c_pending_fees (v : gmap (Z * digest_type) transaction_evaluation_state) (r : chain) : chain :=
  Chain (c_db r) (c_fork_numbers r) (c_forks r) (c_undo_states r) (c_block_ids r)
    (c_block_records r) (c_blocks r) (c_pending_transactions r) v (c_pending_state r).
Definition set_c_pending_state (v : option pending_chain_state) (r : chain) : chain :=
  Chain (c_db r) (c_fork_numbers r) (c_forks r) (c_undo_states r) (c_block_ids r)
    (c_block_records r) (c_blocks r) (c_pending_transactions r) (c_pending_fees r) v.
Definition c_head (c : chain) : block_header := sbh_header (db_head_block_header (c_db c)).
Definition c_head_id (c : chain) : digest_type := db_head_block_id (c_db c).

(** [CHECKPOINT_BLOCKS] of [checkpoints.hpp] is empty. *)
Definition CHECKPOINT_BLOCKS : gmap Z digest_type := ∅.
Definition last_checkpoint_block_num : Z := default 0 (it_last CHECKPOINT_BLOCKS).

(** ** Operations on the chain *)
Definition chain_m (A : Type) : Type := chain → result A * chain.
Definition mreturn {A} (a : A) : chain_m A := λ c, (Ok a, c).
Definition mbnd {A B} (m : chain_m A) (k : A → chain_m B) : chain_m B :=
  λ c, match m c with (Ok a, c') => k a c' | (Err e, c') => (Err e, c') end.
Notation "'do*' x ':=' m 'in' k" := (mbnd m (λ x, k))
  (at level 10, x pattern, m at level 100, k at level 200) : larkx_scope.
Definition gets {A} (f : chain → A) : chain_m A := λ c, (Ok (f c), c).
Definition modify (f : chain → chain) : chain_m () := λ c, (Ok (), f c).
Definition lift {A} (r : chain → result A) : chain_m A := λ c, (r c, c).
Definition throw {A} (e : exn) : chain_m A := λ c, (Err e, c).
Definition require (b : chain → bool) (e : exn) : chain_m () :=
  λ c, (if b c then Ok () else Err e, c).
Definition catch {A} (m : chain_m A) (h : exn → chain_m A) : chain_m A :=
  λ c, match m c with (Err e, c') => h e c' | r => r end.
Fixpoint mfold {A S} (f : A → S → chain_m S) (l : list A) (s : S) : chain_m S :=
  match l with [] => mreturn s | x :: l' => do* s' := f x s in mfold f l' s' end.

Section forks.
Context `{!Fc, !Crypto}.
Implicit Types (c : chain) (b : full_block) (id : digest_type).

Definition fetch_fork id : chain_m block_fork_data :=
  lift (λ c, of_option key_not_found (c_forks c !! id)).
Definition fetch_block_record id : chain_m block_record :=
  lift (λ c, of_option key_not_found (c_block_records c !! id)).
Definition store_fork id (r : block_fork_data) : chain_m () :=
  modify (λ c, set_c_forks (<[id := r]> (c_forks c)) c).
Definition get_block_header id : chain_m block_header :=
  lift (λ c, let* r := of_option unknown_block (c_block_records c !! id) in Ok (bkr_header r)).
Definition get_block id : chain_m full_block :=
  lift (λ c, of_option key_not_found (c_blocks c !! id)).

Definition is_known_block id c : bool :=
  match c_forks c !! id with Some r => bf_is_known r | None => false end.
Definition is_included_block id c : bool :=
  match c_forks c !! id with Some r => bf_is_included r | None => false end.

(** ** Marking the blocks after a block

    A round marks the blocks of a set and collects the ones after them. *)
Fixpoint mark_rounds {A} (mark : digest_type → A → chain_m (block_fork_data * A)) (fuel : nat)
    (next_ids : gset digest_type) (a : A) : chain_m A :=
  if decide (next_ids = ∅) then mreturn a else
  match fuel with
  | O => throw undefined
  | S n =>
      do* x := mfold (λ item x,
                 do* y := mark item x.2 in mreturn (x.1 ∪ bf_next_blocks y.1, y.2))
                 (elements next_ids) (∅, a) in
      mark_rounds mark n x.1 x.2
  end.
(** As many rounds as there are blocks in the tree. *)
Definition mark_recursively {A} (mark : digest_type → A → chain_m (block_fork_data * A))
    (ids : gset digest_type) (a : A) : chain_m A :=
  do* n := gets (λ c, size (c_forks c)) in mark_rounds mark (S n) ids a.

(** The highest block seen so far, its id and its data. *)
Definition mark_linked id (best : Z * (digest_type * block_fork_data))
    : chain_m (block_fork_data * (Z * (digest_type * block_fork_data))) :=
  do* r := fetch_fork id in
  let r := set_bf_is_linked true r in
  do* _ := store_fork id r in
  do* block := fetch_block_record id in
  let n := bh_block_num (bkr_header block) in
  mreturn (r, if best.1 <? n then (n, (id, r)) else best).
Definition recursive_mark_as_linked (ids : gset digest_type)
    : chain_m (digest_type * block_fork_data) :=
  do* best := mark_recursively mark_linked ids (0, (0, block_fork_data_default)) in
  mreturn best.2.
Definition invalidated (reason : exn) (r : block_fork_data) : block_fork_data :=
  set_bf_invalid_reason (Some reason) (set_bf_is_valid (Some false) r).
Definition mark_one_invalid (reason : exn) id : chain_m block_fork_data :=
  do* r := fetch_fork id in
  do* _ := store_fork id (invalidated reason r) in mreturn (invalidated reason r).
Definition recursive_mark_as_invalid (ids : gset digest_type) (reason : exn) : chain_m () :=
  mark_recursively (λ id _, do* r := mark_one_invalid reason id in mreturn (r, ())) ids ().
Definition mark_invalid id (reason : exn) : chain_m () :=
  do* r := mark_one_invalid reason id in
  recursive_mark_as_invalid (bf_next_blocks r) reason.
Definition mark_included id (included : bool) : chain_m () :=
  do* r := fetch_fork id in
  let r := set_bf_is_included included r in
  store_fork id (if included then set_bf_is_valid (Some true) r else r).

(** ** Storing a block *)
Definition new_block_record id b : chain_m () :=
  do* known := gets (λ c, c_block_records c !! id) in
  match known with
  | Some _ => mreturn ()
  | None =>
      do* seed := lift (λ c, get_current_random_seed (Database (c_db c))) in
      modify (λ c,
        set_c_block_records
          (<[id := BlockRecord (digest_block_of b) seed (block_size b)
                     (tps_diff (db_wall_clock (c_db c)) (bh_timestamp (fb_head b)))]>
             (c_block_records c)) c)
  end.
Definition index_number id b : chain_m () :=
  modify (λ c,
    let n := bh_block_num (fb_head b) in
    let parallel := default [] (c_fork_numbers c !! n) in
    if bool_decide (id ∈ parallel) then c
    else set_c_fork_numbers (<[n := parallel ++ [id]]> (c_fork_numbers c)) c).
(** The block before it, known or not, gets it as a next block. *)
Definition link_previous id b : chain_m block_fork_data :=
  let previous := bh_previous (fb_head b) in
  do* known := gets (λ c, c_forks c !! previous) in
  let r := match known with
           | Some r => set_bf_next_blocks ({[id]} ∪ bf_next_blocks r) r
           | None => set_bf_is_linked (previous =? 0)
                       (set_bf_next_blocks {[id]} block_fork_data_default)
           end in
  do* _ := store_fork previous r in mreturn r.
Definition link_block id (prev : block_fork_data) : chain_m (digest_type * block_fork_data) :=
  do* known := gets (λ c, c_forks c !! id) in
  match known with
  | Some r =>
      if negb (bf_is_linked r) && bf_is_linked prev then
        let r := set_bf_is_linked true r in
        do* longest_fork := recursive_mark_as_linked (bf_next_blocks r) in
        do* _ := store_fork id r in mreturn longest_fork
      else do* _ := store_fork id r in mreturn (id, r)
  | None =>
      let r := set_bf_is_linked (bf_is_linked prev)
                 (set_bf_is_known true block_fork_data_default) in
      do* _ := store_fork id r in mreturn (id, r)
  end.
Definition store_and_index id b : chain_m (digest_type * block_fork_data) :=
  do* _ := modify (λ c, set_c_blocks (<[id := b]> (c_blocks c)) c) in
  do* _ := new_block_record id b in
  do* _ := index_number id b in
  do* prev := link_previous id b in
  link_block id prev.

(** ** Extending the chain *)
Definition fresh_pending c : chain_state := Pending pending_chain_state_empty (Database (c_db c)).
Definition block_signee_of b : chain_m public_key_type :=
  let n := bh_block_num (fb_head b) in
  lift (λ c,
    if n <? last_checkpoint_block_num then
      let* active := get_active_delegates (Database (c_db c)) in
      let* r := get_slot_signee (bh_timestamp (fb_head b)) active (c_db c) in
      Ok (ac_active_key r)
    else signee (BTS_CHECK_CANONICAL_SIGNATURE_FORK_BLOCK_NUM <? n) (fb_header b)).
Definition checkpoint_passed id b : bool :=
  match CHECKPOINT_BLOCKS !! bh_block_num (fb_head b) with
  | Some expected => expected =? id
  | None => true
  end.
(** The undo state goes through the disk; the oldest one is removed. *)
Definition save_undo_state id (p : pending_chain_state) : chain_m () :=
  do* n := gets (λ c, bh_block_num (c_head c)) in
  if n <? last_checkpoint_block_num then mreturn () else
  do* undo := lift (λ c, get_undo_state p (Database (c_db c))) in
  do* _ := modify (λ c, set_c_undo_states (<[id := pending_chain_state_reflected undo]> (c_undo_states c)) c) in
  if 0 <? s32 (n - BTS_BLOCKCHAIN_MAX_UNDO_HISTORY) then
    do* old_id := lift (λ c, of_option key_not_found
                               (c_block_ids c !! u32 (n - BTS_BLOCKCHAIN_MAX_UNDO_HISTORY))) in
    modify (λ c, set_c_undo_states (delete old_id (c_undo_states c)) c)
  else mreturn ().
(** [apply_changes] on the database; if it throws, the model keeps the database
    as it was, where the code keeps what had been stored by then.  For the
    states of a block it does not throw: [apply_changes_applied] of [ApplyUndo]. *)
Definition apply_pending (p : pending_chain_state) : chain_m () :=
  do* s := lift (λ c, apply_changes p (Database (c_db c))) in
  match s with
  | Database d => modify (set_c_db d)
  | _ => throw undefined
  end.
Definition update_head_block b : chain_m () :=
  modify (λ c, set_c_db (set_db_head_block_id (fb_id b)
                           (set_db_head_block_header (fb_header b) (c_db c))) c).
(** [revalidate_pending] is scheduled to run after the block. *)
Definition clear_pending b : chain_m () :=
  modify (λ c,
    set_c_pending_state (Some pending_chain_state_empty)
      (set_c_pending_fees ∅
         (set_c_pending_transactions
            (foldl (λ m t, delete (trx_digest (db_chain_id (c_db c)) (st_trx t)) m)
               (c_pending_transactions c) (fb_user_transactions b)) c))).
Definition extend_with b : chain_m () :=
  let id := fb_id b in
  do* block_signee := block_signee_of b in
  do* _ := require (λ _, checkpoint_passed id b) failed_checkpoint_verification in
  do* _ := lift (λ c, verify_header b block_signee (c_db c)) in
  do* s := lift (λ c, apply_block b block_signee (c_db c) (fresh_pending c)) in
  match s with
  | Pending p _ =>
      do* _ := save_undo_state id p in
      do* _ := apply_pending p in
      do* _ := mark_included id true in
      do* _ := update_head_block b in
      do* _ := clear_pending b in
      modify (λ c, set_c_block_ids (<[bh_block_num (fb_head b) := id]> (c_block_ids c)) c)
  | _ => throw undefined
  end.
Definition purge_unique_transactions c : chain :=
  set_c_db (set_db_unique_transactions
              (filter (λ x, db_now (c_db c) ≤ x.1) (db_unique_transactions (c_db c))) (c_db c)) c.
Definition extend_chain b : chain_m () :=
  do* _ := catch (extend_with b) (λ e, do* _ := mark_invalid (fb_id b) e in throw e) in
  modify purge_unique_transactions.

(** ** Popping blocks and switching forks *)
Definition pop_block : chain_m () :=
  do* n := gets (λ c, bh_block_num (c_head c)) in
  if n =? 0 then mreturn () else
  do* head_id := gets c_head_id in
  do* _ := mark_included head_id false in
  do* _ := modify (λ c, set_c_block_ids (delete n (c_block_ids c)) c) in
  do* previous := gets (λ c, bh_previous (c_head c)) in
  do* undo := lift (λ c, of_option key_not_found (c_undo_states c !! head_id)) in
  do* _ := apply_pending undo in
  do* _ := modify (λ c, set_c_db (set_db_head_block_id previous (c_db c)) c) in
  do* r := lift (λ c, of_option unknown_block (c_block_records c !! previous)) in
  modify (λ c, set_c_db (set_db_head_block_header (db_header (bkr_digest_block r)) (c_db c)) c).

(** The blocks back to the one that is included, or to the block before the
    first. *)
Fixpoint fork_history_from (fuel : nat) id : chain_m (list digest_type) :=
  match fuel with
  | O => throw undefined
  | S n =>
      do* h := get_block_header id in
      if bh_previous h =? 0 then mreturn [bh_previous h] else
      do* prev := fetch_fork (bh_previous h) in
      do* _ := require (λ _, bf_is_linked prev) assert_failure in
      if bf_is_included prev then mreturn [bh_previous h]
      else do* l := fork_history_from n (bh_previous h) in mreturn (bh_previous h :: l)
  end.
Definition get_fork_history id : chain_m (list digest_type) :=
  do* n := gets (λ c, size (c_block_records c)) in
  do* l := fork_history_from (S n) id in mreturn (id :: l).
Fixpoint pop_to (fuel : nat) id : chain_m () :=
  do* head := gets c_head_id in
  if head =? id then mreturn () else
  match fuel with
  | O => throw undefined
  | S n => do* _ := pop_block in pop_to n id
  end.
Definition extend_by id : chain_m () :=
  do* b := get_block id in extend_chain b.
Definition switch_to_fork id : chain_m () :=
  do* history := get_fork_history id in
  match rev history with
  | [] => throw assert_failure
  | base :: fork =>
      do* n := gets (λ c, Z.to_nat (bh_block_num (c_head c))) in
      do* _ := pop_to (S n) base in
      mfold (λ id _, extend_by id) fork ()
  end.

(** ** [push_block] *)
Definition new_fork_data id : chain_m block_fork_data :=
  lift (λ c, of_option assert_failure (c_forks c !! id)).
Definition within_undo_history b c : bool :=
  let head := bh_block_num (c_head c) in
  negb ((BTS_BLOCKCHAIN_MAX_UNDO_HISTORY <? head)
        && (bh_block_num (fb_head b) <=? u32 (head - BTS_BLOCKCHAIN_MAX_UNDO_HISTORY))).
Definition longer_fork (longest_fork : digest_type * block_fork_data) : chain_m bool :=
  if bf_can_link longest_fork.2 then
    do* r := fetch_block_record longest_fork.1 in
    gets (λ c, bh_block_num (c_head c) <? bh_block_num (bkr_header r))
  else mreturn false.
Definition push_block b : chain_m block_fork_data :=
  do* _ := require (within_undo_history b) block_older_than_undo_history in
  let id := fb_id b in
  do* current_head_id := gets c_head_id in
  do* longest_fork := store_and_index id b in
  do* r := new_fork_data id in
  do* r :=
    if bh_previous (fb_head b) =? current_head_id then
      do* _ := extend_chain b in new_fork_data id
    else
      do* longer := longer_fork longest_fork in
      if longer then
        catch (do* _ := switch_to_fork longest_fork.1 in new_fork_data id)
          (λ _, do* _ := switch_to_fork current_head_id in mreturn r)
      else mreturn r in
  do* _ := require (λ c, bool_decide (is_Some (c_block_records c !! id))) assert_failure in
  mreturn r.

(** ** Transactions waiting for a block *)
Definition relay_fees (e : transaction_evaluation_state) : Z :=
  s64 (get_fees 0 e + amount (es_alt_fees_paid e)).
Definition pending_trx_state c : chain_state :=
  Pending (default pending_chain_state_empty (c_pending_state c)) (Database (c_db c)).
Definition enforce_canonical (n : Z) : bool := BTS_CHECK_CANONICAL_SIGNATURE_FORK_BLOCK_NUM <? n.
Definition evaluate_transaction (t : signed_transaction) (required_fees : Z)
    : chain_m transaction_evaluation_state :=
  do* _ := modify (λ c, set_c_pending_state
                          (Some (default pending_chain_state_empty (c_pending_state c))) c) in
  do* e := lift (λ c,
    let* n := get_head_block_num (pending_trx_state c) in
    evaluate t false (enforce_canonical n)
      (eval_state_new (Pending pending_chain_state_empty (pending_trx_state c))
         (db_chain_id (c_db c)))) in
  do* _ := require (λ _, required_fees <=? relay_fees e) insufficient_relay_fee in
  match es_current_state e with
  | Pending p prev =>
      do* s := lift (λ _, apply_changes p prev) in
      match s with
      | Pending q _ => do* _ := modify (set_c_pending_state (Some q)) in mreturn e
      | _ => throw undefined
      end
  | _ => throw undefined
  end.
Definition get_transaction_error (t : signed_transaction) (min_fee : Z) : chain_m (option exn) :=
  lift (λ c, Ok
    match (let* n := get_head_block_num (fresh_pending c) in
           let* e := evaluate t false (enforce_canonical n)
                       (eval_state_new (fresh_pending c) (db_chain_id (c_db c))) in
           ensure min_fee <=? get_fees 0 e else insufficient_relay_fee in Ok e) with
    | Ok _ => None
    | Err e => Some e
    end).
Definition remember_fees (t : signed_transaction) (e : transaction_evaluation_state) : chain_m () :=
  modify (λ c, set_c_pending_fees (<[(get_fees 0 e, trx_id t) := e]> (c_pending_fees c)) c).
(** The relay fee grows with the square of the number of transactions the queue
    holds above its size. *)
Definition required_relay_fee (override_limits : bool) c : Z :=
  let relay_fee := db_relay_fee (c_db c) in
  let overage := Z.of_nat (size (c_pending_fees c)) - BTS_BLOCKCHAIN_MAX_PENDING_QUEUE_SIZE in
  if negb override_limits && (0 <? overage)
  then s64 (u64 (u64 (relay_fee * overage) * overage)) else relay_fee.
Definition store_pending_transaction (t : signed_transaction) (override_limits : bool)
    : chain_m (option transaction_evaluation_state) :=
  do* id := gets (λ c, trx_digest (db_chain_id (c_db c)) (st_trx t)) in
  do* known := gets (λ c, c_pending_transactions c !! id) in
  match known with
  | Some _ => mreturn None
  | None =>
      do* relay_fee := gets (required_relay_fee override_limits) in
      do* e := evaluate_transaction t relay_fee in
      do* _ := remember_fees t e in
      do* _ := modify (λ c, set_c_pending_transactions
                              (<[id := t]> (c_pending_transactions c)) c) in
      mreturn (Some e)
  end.
(** [fee_index] sorts by decreasing fees, then by id. *)
Definition fee_index_le (a b : Z * digest_type) : Prop := b.1 < a.1 ∨ (a.1 = b.1 ∧ a.2 ≤ b.2).
#[export] Instance fee_index_le_dec : RelDecision fee_index_le.
Proof. intros x y. unfold fee_index_le. apply _. Defined.
Definition get_pending_transactions c : list transaction_evaluation_state :=
  omap (λ k, c_pending_fees c !! k)
    (merge_sort fee_index_le (elements (dom (c_pending_fees c)))).
(** Every waiting transaction is evaluated again on the new head; the ones that
    do not evaluate any more are forgotten. *)
Definition revalidate_one (x : digest_type * signed_transaction) (discard : list digest_type)
    : chain_m (list digest_type) :=
  catch
    (do* fee := gets (λ c, db_relay_fee (c_db c)) in
     do* e := evaluate_transaction x.2 fee in
     do* _ := remember_fees x.2 e in mreturn discard)
    (λ _, mreturn (discard ++ [x.1])).
Definition revalidate_pending : chain_m () :=
  do* _ := modify (λ c, set_c_pending_state (Some pending_chain_state_empty)
                          (set_c_pending_fees ∅ c)) in
  do* l := gets (λ c, map_asc (c_pending_transactions c)) in
  do* discard := mfold revalidate_one l [] in
  modify (λ c, set_c_pending_transactions
                 (foldl (λ m id, delete id m) (c_pending_transactions c) discard) c).

(** ** Producing a block

    [elapsed n] tells whether more than five seconds have passed after the
    transaction [n] has been tried. *)
Definition try_transaction (chain_id : digest_type) (t : signed_transaction) (s : chain_state)
    : result chain_state :=
  let* e := evaluate t false true (eval_state_new (Pending pending_chain_state_empty s) chain_id) in
  match es_current_state e with
  | Pending p prev => apply_changes p prev
  | _ => Err undefined
  end.
Fixpoint fill_block (elapsed : nat → bool) (n : nat) (chain_id : digest_type) (block_size : Z)
    (pending : list transaction_evaluation_state) (s : chain_state) : list signed_transaction :=
  match pending with
  | [] => []
  | e :: rest =>
      let t := es_trx e in
      let block_size := block_size + trx_data_size t in
      if BTS_BLOCKCHAIN_MAX_BLOCK_SIZE <? block_size then [] else
      let next := λ s, if elapsed n then [] else fill_block elapsed (S n) chain_id block_size rest s in
      match try_transaction chain_id t s with
      | Ok s' => t :: next s'
      | Err _ => next s
      end
  end.
Definition generate_block (elapsed : nat → bool) (timestamp : Z) : chain_m full_block :=
  lift (λ c,
    let* s := execute_markets (c_db c) timestamp (fresh_pending c) in
    let trxs := fill_block elapsed 0 (db_chain_id (c_db c)) 0 (get_pending_transactions c) s in
    let head := db_head_block_header (c_db c) in
    let previous := if bh_block_num (sbh_header head) =? 0 then 0 else block_id head in
    let h := BlockHeader previous (u32 (bh_block_num (sbh_header head) + 1)) timestamp 0 0 0 in
    let b := FullBlock (SignedBlockHeader h 0) trxs in
    let digest := calculate_transaction_digest (header_digest_block b) in
    Ok (FullBlock (SignedBlockHeader
                     (BlockHeader previous (bh_block_num h) timestamp digest 0 0) 0) trxs)).
End forks.
