(* ===== verification/Supply.v ===== *)
(** Conservation of funds: what the chain state holds of each asset, against the
    share supply its record states.

    [holdings] counts every place the chain keeps funds; [calculate_supply]
    ([chain_database.cpp]) is the program's own count.  Every operation of a
    transaction leaves [excess], the holdings less the share supply plus what the
    transaction has withdrawn and not yet deposited, as it was, modulo the width
    of [share_type]. *)
From S2P Require Export Transaction.

(** ** Where funds are kept *)
Definition at_id (id id' amount : Z) : Z := if id' =? id then amount else 0.
Definition in_balance (id : Z) (_ : address) (r : balance_record) : Z :=
  at_id id (br_asset_id r) (br_balance r).
Definition in_bid (id : Z) (k : market_index_key) (o : order_record) : Z :=
  at_id id (quote_asset_id (order_price k)) (or_balance o).
Definition in_ask (id : Z) (k : market_index_key) (o : order_record) : Z :=
  at_id id (base_asset_id (order_price k)) (or_balance o).
Definition in_collateral (id : Z) (k : market_index_key) (c : collateral_record) : Z :=
  at_id id (base_asset_id (order_price k)) (cr_collateral_balance c).
Definition in_pay (id : Z) (_ : Z) (r : account_record) : Z :=
  at_id id 0 (from_option ds_pay_balance 0 (ac_delegate_info r)).
Definition in_fees (id : Z) (k : Z) (r : asset_record) : Z := at_id id k (ar_collected_fees r).
Definition in_supply (id : Z) (k : Z) (r : asset_record) : Z :=
  at_id id k (ar_current_share_supply r).

Section supply.
Context `{!Fc, !Crypto}.
Implicit Types (s : chain_state) (e : transaction_evaluation_state).

(** Summed over the table a state presents: its entries over those below. *)
Definition tsum {K V} `{Countable K} (fp : pending_chain_state → gmap K V)
    (fd : chain_database → gmap K V) (f : K → V → Z) s : Z := gsum f (eff fp fd s).
Definition holdings (id : Z) s : Z :=
  tsum p_assets db_assets (in_fees id) s
  + tsum p_balances db_balances (in_balance id) s
  + tsum p_bids db_bids (in_bid id) s
  + tsum p_asks db_asks (in_ask id) s
  + tsum p_shorts db_shorts (in_ask id) s
  + tsum p_collateral db_collateral (in_collateral id) s
  + tsum p_accounts db_accounts (in_pay id) s.
Definition supply (id : Z) s : Z := tsum p_assets db_assets (in_supply id) s.
Definition excess (id : Z) e : Z :=
  holdings id (es_current_state e) - supply id (es_current_state e) + get_fees id e.

(** ** The program's count *)
Definition db_calculate_supply (id : Z) (d : chain_database) : result asset :=
  let* r := of_option assert_failure (db_assets d !! id) in
  let total := Asset (ar_collected_fees r) id in
  let* total := rfold (λ x total,
      if br_asset_id x.2 =? asset_id total then asset_add total (br_get_balance x.2) else Ok total)
    (map_to_list (db_balances d)) total in
  let add total b := Asset (s64 (amount total + b)) (asset_id total) in
  let total := foldl (λ total x,
      if base_asset_id (order_price x.1) =? asset_id total then add total (or_balance x.2)
      else total) total (map_asc (db_asks d)) in
  if id =? 0 then
    let total := foldl (λ total x, add total (or_balance x.2)) total (map_asc (db_shorts d)) in
    let total := foldl (λ total x, add total (cr_collateral_balance x.2)) total
                   (map_asc (db_collateral d)) in
    Ok (foldl (λ total x,
          match ac_delegate_info x.2 with
          | Some i => add total (ds_pay_balance i)
          | None => total
          end) total (map_asc (db_accounts d)))
  else
    Ok (foldl (λ total x,
          if quote_asset_id (order_price x.1) =? asset_id total then add total (or_balance x.2)
          else total) total (map_asc (db_bids d))).
Definition db_calculate_debt (id : Z) (d : chain_database) : result asset :=
  let* r := of_option assert_failure (db_assets d !! id) in
  ensure ar_is_market_issued r else assert_failure in
  Ok (foldl (λ total x,
        if quote_asset_id (order_price x.1) =? id
        then Asset (s64 (amount total + cr_payoff_balance x.2)) (asset_id total) else total)
      (Asset 0 id) (map_asc (db_collateral d))).

(** The check after genesis and after loading: the balances and the delegates'
    pay are exactly the share supply. *)
Definition sanity_check (d : chain_database) : result () :=
  let* total := rfold (λ x total,
      if br_asset_id x.2 =? 0 then
        ensure 0 <=? br_balance x.2 else assert_failure in
        asset_add total (br_get_balance x.2)
      else Ok total) (map_to_list (db_balances d)) asset_default in
  let* total := rfold (λ x total,
      match ac_delegate_info x.2 with
      | Some i => asset_add total (Asset (ds_pay_balance i) 0)
      | None => Ok total
      end) (map_asc (db_accounts d)) total in
  let* r := of_option assert_failure (db_assets d !! 0) in
  ensure ar_current_share_supply r =? amount total else assert_failure in
  ensure ar_current_share_supply r <=? ar_maximum_share_supply r else assert_failure in
  Ok ().

(** ** How a store moves the sums *)
Definition is_pending s : Prop := match s with Pending _ _ => True | _ => False end.
Definition keyed_tables s : Prop :=
  (∀ k r, get_balance_record k s = Some r → br_id r = k) ∧
  (∀ k r, get_asset_record k s = Some r → ar_id r = k) ∧
  (∀ k r, get_account_record k s = Some r → ac_id r = k).
Definition funds_wf s : Prop := is_pending s ∧ keyed_tables s.

Lemma tsum_insert {K V} `{Countable K} (fp : pending_chain_state → gmap K V) fd (f : K → V → Z)
    p p' prev k v :
  fp p' = <[k := v]> (fp p) →
  tsum fp fd f (Pending p' prev)
  = tsum fp fd f (Pending p prev) - contrib f k (look_through fp fd k (Pending p prev)) + f k v.
Proof.
  intros E. unfold tsum. by rewrite (eff_pending_insert fp fd p p' prev k v E),
    gsum_insert, look_through_eff.
Qed.
Lemma tsum_same {K V} `{Countable K} (fp : pending_chain_state → gmap K V) fd (f : K → V → Z)
    p p' prev :
  fp p' = fp p → tsum fp fd f (Pending p' prev) = tsum fp fd f (Pending p prev).
Proof. intros E. unfold tsum. by rewrite (eff_pending_same fp fd p p' prev E). Qed.

(** [holdings] as a sum over the seven tables: a store moves the one it writes. *)
Ltac tsums p p' prev :=
  repeat match goal with
  | |- context [tsum ?fp ?fd ?f (Pending p' prev)] =>
      first [rewrite (tsum_same fp fd f p p' prev) by reflexivity
            |erewrite (tsum_insert fp fd f p p' prev) by reflexivity]
  end.

Lemma holdings_balance id r s : is_pending s →
  holdings id (store_balance_record r s)
  = holdings id s - contrib (in_balance id) (br_id r) (get_balance_record (br_id r) s) + in_balance id (br_id r) r.
Proof.
  destruct s as [|d|p prev]; [done|done|intros _]. unfold store_balance_record, on_state, holdings, get_balance_record.
  match goal with |- context [Pending ?q prev] => tsums p q prev end. lia.
Qed.
Lemma holdings_bid id k r s : is_pending s →
  holdings id (store_bid_record k r s)
  = holdings id s - contrib (in_bid id) (k) (get_bid_record (k) s) + in_bid id (k) r.
Proof.
  destruct s as [|d|p prev]; [done|done|intros _]. unfold store_bid_record, on_state, holdings, get_bid_record.
  match goal with |- context [Pending ?q prev] => tsums p q prev end. lia.
Qed.
Lemma holdings_ask id k r s : is_pending s →
  holdings id (store_ask_record k r s)
  = holdings id s - contrib (in_ask id) (k) (get_ask_record (k) s) + in_ask id (k) r.
Proof.
  destruct s as [|d|p prev]; [done|done|intros _]. unfold store_ask_record, on_state, holdings, get_ask_record.
  match goal with |- context [Pending ?q prev] => tsums p q prev end. lia.
Qed.
Lemma holdings_short id k r s : is_pending s →
  holdings id (store_short_record k r s)
  = holdings id s - contrib (in_ask id) (k) (get_short_record (k) s) + in_ask id (k) r.
Proof.
  destruct s as [|d|p prev]; [done|done|intros _]. unfold store_short_record, on_state, holdings, get_short_record.
  match goal with |- context [Pending ?q prev] => tsums p q prev end. lia.
Qed.
Lemma holdings_collateral id k r s : is_pending s →
  holdings id (store_collateral_record k r s)
  = holdings id s - contrib (in_collateral id) (k) (get_collateral_record (k) s) + in_collateral id (k) r.
Proof.
  destruct s as [|d|p prev]; [done|done|intros _]. unfold store_collateral_record, on_state, holdings, get_collateral_record.
  match goal with |- context [Pending ?q prev] => tsums p q prev end. lia.
Qed.
Lemma holdings_account id r s : is_pending s →
  holdings id (store_account_record r s)
  = holdings id s - contrib (in_pay id) (ac_id r) (get_account_record (ac_id r) s) + in_pay id (ac_id r) r.
Proof.
  destruct s as [|d|p prev]; [done|done|intros _]. unfold store_account_record, on_state, holdings, get_account_record.
  match goal with |- context [Pending ?q prev] => tsums p q prev end. lia.
Qed.
Lemma holdings_asset id r s : is_pending s →
  holdings id (store_asset_record r s) - supply id (store_asset_record r s)
  = holdings id s - supply id s
    - contrib (in_fees id) (ar_id r) (get_asset_record (ar_id r) s) + in_fees id (ar_id r) r
    + contrib (in_supply id) (ar_id r) (get_asset_record (ar_id r) s) - in_supply id (ar_id r) r.
Proof.
  destruct s as [|d|p prev]; [done|done|intros _].
  unfold store_asset_record, on_state, holdings, supply, get_asset_record.
  match goal with |- context [Pending ?q prev] => tsums p q prev end. lia.
Qed.
End supply.
