(* ===== verification/Genesis.v ===== *)
(** The initial state ([genesis_config.hpp] and [initialize_genesis] with its
    helpers in [chain_database.cpp]): accounts, scaled balances with a random
    slate each, the votes these give, the assets, the place before the first
    block and the properties.

    The embedded genesis state and the digest it hashes to are arguments.  The
    [double] of a configured balance is represented by the integer it converts
    to; [boost::random] is the class [Prng]. *)
From S2P Require Export Forks Supply.

Class Prng := {
  prng : Type;
  (* boost::random::mt11213b( seed ) *)
  mt11213b : Z → prng;
  (* boost::random::uniform_int_distribution( lo, hi ) applied to the generator *)
  uniform_int : Z → Z → prng → Z * prng
}.
Fixpoint draws `{!Prng} (n : nat) (lo hi : Z) (g : prng) : prng :=
  match n with O => g | S n => draws n lo hi (uniform_int lo hi g).2 end.

(** What the code relies on: a draw is in range, and whatever state the
    generator is in, every value of the range is drawn sooner or later. *)
Class PrngLaws (P : Prng) : Prop := {
  uniform_int_range lo hi g : lo ≤ hi → lo ≤ (uniform_int lo hi g).1 ≤ hi;
  uniform_int_fair lo hi g v : lo ≤ v ≤ hi →
    ∃ n, (uniform_int lo hi (draws n lo hi g)).1 = v
}.

(** A generator that counts. *)
#[export] Instance prng_reference : Prng := {|
  prng := Z;
  mt11213b seed := seed;
  uniform_int lo hi g := (lo + g mod (hi - lo + 1), g + 1)
|}.

(** ** The configuration *)
Record name_config := NameConfig {
  nc_name : string;
  nc_owner : public_key_type;
  nc_delegate_pay_rate : Z
}.
(** The two prices of a market asset are not used. *)
Record asset_config := AssetConfig {
  gac_symbol : string;
  gac_name : string;
  gac_description : string;
  gac_precision : Z
}.
Record genesis_block_config := GenesisBlockConfig {
  gc_timestamp : Z;
  gc_market_assets : list asset_config;
  gc_names : list name_config;
  gc_balances : list (list Z * Z)
}.

Definition account_record_default : account_record :=
  AccountRecord 0 EmptyString v_null 0 [] 0 0 None None.
Definition set_br_genesis_info (v : option genesis_record) (r : balance_record) : balance_record :=
  BalanceRecord (br_balance r) (br_condition r) v (br_last_update r) (br_deposit_date r).

Section genesis.
Context `{!Fc, !Crypto, !Prng}.
Implicit Types (d : chain_database) (g : prng) (slate : gset Z) (ids : list Z)
  (delegates : gmap Z account_record) (config : genesis_block_config).

(** ** A random slate *)
Definition create_rng (chain_id : digest_type) : prng :=
  mt11213b (Z.land (sha256_word chain_id 0) (2 ^ 32 - 1)).
Definition draw_delegate ids g : result Z * prng :=
  let '(i, g) := uniform_int 0 (u64 (Z.of_nat (length ids) - 1)) g in
  (of_option undefined (ids !! Z.to_nat i), g).
Definition add_one_to_slate ids slate g : result (gset Z * prng) :=
  let '(id, g) := draw_delegate ids g in
  let* id := id in Ok ({[id]} ∪ slate, g).
Definition remove_one_from_slate ids slate g : result (gset Z * prng) :=
  let '(id, g) := draw_delegate ids g in
  let* id := id in Ok (slate ∖ {[id]}, g).
(** The loop ends with the luck of the draws: running out of fuel is
    [undefined]. *)
Fixpoint adjust_slate (fuel : nat) ids slate g (target : nat) : result (gset Z * prng) :=
  if decide (size slate = target) then Ok (slate, g) else
  match fuel with
  | O => Err undefined
  | S n =>
      let* x := if decide (target < size slate)%nat then remove_one_from_slate ids slate g
                else add_one_to_slate ids slate g in
      adjust_slate n ids x.1 x.2 target
  end.
Definition slate_target : nat :=
  Z.to_nat (BTS_BLOCKCHAIN_NUM_DELEGATES * GENESIS_VOTE_PERMILLE / 1000).
Definition prefill_slate (fuel : nat) ids g : result (gset Z * prng) :=
  adjust_slate fuel ids (if GENESIS_VOTE_PERMILLE <? 500 then list_to_set ids else ∅) g slate_target.
Definition fill_remaining_slate (fuel : nat) ids slate g : result (gset Z * prng) :=
  let remaining := BTS_BLOCKCHAIN_NUM_DELEGATES * GENESIS_VOTE_PERMILLE
                   - Z.of_nat (size slate) * 1000 in
  if remaining =? 0 then Ok (slate, g) else
  ensure (0 <? remaining) && (remaining <? 1000) else assert_failure in
  let '(v, g) := uniform_int 0 999 g in
  if remaining <=? v then Ok (slate, g) else adjust_slate fuel ids slate g (size slate + 1).
Definition store_slate (slate : delegate_slate) d : Z * chain_database :=
  match slate with
  | [] => (0, d)
  | _ =>
      let id := slate_id slate in
      match db_slates d !! id with
      | Some _ => (id, d)
      | None => (id, db_store_delegate_slate id slate d)
      end
  end.
Definition select_slate (fuel : nat) ids g : result (gset Z * prng) :=
  let* selected := prefill_slate fuel ids g in
  fill_remaining_slate fuel ids selected.1 selected.2.
Definition generate_random_slate (fuel : nat) ids g d : result (Z * prng * chain_database) :=
  let* selected := select_slate fuel ids g in
  let '(id, d) := store_slate (merge_sort Z.le (elements selected.1)) d in
  Ok (id, selected.2, d).

(** ** Accounts: [set_active_key] asserts that the time is not zero; the pay rate
    is an [int] kept in a [uint8_t] *)
Definition is_delegate_config (name : name_config) : bool := nc_delegate_pay_rate name <=? 100.
Definition genesis_account (timestamp account_id : Z) (name : name_config) : result account_record :=
  let rec := AccountRecord account_id (nc_name name) v_null (nc_owner name) [] timestamp timestamp
               None None in
  let* rec := ac_set_active_key timestamp (nc_owner name) rec in
  Ok (if is_delegate_config name
      then set_ac_delegate_info (Some (delegate_stats_new (nc_delegate_pay_rate name mod 256))) rec
      else rec).
(** Delegates wait in a map for their votes; the others are stored at once.
    Accounts are numbered from 1. *)
Record genesis_names := GenesisNames {
  gn_account_id : Z;
  gn_delegate_ids : list Z;
  gn_delegates : gmap Z account_record;
  gn_db : chain_database
}.
Definition genesis_name (timestamp : Z) (name : name_config) (x : genesis_names)
    : result genesis_names :=
  let id := gn_account_id x in
  let* rec := genesis_account timestamp id name in
  Ok (if is_delegate_config name
      then GenesisNames (id + 1) (gn_delegate_ids x ++ [id]) (<[id := rec]> (gn_delegates x)) (gn_db x)
      else GenesisNames (id + 1) (gn_delegate_ids x) (gn_delegates x)
             (db_store_account_record rec (gn_db x))).
Definition genesis_accounts (timestamp : Z) (names : list name_config) d : result genesis_names :=
  rfold (genesis_name timestamp) names (GenesisNames 1 [] ∅ d).
Definition god : account_record := AccountRecord 0 "god" v_null 0 [] 0 0 None None.
Definition store_delegates delegates d : chain_database :=
  foldl (λ d x, db_store_account_record x.2 d) d (map_asc delegates).

(** ** Balances *)

(** Converting a [double] beyond the target type is undefined. *)
Definition total_unscaled (balances : list (list Z * Z)) : result Z :=
  rfold (λ item total, ensure (0 <=? item.2) && (item.2 <? 2 ^ 64) else undefined in
                       Ok (u128_add total (u128_of_uint64 item.2))) balances 0.
Definition initial_shares (total amount : Z) : result Z :=
  ensure (0 <=? amount) && (amount <=? INT64_MAX) else undefined in
  ensure negb (total =? 0) else undefined in
  Ok (u128_low_bits (u128_div (u128_mul (u128_of_int64 amount)
                                        (u128_of_int64 BTS_BLOCKCHAIN_INITIAL_SHARES)) total)).
Definition add_votes (supported : list Z) (amount : Z) delegates
    : result (gmap Z account_record) :=
  rfold (λ acct m,
    let* r := ac_adjust_votes_for amount (default account_record_default (m !! acct)) in
    Ok (<[acct := r]> m)) supported delegates.

Record genesis_state := GenesisState {
  gs_prng : prng;
  gs_balance_by_address : gmap (list Z) balance_record;
  gs_delegates : gmap Z account_record;
  gs_db : chain_database
}.
(** The record of an address: a repeated address adds to its balance. *)
Definition genesis_record_of (fuel : nat) ids (timestamp initial : Z) (addr : list Z) (x : genesis_state)
    : result (balance_record * genesis_state) :=
  match gs_balance_by_address x !! addr with
  | Some cur => Ok (set_br_balance (s64 (br_balance cur + initial)) cur, x)
  | None =>
      let* y := generate_random_slate fuel ids (gs_prng x) (gs_db x) in
      let '(slate_id, g, d) := y in
      let r := balance_record_owned (address_of_pts addr) (Asset (s64 initial) 0) slate_id in
      Ok (set_br_last_update timestamp r,
          GenesisState g (gs_balance_by_address x) (gs_delegates x) d)
  end.
Definition genesis_balance (fuel : nat) ids (timestamp total : Z) (item : list Z * Z)
    (x : genesis_state) : result genesis_state :=
  let* initial := initial_shares total item.2 in
  let* y := genesis_record_of fuel ids timestamp initial item.1 x in
  let cur := y.1 in let x := y.2 in
  let* supported := of_option assert_failure (db_slates (gs_db x) !! br_delegate_slate_id cur) in
  let* delegates := add_votes supported (s64 initial) (gs_delegates x) in
  let cur := set_br_genesis_info
               (Some (GenesisRecord (br_get_balance cur) (string_of_pts_address item.1))) cur in
  Ok (GenesisState (gs_prng x) (<[item.1 := cur]> (gs_balance_by_address x)) delegates
        (db_store_balance_record cur (gs_db x))).
Definition genesis_total d : result asset :=
  rfold (λ x total, ensure 0 <=? br_balance x.2 else assert_failure in
                    asset_add total (br_get_balance x.2)) (map_asc (db_balances d)) asset_default.

(** ** Assets.  [v_opaque 0] is the empty text *)
Definition genesis_base_asset (timestamp supply : Z) : asset_record :=
  AssetRecord 0 BTS_BLOCKCHAIN_SYMBOL BTS_BLOCKCHAIN_NAME BTS_BLOCKCHAIN_DESCRIPTION (v_opaque 0)
    (ac_id god) BTS_BLOCKCHAIN_PRECISION timestamp timestamp supply BTS_BLOCKCHAIN_MAX_SHARES 0.
Definition genesis_market_asset (timestamp asset_id : Z) (a : asset_config) : asset_record :=
  AssetRecord asset_id (gac_symbol a) (gac_name a) (gac_description a) (v_opaque 0)
    market_issued_asset (gac_precision a) timestamp timestamp 0 BTS_BLOCKCHAIN_MAX_SHARES 0.
Fixpoint genesis_market_assets (timestamp asset_id : Z) (assets : list asset_config) d
    : chain_database :=
  match assets with
  | [] => d
  | a :: assets =>
      genesis_market_assets timestamp (asset_id + 1) assets
        (db_store_asset_record (genesis_market_asset timestamp (asset_id + 1) a) d)
  end.

(** ** The whole state *)
Definition genesis_properties config d : chain_database :=
  let last_asset := Z.of_nat (length (gc_market_assets config)) in
  let d := db_set_property active_delegate_list_id (v_ids (next_round_active_delegates d)) d in
  let d := db_set_property last_asset_id_prop (v_int last_asset) d in
  let d := db_set_property last_proposal_id (v_int 0) d in
  let d := db_set_property last_account_id_prop (v_int (Z.of_nat (length (gc_names config)))) d in
  let d := db_set_property last_random_seed_id (v_hash 0) d in
  db_set_property confirmation_requirement (v_int (BTS_BLOCKCHAIN_NUM_DELEGATES * 2)) d.
Definition genesis_database (fuel : nat) (chain_id : digest_type) config d : result chain_database :=
  let timestamp := gc_timestamp config in
  let d := db_set_property chain_id_prop (v_hash chain_id) (set_db_chain_id chain_id d) in
  let* total := total_unscaled (gc_balances config) in
  ensure BTS_BLOCKCHAIN_NUM_DELEGATES <=?
         Z.of_nat (length (filter (λ name, is_delegate_config name = true) (gc_names config))) else assert_failure in
  let* x := genesis_accounts timestamp (gc_names config) (db_store_account_record god d) in
  let* y := rfold (genesis_balance fuel (gn_delegate_ids x) timestamp total) (gc_balances config)
              (GenesisState (create_rng chain_id) ∅ (gn_delegates x) (gn_db x)) in
  let d := store_delegates (gs_delegates y) (gs_db y) in
  let* supply := genesis_total d in
  let d := db_store_asset_record (genesis_base_asset timestamp (amount supply)) d in
  let d := genesis_market_assets timestamp 0 (gc_market_assets config) d in
  let d := genesis_properties config d in
  let* ok := sanity_check d in Ok d.

Definition genesis_fork : block_fork_data := BlockForkData ∅ true (Some true) None true true.
(** A chain that has an id is left alone; asking for the id only changes
    nothing. *)
Definition initialize_genesis (fuel : nat) config (config_id : digest_type) (chain_id_only : bool)
    (c : chain) : result (digest_type * chain) :=
  if negb (db_chain_id (c_db c) =? 0) && negb chain_id_only then
    let* ok := sanity_check (c_db c) in Ok (db_chain_id (c_db c), c)
  else if chain_id_only then Ok (config_id, c) else
  let* d := genesis_database fuel config_id config (c_db c) in
  Ok (config_id, set_c_forks (<[0 := genesis_fork]> (c_forks c)) (set_c_db d c)).
End genesis.
