(* ===== verification/Queries.v ===== *)
(** What the chain answers about its state ([chain_database.cpp]): blocks and
    forks, accounts, assets and balances, the listings of the order books, trades,
    feeds and burns, and the audit of the delegates' votes.

    None of them changes the state.  A loop over a table with an iterator is a
    walk over its keys, or a fold over its entries in key order; dereferencing a
    record that is not there is [undefined]. *)
From S2P Require Export Genesis.
From Stdlib Require OrderedTypeEx.
Import OrderedTypeEx.

(** The order of [std::string]. *)
#[export] Program Instance string_order : KeyOrder string :=
  {| key_lt a b := String.compare a b = Lt |}.
Next Obligation. intros a b. apply _. Defined.
Next Obligation.
  split.
  - intros a Ha. assert (String.compare a a = Eq) by by apply String_as_OT.cmp_eq. congruence.
  - intros a b c Hab Hbc. apply String_as_OT.cmp_lt in Hab, Hbc. apply String_as_OT.cmp_lt.
    by eapply String_as_OT.lt_trans.
Qed.
Next Obligation.
  intros a b. destruct (String.compare a b) eqn:E.
  - right; left. by apply String_as_OT.cmp_eq.
  - by left.
  - right; right. rewrite String.compare_antisym, E. done.
Qed.
#[export] Program Instance burn_key_order : KeyOrder burn_record_key :=
  {| key_lt a b := bk_account_id a < bk_account_id b ∨
       (bk_account_id a = bk_account_id b ∧ bk_transaction_id a < bk_transaction_id b) |}.
Next Obligation. intros a b. apply _. Defined.
Next Obligation. split; [intros a; unfold complement; lia|intros a b c; lia]. Qed.
Next Obligation.
  intros [a1 a2] [b1 b2]; simpl.
  destruct (Z.lt_total a1 b1) as [?|[->|?]]; [by left; left| |by right; right; left].
  destruct (Z.lt_total a2 b2) as [?|[->|?]]; [by left; right|by right; left|].
  right; right. by right.
Qed.

Record fork_record := ForkRecord {
  fkr_block_id : digest_type;
  fkr_signing_delegate : Z;
  fkr_transaction_count : Z;
  fkr_latency : Z;
  fkr_size : Z;
  fkr_timestamp : Z;
  fkr_is_valid : option bool;
  fkr_invalid_reason : option exn;
  fkr_is_current_fork : bool
}.
Record order_history_record := OrderHistoryRecord {
  ohr_transaction : market_transaction;
  ohr_timestamp : Z
}.

Section queries.
Context `{!Fc, !Crypto}.
Implicit Types (d : chain_database) (c : chain) (id : digest_type) (owner : address).

(** ** Blocks *)
Definition fetch_blocks_at_number (block_num : Z) c : list digest_type :=
  default [] (c_fork_numbers c !! block_num).
Definition get_block_id (block_num : Z) c : result digest_type :=
  of_option key_not_found (c_block_ids c !! block_num).
Definition get_block_record (block_num : Z) c : result (option block_record) :=
  let* id := get_block_id block_num c in Ok (c_block_records c !! id).
Definition block_header_at (block_num : Z) c : result signed_block_header :=
  let* r := get_block_record block_num c in
  let* r := of_option undefined r in Ok (db_header (bkr_digest_block r)).
Definition get_block_digest id c : result digest_block :=
  let* r := of_option key_not_found (c_block_records c !! id) in Ok (bkr_digest_block r).
Definition block_digest_at (block_num : Z) c : result digest_block :=
  let* id := of_option key_not_found (c_block_ids c !! block_num) in get_block_digest id c.
Definition block_at (block_num : Z) c : result full_block :=
  let* id := of_option key_not_found (c_block_ids c !! block_num) in
  of_option key_not_found (c_blocks c !! id).
Definition get_block_num id c : result Z :=
  if id =? 0 then Ok 0 else
  let* r := of_option key_not_found (c_block_records c !! id) in Ok (bh_block_num (bkr_header r)).
Definition get_transactions_for_block id c : result (list transaction_record) :=
  let* r := of_option key_not_found (c_block_records c !! id) in
  rfold (λ trx_id l,
    let* t := get_transaction trx_id true (Database (c_db c)) in
    let* t := of_option unknown_transaction t in Ok (l ++ [t]))
    (db_user_transaction_ids (bkr_digest_block r)) [].
Definition get_block_signee id c : result account_record :=
  let* r := of_option unknown_block (c_block_records c !! id) in
  let* key := signee false (db_header (bkr_digest_block r)) in
  let* r := get_account_record_by_address (address_of_key key) (Database (c_db c)) in
  require_delegate r.
Definition block_signee_at (block_num : Z) c : result account_record :=
  let* id := get_block_id block_num c in get_block_signee id c.
Definition fork_of id c : result fork_record :=
  let* data := of_option key_not_found (c_forks c !! id) in
  let* r := of_option key_not_found (c_block_records c !! id) in
  let* delegate := get_block_signee id c in
  Ok (ForkRecord id (ac_id delegate)
        (Z.of_nat (length (db_user_transaction_ids (bkr_digest_block r))))
        (bkr_latency r) (u32 (bkr_block_size r)) (bh_timestamp (bkr_header r))
        (bf_is_valid data) (bf_invalid_reason data) (bf_is_included data)).
(** The blocks after which the chain forked, by number. *)
Definition get_forks_list c : result (gmap Z (list fork_record)) :=
  rfold (λ x m,
    if (1 <? size (bf_next_blocks x.2))%nat then
      let* forks := rfold (λ id l, let* f := fork_of id c in Ok (l ++ [f])) (elements (bf_next_blocks x.2)) [] in
      let* n := get_block_num x.1 c in Ok (<[n := forks]> m)
    else Ok m) (map_asc (c_forks c)) ∅.
Definition get_delegate_slot_records (delegate_id start_block_num count : Z) c : result (list slot_record) :=
  ensure 0 <? count else assert_failure in
  let start := if start_block_num <? 0 then s64 (bh_block_num (c_head c) + start_block_num)
               else start_block_num in
  ensure 1 <=? start else assert_failure in
  let* h := block_header_at (u32 start) c in
  Ok (take (Z.to_nat count)
        (filter (λ r, bh_timestamp (sbh_header h) ≤ sl_start_time r ∧ sl_block_producer_id r = delegate_id)
           (map_asc (db_slots (c_db c))).*2)).

(** ** Accounts, assets and balances *)
Definition get_asset_id (symbol : string) d : result Z :=
  let* r := of_option assert_failure (get_asset_record_by_symbol symbol (Database d)) in Ok (ar_id r).
Definition is_valid_symbol (symbol : string) d : bool :=
  bool_decide (is_Some (get_asset_record_by_symbol symbol (Database d))).
Definition get_asset_symbol (asset_id : Z) d : result string :=
  let* r := of_option assert_failure (db_assets d !! asset_id) in Ok (ar_symbol r).
Definition get_genesis_timestamp d : result Z :=
  let* r := of_option undefined (db_assets d !! 0) in Ok (ar_registration_date r).
(** The callbacks of the scans thread a state. *)
Definition scan_assets {S} (f : asset_record → S → S) d (s : S) : S :=
  foldl (λ s x, f x.2 s) s (map_asc (db_assets d)).
Definition scan_balances {S} (f : balance_record → S → S) d (s : S) : S :=
  foldl (λ s x, f x.2 s) s (map_asc (db_balances d)).
Definition scan_accounts {S} (f : account_record → S → S) d (s : S) : S :=
  foldl (λ s x, f x.2 s) s (map_asc (db_accounts d)).

(** From the first balance whose address starts with the text, up to [limit]. *)
Definition list_balance (first : string) (limit : Z) (x : address * balance_record)
    (s : bool * list (address * balance_record)) : bool * list (address * balance_record) :=
  if limit <=? Z.of_nat (length s.2) then s
  else if s.1 || String.prefix first (string_of_address x.1) then (true, s.2 ++ [x]) else s.
Definition get_balances (first : string) (limit : Z) d : list (address * balance_record) :=
  (foldl (λ s x, list_balance first limit x s) (false, []) (map_asc (db_balances d))).2.
(** [atoi]: the digits up to the first other character; a value out of range is
    undefined. *)
Definition digit_of (a : ascii) : option Z :=
  let n := Z.of_nat (nat_of_ascii a) in
  if (48 <=? n) && (n <=? 57) then Some (n - 48) else None.
Fixpoint atoi_digits (s : string) (acc : Z) : Z :=
  match s with
  | String a s => match digit_of a with Some n => atoi_digits s (10 * acc + n) | None => acc end
  | EmptyString => acc
  end.
Definition name_is_position (s : string) : bool :=
  match s with String a _ => bool_decide (is_Some (digit_of a)) | EmptyString => false end.
(** The index lists names, or what follows a position; the records are
    dereferenced. *)
Definition index_from {V} (first : string) (index : gmap string V) : list (string * V) :=
  filter (λ x, ¬ key_lt x.1 first) (map_asc index).
Definition get_accounts (first : string) (limit : Z) d : result (list account_record) :=
  let* entries :=
    if name_is_position first then
      let n := atoi_digits first 0 in
      ensure n <? 2 ^ 31 else undefined in
      Ok (drop (Z.to_nat (n - 1)) (map_asc (db_account_index d)))
    else Ok (index_from first (db_account_index d)) in
  rfold (λ x l, let* r := of_option undefined (db_accounts d !! x.2) in Ok (l ++ [r]))
    (take (Z.to_nat limit) entries) [].
Definition get_assets (first_symbol : string) (limit : Z) d : result (list asset_record) :=
  rfold (λ x l, let* r := of_option undefined (db_assets d !! x.2) in Ok (l ++ [r]))
    (take (Z.to_nat limit) (index_from first_symbol (db_symbol_index d))) [].
(** The value of an entry of the vote index is the dummy [0]: what is looked up
    is the account [0] each time. *)
Definition get_delegate_records_by_vote (first count : Z) d : result (list account_record) :=
  rfold (λ _ l, let* r := of_option undefined (db_accounts d !! 0) in Ok (l ++ [r]))
    (take (Z.to_nat count) (drop (Z.to_nat first) (sorted_votes d))) [].
Definition get_balance_for_key owner d : list asset :=
  let totals := foldl (λ (m : gmap Z Z) x,
      if br_owner x.2 =? owner
      then <[br_asset_id x.2 := s64 (default 0 (m !! br_asset_id x.2) + br_balance x.2)]> m
      else m) ∅ (map_asc (db_balances d)) in
  (λ x, Asset x.2 x.1) <$> map_asc totals.
Definition unclaimed_genesis d : result asset :=
  let* genesis_date := get_genesis_timestamp d in
  rfold (λ x total,
    if br_last_update x.2 <=? genesis_date then asset_add total (br_get_balance x.2) else Ok total)
    (map_asc (db_balances d)) (Asset 0 0).

(** ** The audit of the votes: every delegate whose indexed votes are not both its
    stored votes and the balances that vote for it with its pay *)
Record vote_discrepancy := VoteDiscrepancy {
  vd_calculated : Z;
  vd_indexed : Z;
  vd_stored : Z
}.
Definition count_votes (supported : list Z) (amount : Z) (m : gmap Z Z) : gmap Z Z :=
  foldl (λ m delegate, <[delegate := s64 (default 0 (m !! delegate) + amount)]> m) m supported.
Definition count_balance d (r : balance_record) (m : gmap Z Z) : result (gmap Z Z) :=
  if br_delegate_slate_id r =? 0 then Ok m else
  if br_asset_id r =? 0 then
    let* slate := of_option assert_failure (get_delegate_slate (br_delegate_slate_id r) (Database d)) in
    Ok (count_votes slate (br_balance r) m)
  else Ok m.
Definition audit_votes d (entry : Z * Z) (x : gmap Z Z * gmap string vote_discrepancy)
    : result (gmap Z Z * gmap string vote_discrepancy) :=
  let* r := of_option assert_failure (db_accounts d !! entry.2) in
  let* pay := ac_delegate_pay_balance r in
  let calculated := <[ac_id r := s64 (default 0 (x.1 !! ac_id r) + pay)]> x.1 in
  let* votes := ac_net_votes r in
  (* operator[] on the id of the entry creates it *)
  let mine := default 0 (calculated !! entry.2) in
  let calculated := <[entry.2 := mine]> calculated in
  if negb (entry.1 =? votes) || negb (entry.1 =? mine)
  then Ok (calculated, <[ac_name r := VoteDiscrepancy mine entry.1 votes]> x.2)
  else Ok (calculated, x.2).
Definition find_delegate_vote_discrepancies d : result (gmap string vote_discrepancy) :=
  let* calculated := rfold (λ x m, count_balance d x.2 m) (map_asc (db_balances d)) ∅ in
  let* x := rfold (audit_votes d) (sorted_votes d) (calculated, ∅) in Ok x.2.

(** ** The order books

    A walk from an iterator while the keys are of the pair: [n] orders are listed
    already, and reaching [limit] ends it, so that a limit of 0 is none. *)
Definition in_pair (quote base : Z) (k : market_index_key) : bool :=
  (quote_asset_id (order_price k) =? quote) && (base_asset_id (order_price k) =? base).
Fixpoint walk_pair {V} (fuel : nat) (step : market_index_key → gmap market_index_key V → option market_index_key)
    (quote base limit : Z) (n : Z) (table : gmap market_index_key V) (it : option market_index_key)
    : list (market_index_key * V) :=
  match fuel, it with
  | S fuel, Some k =>
      match table !! k with
      | Some v =>
          if in_pair quote base k
          then (k, v) :: (if n + 1 =? limit then []
                          else walk_pair fuel step quote base limit (n + 1) table (step k table))
          else []
      | None => []
      end
  | _, _ => []
  end.
Definition bid_of (x : market_index_key * order_record) : market_order :=
  MarketOrder bid_order x.1 x.2 None None None.
Definition ask_of (x : market_index_key * order_record) : market_order :=
  MarketOrder ask_order x.1 x.2 None None None.
Definition short_of (x : market_index_key * order_record) : market_order :=
  MarketOrder short_order x.1 x.2 None None None.
Definition listed_short (x : market_index_key * order_record) : market_order :=
  MarketOrder short_order x.1 x.2 (Some (or_balance x.2)) (Some (order_price x.1)) None.
Definition cover_of (x : market_index_key * collateral_record) : market_order :=
  MarketOrder cover_order x.1 (order_record_of (cr_payoff_balance x.2))
    (Some (cr_collateral_balance x.2)) (Some (cr_interest_rate x.2)) (Some (cr_expiration x.2)).
Definition get_market_bid (key : market_index_key) d : option market_order :=
  (λ o, bid_of (key, o)) <$> db_bids d !! key.
Definition get_market_ask (key : market_index_key) d : option market_order :=
  (λ o, ask_of (key, o)) <$> db_asks d !! key.
Definition get_market_short (key : market_index_key) d : option market_order :=
  (λ o, short_of (key, o)) <$> db_shorts d !! key.

(** Bids and shorts are sorted best last: the walk starts before the first key of
    the next pair and goes back. *)
Definition next_pair (quote base : Z) : result market_index_key :=
  let* p := if s32 (base + 1) =? quote then price_zero (s32 (quote + 1)) 0
            else price_zero quote (s32 (base + 1)) in
  Ok (MarketIndexKey p 0).
Definition walk_back {V} (quote base limit : Z) (table : gmap market_index_key V)
    : result (list (market_index_key * V)) :=
  let* next := next_pair quote base in
  Ok (walk_pair (size table) it_prev quote base limit 0 table (before_pair next table)).
Definition walk_on {V} (quote base limit : Z) (table : gmap market_index_key V)
    : result (list (market_index_key * V)) :=
  let* p := price_zero quote base in
  Ok (walk_pair (size table) it_next quote base limit 0 table (it_lower_bound (MarketIndexKey p 0) table)).
Definition get_market_bids (quote_symbol base_symbol : string) (limit : Z) d : result (list market_order) :=
  let* quote := get_asset_id quote_symbol d in
  let* base := get_asset_id base_symbol d in
  ensure base <? quote else invalid_market in
  let* l := walk_back quote base limit (db_bids d) in Ok (bid_of <$> l).
Definition get_market_asks (quote_symbol base_symbol : string) (limit : Z) d : result (list market_order) :=
  let* quote := get_asset_id quote_symbol d in
  let* base := get_asset_id base_symbol d in
  ensure base <? quote else invalid_market in
  let* l := walk_on quote base limit (db_asks d) in Ok (ask_of <$> l).
Definition get_market_shorts (quote_symbol : string) (limit : Z) d : result (list market_order) :=
  let* quote := get_asset_id quote_symbol d in
  ensure 0 <? quote else invalid_market in
  let* l := walk_back quote 0 limit (db_shorts d) in Ok (listed_short <$> l).
Definition get_market_covers (quote_symbol : string) (limit : Z) d : result (list market_order) :=
  let* quote := get_asset_id quote_symbol d in
  ensure 0 <? quote else invalid_market in
  let* l := walk_on quote 0 limit (db_collateral d) in Ok (cover_of <$> l).
Definition get_asset_collateral (symbol : string) d : result Z :=
  let* quote := get_asset_id symbol d in
  let* l := walk_on quote 0 0 (db_collateral d) in
  Ok (foldl (λ total x, s64 (total + cr_collateral_balance x.2)) 0 l).
(** The loops that collect orders stop at the limit. *)
Definition collect_orders (keep : market_order → bool) (limit : Z) (l orders : list market_order)
    : list market_order :=
  foldl (λ orders o, if limit <=? Z.of_nat (length orders) then orders
                     else if keep o then orders ++ [o] else orders) orders l.
Definition wanted (type t : order_type_enum) : bool :=
  bool_decide (type = null_order ∨ type = t).
Definition get_market_orders (keep : market_order → bool) (limit : Z) (type : order_type_enum) d
    : list market_order :=
  if limit =? 0 then [] else
  let add t l orders := if wanted type t then collect_orders keep limit l orders else orders in
  add cover_order (cover_of <$> map_asc (db_collateral d))
    (add short_order (short_of <$> map_asc (db_shorts d))
      (add bid_order (bid_of <$> map_asc (db_bids d))
        (add ask_order (ask_of <$> map_asc (db_asks d)) []))).
Definition get_market_pairs d : list (Z * Z) := (map_asc (db_market_statuses d)).*1.

(** A walk over consecutive keys of a table. *)
Fixpoint walk_while {K V} `{Countable K, !KeyOrder K} (fuel : nat) (within : K → bool) (table : gmap K V) (it : option K)
    : list (K * V) :=
  match fuel, it with
  | S fuel, Some k =>
      match table !! k with
      | Some v => if within k then (k, v) :: walk_while fuel within table (it_next k table) else []
      | None => []
      end
  | _, _ => []
  end.
(** ** Trades *)
Definition get_market_transactions (block_num : Z) d : list market_transaction :=
  default [] (db_market_transactions d !! block_num).
Definition interesting (quote base : Z) owner (t : market_transaction) : bool :=
  (base_asset_id (mt_ask_price t) =? base) && (quote_asset_id (mt_ask_price t) =? quote)
  && ((owner =? 0) || (owner =? mt_bid_owner t) || (owner =? mt_ask_owner t)).
(** The trades of the last block before [current] that has any, and its number. *)
Definition prior_trades quote base owner (current : Z) d : Z * list market_transaction :=
  let trades := db_market_transactions d in
  let it := if current =? head_num d then it_last trades else it_lower_bound current trades in
  match it ≫= (λ k, it_prev k trades) with
  | Some k => (k, filter (λ t, interesting quote base owner t = true) (get_market_transactions k d))
  | None => (1, [])
  end.
(** The first loop skips whole blocks; the number is decremented before anything
    else is tested. *)
Fixpoint skip_blocks (fuel : nat) quote base owner (current skip_count : Z) (orders : list market_transaction) d
    : result (Z * Z * list market_transaction) :=
  match fuel with
  | O => Err undefined
  | S fuel =>
      if 0 <? skip_count then
        let current := u32 (current - 1) in
        if (0 <? current) && (Z.of_nat (length orders) <=? skip_count) then
          let prior := prior_trades quote base owner current d in
          skip_blocks fuel quote base owner prior.1 (u32 (skip_count - Z.of_nat (length orders))) prior.2 d
        else Ok (current, skip_count, orders)
      else Ok (current, skip_count, orders)
  end.
Fixpoint add_history (limit : Z) (stamp : Z) (trades : list market_transaction) (results : list order_history_record)
    : list order_history_record * bool :=
  match trades with
  | [] => (results, false)
  | t :: trades =>
      if Z.of_nat (length results) <? limit
      then add_history limit stamp trades (results ++ [OrderHistoryRecord t stamp])
      else (results, true)
  end.
(** The second compares the limit with the trades of the first block. *)
Fixpoint more_history (fuel : nat) quote base owner (limit current : Z) (orders : nat)
    (results : list order_history_record) c : result (list order_history_record) :=
  match fuel with
  | O => Err undefined
  | S fuel =>
      let current := u32 (current - 1) in
      if (1 <=? current) && (Z.of_nat orders <? limit) then
        let prior := prior_trades quote base owner current (c_db c) in
        let* h := block_header_at prior.1 c in
        let x := add_history limit (bh_timestamp (sbh_header h)) prior.2 results in
        if x.2 then Ok x.1
        else more_history fuel quote base owner limit prior.1 orders x.1 c
      else Ok results
  end.
Definition market_order_history (quote base skip_count limit : Z) owner c : result (list order_history_record) :=
  ensure limit <=? 10000 else assert_failure in
  let head := bh_block_num (c_head c) in
  ensure 0 <? head else assert_failure in
  let first := prior_trades quote base owner head (c_db c) in
  let* skipped := skip_blocks (S (Z.to_nat head)) quote base owner first.1 skip_count first.2 (c_db c) in
  let '(current, skip, orders) := skipped in
  if (current =? 0) && (Z.of_nat (length orders) <=? skip) then Ok [] else
  let orders := if 0 <? skip then drop (Z.to_nat skip) orders else orders in
  let* h := block_header_at current c in
  let results := (λ t, OrderHistoryRecord t (bh_timestamp (sbh_header h))) <$> orders in
  more_history (S (Z.to_nat head)) quote base owner limit current (length orders) results c.
(** The entries [get_market_price_history] reads, from the time to the end of the
    duration; it turns the prices of each into [double]s. *)
Definition price_history (quote base start_time end_time : Z) (granularity : time_granularity_enum) d
    : result (list (market_history_key * market_history_record)) :=
  ensure bool_decide (is_Some (db_assets d !! base)) && bool_decide (is_Some (db_assets d !! quote))
    else assert_failure in
  let start := MarketHistoryKey quote base granularity start_time in
  Ok (walk_while (size (db_market_history d)) (λ k,
        (mhk_quote_id k =? quote) && (mhk_base_id k =? base)
        && bool_decide (mhk_granularity k = granularity) && (mhk_timestamp k <=? end_time))
        (db_market_history d) (it_lower_bound start (db_market_history d))).

(** ** Feeds and burns *)
Definition get_feeds_for_asset (asset_id base_id : Z) d : result (list feed_record) :=
  rfold (λ x l,
    match fr_value x.2 with
    | v_price p => Ok (if base_asset_id p =? base_id then l ++ [x.2] else l)
    | _ => Err bad_cast
    end) (feeds_of asset_id d) [].
Definition get_feeds_from_delegate (delegate_id : Z) d : result (list feed_record) :=
  let* assets := get_assets EmptyString (u32 (-1)) d in
  Ok (omap (λ a, db_feeds d !! FeedIndex (ar_id a) delegate_id) assets).
(** Burns for an account are kept under its id, those against it under the
    opposite id. *)
Definition fetch_burn_records (account_name : string) d : result (list (burn_record_key * burn_record_value)) :=
  let* r := of_option assert_failure (get_account_record_by_name account_name (Database d)) in
  let burns := db_burns d in
  let from n := it_lower_bound (BurnRecordKey n 0) burns in
  Ok (walk_while (size burns) (λ k, bk_account_id k =? ac_id r) burns (from (ac_id r)) ++
      walk_while (size burns) (λ k, Z.abs (bk_account_id k) =? ac_id r) burns (from (s64 (- ac_id r)))).
End queries.
