(* ===== verification/ExtendedKeys.v ===== *)
(** Extended keys and the memos of deposits ([extended_address.cpp],
    [withdraw_types.cpp]).

    A deposit to an account goes to a key only the recipient can derive: the
    sender draws a one-time key, shares a secret with the recipient's public key,
    and deposits to the child of that public key the secret names.  The recipient,
    who finds the same secret from the one-time public key, derives the child of
    the private key, which owns the deposit, and reads the memo with the secret.

    The elliptic curve, AES and the binary formats belong to the [fc] library:
    they are the fields of [Ecc].  A private key is the integer of its secret, and
    0 is [fc::ecc::private_key()], which has no key. *)
From S2P Require Export Crypto.

Fixpoint le_bytes (n : nat) (z : Z) : list Z :=
  match n with O => [] | S n' => z mod 256 :: le_bytes n' (z / 256) end.

(** ** Memos ([withdraw_types.hpp]) *)
Definition BTS_BLOCKCHAIN_MAX_MEMO_SIZE : nat := 19.
Inductive memo_flags_enum := from_memo | to_memo.
#[export] Instance memo_flags_enum_eq_dec : EqDecision memo_flags_enum.
Proof. solve_decision. Defined.
Record memo_data := MemoData {
  md_from : public_key_type;
  md_from_signature : Z;
  md_message : list Z;
  md_memo_flags : memo_flags_enum
}.
Record memo_status := MemoStatus {
  ms_memo : memo_data;
  ms_has_valid_signature : bool;
  ms_owner_private_key : Z
}.

Record extended_public_key := ExtendedPublicKey {
  xp_pub_key : public_key_type;
  xp_chain_code : digest_type
}.
Record extended_private_key := ExtendedPrivateKey {
  xs_priv_key : Z;
  xs_chain_code : digest_type
}.

Class Ecc := {
  get_public_key : Z → public_key_type;
  (* private_key::generate_from_seed( seed, offset ) and public_key::add( offset ) *)
  generate_from_seed : digest_type → digest_type → Z;
  public_key_add : public_key_type → digest_type → result public_key_type;
  get_shared_secret : Z → public_key_type → result digest_type;
  aes_encrypt : digest_type → list Z → list Z;
  aes_decrypt : digest_type → list Z → result (list Z);
  (* fc::raw *)
  pack_memo_data : memo_data → list Z;
  unpack_memo_data : list Z → result memo_data;
  pack_private_key : Z → list Z;
  unpack_private_key : list Z → result Z;
  pack_extended_private_key : extended_private_key → list Z;
  unpack_extended_private_key : list Z → result extended_private_key
}.

(** What the code relies on: adding an offset to a private key adds its point to
    the public key; two parties share the same secret; a decrypted text is the
    text that was encrypted, and an encrypted text is never empty. *)
Class EccLaws (E : Ecc) : Prop := {
  generate_public k offset : k ≠ 0 → generate_from_seed k offset ≠ 0 →
    public_key_add (get_public_key k) offset = Ok (get_public_key (generate_from_seed k offset));
  shared_secret_agrees a b : a ≠ 0 → b ≠ 0 → ∃ s,
    get_shared_secret a (get_public_key b) = Ok s ∧ get_shared_secret b (get_public_key a) = Ok s;
  aes_roundtrip k m : aes_decrypt k (aes_encrypt k m) = Ok m;
  aes_encrypt_padded k m : aes_encrypt k m ≠ [];
  memo_data_roundtrip m : unpack_memo_data (pack_memo_data m) = Ok m;
  private_key_roundtrip k : unpack_private_key (pack_private_key k) = Ok k;
  extended_private_key_roundtrip k :
    unpack_extended_private_key (pack_extended_private_key k) = Ok k
}.

Section extended.
Context `{!Crypto, !Ecc}.

(** ** Extended keys *)
Definition ikey_left (ikey : digest_type) : digest_type := be_value (take 32 (be_bytes 64 ikey)).
Definition ikey_right (ikey : digest_type) : digest_type := be_value (drop 32 (be_bytes 64 ikey)).
(** The two overloads of [child] pack an index of 4 bytes or a hash. *)
Definition pack_index (child_idx : Z) : list Z := le_bytes 4 (u32 child_idx).
Definition pub_child (child_idx : list Z) (k : extended_public_key) : result extended_public_key :=
  let ikey := sha512 (be_bytes 33 (xp_pub_key k) ++ child_idx ++ be_bytes 32 (xp_chain_code k)) in
  let* p := public_key_add (xp_pub_key k) (ikey_left ikey) in
  Ok (ExtendedPublicKey p (ikey_right ikey)).

Inductive derivation_type := public_derivation | private_derivation.
Definition priv_child (child_idx : list Z) (derivation : derivation_type) (k : extended_private_key)
    : extended_private_key :=
  let head := match derivation with
              | public_derivation => be_bytes 33 (get_public_key (xs_priv_key k))
              | private_derivation => 0 :: be_bytes 32 (xs_priv_key k)
              end in
  let ikey := sha512 (head ++ child_idx ++ be_bytes 32 (xs_chain_code k)) in
  ExtendedPrivateKey (generate_from_seed (xs_priv_key k) (ikey_left ikey)) (ikey_right ikey).
(** [extended_private_key( private_key )], [operator extended_public_key]. *)
Definition extended_of_private (k : Z) : extended_private_key := ExtendedPrivateKey k 0.
Definition extended_public (k : extended_private_key) : extended_public_key :=
  ExtendedPublicKey (get_public_key (xs_priv_key k)) (xs_chain_code k).
Definition extended_of_seed (seed : digest_type) : extended_private_key :=
  ExtendedPrivateKey (be_value (take 32 (be_bytes 64 seed))) 0.

(** ** Messages: a fixed number of bytes, cut off at the first zero *)
Definition message_new : list Z := replicate BTS_BLOCKCHAIN_MAX_MEMO_SIZE 0.
Definition set_message (message_str : string) (message : list Z) : result (list Z) :=
  let s := string_bytes message_str in
  ensure (length s <=? BTS_BLOCKCHAIN_MAX_MEMO_SIZE)%nat else assert_failure in
  Ok (s ++ drop (length s) message).
Fixpoint c_str (bytes : list Z) : string :=
  match bytes with
  | [] => EmptyString
  | b :: bytes' => if b =? 0 then EmptyString else String (ascii_of_nat (Z.to_nat b)) (c_str bytes')
  end.
Definition get_message (m : memo_data) : string := c_str (md_message m).

(** ** Memos of a deposit *)
Definition hash_word0 (h : digest_type) : Z := le_value (take 8 (be_bytes 64 h)).
Definition decrypt_with_secret (secret : digest_type) (memo : option titan_memo) : result memo_data :=
  let* memo := of_option assert_failure memo in
  let* plain := aes_decrypt secret (tm_encrypted_memo_data memo) in
  unpack_memo_data plain.
Definition secret_idx (secret : digest_type) : list Z := be_bytes 32 (sha256 (be_bytes 64 secret)).

Definition decrypt_memo_data (receiver_key : Z) (owner : address) (memo : option titan_memo)
    : result (option memo_status) :=
  let* m := of_option assert_failure memo in
  let* secret := get_shared_secret receiver_key (tm_one_time_key m) in
  let secret_private_key :=
    xs_priv_key (priv_child (secret_idx secret) public_derivation (extended_of_private receiver_key)) in
  if negb (owner =? address_of_key (get_public_key secret_private_key)) then Ok None else
  let* data := decrypt_with_secret secret memo in
  if bool_decide (md_memo_flags data = from_memo)
     && negb ((md_from data =? 0) && (md_from_signature data =? 0)) then
    let* check_secret := get_shared_secret secret_private_key (md_from data) in
    Ok (Some (MemoStatus data (hash_word0 check_secret =? md_from_signature data) secret_private_key))
  else Ok (Some (MemoStatus data true secret_private_key)).

Definition encrypt_memo_data (one_time_private_key : Z) (to_public_key : public_key_type)
    (from_private_key : Z) (memo_message : string) (memo_pub_key : public_key_type)
    (memo_type : memo_flags_enum) : result withdraw_data :=
  let* secret := get_shared_secret one_time_private_key to_public_key in
  let* secret_ext := pub_child (secret_idx secret) (ExtendedPublicKey to_public_key 0) in
  let secret_public_key := xp_pub_key secret_ext in
  let* check_secret :=
    if negb (from_private_key =? 0) then get_shared_secret from_private_key secret_public_key
    else Ok 0 in
  let* message := set_message memo_message message_new in
  let memo_content := MemoData memo_pub_key (hash_word0 check_secret) message memo_type in
  Ok (withdraw_with_signature (address_of_key secret_public_key)
        (Some (TitanMemo (get_public_key one_time_private_key)
                 (aes_encrypt secret (pack_memo_data memo_content))))).
End extended.

(** ** A reference instance

    Public keys are the secrets themselves, and a secret is shared by
    multiplication: enough to run the definitions on. *)
#[export] Instance ecc_reference : Ecc := {|
  get_public_key k := k;
  generate_from_seed k offset := k + offset;
  public_key_add p offset := Ok (p + offset);
  get_shared_secret a b := if (a =? 0) || (b =? 0) then Err assert_failure else Ok (a * b);
  aes_encrypt k m := k :: m;
  aes_decrypt k m := match m with b :: m' => if b =? k then Ok m' else Err assert_failure
                                | [] => Err assert_failure end;
  pack_memo_data m := md_from m :: md_from_signature m
    :: match md_memo_flags m with from_memo => 0 | to_memo => 1 end :: md_message m;
  unpack_memo_data l := match l with
    | a :: b :: f :: l' => Ok (MemoData a b l' (if f =? 0 then from_memo else to_memo))
    | _ => Err assert_failure end;
  pack_private_key k := [k];
  unpack_private_key l := match l with [k] => Ok k | _ => Err assert_failure end;
  pack_extended_private_key k := [xs_priv_key k; xs_chain_code k];
  unpack_extended_private_key l := match l with [k; c] => Ok (ExtendedPrivateKey k c)
                                              | _ => Err assert_failure end
|}.
#[export] Instance ecc_reference_laws : EccLaws ecc_reference.
Proof.
  split; cbn [get_public_key generate_from_seed public_key_add get_shared_secret aes_encrypt
    aes_decrypt pack_memo_data unpack_memo_data pack_private_key unpack_private_key
    pack_extended_private_key unpack_extended_private_key ecc_reference].
  - done.
  - intros a b Ha Hb. exists (a * b). rewrite !(proj2 (Z.eqb_neq _ _)) by done.
    cbn. split; [done|by rewrite Z.mul_comm].
  - intros k m. by rewrite Z.eqb_refl.
  - done.
  - by intros [? ? ? []].
  - done.
  - by intros [].
Qed.

(** ** Facts *)

(** A text without a zero byte. *)
Fixpoint no_zero (s : string) : bool :=
  match s with
  | EmptyString => true
  | String c s' => negb (nat_of_ascii c =? 0)%nat && no_zero s'
  end.

Lemma c_str_bytes s n : no_zero s = true → c_str (string_bytes s ++ replicate n 0) = s.
Proof.
  induction s as [|c s IH]; cbn [no_zero string_bytes app c_str]; [by destruct n|].
  intros [Hc Hs]%andb_true_iff. apply negb_true_iff, Nat.eqb_neq in Hc.
  rewrite (proj2 (Z.eqb_neq _ _)) by lia. rewrite IH by done.
  by rewrite Nat2Z.id, ascii_nat_embedding.
Qed.

Lemma string_bytes_length s : length (string_bytes s) = String.length s.
Proof. induction s as [|c s IH]; simpl; [done|by rewrite IH]. Qed.

(** A message that fits is read back. *)
Lemma set_message_read s : no_zero s = true → (String.length s ≤ BTS_BLOCKCHAIN_MAX_MEMO_SIZE)%nat →
  ∃ l, set_message s message_new = Ok l ∧ c_str l = s.
Proof.
  intros Hs Hl. unfold set_message, message_new. rewrite string_bytes_length.
  rewrite (proj2 (Nat.leb_le _ _)) by done. eexists; split; [done|].
  rewrite drop_replicate. by apply c_str_bytes.
Qed.

Section facts.
Context `{!Crypto, !Ecc, !EccLaws _}.

(** The key a deposit from [one_time] to [receiver] goes to. *)
Definition deposit_key (secret : digest_type) (receiver : Z) : Z :=
  xs_priv_key (priv_child (secret_idx secret) public_derivation (extended_of_private receiver)).

(** The public key of a publicly derived child is the child of the public key. *)
Lemma child_public idx k : xs_priv_key k ≠ 0 → xs_priv_key (priv_child idx public_derivation k) ≠ 0 →
  pub_child idx (extended_public k) = Ok (extended_public (priv_child idx public_derivation k)).
Proof.
  intros Hk Hc. unfold pub_child, extended_public, priv_child in *.
  cbn [xs_priv_key xs_chain_code xp_pub_key xp_chain_code] in *.
  rewrite (generate_public _ _ Hk Hc). reflexivity.
Qed.

(** The public key the sender derives for the deposit. *)
Lemma deposit_public secret receiver : receiver ≠ 0 → deposit_key secret receiver ≠ 0 →
  ∃ c, pub_child (secret_idx secret) (ExtendedPublicKey (get_public_key receiver) 0)
       = Ok (ExtendedPublicKey (get_public_key (deposit_key secret receiver)) c).
Proof.
  intros Hr Hd. eexists. exact (child_public (secret_idx secret) (extended_of_private receiver) Hr Hd).
Qed.

(** The signature of a memo is valid when it comes from whom it says, from nobody,
    or is marked as a note of the sender to himself. *)
Definition memo_signed (from : Z) (memo_pub_key : public_key_type) (memo_type : memo_flags_enum) : Prop :=
  memo_type = to_memo ∨ (from = 0 ∧ memo_pub_key = 0) ∨
  (from ≠ 0 ∧ memo_pub_key = get_public_key from).

(** The secret the sender signs with is the one the receiver checks with. *)
Lemma signing_secret from memo_pub_key memo_type derived :
  derived ≠ 0 → memo_signed from memo_pub_key memo_type →
  ∃ c, (if negb (from =? 0) then get_shared_secret from (get_public_key derived) else Ok 0) = Ok c ∧
    (memo_type = to_memo ∨ (memo_pub_key = 0 ∧ hash_word0 c = 0) ∨
     get_shared_secret derived memo_pub_key = Ok c).
Proof.
  intros Hd Hsig. destruct (decide (from = 0)) as [->|Hf]; cbn [Z.eqb negb].
  - exists 0. split; [done|]. destruct Hsig as [|[[_ ->]|[Hf _]]]; [auto|auto|done].
  - rewrite (proj2 (Z.eqb_neq _ _) Hf). cbn [negb].
    destruct (shared_secret_agrees from _ Hf Hd) as (c & Hc1 & Hc2). exists c. split; [done|].
    destruct Hsig as [|[[-> _]|[_ ->]]]; [auto|done|auto].
Qed.
End facts.

(** C24 (memo_delivered). A deposit made to the public key of a receiver goes to an address the
    receiver can spend from, and only the receiver's private key and the one-time
    key on the chain are needed to derive its key; the memo is decrypted to the
    text, the sender and the flags that were put in, and its signature is judged
    valid if the sender signed with the key the memo names. *)
Theorem memo_delivered `{!Crypto, !Ecc, !EccLaws _} receiver one_time from memo_pub_key memo_type text s :
  receiver ≠ 0 → one_time ≠ 0 →
  get_shared_secret receiver (get_public_key one_time) = Ok s → deposit_key s receiver ≠ 0 →
  no_zero text = true → (String.length text ≤ BTS_BLOCKCHAIN_MAX_MEMO_SIZE)%nat →
  memo_signed from memo_pub_key memo_type →
  ∃ memo data,
    encrypt_memo_data one_time (get_public_key receiver) from text memo_pub_key memo_type
      = Ok (withdraw_with_signature (address_of_key (get_public_key (deposit_key s receiver))) (Some memo)) ∧
    decrypt_memo_data receiver (address_of_key (get_public_key (deposit_key s receiver))) (Some memo)
      = Ok (Some (MemoStatus data true (deposit_key s receiver))) ∧
    get_message data = text ∧ md_from data = memo_pub_key ∧ md_memo_flags data = memo_type.
Proof.
  intros Hr Ho Hs Hd Hz Hl Hsig.
  destruct (shared_secret_agrees receiver one_time Hr Ho) as (s' & Hs1 & Hs2).
  rewrite Hs in Hs1. injection Hs1 as <-.
  destruct (set_message_read text Hz Hl) as (msg & Hmsg & Hread).
  destruct (signing_secret from memo_pub_key memo_type _ Hd Hsig) as (c & Hc & Hvalid).
  eexists _, (MemoData memo_pub_key (hash_word0 c) msg memo_type). split; [|split; [|done]].
  - unfold encrypt_memo_data. rewrite Hs2. cbn [rbind].
    destruct (deposit_public s receiver Hr Hd) as [code ->]. cbn [rbind xp_pub_key]. rewrite Hc. cbn [rbind].
    rewrite Hmsg. reflexivity.
  - unfold decrypt_memo_data, decrypt_with_secret. cbn [of_option rbind tm_one_time_key tm_encrypted_memo_data].
    rewrite Hs. cbn [rbind]. fold (deposit_key s receiver).
    rewrite Z.eqb_refl. cbn [negb]. rewrite aes_roundtrip. cbn [rbind]. rewrite memo_data_roundtrip.
    cbn [rbind md_from md_from_signature md_memo_flags].
    destruct Hvalid as [->|[[-> ->]|Hv]]; [done|by rewrite andb_false_r|].
    rewrite Hv. cbn [rbind]. rewrite Z.eqb_refl. by destruct (_ && _).
Qed.

Lemma be_value_nonneg l : Forall is_byte l → 0 ≤ be_value l.
Proof.
  intros Hl. unfold be_value. assert (∀ a, 0 ≤ a → 0 ≤ foldl (λ a b, a * 256 + b) a l) as H; [|by apply H].
  induction Hl as [|b l Hb Hl IH]; intros a Ha; simpl; [done|]. apply IH. unfold is_byte in Hb. lia.
Qed.

Lemma ikey_left_nonneg h : 0 ≤ ikey_left h.
Proof. apply be_value_nonneg, Forall_take, be_bytes_bytes. Qed.

(** In the reference instance a deposit key is greater than the receiver's. *)
Lemma deposit_key_reference s receiver : 0 < receiver → deposit_key s receiver ≠ 0.
Proof.
  intros Hr. assert (∀ h, generate_from_seed receiver (ikey_left h) ≠ 0) as H; [|apply H].
  intros h. pose proof (ikey_left_nonneg h) as Hh. revert Hh. generalize (ikey_left h).
  intros z Hz. cbn [generate_from_seed ecc_reference]. lia.
Qed.

Lemma memo_delivered_witness : ∃ memo data,
  encrypt_memo_data 5 (get_public_key 7) 11 "rent" 11 from_memo
    = Ok (withdraw_with_signature (address_of_key (get_public_key (deposit_key 35 7))) (Some memo)) ∧
  decrypt_memo_data 7 (address_of_key (get_public_key (deposit_key 35 7))) (Some memo)
    = Ok (Some (MemoStatus data true (deposit_key 35 7))) ∧
  get_message data = "rent" ∧ md_from data = 11 ∧ md_memo_flags data = from_memo.
Proof.
  refine (memo_delivered 7 5 11 11 from_memo "rent" 35 _ _ _ _ _ _ _); [discriminate|discriminate|..].
  - reflexivity.
  - by apply deposit_key_reference.
  - reflexivity.
  - unfold BTS_BLOCKCHAIN_MAX_MEMO_SIZE. cbn [String.length]. lia.
  - right. right. split; [discriminate|reflexivity].
Defined.
