(* ===== verification/Stateful.v ===== *)
(** Operations that change a state and may throw.

    An exception keeps what was done before it, so an operation of type
    [stateful S A] takes the state to the result and to the state it leaves, also
    when it throws.  The wallet's database, the wallet and the builder of
    transactions are such states; [zoom] runs an operation on a part of the state. *)
From S2P Require Export Prelude.

Definition stateful (S A : Type) : Type := S → result A * S.

Section stateful.
Context {S : Type}.
Definition sret {A} (a : A) : stateful S A := λ s, (Ok a, s).
Definition sbind {A B} (m : stateful S A) (k : A → stateful S B) : stateful S B :=
  λ s, match m s with (Ok a, s') => k a s' | (Err e, s') => (Err e, s') end.
Definition sgets {A} (f : S → A) : stateful S A := λ s, (Ok (f s), s).
Definition smodify (f : S → S) : stateful S () := λ s, (Ok (), f s).
Definition slift {A} (r : S → result A) : stateful S A := λ s, (r s, s).
Definition sthrow {A} (e : exn) : stateful S A := λ s, (Err e, s).
Definition sassert (b : S → bool) : stateful S () :=
  λ s, (if b s then Ok () else Err assert_failure, s).
(** [try { m } catch( ... ) { }] *)
Definition stry (m : stateful S ()) : stateful S () := λ s, (Ok (), (m s).2).
Fixpoint seach {A} (f : A → stateful S ()) (l : list A) : stateful S () :=
  match l with [] => sret () | x :: l' => sbind (f x) (λ _, seach f l') end.
(** A loop that carries a value. *)
Fixpoint sfold {A B} (f : A → B → stateful S B) (l : list A) (b : B) : stateful S B :=
  match l with [] => sret b | x :: l' => sbind (f x b) (λ b, sfold f l' b) end.
End stateful.
Definition zoom {S T A} (get : T → S) (put : S → T → T) (m : stateful S A) : stateful T A :=
  λ t, let '(r, s) := m (get t) in (r, put s t).

Notation "'do!' x ':=' m 'in' k" := (sbind m (λ x, k))
  (at level 10, x pattern, m at level 100, k at level 200) : larkx_scope.
