(* ===== verification/WalletDb.v ===== *)
(** The database of the wallet ([wallet_db.cpp], [wallet_records.cpp],
    [wallet_records.hpp]).

    The wallet keeps its records on disk under an index of their own, each with
    its type, and everything it looks up in memory: the records by their keys, and
    indices from names, addresses and account ids to them.  A record is written to
    disk and then loaded into memory; opening the wallet loads what is on disk.

    The type and the [fc::variant] a record is written as are represented by a
    constructor of [generic_wallet_record] and what the variant converts back to.
    The file is LevelDB, ordered by the index; the wallet is locked to one thread.
    Exceptions keep what was done before them: an operation is a function to a
    result and the database it leaves, also when it throws. *)
From S2P Require Export ExtendedKeys OrderedMap Stateful.

(** ** Records *)
Inductive property_enum :=
  | version | next_record_number | next_child_key_index | automatic_backups
  | transaction_scanning | last_unlocked_scanned_block_number
  | default_transaction_priority_fee | transaction_expiration_sec.
#[export] Instance property_enum_eq_dec : EqDecision property_enum.
Proof. solve_decision. Defined.
Definition property_number (p : property_enum) : nat :=
  match p with
  | version => 0 | next_record_number => 1 | next_child_key_index => 2 | automatic_backups => 3
  | transaction_scanning => 4 | last_unlocked_scanned_block_number => 5
  | default_transaction_priority_fee => 6 | transaction_expiration_sec => 7
  end%nat.
#[export] Instance property_enum_countable : Countable property_enum.
Proof.
  apply (inj_countable property_number (λ n, match n with
    | 0 => Some version | 1 => Some next_record_number | 2 => Some next_child_key_index
    | 3 => Some automatic_backups | 4 => Some transaction_scanning
    | 5 => Some last_unlocked_scanned_block_number | 6 => Some default_transaction_priority_fee
    | _ => Some transaction_expiration_sec end)%nat). by intros [].
Defined.

(** [account]: what the wallet keeps of an account, its own or a contact's. *)
Record wallet_account_record := WalletAccountRecord {
  wa_index : Z;
  wa_account : account_record;
  wa_account_address : address;
  wa_private_data : variant;
  wa_is_my_account : bool;
  wa_approved : Z;
  wa_is_favorite : bool;
  wa_block_production_enabled : bool;
  wa_last_used_gen_sequence : Z
}.
Definition set_wa_account (v : account_record) (r : wallet_account_record) : wallet_account_record :=
  WalletAccountRecord (wa_index r) v (wa_account_address r) (wa_private_data
    r) (wa_is_my_account r) (wa_approved r) (wa_is_favorite r)
    (wa_block_production_enabled r) (wa_last_used_gen_sequence r).
Definition set_wa_is_my_account (v : bool) (r : wallet_account_record) : wallet_account_record :=
  WalletAccountRecord (wa_index r) (wa_account r) (wa_account_address r)
    (wa_private_data r) v (wa_approved r) (wa_is_favorite r)
    (wa_block_production_enabled r) (wa_last_used_gen_sequence r).
Definition set_wa_last_used_gen_sequence (v : Z) (r : wallet_account_record) : wallet_account_record :=
  WalletAccountRecord (wa_index r) (wa_account r) (wa_account_address r)
    (wa_private_data r) (wa_is_my_account r) (wa_approved r) (wa_is_favorite
    r) (wa_block_production_enabled r) v.

Record key_data := KeyData {
  kd_account_address : address;
  kd_public_key : public_key_type;
  kd_encrypted_private_key : list Z;
  kd_valid_from_signature : bool;
  kd_memo : option string;
  kd_gen_seq_number : Z
}.
Definition set_kd_account_address (v : address) (r : key_data) : key_data :=
  KeyData v (kd_public_key r) (kd_encrypted_private_key r)
    (kd_valid_from_signature r) (kd_memo r) (kd_gen_seq_number r).
Definition set_kd_public_key (v : public_key_type) (r : key_data) : key_data :=
  KeyData (kd_account_address r) v (kd_encrypted_private_key r)
    (kd_valid_from_signature r) (kd_memo r) (kd_gen_seq_number r).
Definition set_kd_gen_seq_number (v : Z) (r : key_data) : key_data :=
  KeyData (kd_account_address r) (kd_public_key r) (kd_encrypted_private_key
    r) (kd_valid_from_signature r) (kd_memo r) v.

Record wallet_key_record := WalletKeyRecord {
  wk_index : Z;
  wk_data : key_data
}.
Definition set_wk_index (v : Z) (r : wallet_key_record) : wallet_key_record :=
  WalletKeyRecord v (wk_data r).
Definition set_wk_data (v : key_data) (r : wallet_key_record) : wallet_key_record :=
  WalletKeyRecord (wk_index r) v.

Record ledger_entry := LedgerEntry {
  le_from_account : option public_key_type;
  le_to_account : option public_key_type;
  le_amount : asset;
  le_memo : string;
  le_memo_from_account : option public_key_type
}.

Record transaction_data := TransactionData {
  td_record_id : digest_type;
  td_block_num : Z;
  td_is_virtual : bool;
  td_is_confirmed : bool;
  td_is_market : bool;
  td_trx : signed_transaction;
  td_ledger_entries : list ledger_entry;
  td_fee : asset;
  td_created_time : Z;
  td_received_time : Z;
  td_extra_addresses : list address
}.

Record wallet_transaction_record := WalletTransactionRecord {
  wt_index : Z;
  wt_data : transaction_data
}.
Definition set_wt_index (v : Z) (r : wallet_transaction_record) : wallet_transaction_record :=
  WalletTransactionRecord v (wt_data r).

Record wallet_balance_record := WalletBalanceRecord {
  wb_index : Z;
  wb_record : balance_record
}.
Definition set_wb_record (v : balance_record) (r : wallet_balance_record) : wallet_balance_record :=
  WalletBalanceRecord (wb_index r) v.

Record wallet_property_record := WalletPropertyRecord {
  wp_index : Z;
  wp_key : property_enum;
  wp_value : variant
}.
Definition set_wp_value (v : variant) (r : wallet_property_record) : wallet_property_record :=
  WalletPropertyRecord (wp_index r) (wp_key r) v.

Record wallet_setting_record := WalletSettingRecord {
  wse_index : Z;
  wse_name : string;
  wse_value : variant
}.
Definition set_wse_value (v : variant) (r : wallet_setting_record) : wallet_setting_record :=
  WalletSettingRecord (wse_index r) (wse_name r) v.

Record wallet_master_key_record := WalletMasterKeyRecord {
  wm_index : Z;
  wm_encrypted_key : list Z;
  wm_checksum : digest_type
}.

(** A record as it is on disk; [g_other] is of a type the wallet does not load. *)
Inductive generic_wallet_record :=
  | g_master_key (r : wallet_master_key_record)
  | g_account (r : wallet_account_record)
  | g_key (r : wallet_key_record)
  | g_transaction (r : wallet_transaction_record)
  | g_balance (r : wallet_balance_record)
  | g_property (r : wallet_property_record)
  | g_setting (r : wallet_setting_record)
  | g_other (index : Z).
Definition get_wallet_record_index (g : generic_wallet_record) : Z :=
  match g with
  | g_master_key r => wm_index r | g_account r => wa_index r | g_key r => wk_index r
  | g_transaction r => wt_index r | g_balance r => wb_index r | g_property r => wp_index r
  | g_setting r => wse_index r | g_other i => i
  end.
(** [record_to_store.wallet_record_index = index] *)
Definition set_wallet_record_index (i : Z) (g : generic_wallet_record) : generic_wallet_record :=
  match g with
  | g_master_key r => g_master_key (WalletMasterKeyRecord i (wm_encrypted_key r) (wm_checksum r))
  | g_account r => g_account (WalletAccountRecord i (wa_account r) (wa_account_address r)
      (wa_private_data r) (wa_is_my_account r) (wa_approved r) (wa_is_favorite r)
      (wa_block_production_enabled r) (wa_last_used_gen_sequence r))
  | g_key r => g_key (set_wk_index i r)
  | g_transaction r => g_transaction (set_wt_index i r)
  | g_balance r => g_balance (WalletBalanceRecord i (wb_record r))
  | g_property r => g_property (WalletPropertyRecord i (wp_key r) (wp_value r))
  | g_setting r => g_setting (WalletSettingRecord i (wse_name r) (wse_value r))
  | g_other _ => g_other i
  end.

(** ** The database: the file, and what is held in memory *)
Record wallet_db := WalletDb {
  w_is_open : bool;
  w_records : gmap Z generic_wallet_record;
  w_master_key : option wallet_master_key_record;
  w_accounts : gmap Z wallet_account_record;
  w_keys : gmap address wallet_key_record;
  w_transactions : gmap digest_type wallet_transaction_record;
  w_balances : gmap address wallet_balance_record;
  w_properties : gmap property_enum wallet_property_record;
  w_settings : gmap string wallet_setting_record;
  w_btc_to_bts : gmap address address;
  w_address_index : gmap address Z;
  w_name_index : gmap string Z;
  w_id_index : gmap Z Z
}.
Definition set_w_is_open (v : bool) (r : wallet_db) : wallet_db :=
  WalletDb v (w_records r) (w_master_key r) (w_accounts r) (w_keys r)
    (w_transactions r) (w_balances r) (w_properties r) (w_settings r)
    (w_btc_to_bts r) (w_address_index r) (w_name_index r) (w_id_index r).
Definition set_w_records (v : gmap Z generic_wallet_record) (r : wallet_db) : wallet_db :=
  WalletDb (w_is_open r) v (w_master_key r) (w_accounts r) (w_keys r)
    (w_transactions r) (w_balances r) (w_properties r) (w_settings r)
    (w_btc_to_bts r) (w_address_index r) (w_name_index r) (w_id_index r).
Definition set_w_master_key (v : option wallet_master_key_record) (r : wallet_db) : wallet_db :=
  WalletDb (w_is_open r) (w_records r) v (w_accounts r) (w_keys r)
    (w_transactions r) (w_balances r) (w_properties r) (w_settings r)
    (w_btc_to_bts r) (w_address_index r) (w_name_index r) (w_id_index r).
Definition set_w_accounts (v : gmap Z wallet_account_record) (r : wallet_db) : wallet_db :=
  WalletDb (w_is_open r) (w_records r) (w_master_key r) v (w_keys r)
    (w_transactions r) (w_balances r) (w_properties r) (w_settings r)
    (w_btc_to_bts r) (w_address_index r) (w_name_index r) (w_id_index r).
Definition set_w_keys (v : gmap address wallet_key_record) (r : wallet_db) : wallet_db :=
  WalletDb (w_is_open r) (w_records r) (w_master_key r) (w_accounts r) v
    (w_transactions r) (w_balances r) (w_properties r) (w_settings r)
    (w_btc_to_bts r) (w_address_index r) (w_name_index r) (w_id_index r).
Definition set_w_transactions (v : gmap digest_type wallet_transaction_record) (r : wallet_db) : wallet_db :=
  WalletDb (w_is_open r) (w_records r) (w_master_key r) (w_accounts r)
    (w_keys r) v (w_balances r) (w_properties r) (w_settings r)
    (w_btc_to_bts r) (w_address_index r) (w_name_index r) (w_id_index r).
Definition set_w_balances (v : gmap address wallet_balance_record) (r : wallet_db) : wallet_db :=
  WalletDb (w_is_open r) (w_records r) (w_master_key r) (w_accounts r)
    (w_keys r) (w_transactions r) v (w_properties r) (w_settings r)
    (w_btc_to_bts r) (w_address_index r) (w_name_index r) (w_id_index r).
Definition set_w_properties (v : gmap property_enum wallet_property_record) (r : wallet_db) : wallet_db :=
  WalletDb (w_is_open r) (w_records r) (w_master_key r) (w_accounts r)
    (w_keys r) (w_transactions r) (w_balances r) v (w_settings r)
    (w_btc_to_bts r) (w_address_index r) (w_name_index r) (w_id_index r).
Definition set_w_settings (v : gmap string wallet_setting_record) (r : wallet_db) : wallet_db :=
  WalletDb (w_is_open r) (w_records r) (w_master_key r) (w_accounts r)
    (w_keys r) (w_transactions r) (w_balances r) (w_properties r) v
    (w_btc_to_bts r) (w_address_index r) (w_name_index r) (w_id_index r).
Definition set_w_btc_to_bts (v : gmap address address) (r : wallet_db) : wallet_db :=
  WalletDb (w_is_open r) (w_records r) (w_master_key r) (w_accounts r)
    (w_keys r) (w_transactions r) (w_balances r) (w_properties r)
    (w_settings r) v (w_address_index r) (w_name_index r) (w_id_index r).
Definition set_w_address_index (v : gmap address Z) (r : wallet_db) : wallet_db :=
  WalletDb (w_is_open r) (w_records r) (w_master_key r) (w_accounts r)
    (w_keys r) (w_transactions r) (w_balances r) (w_properties r)
    (w_settings r) (w_btc_to_bts r) v (w_name_index r) (w_id_index r).
Definition set_w_name_index (v : gmap string Z) (r : wallet_db) : wallet_db :=
  WalletDb (w_is_open r) (w_records r) (w_master_key r) (w_accounts r)
    (w_keys r) (w_transactions r) (w_balances r) (w_properties r)
    (w_settings r) (w_btc_to_bts r) (w_address_index r) v (w_id_index r).
Definition set_w_id_index (v : gmap Z Z) (r : wallet_db) : wallet_db :=
  WalletDb (w_is_open r) (w_records r) (w_master_key r) (w_accounts r)
    (w_keys r) (w_transactions r) (w_balances r) (w_properties r)
    (w_settings r) (w_btc_to_bts r) (w_address_index r) (w_name_index r) v.

Definition wallet_db_empty : wallet_db := WalletDb false ∅ None ∅ ∅ ∅ ∅ ∅ ∅ ∅ ∅ ∅ ∅.

(** ** Operations that may throw *)
Definition wallet_m : Type → Type := stateful wallet_db.

Definition is_noneb {A} (o : option A) : bool := match o with Some _ => false | None => true end.

Section wallet.
Context `{!Crypto, !Ecc}.
Implicit Types (w : wallet_db) (g : generic_wallet_record).

(** ** Keys ([wallet_records.cpp]) *)
Definition decrypt_key (password : digest_type) (r : wallet_master_key_record) : result extended_private_key :=
  ensure negb (password =? 0) else assert_failure in
  ensure negb (bool_decide (wm_encrypted_key r = [])) else assert_failure in
  let* plain_text := aes_decrypt password (wm_encrypted_key r) in
  unpack_extended_private_key plain_text.
Definition encrypt_key (password : digest_type) (k : extended_private_key)
    (index : Z) : result wallet_master_key_record :=
  ensure negb (password =? 0) else assert_failure in
  let r := WalletMasterKeyRecord index (aes_encrypt password (pack_extended_private_key k))
             (sha512 (be_bytes 64 password)) in
  let* _ := decrypt_key password r in Ok r.
Definition kd_has_private_key (d : key_data) : bool := negb (bool_decide (kd_encrypted_private_key d = [])).
Definition decrypt_private_key (password : digest_type) (d : key_data) : result Z :=
  ensure negb (password =? 0) else assert_failure in
  let* plain_text := aes_decrypt password (kd_encrypted_private_key d) in
  unpack_private_key plain_text.
Definition encrypt_private_key (password : digest_type) (key_to_encrypt : Z) (d : key_data) : result key_data :=
  ensure negb (password =? 0) else assert_failure in
  let d := KeyData (kd_account_address d) (get_public_key key_to_encrypt)
             (aes_encrypt password (pack_private_key key_to_encrypt))
             (kd_valid_from_signature d) (kd_memo d) (kd_gen_seq_number d) in
  let* k := decrypt_private_key password d in
  ensure key_to_encrypt =? k else assert_failure in Ok d.
Definition kd_get_address (d : key_data) : address := address_of_key (kd_public_key d).
Definition key_data_default : key_data := KeyData 0 0 [] false None 0.

(** ** Loading records into memory *)
Definition load_master_key_record (r : wallet_master_key_record) (overwrite : bool) : wallet_m () :=
  do! _ := sassert (λ w, overwrite || is_noneb (w_master_key w)) in
  smodify (set_w_master_key (Some r)).

Definition index_addresses (r : wallet_account_record) w : wallet_db :=
  set_w_address_index
    (foldl (λ m active_key, <[address_of_key active_key.2 := wa_index r]> m)
       (<[wa_account_address r := wa_index r]> (w_address_index w))
       (ac_active_key_history (wa_account r))) w.
Definition load_account_record (r : wallet_account_record) (overwrite : bool) : wallet_m () :=
  let i := wa_index r in
  let id := ac_id (wa_account r) in
  let name := ac_name (wa_account r) in
  do! _ := smodify (λ w, set_w_accounts (<[i := r]> (w_accounts w)) w) in
  do! _ := sassert (λ w, overwrite || is_noneb (w_address_index w !! wa_account_address r)) in
  do! _ := smodify (index_addresses r) in
  do! _ :=
    if id =? 0 then sret () else
    do! _ := sassert (λ w, match w_id_index w !! id with Some j => j =? i | None => true end) in
    smodify (λ w, set_w_id_index (<[id := i]> (w_id_index w)) w) in
  do! _ := sassert (λ w, overwrite || is_noneb (w_name_index w !! name)) in
  smodify (λ w, set_w_name_index (<[name := i]> (w_name_index w)) w).

(** The addresses a key is known by: its own, and those of the other chains. *)
Definition pts_addresses (k : public_key_type) (versions : list Z) : list address :=
  v ← versions; [address_of_pts (pts_address_of_key k false v); address_of_pts (pts_address_of_key k true v)].
Definition index_key (d : key_data) (versions : list Z) w : wallet_db :=
  set_w_btc_to_bts
    (foldl (λ m a, <[a := kd_get_address d]> m) (w_btc_to_bts w)
       (address_of_key (kd_public_key d) :: pts_addresses (kd_public_key d) versions)) w.
Definition load_key_record (r : wallet_key_record) (overwrite : bool) : wallet_m () :=
  let a := kd_get_address (wk_data r) in
  do! _ := sassert (λ w, overwrite || is_noneb (w_keys w !! a)) in
  do! _ := smodify (λ w, set_w_keys (<[a := r]> (w_keys w)) w) in
  smodify (index_key (wk_data r) [28; 56; 0]).

Definition load_transaction_record (r : wallet_transaction_record) (overwrite : bool) : wallet_m () :=
  let id := td_record_id (wt_data r) in
  do! _ := sassert (λ w, overwrite || is_noneb (w_transactions w !! id)) in
  smodify (λ w, set_w_transactions (<[id := r]> (w_transactions w)) w).
Definition load_balance_record (r : wallet_balance_record) (overwrite : bool) : wallet_m () :=
  let id := br_id (wb_record r) in
  do! _ := sassert (λ w, overwrite || is_noneb (w_balances w !! id)) in
  smodify (λ w, set_w_balances (<[id := r]> (w_balances w)) w).
Definition load_property_record (r : wallet_property_record) (overwrite : bool) : wallet_m () :=
  do! _ := sassert (λ w, overwrite || is_noneb (w_properties w !! wp_key r)) in
  smodify (λ w, set_w_properties (<[wp_key r := r]> (w_properties w)) w).
Definition load_setting_record (r : wallet_setting_record) : wallet_m () :=
  smodify (λ w, set_w_settings (<[wse_name r := r]> (w_settings w)) w).

Definition load_generic_record g (overwrite : bool) : wallet_m () :=
  match g with
  | g_master_key r => load_master_key_record r overwrite
  | g_account r => load_account_record r overwrite
  | g_key r => load_key_record r overwrite
  | g_transaction r => load_transaction_record r overwrite
  | g_balance r => load_balance_record r overwrite
  | g_property r => load_property_record r overwrite
  | g_setting r => load_setting_record r
  | g_other _ => sret ()
  end.

(** ** Storing records *)
Definition store_generic_record g : wallet_m () :=
  let index := get_wallet_record_index g in
  do! _ := sassert w_is_open in
  do! _ := sassert (λ _, negb (index =? 0)) in
  do! _ := smodify (λ w, set_w_records (<[index := g]> (w_records w)) w) in
  load_generic_record g true.

Definition w_get_property (id : property_enum) w : variant :=
  match w_properties w !! id with Some r => wp_value r | None => v_null end.
(** [set_property( next_record_number, v )], which asks for no new index. *)
Definition set_next_record_number (v : variant) : wallet_m () :=
  do! itr := sgets (λ w, w_properties w !! next_record_number) in
  let r := match itr with Some r => set_wp_value v r
                     | None => WalletPropertyRecord 1 next_record_number v end in
  if wp_index r =? 0 then sthrow undefined else store_generic_record (g_property r).
(** The counter is an [int32_t], whose overflow is undefined. *)
Definition new_wallet_record_index : wallet_m Z :=
  do! next_rec_num := sgets (w_get_property next_record_number) in
  do! next_rec_number :=
    if variant_is_null next_rec_num then sret 2
    else slift (λ _, let* z := as_int next_rec_num in Ok (s32 z)) in
  if next_rec_number =? 2 ^ 31 - 1 then sthrow undefined else
  do! _ := set_next_record_number (v_int (next_rec_number + 1)) in
  sret next_rec_number.

Definition store_record g : wallet_m () :=
  if get_wallet_record_index g =? 0 then
    do! i := new_wallet_record_index in store_generic_record (set_wallet_record_index i g)
  else store_generic_record g.

Definition w_set_property (id : property_enum) (v : variant) : wallet_m () :=
  do! itr := sgets (λ w, w_properties w !! id) in
  match itr with
  | Some r => store_record (g_property (set_wp_value v r))
  | None =>
      do! i := if decide (id = next_record_number) then sret 1 else new_wallet_record_index in
      store_record (g_property (WalletPropertyRecord i id v))
  end.

(** ** Opening and closing *)
Definition wallet_close : wallet_m () :=
  smodify (λ w, set_w_records (w_records w) wallet_db_empty).
Definition wallet_open (file : gmap Z generic_wallet_record) : wallet_m () :=
  do! _ := smodify (λ w, set_w_is_open true (set_w_records file w)) in
  seach (λ item, stry (load_generic_record item.2 true)) (map_asc file).
Definition export_to_json w : list generic_wallet_record := (map_asc (w_records w)).*2.
Definition import_from_json (records : list generic_wallet_record) : wallet_m () :=
  do! _ := sassert w_is_open in seach store_generic_record records.

(** ** Looking records up *)
Definition lookup_account_at (i : Z) w : result (option wallet_account_record) :=
  let* r := of_option assert_failure (w_accounts w !! i) in Ok (Some r).
Definition account_by_address (address_of_public_key : address) w : result (option wallet_account_record) :=
  match w_address_index w !! address_of_public_key with
  | Some i => lookup_account_at i w | None => Ok None end.
Definition account_by_name (account_name : string) w : result (option wallet_account_record) :=
  match w_name_index w !! account_name with
  | Some i => lookup_account_at i w | None => Ok None end.
Definition account_by_id (aid : Z) w : result (option wallet_account_record) :=
  match w_id_index w !! aid with
  | Some i => lookup_account_at i w | None => Ok None end.
Definition get_account_name (account_address : address) w : result string :=
  let* opt := account_by_address account_address w in
  Ok match opt with Some r => ac_name (wa_account r) | None => "?"%string end.
Definition lookup_transaction (record_id : digest_type) w : option wallet_transaction_record :=
  w_transactions w !! record_id.
Definition lookup_balance (balance_id : address) w : option wallet_balance_record :=
  w_balances w !! balance_id.
Definition lookup_setting (name : string) w : option wallet_setting_record := w_settings w !! name.
Definition lookup_key (a : address) w : option wallet_key_record :=
  match w_btc_to_bts w !! a with Some bts_addr => w_keys w !! bts_addr | None => None end.
Definition has_private_key (addr : address) w : bool :=
  match w_keys w !! addr with Some r => kd_has_private_key (wk_data r) | None => false end.

Definition w_get_pending_transactions w : list wallet_transaction_record :=
  filter (λ r, td_is_virtual (wt_data r) = false ∧ td_is_confirmed (wt_data r) = false)
    (map_to_list (w_transactions w)).*2.
(** [limit] is unsigned, and its greatest value stands for no limit. *)
Fixpoint balances_of (account_name : string) (limit count : Z) (l : list wallet_balance_record) w
    : result (list wallet_balance_record) :=
  match l with
  | [] => Ok []
  | item :: l' =>
      if (count =? limit) && negb (limit =? 2 ^ 32 - 1) then Ok [] else
      let* okey := of_option assert_failure (lookup_key (br_owner (wb_record item)) w) in
      let* oacct := account_by_address (kd_account_address (wk_data okey)) w in
      if match oacct with
         | Some a => bool_decide (ac_name (wa_account a) = account_name) | None => false end
      then let* ret := balances_of account_name limit (u32 (count + 1)) l' w in Ok (item :: ret)
      else balances_of account_name limit count l' w
  end.
Definition get_all_balances (account_name : string) (limit : Z) w : result (list wallet_balance_record) :=
  balances_of account_name limit 0 (map_to_list (w_balances w)).*2 w.

(** ** Accounts *)
Definition cache_account (war : wallet_account_record) : wallet_m () :=
  let i := wa_index war in
  do! _ := smodify (λ w, set_w_accounts (<[i := war]> (w_accounts w)) w) in
  do! _ :=
    if ac_id (wa_account war) =? 0 then sret () else
    smodify (λ w, set_w_name_index (<[ac_name (wa_account war) := i]> (w_name_index w))
                    (set_w_id_index (<[ac_id (wa_account war) := i]> (w_id_index w)) w)) in
  store_record (g_account war).

(** [last_used_gen_sequence] is a [uint32_t]; the index is an [int32_t]. *)
Definition new_key_child_index (account_address : address) : wallet_m Z :=
  do! account_rec := slift (account_by_address account_address) in
  match account_rec with
  | Some r =>
      let r := set_wa_last_used_gen_sequence (u32 (wa_last_used_gen_sequence r + 1)) r in
      do! _ := cache_account r in
      sret (s32 (wa_last_used_gen_sequence r))
  | None =>
      do! next_child_idx := sgets (w_get_property next_child_key_index) in
      do! next_child_index :=
        if variant_is_null next_child_idx then sret 1
        else slift (λ _, let* z := as_int next_child_idx in Ok (s32 z)) in
      if next_child_index =? 2 ^ 31 - 1 then sthrow undefined else
      do! _ := w_set_property next_child_key_index (v_int (next_child_index + 1)) in
      sret next_child_index
  end.

(** ** Keys *)
Definition store_key (key_to_store : key_data) : wallet_m () :=
  let a := kd_get_address key_to_store in
  do! key_itr := sgets (λ w, w_keys w !! a) in
  match key_itr with
  | Some old =>
      do! _ := smodify (λ w, set_w_keys (<[a := set_wk_data key_to_store old]> (w_keys w)) w) in
      do! _ :=
        if kd_has_private_key key_to_store then
          do! oacct := slift (account_by_address (kd_account_address key_to_store)) in
          match oacct with
          | Some r => cache_account (set_wa_is_my_account true r) | None => sret () end
        else sret () in
      do! r := slift (λ w, of_option undefined (w_keys w !! a)) in
      store_record (g_key r)
  | None =>
      do! i := new_wallet_record_index in
      let r := WalletKeyRecord i key_to_store in
      do! _ := smodify (λ w, set_w_keys (<[a := r]> (w_keys w)) w) in
      do! _ := store_record (g_key r) in
      smodify (index_key key_to_store [56; 0])
  end.

(** The master key, and the private key its child is. *)
Definition master_key (password : digest_type) w : result extended_private_key :=
  let* r := of_option assert_failure (w_master_key w) in decrypt_key password r.
Definition get_private_key (password : digest_type) (index : Z) w : result Z :=
  let* master_ext_priv_key := master_key password w in
  Ok (xs_priv_key (priv_child (pack_index index) private_derivation master_ext_priv_key)).
Definition generated_key (key_index : Z) (parent_account_address : address)
    (master_ext_priv_key : extended_private_key) : Z :=
  xs_priv_key
    (if 10000 <=? key_index
     then priv_child (be_bytes 32 (sha256 (be_bytes 20 parent_account_address ++ le_bytes 4 key_index)))
            private_derivation master_ext_priv_key
     else priv_child (pack_index key_index) private_derivation master_ext_priv_key).
Definition new_private_key (password : digest_type) (parent_account_address : address)
    (do_store_key : bool) : wallet_m Z :=
  do! master_ext_priv_key := slift (master_key password) in
  do! key_index := new_key_child_index parent_account_address in
  let new_priv_key := generated_key key_index parent_account_address master_ext_priv_key in
  if negb do_store_key then sret new_priv_key else
  do! new_key := slift (λ _, encrypt_private_key password new_priv_key
                               (set_kd_account_address parent_account_address key_data_default)) in
  let new_key := set_kd_gen_seq_number (u32 key_index) new_key in
  let new_key := if parent_account_address =? 0
                 then set_kd_account_address (address_of_key (kd_public_key new_key)) new_key
                 else new_key in
  do! _ := store_key new_key in
  sret new_priv_key.
Definition cache_memo (memo : memo_status) (account_key : Z) (password : digest_type) : wallet_m () :=
  let data := KeyData (address_of_key (get_public_key account_key)) 0 [] (ms_has_valid_signature memo) None 0 in
  do! data := slift (λ _, encrypt_private_key password (ms_owner_private_key memo) data) in
  store_key data.

(** Two accounts may list the same key: the name of the one visited last is kept. *)
Definition get_account_private_keys (password : digest_type) w : gmap Z string :=
  let public_keys := foldl (λ m account_item,
    let r := wa_account account_item.2 in
    foldl (λ m active_key_item, <[active_key_item.2 := ac_name r]> m)
      (<[ac_owner_key r := ac_name r]> m) (ac_active_key_history r))
    (∅ : gmap Z string) (map_to_list (w_accounts w)) in
  foldl (λ private_keys public_key_item,
    match lookup_key (address_of_key public_key_item.1) w with
    | Some key_record =>
        if kd_has_private_key (wk_data key_record) then
          match decrypt_private_key password (wk_data key_record) with
          | Ok k => <[k := public_key_item.2]> private_keys
          | Err _ => private_keys
          end
        else private_keys
    | None => private_keys
    end) (∅ : gmap Z string) (map_asc public_keys).

(** ** Adding, renaming and removing accounts *)
Definition wallet_account_new (a : account_record) (private_data : variant) : wallet_account_record :=
  WalletAccountRecord 0 a (address_of_key (ac_owner_key a)) private_data false 0 false false 10000.
(** The key of an account: one the wallet has is given the account's address. *)
Definition new_public_key (account_address : address) (k : public_key_type) : wallet_m () :=
  do! i := new_wallet_record_index in
  let new_key := set_kd_public_key k (set_kd_account_address account_address key_data_default) in
  do! _ := load_key_record (WalletKeyRecord i new_key) false in
  store_key new_key.
Definition store_new_account (war : wallet_account_record) : wallet_m () :=
  do! i := new_wallet_record_index in
  do! mine := sgets (has_private_key (wa_account_address war)) in
  let war := WalletAccountRecord i (wa_account war) (wa_account_address war) (wa_private_data war)
               (mine || wa_is_my_account war) (wa_approved war) (wa_is_favorite war)
               (wa_block_production_enabled war) (wa_last_used_gen_sequence war) in
  store_record (g_account war).
Definition claim_key (r : wallet_key_record) (account_address : address) : wallet_m () :=
  store_record (g_key (set_wk_data (set_kd_account_address account_address (wk_data r)) r)).

Definition add_chain_account (blockchain_account : account_record) (private_data : variant) : wallet_m () :=
  let owner_key := ac_owner_key blockchain_account in
  do! _ := store_new_account (wallet_account_new blockchain_account private_data) in
  do! current_key := sgets (lookup_key (address_of_key owner_key)) in
  match current_key with
  | Some r => claim_key r (address_of_key owner_key)
  | None =>
      do! _ := new_public_key (address_of_key owner_key) owner_key in
      seach (λ active_key,
        if active_key.2 =? owner_key then sret ()
        else new_public_key (address_of_key owner_key) active_key.2)
        (ac_active_key_history blockchain_account)
  end.
Definition account_record_new (name : string) (owner_key : public_key_type) : account_record :=
  AccountRecord 0 name v_null owner_key [] 0 0 None None.
Definition add_contact_account (now : Z) (new_account_name : string) (new_account_key : public_key_type)
    (private_data : variant) : wallet_m () :=
  do! _ := sassert (λ w, is_noneb (w_name_index w !! new_account_name)) in
  do! _ := sassert (λ w, is_noneb (w_address_index w !! address_of_key new_account_key)) in
  do! a := slift (λ _, ac_set_active_key now new_account_key
                         (account_record_new new_account_name new_account_key)) in
  do! _ := store_new_account (wallet_account_new a private_data) in
  do! current_key := sgets (lookup_key (address_of_key new_account_key)) in
  match current_key with
  | Some r => claim_key r (address_of_key new_account_key)
  | None => new_public_key (address_of_key new_account_key) new_account_key
  end.

(** LevelDB does not report that there was nothing to remove. *)
Definition remove_item (index : Z) : wallet_m () :=
  do! _ := sassert w_is_open in
  smodify (λ w, set_w_records (delete index (w_records w)) w).

Definition forget_address (a : address) w : wallet_db :=
  set_w_address_index (delete a (w_address_index w)) (set_w_keys (delete a (w_keys w)) w).
Definition remove_contact_account (account_name : string) : wallet_m () :=
  do! acct := slift (λ w, let* o := account_by_name account_name w in of_option assert_failure o) in
  let a := wa_account acct in
  do! _ := sassert (λ w, negb (has_private_key (address_of_key (ac_owner_key a)) w)) in
  do! _ := smodify (λ w, foldl (λ w k, forget_address (address_of_key k.2) w) w
                          (ac_active_key_history a)) in
  do! _ := remove_item (wa_index acct) in
  smodify (λ w,
    let w := forget_address (address_of_key (ac_owner_key a)) w in
    let w := set_w_id_index (delete (ac_id a) (w_id_index w)) w in
    let w := set_w_name_index (delete account_name (w_name_index w)) w in
    set_w_accounts (delete (wa_index acct) (w_accounts w)) w).

(** [operator[]] leaves an entry 0 for a name that has none. *)
Definition move_name (old_name new_name : string) (i : Z) (m : gmap string Z) : gmap string Z :=
  let m := <[new_name := i]> m in
  if default 0 (m !! old_name) =? i then delete old_name m
  else <[old_name := default 0 (m !! old_name)]> m.
Definition set_account_name (name : string) (r : wallet_account_record) : wallet_account_record :=
  let a := wa_account r in
  set_wa_account (AccountRecord (ac_id a) name (ac_public_data a) (ac_owner_key a)
    (ac_active_key_history a) (ac_registration_date a) (ac_last_update a) (ac_delegate_info a)
    (ac_meta_data a)) r.
Definition rename_account (old_account_key : public_key_type) (new_account_name : string) : wallet_m () :=
  do! _ := sassert w_is_open in
  do! old := slift (λ w, let* o := account_by_address (address_of_key old_account_key) w in
                         of_option assert_failure o) in
  let acct := set_account_name new_account_name old in
  let i := wa_index acct in
  do! _ := smodify (λ w, set_w_name_index
             (move_name (ac_name (wa_account old)) new_account_name i (w_name_index w)) w) in
  do! _ := smodify (λ w, set_w_accounts (<[i := acct]> (w_accounts w)) w) in
  do! _ := smodify (λ w, set_w_address_index
             (foldl (λ m k, <[address_of_key k.2 := i]> m)
                (<[address_of_key (ac_owner_key (wa_account acct)) := i]> (w_address_index w))
                (ac_active_key_history (wa_account acct))) w) in
  store_record (g_account acct).

(** ** Balances, transactions and settings *)
Definition cache_balance (balance_to_cache : balance_record) : wallet_m () :=
  do! current_bal := sgets (lookup_balance (br_id balance_to_cache)) in
  match current_bal with
  | Some r => store_record (g_balance (set_wb_record balance_to_cache r))
  | None =>
      do! i := new_wallet_record_index in
      store_record (g_balance (WalletBalanceRecord i balance_to_cache))
  end.
(** The entry [operator[]] makes for an unknown balance is erased with it. *)
Definition remove_balance (balance_id : address) : wallet_m () :=
  do! i := sgets (λ w, match w_balances w !! balance_id with Some r => wb_index r | None => 0 end) in
  do! _ := remove_item i in
  smodify (λ w, set_w_balances (delete balance_id (w_balances w)) w).

(** The caller's record is given its index. *)
Definition w_store_transaction (trx_to_store : wallet_transaction_record) : wallet_m wallet_transaction_record :=
  do! r := if wt_index trx_to_store =? 0 then
             do! i := new_wallet_record_index in sret (set_wt_index i trx_to_store)
           else sret trx_to_store in
  do! _ := store_record (g_transaction r) in
  do! _ := smodify (λ w, set_w_transactions (<[td_record_id (wt_data r) := r]> (w_transactions w)) w) in
  sret r.
Definition remove_transaction (record_id : digest_type) : wallet_m () :=
  do! rec := sgets (lookup_transaction record_id) in
  match rec with
  | None => sret ()
  | Some r =>
      do! _ := remove_item (wt_index r) in
      smodify (λ w, set_w_transactions (delete record_id (w_transactions w)) w)
  end.

Definition store_setting (name : string) (value : variant) : wallet_m () :=
  do! orec := sgets (lookup_setting name) in
  do! rec := match orec with
             | Some r => sret (set_wse_value value r)
             | None => do! i := new_wallet_record_index in sret (WalletSettingRecord i name value)
             end in
  do! _ := smodify (λ w, set_w_settings (<[name := rec]> (w_settings w)) w) in
  store_record (g_setting rec).

(** ** The password *)
Definition validate_password (password : digest_type) w : result bool :=
  let* r := of_option assert_failure (w_master_key w) in
  Ok (wm_checksum r =? sha512 (be_bytes 64 password)).
Definition set_master_key (extended_key : extended_private_key) (new_password : digest_type) : wallet_m () :=
  do! r := slift (λ _, encrypt_key new_password extended_key (-1)) in
  store_record (g_master_key r).
Definition reencrypt (old_password new_password : digest_type) (r : wallet_key_record) : wallet_m () :=
  if negb (kd_has_private_key (wk_data r)) then sret () else
  do! d := slift (λ _, let* priv_key := decrypt_private_key old_password (wk_data r) in
                       encrypt_private_key new_password priv_key (wk_data r)) in
  store_record (g_key (set_wk_data d r)).
Definition change_password (old_password new_password : digest_type) : wallet_m () :=
  do! old_key := slift (master_key old_password) in
  do! _ := set_master_key old_key new_password in
  do! keys := sgets (λ w, (map_to_list (w_keys w)).*2) in
  seach (reencrypt old_password new_password) keys.
End wallet.
