(* ===== verification/Conserve.v ===== *)
(** The operations of a transaction conserve funds: proofs over [Supply].

    [moved e e' Δ] says that a step leaves the tables well formed and changes the
    excess of each asset by [Δ], modulo 2^64; steps compose by adding. *)
From S2P Require Export Supply.

Lemma at_id_add id a x y : at_id id a (x + y) = at_id id a x + at_id id a y.
Proof. unfold at_id. case_match; lia. Qed.
Lemma at_id_sub id a x y : at_id id a (x - y) = at_id id a x - at_id id a y.
Proof. unfold at_id. case_match; lia. Qed.
Lemma at_id_opp id a x : at_id id a (- x) = - at_id id a x.
Proof. unfold at_id. case_match; lia. Qed.
Lemma at_id_zero id a : at_id id a 0 = 0.
Proof. unfold at_id. by case_match. Qed.
#[export] Instance at_id_proper id a : Proper (eq64 ==> eq64) (at_id id a).
Proof. intros x y E. unfold at_id. case_match; [done|reflexivity]. Qed.
Lemma at_id_s64 id a x : at_id id a (s64 x) ≡₆₄ at_id id a x.
Proof. by rewrite s64_eq64. Qed.

(** [solve_at] proves a congruence between sums of amounts at ids. *)
Ltac solve_at :=
  rewrite ?at_id_s64, ?at_id_add, ?at_id_sub, ?at_id_opp, ?at_id_zero;
  rewrite ?at_id_s64, ?at_id_add, ?at_id_sub, ?at_id_opp, ?at_id_zero; apply eq64_eq; lia.

Section conserve.
Context `{!Fc, !Crypto}.
Implicit Types (s : chain_state) (e : transaction_evaluation_state) (Δ : Z → Z).

Definition moved e e' Δ : Prop :=
  funds_wf (es_current_state e) →
  funds_wf (es_current_state e') ∧ ∀ id, excess id e' ≡₆₄ excess id e + Δ id.

Lemma moved_same e e' :
  es_current_state e' = es_current_state e → es_balance e' = es_balance e →
  moved e e' (λ _, 0).
Proof.
  intros Es Eb Hwf. rewrite Es. split; [done|]. intros id. unfold excess, get_fees.
  rewrite Es, Eb. apply eq64_eq. lia.
Qed.

Lemma moved_seq e e1 e' Δ1 Δ2 :
  moved e e1 Δ1 → moved e1 e' Δ2 → moved e e' (λ id, Δ1 id + Δ2 id).
Proof.
  intros H1 H2 Hwf. destruct (H1 Hwf) as [Hwf1 E1]. destruct (H2 Hwf1) as [Hwf2 E2].
  split; [done|]. intros id. rewrite E2, E1. apply eq64_eq. lia.
Qed.

Lemma moved_ext e e' Δ Δ' : moved e e' Δ → (∀ id, Δ id ≡₆₄ Δ' id) → moved e e' Δ'.
Proof.
  intros HΔ E Hwf. destruct (HΔ Hwf) as [Hwf' Ee]. split; [done|]. intros id.
  by rewrite Ee, E.
Qed.

(** ** Stores *)
Lemma look_insert {K V} `{Countable K} (fp : pending_chain_state → gmap K V) fd p p' prev k v k' :
  fp p' = <[k := v]> (fp p) →
  look_through fp fd k' (Pending p' prev)
  = if decide (k = k') then Some v else look_through fp fd k' (Pending p prev).
Proof. intros E. simpl. rewrite E, lookup_insert. by case_decide. Qed.

Lemma wf_balance r s : funds_wf s → funds_wf (store_balance_record r s).
Proof.
  destruct s as [|d|p prev]; intros [Hp (Hb & Ha & Hc)]; [done|done|]. split; [done|].
  split_and!; [|exact Ha|exact Hc]. intros k r'. unfold get_balance_record, store_balance_record, on_state.
  erewrite (look_insert p_balances) by reflexivity. case_decide; [by intros [= <-]|apply Hb].
Qed.
Lemma wf_asset r s : funds_wf s → funds_wf (store_asset_record r s).
Proof.
  destruct s as [|d|p prev]; intros [Hp (Hb & Ha & Hc)]; [done|done|]. split; [done|].
  split_and!; [exact Hb| |exact Hc]. intros k r'. unfold get_asset_record, store_asset_record, on_state.
  erewrite (look_insert p_assets) by reflexivity. case_decide; [by intros [= <-]|apply Ha].
Qed.
Lemma wf_account r s : funds_wf s → funds_wf (store_account_record r s).
Proof.
  destruct s as [|d|p prev]; intros [Hp (Hb & Ha & Hc)]; [done|done|]. split; [done|].
  split_and!; [exact Hb|exact Ha|]. intros k r'. unfold get_account_record, store_account_record, on_state.
  erewrite (look_insert p_accounts) by reflexivity. case_decide; [by intros [= <-]|apply Hc].
Qed.

(** Stores that leave the balances, the assets and the accounts alone. *)
Lemma wf_order (g : pending_chain_state → pending_chain_state) f s :
  (∀ p, p_balances (g p) = p_balances p ∧ p_assets (g p) = p_assets p
        ∧ p_accounts (g p) = p_accounts p) →
  funds_wf s → funds_wf (on_state f g s).
Proof.
  intros E. destruct s as [|d|p prev]; intros [Hp (Hb & Ha & Hc)]; [done|done|].
  destruct (E p) as (Eb & Ea & Ec). split; [done|].
  unfold keyed_tables, get_balance_record, get_asset_record, get_account_record in *. simpl in *.
  by rewrite Eb, Ea, Ec.
Qed.

(** One lemma per table: the entry's old contribution leaves, the new one comes. *)
Ltac moved_store Hsum :=
  let Hwf := fresh in intros Hwf; split; [first [by apply wf_balance|by apply wf_account|by apply wf_order]|];
  [..|intros id; unfold excess, get_fees;
  change (es_current_state (on_current_state ?f ?e)) with (f (es_current_state e));
  rewrite Hsum by apply Hwf; destruct Hwf as [Hp _];
  destruct (es_current_state _) as [|d|p prev]; [done|done|]; apply eq64_eq;
  change (es_balance (on_current_state ?f ?e)) with (es_balance e);
  match goal with |- context [supply id ?s'] => change (supply id s') with (supply id (Pending p prev)) end;
  lia].

Lemma moved_balance r e :
  moved e (on_current_state (store_balance_record r) e) (λ id,
    in_balance id (br_id r) r
    - contrib (in_balance id) (br_id r) (get_balance_record (br_id r) (es_current_state e))).
Proof. moved_store holdings_balance. Qed.
Lemma moved_account r e :
  moved e (on_current_state (store_account_record r) e) (λ id,
    in_pay id (ac_id r) r
    - contrib (in_pay id) (ac_id r) (get_account_record (ac_id r) (es_current_state e))).
Proof. moved_store holdings_account. Qed.
Lemma moved_bid k r e :
  moved e (on_current_state (store_bid_record k r) e) (λ id,
    in_bid id k r - contrib (in_bid id) k (get_bid_record k (es_current_state e))).
Proof. moved_store holdings_bid. Qed.
Lemma moved_ask k r e :
  moved e (on_current_state (store_ask_record k r) e) (λ id,
    in_ask id k r - contrib (in_ask id) k (get_ask_record k (es_current_state e))).
Proof. moved_store holdings_ask. Qed.
Lemma moved_short k r e :
  moved e (on_current_state (store_short_record k r) e) (λ id,
    in_ask id k r - contrib (in_ask id) k (get_short_record k (es_current_state e))).
Proof. moved_store holdings_short. Qed.
Lemma moved_collateral k r e :
  moved e (on_current_state (store_collateral_record k r) e) (λ id,
    in_collateral id k r - contrib (in_collateral id) k (get_collateral_record k (es_current_state e))).
Proof. moved_store holdings_collateral. Qed.
Lemma moved_asset r e :
  moved e (on_current_state (store_asset_record r) e) (λ id,
    in_fees id (ar_id r) r
    - contrib (in_fees id) (ar_id r) (get_asset_record (ar_id r) (es_current_state e))
    + contrib (in_supply id) (ar_id r) (get_asset_record (ar_id r) (es_current_state e))
    - in_supply id (ar_id r) r).
Proof.
  intros Hwf. split; [by apply wf_asset|]. intros id. unfold excess.
  change (es_current_state (on_current_state ?f e)) with (f (es_current_state e)).
  change (get_fees id (on_current_state ?f e)) with (get_fees id e).
  rewrite holdings_asset by apply Hwf. apply eq64_eq. lia.
Qed.

(** Stores of the tables that hold no funds. *)
Definition holds_no_funds (g : pending_chain_state → pending_chain_state) : Prop :=
  ∀ p, p_assets (g p) = p_assets p ∧ p_balances (g p) = p_balances p ∧ p_bids (g p) = p_bids p
     ∧ p_asks (g p) = p_asks p ∧ p_shorts (g p) = p_shorts p
     ∧ p_collateral (g p) = p_collateral p ∧ p_accounts (g p) = p_accounts p.
Lemma moved_neutral f g e :
  holds_no_funds g → moved e (on_current_state (on_state f g) e) (λ _, 0).
Proof.
  intros Hg Hwf. split.
  { apply wf_order; [|done]. intros p. destruct (Hg p) as (?&?&?&?&?&?&?). done. }
  intros id. unfold excess, get_fees. simpl. destruct Hwf as [Hp _].
  destruct (es_current_state e) as [|d|p prev]; [done|done|]. simpl.
  destruct (Hg p) as (?&?&?&?&?&?&?). unfold holdings, supply.
  rewrite !tsum_same with (p := p) (p' := g p) by done. apply eq64_eq. lia.
Qed.

(** ** The transaction's own balance *)
Lemma moved_funds e e' id' x y :
  es_current_state e' = es_current_state e → es_balance e' = <[id' := x]> (es_balance e) →
  x ≡₆₄ get_fees id' e + y → moved e e' (λ id, at_id id id' y).
Proof.
  intros Es Eb Ex Hwf. rewrite Es. split; [done|]. intros id. unfold excess.
  rewrite Es. unfold get_fees at 1. rewrite Eb, lookup_insert. unfold at_id, get_fees in *.
  destruct (Z.eqb_spec id' id) as [->|]; case_decide; simplify_eq; simpl.
  - rewrite Ex. apply eq64_eq. lia.
  - apply eq64_eq. lia.
Qed.

Lemma add_balance_spec a e e' :
  add_balance a e = Ok e' →
  es_current_state e' = es_current_state e ∧
  moved e e' (λ id, at_id id (asset_id a) (amount a)).
Proof.
  unfold add_balance. intros Hr. res_inv Hr. split; [done|].
  destruct (es_balance e !! asset_id a) as [b|] eqn:Eb;
    eapply moved_funds; try reflexivity; unfold get_fees; rewrite Eb; simpl.
  - apply s64_eq64.
  - reflexivity.
Qed.
Lemma sub_balance_spec k a e e' :
  sub_balance k a e = Ok e' →
  es_current_state e' = es_current_state e ∧
  moved e e' (λ id, - at_id id (asset_id a) (amount a)).
Proof.
  unfold sub_balance. intros Hr. res_inv Hr. split; [done|].
  apply (moved_ext e _ (λ id, at_id id (asset_id a) (- amount a)));
    [|intros id; rewrite at_id_opp; reflexivity].
  destruct (es_balance e !! asset_id a) as [b|] eqn:Eb;
    eapply moved_funds; try reflexivity; unfold get_fees; rewrite Eb; simpl; apply s64_eq64.
Qed.
Lemma adjust_vote_spec slate amount e e' :
  adjust_vote slate amount e = Ok e' →
  es_current_state e' = es_current_state e ∧ es_balance e' = es_balance e.
Proof. unfold adjust_vote. case_match; intros Hr; res_inv Hr; done. Qed.
Lemma add_required_deposit_spec k a e e' :
  add_required_deposit k a e = Ok e' →
  es_current_state e' = es_current_state e ∧ es_balance e' = es_balance e.
Proof. unfold add_required_deposit. intros Hr. res_inv Hr. done. Qed.
Lemma check_withdraw_condition_spec c amount data e e' :
  check_withdraw_condition c amount data e = Ok e' →
  es_current_state e' = es_current_state e ∧ es_balance e' = es_balance e.
Proof. unfold check_withdraw_condition. repeat case_match; intros Hr; res_inv Hr; done. Qed.
Lemma require_fee_spec fee e e' : require_fee fee e = Ok e' →
  es_current_state e' = es_current_state e ∧ es_balance e' = es_balance e.
Proof. unfold require_fee. intros Hr. res_inv Hr. done. Qed.

(** A conditional vote adjustment, as the operations write it. *)
Lemma if_adjust_vote_spec (b : bool) slate amount e e' :
  (if b then adjust_vote slate amount e else Ok e) = Ok e' →
  es_current_state e' = es_current_state e ∧ es_balance e' = es_balance e.
Proof. destruct b; [apply adjust_vote_spec|by intros [= ->]]. Qed.

(** Updates of one record: only its amount counts. *)
Lemma moved_update_balance r0 r amount e :
  br_condition r = br_condition r0 → br_balance r ≡₆₄ br_balance r0 + amount →
  get_balance_record (br_id r0) (es_current_state e) = Some r0
  ∨ get_balance_record (br_id r0) (es_current_state e) = None ∧ br_balance r0 = 0 →
  moved e (on_current_state (store_balance_record r) e)
    (λ id, at_id id (br_asset_id r0) amount).
Proof.
  intros Ec Eb Hold. eapply moved_ext; [apply moved_balance|]. intros id.
  unfold br_id, br_asset_id, in_balance, br_asset_id in *. rewrite Ec.
  destruct Hold as [->|[-> E0]]; simpl; rewrite Eb; [|rewrite E0]; solve_at.
Qed.
Lemma moved_update_account r0 r amount e :
  ac_id r = ac_id r0 →
  from_option ds_pay_balance 0 (ac_delegate_info r)
  ≡₆₄ from_option ds_pay_balance 0 (ac_delegate_info r0) + amount →
  get_account_record (ac_id r0) (es_current_state e) = Some r0
  ∨ get_account_record (ac_id r0) (es_current_state e) = None
    ∧ from_option ds_pay_balance 0 (ac_delegate_info r0) = 0 →
  moved e (on_current_state (store_account_record r) e) (λ id, at_id id 0 amount).
Proof.
  intros Ec Eb Hold. eapply moved_ext; [apply moved_account|]. intros id.
  rewrite Ec. unfold in_pay. rewrite Eb.
  destruct Hold as [->|[-> E0]]; simpl; [|rewrite E0]; solve_at.
Qed.
Lemma moved_update_asset r0 r fees shares e :
  ar_id r = ar_id r0 → ar_collected_fees r ≡₆₄ ar_collected_fees r0 + fees →
  ar_current_share_supply r ≡₆₄ ar_current_share_supply r0 + shares →
  get_asset_record (ar_id r0) (es_current_state e) = Some r0 →
  moved e (on_current_state (store_asset_record r) e)
    (λ id, at_id id (ar_id r0) (fees - shares)).
Proof.
  intros Ec Ef Es Hold. eapply moved_ext; [apply moved_asset|]. intros id.
  rewrite Ec, Hold. simpl. unfold in_fees, in_supply. rewrite Ef, Es. solve_at.
Qed.

(** ** The operations *)
Definition conserves e e' : Prop := moved e e' (λ _, 0).

Lemma get_balance_store_asset k r s : is_pending s →
  get_balance_record k (store_asset_record r s) = get_balance_record k s.
Proof. by destruct s. Qed.

Lemma deposit_conserves amount c e e' :
  deposit_evaluate amount c e = Ok e' → conserves e e'.
Proof.
  unfold deposit_evaluate. intros Hr Hwf. pose proof Hwf as [_ [Hk _]]. revert Hwf.
  set (r0 := default (balance_record_of c) _) in Hr.
  assert (get_balance_record (br_id r0) (es_current_state e) = Some r0 ∨
    get_balance_record (br_id r0) (es_current_state e) = None ∧ br_balance r0 = 0) as Hold.
  { subst r0. destruct (get_balance_record (address_of_condition c) _) as [r0|] eqn:E; simpl.
    - left. by rewrite (Hk _ _ E).
    - right. done. }
  clearbody r0. res_inv Hr.
  match goal with Hs : sub_balance _ _ _ = Ok _ |- _ => apply sub_balance_spec in Hs as [Es Hs] end.
  match goal with Hs : (if _ then adjust_vote _ _ _ else Ok _) = Ok ?e2 |- _ =>
    apply if_adjust_vote_spec in Hs as [Es2 Eb2] end.
  eapply moved_ext.
  { eapply moved_seq; [done|]. eapply moved_seq; [by apply moved_same|].
    apply (moved_update_balance r0 _ amount); [done| |by rewrite Es2, Es].
    simpl. apply s64_eq64. }
  intros id. simpl. change (br_asset_id (set_br_balance _ _)) with (br_asset_id r0). solve_at.
Qed.

Lemma withdraw_claim_input_conserves amount r e e' :
  br_asset_id r = 0 → get_balance_record (br_id r) (es_current_state e) = Some r →
  withdraw_claim_input amount r e = Ok e' → conserves e e'.
Proof.
  unfold withdraw_claim_input. intros Ha Hold Hr. res_inv Hr. apply Z.eqb_eq in Hg.
  assert (es_current_state v = es_current_state e ∧ es_balance v = es_balance e) as [Es Eb].
  { destruct (_ =? 0); [by simplify_eq|by eapply adjust_vote_spec]. }
  apply add_balance_spec in Hr as [_ Hm].
  eapply moved_ext.
  { eapply moved_seq; [by apply moved_same|]. eapply moved_seq; [|exact Hm].
    apply (moved_update_balance r _ (- amount)); [done| |rewrite Es; by left].
    simpl. apply eq64_eq. lia. }
  intros id. simpl. rewrite Ha. solve_at.
Qed.

Lemma claim_conserves id amount src dest sig e e' :
  claim_evaluate id amount src dest sig e = Ok e' → conserves e e'.
Proof.
  unfold claim_evaluate, check_claim_input. intros Hr Hwf. pose proof Hwf as [_ [Hk _]].
  res_inv Hr. match goal with Ha : (_ =? 0) = true |- _ => apply Z.eqb_eq in Ha end.
  match goal with Hs : get_balance_record _ _ = Some _ |- _ => pose proof (Hk _ _ Hs); subst id end.
  by eapply withdraw_claim_input_conserves.
Qed.

Lemma pay_yield_spec r a now e re :
  funds_wf (es_current_state e) →
  get_asset_record (br_asset_id r) (es_current_state e) = Some a →
  pay_yield r a now e = Ok re →
  ∃ y, br_condition re.1 = br_condition r ∧ br_balance re.1 ≡₆₄ br_balance r + y ∧
    (∀ k, get_balance_record k (es_current_state re.2)
          = get_balance_record k (es_current_state e)) ∧
    moved e re.2 (λ id, at_id id (br_asset_id r) (- y)).
Proof.
  unfold pay_yield. intros Hwf Ha Hr. res_inv Hr. case_match; simplify_eq/=.
  - exists (Asset.amount v). split_and!; [done|apply s64_eq64| |].
    { intros k. apply get_balance_store_asset, Hwf. }
    destruct Hwf as [_ [_ [Hka _]]]. pose proof (Hka _ _ Ha) as Eid. rewrite <- Eid in Ha |- *.
    eapply moved_ext.
    { eapply (moved_seq _ (add_yield _ _ e)); [by apply moved_same|].
      apply (moved_update_asset a _ (- Asset.amount v) 0); [done| | |done]; simpl.
      - rewrite s64_eq64. apply eq64_eq. lia.
      - apply eq64_eq. lia. }
    intros id. simpl. rewrite Z.sub_0_r. reflexivity.
  - exists 0. split_and!; [done|apply eq64_eq; lia|done|]. eapply moved_ext; [by apply moved_same|].
    intros id. solve_at.
Qed.

Lemma withdraw_conserves id amount data e e' :
  withdraw_evaluate id amount data e = Ok e' → conserves e e'.
Proof.
  unfold withdraw_evaluate. intros Hr Hwf. pose proof Hwf as [_ [Hk [Hka _]]].
  res_inv Hr. apply check_withdraw_condition_spec in Hv0 as [Es0 Eb0].
  apply if_adjust_vote_spec in Hv1 as [Es1 Eb1]. rewrite <- (Hk _ _ Hv) in Hv.
  assert (es_current_state v1 = es_current_state e) as Es by congruence.
  assert (∃ y, br_condition v4.1 = br_condition v ∧ br_balance v4.1 ≡₆₄ br_balance v + y ∧
    (∀ k, get_balance_record k (es_current_state v4.2)
          = get_balance_record k (es_current_state v1)) ∧
    moved v1 v4.2 (λ id, at_id id (br_asset_id v) (- y))) as (y & Ec & Ey & Eg & Hm).
  { case_match; [eapply pay_yield_spec; [by rewrite Es|done|done]|]. simplify_eq/=.
    exists 0. split_and!; [done|apply eq64_eq; lia|done|]. eapply moved_ext; [by apply moved_same|].
    intros i. solve_at. }
  apply add_balance_spec in Hr as [_ Hr]. revert Hwf. eapply moved_ext.
  { eapply moved_seq; [apply (moved_same e v1); congruence|].
    eapply moved_seq; [exact Hm|]. eapply moved_seq; [|exact Hr].
    apply (moved_update_balance v _ (y - amount)); [done| |rewrite Eg, Es; by left].
    simpl. rewrite s64_eq64, Ey. apply eq64_eq. lia. }
  intros i. simpl. replace (br_asset_id (set_br_last_update _ _)) with (br_asset_id v); [solve_at|].
  unfold br_asset_id. simpl. by rewrite Ec.
Qed.

Lemma burn_conserves amnt id message sig e e' :
  burn_evaluate amnt id message sig e = Ok e' → conserves e e'.
Proof.
  unfold burn_evaluate. intros Hr Hwf. pose proof Hwf as [_ [_ [Hka _]]]. res_inv Hr.
  match goal with Ha : get_asset_record _ _ = Some _ |- _ =>
    pose proof (Hka _ _ Ha) as Eid; rewrite <- Eid in Ha end.
  match goal with Hs : sub_balance _ _ _ = Ok _ |- _ => apply sub_balance_spec in Hs as [_ Hs] end.
  revert Hwf. eapply moved_ext.
  { eapply moved_seq; [|eapply moved_seq; [done|by apply moved_neutral]].
    apply (moved_update_asset v _ 0 (- amount amnt)); [done| | |done]; simpl.
    - apply eq64_eq. lia.
    - rewrite s64_eq64. apply eq64_eq. lia. }
  intros i. simpl. rewrite Eid. solve_at.
Qed.

Lemma define_slate_conserves slate e e' :
  define_delegate_slate_evaluate slate e = Ok e' → conserves e e'.
Proof.
  unfold define_delegate_slate_evaluate. intros Hr. res_inv Hr. case_match; [by simplify_eq; apply moved_same|].
  res_inv Hr. by apply moved_neutral.
Qed.

(** ** Operations on accounts *)
Lemma require_delegate_fee_spec rate e e' : require_delegate_fee rate e = Ok e' →
  es_current_state e' = es_current_state e ∧ es_balance e' = es_balance e.
Proof. unfold require_delegate_fee. intros Hr. res_inv Hr. by eapply require_fee_spec. Qed.

Lemma new_account_id_spec s x : new_account_id s = Ok x →
  ∃ v, x.2 = set_property last_account_id_prop v s.
Proof. unfold new_account_id. intros Hr. res_inv Hr. by eexists. Qed.
Lemma get_account_set_property k id v s : is_pending s →
  get_account_record k (set_property id v s) = get_account_record k s.
Proof. by destruct s. Qed.

Lemma register_conserves name data owner active rate meta e e' :
  (∀ x, new_account_id (es_current_state e) = Ok x →
        get_account_record x.1 (es_current_state e) = None) →
  register_account_evaluate name data owner active rate meta e = Ok e' → conserves e e'.
Proof.
  unfold register_account_evaluate. intros Hfresh Hr Hwf. res_inv Hr.
  match goal with Hs : require_fee _ _ = Ok _ |- _ => apply require_fee_spec in Hs as [Es Eb] end.
  match goal with Hs : new_account_id _ = Ok ?x, Hd : (if op_is_delegate _ then _ else _) = Ok ?re,
      Hk : ac_set_active_key _ _ _ = Ok _ |- _ =>
    rename x into idst; rename re into rs; rename Hs into Hnew; rename Hd into Hdel; rename Hk into Hkey end.
  rewrite Es in Hnew. pose proof (Hfresh _ Hnew) as Hnone.
  destruct (new_account_id_spec _ _ Hnew) as [v' Ev].
  unfold ac_set_active_key in Hkey. res_inv Hkey.
  assert (ac_id rs.1 = idst.1 ∧ from_option ds_pay_balance 0 (ac_delegate_info rs.1) = 0 ∧
    es_current_state rs.2 = idst.2 ∧ es_balance rs.2 = es_balance e) as (Eid & Epay & Es' & Eb').
  { destruct (op_is_delegate rate); [|by simplify_eq]. res_inv Hdel.
    match goal with Hs : require_delegate_fee _ _ = Ok _ |- _ =>
      apply require_delegate_fee_spec in Hs as [E1' E2'] end. simpl. by rewrite E1', E2'. }
  set (e1 := set_es_current_state idst.2 e).
  assert (moved e e1 (λ _, 0)) as Hm1.
  { subst e1. rewrite Ev. apply (moved_neutral _ _ e). done. }
  pose proof Hwf as Hwf'. revert Hwf'. eapply moved_ext.
  { eapply moved_seq; [exact Hm1|]. eapply moved_seq; [apply (moved_same e1 rs.2); done|].
    apply (moved_update_account rs.1 _ 0); [done| |].
    - simpl. apply eq64_eq. lia.
    - right. rewrite Eid, Es', Ev, get_account_set_property by apply Hwf. done. }
  intros id. simpl. solve_at.
Qed.

Lemma update_account_conserves id data active rate e e' :
  update_account_evaluate id data active rate e = Ok e' → conserves e e'.
Proof.
  unfold update_account_evaluate. intros Hr Hwf. pose proof Hwf as [_ [_ [_ Hk]]]. res_inv Hr.
  match goal with Hs : get_account_record _ _ = Some ?r |- _ =>
    rewrite <- (Hk _ _ Hs) in Hs; rename r into r0; rename Hs into Hold end.
  assert (∀ k now r r', ac_set_active_key now k r = Ok r' →
    ac_id r' = ac_id r ∧ ac_delegate_info r' = ac_delegate_info r) as Hset.
  { unfold ac_set_active_key. intros ???? Hs. by res_inv Hs. }
  match goal with Hs : authorize_update _ _ _ = Ok ?r |- _ =>
    rename r into r1; assert (ac_id r1 = ac_id r0 ∧ ac_delegate_info r1 = ac_delegate_info r0) as [E1 D1] end.
  { unfold authorize_update in *. repeat case_match;
      match goal with Hs : _ = Ok r1 |- _ => res_inv Hs; by eauto end. }
  match goal with Hs : set_new_key _ _ ?r2 _ = Ok ?r |- _ =>
    rename r into r3; assert (ac_id r3 = ac_id r2 ∧ ac_delegate_info r3 = ac_delegate_info r2) as [E3 D3] end.
  { unfold set_new_key in *. repeat case_match;
      match goal with Hs : _ = Ok r3 |- _ => res_inv Hs; by eauto end. }
  match goal with Hs : update_delegate_info _ ?r _ = Ok ?re |- _ =>
    rename re into rs; assert (ac_id rs.1 = ac_id r ∧
     from_option ds_pay_balance 0 (ac_delegate_info rs.1)
     = from_option ds_pay_balance 0 (ac_delegate_info r) ∧
     es_current_state rs.2 = es_current_state e ∧ es_balance rs.2 = es_balance e) as (E2 & D2 & Es & Eb) end.
  { unfold update_delegate_info in *.
    match goal with Hs : _ = Ok rs |- _ => res_inv Hs; destruct (op_is_delegate rate);
      [|by simplify_eq]; case_match eqn:Ed; res_inv Hs; simpl; rewrite ?Ed end; [done|].
    match goal with Hs : require_delegate_fee _ _ = Ok _ |- _ =>
      apply require_delegate_fee_spec in Hs as [E1' E2'] end. simpl. by rewrite E1', E2'. }
  revert Hwf. eapply moved_ext.
  { eapply moved_seq; [by apply (moved_same e rs.2)|].
    apply (moved_update_account r0 _ 0); [| |left; by rewrite Es].
    - rewrite E3. simpl. rewrite E2. by destruct data.
    - rewrite D3. simpl. rewrite D2. apply eq64_eq. destruct data; simpl; rewrite D1; lia. }
  intros i. simpl. solve_at.
Qed.

Lemma withdraw_pay_conserves amount id e e' :
  withdraw_pay_evaluate amount id e = Ok e' → conserves e e'.
Proof.
  unfold withdraw_pay_evaluate. intros Hr Hwf. pose proof Hwf as [_ [_ [_ Hk]]]. res_inv Hr.
  match goal with Hs : get_account_record _ _ = Some ?r |- _ =>
    rewrite <- (Hk _ _ Hs) in Hs; rename r into r0; rename Hs into Hold end.
  match goal with Hs : ac_delegate_info _ = Some ?d |- _ => rename d into d0; rename Hs into Hd end.
  apply add_balance_spec in Hr as [_ Hr]. revert Hwf. eapply moved_ext.
  { eapply (moved_seq e (set_es_net_delegate_votes _ e)); [by apply moved_same|].
    eapply moved_seq; [|exact Hr].
    apply (moved_update_account r0 _ (- amount)); [done| |by left].
    simpl. rewrite Hd. simpl. rewrite s64_eq64. apply eq64_eq. lia. }
  intros i. simpl. solve_at.
Qed.

Lemma set_market_dirty_spec q b s s' :
  set_market_dirty q b s = Ok s' → s' = on_state id (p_set_market_dirty q b) s.
Proof. destruct s; simpl; intros [= <-]; done. Qed.
Lemma update_feed_conserves f v e e' :
  update_feed_evaluate f v e = Ok e' → conserves e e'.
Proof.
  unfold update_feed_evaluate. intros Hr. res_inv Hr.
  match goal with Hs : set_market_dirty _ _ _ = Ok _ |- _ => apply set_market_dirty_spec in Hs as -> end.
  eapply moved_ext.
  { eapply moved_seq; [apply moved_neutral|apply (moved_neutral id)]; done. }
  intros i. simpl. solve_at.
Qed.

(** ** Operations on markets *)
Lemma contrib_order (f : Z → market_index_key → order_record → Z) id k o a :
  (∀ o, f id k o = at_id id a (or_balance o)) →
  contrib (f id) k o = at_id id a (or_balance (default order_record_default o)).
Proof. intros Hf. destruct o; simpl; [apply Hf|by rewrite at_id_zero]. Qed.

Lemma move_order_funds_spec amnt a cur e oe :
  move_order_funds amnt (Asset amnt a) cur e = Ok oe →
  oe.1 = default order_record_default cur ∧ es_current_state oe.2 = es_current_state e ∧
  moved e oe.2 (λ id, - at_id id a amnt).
Proof.
  unfold move_order_funds. intros Hr. res_inv Hr. destruct (amnt <? 0); res_inv Hr.
  - match goal with Hs : add_balance _ _ = Ok _ |- _ => apply add_balance_spec in Hs as [Es Hs] end.
    split_and!; [by simplify_eq/=|done|]. eapply moved_ext; [done|]. intros id. simpl. solve_at.
  - match goal with Hs : sub_balance _ _ _ = Ok _ |- _ => by apply sub_balance_spec in Hs as [Es Hs] end.
Qed.

(** The three order tables: the order grows by what the transaction pays. *)
Ltac order_conserves moved_table :=
  let Hr := fresh "Hr" in let Eo := fresh "Eo" in let Es := fresh "Es" in let i := fresh "i" in
  intros Hr; res_inv Hr;
  match goal with Hs : move_order_funds _ _ _ _ = Ok ?oe |- _ =>
    apply move_order_funds_spec in Hs as (Eo & Es & Hs) end;
  eapply moved_ext;
  [ eapply moved_seq; [eassumption|apply moved_table]
  | intros i; cbv beta; rewrite Es;
    erewrite contrib_order by (intros; reflexivity); rewrite <- Eo;
    unfold in_bid, in_ask, touch_order; simpl; solve_at ].

Lemma bid_conserves amnt k e e' : bid_evaluate amnt k e = Ok e' → conserves e e'.
Proof. unfold bid_evaluate. order_conserves moved_bid. Qed.
Lemma ask_conserves amnt k e e' : ask_evaluate amnt k e = Ok e' → conserves e e'.
Proof. unfold ask_evaluate. order_conserves moved_ask. Qed.
Lemma short_conserves amnt k limit e e' : short_evaluate amnt k limit e = Ok e' → conserves e e'.
Proof. unfold short_evaluate. order_conserves moved_short. Qed.

Lemma asset_sub_eq64 a b c : asset_sub a b = Ok c → amount c ≡₆₄ amount a - amount b.
Proof. unfold asset_sub. intros Hr. res_inv Hr. case_match; simplify_eq/=. apply s64_eq64. Qed.

Lemma split_cover_payment_spec d c now x :
  split_cover_payment d c now = Ok x →
  amount x.1.1 + amount x.1.2 ≡₆₄ amount d ∧
  cr_collateral_balance x.2 = cr_collateral_balance c.
Proof.
  unfold split_cover_payment. intros Hr. res_inv Hr. case_match; res_inv Hr; simpl; split; try done;
    match goal with Hs : asset_sub _ _ = Ok _ |- _ => rewrite (asset_sub_eq64 _ _ _ Hs) end;
    apply eq64_eq; simpl; lia.
Qed.

Lemma get_collateral_store_asset k r s : is_pending s →
  get_collateral_record k (store_asset_record r s) = get_collateral_record k s.
Proof. by destruct s. Qed.
Lemma cover_settle_spec amnt k p e ce :
  funds_wf (es_current_state e) → cover_settle amnt k p e = Ok ce →
  moved e ce.2 (λ id, - at_id id (base_asset_id (order_price k)) (cr_collateral_balance ce.1)).
Proof.
  unfold cover_settle. intros Hwf Hr. pose proof Hwf as [Hp [_ [Hka _]]]. res_inv Hr.
  match goal with Hs : sub_balance _ _ _ = Ok _ |- _ => apply sub_balance_spec in Hs as [Es Hs] end.
  match goal with Hs : split_cover_payment _ _ _ = Ok ?x |- _ =>
    apply split_cover_payment_spec in Hs as [Epaid Ecoll]; rename x into sp end.
  match goal with Ha : get_asset_record _ _ = Some ?a, Hc : get_collateral_record _ _ = Some ?c |- _ =>
    rewrite Es in Ha, Hc; rename a into a0; rename c into c0; rename Ha into Hasset; rename Hc into Hcoll end.
  pose proof (Hka _ _ Hasset) as Eid. rewrite <- Eid in Hasset.
  simpl. rewrite Ecoll. eapply moved_ext.
  { eapply moved_seq; [done|]. eapply moved_seq; [|apply moved_collateral].
    apply (moved_update_asset a0 _ (amount sp.1.2) (- amount sp.1.1)); [done| | |by rewrite Es];
      simpl; rewrite s64_eq64; apply eq64_eq; lia. }
  intros i. simpl. rewrite Es, Eid.
  rewrite get_collateral_store_asset, Hcoll by done.
  simpl. unfold in_collateral. simpl. simpl in Epaid. rewrite <- Epaid. solve_at.
Qed.

(** What re-indexing a position requires to keep every asset's funds: the price
    has the base asset of the old one, and no other position sits at the key. *)
Definition key_free (old k : market_index_key) s : Prop :=
  base_asset_id (order_price k) = base_asset_id (order_price old) ∧
  from_option cr_collateral_balance 0 (get_collateral_record k s) = 0.

Lemma store_position_spec old k c e :
  key_free old k (es_current_state e) →
  moved e (on_current_state (store_collateral_record k c) e)
    (λ id, at_id id (base_asset_id (order_price old)) (cr_collateral_balance c)).
Proof.
  intros [Eb Ef]. eapply moved_ext; [apply moved_collateral|]. intros i. simpl.
  unfold in_collateral, contrib. rewrite Eb.
  destruct (get_collateral_record k (es_current_state e)); simpl in *; [rewrite Ef|]; solve_at.
Qed.

Lemma cover_conserves amnt k p e e' :
  (∀ ce k', cover_settle amnt k p e = Ok ce → 0 < cr_payoff_balance ce.1 →
     cover_key k p ce.1 = Ok k' → key_free k k' (es_current_state ce.2)) →
  cover_evaluate amnt k p e = Ok e' → conserves e e'.
Proof.
  unfold cover_evaluate, reindex_cover. intros Hfree Hr Hwf. res_inv Hr.
  match goal with Hs : cover_settle _ _ _ _ = Ok ?x |- _ =>
    rename x into ce; rename Hs into Hset; pose proof (cover_settle_spec _ _ _ _ _ Hwf Hset) as Hm end.
  revert Hwf. destruct (Z.ltb_spec 0 (cr_payoff_balance ce.1)); res_inv Hr.
  - eapply moved_ext; [eapply moved_seq; [done|eapply store_position_spec; eauto]|].
    intros i. simpl. solve_at.
  - apply add_balance_spec in Hr as [_ Hr].
    eapply moved_ext; [eapply moved_seq; [done|done]|]. intros i. simpl. solve_at.
Qed.

Lemma add_collateral_settle_spec amnt k e ce :
  funds_wf (es_current_state e) → add_collateral_settle amnt k e = Ok ce →
  moved e ce.2 (λ id, - at_id id (base_asset_id (order_price k)) (cr_collateral_balance ce.1)).
Proof.
  unfold add_collateral_settle. intros Hwf Hr. res_inv Hr.
  match goal with Hs : sub_balance _ _ _ = Ok _ |- _ => apply sub_balance_spec in Hs as [Es Hs] end.
  match goal with Hc : get_collateral_record _ _ = Some _ |- _ => rename Hc into Hcoll end.
  eapply moved_ext; [eapply moved_seq; [done|apply moved_collateral]|].
  intros i. cbv beta. rewrite Hcoll. unfold in_collateral. simpl. solve_at.
Qed.
Lemma add_collateral_conserves amnt k e e' :
  (∀ ce k', add_collateral_settle amnt k e = Ok ce → cover_key k None ce.1 = Ok k' →
     key_free k k' (es_current_state ce.2)) →
  add_collateral_evaluate amnt k e = Ok e' → conserves e e'.
Proof.
  unfold add_collateral_evaluate. intros Hfree Hr Hwf. res_inv Hr.
  match goal with Hs : add_collateral_settle _ _ _ = Ok ?x |- _ =>
    rename Hs into Hset; pose proof (add_collateral_settle_spec _ _ _ _ Hwf Hset) as Hm end.
  revert Hwf. eapply moved_ext; [eapply moved_seq; [done|eapply store_position_spec; eauto]|].
  intros i. simpl. solve_at.
Qed.

(** ** Whole transactions *)

(** What an operation needs for conservation: a new account id that is free, and
    a re-indexed position that stays in its market at a free key. *)
Definition op_regular (o : operation) e : Prop :=
  match o with
  | register_account_operation _ _ _ _ _ _ =>
      ∀ x, new_account_id (es_current_state e) = Ok x →
           get_account_record x.1 (es_current_state e) = None
  | cover_operation amnt k p =>
      ∀ ce k', cover_settle amnt k p e = Ok ce → 0 < cr_payoff_balance ce.1 →
        cover_key k p ce.1 = Ok k' → key_free k k' (es_current_state ce.2)
  | add_collateral_operation amnt k =>
      ∀ ce k', add_collateral_settle amnt k e = Ok ce → cover_key k None ce.1 = Ok k' →
        key_free k k' (es_current_state ce.2)
  | _ => True
  end.
Fixpoint ops_regular (l : list operation) e : Prop :=
  match l with
  | [] => True
  | o :: l' => op_regular o e ∧
      ∀ e', evaluate_operation o e = Ok e' → ops_regular l' (next_op e')
  end.

Lemma conserves_refl e : conserves e e.
Proof. by apply moved_same. Qed.
Lemma conserves_trans e e1 e' : conserves e e1 → conserves e1 e' → conserves e e'.
Proof.
  intros H1 H2. eapply moved_ext; [eapply moved_seq; [exact H1|exact H2]|].
  intros id. apply eq64_eq. lia.
Qed.

Lemma operation_conserves o e e' :
  op_regular o e → evaluate_operation o e = Ok e' → conserves e e'.
Proof.
  destruct o; simpl; intros Hreg; try done.
  - apply withdraw_conserves.
  - apply deposit_conserves.
  - by apply register_conserves.
  - apply update_account_conserves.
  - apply withdraw_pay_conserves.
  - apply bid_conserves.
  - apply ask_conserves.
  - apply short_conserves.
  - by apply cover_conserves.
  - by apply add_collateral_conserves.
  - apply define_slate_conserves.
  - apply update_feed_conserves.
  - apply burn_conserves.
  - apply claim_conserves.
Qed.

Lemma operations_conserve l e e' :
  ops_regular l e →
  rfold (λ o e, let* e := evaluate_operation o e in Ok (next_op e)) l e = Ok e' →
  conserves e e'.
Proof.
  revert e. induction l as [|o l IH]; simpl; intros e Hreg Hr.
  { simplify_eq. apply conserves_refl. }
  destruct Hreg as [Ho Hl]. res_inv Hr. simplify_eq.
  match goal with Hs : evaluate_operation _ _ = Ok ?e1 |- _ =>
    apply (conserves_trans _ e1); [by eapply operation_conserves|];
    apply (conserves_trans _ (next_op e1)); [by apply moved_same|] end. eauto.
Qed.

Lemma alt_fee_spec x e e' : alt_fee x e = Ok e' →
  es_current_state e' = es_current_state e ∧ es_balance e' = es_balance e.
Proof. unfold alt_fee. intros Hr. repeat (res_inv Hr; case_match); res_inv Hr; done. Qed.
Lemma alt_fees_spec l e e' : rfold alt_fee l e = Ok e' →
  es_current_state e' = es_current_state e ∧ es_balance e' = es_balance e.
Proof.
  apply (rfold_inv (λ e', es_current_state e' = es_current_state e ∧ es_balance e' = es_balance e));
    [|done].
  intros x e1 e2 _ [Es Eb] Hr. apply alt_fee_spec in Hr as [-> ->]. done.
Qed.

Lemma collect_fee_spec x e e' : collect_fee x e = Ok e' →
  es_balance e' = es_balance e ∧ 0 ≤ x.2 ∧ moved e e' (λ id, at_id id x.1 x.2).
Proof.
  unfold collect_fee. intros Hr. res_inv Hr. apply Z.leb_le in Hg.
  destruct (Z.ltb_spec 0 x.2); res_inv Hr; split_and!; try done.
  - intros Hwf. pose proof Hwf as [_ [_ [Hka _]]].
    match goal with Ha : get_asset_record _ _ = Some _ |- _ =>
      pose proof (Hka _ _ Ha) as Eid; rewrite <- Eid in Ha end.
    revert Hwf. eapply moved_ext.
    { apply (moved_update_asset v _ x.2 0); [done|simpl; apply s64_eq64| |done].
      simpl. apply eq64_eq. lia. }
    intros i. rewrite Eid. solve_at.
  - eapply moved_ext; [by apply moved_same|]. intros i. replace x.2 with 0 by lia. solve_at.
Qed.

Definition lsum id (l : list (Z * Z)) : Z := foldr (λ x acc, at_id id x.1 x.2 + acc) 0 l.
Lemma lsum_map_asc id (m : gmap Z Z) : lsum id (map_asc m) = default 0 (m !! id).
Proof.
  assert (∀ l : list (Z * Z), NoDup l.*1 →
    lsum id l = default 0 ((list_to_map l : gmap Z Z) !! id)) as Hl.
  { induction l as [|[k v] l IH]; simpl; intros Hn; [by rewrite lookup_empty|].
    apply NoDup_cons in Hn as [Hk Hn]. rewrite IH by done. unfold at_id.
    destruct (Z.eqb_spec k id) as [->|].
    - rewrite lookup_insert_eq, (not_elem_of_list_to_map_1 l) by done. simpl. lia.
    - by rewrite lookup_insert_ne by done. }
  rewrite Hl by apply map_asc_NoDup.
  by rewrite (list_to_map_proper (map_asc m) (map_to_list m)), list_to_map_to_list
    by (apply map_asc_NoDup || apply map_asc_perm).
Qed.

Lemma collect_fees_spec l e e' : rfold collect_fee l e = Ok e' →
  es_balance e' = es_balance e ∧ Forall (λ x, 0 ≤ x.2) l ∧ moved e e' (λ id, lsum id l).
Proof.
  revert e. induction l as [|x l IH]; simpl; intros e Hr.
  { simplify_eq. split_and!; [done|constructor|by apply moved_same]. }
  res_inv Hr. match goal with Hs : collect_fee _ _ = Ok _ |- _ =>
    apply collect_fee_spec in Hs as (Eb & Hx & Hm) end.
  apply IH in Hr as (Eb' & Hl & Hm'). split_and!; [congruence|by constructor|].
  eapply moved_ext; [by eapply moved_seq|]. intros id. reflexivity.
Qed.

Lemma check_required_deposits_same l e e' : rfold check_required_deposit l e = Ok e' → e' = e.
Proof.
  revert e. induction l as [|x l IH]; simpl; intros e Hr; [by simplify_eq|].
  unfold check_required_deposit in Hr at 1. res_inv Hr. auto.
Qed.

Lemma post_evaluate_spec e e' : post_evaluate e = Ok e' →
  (∀ id, 0 ≤ get_fees id e) ∧ (∀ id, get_fees id e' = get_fees id e) ∧
  moved e e' (λ id, get_fees id e).
Proof.
  unfold post_evaluate. intros Hr. res_inv Hr.
  match goal with Hs : rfold alt_fee _ _ = Ok ?e1 |- _ =>
    apply alt_fees_spec in Hs as [Es Eb]; rename e1 into e2 end.
  match goal with Hs : rfold collect_fee _ _ = Ok ?e1 |- _ =>
    apply collect_fees_spec in Hs as (Eb' & Hpos & Hm); rename e1 into e3 end.
  apply check_required_deposits_same in Hr as ->.
  simpl in Es, Eb.
  assert (∀ id, default 0 (es_balance e2 !! id) = get_fees id e) as Hfees.
  { intros id. rewrite Eb. simpl. unfold get_fees.
    destruct (decide (id = 0)) as [->|];
      [by rewrite lookup_insert_eq|by rewrite lookup_insert_ne by done]. }
  split_and!.
  - intros id. rewrite <- Hfees. destruct (es_balance e2 !! id) as [b|] eqn:E; simpl; [|done].
    rewrite Forall_forall in Hpos. by apply (Hpos (id, b)), elem_of_map_asc.
  - intros id. unfold get_fees. rewrite Eb'. apply Hfees.
  - intros Hwf. assert (funds_wf (es_current_state e2)) as Hwf2 by by rewrite Es.
    destruct (Hm Hwf2) as [Hwf3 E3]. split; [done|]. intros id. rewrite E3, lsum_map_asc, Hfees.
    apply eq64_eq. unfold excess. rewrite Es.
    assert (get_fees id e2 = get_fees id e) as -> by apply Hfees. reflexivity.
Qed.

Lemma update_delegate_votes_conserves e e' :
  update_delegate_votes e = Ok e' → conserves e e' ∧ es_balance e' = es_balance e.
Proof.
  unfold update_delegate_votes.
  apply (rfold_inv (λ e', conserves e e' ∧ es_balance e' = es_balance e));
    [|split; [apply conserves_refl|done]].
  intros x e1 e2 _ [Hc Eb] Hr. res_inv Hr. split; [|done].
  eapply conserves_trans; [exact Hc|]. intros Hwf. pose proof Hwf as [_ [_ [_ Hk]]].
  match goal with Hs : get_account_record _ _ = Some ?r, Ha : ac_adjust_votes_for _ _ = Ok _ |- _ =>
    rewrite <- (Hk _ _ Hs) in Hs; rename r into r0; rename Hs into Hold;
    unfold ac_adjust_votes_for in Ha; res_inv Ha end.
  match goal with Hd : ac_delegate_info r0 = Some _ |- _ => rename Hd into Hinfo end.
  revert Hwf. eapply moved_ext.
  { apply (moved_update_account r0 _ 0); [done| |by left].
    rewrite Hinfo. simpl. apply eq64_eq. lia. }
  intros i. simpl. solve_at.
Qed.

Lemma begin_evaluate_spec t skip canonical e b :
  begin_evaluate t skip canonical e = Ok b →
  es_current_state b = es_current_state e ∧ es_balance b = ∅.
Proof. unfold begin_evaluate. intros Hr. res_inv Hr. destruct skip; res_inv Hr; by simplify_eq/=. Qed.

Lemma evaluate_moves t skip canonical e b e' :
  begin_evaluate t skip canonical e = Ok b →
  ops_regular (tx_operations (st_trx t)) (set_es_current_op_index 0 b) →
  evaluate t skip canonical e = Ok e' → funds_wf (es_current_state e) →
  funds_wf (es_current_state e') ∧
  ∀ id, holdings id (es_current_state e') - supply id (es_current_state e')
        ≡₆₄ holdings id (es_current_state e) - supply id (es_current_state e).
Proof.
  unfold evaluate, evaluate_operations. intros Hb Hreg Hr Hwf. rewrite Hb in Hr.
  cbn [rbind] in Hr. res_inv Hr.
  apply begin_evaluate_spec in Hb as [Es Eb]. apply operations_conserve in Hv; [|done].
  apply post_evaluate_spec in Hv0 as (_ & Efees & Hpost).
  apply update_delegate_votes_conserves in Hr as [Hvotes Eb'].
  destruct (Hv ltac:(by rewrite <- Es in Hwf)) as [Hwf1 E1].
  destruct (Hpost Hwf1) as [Hwf2 E2]. destruct (Hvotes Hwf2) as [Hwf3 E3].
  split; [done|]. intros id. specialize (E1 id). specialize (E2 id). specialize (E3 id).
  rewrite E2, E1 in E3. unfold excess in E3. simpl in E3. rewrite Es in E3.
  assert (get_fees id (set_es_current_op_index 0 b) = 0) as E0.
  { unfold get_fees. simpl. by rewrite Eb, lookup_empty. }
  assert (get_fees id e' = get_fees id v) as E4.
  { rewrite <- Efees. unfold get_fees. by rewrite Eb'. }
  rewrite E0, E4 in E3. destruct E3 as [k Ek]. exists k. lia.
Qed.
End conserve.
