(* ===== verification/TransactionFacts.v ===== *)
(** What the evaluation of a transaction guarantees: conservation of funds, who
    may spend, what must be paid, and what the code lets through. *)
From S2P Require Export Conserve.

(** ** Examples to run the evaluation on *)
Definition ex_core : asset_record :=
  AssetRecord 0 "XCL" "core" "" v_null 0 100000 1 1 1000 5000 20.
Definition ex_condition (key : public_key_type) : withdraw_condition :=
  WithdrawCondition 0 0 (withdraw_with_signature (address_of_key key) None).
Definition ex_balance (key : public_key_type) (b : Z) : balance_record :=
  BalanceRecord b (ex_condition key) None 500 500.
Definition ex_header : signed_block_header :=
  SignedBlockHeader (BlockHeader 0 7 1000 0 0 0) 0.
Definition ex_db : chain_database :=
  set_db_head_block_header ex_header
    (set_db_assets {[0 := ex_core]}
      (set_db_balances {[br_id (ex_balance 11 980) := ex_balance 11 980]}
        (set_db_properties (list_to_map [(last_account_id_prop, v_int 4); (chain_id_prop, v_hash 1)])
          (chain_database_empty 1)))).
Definition ex_state : chain_state := Pending pending_chain_state_empty (Database ex_db).
Definition ex_eval : transaction_evaluation_state := eval_state_new ex_state 1.
(** Key 11 sends 60 to key 12, pays a fee of 30 and keeps the rest. *)
Definition ex_trx : signed_transaction :=
  SignedTransaction
    (Transaction 1100 None
       [withdraw_operation (br_id (ex_balance 11 980)) 90 [];
        deposit_operation 60 (ex_condition 12)]) [11].
Definition ex_run : result transaction_evaluation_state := evaluate ex_trx false false ex_eval.

Lemma ex_state_wf : funds_wf ex_state.
Proof.
  split; [done|]. split_and!; intros k r Hr; cbv beta in Hr.
  - apply (lookup_one _ (br_id (ex_balance 11 980)) _ (ex_balance 11 980)) in Hr as [-> ->]; done.
  - apply (lookup_one _ 0 _ ex_core) in Hr as [-> ->]; done.
  - by apply lookup_none in Hr.
Defined.

Section facts.
Context `{!Fc, !Crypto}.
Implicit Types (s : chain_state) (e : transaction_evaluation_state).

(** C5 (transaction_conserves). Evaluating a transaction, whatever its operations,
    changes for no asset the total the chain state holds of it (balances, orders,
    collateral, delegate pay and collected fees) less the asset's share supply:
    what is withdrawn and not deposited again is exactly what is collected as
    fees, and what is burned or covered leaves the supply too.  The arithmetic is
    that of [int64_t].  An operation that registers an account must find the new
    id free, and one that moves a short position must move it within its market
    to a key that is free: otherwise a record is overwritten
    ([cover_changes_market]). *)
Theorem transaction_conserves t skip canonical e b e' :
  funds_wf (es_current_state e) →
  begin_evaluate t skip canonical e = Ok b →
  ops_regular (tx_operations (st_trx t)) (set_es_current_op_index 0 b) →
  evaluate t skip canonical e = Ok e' →
  ∀ id, holdings id (es_current_state e') - supply id (es_current_state e')
        ≡₆₄ holdings id (es_current_state e) - supply id (es_current_state e).
Proof. intros Hwf Hb Hreg Hr. by destruct (evaluate_moves _ _ _ _ _ _ Hb Hreg Hr Hwf). Qed.

(** ** Fees *)
Lemma update_delegate_votes_fields e e' : update_delegate_votes e = Ok e' →
  es_balance e' = es_balance e ∧ es_required_fees e' = es_required_fees e ∧
  es_alt_fees_paid e' = es_alt_fees_paid e.
Proof.
  apply (rfold_inv (λ e', es_balance e' = es_balance e ∧ es_required_fees e' = es_required_fees e ∧
    es_alt_fees_paid e' = es_alt_fees_paid e)); [|done].
  intros x e1 e2 _ He Hr. by res_inv Hr.
Qed.

Lemma add_to_default f v :
  0 ≤ f → asset_add asset_default (Asset f 0) = Ok v → v = Asset f 0.
Proof.
  intros Hf. unfold asset_add. cbn. case_match eqn:E; [done|]. intros [= <-].
  rewrite s64_id; [done|]. unfold_int. simpl in *. lia.
Qed.

(** C32 (transaction_pays). A transaction that evaluates has overspent no asset,
    and what it leaves over in the core asset, with the alternative fees it
    paid, covers the fees its operations required. *)
Theorem transaction_pays t skip canonical e e' :
  evaluate t skip canonical e = Ok e' →
  (∀ id, 0 ≤ get_fees id e') ∧
  ∃ total, asset_add (Asset (get_fees 0 e') 0) (es_alt_fees_paid e') = Ok total ∧
    amount (es_required_fees e') ≤ amount total.
Proof.
  unfold evaluate. intros Hr. res_inv Hr.
  match goal with Hs : post_evaluate _ = Ok ?e2 |- _ =>
    apply post_evaluate_spec in Hs as (Hpos & Efees & _); rename e2 into e2' end.
  apply update_delegate_votes_fields in Hr as (Eb & Er & Ea).
  assert (∀ id, get_fees id e' = get_fees id e2') as Ef by (intros; unfold get_fees; by rewrite Eb).
  split; [intros id; rewrite Ef, Efees; apply Hpos|].
  rewrite Ea, Er, Ef. unfold get_fees.
  assert (0 ≤ default 0 (es_balance e2' !! 0)) as Hpos0.
  { change (0 ≤ get_fees 0 e2'). rewrite Efees. apply Hpos. }
  match goal with Hs : validate_required_fee _ = Ok _ |- _ =>
    unfold validate_required_fee in Hs; res_inv Hs end.
  exists v3. assert (v1 = Asset (default 0 (es_balance e2' !! 0)) 0) as <-.
  { destruct (es_balance e2' !! 0) as [f|]; [by apply add_to_default|by simplify_eq]. }
  split; [done|]. unfold asset_gtb in *. lia.
Qed.

(** ** Who may spend a balance *)

(** What authorization reads. *)
Definition auth e : gset address * bool := (es_signed_keys e, es_skip_signature_check e).
Lemma check_signature_auth a e e' : auth e' = auth e → check_signature a e' = check_signature a e.
Proof. unfold auth, check_signature. by intros [= -> ->]. Qed.

Lemma add_balance_auth a e e' : add_balance a e = Ok e' → auth e' = auth e.
Proof. unfold add_balance. intros Hr. by res_inv Hr. Qed.
Lemma sub_balance_auth k a e e' : sub_balance k a e = Ok e' → auth e' = auth e.
Proof. unfold sub_balance. intros Hr. by res_inv Hr. Qed.
Lemma adjust_vote_auth id x e e' : adjust_vote id x e = Ok e' → auth e' = auth e.
Proof. unfold adjust_vote. intros Hr. case_match; by res_inv Hr. Qed.
Lemma require_fee_auth x e e' : require_fee x e = Ok e' → auth e' = auth e.
Proof. unfold require_fee. intros Hr. by res_inv Hr. Qed.
Lemma add_required_deposit_auth k a e e' : add_required_deposit k a e = Ok e' → auth e' = auth e.
Proof. unfold add_required_deposit. intros Hr. by res_inv Hr. Qed.

(** Take the sub-operations of a run apart and compare what authorization reads. *)
Ltac auth_step :=
  match goal with
  | Hs : add_balance _ _ = Ok _ |- _ => apply add_balance_auth in Hs
  | Hs : sub_balance _ _ _ = Ok _ |- _ => apply sub_balance_auth in Hs
  | Hs : adjust_vote _ _ _ = Ok _ |- _ => apply adjust_vote_auth in Hs
  | Hs : require_fee _ _ = Ok _ |- _ => apply require_fee_auth in Hs
  | Hs : add_required_deposit _ _ _ = Ok _ |- _ => apply add_required_deposit_auth in Hs
  | Hs : (if ?b then _ else _) = Ok _ |- _ => destruct b
  | Hs : (match ?b with _ => _ end) = Ok _ |- _ => destruct b
  | Hs : rbind _ _ = Ok _ |- _ => res_inv Hs
  | Hs : (let _ := _ in _) = Ok _ |- _ => cbv zeta in Hs
  | Hs : Ok _ = Ok _ |- _ => injection Hs as Hs; subst
  | Hs : Err _ = Ok _ |- _ => discriminate Hs
  end.
Ltac auth_solve := repeat auth_step; unfold auth in *; simpl in *; congruence.

Lemma operation_auth o e e' : evaluate_operation o e = Ok e' → auth e' = auth e.
Proof.
  destruct o; simpl; intros Hr; try discriminate Hr.
  - unfold withdraw_evaluate, check_withdraw_condition, check_option, pay_yield, add_yield in Hr. auth_solve.
  - unfold deposit_evaluate in Hr. auth_solve.
  - unfold register_account_evaluate, require_delegate_fee in Hr. auth_solve.
  - unfold update_account_evaluate, update_delegate_info, require_delegate_fee in Hr. auth_solve.
  - unfold withdraw_pay_evaluate in Hr. auth_solve.
  - unfold bid_evaluate, move_order_funds in Hr. auth_solve.
  - unfold ask_evaluate, move_order_funds in Hr. auth_solve.
  - unfold short_evaluate, move_order_funds in Hr. auth_solve.
  - unfold cover_evaluate, cover_settle, reindex_cover in Hr. auth_solve.
  - unfold add_collateral_evaluate, add_collateral_settle in Hr. auth_solve.
  - unfold define_delegate_slate_evaluate in Hr. auth_solve.
  - unfold update_feed_evaluate in Hr. auth_solve.
  - unfold burn_evaluate in Hr. auth_solve.
  - unfold claim_evaluate, withdraw_claim_input in Hr. auth_solve.
Qed.

(** *** Which operations write a balance *)
(** The state after the last store of a run, peeled store by store. *)
Ltac state_step :=
  match goal with
  | Hs : add_balance _ _ = Ok _ |- _ => apply add_balance_spec in Hs as [Hs _]
  | Hs : sub_balance _ _ _ = Ok _ |- _ => apply sub_balance_spec in Hs as [Hs _]
  | Hs : adjust_vote _ _ _ = Ok _ |- _ => apply adjust_vote_spec in Hs as [Hs _]
  | Hs : require_fee _ _ = Ok _ |- _ => apply require_fee_spec in Hs as [Hs _]
  | Hs : add_required_deposit _ _ _ = Ok _ |- _ => apply add_required_deposit_spec in Hs as [Hs _]
  | Hs : new_account_id _ = Ok _ |- _ => apply new_account_id_spec in Hs as [? Hs]
  | Hs : set_market_dirty _ _ _ = Ok _ |- _ => apply set_market_dirty_spec in Hs
  | Hs : (if ?b then _ else _) = Ok _ |- _ => destruct b
  | Hs : (match ?b with _ => _ end) = Ok _ |- _ => destruct b
  | Hs : rbind _ _ = Ok _ |- _ => res_inv Hs
  | Hs : (let _ := _ in _) = Ok _ |- _ => cbv zeta in Hs
  | Hs : Ok _ = Ok _ |- _ => injection Hs as Hs; subst
  | Hs : Err _ = Ok _ |- _ => discriminate Hs
  end.
(** On a pending state the stores compute. *)
Ltac balances_solve :=
  let Hp := fresh "Hp" in let Es := fresh "Es" in
  match goal with |- is_pending (es_current_state ?e) → _ =>
    intros Hp; destruct (es_current_state e) as [|?d|?p ?prev] eqn:Es; [done|done|] end;
  repeat (progress simpl in * || match goal with
    | Hs : es_current_state _ = _ |- _ => rewrite Hs in *; clear Hs
    | Hs : _ = set_property _ _ _ |- _ => rewrite Hs in *; clear Hs
    | Hs : _ = on_state _ _ _ |- _ => rewrite Hs in *; clear Hs
    | Hs : ?x = Pending _ _ |- context [?x] => rewrite Hs end);
  split; reflexivity.

Lemma operation_balances o e e' :
  evaluate_operation o e = Ok e' →
  match o with
  | withdraw_operation _ _ _ | deposit_operation _ _ | claim_operation _ _ _ _ _ => True
  | _ => is_pending (es_current_state e) → is_pending (es_current_state e') ∧
      ∀ k, get_balance_record k (es_current_state e') = get_balance_record k (es_current_state e)
  end.
Proof.
  destruct o; simpl; intros Hr; try done.
  - unfold register_account_evaluate, require_delegate_fee in Hr. repeat state_step; balances_solve.
  - unfold update_account_evaluate, update_delegate_info, require_delegate_fee in Hr.
    repeat state_step; balances_solve.
  - unfold withdraw_pay_evaluate in Hr. repeat state_step; balances_solve.
  - unfold bid_evaluate, move_order_funds in Hr. repeat state_step; balances_solve.
  - unfold ask_evaluate, move_order_funds in Hr. repeat state_step; balances_solve.
  - unfold short_evaluate, move_order_funds in Hr. repeat state_step; balances_solve.
  - unfold cover_evaluate, cover_settle, reindex_cover in Hr. repeat state_step; balances_solve.
  - unfold add_collateral_evaluate, add_collateral_settle in Hr. repeat state_step; balances_solve.
  - unfold define_delegate_slate_evaluate in Hr. repeat state_step; balances_solve.
  - unfold update_feed_evaluate in Hr. repeat state_step; balances_solve.
  - unfold burn_evaluate in Hr. repeat state_step; balances_solve.
Qed.

(** *** Authorization *)
Definition spend_authorized (signed : address → bool) (c : withdraw_condition) (data : list Z)
    : Prop :=
  match wc_data c with
  | withdraw_with_signature owner _ =>
      (data = [] ∧ signed owner = true) ∨
      (∃ pts_sig digest key, unpack_withdraw_with_pts data = Ok pts_sig ∧
         signed (address_of_key pts_sig.1) = true ∧
         recover_key pts_sig.2 digest true = Ok key ∧
         owner ∈ [address_of_key key;
                  address_of_pts (pts_address_of_key key false 56);
                  address_of_pts (pts_address_of_key key true 56);
                  address_of_pts (pts_address_of_key key false 0);
                  address_of_pts (pts_address_of_key key true 0)])
  | _ => False
  end.
(** An operation that may write the balance [k], kept under condition [c]. *)
Definition touches (o : operation) (k : address) (signed : address → bool)
    (c : withdraw_condition) : Prop :=
  match o with
  | deposit_operation amount c' => address_of_condition c' = k ∧ 0 < amount
  | withdraw_operation id amount data => id = k ∧ 0 < amount ∧ spend_authorized signed c data
  | claim_operation id _ _ dest _ => id = k ∧ signed (address_of_key dest) = true
  | _ => False
  end.

Definition balances_wf s : Prop :=
  is_pending s ∧ ∀ k r, get_balance_record k s = Some r → br_id r = k.
(** From [s] to [s'] the balances that existed keep their condition, and those
    that are written are covered by [P]. *)
Definition writes_only (P : address → withdraw_condition → Prop) s s' : Prop :=
  balances_wf s' ∧ ∀ k r, get_balance_record k s = Some r →
    ∃ r', get_balance_record k s' = Some r' ∧ br_condition r' = br_condition r ∧
      (r' = r ∨ P k (br_condition r)).

Lemma check_condition_authorized c amount data e e' :
  check_withdraw_condition c amount data e = Ok e' →
  spend_authorized (λ a, check_signature a e) c data.
Proof.
  unfold check_withdraw_condition, spend_authorized. intros Hr.
  destruct (wc_data c); try discriminate Hr. destruct data; res_inv Hr.
  - by left.
  - right. unfold check_pts_signature in *.
    match goal with Hs : rbind _ _ = Ok _ |- _ => res_inv Hs end.
    do 3 eexists. split_and!; [done|done|done|].
    by match goal with Hs : bool_decide _ = true |- _ => apply bool_decide_eq_true_1 in Hs end.
Qed.

Lemma writes_store P r s :
  balances_wf s →
  (∀ r0, get_balance_record (br_id r) s = Some r0 →
     br_condition r = br_condition r0 ∧ P (br_id r) (br_condition r0)) →
  writes_only P s (store_balance_record r s).
Proof.
  destruct s as [|d|p prev]; intros [Hp Hk] Hr; [done|done|]. split; [split; [done|]|].
  - intros k r'. unfold get_balance_record, store_balance_record, on_state.
    erewrite (look_insert p_balances) by reflexivity. case_decide; [by intros [= <-]|apply Hk].
  - intros k r0 Hr0. unfold get_balance_record, store_balance_record, on_state in *.
    erewrite (look_insert p_balances) by reflexivity. case_decide as Ek; [subst k|eauto].
    destruct (Hr _ Hr0) as [Ec HP]. eauto.
Qed.

Lemma writes_none P s s' :
  balances_wf s → is_pending s' → (∀ k, get_balance_record k s' = get_balance_record k s) →
  writes_only P s s'.
Proof.
  intros [Hp Hk] Hp' E. split; [split; [done|]|]; intros k r; rewrite E; [apply Hk|eauto].
Qed.

Lemma writes_trans P s s1 s' :
  writes_only P s s1 → writes_only P s1 s' → writes_only P s s'.
Proof.
  intros [_ H1] [Hwf H2]. split; [done|]. intros k r Hr.
  destruct (H1 k r Hr) as (r1 & Hr1 & Ec1 & Hor1). destruct (H2 k r1 Hr1) as (r2 & Hr2 & Ec2 & Hor2).
  exists r2. split_and!; [done|congruence|]. rewrite Ec1 in Hor2.
  destruct Hor1 as [->|]; [done|by right].
Qed.

Lemma deposit_writes amount c e e' :
  balances_wf (es_current_state e) → deposit_evaluate amount c e = Ok e' →
  writes_only (λ k _, address_of_condition c = k ∧ 0 < amount)
    (es_current_state e) (es_current_state e').
Proof.
  unfold deposit_evaluate. intros Hwf Hr. pose proof Hwf as [_ Hk].
  set (r0 := default (balance_record_of c) _) in Hr.
  assert (br_id r0 = address_of_condition c) as Eid.
  { subst r0. destruct (get_balance_record _ _) eqn:E; simpl; [by apply Hk|done]. }
  assert (∀ r, get_balance_record (address_of_condition c) (es_current_state e) = Some r → r0 = r)
    as Hr0 by (intros r E; subst r0; by rewrite E).
  clearbody r0. res_inv Hr. repeat state_step; simpl; repeat match goal with Hs : es_current_state _ = _ |- _ => rewrite Hs end.
  all: apply writes_store; [done|]; change (br_id _) with (br_id r0); rewrite Eid;
    intros r Er; apply Hr0 in Er as <-; split; [done|]; split; [done|lia].
Qed.

Lemma pay_yield_balances r a now e re :
  is_pending (es_current_state e) → pay_yield r a now e = Ok re →
  br_condition re.1 = br_condition r ∧ is_pending (es_current_state re.2) ∧
  ∀ k, get_balance_record k (es_current_state re.2) = get_balance_record k (es_current_state e).
Proof.
  unfold pay_yield. intros Hp Hr. repeat state_step; simpl; split_and!; try done.
  - by destruct (es_current_state e).
  - intros k. by apply get_balance_store_asset.
Qed.

Lemma withdraw_writes id amount data e e' :
  balances_wf (es_current_state e) → withdraw_evaluate id amount data e = Ok e' →
  writes_only (λ k c, id = k ∧ 0 < amount ∧ spend_authorized (λ a, check_signature a e) c data)
    (es_current_state e) (es_current_state e').
Proof.
  unfold withdraw_evaluate. intros Hwf Hr. pose proof Hwf as [Hp Hk]. res_inv Hr.
  match goal with Hs : get_balance_record _ _ = Some ?r |- _ =>
    rename r into r0; rename Hs into Hr0; pose proof (Hk _ _ Hr0) as Eid end.
  pose proof (check_condition_authorized _ _ _ _ _ Hv0) as Hauth.
  apply check_withdraw_condition_spec in Hv0 as [Es0 _].
  apply if_adjust_vote_spec in Hv1 as [Es1 _].
  apply add_balance_spec in Hr as [Es _]. rewrite Es.
  assert (es_current_state v1 = es_current_state e) as E1 by congruence.
  assert (br_condition v4.1 = br_condition r0 ∧ is_pending (es_current_state v4.2) ∧
    ∀ k, get_balance_record k (es_current_state v4.2) = get_balance_record k (es_current_state e))
    as (Ec & Hp' & Eb).
  { rewrite <- E1 in Hp |- *. case_match; [by eapply pay_yield_balances|by simplify_eq]. }
  eapply writes_trans; [by apply (writes_none _ _ (es_current_state v4.2))|].
  apply writes_store.
  { split; [done|]. intros k r. rewrite Eb. apply Hk. }
  assert (∀ b now, br_id (set_br_last_update now (set_br_balance b v4.1)) = id) as Eid'
    by (intros; rewrite <- Eid; unfold br_id; simpl; by rewrite Ec).
  rewrite Eid', Eb, Hr0. intros r [= <-]. split; [done|]. split_and!; [done|lia|done].
Qed.

Lemma claim_writes id amount src dest sig e e' :
  balances_wf (es_current_state e) → claim_evaluate id amount src dest sig e = Ok e' →
  writes_only (λ k _, id = k ∧ check_signature (address_of_key dest) e = true)
    (es_current_state e) (es_current_state e').
Proof.
  intros Hwf Hr. pose proof Hwf as [Hp Hk].
  pose proof (operation_auth (claim_operation id amount src dest sig) e e' Hr) as Ha.
  unfold claim_evaluate, check_claim_input, withdraw_claim_input in Hr. res_inv Hr.
  match goal with Hs : check_signature _ _ = true |- _ =>
    rewrite (check_signature_auth _ _ _ Ha) in Hs; rename Hs into Hsig end.
  match goal with Hs : get_balance_record _ _ = Some ?r |- _ =>
    rename r into r0; rename Hs into Hr0; pose proof (Hk _ _ Hr0); subst id end.
  repeat state_step; simpl in *;
    repeat match goal with Hs : es_current_state _ = _ |- _ => rewrite Hs; clear Hs end.
  all: apply writes_store; [done|]; change (br_id _) with (br_id r0);
    rewrite Hr0; intros r [= <-]; done.
Qed.

Lemma operation_writes o e e' :
  balances_wf (es_current_state e) → evaluate_operation o e = Ok e' →
  writes_only (λ k c, touches o k (λ a, check_signature a e) c)
    (es_current_state e) (es_current_state e').
Proof.
  intros Hwf Hr. pose proof (operation_balances o e e' Hr) as Hb.
  destruct o; try by (destruct (Hb (proj1 Hwf)) as [Hp E]; apply writes_none).
  - by apply withdraw_writes.
  - by apply deposit_writes.
  - by eapply claim_writes.
Qed.

(** The signatures of the transaction decide every authorization. *)
Lemma begin_evaluate_auth t canonical e b :
  begin_evaluate t false canonical e = Ok b →
  ∃ keys, recover_signed_keys canonical (trx_digest (es_chain_id e) (st_trx t))
            (st_signatures t) ∅ = Ok keys ∧ auth b = (keys, false).
Proof. unfold begin_evaluate. intros Hr. res_inv Hr. eexists. split; [exact Hv0|]. done. Qed.

Definition touched_by (l : list operation) (signed : address → bool) (k : address)
    (c : withdraw_condition) : Prop := ∃ o, o ∈ l ∧ touches o k signed c.

Lemma writes_weaken (P Q : address → withdraw_condition → Prop) s s' :
  (∀ k c, P k c → Q k c) → writes_only P s s' → writes_only Q s s'.
Proof.
  intros HPQ [Hwf Hw]. split; [done|]. intros k r Hr. destruct (Hw k r Hr) as (r' & ? & ? & [?|?]); eauto 6.
Qed.

Lemma operations_write l keys skip e e' :
  auth e = (keys, skip) → balances_wf (es_current_state e) →
  rfold (λ o e, let* e := evaluate_operation o e in Ok (next_op e)) l e = Ok e' →
  writes_only (touched_by l (λ a, skip || bool_decide (a ∈ keys)))
    (es_current_state e) (es_current_state e').
Proof.
  revert e. induction l as [|o l IH]; simpl; intros e Ha Hwf Hr.
  { simplify_eq. apply writes_none; [done|apply Hwf|done]. }
  res_inv Hr. pose proof (operation_auth _ _ _ Hv0) as Ha'.
  pose proof (operation_writes _ _ _ Hwf Hv0) as Hw.
  eapply writes_trans.
  - eapply writes_weaken; [|exact Hw]. intros k c Ht. exists o. split; [left|].
    unfold auth in Ha. injection Ha as Ek Es. unfold check_signature in Ht.
    rewrite Ek, Es in Ht. exact Ht.
  - eapply writes_weaken; [|apply (IH (next_op v0)); [|apply Hw|exact Hr]].
    + intros k c (o' & Ho' & Ht). exists o'. split; [by right|done].
    + rewrite <- Ha, <- Ha'. done.
Qed.

Lemma collect_fees_balances l e e' :
  is_pending (es_current_state e) → rfold collect_fee l e = Ok e' →
  is_pending (es_current_state e') ∧
  ∀ k, get_balance_record k (es_current_state e') = get_balance_record k (es_current_state e).
Proof.
  intros Hp. apply (rfold_inv (λ e1, is_pending (es_current_state e1) ∧ ∀ k,
    get_balance_record k (es_current_state e1) = get_balance_record k (es_current_state e)));
    [|done].
  intros x e1 e2 _ [Hp1 E1] Hc. unfold collect_fee in Hc. res_inv Hc. case_match; res_inv Hc; [|done].
  simpl. split; [by destruct (es_current_state e1)|]. intros k. rewrite <- E1.
  by apply get_balance_store_asset.
Qed.
Lemma post_evaluate_balances P e e' :
  balances_wf (es_current_state e) → post_evaluate e = Ok e' →
  writes_only P (es_current_state e) (es_current_state e').
Proof.
  unfold post_evaluate. intros Hwf Hr. res_inv Hr.
  apply check_required_deposits_same in Hr as ->. apply alt_fees_spec in Hv as [Es _].
  simpl in Es. apply collect_fees_balances in Hv0 as [Hp E]; [|rewrite Es; apply Hwf].
  apply writes_none; [done|done|]. intros k. by rewrite E, Es.
Qed.
Lemma update_delegate_votes_balances P e e' :
  balances_wf (es_current_state e) → update_delegate_votes e = Ok e' →
  writes_only P (es_current_state e) (es_current_state e').
Proof.
  unfold update_delegate_votes. intros Hwf Hr.
  cut (is_pending (es_current_state e') ∧ ∀ k, get_balance_record k (es_current_state e')
      = get_balance_record k (es_current_state e)); [intros [Hp E]; by apply writes_none|].
  eapply (rfold_inv (λ e1, is_pending (es_current_state e1) ∧ ∀ k,
    get_balance_record k (es_current_state e1) = get_balance_record k (es_current_state e)));
    [|split; [apply Hwf|done]|exact Hr].
  intros x e1 e2 _ [Hp1 E1] Hc. res_inv Hc. simpl.
  destruct (es_current_state e1); [done|done|]. split; [done|exact E1].
Qed.

(** C6 (spending_authorized). A transaction checked with its signatures leaves
    every balance it finds as it was, unless one of its operations deposits to
    it, withdraws from it with the signature its condition asks for, or claims
    it with the signature of the claim's new key; the keys that count are those
    recovered from the transaction's own signatures. *)
Theorem spending_authorized t canonical e e' k r :
  balances_wf (es_current_state e) → evaluate t false canonical e = Ok e' →
  get_balance_record k (es_current_state e) = Some r →
  get_balance_record k (es_current_state e') ≠ Some r →
  ∃ keys, recover_signed_keys canonical (trx_digest (es_chain_id e) (st_trx t))
            (st_signatures t) ∅ = Ok keys ∧
    ∃ o, o ∈ tx_operations (st_trx t) ∧
      touches o k (λ a, bool_decide (a ∈ keys)) (br_condition r).
Proof.
  unfold evaluate, evaluate_operations. intros Hwf Hr Hk Hne. res_inv Hr.
  destruct (begin_evaluate_auth _ _ _ _ Hv) as (keys & Hkeys & Ha).
  apply begin_evaluate_spec in Hv as [Es _]. exists keys. split; [done|].
  assert (writes_only (touched_by (tx_operations (st_trx t)) (λ a, bool_decide (a ∈ keys)))
            (es_current_state e) (es_current_state e')) as [_ Hw].
  { rewrite <- Es in Hwf |- *.
    pose proof (operations_write _ keys false (set_es_current_op_index 0 v) _ Ha Hwf Hv0) as H1.
    set (P := touched_by _ _) in H1 |- *.
    pose proof (post_evaluate_balances P _ _ (proj1 H1) Hv1) as H2.
    pose proof (update_delegate_votes_balances P _ _ (proj1 H2) Hr) as H3.
    eapply writes_trans; [exact H1|]. eapply writes_trans; [exact H2|exact H3]. }
  destruct (Hw k r Hk) as (r' & Hr' & _ & [->|(o & Ho & Ht)]); [done|]. eauto.
Qed.
End facts.

(** ** Witnesses *)
Definition ex_final : transaction_evaluation_state :=
  ok_or ex_eval ex_run.
Definition ex_begun : transaction_evaluation_state :=
  ok_or ex_eval (begin_evaluate ex_trx false false ex_eval).
Lemma ex_run_ok : evaluate ex_trx false false ex_eval = Ok ex_final.
Proof. by_running. Qed.
Lemma ex_begun_ok : begin_evaluate ex_trx false false ex_eval = Ok ex_begun.
Proof. by_running. Qed.

Lemma transaction_conserves_witness :
  (get_balance_record (br_id (ex_balance 12 0)) (es_current_state ex_final)
     = Some (BalanceRecord 60 (ex_condition 12) None 1000 1000)) ∧
  (holdings 0 (es_current_state ex_final) = 1000) ∧
  holdings 0 (es_current_state ex_final) - supply 0 (es_current_state ex_final)
    ≡₆₄ holdings 0 ex_state - supply 0 ex_state.
Proof.
  split; [by_evaluation|]. split; [by_evaluation|].
  apply (transaction_conserves ex_trx false false ex_eval ex_begun ex_final ex_state_wf ex_begun_ok);
    [|exact ex_run_ok].
  split; [exact I|]. intros e1 _. split; [exact I|]. intros e2 _. exact I.
Defined.
Lemma transaction_pays_witness :
  get_fees 0 ex_final = 30 ∧ (∀ id, 0 ≤ get_fees id ex_final).
Proof.
  split; [by_evaluation|].
  exact (proj1 (transaction_pays ex_trx false false ex_eval ex_final ex_run_ok)).
Defined.
Lemma spending_authorized_witness :
  ∃ keys, recover_signed_keys false (trx_digest 1 (st_trx ex_trx)) [11] ∅ = Ok keys ∧
    ∃ o, o ∈ tx_operations (st_trx ex_trx) ∧
      touches o (br_id (ex_balance 11 980)) (λ a, bool_decide (a ∈ keys)) (ex_condition 11).
Proof.
  apply (spending_authorized ex_trx false ex_eval ex_final (br_id (ex_balance 11 980))
           (ex_balance 11 980)).
  - split; [done|]. apply ex_state_wf.
  - exact ex_run_ok.
  - by_evaluation.
  - vm_compute. discriminate.
Defined.
