(* ===== verification/Votes.v ===== *)
(** The votes of a delegate are the stake behind it.

    [backing id s] sums the balances of the core asset whose slate names the
    delegate; [vote_stats id s] is the delegate's votes less its own pay, which
    votes for it too.  The operations keep [surplus], what the votes of a state and
    those a transaction has yet to move differ from the backing by.  [vmoved] is to
    [surplus] what [moved] is to [excess]. *)
From S2P Require Export TransactionFacts.

(** ** Sums that agree entry by entry *)
Lemma gsum_contrib {K V} `{Countable K} (f : K → V → Z) (m m' : gmap K V) :
  (∀ k, contrib f k (m !! k) = contrib f k (m' !! k)) → gsum f m = gsum f m'.
Proof.
  revert m'. induction m as [|k v m Hk IH] using map_ind; intros m' Hm.
  - rewrite gsum_empty. assert (∀ k, contrib f k (m' !! k) = 0) as H0.
    { intros k. by rewrite <- Hm, lookup_empty. }
    clear Hm. revert H0. induction m' as [|k v m' Hk IH] using map_ind; intros H0; [by rewrite gsum_empty|].
    rewrite gsum_insert_None by done. rewrite <- IH.
    + specialize (H0 k). rewrite lookup_insert_eq in H0. simpl in H0. lia.
    + intros k'. destruct (decide (k' = k)) as [->|Hne]; [by rewrite Hk|].
      specialize (H0 k'). by rewrite lookup_insert_ne in H0.
  - rewrite gsum_insert_None by done. rewrite (IH (delete k m')).
    + rewrite gsum_delete', <- (Hm k), lookup_insert_eq. simpl. lia.
    + intros k'. destruct (decide (k' = k)) as [->|Hne]; [by rewrite Hk, lookup_delete_eq|].
      by rewrite lookup_delete_ne, <- Hm, lookup_insert_ne.
Qed.

(** ** Stake *)
Definition counted (r : balance_record) : bool :=
  (br_asset_id r =? 0) && negb (br_delegate_slate_id r =? 0).
(** How often a slate names a delegate; a negative id names it too. *)
Definition supports (slate : list Z) (id : Z) : Z :=
  Z.of_nat (length (filter (λ x, Z.abs x = id) slate)).
Definition slate_at (k : Z) (s : chain_state) : list Z := default [] (get_delegate_slate k s).
Definition in_backing (slates : Z → list Z) (id : Z) (_ : address) (r : balance_record) : Z :=
  if counted r then supports (slates (br_delegate_slate_id r)) id * br_balance r else 0.
Definition backing (id : Z) (s : chain_state) : Z :=
  gsum (in_backing (λ k, slate_at k s) id) (eff p_balances db_balances s).
Definition net_votes (r : account_record) : Z :=
  from_option (λ i, ds_votes_for i - ds_pay_balance i) 0 (ac_delegate_info r).
Definition vote_stats (id : Z) (s : chain_state) : Z :=
  from_option net_votes 0 (get_account_record id s).
(** Every delegate's votes are its backing, and an account that is not a delegate
    has none. *)
Definition votes_backed (s : chain_state) : Prop := ∀ id, vote_stats id s ≡₆₄ backing id s.
(** The slate of every balance that votes is stored. *)
Definition slates_known (s : chain_state) : Prop :=
  ∀ k r, get_balance_record k s = Some r → counted r = true →
    is_Some (get_delegate_slate (br_delegate_slate_id r) s).
#[export] Instance eq64_mul : Proper (eq64 ==> eq64 ==> eq64) Z.mul.
Proof. intros x x' [k H] y y' [l H']. exists (k * y + x' * l). lia. Qed.

Section votes.
Context `{!Fc, !Crypto}.
Implicit Types (s : chain_state) (e : transaction_evaluation_state) (Δ : Z → Z).
(** The core asset pays no yield. *)
Definition core_plain s : Prop := ∀ a, get_asset_record 0 s = Some a → ar_is_market_issued a = false.
Definition votes_wf s : Prop := funds_wf s ∧ slates_known s ∧ core_plain s.

Lemma backing_ext id s s' :
  (∀ k, slate_at k s' = slate_at k s) → eff p_balances db_balances s' = eff p_balances db_balances s →
  backing id s' = backing id s.
Proof. intros Hs Hb. unfold backing. rewrite Hb. apply gsum_ext. intros k r _. unfold in_backing. by rewrite Hs. Qed.

(** What no slate names has no backing. *)
Lemma backing_unnamed id s :
  (∀ k sl, get_delegate_slate k s = Some sl → Forall (λ x, Z.abs x ≠ id) sl) → backing id s = 0.
Proof.
  intros Hn. unfold backing. assert (∀ sl, Forall (λ x, Z.abs x ≠ id) sl → supports sl id = 0) as Hs.
  { intros sl. unfold supports. induction 1 as [|x sl Hx _ IH]; [done|]. by rewrite filter_cons_False. }
  assert (∀ k, supports (slate_at k s) id = 0) as H00.
  { intros k. unfold slate_at. destruct (get_delegate_slate k s) as [sl|] eqn:E; [by apply Hs, (Hn k)|done]. }
  rewrite (gsum_ext _ (λ _ _, 0)).
  - generalize (eff p_balances db_balances s). intros m.
    induction m as [|k v m Hk IH] using map_ind; [apply gsum_empty|]. by rewrite gsum_insert_None, IH.
  - intros k r _. unfold in_backing. rewrite H00. by case_match.
Qed.

Definition surplus (id : Z) e : Z :=
  vote_stats id (es_current_state e) + default 0 (es_net_delegate_votes e !! id)
  - backing id (es_current_state e).
Definition vmoved e e' Δ : Prop :=
  votes_wf (es_current_state e) →
  votes_wf (es_current_state e') ∧ ∀ id, surplus id e' ≡₆₄ surplus id e + Δ id.
Definition vkeeps e e' : Prop := vmoved e e' (λ _, 0).

Lemma vmoved_same e e' :
  es_current_state e' = es_current_state e → es_net_delegate_votes e' = es_net_delegate_votes e →
  vkeeps e e'.
Proof.
  intros Es En Hwf. rewrite Es. split; [done|]. intros id. unfold surplus. rewrite Es, En.
  apply eq64_eq. lia.
Qed.
Lemma vmoved_seq e e1 e' Δ1 Δ2 :
  vmoved e e1 Δ1 → vmoved e1 e' Δ2 → vmoved e e' (λ id, Δ1 id + Δ2 id).
Proof.
  intros H1 H2 Hwf. destruct (H1 Hwf) as [Hwf1 E1]. destruct (H2 Hwf1) as [Hwf2 E2].
  split; [done|]. intros id. rewrite E2, E1. apply eq64_eq. lia.
Qed.
Lemma vmoved_ext e e' Δ Δ' : vmoved e e' Δ → (∀ id, Δ id ≡₆₄ Δ' id) → vmoved e e' Δ'.
Proof.
  intros HΔ E Hwf. destruct (HΔ Hwf) as [Hwf' Ee]. split; [done|]. intros id. by rewrite Ee, E.
Qed.
Lemma vkeeps_trans e e1 e' : vkeeps e e1 → vkeeps e1 e' → vkeeps e e'.
Proof.
  intros H1 H2. eapply vmoved_ext; [eapply vmoved_seq; [exact H1|exact H2]|].
  intros id. apply eq64_eq. lia.
Qed.

(** ** Stores *)
Lemma slate_same s s' k : get_delegate_slate k s' = get_delegate_slate k s → slate_at k s' = slate_at k s.
Proof. unfold slate_at. by intros ->. Qed.
Lemma slate_at_store_balance r s k : get_delegate_slate k (store_balance_record r s) = get_delegate_slate k s.
Proof. by destruct s. Qed.
Lemma get_asset_store_balance r s k : is_pending s →
  get_asset_record k (store_balance_record r s) = get_asset_record k s.
Proof. by destruct s. Qed.
Lemma asset_past_account r s k : is_pending s →
  get_asset_record k (store_account_record r s) = get_asset_record k s.
Proof. by destruct s. Qed.
Lemma asset_at_store r s k : is_pending s →
  get_asset_record k (store_asset_record r s)
  = if decide (ar_id r = k) then Some r else get_asset_record k s.
Proof. destruct s; [done|done|intros _]. apply look_insert. reflexivity. Qed.
Lemma balance_at_store r s k : is_pending s →
  get_balance_record k (store_balance_record r s)
  = if decide (br_id r = k) then Some r else get_balance_record k s.
Proof. destruct s; [done|done|intros _]. apply look_insert. reflexivity. Qed.
Lemma account_at_store r s k : is_pending s →
  get_account_record k (store_account_record r s)
  = if decide (ac_id r = k) then Some r else get_account_record k s.
Proof. destruct s; [done|done|intros _]. apply look_insert. reflexivity. Qed.

Lemma vmoved_balance r e :
  (counted r = true → is_Some (get_delegate_slate (br_delegate_slate_id r) (es_current_state e))) →
  vmoved e (on_current_state (store_balance_record r) e) (λ id,
    contrib (in_backing (λ k, slate_at k (es_current_state e)) id) (br_id r)
      (get_balance_record (br_id r) (es_current_state e))
    - in_backing (λ k, slate_at k (es_current_state e)) id (br_id r) r).
Proof.
  intros Hr (Hwf & Hk & Hc). change (es_current_state (on_current_state ?f e)) with (f (es_current_state e)).
  split; [split; [by apply wf_balance|]; split|].
  2: { intros a. rewrite get_asset_store_balance by apply Hwf. apply Hc. }
  - intros k r'. rewrite balance_at_store by apply Hwf. rewrite slate_at_store_balance.
    case_decide; [by intros [= <-]|apply Hk].
  - intros id. destruct Hwf as [Hp _]. unfold surplus, backing, vote_stats, get_account_record, get_balance_record.
    simpl. destruct (es_current_state e) as [|d|p prev]; [done|done|].
    change (store_balance_record r (Pending p prev)) with (Pending (p_store_balance_record r p) prev).
    rewrite (eff_pending_insert p_balances db_balances p (p_store_balance_record r p) prev (br_id r) r eq_refl).
    rewrite gsum_insert, <- (look_through_eff p_balances db_balances). apply eq64_eq.
    change (λ k, slate_at k (Pending (p_store_balance_record r p) prev)) with (λ k, slate_at k (Pending p prev)).
    change (look_through p_accounts db_accounts id (Pending (p_store_balance_record r p) prev))
      with (look_through p_accounts db_accounts id (Pending p prev)). lia.
Qed.
Lemma vmoved_account r e :
  vmoved e (on_current_state (store_account_record r) e) (λ id,
    at_id id (ac_id r) (net_votes r - from_option net_votes 0 (get_account_record (ac_id r) (es_current_state e)))).
Proof.
  intros (Hwf & Hk & Hc). change (es_current_state (on_current_state ?f e)) with (f (es_current_state e)).
  pose proof Hwf as [Hp _]. split; [split; [by apply wf_account|]; split|].
  - by destruct (es_current_state e).
  - intros a. rewrite asset_past_account by done. apply Hc.
  - intros id. unfold surplus, vote_stats. simpl. rewrite account_at_store by done.
    rewrite (backing_ext id (es_current_state e)) by by destruct (es_current_state e).
    apply eq64_eq. unfold at_id. case_decide as E; [rewrite E, Z.eqb_refl; simpl; lia|].
    rewrite (proj2 (Z.eqb_neq _ _) E). lia.
Qed.
(** Stores of the tables that do not vote. *)
Definition votes_not (g : pending_chain_state → pending_chain_state) : Prop :=
  ∀ p, p_slates (g p) = p_slates p ∧ p_balances (g p) = p_balances p ∧ p_accounts (g p) = p_accounts p.
Lemma votes_not_slates g p prev k : votes_not g →
  get_delegate_slate k (Pending (g p) prev) = get_delegate_slate k (Pending p prev).
Proof. intros Hg. destruct (Hg p) as (E & _). unfold get_delegate_slate. simpl. by rewrite E. Qed.
Lemma vmoved_neutral f g e :
  votes_not g → (∀ p, p_assets (g p) = p_assets p) → vkeeps e (on_current_state (on_state f g) e).
Proof.
  intros Hg Ha (Hwf & Hk & Hc). split.
  { split; [apply wf_order; [|done]|split].
    - intros p. destruct (Hg p) as (?&?&?). by rewrite Ha.
    - intros k r. simpl. destruct Hwf as [Hp _]. destruct (es_current_state e) as [|d|p prev]; [done|done|].
      unfold on_state. rewrite votes_not_slates by done. destruct (Hg p) as (_&Eb&_).
      unfold get_balance_record. simpl. rewrite Eb. apply Hk.
    - intros a. simpl. destruct Hwf as [Hp _]. destruct (es_current_state e) as [|d|p prev]; [done|done|].
      unfold get_asset_record. simpl. rewrite Ha. apply Hc. }
  intros id. unfold surplus. simpl. destruct Hwf as [Hp _].
  destruct (es_current_state e) as [|d|p prev]; [done|done|]. unfold on_state.
  rewrite (backing_ext id (Pending p prev)).
  - unfold vote_stats, get_account_record. simpl. destruct (Hg p) as (_&_&->). apply eq64_eq. lia.
  - intros k. by apply slate_same, votes_not_slates.
  - by apply eff_pending_same, Hg.
Qed.
Lemma vmoved_asset r e :
  (ar_id r = 0 → ar_is_market_issued r = false) → vkeeps e (on_current_state (store_asset_record r) e).
Proof.
  intros Hr (Hwf & Hk & Hc). pose proof Hwf as [Hp _]. split; [split; [by apply wf_asset|]; split|].
  - simpl. by destruct (es_current_state e).
  - intros a. simpl. rewrite asset_at_store by done. case_decide as E; [intros [= <-]; by apply Hr|apply Hc].
  - intros id. unfold surplus, vote_stats. simpl.
    rewrite (backing_ext id (es_current_state e)) by by destruct (es_current_state e).
    destruct (es_current_state e); [done|done|]. apply eq64_eq. unfold get_account_record. simpl. lia.
Qed.
(** A new slate backs no balance yet. *)
Lemma vmoved_slate k sl e :
  get_delegate_slate k (es_current_state e) = None →
  vkeeps e (on_current_state (store_delegate_slate k sl) e).
Proof.
  intros Hn (Hwf & Hk & Hc0). assert (∀ k', k' ≠ k → get_delegate_slate k' (store_delegate_slate k sl (es_current_state e))
    = get_delegate_slate k' (es_current_state e)) as Hs.
  { intros k' Hne. destruct Hwf as [Hp _]. destruct (es_current_state e); [done|done|].
    unfold get_delegate_slate, store_delegate_slate, on_state. erewrite (look_insert p_slates) by reflexivity.
    by rewrite decide_False. }
  split.
  - split; [by apply wf_order|]. split; [|intros a; simpl; destruct Hwf as [Hp _]; destruct (es_current_state e); [done|done|apply Hc0]].
    simpl. intros k' r Hr Hc.
    assert (get_balance_record k' (es_current_state e) = Some r) as Hr' by by destruct (es_current_state e).
    pose proof (Hk _ _ Hr' Hc) as Hsome. rewrite Hs; [done|]. intros E. rewrite E, Hn in Hsome.
    by destruct Hsome.
  - intros id. unfold surplus, vote_stats. simpl.
    assert (backing id (store_delegate_slate k sl (es_current_state e)) = backing id (es_current_state e)) as ->.
    { unfold backing. assert (eff p_balances db_balances (store_delegate_slate k sl (es_current_state e))
        = eff p_balances db_balances (es_current_state e)) as -> by by destruct (es_current_state e).
      apply gsum_ext. intros k' r Hr. unfold in_backing. destruct (counted r) eqn:Ec; [|done].
      rewrite <- look_through_eff in Hr. pose proof (Hk _ _ Hr Ec) as Hsome.
      unfold slate_at. rewrite Hs; [done|]. intros E. rewrite E, Hn in Hsome. by destruct Hsome. }
    destruct Hwf as [Hp _]. destruct (es_current_state e); [done|done|].
    apply eq64_eq. unfold get_account_record. simpl. lia.
Qed.

(** ** Moving votes *)

(** What [amount] more in the balance [r] is to the delegate's backing. *)
Definition stake (s : chain_state) (id : Z) (r : balance_record) (amount : Z) : Z :=
  if counted r then supports (slate_at (br_delegate_slate_id r) s) id * amount else 0.
Lemma stake_add s id r x y : stake s id r (x + y) = stake s id r x + stake s id r y.
Proof. unfold stake. case_match; lia. Qed.
Lemma stake_opp s id r x : stake s id r (- x) = - stake s id r x.
Proof. unfold stake. case_match; lia. Qed.
#[export] Instance stake_proper s id r : Proper (eq64 ==> eq64) (stake s id r).
Proof. intros x y E. unfold stake. case_match; [by rewrite E|reflexivity]. Qed.

Lemma vote_for_at id k amount m :
  default 0 (vote_for k amount m !! id) ≡₆₄ default 0 (m !! id) + (if Z.eqb k id then amount else 0).
Proof.
  unfold vote_for. rewrite lookup_insert. destruct (Z.eqb_spec k id) as [->|]; case_decide; try done; simpl.
  - apply s64_eq64.
  - apply eq64_eq. lia.
Qed.
Lemma votes_at id amount l m :
  default 0 (foldl (λ v i, vote_for (Z.abs i) amount v) m l !! id) ≡₆₄ default 0 (m !! id) + supports l id * amount.
Proof.
  revert m. induction l as [|i l IH]; intros m; simpl; [apply eq64_eq; unfold supports; simpl; lia|].
  rewrite IH, vote_for_at. apply eq64_eq. unfold supports. rewrite filter_cons.
  destruct (Z.eqb_spec (Z.abs i) id); case_decide; try done; simpl; lia.
Qed.
Lemma adjust_vote_vmoved k amount e e' :
  k ≠ 0 → adjust_vote k amount e = Ok e' →
  is_Some (get_delegate_slate k (es_current_state e)) ∧
  vmoved e e' (λ id, supports (slate_at k (es_current_state e)) id * amount).
Proof.
  intros Hk Hr. unfold adjust_vote in Hr. rewrite (proj2 (Z.eqb_neq _ _) Hk) in Hr. res_inv Hr.
  split; [by eexists|]. intros Hwf. split; [done|]. intros id. unfold surplus, slate_at. simpl.
  rewrite Hv. simpl. rewrite votes_at. apply eq64_eq. lia.
Qed.
Lemma if_adjust_vote_vmoved r amount e e' :
  (if counted r then adjust_vote (br_delegate_slate_id r) amount e else Ok e) = Ok e' →
  es_current_state e' = es_current_state e ∧
  (counted r = true → is_Some (get_delegate_slate (br_delegate_slate_id r) (es_current_state e))) ∧
  vmoved e e' (λ id, stake (es_current_state e) id r amount).
Proof.
  intros Hr. split; [by apply if_adjust_vote_spec in Hr as [? _]|]. unfold stake.
  destruct (counted r) eqn:Ec.
  - apply adjust_vote_vmoved in Hr as [Hs Hm]; [done|]. unfold counted in Ec.
    apply andb_prop in Ec as [_ E]. intros E0. by rewrite E0 in E.
  - simplify_eq. split; [done|]. by apply vmoved_same.
Qed.

(** A record whose balance grows by [amount]. *)
Lemma vmoved_update_balance r0 r amount e :
  br_condition r = br_condition r0 → br_balance r ≡₆₄ br_balance r0 + amount →
  get_balance_record (br_id r0) (es_current_state e) = Some r0
  ∨ get_balance_record (br_id r0) (es_current_state e) = None ∧ br_balance r0 = 0 →
  (counted r0 = true → is_Some (get_delegate_slate (br_delegate_slate_id r0) (es_current_state e))) →
  vmoved e (on_current_state (store_balance_record r) e) (λ id, - stake (es_current_state e) id r0 amount).
Proof.
  intros Ec Eb Hold Hk. assert (counted r = counted r0) as Ecc.
  { unfold counted, br_asset_id, br_delegate_slate_id. by rewrite Ec. }
  assert (br_delegate_slate_id r = br_delegate_slate_id r0) as Es by (unfold br_delegate_slate_id; by rewrite Ec).
  eapply vmoved_ext; [apply vmoved_balance; by rewrite Ecc, Es|]. intros id.
  assert (br_id r = br_id r0) as -> by (unfold br_id; by rewrite Ec).
  assert (∀ x, in_backing (λ k, slate_at k (es_current_state e)) id x r
    ≡₆₄ stake (es_current_state e) id r0 (br_balance r0) + stake (es_current_state e) id r0 amount) as ->.
  { intros x. unfold in_backing, stake. rewrite Ecc, Es. destruct (counted r0); [rewrite Eb|]; apply eq64_eq; lia. }
  destruct Hold as [->|[-> ->]]; simpl.
  - apply eq64_eq. unfold in_backing, stake. destruct (counted r0); lia.
  - apply eq64_eq. unfold stake. destruct (counted r0); lia.
Qed.
Lemma vmoved_update_account r0 r x e :
  ac_id r = ac_id r0 → net_votes r ≡₆₄ net_votes r0 + x →
  get_account_record (ac_id r0) (es_current_state e) = Some r0
  ∨ get_account_record (ac_id r0) (es_current_state e) = None ∧ net_votes r0 = 0 →
  vmoved e (on_current_state (store_account_record r) e) (λ id, at_id id (ac_id r0) x).
Proof.
  intros Ei Ev Hold. eapply vmoved_ext; [apply vmoved_account|]. intros id. rewrite Ei.
  destruct Hold as [->|[-> E0]]; simpl; rewrite Ev; [|rewrite E0]; apply eq64_eq; unfold at_id; case_match; lia.
Qed.

Lemma vmoved_update_asset a r e :
  get_asset_record (ar_id a) (es_current_state e) = Some a →
  ar_id r = ar_id a → ar_issuer_account_id r = ar_issuer_account_id a →
  vkeeps e (on_current_state (store_asset_record r) e).
Proof.
  intros Ha Ei Es Hwf. revert Hwf. intros Hwf. pose proof Hwf as (_ & _ & Hc). revert Hwf.
  apply vmoved_asset. intros E0. rewrite Ei in E0. rewrite E0 in Ha. specialize (Hc _ Ha).
  unfold ar_is_market_issued in *. by rewrite Es.
Qed.

(** ** Steps that move no votes *)
Definition quiet_eval e e' : Prop :=
  es_current_state e' = es_current_state e ∧ es_net_delegate_votes e' = es_net_delegate_votes e.
Lemma quiet_vkeeps e e' : quiet_eval e e' → vkeeps e e'.
Proof. intros []. by apply vmoved_same. Qed.
Lemma add_balance_quiet a e e' : add_balance a e = Ok e' → quiet_eval e e'.
Proof. unfold add_balance. intros Hr. by res_inv Hr. Qed.
Lemma sub_balance_quiet k a e e' : sub_balance k a e = Ok e' → quiet_eval e e'.
Proof. unfold sub_balance. intros Hr. by res_inv Hr. Qed.
Lemma check_withdraw_condition_quiet c amount data e e' :
  check_withdraw_condition c amount data e = Ok e' → quiet_eval e e'.
Proof. unfold check_withdraw_condition. repeat case_match; intros Hr; res_inv Hr; done. Qed.
Lemma require_fee_quiet fee e e' : require_fee fee e = Ok e' → quiet_eval e e'.
Proof. unfold require_fee. intros Hr. by res_inv Hr. Qed.
Lemma require_delegate_fee_quiet rate e e' : require_delegate_fee rate e = Ok e' → quiet_eval e e'.
Proof. unfold require_delegate_fee. intros Hr. res_inv Hr. by eapply require_fee_quiet. Qed.
Lemma alt_fee_quiet x e e' : alt_fee x e = Ok e' → quiet_eval e e'.
Proof. unfold alt_fee. intros Hr. repeat (res_inv Hr; case_match); res_inv Hr; done. Qed.
Lemma move_order_funds_quiet amnt a cur e oe : move_order_funds amnt a cur e = Ok oe → quiet_eval e oe.2.
Proof.
  unfold move_order_funds. intros Hr. res_inv Hr. destruct (amnt <? 0); res_inv Hr;
    match goal with Hs : _ = Ok _ |- _ => first [by apply add_balance_quiet in Hs|by apply sub_balance_quiet in Hs] end.
Qed.

(** ** The operations *)
Lemma deposit_votes amount c e e' : deposit_evaluate amount c e = Ok e' → vkeeps e e'.
Proof.
  unfold deposit_evaluate. intros Hr Hwf. pose proof Hwf as ((_ & Hk & _) & _). revert Hwf.
  set (r0 := default (balance_record_of c) _) in Hr.
  assert (get_balance_record (br_id r0) (es_current_state e) = Some r0 ∨
    get_balance_record (br_id r0) (es_current_state e) = None ∧ br_balance r0 = 0) as Hold.
  { subst r0. destruct (get_balance_record (address_of_condition c) _) as [r0|] eqn:E; simpl.
    - left. by rewrite (Hk _ _ E).
    - right. done. }
  clearbody r0. res_inv Hr.
  match goal with Hs : sub_balance _ _ _ = Ok _ |- _ => apply sub_balance_quiet in Hs; rename Hs into Hq end.
  match goal with Hs : (if ?b then adjust_vote _ _ _ else Ok _) = Ok ?e2 |- _ =>
    change b with (counted r0) in Hs;
    change (adjust_vote (br_delegate_slate_id _)) with (adjust_vote (br_delegate_slate_id r0)) in Hs;
    apply if_adjust_vote_vmoved in Hs as (Es & Hs & Hm) end.
  destruct Hq as [Eq Enet]. eapply vmoved_ext.
  { eapply vmoved_seq; [by apply vmoved_same|]. eapply vmoved_seq; [exact Hm|].
    apply (vmoved_update_balance r0 _ amount); [done| |by rewrite Es, Eq|by rewrite Es].
    simpl. apply s64_eq64. }
  intros id. simpl. rewrite Es. apply eq64_eq. lia.
Qed.

Lemma claim_votes id amount src dest sig e e' :
  claim_evaluate id amount src dest sig e = Ok e' → vkeeps e e'.
Proof.
  unfold claim_evaluate, check_claim_input, withdraw_claim_input. intros Hr Hwf.
  pose proof Hwf as ((_ & Hk & _) & _). res_inv Hr. revert Hwf.
  match goal with Hs : get_balance_record _ _ = Some ?r, Ha : (br_asset_id ?r =? 0) = true,
    Hb : (br_balance ?r =? amount) = true |- _ =>
    rename r into r0; pose proof (Hk _ _ Hs) as Ek; subst id; apply Z.eqb_eq in Hb; rename Hs into Hold;
    rename Ha into Ha0; rename Hb into Hb0 end.
  match goal with Hs : (if ?b then Ok _ else adjust_vote ?k ?a ?e0) = Ok ?e2 |- _ =>
    assert ((if counted r0 then adjust_vote k a e0 else Ok e0) = Ok e2) as Hadj
      by (unfold counted; rewrite Ha0; simpl; by destruct b);
    apply if_adjust_vote_vmoved in Hadj as (Es & Hs' & Hm) end.
  match goal with Hs : add_balance _ _ = Ok _ |- _ => apply add_balance_quiet in Hs as Hq end.
  eapply vmoved_ext.
  { eapply vmoved_seq; [exact Hm|]. eapply vmoved_seq; [|by apply quiet_vkeeps].
    apply (vmoved_update_balance r0 _ (- amount)); [done| |by rewrite Es; left|by rewrite Es].
    simpl. apply eq64_eq. lia. }
  intros i. cbv beta. rewrite Es, s64_eq64. rewrite stake_opp. apply eq64_eq. lia.
Qed.

Lemma pay_yield_votes r a now e re :
  votes_wf (es_current_state e) → (counted r = true → False) →
  get_asset_record (br_asset_id r) (es_current_state e) = Some a →
  pay_yield r a now e = Ok re →
  br_condition re.1 = br_condition r ∧
    (∀ k, get_balance_record k (es_current_state re.2) = get_balance_record k (es_current_state e)) ∧
    vkeeps e re.2.
Proof.
  unfold pay_yield. intros Hwf Hn Ha Hr. res_inv Hr. case_match; simplify_eq/=.
  - split; [done|]. split.
    { intros k. apply get_balance_store_asset, Hwf. }
    destruct Hwf as [[_ [_ [Hka _]]] _]. pose proof (Hka _ _ Ha) as Eid. rewrite <- Eid in Ha.
    eapply vkeeps_trans; [by apply (vmoved_same e (add_yield (br_asset_id r) (Asset.amount v) e))|].
    by apply (vmoved_update_asset a).
  - split; [done|]. split; [done|]. by apply vmoved_same.
Qed.
Lemma uncounted_stake s id r x : counted r = false → stake s id r x = 0.
Proof. unfold stake. by intros ->. Qed.
Lemma withdraw_votes id amount data e e' : withdraw_evaluate id amount data e = Ok e' → vkeeps e e'.
Proof.
  unfold withdraw_evaluate. intros Hr Hwf. pose proof Hwf as ((_ & Hk & Hka & _) & Hs & Hc).
  res_inv Hr. apply check_withdraw_condition_quiet in Hv0 as Hq.
  match type of Hv1 with (if ?b then _ else _) = _ => change b with (counted v) in Hv1 end.
  apply if_adjust_vote_vmoved in Hv1 as (Es1 & Hs1 & Hm1). rewrite <- (Hk _ _ Hv) in Hv.
  assert (es_current_state v1 = es_current_state e) as Es by (destruct Hq; congruence).
  assert (br_condition v4.1 = br_condition v ∧
    (counted v = true → br_balance v4.1 = br_balance v) ∧
    (∀ k, get_balance_record k (es_current_state v4.2) = get_balance_record k (es_current_state v1)) ∧
    (∀ k, get_delegate_slate k (es_current_state v4.2) = get_delegate_slate k (es_current_state v1)) ∧
    vkeeps v1 v4.2) as (Ec & Ey & Eg & Esl & Hm).
  { destruct (ar_is_market_issued v2) eqn:Em; [|simplify_eq; split_and!; try done; by apply vmoved_same].
    assert (counted v = true → False) as Hn.
    { unfold counted. intros [Ea _]%andb_prop. apply Z.eqb_eq in Ea. rewrite Ea, Es in *. 
      match goal with Ha : get_asset_record 0 _ = Some v2 |- _ => by rewrite (Hc _ Ha) in Em end. }
    match goal with Hp : pay_yield _ _ _ _ = Ok _ |- _ =>
      pose proof Hp as Hp'; apply pay_yield_votes in Hp as (? & ? & ?); [|by rewrite Es|done|done] end.
    split_and!; [done|intros Hcc; by destruct (Hn Hcc)|done| |done].
    intros k. unfold pay_yield in Hp'. res_inv Hp'. case_match; simplify_eq/=; [|done].
    rewrite Es. destruct Hwf as ((Hp & _) & _). by destruct (es_current_state e). }
  apply add_balance_quiet in Hr as Hq'. revert Hwf. eapply vmoved_ext.
  { eapply vmoved_seq; [apply quiet_vkeeps; exact Hq|]. eapply vmoved_seq; [exact Hm1|].
    eapply vmoved_seq; [exact Hm|]. eapply vmoved_seq; [|by apply quiet_vkeeps].
    apply (vmoved_update_balance v _ (if counted v then - amount else br_balance v4.1 - br_balance v - amount)).
    - done.
    - simpl. rewrite s64_eq64. destruct (counted v) eqn:Ecv; [rewrite Ey by done|]; apply eq64_eq; lia.
    - left. by rewrite Eg, Es.
    - intros Hcv. rewrite Esl, Es. by eapply Hs. }
  intros i. cbv beta. destruct (counted v) eqn:Ecv.
  - assert (∀ x, stake (es_current_state v4.2) i v x = stake (es_current_state v0) i v x) as ->.
    { intros x. unfold stake, slate_at. by rewrite Esl, Es1. }
    rewrite s64_eq64, stake_opp. apply eq64_eq. lia.
  - rewrite !uncounted_stake by done. apply eq64_eq. lia.
Qed.

Lemma set_active_key_info now k r r' : ac_set_active_key now k r = Ok r' →
  ac_id r' = ac_id r ∧ ac_delegate_info r' = ac_delegate_info r.
Proof. unfold ac_set_active_key. intros Hs. by res_inv Hs. Qed.
Lemma register_votes name data owner active rate meta e e' :
  (∀ x, new_account_id (es_current_state e) = Ok x → get_account_record x.1 (es_current_state e) = None) →
  register_account_evaluate name data owner active rate meta e = Ok e' → vkeeps e e'.
Proof.
  unfold register_account_evaluate. intros Hfresh Hr Hwf. res_inv Hr.
  match goal with Hs : require_fee _ _ = Ok _ |- _ => apply require_fee_quiet in Hs as [Es En] end.
  match goal with Hs : new_account_id _ = Ok ?x, Hd : (if op_is_delegate _ then _ else _) = Ok ?re,
      Hk : ac_set_active_key _ _ _ = Ok _ |- _ =>
    rename x into idst; rename re into rs; rename Hs into Hnew; rename Hd into Hdel;
    apply set_active_key_info in Hk as [Eki Ekd]; simpl in Eki, Ekd end.
  rewrite Es in Hnew. pose proof (Hfresh _ Hnew) as Hnone. destruct (new_account_id_spec _ _ Hnew) as [v' Ev].
  assert (ac_id rs.1 = idst.1 ∧ net_votes rs.1 = 0 ∧ es_current_state rs.2 = idst.2 ∧
    es_net_delegate_votes rs.2 = es_net_delegate_votes e) as (Eid & Epay & Es' & En').
  { unfold net_votes. destruct (op_is_delegate rate); [|by simplify_eq/=; rewrite Ekd]. res_inv Hdel.
    match goal with Hs : require_delegate_fee _ _ = Ok _ |- _ =>
      apply require_delegate_fee_quiet in Hs as [E1' E2'] end. simpl. by rewrite E1', E2'. }
  set (e1 := set_es_current_state idst.2 e).
  assert (vkeeps e e1) as Hm1.
  { subst e1. rewrite Ev. by apply (vmoved_neutral (db_set_property last_account_id_prop v') _ e). }
  assert (get_account_record (ac_id rs.1) (es_current_state rs.2) = None) as Hfree.
  { rewrite Eid, Es', Ev. destruct Hwf as ((Hp & _) & _). by rewrite get_account_set_property. }
  revert Hwf. eapply vkeeps_trans; [exact Hm1|]. eapply vkeeps_trans; [by apply (vmoved_same e1 rs.2)|].
  eapply vmoved_ext; [apply (vmoved_update_account rs.1 _ 0); [done| |by right]|].
  - unfold net_votes. simpl. apply eq64_eq. lia.
  - intros id. cbv beta. apply eq64_eq. by rewrite at_id_zero.
Qed.
Lemma authorize_update_info k r e r' : authorize_update k r e = Ok r' →
  ac_id r' = ac_id r ∧ ac_delegate_info r' = ac_delegate_info r.
Proof.
  unfold authorize_update. intros Hs. repeat case_match; res_inv Hs; try done; by eapply set_active_key_info.
Qed.
Lemma set_new_key_info k now r e r' : set_new_key k now r e = Ok r' →
  ac_id r' = ac_id r ∧ ac_delegate_info r' = ac_delegate_info r.
Proof. unfold set_new_key. intros Hs. case_match; res_inv Hs; [by eapply set_active_key_info|done]. Qed.
Lemma update_delegate_info_votes rate r e rs : update_delegate_info rate r e = Ok rs →
  ac_id rs.1 = ac_id r ∧ net_votes rs.1 = net_votes r ∧ quiet_eval e rs.2.
Proof.
  unfold update_delegate_info, net_votes. intros Hs. res_inv Hs.
  destruct (op_is_delegate rate); [|by simplify_eq]. case_match eqn:Ed; res_inv Hs; simpl; [done|].
  split; [done|]. split; [done|]. by eapply require_delegate_fee_quiet.
Qed.
Lemma update_account_votes id data active rate e e' :
  update_account_evaluate id data active rate e = Ok e' → vkeeps e e'.
Proof.
  unfold update_account_evaluate. intros Hr Hwf. pose proof Hwf as ((_ & _ & _ & Hk) & _). res_inv Hr.
  match goal with Hs : get_account_record _ _ = Some ?r |- _ =>
    rewrite <- (Hk _ _ Hs) in Hs; rename r into r0; rename Hs into Hold end.
  match goal with Hs : authorize_update _ _ _ = Ok ?r |- _ => apply authorize_update_info in Hs as [E1 D1] end.
  match goal with Hs : set_new_key _ _ _ _ = Ok ?r |- _ => apply set_new_key_info in Hs as [E3 D3] end.
  match goal with Hs : update_delegate_info _ _ _ = Ok _ |- _ => apply update_delegate_info_votes in Hs as (E2 & D2 & Hq) end.
  revert Hwf. eapply vkeeps_trans; [by apply quiet_vkeeps|].
  eapply vmoved_ext; [apply (vmoved_update_account r0 _ 0); [| |left; destruct Hq as [-> _]; done]|].
  - rewrite E3. simpl. rewrite E2. by destruct data.
  - apply eq64_eq. rewrite Z.add_0_r. unfold net_votes at 1. rewrite D3. simpl.
    change (net_votes v1.1 = net_votes r0). rewrite D2. unfold net_votes. destruct data; simpl; by rewrite D1.
  - intros i. cbv beta. apply eq64_eq. by rewrite at_id_zero.
Qed.
Lemma withdraw_pay_votes amount id e e' : withdraw_pay_evaluate amount id e = Ok e' → vkeeps e e'.
Proof.
  unfold withdraw_pay_evaluate. intros Hr Hwf. pose proof Hwf as ((_ & _ & _ & Hk) & _). res_inv Hr.
  match goal with Hs : get_account_record _ _ = Some ?r |- _ =>
    pose proof (Hk _ _ Hs) as Eid; rename r into r0; rename Hs into Hold end.
  match goal with Hs : ac_delegate_info _ = Some ?d |- _ => rename d into d0; rename Hs into Hd end.
  apply add_balance_quiet in Hr as Hq. revert Hwf. eapply vmoved_ext.
  { apply (vmoved_seq e (set_es_net_delegate_votes (vote_for (Z.abs id) (- amount) (es_net_delegate_votes e)) e)
             _ (λ i, if Z.eqb (Z.abs id) i then - amount else 0)).
    - intros Hwf. split; [done|]. intros i. unfold surplus. simpl. rewrite vote_for_at. apply eq64_eq. lia.
    - eapply vmoved_seq; [|by apply quiet_vkeeps].
      apply (vmoved_update_account r0 _ amount); [done| |left; by rewrite Eid].
      unfold net_votes. rewrite Hd. simpl. rewrite s64_eq64. apply eq64_eq. lia. }
  intros i. cbv beta. rewrite Eid. apply eq64_eq. unfold at_id. case_match; lia.
Qed.
Lemma update_feed_votes f v e e' : update_feed_evaluate f v e = Ok e' → vkeeps e e'.
Proof.
  unfold update_feed_evaluate. intros Hr. res_inv Hr.
  match goal with Hs : set_market_dirty _ _ _ = Ok _ |- _ => apply set_market_dirty_spec in Hs as -> end.
  eapply vkeeps_trans; [apply vmoved_neutral|apply (vmoved_neutral id)]; done.
Qed.
Lemma define_slate_votes slate e e' : define_delegate_slate_evaluate slate e = Ok e' → vkeeps e e'.
Proof.
  unfold define_delegate_slate_evaluate. intros Hr. res_inv Hr. case_match eqn:Hn; [by simplify_eq; apply vmoved_same|].
  res_inv Hr. by apply vmoved_slate.
Qed.
Lemma burn_votes amnt id message sig e e' : burn_evaluate amnt id message sig e = Ok e' → vkeeps e e'.
Proof.
  unfold burn_evaluate. intros Hr Hwf. pose proof Hwf as ((_ & _ & Hka & _) & _). res_inv Hr.
  match goal with Ha : get_asset_record _ _ = Some _ |- _ =>
    pose proof (Hka _ _ Ha) as Eid; rewrite <- Eid in Ha end.
  match goal with Hs : sub_balance _ _ _ = Ok _ |- _ => apply sub_balance_quiet in Hs end.
  revert Hwf. eapply vkeeps_trans; [|eapply vkeeps_trans; [by apply quiet_vkeeps|by apply vmoved_neutral]].
  by apply (vmoved_update_asset v).
Qed.

(** ** Orders *)
Ltac order_votes :=
  let Hr := fresh "Hr" in intros Hr; res_inv Hr;
  match goal with Hs : move_order_funds _ _ _ _ = Ok _ |- _ => apply move_order_funds_quiet in Hs end;
  eapply vkeeps_trans; [by apply quiet_vkeeps|by apply vmoved_neutral].
Lemma bid_votes amnt k e e' : bid_evaluate amnt k e = Ok e' → vkeeps e e'.
Proof. unfold bid_evaluate. order_votes. Qed.
Lemma ask_votes amnt k e e' : ask_evaluate amnt k e = Ok e' → vkeeps e e'.
Proof. unfold ask_evaluate. order_votes. Qed.
Lemma short_votes amnt k limit e e' : short_evaluate amnt k limit e = Ok e' → vkeeps e e'.
Proof. unfold short_evaluate. order_votes. Qed.
Lemma cover_settle_votes amnt k p e ce : cover_settle amnt k p e = Ok ce → vkeeps e ce.2.
Proof.
  unfold cover_settle. intros Hr Hwf. pose proof Hwf as ((_ & _ & Hka & _) & _). res_inv Hr.
  match goal with Hs : sub_balance _ _ _ = Ok _ |- _ => apply sub_balance_quiet in Hs as Hq; pose proof Hq as [Es _] end.
  match goal with Ha : get_asset_record _ _ = Some ?a |- _ =>
    rename a into a0; rename Ha into Hasset; rewrite Es in Hasset;
    pose proof (Hka _ _ Hasset) as Eid; rewrite <- Eid in Hasset end.
  revert Hwf. eapply (vkeeps_trans e); [exact (quiet_vkeeps _ _ Hq)|].
  eapply (vkeeps_trans v); [|by apply vmoved_neutral].
  apply (vmoved_update_asset a0); [by rewrite Es|done..].
Qed.
Lemma cover_votes amnt k p e e' : cover_evaluate amnt k p e = Ok e' → vkeeps e e'.
Proof.
  unfold cover_evaluate, reindex_cover. intros Hr. res_inv Hr.
  match goal with Hs : cover_settle _ _ _ _ = Ok _ |- _ => apply cover_settle_votes in Hs end.
  eapply vkeeps_trans; [exact Hv|]. destruct (0 <? _); res_inv Hr; [by apply vmoved_neutral|].
  by eapply quiet_vkeeps, add_balance_quiet.
Qed.
Lemma add_collateral_votes amnt k e e' : add_collateral_evaluate amnt k e = Ok e' → vkeeps e e'.
Proof.
  unfold add_collateral_evaluate, add_collateral_settle. intros Hr. res_inv Hr.
  match goal with Hs : sub_balance _ _ _ = Ok _ |- _ => apply sub_balance_quiet in Hs end.
  eapply vkeeps_trans; [by apply quiet_vkeeps|]. eapply vkeeps_trans; by apply vmoved_neutral.
Qed.

(** ** Whole transactions *)

(** A registered account gets an id that is free. *)
Definition id_free (o : operation) e : Prop :=
  match o with
  | register_account_operation _ _ _ _ _ _ =>
      ∀ x, new_account_id (es_current_state e) = Ok x → get_account_record x.1 (es_current_state e) = None
  | _ => True
  end.
Fixpoint ids_free (l : list operation) e : Prop :=
  match l with
  | [] => True
  | o :: l' => id_free o e ∧ ∀ e', evaluate_operation o e = Ok e' → ids_free l' (next_op e')
  end.
Lemma operation_votes o e e' : id_free o e → evaluate_operation o e = Ok e' → vkeeps e e'.
Proof.
  destruct o; simpl; intros Hfree; try done.
  - apply withdraw_votes.
  - apply deposit_votes.
  - by apply register_votes.
  - apply update_account_votes.
  - apply withdraw_pay_votes.
  - apply bid_votes.
  - apply ask_votes.
  - apply short_votes.
  - apply cover_votes.
  - apply add_collateral_votes.
  - apply define_slate_votes.
  - apply update_feed_votes.
  - apply burn_votes.
  - apply claim_votes.
Qed.
Lemma operations_votes l e e' :
  ids_free l e → rfold (λ o e, let* e := evaluate_operation o e in Ok (next_op e)) l e = Ok e' → vkeeps e e'.
Proof.
  revert e. induction l as [|o l IH]; simpl; intros e Hfree Hr.
  { simplify_eq. by apply vmoved_same. }
  destruct Hfree as [Ho Hl]. res_inv Hr. simplify_eq.
  match goal with Hs : evaluate_operation _ _ = Ok ?e1 |- _ =>
    apply (vkeeps_trans _ e1); [by eapply operation_votes|];
    apply (vkeeps_trans _ (next_op e1)); [by apply vmoved_same|] end. eauto.
Qed.
Lemma collect_fee_votes x e e' : collect_fee x e = Ok e' → vkeeps e e' ∧ es_net_delegate_votes e' = es_net_delegate_votes e.
Proof.
  unfold collect_fee. intros Hr. res_inv Hr. destruct (0 <? x.2); res_inv Hr; split; try done; [|by apply vmoved_same].
  intros Hwf. pose proof Hwf as ((_ & _ & Hka & _) & _).
  match goal with Ha : get_asset_record _ _ = Some ?a |- _ =>
    pose proof (Hka _ _ Ha) as Eid; rewrite <- Eid in Ha; revert Hwf; by apply (vmoved_update_asset a) end.
Qed.
Lemma post_evaluate_votes e e' : post_evaluate e = Ok e' →
  vkeeps e e' ∧ es_net_delegate_votes e' = es_net_delegate_votes e.
Proof.
  unfold post_evaluate. intros Hr. res_inv Hr. apply check_required_deposits_same in Hr as ->.
  match goal with H1 : rfold alt_fee _ ?e0 = Ok ?e1, H2 : rfold collect_fee _ ?e1 = Ok ?e2 |- _ =>
    assert (vkeeps e0 e1 ∧ es_net_delegate_votes e1 = es_net_delegate_votes e0) as [K1 N1];
    [|assert (vkeeps e1 e2 ∧ es_net_delegate_votes e2 = es_net_delegate_votes e1) as [K2 N2]] end.
  - match goal with H1 : rfold alt_fee _ ?e0 = Ok _ |- _ =>
      eapply (rfold_inv (λ e', vkeeps e0 e' ∧ es_net_delegate_votes e' = es_net_delegate_votes e0));
        [|split; [by apply vmoved_same|done]|exact H1] end.
    intros x e1 e2 _ [K N] Ha. apply alt_fee_quiet in Ha as Hq. split.
    + eapply vkeeps_trans; [exact K|by apply quiet_vkeeps].
    + destruct Hq as [_ ->]. done.
  - match goal with H1 : rfold collect_fee _ ?e0 = Ok _ |- _ =>
      eapply (rfold_inv (λ e', vkeeps e0 e' ∧ es_net_delegate_votes e' = es_net_delegate_votes e0));
        [|split; [by apply vmoved_same|done]|exact H1] end.
    intros x e1 e2 _ [K N] Ha. apply collect_fee_votes in Ha as [K' N']. split; [by eapply vkeeps_trans|congruence].
  - split; [|by rewrite N2, N1].
    match goal with K1 : vkeeps ?e0 _ |- _ => apply (vkeeps_trans e e0); [by apply vmoved_same|] end.
    by eapply vkeeps_trans.
Qed.

(** [update_delegate_votes] moves what was gathered into the records. *)
Definition moved_votes (id : Z) (l : list (Z * Z)) : Z := foldr (λ x acc, at_id id x.1 x.2 + acc) 0 l.
Lemma moved_votes_map id (m : gmap Z Z) : moved_votes id (map_to_list m) = default 0 (m !! id).
Proof.
  rewrite <- lsum_map_asc. change (moved_votes id (map_to_list m)) with (lsum id (map_to_list m)).
  pose proof (map_asc_perm m) as Hp. revert Hp. generalize (map_asc m), (map_to_list m).
  induction 1; simpl; lia.
Qed.
Lemma update_votes_list l e e' :
  rfold (λ x e,
    let* r := of_option assert_failure (get_account_record x.1 (es_current_state e)) in
    let* r := ac_adjust_votes_for x.2 r in
    Ok (on_current_state (store_account_record r) e)) l e = Ok e' →
  vmoved e e' (λ id, moved_votes id l) ∧ es_net_delegate_votes e' = es_net_delegate_votes e.
Proof.
  revert e. induction l as [|x l IH]; intros e Hr.
  { injection Hr as <-. split; [by apply vmoved_same|done]. }
  cbn [rfold] in Hr. apply rbind_Ok in Hr as (e1 & H1 & Hr). apply IH in Hr as [Hm Hn]. clear IH.
  res_inv H1. unfold ac_adjust_votes_for in *.
  match goal with Ha : (let* _ := _ in _) = Ok _ |- _ => res_inv Ha end.
  match goal with Hs : get_account_record _ _ = Some ?r |- _ => rename r into r0; rename Hs into Hold end.
  match goal with Hd : ac_delegate_info r0 = Some ?d |- _ => rename d into d0; rename Hd into Hinfo end.
  split; [|done]. intros Hwf. pose proof Hwf as ((_ & _ & _ & Hk) & _). pose proof (Hk _ _ Hold) as Eid.
  revert Hwf. eapply vmoved_ext; [eapply vmoved_seq; [|exact Hm]|].
  - apply (vmoved_update_account r0 _ x.2); [done| |left; by rewrite Eid].
    unfold net_votes. rewrite Hinfo. simpl. rewrite s64_eq64. apply eq64_eq. lia.
  - intros id. cbv beta. rewrite Eid. simpl. reflexivity.
Qed.

(** The state a transaction leaves is backed if the one it found was. *)
Lemma evaluate_votes t skip canonical e b e' :
  begin_evaluate t skip canonical e = Ok b →
  ids_free (tx_operations (st_trx t)) (set_es_current_op_index 0 b) →
  evaluate t skip canonical e = Ok e' →
  votes_wf (es_current_state e) → votes_backed (es_current_state e) →
  votes_wf (es_current_state e') ∧ votes_backed (es_current_state e').
Proof.
  unfold evaluate, evaluate_operations. intros Hb Hfree Hr Hwf Hbk. rewrite Hb in Hr.
  cbn [rbind] in Hr. res_inv Hr.
  assert (es_current_state b = es_current_state e ∧ es_net_delegate_votes b = ∅) as [Es En].
  { unfold begin_evaluate in Hb. res_inv Hb. destruct skip; res_inv Hb; by simplify_eq/=. }
  apply operations_votes in Hv; [|done]. apply post_evaluate_votes in Hv0 as [Hpost Hnet].
  apply update_votes_list in Hr as [Hm Hnet'].
  destruct (Hv ltac:(by rewrite <- Es in Hwf)) as [Hwf1 E1].
  destruct (Hpost Hwf1) as [Hwf2 E2]. destruct (Hm Hwf2) as [Hwf3 E3].
  split; [done|]. intros id. specialize (E1 id). specialize (E2 id). specialize (E3 id).
  rewrite E2, E1 in E3. rewrite moved_votes_map in E3. specialize (Hbk id).
  unfold surplus in E3. simpl in E3. rewrite Es, En, lookup_empty, Hnet' in E3. simpl in E3.
  destruct E3 as [k3 E3], Hbk as [k E]. exists (k3 + k). lia.
Qed.

(** C7 (votes_follow_stake). Evaluating a transaction keeps the votes of every
    delegate equal to the stake behind it: the balances of the core asset whose
    slate names the delegate, and its own pay.  Deposits, withdrawals, claims and
    pay move votes exactly as they move funds, registering and updating accounts
    and defining slates move none, and no other operation does. *)
Theorem votes_follow_stake t skip canonical e b e' :
  begin_evaluate t skip canonical e = Ok b →
  ids_free (tx_operations (st_trx t)) (set_es_current_op_index 0 b) →
  evaluate t skip canonical e = Ok e' →
  votes_wf (es_current_state e) → votes_backed (es_current_state e) →
  votes_wf (es_current_state e') ∧ votes_backed (es_current_state e').
Proof. apply evaluate_votes. Qed.
End votes.
