(* ===== verification/OperationFacts.v ===== *)
(** What single operations guarantee, branch by branch, and what they let
    through. *)
From S2P Require Export TransactionFacts.

Section facts.
Context `{!Fc, !FcLaws _, !Crypto}.
Implicit Types (s : chain_state) (e : transaction_evaluation_state).

(** ** Yield *)
Lemma u128_mul_div_bound a b c :
  0 ≤ a → 0 ≤ b ≤ c → 0 < c → 0 ≤ a * b / c ≤ a.
Proof.
  intros Ha Hb Hc. split; [apply Z.div_pos; nia|].
  apply Z.div_le_upper_bound; [done|nia].
Qed.

Lemma scale_yield_bound y elapsed :
  0 ≤ y < 2 ^ 96 → 0 ≤ elapsed ≤ seconds_per_year →
  0 ≤ scale_yield y elapsed ≤ y.
Proof.
  intros Hy He. assert (seconds_per_year = 31536000) as Ey by reflexivity. rewrite Ey in He.
  unfold scale_yield.
  rewrite (u128_mul_spec y 8), (u128_div_spec (y * 8) 10) by (unfold in_u128; nia || lia).
  set (a := y * 8 / 10). assert (0 ≤ a ≤ y) as Ha.
  { unfold a. split; [apply Z.div_pos; lia|]. apply Z.div_le_upper_bound; lia. }
  rewrite (u128_sub_spec y a) by (unfold in_u128; lia).
  rewrite Ey.
  rewrite (u128_mul_spec a elapsed), (u128_div_spec (a * elapsed)) by (unfold in_u128; nia).
  rewrite (u128_mul_spec (y - a) elapsed), (u128_div_spec ((y - a) * elapsed)) by (unfold in_u128; nia).
  pose proof (u128_mul_div_bound a elapsed 31536000 ltac:(lia) ltac:(lia) ltac:(lia)) as H1.
  pose proof (u128_mul_div_bound (y - a) elapsed 31536000 ltac:(lia) ltac:(lia) ltac:(lia)) as H2.
  set (d := (y - a) * elapsed / 31536000) in *.
  rewrite (u128_mul_spec d elapsed), (u128_div_spec (d * elapsed)) by (unfold in_u128; nia).
  pose proof (u128_mul_div_bound d elapsed 31536000 ltac:(lia) ltac:(lia) ltac:(lia)) as H3.
  rewrite u128_add_spec by lia. lia.
Qed.

(** C40 (yield_bounded). For a balance that is part of the circulating supply the
    yield is computed without overflow, is never negative, is smaller than the
    pool it is paid from, and never exceeds the balance's share of that pool:
    waiting less than a year only makes it smaller. *)
Theorem yield_bounded (r : balance_record) now amount pool share_supply :
  0 ≤ br_deposit_date r ≤ now → now < 2 ^ 32 →
  0 < amount → 0 < pool → amount ≤ share_supply - pool → share_supply ≤ BTS_BLOCKCHAIN_MAX_SHARES →
  ∃ y, calculate_yield r now amount pool share_supply = Ok (Asset y (br_asset_id r)) ∧
    0 ≤ y < pool ∧ y * (share_supply - pool) ≤ amount * pool.
Proof.
  intros Hd Hn Ha Hp Hs Hm. assert (BTS_BLOCKCHAIN_MAX_SHARES = 10 ^ 15) as Em by reflexivity.
  assert (seconds_per_year = 31536000) as Ey by reflexivity.
  rewrite Em in Hm. unfold calculate_yield.
  destruct (Z.leb_spec amount 0), (Z.leb_spec share_supply 0), (Z.leb_spec pool 0); try lia.
  rewrite tps_diff_spec by lia.
  assert (∃ y, Ok (Asset 0 (br_asset_id r)) = Ok (Asset y (br_asset_id r)) ∧
    0 ≤ y < pool ∧ y * (share_supply - pool) ≤ amount * pool) as Hzero by (exists 0; split_and!; [done|nia..]).
  case_match; [|done].
  rewrite s64_id by (unfold_int; lia). rewrite !u128_of_int64_spec by (unfold_int; lia).
  rewrite (proj2 (Z.eqb_neq (share_supply - pool) 0)) by lia. cbn [negb].
  rewrite (u128_mul_spec amount 1000000) by nia.
  rewrite (u128_mul_spec (amount * 1000000) pool) by nia.
  rewrite (u128_div_spec _ (share_supply - pool)) by (unfold in_u128; nia).
  set (full := amount * 1000000 * pool / (share_supply - pool)).
  assert (0 ≤ full ≤ 1000000 * pool) as Hfull.
  { unfold full. split; [apply Z.div_pos; nia|]. apply Z.div_le_upper_bound; nia. }
  set (y := if _ <? seconds_per_year then _ else full).
  assert (0 ≤ y ≤ full) as Hy.
  { unfold y. case_match; [|lia]. apply scale_yield_bound; rewrite ?Ey; lia. }
  rewrite (u128_div_spec y) by (unfold in_u128; lia).
  assert (0 ≤ y / 1000000 < 2 ^ 63) as Hq.
  { split; [apply Z.div_pos; lia|]. apply Z.div_lt_upper_bound; lia. }
  rewrite u128_to_uint64_spec, u64_id by lia. case_match eqn:E; [|done].
  exists (y / 1000000). rewrite s64_id by (unfold_int; lia). split_and!; [done|lia..|].
  assert (y / 1000000 * (share_supply - pool) * 1000000 ≤ amount * 1000000 * pool); [|lia].
  pose proof (Z.mul_div_le y 1000000 ltac:(lia)).
  pose proof (Z.mul_div_le (amount * 1000000 * pool) (share_supply - pool) ltac:(lia)) as Hle.
  fold full in Hle. nia.
Qed.

(** Depositing to a balance moves its deposit date to
    the average of the old date and now, weighted by the amounts: it stays
    between the two, and the sum the average rounds is off by less than the new
    balance. *)
Theorem deposit_date_average (r : balance_record) now amount :
  0 ≤ br_deposit_date r ≤ now → now < 2 ^ 32 → 0 < br_balance r → 0 < amount →
  br_balance r + amount ≤ INT64_MAX →
  ∃ d, average_deposit_date r now amount = Ok d ∧ br_deposit_date r ≤ d ≤ now ∧
    0 ≤ br_deposit_date r * br_balance r + now * amount - d * (br_balance r + amount)
      < br_balance r + amount.
Proof.
  intros Hd Hn Hb Ha Hs. unfold_int. unfold average_deposit_date.
  rewrite s64_id by (unfold_int; lia). rewrite !u128_of_int64_spec by (unfold_int; lia).
  rewrite (u128_mul_spec (br_deposit_date r)), (u128_mul_spec now) by nia.
  rewrite u128_add_spec by nia.
  rewrite (proj2 (Z.eqb_neq (br_balance r + amount) 0)) by lia. cbn [negb].
  rewrite u128_div_spec by (unfold in_u128; nia).
  set (sum := br_deposit_date r * br_balance r + now * amount).
  set (tot := br_balance r + amount).
  assert (br_deposit_date r * tot ≤ sum ≤ now * tot) as Hsum by (unfold sum, tot; nia).
  assert (br_deposit_date r ≤ sum / tot ≤ now) as Hq.
  { split; [apply Z.div_le_lower_bound|apply Z.div_le_upper_bound]; unfold tot in *; lia. }
  exists (sum / tot). rewrite u128_to_integer_spec by lia. split_and!; [done|lia..| |].
  - pose proof (Z.mul_div_le sum tot ltac:(unfold tot; lia)). lia.
  - pose proof (Z.mul_succ_div_gt sum tot ltac:(unfold tot; lia)). lia.
Qed.
End facts.

Lemma yield_bounded_witness :
  ∃ y, calculate_yield (ex_balance 11 1000000) (500 + 31536000) 1000000 500 2000500 = Ok (Asset y 0) ∧
    0 ≤ y < 500 ∧ y * 2000000 ≤ 1000000 * 500.
Proof.
  apply (yield_bounded (ex_balance 11 1000000) (500 + 31536000) 1000000 500 2000500);
    unfold ex_balance, BTS_BLOCKCHAIN_MAX_SHARES; simpl; lia.
Defined.
Lemma deposit_date_average_witness :
  ∃ d, average_deposit_date (ex_balance 11 300) 900 100 = Ok d ∧ 500 ≤ d ≤ 900 ∧
    0 ≤ 500 * 300 + 900 * 100 - d * (300 + 100) < 300 + 100.
Proof.
  apply (deposit_date_average (ex_balance 11 300) 900 100); unfold_int; simpl; lia.
Defined.

(** ** Accounts *)
Section accounts.
Context `{!Fc, !Crypto}.
Implicit Types (s : chain_state) (e : transaction_evaluation_state).

Lemma history_set_last now k h :
  last (history_set now k h) = last h ∨ snd <$> last (history_set now k h) = Some k.
Proof.
  induction h as [|[t k'] h IH]; simpl; [by right|].
  destruct (now <? t); [by left|]. destruct (now =? t).
  - destruct h; [by right|by left].
  - destruct h as [|x h]; simpl in *; [by right|].
    destruct x as [t2 k2]. destruct (now <? t2); [by left|]. destruct (now =? t2).
    + destruct h; [by right|by left].
    + exact IH.
Qed.

Lemma set_active_key_spec now k r r' : ac_set_active_key now k r = Ok r' →
  (ac_active_key r' = ac_active_key r ∨ ac_active_key r' = k) ∧
  ∃ h, r' = set_ac_active_key_history h r.
Proof.
  unfold ac_set_active_key. intros Hr. res_inv Hr. split; [|by eexists].
  unfold ac_active_key. simpl.
  destruct (history_set_last now k (ac_active_key_history r)) as [->|E]; [by left|right].
  destruct (last _) as [[t k']|]; simpl in E; congruence.
Qed.

(** What an update never changes. *)
Definition identity (r : account_record) :=
  (ac_id r, ac_name r, ac_owner_key r, ac_registration_date r, ac_meta_data r).
(** A delegate stays one, its votes, pay and record are kept and its pay rate
    does not grow. *)
Definition delegate_kept (r r' : account_record) : Prop :=
  match ac_delegate_info r with
  | None => True
  | Some d => ∃ rate, ac_delegate_info r' = Some (set_ds_pay_rate rate d) ∧ rate ≤ ds_pay_rate d
  end.

Lemma authorize_update_spec key r e r' : authorize_update key r e = Ok r' →
  (account_or_any_parent_has_signed r e = true ∧ r' = r ∧
     ∀ k, key = Some k → k = ac_active_key r) ∨
  (check_signature (address_of_key (ac_owner_key r)) e || any_parent_has_signed (ac_name r) e = true ∧
     ∃ k now, key = Some k ∧ ac_set_active_key now k r = Ok r').
Proof.
  unfold authorize_update. intros Hr. destruct key as [k|]; [|res_inv Hr; by left].
  destruct (Z.eqb_spec k (ac_active_key r)); simpl in Hr; res_inv Hr.
  - left. split_and!; [done|done|]. congruence.
  - right. eauto.
Qed.

Lemma update_delegate_info_spec rate r e re : update_delegate_info rate r e = Ok re →
  identity re.1 = identity r ∧ ac_active_key re.1 = ac_active_key r ∧ delegate_kept r re.1 ∧
  es_current_state re.2 = es_current_state e.
Proof.
  unfold update_delegate_info, delegate_kept, ac_is_delegate. intros Hr. res_inv Hr.
  destruct (op_is_delegate rate).
  - destruct (ac_delegate_info r) as [d|] eqn:Ed; res_inv Hr; split_and!; try done.
    + exists rate. split; [done|]. lia.
    + simpl. by match goal with Hs : require_delegate_fee _ _ = Ok _ |- _ =>
        apply require_delegate_fee_spec in Hs as [Es _] end.
  - simplify_eq. destruct (ac_delegate_info r); simpl in *; [discriminate|done].
Qed.

(** C38 (update_account_guarded). Updating an account keeps its id, name, owner
    key, registration date and meta data; a delegate stays a delegate, with its
    votes and pay, and cannot raise its pay rate; the account or a parent must
    have signed, and to change the active key the owner or a parent. *)
Theorem update_account_guarded id data key rate e e' :
  funds_wf (es_current_state e) → update_account_evaluate id data key rate e = Ok e' →
  ∃ r r', get_account_record id (es_current_state e) = Some r ∧
    get_account_record id (es_current_state e') = Some r' ∧
    identity r' = identity r ∧ delegate_kept r r' ∧
    account_or_any_parent_has_signed r e
      || check_signature (address_of_key (ac_owner_key r)) e
      || any_parent_has_signed (ac_name r) e = true ∧
    (ac_active_key r' ≠ ac_active_key r →
     check_signature (address_of_key (ac_owner_key r)) e
       || any_parent_has_signed (ac_name r) e = true).
Proof.
  unfold update_account_evaluate. intros Hwf Hr. pose proof Hwf as [_ [_ [_ Hk]]]. res_inv Hr.
  match goal with Hs : get_account_record _ _ = Some ?r |- _ =>
    rename r into r0; rename Hs into Hr0; pose proof (Hk _ _ Hr0) as Eid end.
  match goal with Hs : authorize_update _ _ _ = Ok ?r |- _ => rename r into r1; rename Hs into Hauth end.
  match goal with Hs : update_delegate_info _ _ _ = Ok ?r |- _ => rename r into r2; rename Hs into Hdel end.
  match goal with Hs : set_new_key _ _ _ _ = Ok ?r |- _ => rename r into r3; rename Hs into Hnew end.
  apply update_delegate_info_spec in Hdel as (Eident & Ekey & Hkept & Es).
  assert (identity r3 = identity r2.1 ∧ ac_delegate_info r3 = ac_delegate_info r2.1 ∧
    (ac_active_key r3 = ac_active_key r2.1 ∨ Some (ac_active_key r3) = key)) as (E3 & D3 & K3).
  { unfold set_new_key in Hnew. destruct key as [k|]; [|simplify_eq; split_and!; [done|done|by left]].
    res_inv Hnew. match goal with Hs : ac_set_active_key _ _ _ = Ok _ |- _ =>
      apply set_active_key_spec in Hs as [K [h ->]] end.
    split_and!; [done|done|]. destruct K as [K|K]; [left|right; simpl]; simpl in K; by rewrite K. }
  assert (identity r1 = identity r0 ∧ ac_delegate_info r1 = ac_delegate_info r0 ∧
    (ac_active_key r1 = ac_active_key r0 ∨ Some (ac_active_key r1) = key)) as (E1 & D1 & K1).
  { apply authorize_update_spec in Hauth as [(_ & -> & _)|(_ & k & n & -> & Hs)]; [by eauto|].
    apply set_active_key_spec in Hs as [K [h ->]]. split_and!; [done|done|].
    destruct K as [K|K]; [by left|right]; by rewrite K. }
  exists r0, r3. split_and!; [done| | | | |].
  - simpl. rewrite Es. unfold get_account_record, store_account_record, on_state.
    destruct Hwf as [Hp _]. destruct (es_current_state e); [done|done|].
    erewrite (look_insert p_accounts) by reflexivity.
    assert (ac_id r3 = id) as ->; [|by rewrite decide_True].
    unfold identity in *. destruct data; simpl in *; congruence.
  - rewrite E3, Eident. by destruct data.
  - unfold delegate_kept in *. rewrite D3, <- D1. destruct data; exact Hkept.
  - apply authorize_update_spec in Hauth as [(-> & _)|(Ho & _)]; [done|].
    rewrite <- orb_assoc, Ho. apply orb_true_r.
  - intros Hne. apply authorize_update_spec in Hauth as [(_ & -> & Hsame)|(Ho & _)]; [|done].
    exfalso. apply Hne. destruct K3 as [K3|K3].
    + rewrite K3, Ekey. by destruct data.
    + by rewrite (Hsame _ (eq_sym K3)).
Qed.

(** C37 (register_keeps_names). Registering an account, when the next account id is
    free, succeeds only for a name that is not taken; it binds the name to the new
    account, which holds the requested keys, and leaves every name that was bound
    bound to the same account: no name is taken over. *)
Theorem register_keeps_names name data owner active rate meta e e' :
  is_pending (es_current_state e) →
  (∀ x, new_account_id (es_current_state e) = Ok x →
        get_account_record x.1 (es_current_state e) = None) →
  register_account_evaluate name data owner active rate meta e = Ok e' →
  get_account_record_by_name name (es_current_state e) = None ∧
  (∃ r, get_account_record_by_name name (es_current_state e') = Some r ∧
     ac_name r = name ∧ ac_owner_key r = owner ∧ ac_active_key r = active ∧
     (ac_is_delegate r = true → rate ≤ 100)) ∧
  (∀ n r, get_account_record_by_name n (es_current_state e) = Some r →
     get_account_record_by_name n (es_current_state e') = Some r).
Proof.
  unfold register_account_evaluate. intros Hp Hfresh Hr. res_inv Hr.
  match goal with Hs : require_fee _ _ = Ok _ |- _ => apply require_fee_spec in Hs as [Es _] end.
  rewrite Es in *.
  match goal with Hs : new_account_id _ = Ok ?x, Hd : (if op_is_delegate _ then _ else _) = Ok ?re,
      Hk : ac_set_active_key _ _ _ = Ok _ |- _ =>
    rename x into idst; rename re into rs; rename Hs into Hnew; rename Hd into Hdel; rename Hk into Hkey end.
  pose proof (Hfresh _ Hnew) as Hnone. destruct (new_account_id_spec _ _ Hnew) as [v' Ev].
  assert (get_account_record_by_name name (es_current_state e) = None) as Hfree.
  { destruct (get_account_record_by_name name (es_current_state e)); done. }
  unfold ac_set_active_key in Hkey. res_inv Hkey.
  assert (ac_id rs.1 = idst.1 ∧ ac_name rs.1 = name ∧ ac_owner_key rs.1 = owner ∧
    ac_active_key rs.1 = active ∧ (ac_is_delegate rs.1 = true → rate ≤ 100) ∧
    es_current_state rs.2 = idst.2) as (Eid & En & Eo & Ea & Erate & Es').
  { destruct (op_is_delegate rate) eqn:Erate; [|by simplify_eq]. res_inv Hdel.
    match goal with Hs : require_delegate_fee _ _ = Ok _ |- _ =>
      apply require_delegate_fee_spec in Hs as [E1' _] end. simpl. rewrite E1'.
    split_and!; try done. intros _. unfold op_is_delegate in Erate. lia. }
  split; [done|]. simpl. rewrite Es', Ev. clear Hnew Hfresh Hdel Ev Es'.
  destruct (es_current_state e) as [|d|p prev]; [done|done|].
  set (q := p_store_account_record (set_ac_meta_data meta rs.1) (p_set_property last_account_id_prop v' p)).
  assert (p_accounts q = <[idst.1 := set_ac_meta_data meta rs.1]> (p_accounts p)) as Eacc.
  { unfold q. simpl. by rewrite Eid. }
  assert (p_account_id_index q = <[name := idst.1]> (p_account_id_index p)) as Eidx.
  { unfold q. simpl. by rewrite Eid, En. }
  assert (∀ k, get_account_record k (Pending q prev)
    = if decide (idst.1 = k) then Some (set_ac_meta_data meta rs.1)
      else get_account_record k (Pending p prev)) as Eget.
  { intros k. unfold get_account_record. by apply look_insert. }
  change (store_account_record (set_ac_meta_data meta rs.1)
    (set_property last_account_id_prop v' (Pending p prev))) with (Pending q prev).
  clearbody q.
  split.
  - exists (set_ac_meta_data meta rs.1). split_and!; [|done|done|done|done].
    cbn [get_account_record_by_name]. rewrite Eidx, lookup_insert_eq, Eget. by rewrite decide_True.
  - intros n r Hn. cbn [get_account_record_by_name] in *. rewrite Eidx.
    destruct (decide (n = name)) as [->|Hne]; [congruence|].
    rewrite lookup_insert_ne by done. destruct (p_account_id_index p !! n) as [k|]; [|done].
    rewrite Eget. destruct (decide (idst.1 = k)) as [<-|]; [congruence|done].
Qed.
End accounts.

Definition ex_account : account_record :=
  AccountRecord 4 "alice" v_null 77 [(500, 11)] 500 500 (Some (delegate_stats_new 50)) None.
Definition ex_account_state : chain_state :=
  Pending (p_store_account_record ex_account pending_chain_state_empty) (Database ex_db).
Definition ex_account_eval : transaction_evaluation_state :=
  set_es_signed_keys {[address_of_key 77]} (eval_state_new ex_account_state 1).
Lemma ex_account_wf : funds_wf ex_account_state.
Proof. apply (wf_account ex_account ex_state ex_state_wf). Defined.
Definition ex_updated : transaction_evaluation_state :=
  match update_account_evaluate 4 (Some (v_int 9)) (Some 13) 20 ex_account_eval with
  | Ok e => e | Err _ => ex_account_eval end.
Lemma update_account_guarded_witness :
  ∃ r r', get_account_record 4 ex_account_state = Some r ∧
    get_account_record 4 (es_current_state ex_updated) = Some r' ∧
    identity r' = identity r ∧ delegate_kept r r'.
Proof.
  destruct (update_account_guarded 4 (Some (v_int 9)) (Some 13) 20 ex_account_eval ex_updated
    ex_account_wf) as (r & r' & Hr & Hr' & Hi & Hd & _); [vm_compute; reflexivity|].
  exists r, r'. split; [exact Hr|]. split; [exact Hr'|]. split; [exact Hi|exact Hd].
Defined.
Definition ex_registered : transaction_evaluation_state :=
  match register_account_evaluate "robert-with-a-rather-long-name" v_null 80 81 255 None ex_account_eval with
  | Ok e => e | Err _ => ex_account_eval end.
Lemma register_keeps_names_witness :
  get_account_record_by_name "robert-with-a-rather-long-name" ex_account_state = None ∧
  (∃ r, get_account_record_by_name "robert-with-a-rather-long-name" (es_current_state ex_registered) = Some r ∧
        ac_owner_key r = 80) ∧
  get_account_record_by_name "alice" (es_current_state ex_registered) = Some ex_account.
Proof.
  destruct (register_keeps_names "robert-with-a-rather-long-name" v_null 80 81 255 None ex_account_eval ex_registered)
    as (Hn & (r & Hr & _ & Ho & _) & Hall).
  - exact I.
  - vm_compute. intros x [= <-]. reflexivity.
  - vm_compute. reflexivity.
  - split; [exact Hn|]. split; [by exists r|]. apply Hall. vm_compute. reflexivity.
Defined.

(** ** Market orders *)
Section orders.
Context `{!Fc, !Crypto}.
Implicit Types (s : chain_state) (e : transaction_evaluation_state).

Lemma get_bid_store k r s : is_pending s →
  get_bid_record k (store_bid_record k r s) = Some r.
Proof.
  destruct s as [|d|p prev]; [done|done|]. intros _. unfold get_bid_record, store_bid_record, on_state.
  erewrite (look_insert p_bids) by reflexivity. by rewrite decide_True.
Qed.
Lemma get_asset_store_bid id k r s : is_pending s →
  get_asset_record id (store_bid_record k r s) = get_asset_record id s.
Proof. by destruct s. Qed.
Lemma now_store_bid k r s : is_pending s → now (store_bid_record k r s) = now s.
Proof. by destruct s. Qed.

Lemma sub_balance_withdraws k a e e' : sub_balance k a e = Ok e' → es_withdraws e' = es_withdraws e.
Proof. unfold sub_balance. intros Hr. by res_inv Hr. Qed.
Lemma sub_balance_fees k a e e' : sub_balance k a e = Ok e' →
  ∀ id, get_fees id e' ≡₆₄ get_fees id e - at_id id (asset_id a) (amount a).
Proof.
  unfold sub_balance. intros Hr id. res_inv Hr. unfold get_fees, at_id. simpl.
  destruct (es_balance e !! asset_id a) as [b|] eqn:Eb; rewrite lookup_insert;
    destruct (Z.eqb_spec (asset_id a) id) as [<-|]; case_decide; simplify_eq; rewrite ?Eb; simpl;
    rewrite ?s64_eq64; apply eq64_eq; lia.
Qed.
Lemma add_balance_fees a e : es_withdraws e !! asset_id a = None →
  ∃ e', add_balance a e = Ok e' ∧ es_current_state e' = es_current_state e ∧
    ∀ id, get_fees id e' ≡₆₄ get_fees id e + at_id id (asset_id a) (amount a).
Proof.
  intros Hnone. unfold add_balance, accumulate. rewrite Hnone. cbn [rbind]. eexists.
  split; [reflexivity|]. split; [done|]. intros id. unfold get_fees, at_id. simpl.
  destruct (es_balance e !! asset_id a) as [b|] eqn:Eb; rewrite lookup_insert;
    destruct (Z.eqb_spec (asset_id a) id) as [<-|]; case_decide; simplify_eq; rewrite ?Eb; simpl;
    rewrite ?s64_eq64; apply eq64_eq; lia.
Qed.

(** A bid that was placed, or added to, can be cancelled by
    the same amount in the same transaction: the cancellation succeeds, the
    order is back at its balance and so are the funds of the transaction. *)
Theorem bid_cancelled amnt k e e1 :
  is_pending (es_current_state e) → 0 < amnt →
  0 ≤ or_balance (default order_record_default (get_bid_record k (es_current_state e))) →
  or_balance (default order_record_default (get_bid_record k (es_current_state e))) + amnt ≤ INT64_MAX →
  es_withdraws e !! quote_asset_id (order_price k) = None →
  bid_evaluate amnt k e = Ok e1 →
  ∃ e2 o, bid_evaluate (- amnt) k e1 = Ok e2 ∧ get_bid_record k (es_current_state e2) = Some o ∧
    or_balance o = or_balance (default order_record_default (get_bid_record k (es_current_state e))) ∧
    ∀ id, get_fees id e2 ≡₆₄ get_fees id e.
Proof.
  intros Hp Ha Hb Hmax Hw Hr. set (o0 := default order_record_default _) in *.
  pose proof (operation_auth (bid_operation amnt k) _ _ Hr) as Hauth.
  unfold bid_evaluate in Hr. res_inv Hr.
  unfold move_order_funds in *. rewrite (proj2 (Z.ltb_ge amnt 0)) in Hv0 by lia. res_inv Hv0.
  pose proof (sub_balance_withdraws _ _ _ _ Hv2) as Ew.
  pose proof (sub_balance_fees _ _ _ _ Hv2) as Ef. simpl in Ef.
  apply sub_balance_spec in Hv2 as [Es _]. simpl in *. fold o0 in Hauth |- *.
  set (e1 := on_current_state _ v2) in *. set (o1 := touch_order amnt v1 o0) in *.
  assert (or_balance o1 = or_balance o0 + amnt) as Eo1.
  { unfold o1, touch_order. simpl. apply s64_id. unfold_int. lia. }
  assert (es_current_state e1 = store_bid_record k o1 (es_current_state e)) as Es1
    by (unfold e1; simpl; by rewrite Es).
  assert (es_withdraws e1 = es_withdraws e) as Ew1 by exact Ew.
  assert (∀ id, get_fees id e1 ≡₆₄ get_fees id e - at_id id (quote_asset_id (order_price k)) amnt)
    as Ef1 by exact Ef.
  clearbody e1 o1.
  unfold bid_evaluate. rewrite Hg, (check_signature_auth _ _ _ Hauth), Hg0.
  unfold validate_asset. rewrite Es1, get_asset_store_bid by done.
  unfold validate_asset in Hv. simpl in Hv. cbn [asset_id]. destruct (get_asset_record _ _); [|done].
  cbn [of_option rbind]. rewrite get_bid_store by done. unfold move_order_funds.
  rewrite (proj2 (Z.eqb_neq (- amnt) 0)), (proj2 (Z.ltb_lt (- amnt) 0)) by lia.
  cbn [negb of_option rbind].
  rewrite s64_id, (proj2 (Z.leb_le (Z.abs (- amnt)) _)) by (unfold_int; lia).
  destruct (add_balance_fees (asset_neg (Asset (- amnt) (quote_asset_id (order_price k)))) e1)
    as (e2 & -> & Es2 & Ef2); [simpl; by rewrite Ew1|].
  cbn [rbind fst snd]. rewrite Es2, Es1, now_store_bid by done. rewrite <- Es.
  rewrite Hv1. cbn [rbind]. do 2 eexists. split; [reflexivity|]. simpl.
  rewrite Es2, Es1. split; [apply get_bid_store; by destruct (es_current_state e)|]. split.
  - unfold touch_order. simpl. rewrite Eo1, s64_id; unfold_int; lia.
  - intros id. change (get_fees id (on_current_state ?f e2)) with (get_fees id e2).
    rewrite Ef2, Ef1. simpl. solve_at.
Qed.

Lemma asset_sub_exact a b c :
  in_s64 (amount a) → in_s64 (amount b) → asset_sub a b = Ok c → amount c = amount a - amount b.
Proof.
  intros Ha Hb Hr. pose proof (asset_sub_inv _ _ _ Hr) as (Eid & _ & _).
  rewrite asset_sub_ok in Hr by done. case_decide; [|done]. by injection Hr as <-.
Qed.

(** A payment on a short position is split without
    remainder into principal and interest, and the debt falls by exactly the
    principal; when it covers principal and interest the debt is gone. *)
Theorem cover_payment_split d c now pp ip c' :
  in_s64 (amount d) → in_s64 (cr_payoff_balance c) →
  split_cover_payment d c now = Ok (pp, ip, c') →
  0 ≤ amount pp ≤ cr_payoff_balance c → 0 ≤ amount ip →
  amount pp + amount ip = amount d ∧
  cr_payoff_balance c' = cr_payoff_balance c - amount pp ∧
  cr_collateral_balance c' = cr_collateral_balance c ∧ cr_interest_rate c' = cr_interest_rate c ∧
  (∀ debt interest, get_interest_owed (Asset (cr_payoff_balance c) (asset_id d)) (cr_interest_rate c)
       (cover_elapsed c now) = Ok interest →
     asset_add interest (Asset (cr_payoff_balance c) (asset_id d)) = Ok debt →
     amount debt ≤ amount d → cr_payoff_balance c' = 0).
Proof.
  intros Hd Hc Hr Hpp Hip. unfold split_cover_payment in Hr. res_inv Hr.
  match goal with Hs : asset_add _ _ = Ok _ |- _ => pose proof (asset_add_inv _ _ _ Hs) as (Eid & Eid2 & _) end.
  case_match eqn:Ege; res_inv Hr; simpl in *.
  - match goal with Hs : asset_sub _ _ = Ok _ |- _ => pose proof (asset_sub_exact d (Asset (cr_payoff_balance c) (asset_id d)) _ Hd Hc Hs) as Es end.
    simpl in Es. split_and!; try done; lia.
  - match goal with Hs : asset_sub d ?i = Ok _, Hi : get_interest_paid _ _ _ = Ok ?i |- _ =>
      assert (in_s64 (amount i)) as Hin by (unfold get_interest_paid in Hi; res_inv Hi; simpl; apply s64_range);
      pose proof (asset_sub_exact _ _ _ Hd Hin Hs) as Es end.
    split_and!; try done; [lia|apply s64_id; unfold_int; lia|].
    intros debt interest Hi Hdebt Hle. exfalso.
    assert (v = interest) as -> by congruence. assert (v0 = debt) as -> by congruence.
    unfold asset_geb in Ege. apply andb_false_iff in Ege as [Ege|Ege]; [|lia].
    apply Z.eqb_neq in Ege. congruence.
Qed.
End orders.

Definition ex_usd : asset_record :=
  AssetRecord 3 "USD" "dollar" "" v_null market_issued_asset 10000 1 1 100 1000000 0.
Definition ex_key : market_index_key := MarketIndexKey (Price (2 * 10 ^ 17) 0 3) 5.
Definition ex_market_state : chain_state := store_asset_record ex_usd ex_state.
Definition ex_market_eval : transaction_evaluation_state :=
  set_es_signed_keys {[5]} (eval_state_new ex_market_state 1).
Definition ex_bid : transaction_evaluation_state :=
  match bid_evaluate 40 ex_key ex_market_eval with Ok e => e | Err _ => ex_eval end.
Lemma bid_cancelled_witness :
  ∃ e2 o, bid_evaluate (-40) ex_key ex_bid = Ok e2 ∧
    get_bid_record ex_key (es_current_state e2) = Some o ∧ or_balance o = 0 ∧
    ∀ id, get_fees id e2 ≡₆₄ get_fees id ex_market_eval.
Proof.
  apply (bid_cancelled 40 ex_key ex_market_eval ex_bid);
    [exact I|lia|vm_compute; discriminate|vm_compute; discriminate|reflexivity|vm_compute; reflexivity].
Defined.
Definition ex_position : collateral_record := CollateralRecord 900 100 (Price (10 ^ 18) 0 3) 8200.
Lemma cover_payment_split_witness :
  ∃ pp ip c', split_cover_payment (Asset 40 3) ex_position 8000 = Ok (pp, ip, c') ∧
    amount pp + amount ip = 40 ∧ cr_payoff_balance c' = 100 - amount pp.
Proof.
  do 3 eexists. assert (split_cover_payment (Asset 40 3) ex_position 8000 = Ok
    (Asset 40 3, Asset 0 3, set_cr_payoff_balance 60 ex_position)) as E by (vm_compute; reflexivity).
  split; [exact E|].
  destruct (cover_payment_split (Asset 40 3) ex_position 8000 _ _ _
    ltac:(unfold_int; simpl; lia) ltac:(unfold_int; simpl; lia) E) as (H1 & H2 & _);
    [simpl; lia|simpl; lia|split; [exact H1|exact H2]].
Defined.
