(* ===== verification/Divergences.v ===== *)
(** What the operations let through: runs and general statements that show where
    the code and its stated intent part. *)
From S2P Require Export OperationFacts.

(** ** Burning a negative amount *)
Section burning.
Context `{!Fc, !Crypto}.
Implicit Types (e : transaction_evaluation_state).

(** The guard on burning the core asset compares with an
    unsigned constant: it lets through the amounts from the minimum fee up and
    every negative amount, and a negative burn raises the share supply and the
    funds of the transaction. *)
Theorem burn_lower_bound (amnt : asset) id sig e a :
  asset_id amnt = 0 → in_s64 (amount amnt) →
  get_asset_record 0 (es_current_state e) = Some a → ar_id a = 0 → ar_is_market_issued a = false →
  id = 0 → is_pending (es_current_state e) → es_deposits e !! 0 = None →
  match burn_evaluate amnt id "" sig e with
  | Ok e' => (amount amnt < 0 ∨ BTS_BLOCKCHAIN_MIN_BURN_FEE ≤ amount amnt) ∧
      (∃ a', get_asset_record 0 (es_current_state e') = Some a' ∧
         ar_current_share_supply a' = s64 (ar_current_share_supply a - amount amnt)) ∧
      get_fees 0 e' ≡₆₄ get_fees 0 e - amount amnt
  | Err x => x = assert_failure ∧ 0 ≤ amount amnt < BTS_BLOCKCHAIN_MIN_BURN_FEE
  end.
Proof.
  intros Eid Hs Ha Eaid Hm -> Hp Hdep. unfold_int.
  assert (BTS_BLOCKCHAIN_MIN_BURN_FEE = 1000000) as Emin by reflexivity. rewrite Emin.
  unfold burn_evaluate. rewrite Emin, Eid. cbn [Z.eqb negb orb].
  assert ((1000000 <=? u64 (amount amnt)) = true ↔ (amount amnt < 0 ∨ 1000000 ≤ amount amnt)) as Hguard.
  { rewrite Z.leb_le. unfold u64. destruct (decide (amount amnt < 0)).
    - rewrite <- (Z.mod_add _ 1), Z.mod_small by lia. lia.
    - rewrite Z.mod_small by lia. lia. }
  destruct (1000000 <=? u64 (amount amnt)); [|split; [done|];
    assert (¬ (amount amnt < 0 ∨ 1000000 ≤ amount amnt)) by (by intros X%Hguard); lia].
  rewrite Ha. cbn [of_option rbind]. rewrite Hm. cbn [negb].
  unfold sub_balance, accumulate. cbn [rbind Z.eqb]. rewrite Eid. simpl. rewrite Hdep.
  split; [by apply Hguard|]. split.
  - exists (set_ar_current_share_supply (s64 (ar_current_share_supply a - amount amnt)) a).
    split; [|done]. simpl. destruct (es_current_state e); [done|done|].
    unfold get_asset_record. simpl. unfold set_ar_current_share_supply. simpl.
    by rewrite Eaid, lookup_insert_eq.
  - unfold get_fees. simpl. destruct (es_balance e !! 0) as [b|] eqn:Eb;
      rewrite lookup_insert_eq; simpl; rewrite s64_eq64; apply eq64_eq; lia.
Qed.
End burning.

Lemma burn_lower_bound_witness :
  match burn_evaluate (Asset (-7) 0) 0 "" None ex_eval with
  | Ok e' => (∃ a', get_asset_record 0 (es_current_state e') = Some a' ∧
                    ar_current_share_supply a' = 1007) ∧ get_fees 0 e' ≡₆₄ 0 - (-7)
  | Err _ => False
  end.
Proof.
  pose proof (burn_lower_bound (Asset (-7) 0) 0 None ex_eval ex_core eq_refl
    ltac:(unfold_int; simpl; lia) eq_refl eq_refl eq_refl eq_refl I eq_refl) as Hb.
  destruct (burn_evaluate (Asset (-7) 0) 0 "" None ex_eval) as [e'|x].
  - destruct Hb as (_ & Ha & Hf). split; [exact Ha|exact Hf].
  - destruct Hb as [_ Hb]. simpl in Hb. lia.
Defined.

Definition mint_trx : signed_transaction :=
  SignedTransaction
    (Transaction 1100 None
       [burn_operation (Asset (-5000) 0) 0 "" None; deposit_operation 5000 (ex_condition 12)]) [].
(** A transaction without any signature or withdrawal
    burns a negative amount and deposits it: it evaluates, the new balance
    exists, and the share supply passes its maximum. *)
Theorem negative_burn_mints :
  ∃ e', evaluate mint_trx false false ex_eval = Ok e' ∧
    get_balance_record (br_id (ex_balance 12 0)) ex_state = None ∧
    br_balance <$> get_balance_record (br_id (ex_balance 12 0)) (es_current_state e') = Some 5000 ∧
    supply 0 ex_state = 1000 ∧ supply 0 (es_current_state e') = 6000 ∧
    ar_maximum_share_supply ex_core = 5000.
Proof. eexists. split; [vm_compute; reflexivity|]. vm_compute. repeat split. Qed.

(** ** Replayed transactions *)
Section replay.
Context `{!Fc, !Crypto}.
Implicit Types (e : transaction_evaluation_state).

(** The check for duplicates is disabled below
    block [FORK_25], which is the greatest block number: a transaction that has
    not expired passes the checks whether or not it is already known. *)
Theorem known_transaction_accepted t e now n known :
  ChainState.now (es_current_state e) = Ok now →
  now < tx_expiration (st_trx t) →
  tx_expiration (st_trx t) ≤ tps_add now BTS_BLOCKCHAIN_MAX_TRANSACTION_EXPIRATION_SEC →
  is_known_transaction (tx_expiration (st_trx t)) (trx_digest (es_chain_id e) (st_trx t))
    (es_current_state e) = Ok known →
  get_head_block_num (es_current_state e) = Ok n → 0 ≤ n < 2 ^ 32 - 1 →
  check_expiration t e = Ok ().
Proof.
  intros Hnow Hlo Hhi Hknown Hhead Hn. assert (FORK_25 = 2 ^ 32 - 1) as E25 by reflexivity.
  unfold check_expiration. rewrite Hnow. cbn [rbind].
  rewrite (proj2 (Z.leb_gt _ _)) by lia. rewrite (proj2 (Z.ltb_ge _ _)) by lia. cbn [negb].
  rewrite Hknown. cbn [rbind]. destruct known; [|done]. rewrite Hhead. cbn [rbind].
  rewrite (proj2 (Z.leb_gt _ _)) by lia. done.
Qed.
End replay.

(** The transaction of [ex_trx] once more, on the state that has stored it. *)
Definition replay_state : chain_state :=
  match store_transaction (trx_id ex_trx) (TransactionRecord ex_trx (0, 0)) ex_state with
  | Ok s => s | Err _ => ex_state end.
Lemma known_transaction_accepted_witness :
  is_known_transaction 1100 (trx_digest 1 (st_trx ex_trx)) replay_state = Ok true ∧
  check_expiration ex_trx (eval_state_new replay_state 1) = Ok ().
Proof.
  assert (is_known_transaction 1100 (trx_digest 1 (st_trx ex_trx)) replay_state = Ok true) as Hk
    by (vm_compute; reflexivity).
  split; [exact Hk|].
  apply (known_transaction_accepted ex_trx (eval_state_new replay_state 1) 1000 7 true);
    [vm_compute; reflexivity|simpl; lia|vm_compute; discriminate|exact Hk|vm_compute; reflexivity|lia].
Defined.

(** ** Covering into another market *)
Definition ex_eur : asset_record :=
  AssetRecord 7 "EUR" "euro" "" v_null market_issued_asset 10000 1 1 50 1000000 0.
Definition ex_position_key : market_index_key := MarketIndexKey (Price (2 * 10 ^ 17) 0 3) 5.
Definition ex_other_key : market_index_key := MarketIndexKey (Price 1 0 7) 5.
Definition ex_other_position : collateral_record := CollateralRecord 400 50 (Price (10 ^ 18) 0 7) 8200.
Definition ex_cover_state : chain_state :=
  store_collateral_record ex_position_key ex_position
    (store_collateral_record ex_other_key ex_other_position
      (store_asset_record ex_eur ex_market_state)).
Definition ex_cover_eval : transaction_evaluation_state :=
  set_es_signed_keys {[5]} (eval_state_new ex_cover_state 1).

(** Covering with an amount of zero and a new price
    in another market moves the debt there: a position that owed 100 of asset 3
    owes 100 of asset 7 afterwards, with no payment; and the position that was
    at that key, with its collateral, is overwritten. *)
Theorem cover_changes_market :
  ∃ e', cover_evaluate 0 ex_position_key (Some (order_price ex_other_key)) ex_cover_eval = Ok e' ∧
    get_fees 0 e' = 0 ∧ get_fees 3 e' = 0 ∧ get_fees 7 e' = 0 ∧
    get_collateral_record ex_position_key ex_cover_state = Some ex_position ∧
    get_collateral_record ex_other_key ex_cover_state = Some ex_other_position ∧
    get_collateral_record ex_position_key (es_current_state e') = Some collateral_record_default ∧
    get_collateral_record ex_other_key (es_current_state e') = Some ex_position ∧
    supply 3 (es_current_state e') = supply 3 ex_cover_state ∧
    holdings 0 (es_current_state e') = holdings 0 ex_cover_state - 400.
Proof. eexists. split; [vm_compute; reflexivity|]. vm_compute. repeat split. Qed.

(** ** The limit on short interest *)

(** The limit meant to be 1000% a year is a number
    in another fixed-point format: at the precision of prices it admits rates
    up to more than 18000%, and an order at 10000% is accepted. *)
Theorem short_rate_limit_loose :
  max_short_ratio = 184467440737095516160 ∧ 184 * BTS_PRICE_PRECISION < max_short_ratio ∧
  ∃ e', short_evaluate 90 (MarketIndexKey (Price (100 * BTS_PRICE_PRECISION) 0 3) 5) None
          ex_market_eval = Ok e' ∧
    or_balance <$> get_short_record (MarketIndexKey (Price (100 * BTS_PRICE_PRECISION) 0 3) 5)
      (es_current_state e') = Some 90.
Proof.
  split; [reflexivity|]. split; [vm_compute; reflexivity|].
  eexists. split; [vm_compute; reflexivity|]. vm_compute. reflexivity.
Qed.
