(* ===== verification/ChainFacts.v ===== *)
(** What the database's own figures mean: the supply it counts and the median of
    the price feeds. *)
From S2P Require Export Divergences.

Section counts.
Context `{!Fc, !Crypto}.
Implicit Types (d : chain_database).

(** ** Sums over the listed entries of a table *)
Definition list_sum {K V} (f : K → V → Z) (l : list (K * V)) : Z :=
  foldr (λ x acc, f x.1 x.2 + acc) 0 l.
Lemma list_sum_perm {K V} (f : K → V → Z) l l' : l ≡ₚ l' → list_sum f l = list_sum f l'.
Proof. induction 1; simpl; lia. Qed.
Lemma gsum_list {K V} `{Countable K} (f : K → V → Z) (m : gmap K V) :
  gsum f m = list_sum f (map_to_list m).
Proof.
  revert m. refine (map_ind _ _ _); [by rewrite gsum_empty, map_to_list_empty|].
  intros k v m Hk IH. rewrite gsum_insert_None by done.
  rewrite (list_sum_perm f _ _ (map_to_list_insert m k v Hk)). simpl. by rewrite IH.
Qed.
Lemma gsum_asc {K V} `{Countable K, !KeyOrder K} (f : K → V → Z) (m : gmap K V) :
  gsum f m = list_sum f (map_asc m).
Proof. rewrite gsum_list. apply list_sum_perm. by rewrite map_asc_perm. Qed.

(** A loop that adds to the amount of a running total. *)
Lemma foldl_total {K V} (step : asset → K * V → asset) (f : K → V → Z) id l total :
  (∀ t x, asset_id t = id → asset_id (step t x) = id ∧ amount (step t x) ≡₆₄ amount t + f x.1 x.2) →
  asset_id total = id →
  asset_id (foldl step total l) = id ∧ amount (foldl step total l) ≡₆₄ amount total + list_sum f l.
Proof.
  intros Hstep. revert total. induction l as [|x l IH]; simpl; intros total Hid.
  { split; [done|]. apply eq64_eq. lia. }
  destruct (Hstep total x Hid) as [Hid' Ht]. destruct (IH _ Hid') as [Hid2 E].
  split; [done|]. rewrite E, Ht. apply eq64_eq. lia.
Qed.
Lemma rfold_total {K V} (step : K * V → asset → result asset) (f : K → V → Z) id l total total' :
  (∀ t x t', asset_id t = id → step x t = Ok t' →
     asset_id t' = id ∧ amount t' ≡₆₄ amount t + f x.1 x.2) →
  asset_id total = id → rfold step l total = Ok total' →
  asset_id total' = id ∧ amount total' ≡₆₄ amount total + list_sum f l.
Proof.
  intros Hstep. revert total. induction l as [|x l IH]; simpl; intros total Hid Hr.
  { simplify_eq. split; [done|]. apply eq64_eq. lia. }
  res_inv Hr. destruct (Hstep _ _ _ Hid Hv) as [Hid' Ht]. destruct (IH _ Hid' Hr) as [Hid2 E].
  split; [done|]. rewrite E, Ht. apply eq64_eq. lia.
Qed.

(** The shape of the order books the count relies on: shorts and collateral in
    the core asset, bids in another one. *)
Definition books_wf d : Prop :=
  (∀ k o, db_shorts d !! k = Some o → base_asset_id (order_price k) = 0) ∧
  (∀ k c, db_collateral d !! k = Some c → base_asset_id (order_price k) = 0) ∧
  (∀ k o, db_bids d !! k = Some o → quote_asset_id (order_price k) ≠ 0).

Lemma gsum_zero {K V} `{Countable K} (f : K → V → Z) (m : gmap K V) :
  (∀ k v, m !! k = Some v → f k v = 0) → gsum f m = 0.
Proof.
  intros Hf. rewrite (gsum_ext f (λ _ _, 0)) by done. clear.
  revert m. refine (map_ind _ _ _); [apply gsum_empty|].
  intros k v m Hk IH. by rewrite gsum_insert_None, IH by done.
Qed.
Lemma in_fees_sum id (m : gmap Z asset_record) :
  gsum (in_fees id) m = from_option ar_collected_fees 0 (m !! id).
Proof.
  destruct (m !! id) as [r|] eqn:E; simpl.
  - rewrite (gsum_delete _ m id r E), gsum_zero.
    + unfold in_fees, at_id. rewrite Z.eqb_refl. lia.
    + intros k v Hk. apply lookup_delete_Some in Hk as [Hne _]. unfold in_fees, at_id.
      by destruct (Z.eqb_spec k id).
  - apply gsum_zero. intros k v Hk. unfold in_fees, at_id. destruct (Z.eqb_spec k id); congruence.
Qed.

(** One loop of the count, from the running total [t] at asset [id]; the new total
    is named [t']. *)
Ltac total_loop t f id t' Eid E :=
  match goal with |- context [foldl ?st t ?l] =>
    destruct (foldl_total st f id l t) as [Eid E];
    [|assumption|rewrite <- gsum_asc in E; set (t' := foldl st t l) in *; clearbody t'] end.


(** ** The median feed *)
#[local] Instance price_le_total : Total price_le.
Proof.
  intros p q. unfold price_le. destruct (price_ltb q p) eqn:E1; [|by left].
  destruct (price_ltb p q) eqn:E2; [|by right].
  pose proof (price_ltb_trans _ _ _ E1 E2) as Ht. by rewrite price_ltb_irrefl in Ht.
Qed.
#[local] Instance price_le_trans : Transitive price_le.
Proof.
  intros p q r H1 H2. unfold price_le in *. destruct (price_ltb r p) eqn:E; [|done].
  destruct (price_ltb p q) eqn:E2.
  - pose proof (price_ltb_trans _ _ _ E E2). congruence.
  - destruct (price_ltb q p) eqn:E3; [done|].
    pose proof (price_ltb_total _ _ E2 E3) as ->. congruence.
Qed.

(** C36 (median_price_central). The median price is one of the recent feeds the
    active delegates published for the pair, of which there are at least
    [BTS_BLOCKCHAIN_MIN_FEEDS]; no more than half of the feeds are below it and
    fewer than half are above, so a minority of delegates cannot move it past
    the feeds of the rest. *)
Theorem median_price_central id base d p active :
  get_active_delegates (Database d) = Ok active →
  get_median_delegate_price id base (Database d) = Ok (Some p) →
  let feeds := omap (usable_feed id base active d) (feeds_of id d) in
  BTS_BLOCKCHAIN_MIN_FEEDS ≤ Z.of_nat (length feeds) ∧
  quote_asset_id p = id ∧ base_asset_id p = base ∧
  ∃ lo hi, feeds ≡ₚ lo ++ p :: hi ∧ length lo = (length feeds / 2)%nat ∧
    (length hi ≤ length feeds / 2)%nat ∧
    Forall (λ q, price_le q p) lo ∧ Forall (λ q, price_le p q) hi.
Proof.
  intros Hact Hr feeds. cbn [get_median_delegate_price] in Hr. rewrite Hact in Hr.
  cbn [rbind] in Hr. fold feeds in Hr. destruct (Z.ltb_spec (Z.of_nat (length feeds)) BTS_BLOCKCHAIN_MIN_FEEDS);
    [done|]. injection Hr as Hp. split; [done|].
  assert (∀ q, q ∈ feeds → quote_asset_id q = id ∧ base_asset_id q = base) as Hpair.
  { intros q [x [_ Hx]]%list_elem_of_omap. unfold usable_feed in Hx.
    destruct (bool_decide _); [|done]. destruct (_ <? _); [|done]. destruct (fr_value x.2); try done.
    case_match eqn:E; simplify_eq. apply andb_true_iff in E as [E1%Z.eqb_eq E2%Z.eqb_eq]. done. }
  pose proof (merge_sort_Permutation price_le feeds) as Hperm.
  assert (p ∈ feeds) as Hin by (rewrite <- Hperm; by eapply list_elem_of_lookup_2).
  destruct (Hpair p Hin) as [Eq Eb]. split; [done|]. split; [done|].
  apply list_elem_of_split_length in Hp as (lo & hi & Hsplit & Hlo).
  pose proof (StronglySorted_merge_sort price_le feeds) as Hs. rewrite Hsplit in Hs, Hperm.
  assert (length lo = length feeds / 2)%nat as Hlo' by exact (eq_sym Hlo). clear Hlo.
  exists lo, hi. split; [by symmetry|]. split; [done|].
  apply Permutation_length in Hperm. rewrite length_app, length_cons in Hperm.
  rewrite StronglySorted_app, StronglySorted_cons in Hs. destruct Hs as (Hlt & _ & Hgt & _).
  split_and!; [|apply Forall_forall; intros q Hq; apply Hlt; [done|left]|done].
  pose proof (Nat.div_mod_eq (length feeds) 2).
  pose proof (Nat.mod_upper_bound (length feeds) 2). lia.
Qed.
End counts.

(** Fifty-one delegates, each with a feed for the dollar. *)
Definition feeder (i : nat) : feed_record :=
  FeedRecord (FeedIndex 3 (Z.of_nat i)) (v_price (Price (10 ^ 17 + Z.of_nat (i * 7 mod 51)) 0 3)) 900.
Definition feed_db : chain_database :=
  set_db_feeds (list_to_map ((λ i, (fr_feed (feeder i), feeder i)) <$> seq 1 51))
    (set_db_properties (list_to_map [(active_delegate_list_id, v_ids (Z.of_nat <$> seq 1 51))]) ex_db).
Lemma median_price_central_witness :
  get_median_delegate_price 3 0 (Database feed_db) = Ok (Some (Price (10 ^ 17 + 25) 0 3)) ∧
  BTS_BLOCKCHAIN_MIN_FEEDS ≤ Z.of_nat (length (omap (usable_feed 3 0 (Z.of_nat <$> seq 1 51) feed_db)
    (feeds_of 3 feed_db))).
Proof.
  assert (get_median_delegate_price 3 0 (Database feed_db) = Ok (Some (Price (10 ^ 17 + 25) 0 3))) as E
    by (vm_compute; reflexivity).
  split; [exact E|].
  apply (median_price_central 3 0 feed_db (Price (10 ^ 17 + 25) 0 3) (Z.of_nat <$> seq 1 51));
    [vm_compute; reflexivity|exact E].
Defined.
