(* ===== verification/MarketFacts.v ===== *)
(** The matching loop ends, and a market that fails leaves the funds alone:
    proofs over [Matching]. *)
From S2P Require Export Matching Conserve.

Section loop.
Context `{!Fc, !Crypto}.
Implicit Types (g : market_engine) (m : market_transaction) (l : match_locals).

(** ** The position in the books *)
Definition books_at g :=
  (me_db g, me_quote_id g, me_base_id g, me_feed_price g, me_orders_filled g,
   (me_bid_itr g, me_short_itr g, me_ask_itr g, me_collateral_itr g)).
Definition orders_left g : nat :=
  rank_down (me_bid_itr g) (db_bids (me_db g)) + rank_down (me_short_itr g) (db_shorts (me_db g))
  + rank_up (me_ask_itr g) (db_asks (me_db g))
  + rank_down (me_collateral_itr g) (db_collateral (me_db g)).

Lemma orders_left_at g g' : books_at g' = books_at g → orders_left g' = orders_left g.
Proof. unfold books_at, orders_left. intros [= -> _ _ _ _ -> -> -> ->]. done. Qed.

(** Paying does not move the position. *)
Lemma pay_owner_at o id x g g' : pay_owner o id x g = Ok g' → books_at g' = books_at g.
Proof. unfold pay_owner. intros Hr. res_inv Hr. done. Qed.
Lemma pay_current_short_at m q b g x :
  pay_current_short m q b g = Ok x → books_at x.2 = books_at g.
Proof. unfold pay_current_short. intros Hr. res_inv Hr. case_match; res_inv Hr; done. Qed.
Lemma pay_current_bid_at m q g x : pay_current_bid m q g = Ok x → books_at x.2 = books_at g.
Proof.
  unfold pay_current_bid. intros Hr. res_inv Hr. by apply pay_owner_at in Hv0 as <-.
Qed.
Lemma pay_current_ask_at m b g x : pay_current_ask m b g = Ok x → books_at x.2 = books_at g.
Proof.
  unfold pay_current_ask. intros Hr. res_inv Hr. by apply pay_owner_at in Hv0 as <-.
Qed.
Lemma return_collateral_at ask c m g x :
  return_collateral ask c m g = Ok x → books_at x.2 = books_at g.
Proof. unfold return_collateral. intros Hr. res_inv Hr. by eapply pay_owner_at. Qed.
Lemma pay_current_cover_at m q g x : pay_current_cover m q g = Ok x → books_at x.2 = books_at g.
Proof.
  unfold pay_current_cover. intros Hr. res_inv Hr.
  match goal with Hs : (if _ then return_collateral _ _ _ _ else _) = Ok ?mg |- _ =>
    assert (books_at mg.2 = books_at g) as <-; [|done];
    destruct (_ && _); [by apply return_collateral_at in Hs|by injection Hs as <-] end.
Qed.
Lemma execute_trade_at bid ask m q b g x :
  execute_trade bid ask m q b g = Ok x → books_at x.2 = books_at g.
Proof.
  unfold execute_trade. intros Hr. repeat case_match; res_inv Hr; try done; simpl;
  repeat match goal with
  | Hs : pay_current_short _ _ _ _ = Ok _ |- _ => apply pay_current_short_at in Hs as <-
  | Hs : pay_current_bid _ _ _ = Ok _ |- _ => apply pay_current_bid_at in Hs as <-
  | Hs : pay_current_ask _ _ _ = Ok _ |- _ => apply pay_current_ask_at in Hs
  | Hs : pay_current_cover _ _ _ = Ok _ |- _ => apply pay_current_cover_at in Hs
  end; done.
Qed.
Lemma make_trade_at bid ask m l l' :
  make_trade bid ask m l = Ok l' →
  books_at (ml_engine l') = books_at (ml_engine l) ∧
  ml_last_orders_filled l' = ml_last_orders_filled l.
Proof.
  unfold make_trade, push_market_transaction. intros Hr. res_inv Hr.
  apply execute_trade_at in Hv. done.
Qed.

(** ** Taking an order takes it off a book *)
Definition taken g g' : Prop :=
  me_db g' = me_db g ∧
  (books_at g' = books_at g ∨ (orders_left g' < orders_left g)%nat).

Lemma get_next_short_left g x :
  get_next_short g = Ok x → me_db x.2 = me_db g ∧
  if x.1 then (orders_left x.2 < orders_left g)%nat else x.2 = g.
Proof.
  unfold get_next_short. destruct (me_short_itr g) as [k|] eqn:E; intros Hr; res_inv Hr;
    [|done]. destruct (in_market k g); res_inv Hr; [|done]. split; [done|].
  pose proof (rank_down_prev _ _ _ Hv). unfold orders_left. simpl. rewrite E. lia.
Qed.
Lemma fetch_bid_left g x :
  fetch_bid g = Ok x → me_db x.2 = me_db g ∧
  if x.1 then (orders_left x.2 < orders_left g)%nat else x.2 = g.
Proof.
  unfold fetch_bid. destruct (me_bid_itr g) as [k|] eqn:E; intros Hr; res_inv Hr;
    [|by apply get_next_short_left]. destruct (in_market k g); res_inv Hr;
    [|by apply get_next_short_left].
  assert (me_db v0.2 = me_db g ∧ if v0.1 then (orders_left v0.2 < orders_left g)%nat
          else v0.2 = g) as Hs.
  { destruct (me_feed_price g); [destruct (price_ltb _ _)|];
      [by apply get_next_short_left|by injection Hv0 as <-..]. }
  destruct v0 as [[] g']; simpl in *; res_inv Hr; [done|]. split; [done|].
  pose proof (rank_down_prev _ _ _ Hv). unfold orders_left. simpl. rewrite E. lia.
Qed.
Lemma fetch_cover_left g x :
  fetch_cover g = Ok x → me_db x.2 = me_db g ∧ me_orders_filled x.2 = me_orders_filled g ∧
  if x.1 then (orders_left x.2 < orders_left g)%nat else (orders_left x.2 ≤ orders_left g)%nat.
Proof.
  unfold fetch_cover. intros Hr.
  destruct (me_current_bid g); [|injection Hr as <-; simpl; split; [done|split; [done|lia]]].
  destruct (me_collateral_itr g) as [k|] eqn:E; [|injection Hr as <-; simpl; split; [done|split; [done|lia]]].
  res_inv Hr. pose proof (rank_down_prev _ _ _ Hv) as Hp.
  destruct (in_market k g); [destruct (_ || _)|]; res_inv Hr; (split; [done|split; [done|]]);
    unfold orders_left; simpl; rewrite ?E; simpl in *; lia.
Qed.
Lemma fetch_ask_left g x :
  fetch_ask g = Ok x → me_db x.2 = me_db g ∧ me_orders_filled x.2 = me_orders_filled g ∧
  (x.1 → orders_left x.2 < orders_left g)%nat.
Proof.
  unfold fetch_ask. destruct (me_ask_itr g) as [k|] eqn:E; intros Hr; res_inv Hr; [|done].
  destruct (in_market _ _); res_inv Hr; [|done]. split; [done|split; [done|]]. intros _.
  pose proof (rank_up_next _ _ _ Hv). unfold orders_left. simpl. rewrite E. lia.
Qed.

Lemma get_next_bid_taken g g' : get_next_bid g = Ok (true, g') → taken g g'.
Proof.
  unfold get_next_bid. intros Hr. res_inv Hr. destruct v; res_inv Hr.
  - split; [done|by left].
  - apply fetch_bid_left in Hr as [Hd Hl]. split; [done|right]. exact Hl.
Qed.
Lemma get_next_ask_taken g g' : get_next_ask g = Ok (true, g') → taken g g'.
Proof.
  unfold get_next_ask. intros Hr.
  match type of Hr with (if ?b then _ else _) = _ => destruct b end; res_inv Hr.
  - split; [done|by left].
  - apply fetch_cover_left in Hv as (Hd & _ & Hl). destruct v as [[] g1]; simpl in *.
    + injection Hr as <-. split; [done|right]. exact Hl.
    + apply fetch_ask_left in Hr as (Hd' & _ & Hl'). simpl in *. specialize (Hl' I).
      split; [congruence|right]. eapply Nat.lt_le_trans; [exact Hl'|exact Hl].
Qed.

(** ** The loop ends

    A step that goes on has taken an order, or the count of filled orders has
    not moved since the step before and the step throws. *)
Definition fresh_step l : Prop := me_orders_filled (ml_engine l) = ml_last_orders_filled l.
Lemma match_step_left l l' :
  match_step l = Ok (true, l') →
  fresh_step l' ∧ me_db (ml_engine l') = me_db (ml_engine l) ∧
  (orders_left (ml_engine l') ≤ orders_left (ml_engine l))%nat ∧
  (fresh_step l → orders_left (ml_engine l') < orders_left (ml_engine l))%nat.
Proof.
  unfold match_step. intros Hr. apply rbind_Ok in Hr as ([[] g1] & Hb & Hr); [|discriminate].
  cbn [fst snd negb] in Hr. apply rbind_Ok in Hr as ([[] g2] & Ha & Hr); [|discriminate].
  cbn [fst snd negb] in Hr. apply ensure_Ok in Hr as [Hf Hr]. cbv zeta in Hr.
  apply rbind_Ok in Hr as (bid & _ & Hr). apply rbind_Ok in Hr as (ask & _ & Hr).
  apply rbind_Ok in Hr as (o & _ & Hr).
  apply get_next_bid_taken in Hb as [Db Tb]. apply get_next_ask_taken in Ha as [Da Ta].
  assert (books_at (ml_engine l') = books_at g2 ∧ ml_last_orders_filled l' = me_orders_filled g2)
    as [Eb El].
  { destruct o; res_inv Hr; try done. by apply make_trade_at in Hv. }
  unfold fresh_step. rewrite (orders_left_at _ _ Eb), El.
  assert (me_orders_filled (ml_engine l') = me_orders_filled g2 ∧
          me_db (ml_engine l') = me_db g2) as [Ef Ed] by (unfold books_at in Eb; by simplify_eq).
  rewrite Ef, Ed. split_and!; [done|congruence| |].
  - destruct Tb as [Tb|], Ta as [Ta|]; try (apply orders_left_at in Tb);
      try (apply orders_left_at in Ta); lia.
  - intros Hl. destruct Tb as [Tb|Tb], Ta as [Ta|Ta]; try (apply orders_left_at in Ta; lia);
      try (apply orders_left_at in Tb; lia); try lia.
    assert (me_orders_filled g2 = me_orders_filled (ml_engine l)) as E.
    { unfold books_at in Ta, Tb. simplify_eq. congruence. }
    rewrite E, Hl, Z.eqb_refl in Hf. discriminate.
Qed.

Lemma match_orders_fresh n l :
  fresh_step l → (orders_left (ml_engine l) < n)%nat →
  ∃ r, ∀ k, match_orders (n + k) l = Some r.
Proof.
  revert l. induction n as [|n IH]; intros l Hf Hn; [lia|].
  simpl. destruct (match_step l) as [[[] l']|e] eqn:E; [|by eexists..].
  apply match_step_left in E as (Hf' & _ & _ & Hl). apply IH; [done|]. specialize (Hl Hf). lia.
Qed.

(** C19 (matching_terminates). Matching ends: with as much fuel as there are orders
    in the books, and with any more, the loop returns the same result, whatever
    orders it stands at. *)
Theorem matching_terminates l :
  ∃ r, ∀ k, match_orders (match_fuel (me_db (ml_engine l)) + k) l = Some r.
Proof.
  assert (∀ g, orders_left g + 2 ≤ match_fuel (me_db g))%nat as Hmax.
  { intros g. unfold orders_left, match_fuel.
    pose proof (rank_down_le (me_bid_itr g) (db_bids (me_db g))).
    pose proof (rank_down_le (me_short_itr g) (db_shorts (me_db g))).
    pose proof (rank_up_le (me_ask_itr g) (db_asks (me_db g))).
    pose proof (rank_down_le (me_collateral_itr g) (db_collateral (me_db g))). lia. }
  specialize (Hmax (ml_engine l)). destruct (match_fuel _) as [|n]; [lia|]. simpl.
  destruct (match_step l) as [[[] l']|e] eqn:E; [|by eexists..].
  apply match_step_left in E as (Hf & _ & Hl & _). apply match_orders_fresh; [done|lia].
Qed.
End loop.
