(* ===== verification/Overlay.v ===== *)
(** Applying a pending state to the pending state below it: [apply_changes] of
    [pending_chain_state.cpp] where the state below collects changes itself, as
    the state of a block does for its transactions and markets. *)
From S2P Require Export ApplyUndo Conserve.

Section overlay.
Context `{!Crypto}.
Implicit Types (p q : pending_chain_state) (s : chain_state).

Lemma fold_on_pending {K V} `{Countable K} (f : K → V → chain_database → chain_database)
    (g : K → V → pending_chain_state → pending_chain_state) (m : gmap K V) q prev :
  fold_map (λ k v, on_state (f k v) (g k v)) m (Pending q prev) = Pending (fold_map g m q) prev.
Proof.
  unfold fold_map. generalize (map_to_list m) as l. intros l.
  induction l as [|x l IH] using rev_ind; [done|]. rewrite !foldl_app. simpl. by rewrite IH.
Qed.

(** A loop of stores and a table: written under the records' keys, or left. *)
Lemma fold_writes {K V} `{Countable K} (get : pending_chain_state → gmap K V)
    (key : K → V → K) (g : K → V → pending_chain_state → pending_chain_state) (m : gmap K V) q :
  (∀ k v q, get (g k v q) = <[key k v := v]> (get q)) →
  (∀ k v, m !! k = Some v → key k v = k) → get (fold_map g m q) = m ∪ get q.
Proof.
  intros Hg Hkey.
  assert (get (fold_map g m q) = fold_map (λ k v, <[key k v := v]>) m (get q)) as ->.
  { unfold fold_map. generalize (map_to_list m) as l. intros l.
    induction l as [|x l IH] using rev_ind; [done|]. rewrite !foldl_app. simpl. by rewrite Hg, IH. }
  apply map_eq. intros k. rewrite (fold_insert key (λ _ v, v) m (get q) k Hkey), lookup_union.
  by destruct (m !! k), (get q !! k).
Qed.
Lemma fold_leaves {K V T} `{Countable K} (get : pending_chain_state → T)
    (g : K → V → pending_chain_state → pending_chain_state) (m : gmap K V) q :
  (∀ k v q, get (g k v q) = get q) → get (fold_map g m q) = get q.
Proof.
  intros Hg. unfold fold_map. generalize (map_to_list m) as l. intros l.
  induction l as [|x l IH] using rev_ind; [done|]. rewrite !foldl_app. simpl. by rewrite Hg.
Qed.

(** The seven tables that hold funds, as the state below has them afterwards. *)
Record funds_merged p q q' : Prop := {
  fm_assets : p_assets q' = p_assets p ∪ p_assets q;
  fm_accounts : p_accounts q' = p_accounts p ∪ p_accounts q;
  fm_balances : p_balances q' = p_balances p ∪ p_balances q;
  fm_bids : p_bids q' = p_bids p ∪ p_bids q;
  fm_asks : p_asks q' = p_asks p ∪ p_asks q;
  fm_shorts : p_shorts q' = p_shorts p ∪ p_shorts q;
  fm_collateral : p_collateral q' = p_collateral p ∪ p_collateral q
}.

Ltac leaves := rewrite ?fold_leaves by (intros; reflexivity).
Lemma apply_tables_pending p q prev : keyed p →
  ∃ q', apply_tables p (Pending q prev) = Pending q' prev ∧ funds_merged p q q'.
Proof.
  intros Hk. unfold apply_tables, set_property, store_asset_record, store_account_record,
    store_balance_record, store_bid_record, store_ask_record, store_short_record,
    store_collateral_record.
  rewrite !fold_on_pending. eexists. split; [reflexivity|].
  split.
  - do 6 rewrite (fold_leaves p_assets) by (intros; reflexivity).
    rewrite (fold_writes p_assets (λ _ r, ar_id r)); [|done|apply Hk].
    by rewrite (fold_leaves p_assets) by (intros; reflexivity).
  - do 5 rewrite (fold_leaves p_accounts) by (intros; reflexivity).
    rewrite (fold_writes p_accounts (λ _ r, ac_id r)); [|done|apply Hk].
    by do 2 rewrite (fold_leaves p_accounts) by (intros; reflexivity).
  - do 4 rewrite (fold_leaves p_balances) by (intros; reflexivity).
    rewrite (fold_writes p_balances (λ _ r, br_id r)); [|done|apply Hk].
    by do 3 rewrite (fold_leaves p_balances) by (intros; reflexivity).
  - do 3 rewrite (fold_leaves p_bids) by (intros; reflexivity).
    rewrite (fold_writes p_bids (λ k _, k)) by done.
    by do 4 rewrite (fold_leaves p_bids) by (intros; reflexivity).
  - do 2 rewrite (fold_leaves p_asks) by (intros; reflexivity).
    rewrite (fold_writes p_asks (λ k _, k)) by done.
    by do 5 rewrite (fold_leaves p_asks) by (intros; reflexivity).
  - rewrite (fold_leaves p_shorts) by (intros; reflexivity).
    rewrite (fold_writes p_shorts (λ k _, k)) by done.
    by do 6 rewrite (fold_leaves p_shorts) by (intros; reflexivity).
  - rewrite (fold_writes p_collateral (λ k _, k)) by done.
    by do 7 rewrite (fold_leaves p_collateral) by (intros; reflexivity).
Qed.

Definition funds_tables p :=
  (p_assets p, p_accounts p, p_balances p, p_bids p, p_asks p, p_shorts p, p_collateral p).
Lemma fold_recent_pending (m : gmap Z (list operation)) q prev :
  ∃ q', fold_map (λ _ l s, foldl (λ s o, store_recent_operation o s) s l) m (Pending q prev)
        = Pending q' prev ∧ funds_tables q' = funds_tables q.
Proof.
  assert (∀ l q, ∃ q', foldl (λ s o, store_recent_operation o s) (Pending q prev) l = Pending q' prev
    ∧ funds_tables q' = funds_tables q) as Hl.
  { intros l q0. induction l as [|o l IH] using rev_ind; [by eexists|].
    rewrite foldl_app. destruct IH as (q1 & -> & <-). simpl. by eexists. }
  unfold fold_map. generalize (map_to_list m) as ll. intros ll.
  induction ll as [|x ll IH] using rev_ind; [by eexists|].
  rewrite foldl_app. destruct IH as (q1 & -> & E). simpl.
  destruct (Hl x.2 q1) as (q2 & -> & E2). eexists. split; [done|congruence].
Qed.
Lemma apply_rest_pending p q prev :
  ∃ q', apply_rest p (Pending q prev) = Pending q' prev ∧ funds_tables q' = funds_tables q.
Proof.
  unfold apply_rest, store_delegate_slate, store_slot_record, store_market_history_record,
    store_market_status, set_feed, store_burn_record, set_market_transactions,
    set_dirty_markets, set_property.
  rewrite !fold_on_pending.
  destruct (fold_recent_pending (p_recent_operations p)
    (fold_map (λ _ r, p_set_feed r) (p_feeds p)
      (fold_map (λ _ st, p_store_market_status st) (p_market_statuses p)
        (fold_map p_store_market_history_record (p_market_history p)
          (fold_map (λ _ r, p_store_slot_record r) (p_slots p)
            (fold_map p_store_delegate_slate (p_slates p) q))))) prev) as (q1 & -> & E).
  rewrite fold_on_pending. simpl. eexists. split; [reflexivity|].
  transitivity (funds_tables (fold_map p_store_burn_record (p_burns p) q1)); [done|].
  rewrite (fold_leaves funds_tables) by (intros; reflexivity). rewrite E.
  by do 5 rewrite (fold_leaves funds_tables) by (intros; reflexivity).
Qed.

Lemma apply_changes_pending p q prev s :
  keyed p → p_transactions p = ∅ → apply_changes p (Pending q prev) = Ok s →
  ∃ q', s = Pending q' prev ∧ funds_merged p q q'.
Proof.
  intros Hk Ht. unfold apply_changes. destruct (apply_tables_pending p q prev Hk) as (q1 & -> & Hm).
  rewrite Ht, map_to_list_empty. simpl. intros [= <-].
  destruct (apply_rest_pending p q1 prev) as (q2 & -> & E). exists q2. split; [done|].
  unfold funds_tables in E. destruct Hm. split; simplify_eq; congruence.
Qed.

(** The lookups of the tables that hold funds, and of the orders. *)
Definition same_lookups s s' : Prop :=
  (∀ k, get_asset_record k s' = get_asset_record k s) ∧
  (∀ k, get_account_record k s' = get_account_record k s) ∧
  (∀ k, get_balance_record k s' = get_balance_record k s) ∧
  (∀ k, get_bid_record k s' = get_bid_record k s) ∧
  (∀ k, get_ask_record k s' = get_ask_record k s) ∧
  (∀ k, get_short_record k s' = get_short_record k s) ∧
  (∀ k, get_collateral_record k s' = get_collateral_record k s).
Lemma apply_changes_lookups p q prev s :
  keyed p → p_transactions p = ∅ → apply_changes p (Pending q prev) = Ok s →
  same_lookups (Pending p (Pending q prev)) s ∧ is_pending s.
Proof.
  intros Hk Ht Hs. apply apply_changes_pending in Hs as (q' & -> & []); [|done..].
  split; [|done].
  unfold same_lookups, get_asset_record, get_account_record, get_balance_record, get_bid_record,
    get_ask_record, get_short_record, get_collateral_record.
  split_and!; intros k; rewrite !look_through_eff; simpl;
    rewrite ?fm_assets0, ?fm_accounts0, ?fm_balances0, ?fm_bids0, ?fm_asks0, ?fm_shorts0,
      ?fm_collateral0; by rewrite <- (assoc_L (∪)).
Qed.

(** C25 (overlay_applied). Applying the changes collected over the state of a block
    to that state, where they hold no transaction records, succeeds and answers
    the lookups by key of assets, accounts, balances, bids, asks, shorts and
    positions as the two states did one over the other. *)
Theorem overlay_applied p q prev :
  keyed p → p_transactions p = ∅ →
  let s := Pending p (Pending q prev) in
  ∃ s', apply_changes p (Pending q prev) = Ok s' ∧
    (∀ k, get_asset_record k s' = get_asset_record k s) ∧
    (∀ k, get_account_record k s' = get_account_record k s) ∧
    (∀ k, get_balance_record k s' = get_balance_record k s) ∧
    (∀ k, get_bid_record k s' = get_bid_record k s) ∧
    (∀ k, get_ask_record k s' = get_ask_record k s) ∧
    (∀ k, get_short_record k s' = get_short_record k s) ∧
    (∀ k, get_collateral_record k s' = get_collateral_record k s).
Proof.
  intros Hk Ht s.
  assert (∃ s', apply_changes p (Pending q prev) = Ok s') as [s' Hs].
  { unfold apply_changes. rewrite Ht, map_to_list_empty. by eexists. }
  exists s'. split; [done|]. exact (proj1 (apply_changes_lookups _ _ _ _ Hk Ht Hs)).
Qed.
End overlay.
