(* ===== verification/MarketFunds.v ===== *)
(** What the market engine does to the funds of the chain: each payment moves
    what the trade says, up to the dust and the bad debt named below; proofs over
    [Matching] with the sums of [Supply]. *)
From S2P Require Export MarketFacts.

Section funds.
Context `{!Fc, !Crypto} (C : CryptoLaws _).
Implicit Types (g : market_engine) (m : market_transaction) (l : match_locals)
  (s : chain_state) (Δ : Z → Z).

Lemma Ok_inj {A} (a b : A) : Ok a = Ok b → a = b.
Proof. by injection 1. Qed.

(** ** The excess of a state on its own *)
Definition view s : transaction_evaluation_state := eval_state_new s 0.
Definition smoved s s' Δ : Prop := moved (view s) (view s') Δ.
(** Fees less share supply of the record [execute] works on. *)
Definition local_funds (id : Z) (a : asset_record) : Z :=
  at_id id (ar_id a) (ar_collected_fees a - ar_current_share_supply a).

Lemma smoved_seq s s1 s' Δ1 Δ2 Δ :
  smoved s s1 Δ1 → smoved s1 s' Δ2 → (∀ id, Δ1 id + Δ2 id ≡₆₄ Δ id) → smoved s s' Δ.
Proof. intros H1 H2 E. eapply moved_ext; [by eapply moved_seq|exact E]. Qed.

Lemma in_bid_spec id k o : in_bid id k o = at_id id (quote_asset_id (order_price k)) (or_balance o).
Proof. done. Qed.

Lemma local_add_fees id x a :
  local_funds id (add_fees x a) ≡₆₄ local_funds id a + at_id id (ar_id a) x.
Proof. unfold local_funds, add_fees; simpl. solve_at. Qed.
Lemma local_add_supply id x a :
  local_funds id (add_supply x a) ≡₆₄ local_funds id a - at_id id (ar_id a) x.
Proof. unfold local_funds, add_supply; simpl. solve_at. Qed.

(** ** The payments *)
Lemma pay_owner_moved o id x g g' :
  funds_wf (me_state g) → pay_owner o id x g = Ok g' →
  ∃ r, g' = on_pending (p_store_balance_record r) g ∧
       smoved (me_state g) (me_state g') (λ i, at_id i id x).
Proof.
  intros [_ [Hk _]]. unfold pay_owner. intros Hr.
  apply rbind_Ok in Hr as (t & _ & Hr). cbv zeta in Hr. apply Ok_inj in Hr as <-.
  remember (WithdrawCondition id 0 (withdraw_with_signature o None)) as cond eqn:Hc.
  remember (default (balance_record_owned o (Asset 0 id) 0)
              (get_balance_record (address_of_condition cond) (me_state g))) as r0 eqn:Hr0.
  eexists; split; [done|].
  assert (br_condition r0 = cond) as Ec.
  { subst r0. destruct (get_balance_record (address_of_condition cond) (me_state g)) as [r|] eqn:E;
      simpl; [|by subst cond].
    apply Hk in E. by apply no_condition_collision in E. }
  unfold smoved.
  change (view (me_state (on_pending (p_store_balance_record ?r) g)))
    with (on_current_state (store_balance_record r) (view (me_state g))).
  eapply moved_ext.
  { apply (moved_update_balance r0 _ x); [done|simpl; apply s64_eq64|].
    unfold br_id. rewrite Ec. subst r0.
    change (es_current_state (view (me_state g))) with (me_state g).
    destruct (get_balance_record (address_of_condition cond) (me_state g)) as [r|] eqn:E; simpl;
      [by left|by right]. }
  intros i. unfold br_asset_id. rewrite Ec. by subst cond.
Qed.

Definition held (id : Z) g : Z := excess id (view (me_state g)).
Lemma held_current_bid id b g : held id (set_me_current_bid b g) = held id g.
Proof. done. Qed.
Lemma held_current_ask id a g : held id (set_me_current_ask a g) = held id g.
Proof. done. Qed.
Lemma smoved_held g g' Δ :
  smoved (me_state g) (me_state g') Δ → funds_wf (me_state g) →
  funds_wf (me_state g') ∧ ∀ id, held id g' ≡₆₄ held id g + Δ id.
Proof. intros Hm Hwf. exact (Hm Hwf). Qed.

(** A payment out of an order: the owner of the other side gets [gained] of
    [id_in], the order's entry goes from [o] to [o']. *)
Lemma smoved_bid k o o' g :
  get_bid_record k (me_state g) = Some o →
  smoved (me_state g) (me_state (on_pending (p_store_bid_record k o') g))
    (λ id, at_id id (quote_asset_id (order_price k)) (or_balance o' - or_balance o)).
Proof.
  intros Ho. eapply moved_ext; [apply (moved_bid k o' (view (me_state g)))|].
  intros id. change (es_current_state (view (me_state g))) with (me_state g). rewrite Ho.
  unfold in_bid. simpl. solve_at.
Qed.
Lemma smoved_ask k o o' g :
  get_ask_record k (me_state g) = Some o →
  smoved (me_state g) (me_state (on_pending (p_store_ask_record k o') g))
    (λ id, at_id id (base_asset_id (order_price k)) (or_balance o' - or_balance o)).
Proof.
  intros Ho. eapply moved_ext; [apply (moved_ask k o' (view (me_state g)))|].
  intros id. change (es_current_state (view (me_state g))) with (me_state g). rewrite Ho.
  unfold in_ask. simpl. solve_at.
Qed.
Lemma smoved_short k o o' g :
  get_short_record k (me_state g) = Some o →
  smoved (me_state g) (me_state (on_pending (p_store_short_record k o') g))
    (λ id, at_id id (base_asset_id (order_price k)) (or_balance o' - or_balance o)).
Proof.
  intros Ho. eapply moved_ext; [apply (moved_short k o' (view (me_state g)))|].
  intros id. change (es_current_state (view (me_state g))) with (me_state g). rewrite Ho.
  unfold in_ask. simpl. solve_at.
Qed.
Lemma smoved_collateral k c g :
  smoved (me_state g) (me_state (on_pending (p_store_collateral_record k c) g))
    (λ id, at_id id (base_asset_id (order_price k))
             (cr_collateral_balance c
              - from_option cr_collateral_balance 0 (get_collateral_record k (me_state g)))).
Proof.
  eapply moved_ext; [apply (moved_collateral k c (view (me_state g)))|].
  intros id. change (es_current_state (view (me_state g))) with (me_state g).
  unfold contrib, in_collateral. destruct (get_collateral_record k _); simpl; solve_at.
Qed.

(** What a bid pays and gets; a remainder that buys nothing moves to the fees. *)
Definition bid_paid_form (bid b' : market_order) g g' : Prop :=
  ∃ r, g' = set_me_current_bid (Some b')
              (on_pending (p_store_bid_record (mo_market_index bid) (mo_state b'))
                 (on_pending (p_store_balance_record r) g)) ∧
       mo_market_index b' = mo_market_index bid ∧ mo_type b' = mo_type bid.
Lemma pay_current_bid_funds m q g x bid :
  funds_wf (me_state g) → me_current_bid g = Some bid →
  get_bid_record (mo_market_index bid) (me_state g) = Some (mo_state bid) →
  ar_id q = quote_asset_id (mo_get_price bid) →
  pay_current_bid m q g = Ok x →
  (∃ b', bid_paid_form bid b' g x.2) ∧ mo_type bid = bid_order ∧ ar_id x.1 = ar_id q ∧
  funds_wf (me_state x.2) ∧
  ∀ id, held id x.2 + local_funds id x.1
        ≡₆₄ held id g + local_funds id q + at_id id (me_base_id g) (amount (mt_bid_received m))
            - at_id id (ar_id q) (amount (mt_bid_paid m)).
Proof.
  intros Hwf Hb Ho Hq. unfold pay_current_bid. rewrite Hb. intros Hr.
  apply rbind_Ok in Hr as (? & [= <-] & Hr). apply ensure_Ok in Hr as [Ht Hr].
  cbv zeta in Hr. apply ensure_Ok in Hr as [_ Hr].
  apply rbind_Ok in Hr as (g1 & Hp & Hr). apply rbind_Ok in Hr as (rest & Hrest & Hr).
  apply rbind_Ok in Hr as (buys & _ & Hr). apply Ok_inj in Hr as <-.
  unfold require_types in Ht. apply andb_true_iff in Ht as [Ht _].
  apply bool_decide_eq_true in Ht.
  apply pay_owner_moved in Hp as (r & Eg & Hm); [|done].
  apply smoved_held in Hm as [Hwf1 Hm]; [|done].
  unfold mo_get_quote_quantity, mo_get_balance in Hrest. simpl in Hrest. rewrite Ht in Hrest.
  apply Ok_inj in Hrest as <-. cbn [fst snd amount].
  remember (s64 (or_balance (mo_state bid) - amount (mt_bid_paid m))) as bal eqn:Hbal.
  remember (if amount buys =? 0 then set_balance 0 _ else _) as b' eqn:Hb'.
  assert (mo_market_index b' = mo_market_index bid ∧ mo_type b' = mo_type bid) as [Ek Et]
    by (subst b'; by case_match).
  split_and!.
  - exists b', r. split_and!; [|done..]. rewrite Ek, Eg. done.
  - done.
  - by case_match.
  - rewrite Ek. change (me_state (set_me_current_bid ?b ?h)) with (me_state h).
    eapply (smoved_bid _ (mo_state bid)) in Hwf1; [by apply Hwf1|]. by subst g1.
  - intros id.
    assert (held id (set_me_current_bid (Some b')
      (on_pending (p_store_bid_record (mo_market_index b') (mo_state b')) g1))
      ≡₆₄ held id g1 + at_id id (ar_id q) (or_balance (mo_state b') - or_balance (mo_state bid))) as ->.
    { rewrite Ek, Hq. refine (proj2 (smoved_bid _ (mo_state bid) _ g1 _ Hwf1) id). by subst g1. }
    rewrite Hm. subst b'. destruct (amount buys =? 0); simpl; rewrite ?local_add_fees; subst bal;
      rewrite ?at_id_sub, ?at_id_s64, ?at_id_zero; solve_at.
Qed.

(** An ask: the remainder goes to the record the caller passes, which is the
    quote asset's when the ask has matched a short. *)
Definition ask_paid_form (ask a' : market_order) g g' : Prop :=
  ∃ r, g' = set_me_current_ask (Some a')
              (on_pending (p_store_ask_record (mo_market_index ask) (mo_state a'))
                 (on_pending (p_store_balance_record r) g)) ∧
       mo_market_index a' = mo_market_index ask ∧ mo_type a' = mo_type ask.
Lemma pay_current_ask_funds m b g x ask :
  funds_wf (me_state g) → me_current_ask g = Some ask →
  get_ask_record (mo_market_index ask) (me_state g) = Some (mo_state ask) →
  pay_current_ask m b g = Ok x →
  (∃ a', ask_paid_form ask a' g x.2) ∧ mo_type ask = ask_order ∧ ar_id x.1 = ar_id b ∧
  funds_wf (me_state x.2) ∧
  ∃ dust, 0 ≤ dust ∧ ∀ id, held id x.2 + local_funds id x.1
        ≡₆₄ held id g + local_funds id b + at_id id (me_quote_id g) (amount (mt_ask_received m))
            - at_id id (base_asset_id (mo_get_price ask)) (amount (mt_ask_paid m) + dust)
            + at_id id (ar_id b) dust.
Proof.
  intros Hwf Hb Ho. unfold pay_current_ask. rewrite Hb. intros Hr.
  apply rbind_Ok in Hr as (? & [= <-] & Hr). apply ensure_Ok in Hr as [Ht Hr].
  cbv zeta in Hr. apply ensure_Ok in Hr as [Hpos Hr].
  apply rbind_Ok in Hr as (g1 & Hp & Hr). apply rbind_Ok in Hr as (rest & Hrest & Hr).
  apply rbind_Ok in Hr as (buys & _ & Hr). apply Ok_inj in Hr as <-.
  unfold require_types in Ht. apply andb_true_iff in Ht as [Ht _].
  apply bool_decide_eq_true in Ht.
  apply pay_owner_moved in Hp as (r & Eg & Hm); [|done].
  apply smoved_held in Hm as [Hwf1 Hm]; [|done].
  unfold mo_get_quantity, mo_get_balance in Hrest. simpl in Hrest. rewrite Ht in Hrest.
  apply Ok_inj in Hrest as <-. cbn [fst snd amount]. simpl in Hpos.
  remember (s64 (or_balance (mo_state ask) - amount (mt_ask_paid m))) as bal eqn:Hbal.
  remember (if amount buys =? 0 then set_balance 0 _ else _) as a' eqn:Ha'.
  assert (mo_market_index a' = mo_market_index ask ∧ mo_type a' = mo_type ask) as [Ek Et]
    by (subst a'; by case_match).
  split_and!.
  - exists a', r. split_and!; [|done..]. rewrite Ek, Eg. done.
  - done.
  - by case_match.
  - rewrite Ek. change (me_state (set_me_current_ask ?b ?h)) with (me_state h).
    eapply (smoved_ask _ (mo_state ask)) in Hwf1; [by apply Hwf1|]. by subst g1.
  - exists (if amount buys =? 0 then bal else 0). split; [case_match; lia|]. intros id.
    assert (held id (set_me_current_ask (Some a')
      (on_pending (p_store_ask_record (mo_market_index a') (mo_state a')) g1))
      ≡₆₄ held id g1 + at_id id (base_asset_id (mo_get_price ask))
                        (or_balance (mo_state a') - or_balance (mo_state ask))) as ->.
    { rewrite Ek. refine (proj2 (smoved_ask _ (mo_state ask) _ g1 _ Hwf1) id). by subst g1. }
    rewrite Hm. subst a'. destruct (amount buys =? 0); simpl; rewrite ?local_add_fees; subst bal;
      rewrite ?at_id_add, ?at_id_sub, ?at_id_s64, ?at_id_zero; solve_at.
Qed.

(** A short: its collateral and what the other side paid are locked in the new
    position, and the quote asset is issued. *)
Definition short_paid_form (bid b' : market_order) k c g g' : Prop :=
  g' = set_me_current_bid (Some b')
         (on_pending (p_store_short_record (mo_market_index bid) (mo_state b'))
            (on_pending (p_store_collateral_record k c) g)) ∧
  mo_market_index b' = mo_market_index bid ∧ mo_type b' = mo_type bid.

Lemma asset_add_eq64 a b c : asset_add a b = Ok c →
  asset_id c = asset_id a ∧ asset_id a = asset_id b ∧ amount c ≡₆₄ amount a + amount b.
Proof.
  unfold asset_add. intros Hr. apply ensure_Ok in Hr as [Hid Hr]. apply Z.eqb_eq in Hid.
  case_match; [done|]. apply Ok_inj in Hr as <-. split_and!; [done..|apply s64_eq64].
Qed.
Lemma final_collateral_id balance c b x :
  final_collateral balance c b = Ok x → asset_id x = asset_id balance.
Proof.
  unfold final_collateral, asset_sub. intros Hr. apply rbind_Ok in Hr as (rest & Hs & Hr).
  apply ensure_Ok in Hs as [Hid _]. apply Z.eqb_eq in Hid. case_match.
  - apply asset_add_eq64 in Hr as (-> & _). done.
  - apply Ok_inj in Hr as <-. done.
Qed.

Lemma pay_current_short_trx m q b g x : pay_current_short m q b g = Ok x →
  mt_bid_paid x.1.1 = mt_bid_paid m ∧ mt_ask_paid x.1.1 = mt_ask_paid m ∧
  mt_ask_received x.1.1 = mt_ask_received m ∧ mt_fees_collected x.1.1 = mt_fees_collected m.
Proof.
  unfold pay_current_short. intros Hx. apply rbind_Ok in Hx as (? & _ & Hx).
  apply ensure_Ok in Hx as [_ Hx].
  apply rbind_Ok in Hx as (? & _ & Hx). apply rbind_Ok in Hx as (? & _ & Hx).
  apply rbind_Ok in Hx as (? & _ & Hx). cbv zeta in Hx.
  apply rbind_Ok in Hx as (? & _ & Hx). case_match.
  - apply ensure_Ok in Hx as [_ Hx]. by apply Ok_inj in Hx as <-.
  - apply rbind_Ok in Hx as (? & _ & Hx). apply rbind_Ok in Hx as (? & _ & Hx).
    do 4 apply ensure_Ok in Hx as [_ Hx]. by apply Ok_inj in Hx as <-.
Qed.

Lemma default_collateral o :
  cr_collateral_balance (default collateral_record_default o) = from_option cr_collateral_balance 0 o.
Proof. by destruct o. Qed.

Lemma pay_current_short_funds m q b g x bid :
  funds_wf (me_state g) → me_current_bid g = Some bid →
  get_short_record (mo_market_index bid) (me_state g) = Some (mo_state bid) →
  base_asset_id (mo_get_price bid) < asset_id (mt_bid_paid m) → 0 < amount (mt_bid_paid m) →
  pay_current_short m q b g = Ok x →
  (∃ b' k c, short_paid_form bid b' k c g x.2) ∧ mo_type bid = short_order ∧
  ar_id x.1.2 = ar_id q ∧ (∃ sc, x.1.1 = set_mt_short_collateral (Some sc) m) ∧
  funds_wf (me_state x.2) ∧
  ∀ id, held id x.2 + local_funds id x.1.2
        ≡₆₄ held id g + local_funds id q
            + at_id id (base_asset_id (mo_get_price bid)) (amount (mt_ask_paid m))
            - at_id id (ar_id q) (amount (mt_bid_paid m)).
Proof.
  unfold mo_get_price. intros Hwf Hb Ho Hlt Hpos. unfold pay_current_short. rewrite Hb. intros Hr.
  apply rbind_Ok in Hr as (? & [= <-] & Hr). apply ensure_Ok in Hr as [Ht Hr].
  unfold require_types in Ht. apply andb_true_iff in Ht as [Ht _].
  apply bool_decide_eq_true in Ht.
  apply rbind_Ok in Hr as (balance & Hbal & Hr). apply rbind_Ok in Hr as (sc0 & _ & Hr).
  apply rbind_Ok in Hr as (sc & Hsc & Hr). cbv zeta in Hr.
  apply rbind_Ok in Hr as (coll & Hcoll & Hr). cbn [mt_bid_paid set_mt_short_collateral] in Hr.
  rewrite (proj2 (Z.leb_gt _ _) Hpos) in Hr.
  apply rbind_Ok in Hr as (cp & Hcp & Hr). apply rbind_Ok in Hr as (t & _ & Hr).
  apply ensure_Ok in Hr as [_ Hr]. apply ensure_Ok in Hr as [_ Hr].
  apply ensure_Ok in Hr as [_ Hr]. apply ensure_Ok in Hr as [_ Hr]. apply Ok_inj in Hr as <-.
  cbn [fst snd].
  unfold mo_get_balance in Hbal. rewrite Ht in Hbal. apply Ok_inj in Hbal as <-.
  apply final_collateral_id in Hsc. cbn [asset_id amount] in *.
  cbn [mt_ask_paid set_mt_short_collateral] in Hcoll.
  apply asset_add_eq64 in Hcoll as (Hid & _ & Hcoll).
  assert (base_asset_id cp = base_asset_id (order_price (mo_market_index bid))) as Ebase.
  { unfold asset_div in Hcp. cbn [asset_id amount] in Hcp.
    assert (asset_id coll = base_asset_id (order_price (mo_market_index bid))) as Ec by congruence.
    rewrite Ec in Hcp. destruct (asset_id (mt_bid_paid m) =? _) eqn:E1; [done|].
    rewrite (proj2 (Z.ltb_ge _ _)) in Hcp by lia. case_match; [done|].
    apply Ok_inj in Hcp as <-. done. }
  remember (set_balance _ bid) as b' eqn:Eb'.
  remember (CollateralRecord _ _ _ _) as c eqn:Ec.
  pose proof (smoved_collateral (MarketIndexKey cp (mo_get_owner bid)) c g) as Hm1.
  apply smoved_held in Hm1 as [Hwf1 Hm1]; [|done].
  set (g1 := on_pending (p_store_collateral_record _ c) g) in *.
  pose proof (smoved_short (mo_market_index bid) (mo_state bid) (mo_state b') g1 Ho) as Hm2.
  apply smoved_held in Hm2 as [Hwf2 Hm2]; [|done].
  split_and!; [|done..| | |].
  - exists b', (MarketIndexKey cp (mo_get_owner bid)), c. split; [reflexivity|].
    split; subst b'; reflexivity.
  - by eexists.
  - exact Hwf2.
  - intros id. rewrite held_current_bid.
    rewrite Hm2, Hm1, local_add_supply. cbn [order_price]. rewrite Ebase. subst c b'.
    cbn [cr_collateral_balance set_balance mo_state set_mo_state set_or_balance or_balance amount].
    rewrite default_collateral.
    rewrite !at_id_sub, !at_id_s64, !at_id_add. rewrite Hcoll. rewrite !at_id_add, ?at_id_sub.
    apply eq64_eq. lia.
Qed.

(** What an ask or a position pays to a short that receives nothing for it. *)
Definition short_lost (m : market_transaction) : Z :=
  if amount (mt_bid_paid m) <=? 0 then amount (mt_ask_paid m) else 0.
Lemma short_lost_same m m' : mt_bid_paid m' = mt_bid_paid m → mt_ask_paid m' = mt_ask_paid m →
  short_lost m' = short_lost m.
Proof. unfold short_lost. by intros -> ->. Qed.
(** A short that receives nothing changes nothing but its own copy of the order. *)
Lemma pay_current_short_nothing m q b g x : amount (mt_bid_paid m) ≤ 0 →
  pay_current_short m q b g = Ok x →
  amount (mt_bid_paid m) = 0 ∧ x.1.2 = add_supply 0 q ∧ ∃ b', x.2 = set_me_current_bid (Some b') g.
Proof.
  intros Hle. unfold pay_current_short. intros Hr. apply rbind_Ok in Hr as (bid & _ & Hr).
  apply ensure_Ok in Hr as [_ Hr]. apply rbind_Ok in Hr as (? & _ & Hr).
  apply rbind_Ok in Hr as (? & _ & Hr). apply rbind_Ok in Hr as (? & _ & Hr). cbv zeta in Hr.
  apply rbind_Ok in Hr as (? & _ & Hr). cbn [mt_bid_paid set_mt_short_collateral] in Hr.
  rewrite (proj2 (Z.leb_le _ _) Hle) in Hr. apply ensure_Ok in Hr as [Hge Hr].
  apply Ok_inj in Hr as <-. cbn [fst snd]. apply Z.leb_le in Hge.
  assert (amount (mt_bid_paid m) = 0) as -> by lia. split; [done|]. split; [done|by eexists].
Qed.
Lemma pay_current_short_effect m q b g x bid :
  funds_wf (me_state g) → me_current_bid g = Some bid →
  get_short_record (mo_market_index bid) (me_state g) = Some (mo_state bid) →
  base_asset_id (mo_get_price bid) < asset_id (mt_bid_paid m) →
  pay_current_short m q b g = Ok x →
  (me_quote_id x.2 = me_quote_id g ∧ me_base_id x.2 = me_base_id g ∧
   me_current_collat x.2 = me_current_collat g ∧ me_current_ask x.2 = me_current_ask g ∧
   ∀ k, get_ask_record k (me_state x.2) = get_ask_record k (me_state g)) ∧
  ar_id x.1.2 = ar_id q ∧ funds_wf (me_state x.2) ∧
  ∀ id, held id x.2 + local_funds id x.1.2
        ≡₆₄ held id g + local_funds id q
            + at_id id (base_asset_id (mo_get_price bid)) (amount (mt_ask_paid m))
            - at_id id (ar_id q) (amount (mt_bid_paid m))
            - at_id id (base_asset_id (mo_get_price bid)) (short_lost m).
Proof.
  intros Hwf Hb Ho Hlt Hr. unfold short_lost.
  destruct (Z.leb_spec (amount (mt_bid_paid m)) 0) as [Hle|Hpos].
  - destruct (pay_current_short_nothing m q b g x Hle Hr) as (E0 & Eq & b' & Eg).
    split; [by rewrite Eg|]. split; [by rewrite Eq|]. split; [by rewrite Eg|].
    intros id. rewrite Eg, Eq, held_current_bid, local_add_supply, E0, !at_id_zero. apply eq64_eq. lia.
  - apply (pay_current_short_funds m q b g x bid) in Hr
      as ((b' & k & c & Eg & _) & _ & Eq & _ & Hwf1 & Hheld); [|done..].
    split; [by rewrite Eg|]. split; [done|]. split; [done|].
    intros id. rewrite Hheld, !at_id_zero. apply eq64_eq. lia.
Qed.

Lemma asset_sub_spec a b c : asset_sub a b = Ok c →
  asset_id c = asset_id a ∧ asset_id a = asset_id b ∧ amount c ≡₆₄ amount a - amount b.
Proof.
  unfold asset_sub. intros Hr. apply ensure_Ok in Hr as [Hid Hr]. apply Z.eqb_eq in Hid.
  case_match; [done|]. apply Ok_inj in Hr as <-. split_and!; [done..|apply s64_eq64].
Qed.
Lemma split_payment_sum ask received quote_id g x :
  split_payment ask received quote_id g = Ok x →
  amount x.1.1 + amount x.1.2 ≡₆₄ amount received.
Proof.
  unfold split_payment. intros Hr. apply rbind_Ok in Hr as (age & _ & Hr).
  apply rbind_Ok in Hr as (debt & _ & Hr). case_match.
  - apply rbind_Ok in Hr as (i & Hi & Hr). apply Ok_inj in Hr as <-. cbn [fst snd].
    apply asset_sub_spec in Hi as (_ & _ & ->). apply eq64_eq. lia.
  - apply rbind_Ok in Hr as (i & _ & Hr). apply rbind_Ok in Hr as (p & Hp & Hr).
    apply Ok_inj in Hr as <-. cbn [fst snd].
    apply asset_sub_spec in Hp as (_ & _ & ->). apply eq64_eq. lia.
Qed.

(** The fee of a margin call is the only one its trade collects. *)
Definition fee_taken (base_id fee : Z) m m' : Prop :=
  (fee = 0 ∧ mt_fees_collected m' = mt_fees_collected m) ∨
  (asset_id (mt_fees_collected m') = base_id ∧ asset_id (mt_fees_collected m) = base_id ∧
   amount (mt_fees_collected m) = 0 ∧ amount (mt_fees_collected m') ≡₆₄ fee).
Lemma return_collateral_funds ask c m g x :
  funds_wf (me_state g) → return_collateral ask c m g = Ok x →
  ∃ fee r, x.2 = on_pending (p_store_balance_record r) g ∧ fee_taken (me_base_id g) fee m x.1 ∧
    smoved (me_state g) (me_state x.2) (λ id, at_id id (me_base_id g) (c - fee)).
Proof.
  intros Hwf. unfold return_collateral. intros Hr.
  apply rbind_Ok in Hr as (t & _ & Hr). cbv zeta in Hr.
  remember (if cr_expiration (me_current_collat g) <=? t then 0 else _) as fee eqn:Hfee.
  apply rbind_Ok in Hr as (m1 & Hm & Hr). apply rbind_Ok in Hr as (g1 & Hp & Hr).
  apply Ok_inj in Hr as <-. cbn [fst snd].
  apply pay_owner_moved in Hp as (r & -> & Hp); [|done]. exists fee, r. split_and!; [done| |].
  - destruct (cr_expiration _ <=? t).
    + left. apply Ok_inj in Hm as <-. done.
    + right. apply ensure_Ok in Hm as [Hz Hm]. apply Z.eqb_eq in Hz.
      apply rbind_Ok in Hm as (f & Hf & Hm). apply Ok_inj in Hm as <-. simpl.
      apply asset_add_eq64 in Hf as (E1 & E2 & E3). cbn [asset_id amount] in *.
      split_and!; [congruence|done|done|]. rewrite E3, Hz. apply eq64_eq. lia.
  - eapply moved_ext; [exact Hp|]. intros id. apply at_id_s64.
Qed.

Lemma pay_current_cover_trx m q g x : pay_current_cover m q g = Ok x →
  mt_bid_paid x.1.1 = mt_bid_paid m ∧ mt_ask_paid x.1.1 = mt_ask_paid m.
Proof.
  unfold pay_current_cover. intros Hr. apply rbind_Ok in Hr as (ask & _ & Hr).
  apply ensure_Ok in Hr as [_ Hr]. cbv zeta in Hr. apply ensure_Ok in Hr as [_ Hr].
  apply rbind_Ok in Hr as (sp & _ & Hr). do 3 apply ensure_Ok in Hr as [_ Hr].
  apply rbind_Ok in Hr as (c & _ & Hr). apply ensure_Ok in Hr as [_ Hr].
  apply rbind_Ok in Hr as (mg & Hmg & Hr). apply Ok_inj in Hr as <-. cbn [fst].
  destruct (_ && _); [|by apply Ok_inj in Hmg as <-].
  unfold return_collateral in Hmg. apply rbind_Ok in Hmg as (t & _ & Hmg). cbv zeta in Hmg.
  apply rbind_Ok in Hmg as (m1 & Hm1 & Hmg). apply rbind_Ok in Hmg as (g1 & _ & Hmg).
  apply Ok_inj in Hmg as <-. cbn [fst]. destruct (_ <=? t); [by apply Ok_inj in Hm1 as <-|].
  apply ensure_Ok in Hm1 as [_ Hm1]. apply rbind_Ok in Hm1 as (f & _ & Hm1).
  by apply Ok_inj in Hm1 as <-.
Qed.

Definition cover_paid_form (ask a' : market_order) c g g' : Prop :=
  ∃ h, g' = set_me_current_ask (Some a')
              (set_me_current_collat c
                 (on_pending (p_store_collateral_record (mo_market_index ask) c) h)) ∧
       (h = g ∨ ∃ r, h = on_pending (p_store_balance_record r) g) ∧
       mo_market_index a' = mo_market_index ask ∧ mo_type a' = mo_type ask.
(** A margin call: principal and interest leave the market, what is left of the
    collateral returns to its owner, and a debt left without collateral is taken
    out of the fees. *)
Lemma pay_current_cover_funds m q g x ask :
  funds_wf (me_state g) → me_current_ask g = Some ask →
  get_collateral_record (mo_market_index ask) (me_state g) = Some (me_current_collat g) →
  mo_collateral ask = Some (cr_collateral_balance (me_current_collat g)) →
  base_asset_id (mo_get_price ask) = me_base_id g →
  pay_current_cover m q g = Ok x →
  (∃ a' c, cover_paid_form ask a' c g x.2) ∧ mo_type ask = cover_order ∧
  ar_id x.1.2 = ar_id q ∧ funds_wf (me_state x.2) ∧
  ∃ unpaid fee, 0 ≤ unpaid ∧ fee_taken (me_base_id g) fee m x.1.1 ∧
    ∀ id, held id x.2 + local_funds id x.1.2
          ≡₆₄ held id g + local_funds id q
              + at_id id (ar_id q) (amount (mt_ask_received m) - unpaid)
              - at_id id (me_base_id g) (amount (mt_ask_paid m) + fee).
Proof.
  unfold mo_get_price. intros Hwf Ha Hc Hcoll Hbase. unfold pay_current_cover. rewrite Ha.
  intros Hr. apply rbind_Ok in Hr as (? & [= <-] & Hr). apply ensure_Ok in Hr as [Ht Hr].
  unfold require_types in Ht. apply andb_true_iff in Ht as [Ht _].
  apply bool_decide_eq_true in Ht. cbv zeta in Hr. apply ensure_Ok in Hr as [_ Hr].
  apply rbind_Ok in Hr as (split & Hsplit & Hr). apply split_payment_sum in Hsplit.
  apply ensure_Ok in Hr as [_ Hr]. apply ensure_Ok in Hr as [_ Hr].
  apply ensure_Ok in Hr as [Hleft Hr]. rewrite Hcoll in Hr.
  apply rbind_Ok in Hr as (? & [= <-] & Hr). apply ensure_Ok in Hr as [Hpos Hr].
  apply rbind_Ok in Hr as (mg & Hmg & Hr). apply Ok_inj in Hr as <-. cbn [fst snd].
  remember (s64 (cr_collateral_balance (me_current_collat g) - amount (mt_ask_paid m))) as cb eqn:Hcb.
  remember (if cb =? 0 then 0 else split.2) as bal eqn:Hbal.
  remember ((bal =? 0) && (0 <? cb)) as settled eqn:Hset.
  assert (∃ h, mg.2 = h ∧ (h = g ∨ ∃ r, h = on_pending (p_store_balance_record r) g) ∧
    ∃ fee, fee_taken (me_base_id g) fee m mg.1 ∧ (settled = false → fee = 0) ∧
    funds_wf (me_state h) ∧
    ∀ id, held id h ≡₆₄ held id g + at_id id (me_base_id g) (if settled then cb - fee else 0))
    as (h & Eh & Hh & fee & Hfee & Hfee0 & Hwfh & Hheld).
  { destruct settled.
    - apply return_collateral_funds in Hmg as (fee & r & E & Hf & Hm); [|done].
      apply smoved_held in Hm as [Hw Hm]; [|done]. exists mg.2. split; [done|].
      split; [right; by exists r|]. exists fee. done.
    - apply Ok_inj in Hmg as <-. exists g. split; [done|]. split; [by left|]. exists 0.
      split; [by left|]. split; [done|]. split; [done|]. intros id. rewrite at_id_zero.
      apply eq64_eq. simpl. lia. }
  rewrite Eh. remember (set_cr_payoff_balance _ _) as c' eqn:Ec'.
  assert (get_collateral_record (mo_market_index ask) (me_state h) = Some (me_current_collat g)) as Hc'.
  { destruct Hh as [->|[r ->]]; exact Hc. }
  pose proof (smoved_collateral (mo_market_index ask) c' h) as Hm. rewrite Hc' in Hm.
  apply smoved_held in Hm as [Hwf' Hm]; [|done].
  split.
  { eexists _, c', h. split; [reflexivity|]. split; [done|]. split; reflexivity. }
  split; [done|]. split; [by destruct (cb =? 0)|]. split; [exact Hwf'|].
  exists (if cb =? 0 then split.2 else 0), fee. split; [destruct (cb =? 0); [by apply Z.leb_le|done]|]. split; [done|].
  intros id. rewrite held_current_ask.
  change (held id (set_me_current_collat c' ?h)) with (held id h). rewrite Hm, Hheld, Hbase.
  assert (local_funds id (if cb =? 0 then add_fees (- split.2)
            (add_fees (amount split.1.2) (add_supply (- amount split.1.1) q))
          else add_fees (amount split.1.2) (add_supply (- amount split.1.1) q))
    ≡₆₄ local_funds id q + at_id id (ar_id q) (amount (mt_ask_received m))
        - at_id id (ar_id q) (if cb =? 0 then split.2 else 0)) as ->.
  { rewrite <- Hsplit. destruct (cb =? 0); rewrite ?local_add_fees, ?local_add_supply;
      cbn [ar_id add_fees add_supply set_ar_collected_fees set_ar_current_share_supply];
      rewrite ?local_add_fees, ?local_add_supply;
      cbn [ar_id add_fees add_supply set_ar_collected_fees set_ar_current_share_supply]; solve_at. }
  subst c'. cbn [from_option cr_collateral_balance set_cr_payoff_balance set_cr_collateral_balance].
  assert (∀ x, at_id id (me_base_id g) x ≡₆₄ at_id id (me_base_id g) x) as _ by done.
  assert (at_id id (me_base_id g) cb ≡₆₄ at_id id (me_base_id g)
            (cr_collateral_balance (me_current_collat g) - amount (mt_ask_paid m))) as Ecb.
  { subst cb. by rewrite s64_eq64. }
  destruct settled; rewrite ?at_id_sub, ?at_id_add, ?Ecb, ?at_id_sub, ?at_id_zero;
    rewrite ?(Hfee0 eq_refl), ?at_id_zero; apply eq64_eq; lia.
Qed.

(** ** A trade *)
Definition of_pair (q b : Z) (p : price) : Prop := quote_asset_id p = q ∧ base_asset_id p = b.
Definition ledger (id : Z) l : Z :=
  held id (ml_engine l) + local_funds id (ml_quote l) + local_funds id (ml_base l).

(** The two orders are of this market and read as the state has them. *)
Record trade_ready (bid ask : market_order) (q b : asset_record) g : Prop := {
  tr_wf : funds_wf (me_state g);
  tr_bid : me_current_bid g = Some bid;
  tr_ask : me_current_ask g = Some ask;
  tr_quote : ar_id q = me_quote_id g;
  tr_base : ar_id b = me_base_id g;
  tr_pair : me_base_id g < me_quote_id g;
  tr_bid_pair : of_pair (me_quote_id g) (me_base_id g) (mo_get_price bid);
  tr_ask_pair : of_pair (me_quote_id g) (me_base_id g) (mo_get_price ask);
  tr_feed : ∀ p, me_feed_price g = Some p → of_pair (me_quote_id g) (me_base_id g) p;
  tr_bid_kept : mo_type bid = bid_order →
    get_bid_record (mo_market_index bid) (me_state g) = Some (mo_state bid);
  tr_short_kept : mo_type bid = short_order →
    get_short_record (mo_market_index bid) (me_state g) = Some (mo_state bid);
  tr_ask_kept : mo_type ask = ask_order →
    get_ask_record (mo_market_index ask) (me_state g) = Some (mo_state ask);
  tr_cover_kept : mo_type ask = cover_order →
    get_collateral_record (mo_market_index ask) (me_state g) = Some (me_current_collat g) ∧
    mo_collateral ask = Some (cr_collateral_balance (me_current_collat g))
}.

(** A limit of another pair never becomes the price of a trade. *)
Lemma short_price_pair limit feed ask_price q b p :
  of_pair q b feed → of_pair q b ask_price → short_price limit feed ask_price = Some p →
  of_pair q b p.
Proof.
  unfold of_pair, short_price, price_min, price_ltb. intros [Hfq Hfb] [Haq Hab].
  destruct limit as [li|]; [|by intros [= <-]]. rewrite Hfq, Hfb, Haq, Hab.
  repeat case_match; intros [= <-]; try done; split; lia.
Qed.
Lemma settle_prices_pair bid ask q b g m :
  trade_ready bid ask q b g → settle_prices bid ask q g = Ok (trade m) →
  of_pair (me_quote_id g) (me_base_id g) (mt_bid_price m) ∧
  of_pair (me_quote_id g) (me_base_id g) (mt_ask_price m) ∧
  mt_fees_collected m = asset_default.
Proof.
  intros [] Hr.
  assert (∀ m1, of_pair (me_quote_id g) (me_base_id g) (mt_bid_price m1) →
    of_pair (me_quote_id g) (me_base_id g) (mt_ask_price m1) →
    mt_fees_collected m1 = asset_default → settle_ask ask q m1 g = Ok (trade m) →
    of_pair (me_quote_id g) (me_base_id g) (mt_bid_price m) ∧
    of_pair (me_quote_id g) (me_base_id g) (mt_ask_price m) ∧
    mt_fees_collected m = asset_default) as Hask.
  { intros m1 ??? Hs. unfold settle_ask in Hs. case_match.
    - apply ensure_Ok in Hs as [_ Hs]. case_match; [|done].
      apply rbind_Ok in Hs as (t & _ & Hs). case_match; apply Ok_inj in Hs; simplify_eq. done.
    - case_match; apply Ok_inj in Hs; by simplify_eq. }
  unfold settle_prices in Hr. case_match; [|eapply Hask; [| | |exact Hr]; done].
  apply ensure_Ok in Hr as [_ Hr]. case_match; [|done]. case_match eqn:Hp; [|done].
  eapply Hask; [| | |exact Hr]; [|done|done].
  eapply short_price_pair; [| |exact Hp]; auto.
Qed.

Lemma asset_mul_to_quote a p x q b : b < q → of_pair q b p → asset_id a = b →
  asset_mul a p = Ok x → asset_id x = q.
Proof.
  intros Hlt [Hq Hb] Ha. unfold asset_mul. rewrite Ha, Hb, Z.eqb_refl. case_match; [done|].
  intros Hr. apply rbind_Ok in Hr as (? & _ & Hr). apply Ok_inj in Hr as <-. done.
Qed.
Lemma asset_mul_to_base a p x q b : b < q → of_pair q b p → asset_id a = q →
  asset_mul a p = Ok x → asset_id x = b.
Proof.
  intros Hlt [Hq Hb] Ha. unfold asset_mul. rewrite Ha, Hb, Hq.
  rewrite (proj2 (Z.eqb_neq q b)), Z.eqb_refl by lia. case_match; [done|].
  intros Hr. apply rbind_Ok in Hr as (? & _ & Hr). apply Ok_inj in Hr as <-. done.
Qed.
Lemma asset_min_id a c i : asset_id a = i → asset_id c = i → asset_id (asset_min a c) = i.
Proof. unfold asset_min. by case_match. Qed.
Lemma get_current_cover_debt_id g ask x :
  me_current_ask g = Some ask → mo_type ask = cover_order → get_current_cover_debt g = Ok x →
  asset_id x = quote_asset_id (mo_get_price ask).
Proof.
  intros Ha Ht. unfold get_current_cover_debt. rewrite Ha. intros Hr.
  apply rbind_Ok in Hr as (? & [= <-] & Hr). apply rbind_Ok in Hr as (bal & Hb & Hr).
  apply rbind_Ok in Hr as (age & _ & Hr). apply rbind_Ok in Hr as (i & Hi & Hr).
  unfold mo_get_balance in Hb. rewrite Ht in Hb. apply Ok_inj in Hb as <-.
  apply asset_add_eq64 in Hr as (-> & -> & _). done.
Qed.

Lemma collect_market_fees_funds m q b id :
  asset_id (mt_fees_collected m) = ar_id b ∨ asset_id (mt_fees_collected m) = ar_id q
  ∨ amount (mt_fees_collected m) = 0 →
  ar_id (collect_market_fees m q b).1 = ar_id q ∧ ar_id (collect_market_fees m q b).2 = ar_id b ∧
  local_funds id (collect_market_fees m q b).1 + local_funds id (collect_market_fees m q b).2
  ≡₆₄ local_funds id q + local_funds id b
      + at_id id (asset_id (mt_fees_collected m)) (amount (mt_fees_collected m)).
Proof.
  intros Hid. unfold collect_market_fees.
  destruct (Z.eqb_spec (asset_id (mt_fees_collected m)) (ar_id b)) as [E|E]; cbn [fst snd].
  - split; [done|]. split; [done|]. rewrite local_add_fees, E. apply eq64_eq. lia.
  - destruct (Z.eqb_spec (asset_id (mt_fees_collected m)) (ar_id q)) as [E'|E']; cbn [fst snd].
    + split; [done|]. split; [done|]. rewrite local_add_fees, E'. apply eq64_eq. lia.
    + split; [done|]. split; [done|]. destruct Hid as [Hid|[Hid|Hid]]; [done|done|]. rewrite Hid.
      rewrite at_id_zero. apply eq64_eq. lia.
Qed.

(** What the terms of each kind of trade promise. *)
Definition terms_exchange (quote_id : Z) m m' : Prop :=
  mt_bid_paid m' = mt_ask_received m' ∧ mt_bid_received m' = mt_ask_paid m' ∧
  asset_id (mt_bid_paid m') = quote_id ∧ mt_fees_collected m' = mt_fees_collected m.
Lemma ask_bid_terms_spec bid ask q b m g m' :
  trade_ready bid ask q b g → mo_type bid = bid_order → mo_type ask = ask_order →
  of_pair (me_quote_id g) (me_base_id g) (mt_bid_price m) →
  ask_bid_terms bid ask m = Ok m' →
  amount (mt_bid_received m') = amount (mt_ask_paid m') ∧
  asset_id (mt_fees_collected m') = me_quote_id g ∧
  amount (mt_fees_collected m') ≡₆₄ amount (mt_bid_paid m') - amount (mt_ask_received m').
Proof.
  intros [] Hbt Hat Hp Hr. unfold ask_bid_terms in Hr.
  apply rbind_Ok in Hr as (bq & Hbq & Hr). apply rbind_Ok in Hr as (aq & Haq & Hr).
  cbv zeta in Hr. apply rbind_Ok in Hr as (ar & _ & Hr). apply rbind_Ok in Hr as (bp & Hbp & Hr).
  apply rbind_Ok in Hr as (bp' & Hbp' & Hr). apply rbind_Ok in Hr as (apd & Hap & Hr).
  apply rbind_Ok in Hr as (f & Hf & Hr). apply Ok_inj in Hr as <-.
  unfold mo_get_quantity, mo_get_balance in *. rewrite Hbt, Hat in *. simpl in Hbq, Haq.
  apply Ok_inj in Haq as <-.
  apply (asset_mul_to_base _ _ _ _ _ tr_pair0 tr_bid_pair0) in Hbq; [|by destruct tr_bid_pair0].
  pose proof (asset_min_id bq (Asset (or_balance (mo_state ask))
    (base_asset_id (order_price (mo_market_index ask)))) (me_base_id g) Hbq
    ltac:(by destruct tr_ask_pair0)) as Hq.
  apply (asset_mul_to_quote _ _ _ _ _ tr_pair0 Hp Hq) in Hbp.
  apply asset_sub_spec in Hf as (Ef & _ & Hf). simpl.
  split; [|split].
  - unfold asset_eqb in Hap. case_match eqn:E; apply Ok_inj in Hap as <-; [|done].
    apply Z.eqb_eq in E. done.
  - rewrite Ef. destruct (asset_eqb _ bq); apply Ok_inj in Hbp' as <-; [|done].
    by destruct tr_bid_pair0.
  - done.
Qed.
Lemma cover_terms_min a b c i :
  asset_id a = i → asset_id b = i → asset_id c = i → asset_id (asset_min3 a b c) = i.
Proof. intros. unfold asset_min3. by repeat apply asset_min_id. Qed.
Lemma cover_bid_terms_spec bid ask q b m g m' :
  trade_ready bid ask q b g → mo_type bid = bid_order → mo_type ask = cover_order →
  of_pair (me_quote_id g) (me_base_id g) (mt_bid_price m) →
  cover_bid_terms bid ask m g = Ok m' → terms_exchange (me_quote_id g) m m'.
Proof.
  intros [] Hbt Hat Hp Hr. unfold cover_bid_terms, cover_collateral in Hr.
  apply rbind_Ok in Hr as (cc & Hcc & Hr). apply rbind_Ok in Hcc as (c & _ & Hcc).
  apply Ok_inj in Hcc as <-. apply rbind_Ok in Hr as (mx & Hmx & Hr).
  apply rbind_Ok in Hr as (debt & Hdebt & Hr). apply rbind_Ok in Hr as (sale & Hsale & Hr).
  apply rbind_Ok in Hr as (apd & _ & Hr). apply Ok_inj in Hr as <-.
  unfold mo_get_balance in Hsale. rewrite Hbt in Hsale. apply Ok_inj in Hsale as <-.
  apply (asset_mul_to_quote _ _ _ _ _ tr_pair0 Hp) in Hmx; [|done].
  apply (get_current_cover_debt_id _ _ _ tr_ask0 Hat) in Hdebt.
  split; [done|]. split; [done|]. split; [|done]. simpl.
  apply cover_terms_min; [by destruct tr_bid_pair0|done|]. rewrite Hdebt. by destruct tr_ask_pair0.
Qed.
Lemma collateral_rate_pair g rate q b :
  (∀ p, me_feed_price g = Some p → of_pair q b p) → collateral_rate g = Ok rate → of_pair q b rate.
Proof.
  intros Hf Hr. unfold collateral_rate in Hr. apply rbind_Ok in Hr as (f & Hf' & Hr).
  apply of_option_Ok in Hf'. apply Ok_inj in Hr as <-. by apply Hf in Hf'.
Qed.
Lemma cover_short_terms_spec bid ask q b m g m' :
  trade_ready bid ask q b g → mo_type bid = short_order → mo_type ask = cover_order →
  of_pair (me_quote_id g) (me_base_id g) (mt_bid_price m) →
  cover_short_terms bid ask m g = Ok m' → terms_exchange (me_quote_id g) m m'.
Proof.
  intros [] Hbt Hat Hp Hr. unfold cover_short_terms, cover_collateral in Hr.
  apply rbind_Ok in Hr as (rate & Hrate & Hr).
  apply (collateral_rate_pair _ _ _ _ tr_feed0) in Hrate.
  apply rbind_Ok in Hr as (cc & Hcc & Hr). apply rbind_Ok in Hcc as (c & _ & Hcc).
  apply Ok_inj in Hcc as <-. apply rbind_Ok in Hr as (mx & Hmx & Hr).
  apply rbind_Ok in Hr as (debt & Hdebt & Hr). apply rbind_Ok in Hr as (bal & Hbal & Hr).
  apply rbind_Ok in Hr as (sale & Hsale & Hr). cbv zeta in Hr.
  apply rbind_Ok in Hr as (apd & _ & Hr). apply rbind_Ok in Hr as (sc & _ & Hr).
  apply Ok_inj in Hr as <-.
  unfold mo_get_balance in Hbal. rewrite Hbt in Hbal. apply Ok_inj in Hbal as <-.
  apply (asset_mul_to_quote _ _ _ _ _ tr_pair0 Hrate) in Hsale; [|by destruct tr_bid_pair0].
  apply (asset_mul_to_quote _ _ _ _ _ tr_pair0 Hp) in Hmx; [|done].
  apply (get_current_cover_debt_id _ _ _ tr_ask0 Hat) in Hdebt.
  split; [done|]. split; [done|]. split; [|done]. simpl.
  apply cover_terms_min; [done..|]. rewrite Hdebt. by destruct tr_ask_pair0.
Qed.
Lemma ask_short_terms_spec bid ask q b m g m' :
  trade_ready bid ask q b g → mo_type bid = short_order → mo_type ask = ask_order →
  ask_short_terms bid ask m g = Ok m' → terms_exchange (me_quote_id g) m m'.
Proof.
  intros [] Hbt Hat Hr. unfold ask_short_terms in Hr.
  apply rbind_Ok in Hr as (rate & Hrate & Hr).
  apply (collateral_rate_pair _ _ _ _ tr_feed0) in Hrate.
  apply rbind_Ok in Hr as (aq & Haq & Hr). apply rbind_Ok in Hr as (bal & Hbal & Hr).
  apply rbind_Ok in Hr as (sale & Hsale & Hr). cbv zeta in Hr.
  unfold mo_get_quote_quantity, mo_get_balance in *. rewrite Hbt, Hat in *. simpl in Haq.
  apply Ok_inj in Hbal as <-.
  apply (asset_mul_to_quote _ _ _ _ _ tr_pair0 Hrate) in Hsale; [|by destruct tr_bid_pair0].
  apply (asset_mul_to_quote _ _ _ _ _ tr_pair0 tr_ask_pair0) in Haq; [|by destruct tr_ask_pair0].
  assert (asset_id (asset_min sale aq) = me_quote_id g) as Hid by (by apply asset_min_id).
  case_match; [apply rbind_Ok in Hr as (apd & _ & Hr)|
    apply rbind_Ok in Hr as (apd & _ & Hr); apply rbind_Ok in Hr as (sc & _ & Hr)];
    apply Ok_inj in Hr as <-; done.
Qed.

(** The position a short opens is not the one being called: its key is free. *)
Definition position_apart (bid ask : market_order) (q b : asset_record) m g : Prop :=
  ∀ m' x, cover_short_terms bid ask m g = Ok m' → pay_current_short m' q b g = Ok x →
    get_collateral_record (mo_market_index ask) (me_state x.2) = Some (me_current_collat g).
Definition fees_known (q b : asset_record) m : Prop :=
  asset_id (mt_fees_collected m) = ar_id b ∨ asset_id (mt_fees_collected m) = ar_id q
  ∨ amount (mt_fees_collected m) = 0.

(** The effect of a trade on the two records and the engine: [dust] units of
    the base asset turn into fees in the quote asset, [unpaid] units of the
    quote asset are taken from the fees and stay in the share supply, and [lost]
    units of the base asset go to a short that receives nothing. *)
Definition trade_effect (bid ask : market_order) (q b q' b' : asset_record) g g'
    (dust unpaid lost : Z) : Prop :=
  0 ≤ dust ∧ (dust ≠ 0 → mo_type ask = ask_order ∧ mo_type bid = short_order) ∧
  0 ≤ unpaid ∧ (unpaid ≠ 0 → mo_type ask = cover_order) ∧
  ∀ id, held id g' + local_funds id q' + local_funds id b'
        ≡₆₄ held id g + local_funds id q + local_funds id b
            + at_id id (me_quote_id g) (dust - unpaid) - at_id id (me_base_id g) (dust + lost).
(** What a trade loses to its short. *)
Definition trade_lost (bid : market_order) (m : market_transaction) : Z :=
  if bool_decide (mo_type bid = short_order) then short_lost m else 0.

Lemma fee_taken_known q b base_id fee m m' :
  ar_id b = base_id → fee_taken base_id fee m m' → mt_fees_collected m = asset_default →
  fees_known q b m' ∧
  ∀ id, at_id id (asset_id (mt_fees_collected m')) (amount (mt_fees_collected m'))
        ≡₆₄ at_id id base_id fee.
Proof.
  unfold fees_known. intros Hb [[-> Hf]|(E1 & E2 & E3 & E4)] Hm.
  - rewrite Hf, Hm. split; [right; by right|]. intros id. simpl. by rewrite !at_id_zero.
  - split; [left; congruence|]. intros id. by rewrite E1, E4.
Qed.

Section one_trade.
Context (bid ask : market_order) (q b : asset_record) (m : market_transaction) (g : market_engine)
  (Hready : trade_ready bid ask q b g).
Context (Hbp : of_pair (me_quote_id g) (me_base_id g) (mt_bid_price m))
  (Hfees : mt_fees_collected m = asset_default).
Implicit Types (t : market_transaction * asset_record * asset_record * market_engine).

(** What [execute_trade] returns, with the fees collected. *)
Definition traded t : Prop :=
  let r := collect_market_fees t.1.1.1 t.1.1.2 t.1.2 in
  funds_wf (me_state t.2) ∧ ar_id r.1 = ar_id q ∧ ar_id r.2 = ar_id b ∧
  ∃ dust unpaid, trade_effect bid ask q b r.1 r.2 g t.2 dust unpaid (trade_lost bid t.1.1.1).
Lemma traded_intro m' q' b' g' dust unpaid :
  funds_wf (me_state g') → ar_id q' = ar_id q → ar_id b' = ar_id b → fees_known q b m' →
  0 ≤ dust → (dust ≠ 0 → mo_type ask = ask_order ∧ mo_type bid = short_order) →
  0 ≤ unpaid → (unpaid ≠ 0 → mo_type ask = cover_order) →
  (∀ id, held id g' + local_funds id q' + local_funds id b'
         + at_id id (asset_id (mt_fees_collected m')) (amount (mt_fees_collected m'))
         ≡₆₄ held id g + local_funds id q + local_funds id b
             + at_id id (me_quote_id g) (dust - unpaid)
             - at_id id (me_base_id g) (dust + trade_lost bid m')) →
  traded (m', q', b', g').
Proof.
  intros Hw Hq Hb Hf Hd Hd' Hu Hu' Hheld. unfold fees_known in Hf. rewrite <- Hq, <- Hb in Hf.
  unfold traded. cbn [fst snd].
  split; [done|]. destruct (collect_market_fees_funds m' q' b' 0 Hf) as (E1 & E2 & _).
  split; [congruence|]. split; [congruence|]. exists dust, unpaid. split_and!; [done..|].
  intros id. destruct (collect_market_fees_funds m' q' b' id Hf) as (_ & _ & E).
  rewrite <- Hheld. rewrite <- !Z.add_assoc, E. apply eq64_eq. lia.
Qed.

Lemma trade_lost_bid m' : mo_type bid = bid_order → trade_lost bid m' = 0.
Proof. intros E. unfold trade_lost. by rewrite E. Qed.
Lemma trade_lost_short m' : mo_type bid = short_order → trade_lost bid m' = short_lost m'.
Proof. intros E. unfold trade_lost. by rewrite E. Qed.
Lemma trade_ask_bid t :
  mo_type bid = bid_order → mo_type ask = ask_order →
  execute_trade bid ask m q b g = Ok t → traded t.
Proof.
  intros Hbt Hat. unfold execute_trade. rewrite Hbt, Hat. intros Hr.
  apply rbind_Ok in Hr as (m' & Hterms & Hr). apply rbind_Ok in Hr as (x & Hx & Hr).
  apply rbind_Ok in Hr as (y & Hy & Hr). apply Ok_inj in Hr as <-.
  destruct (ask_bid_terms_spec _ _ _ _ _ _ _ Hready Hbt Hat Hbp Hterms) as (Esame & Efid & Efee).
  destruct Hready as [Hwf Hcb Hca Hq Hb Hlt [Hbq Hbb] [Haq Hab] _ Hkb _ Hka _].
  apply (pay_current_bid_funds _ _ _ _ bid) in Hx as ((b' & r & Eg & _) & _ & Eq & Hwf1 & Hheld1);
    [|done|done|by apply Hkb|congruence].
  apply (pay_current_ask_funds _ _ _ _ ask) in Hy as (_ & _ & Eb & Hwf2 & dust & _ & Hheld2);
    [|done|by rewrite Eg|rewrite Eg; by apply Hka].
  assert (me_quote_id x.2 = me_quote_id g) as Eqid by (by rewrite Eg).
  apply (traded_intro _ _ _ _ 0 0); [done|congruence|done|right; left; congruence|lia|done|lia|done|].
  intros id. rewrite trade_lost_bid by done. specialize (Hheld1 id). specialize (Hheld2 id). unfold mo_get_price in Hheld2.
  unfold mo_get_price in Hab. rewrite Efid, Efee. rewrite Hab, Eqid, Hb in Hheld2.
  rewrite Hq, Esame in Hheld1. rewrite !at_id_sub, !at_id_add, !at_id_zero in *.
  transitivity (held id x.2 + local_funds id x.1 + local_funds id b
     + at_id id (me_quote_id g) (amount (mt_bid_paid m'))
     - at_id id (me_base_id g) (amount (mt_ask_paid m'))).
  - transitivity (held id y.2 + local_funds id y.1 + (local_funds id x.1 +
      (at_id id (me_quote_id g) (amount (mt_bid_paid m'))
       - at_id id (me_quote_id g) (amount (mt_ask_received m'))))); [apply eq64_eq; lia|].
    rewrite Hheld2. apply eq64_eq. lia.
  - rewrite Hheld1. apply eq64_eq. lia.
Qed.
Lemma trade_cover_bid t :
  mo_type bid = bid_order → mo_type ask = cover_order →
  execute_trade bid ask m q b g = Ok t → traded t.
Proof.
  intros Hbt Hat. unfold execute_trade. rewrite Hbt, Hat. intros Hr.
  apply rbind_Ok in Hr as (m' & Hterms & Hr). apply rbind_Ok in Hr as (x & Hx & Hr).
  apply rbind_Ok in Hr as (y & Hy & Hr). apply Ok_inj in Hr as <-.
  destruct (cover_bid_terms_spec _ _ _ _ _ _ _ Hready Hbt Hat Hbp Hterms) as (E1 & E2 & _ & E4).
  destruct Hready as [Hwf Hcb Hca Hq Hb Hlt [Hbq Hbb] [Haq Hab] _ Hkb _ _ Hkc].
  destruct (Hkc Hat) as [Hkc1 Hkc2].
  apply (pay_current_bid_funds _ _ _ _ bid) in Hx as ((b' & r & Eg & _) & _ & Eq & Hwf1 & Hheld1);
    [|done|done|by apply Hkb|congruence].
  assert (me_base_id x.2 = me_base_id g ∧ me_current_collat x.2 = me_current_collat g)
    as [Ebid Ecol] by (by rewrite Eg).
  apply (pay_current_cover_funds _ _ _ _ ask) in Hy
    as (_ & _ & Eq2 & Hwf2 & unpaid & fee & Hunp & Hfee & Hheld2);
    [|done|by rewrite Eg|rewrite Ecol, Eg; exact Hkc1|congruence|congruence].
  rewrite Ebid in *. rewrite Hfees in E4.
  destruct (fee_taken_known q b _ _ _ _ Hb Hfee E4) as [Hknown Hfeeamt].
  apply (traded_intro _ _ _ _ 0 unpaid); [done|congruence|done|done|lia|done|done|done|].
  intros id. rewrite trade_lost_bid by done. specialize (Hheld1 id). specialize (Hheld2 id). rewrite Hfeeamt.
  rewrite Eq, Hq in Hheld2. rewrite Hq, E1, E2 in Hheld1.
  rewrite !at_id_sub, !at_id_add, !at_id_zero in *.
  transitivity (held id x.2 + local_funds id x.1 + local_funds id b
     + at_id id (me_quote_id g) (amount (mt_ask_received m')) - at_id id (me_quote_id g) unpaid
     - at_id id (me_base_id g) (amount (mt_ask_paid m'))).
  - transitivity (held id y.2 + local_funds id y.1.2 + (local_funds id b
      + at_id id (me_base_id g) fee)); [apply eq64_eq; lia|].
    rewrite Hheld2. apply eq64_eq. lia.
  - rewrite Hheld1. apply eq64_eq. lia.
Qed.

Lemma trade_ask_short t :
  mo_type bid = short_order → mo_type ask = ask_order →
  execute_trade bid ask m q b g = Ok t → traded t.
Proof.
  intros Hbt Hat. unfold execute_trade. rewrite Hbt, Hat. intros Hr.
  apply rbind_Ok in Hr as (m' & Hterms & Hr). apply rbind_Ok in Hr as (x & Hx & Hr).
  apply rbind_Ok in Hr as (y & Hy & Hr). apply Ok_inj in Hr as <-.
  destruct (ask_short_terms_spec _ _ _ _ _ _ _ Hready Hbt Hat Hterms) as (E1 & E2 & E3 & E4).
  destruct Hready as [Hwf Hcb Hca Hq Hb Hlt [Hbq Hbb] [Haq Hab] _ _ Hks Hka _].
  destruct (pay_current_short_trx _ _ _ _ _ Hx) as (F1 & F2 & F3 & F4).
  apply (pay_current_short_effect _ _ _ _ _ bid) in Hx
    as ((Eqid & Ebid & Ecol & Easks & Easkr) & Eq & Hwf1 & Hheld1);
    [|done|done|by apply Hks|by rewrite Hbb, E3].
  apply (pay_current_ask_funds _ _ _ _ ask) in Hy
    as (_ & _ & Eb & Hwf2 & dust & Hdust & Hheld2);
    [|done|by rewrite Easks|rewrite Easkr; by apply Hka].
  apply (traded_intro _ _ _ _ dust 0);
    [done|congruence|done|right; right; by rewrite F4, E4, Hfees|done|done|lia|done|].
  intros id. rewrite trade_lost_short by done. specialize (Hheld1 id). specialize (Hheld2 id).
  rewrite (short_lost_same m' x.1.1) by done.
  rewrite F4, E4, Hfees. cbn [asset_id amount asset_default].
  rewrite F2, F3, Hab, Eqid, Eq, Hq in Hheld2. rewrite Hbb, Hq, E1 in Hheld1.
  rewrite !at_id_sub, !at_id_add, !at_id_zero in *.
  transitivity (held id x.2 + local_funds id x.1.2 + local_funds id b
     + at_id id (me_quote_id g) (amount (mt_ask_received m')) + at_id id (me_quote_id g) dust
     - at_id id (me_base_id g) (amount (mt_ask_paid m')) - at_id id (me_base_id g) dust).
  - transitivity (held id y.2 + local_funds id y.1 + local_funds id b); [apply eq64_eq; lia|].
    rewrite Hheld2. apply eq64_eq. lia.
  - rewrite Hheld1. apply eq64_eq. lia.
Qed.
Lemma trade_cover_short t :
  mo_type bid = short_order → mo_type ask = cover_order →
  position_apart bid ask q b m g →
  execute_trade bid ask m q b g = Ok t → traded t.
Proof.
  intros Hbt Hat Hapart. unfold execute_trade. rewrite Hbt, Hat. intros Hr.
  apply rbind_Ok in Hr as (m' & Hterms & Hr). apply rbind_Ok in Hr as (x & Hx & Hr).
  apply rbind_Ok in Hr as (y & Hy & Hr). apply Ok_inj in Hr as <-.
  destruct (cover_short_terms_spec _ _ _ _ _ _ _ Hready Hbt Hat Hbp Hterms) as (E1 & E2 & E3 & E4).
  pose proof (Hapart _ _ Hterms Hx) as Hkept.
  destruct Hready as [Hwf Hcb Hca Hq Hb Hlt [Hbq Hbb] [Haq Hab] _ _ Hks _ Hkc].
  destruct (Hkc Hat) as [Hkc1 Hkc2].
  destruct (pay_current_short_trx _ _ _ _ _ Hx) as (F1 & F2 & F3 & F4).
  destruct (pay_current_cover_trx _ _ _ _ Hy) as [G1 G2].
  apply (pay_current_short_effect _ _ _ _ _ bid) in Hx
    as ((Eqid & Ebid & Ecol & Easks & Easkr) & Eq & Hwf1 & Hheld1);
    [|done|done|by apply Hks|by rewrite Hbb, E3].
  apply (pay_current_cover_funds _ _ _ _ ask) in Hy
    as (_ & _ & Eq2 & Hwf2 & unpaid & fee & Hunp & Hfee & Hheld2);
    [|done|by rewrite Easks|rewrite Ecol; exact Hkept|congruence|congruence].
  rewrite Ebid in *. rewrite Hfees, <- F4 in E4.
  destruct (fee_taken_known q b _ _ _ _ Hb Hfee E4) as [Hknown Hfeeamt].
  apply (traded_intro _ _ _ _ 0 unpaid); [done|congruence|done|done|lia|done|done|done|].
  intros id. rewrite trade_lost_short by done. specialize (Hheld1 id). specialize (Hheld2 id). rewrite Hfeeamt.
  rewrite (short_lost_same m' y.1.1) by congruence.
  rewrite F2, F3, Eq, Hq in Hheld2. rewrite Hbb, Hq, E1 in Hheld1.
  rewrite !at_id_sub, !at_id_add, !at_id_zero in *.
  transitivity (held id x.2 + local_funds id x.1.2 + local_funds id b
     + at_id id (me_quote_id g) (amount (mt_ask_received m')) - at_id id (me_quote_id g) unpaid
     - at_id id (me_base_id g) (amount (mt_ask_paid m'))).
  - transitivity (held id y.2 + local_funds id y.1.2 + (local_funds id b
      + at_id id (me_base_id g) fee)); [apply eq64_eq; lia|].
    rewrite Hheld2. apply eq64_eq. lia.
  - rewrite Hheld1. apply eq64_eq. lia.
Qed.

Lemma execute_trade_funds t :
  (mo_type bid = short_order → mo_type ask = cover_order → position_apart bid ask q b m g) →
  execute_trade bid ask m q b g = Ok t → mo_type bid = bid_order ∨ mo_type bid = short_order →
  mo_type ask = ask_order ∨ mo_type ask = cover_order → traded t.
Proof.
  intros Hapart Hr [Hbt|Hbt] [Hat|Hat].
  - by apply trade_ask_bid.
  - by apply trade_cover_bid.
  - by apply trade_ask_short; auto.
  - by apply trade_cover_short; auto.
Qed.
End one_trade.

End funds.
