(* ===== verification/MarketRuns.v ===== *)
(** Whole runs of the market engine: a market whose quote asset is not issued by
    the market conserves the funds of the chain, and a market that fails changes
    nothing but its status; proofs over [Matching]. *)
From S2P Require Export Overlay MarketFunds.

Section runs.
Context `{!Fc, !Crypto} (C : CryptoLaws _).
Implicit Types (g : market_engine) (m : market_transaction) (l : match_locals)
  (s : chain_state) (q b : asset_record).

(** ** The orders the engine will still take read as the database has them *)
Definition above {K} `{KeyOrder K} (k k' : K) : Prop := k' = k ∨ key_lt k' k.
Record market_inv q b g : Prop := {
  mi_wf : funds_wf (me_state g);
  mi_quote : ar_id q = me_quote_id g;
  mi_base : ar_id b = me_base_id g;
  mi_pair : me_base_id g < me_quote_id g;
  mi_user : ar_is_market_issued q = false;
  mi_feed : ∀ p, me_feed_price g = Some p → of_pair (me_quote_id g) (me_base_id g) p;
  mi_bid : ∀ o, me_current_bid g = Some o →
    of_pair (me_quote_id g) (me_base_id g) (mo_get_price o) ∧
    (mo_type o = bid_order ∨ mo_type o = short_order) ∧
    (mo_type o = bid_order →
       get_bid_record (mo_market_index o) (me_state g) = Some (mo_state o) ∧
       ∀ it, me_bid_itr g = Some it → key_lt it (mo_market_index o));
  mi_ask : ∀ o, me_current_ask g = Some o →
    of_pair (me_quote_id g) (me_base_id g) (mo_get_price o) ∧
    (mo_type o = ask_order ∨ mo_type o = cover_order) ∧
    (mo_type o = ask_order →
       get_ask_record (mo_market_index o) (me_state g) = Some (mo_state o) ∧
       ∀ it, me_ask_itr g = Some it → key_lt (mo_market_index o) it);
  mi_bids : ∀ it k, me_bid_itr g = Some it → above it k → in_market k g = true →
    get_bid_record k (me_state g) = db_bids (me_db g) !! k;
  mi_asks : ∀ it k, me_ask_itr g = Some it → above k it → in_market k g = true →
    get_ask_record k (me_state g) = db_asks (me_db g) !! k
}.

Lemma in_market_pair k g : in_market k g = true →
  of_pair (me_quote_id g) (me_base_id g) (order_price k).
Proof. unfold in_market, of_pair. intros E. apply andb_true_iff in E as [E1 E2]. lia. Qed.

(** What taking an order leaves alone. *)
Definition same_state g g' : Prop :=
  me_pending g' = me_pending g ∧ me_prior g' = me_prior g ∧ me_db g' = me_db g ∧
  me_quote_id g' = me_quote_id g ∧ me_base_id g' = me_base_id g ∧
  me_feed_price g' = me_feed_price g.

Lemma get_next_short_inv q b g x :
  market_inv q b g → me_current_bid g = None → get_next_short g = Ok x →
  market_inv q b x.2 ∧ same_state g x.2.
Proof.
  intros Hi Hn. unfold get_next_short. destruct (me_short_itr g) as [k|]; intros Hr;
    [|by apply Ok_inj in Hr as <-].
  apply rbind_Ok in Hr as (o & _ & Hr). destruct (in_market k g) eqn:E;
    apply Ok_inj in Hr as <-; [|done].
  apply in_market_pair in E. split; [|done]. destruct Hi. split; try done.
  intros o' [= <-]. split; [done|]. split; [by right|done].
Qed.
Lemma fetch_bid_inv q b g x :
  market_inv q b g → me_current_bid g = None → fetch_bid g = Ok x →
  market_inv q b x.2 ∧ same_state g x.2.
Proof.
  intros Hi Hn. unfold fetch_bid. destruct (me_bid_itr g) as [k|] eqn:Ek; intros Hr;
    [|by eapply get_next_short_inv].
  apply rbind_Ok in Hr as (o & Ho & Hr). apply of_option_Ok in Ho.
  destruct (in_market k g) eqn:E; [|by eapply get_next_short_inv].
  apply rbind_Ok in Hr as ([ok h] & Hs & Hr). cbn [fst snd] in Hr.
  assert (market_inv q b h ∧ same_state g h ∧ (ok = false → h = g)) as (Hih & Hsh & Eh).
  { assert (get_next_short g = Ok (ok, h) ∨ Ok (false, g) = Ok (ok, h)) as [Hs'|Hs'].
    { destruct (me_feed_price g); [destruct (price_ltb _ _)|]; auto. }
    - pose proof (get_next_short_inv q b g _ Hi Hn Hs') as [Hi' Hsm]. split; [done|].
      split; [done|]. intros ->. apply get_next_short_left in Hs' as [_ Hs']. done.
    - apply Ok_inj in Hs'. simplify_eq. done. }
  destruct ok; apply Ok_inj in Hr as <-; [done|]. clear Hih Hsh Eh Hs.
  split; [|done]. pose proof (in_market_pair _ _ E) as Hp. destruct Hi. split; try done.
  - intros o' [= <-]. split; [done|]. split; [by left|]. intros _. split.
    + change (get_bid_record k (me_state g) = Some o).
      by rewrite (mi_bids0 k k Ek (or_introl eq_refl) E).
    + intros it Hit. by apply it_prev_lt in Hit as [_ ?].
  - intros it k' Hit Hab. simpl in Hit. apply it_prev_lt in Hit as [_ Hlt].
    apply (mi_bids0 k k'); [done|]. right. destruct Hab as [->|Hab]; [done|]. by etrans.
Qed.
Lemma get_next_bid_inv q b g x :
  market_inv q b g → get_next_bid g = Ok x → market_inv q b x.2 ∧ same_state g x.2.
Proof.
  intros Hi. unfold get_next_bid. intros Hr. apply rbind_Ok in Hr as (h & _ & Hr).
  destruct h; [by apply Ok_inj in Hr as <-|].
  eapply fetch_bid_inv in Hr; [exact Hr| |done]. by destruct Hi.
Qed.
Lemma fetch_cover_inv q b g x :
  market_inv q b g → me_current_ask g = None → fetch_cover g = Ok x →
  market_inv q b x.2 ∧ same_state g x.2 ∧ (x.1 = false → me_current_ask x.2 = None).
Proof.
  intros Hi Hn. unfold fetch_cover. destruct (me_current_bid g) eqn:Eb; intros Hr;
    [|by apply Ok_inj in Hr as <-].
  destruct (me_collateral_itr g) as [k|]; [|by apply Ok_inj in Hr as <-].
  apply rbind_Ok in Hr as (c & _ & Hr). apply rbind_Ok in Hr as (t & _ & Hr).
  destruct (in_market k g) eqn:E; [cbv zeta in Hr; destruct (_ || _)|];
    apply Ok_inj in Hr as <-; cbn [fst snd]; (split; [|done]);
    destruct Hi; split; try done; intros o [= <-].
  apply in_market_pair in E. split; [done|]. split; [by right|done].
Qed.
Lemma fetch_ask_inv q b g x :
  market_inv q b g → me_current_ask g = None → fetch_ask g = Ok x →
  market_inv q b x.2 ∧ same_state g x.2.
Proof.
  intros Hi Hn. unfold fetch_ask. destruct (me_ask_itr g) as [k|] eqn:Ek; intros Hr;
    [|by apply Ok_inj in Hr as <-].
  apply rbind_Ok in Hr as (o & Ho & Hr). apply of_option_Ok in Ho. cbv zeta in Hr.
  change (in_market k (set_me_ask_itr ?i g)) with (in_market k g) in Hr.
  assert (∀ it k', it_next k (db_asks (me_db g)) = Some it → above k' it →
    in_market k' g = true → get_ask_record k' (me_state g) = db_asks (me_db g) !! k') as Hnext.
  { intros it k' Hit Hab. apply it_next_gt in Hit as [_ Hlt]. apply (mi_asks _ _ _ Hi k k' Ek).
    right. destruct Hab as [<-|Hab]; [done|]. by etrans. }
  destruct (in_market k g) eqn:E; apply Ok_inj in Hr as <-; (split; [|done]);
    pose proof (mi_asks _ _ _ Hi k k Ek (or_introl eq_refl)) as Hk; destruct Hi; split; try done.
  - intros o' [= <-]. split; [by apply in_market_pair|]. split; [by left|]. intros _. split.
    + change (get_ask_record k (me_state g) = Some o). by rewrite (Hk E).
    + intros it Hit. by apply it_next_gt in Hit as [_ ?].
  - intros o'. simpl. by rewrite Hn.
Qed.
Lemma get_next_ask_inv q b g x :
  market_inv q b g → get_next_ask g = Ok x → market_inv q b x.2 ∧ same_state g x.2.
Proof.
  intros Hi. unfold get_next_ask. intros Hr.
  match type of Hr with (if ?c then _ else _) = _ => destruct c end;
    [by apply Ok_inj in Hr as <-|].
  apply rbind_Ok in Hr as (c & Hc & Hr).
  eapply fetch_cover_inv in Hc as (Hic & Hsc & Hnc); [| |done].
  2: by destruct Hi.
  destruct c as [[] h]; [apply Ok_inj in Hr as <-; done|].
  eapply fetch_ask_inv in Hr as [Hir Hsr]; [|exact Hic|by apply Hnc].
  split; [done|]. unfold same_state in *. simpl in *. intuition congruence.
Qed.

(** ** A trade of a bid with an ask *)
Definition plain (p : pending_chain_state) : Prop :=
  p_assets p = ∅ ∧ p_transactions p = ∅ ∧ keyed p.
Lemma plain_balance r p : plain p → plain (p_store_balance_record r p).
Proof.
  intros (Ea & Et & []). split_and!; [done..|]. split; try done. intros k r'. simpl.
  rewrite lookup_insert. case_decide; [|apply k_balances]. intros [= <-]. done.
Qed.
Lemma plain_bid k r p : plain p → plain (p_store_bid_record k r p).
Proof. intros (Ea & Et & []). split_and!; [done..|]. by split. Qed.
Lemma plain_ask k r p : plain p → plain (p_store_ask_record k r p).
Proof. intros (Ea & Et & []). split_and!; [done..|]. by split. Qed.

(** The record of an asset a trade returns differs in its fees. *)
Definition refeed (a a' : asset_record) : Prop := a' = a ∨ ∃ f, a' = add_fees f a.
Lemma refeed_issuer a a' : refeed a a' → ar_is_market_issued a' = ar_is_market_issued a.
Proof. by intros [->|[f ->]]. Qed.
Lemma pay_current_bid_refeed m q g x : pay_current_bid m q g = Ok x → refeed q x.1.
Proof.
  unfold pay_current_bid. intros Hr. apply rbind_Ok in Hr as (o & _ & Hr).
  apply ensure_Ok in Hr as [_ Hr]. cbv zeta in Hr. apply ensure_Ok in Hr as [_ Hr].
  apply rbind_Ok in Hr as (h & _ & Hr). apply rbind_Ok in Hr as (rest & _ & Hr).
  apply rbind_Ok in Hr as (buys & _ & Hr). apply Ok_inj in Hr as <-. cbn [fst].
  destruct (amount buys =? 0); [right; by eexists|by left].
Qed.

Lemma pay_current_ask_refeed m b g x : pay_current_ask m b g = Ok x → refeed b x.1.
Proof.
  unfold pay_current_ask. intros Hr. apply rbind_Ok in Hr as (o & _ & Hr).
  apply ensure_Ok in Hr as [_ Hr]. cbv zeta in Hr. apply ensure_Ok in Hr as [_ Hr].
  apply rbind_Ok in Hr as (h & _ & Hr). apply rbind_Ok in Hr as (rest & _ & Hr).
  apply rbind_Ok in Hr as (buys & _ & Hr). apply Ok_inj in Hr as <-. cbn [fst].
  destruct (amount buys =? 0); [right; by eexists|by left].
Qed.
Lemma settle_user bid ask q m g :
  ar_is_market_issued q = false → settle_prices bid ask q g = Ok (trade m) →
  mo_type bid ≠ short_order ∧ mo_type ask ≠ cover_order.
Proof.
  intros Hq. unfold settle_prices, settle_ask. rewrite Hq. intros Hr.
  destruct (decide (mo_type bid = short_order)) as [E|E]; [done|].
  destruct (decide (mo_type ask = cover_order)) as [E'|E']; done.
Qed.
Lemma bid_after_store k k' o g : get_bid_record k' (me_state (on_pending (p_store_bid_record k o) g))
  = if decide (k = k') then Some o else get_bid_record k' (me_state g).
Proof. by apply (look_insert p_bids db_bids (me_pending g)). Qed.
Lemma ask_after_store k k' o g : get_ask_record k' (me_state (on_pending (p_store_ask_record k o) g))
  = if decide (k = k') then Some o else get_ask_record k' (me_state g).
Proof. by apply (look_insert p_asks db_asks (me_pending g)). Qed.

(** The orders of the other markets. *)
Definition others (quote_id base_id : Z) g g' : Prop :=
  ∀ k, ¬ of_pair quote_id base_id (order_price k) →
    get_bid_record k (me_state g') = get_bid_record k (me_state g) ∧
    get_ask_record k (me_state g') = get_ask_record k (me_state g).
Lemma others_trans quote_id base_id g g1 g2 :
  others quote_id base_id g g1 → others quote_id base_id g1 g2 → others quote_id base_id g g2.
Proof. intros H1 H2 k Hk. destruct (H1 k Hk), (H2 k Hk). split; congruence. Qed.
Lemma paid_bid_others quote_id base_id bid bid' g g' :
  of_pair quote_id base_id (mo_get_price bid) → bid_paid_form bid bid' g g' →
  others quote_id base_id g g'.
Proof.
  intros Hp (r & -> & _) k Hk. split; [|done].
  etransitivity; [apply bid_after_store|]. rewrite decide_False; [done|]. by intros <-.
Qed.
Lemma paid_ask_others quote_id base_id ask ask' g g' :
  of_pair quote_id base_id (mo_get_price ask) → ask_paid_form ask ask' g g' →
  others quote_id base_id g g'.
Proof.
  intros Hp (r & -> & _) k Hk. split; [done|].
  etransitivity; [apply ask_after_store|]. rewrite decide_False; [done|]. by intros <-.
Qed.

Lemma above_ne (k it k' : market_index_key) : above it k → key_lt it k' → k' ≠ k.
Proof.
  intros [->|Ha] Hl ->; [exact (irreflexivity _ _ Hl)|].
  exact (irreflexivity _ _ (transitivity Ha Hl)).
Qed.

Lemma paid_bid_inv bid bid' q q' b g g' :
  market_inv q b g → me_current_bid g = Some bid → mo_type bid = bid_order →
  bid_paid_form bid bid' g g' → funds_wf (me_state g') → ar_id q' = ar_id q →
  refeed q q' → plain (me_pending g) → market_inv q' b g' ∧ plain (me_pending g').
Proof.
  intros Hi Hb Ht (r & -> & Ek & Et) Hwf Hq Hrf Hpl.
  split; [|by apply plain_bid, plain_balance].
  destruct (mi_bid _ _ _ Hi _ Hb) as (Hp & _ & Hk). destruct (Hk Ht) as [Hk1 Hk2].
  destruct Hi. split; try done.
  - rewrite Hq. exact mi_quote0.
  - by rewrite (refeed_issuer _ _ Hrf).
  - intros o [= <-]. unfold mo_get_price. rewrite Ek, Et. split; [done|]. split; [by left|].
    intros _. split; [|done].
    etransitivity; [apply bid_after_store|]. by rewrite decide_True.
  - intros it k Hit Hab Hin.
    etransitivity; [apply bid_after_store|]. rewrite decide_False; [by eapply mi_bids0|].
    eapply above_ne; [done|by apply Hk2].
Qed.
Lemma paid_ask_inv ask ask' q b b' g g' :
  market_inv q b g → me_current_ask g = Some ask → mo_type ask = ask_order →
  ask_paid_form ask ask' g g' → funds_wf (me_state g') → ar_id b' = ar_id b →
  plain (me_pending g) → market_inv q b' g' ∧ plain (me_pending g').
Proof.
  intros Hi Ha Ht (r & -> & Ek & Et) Hwf Hb Hpl.
  split; [|by apply plain_ask, plain_balance].
  destruct (mi_ask _ _ _ Hi _ Ha) as (Hp & _ & Hk). destruct (Hk Ht) as [Hk1 Hk2].
  destruct Hi. split; try done.
  - rewrite Hb. exact mi_base0.
  - intros o [= <-]. unfold mo_get_price. rewrite Ek, Et. split; [done|]. split; [by left|].
    intros _. split; [|done].
    etransitivity; [apply ask_after_store|]. by rewrite decide_True.
  - intros it k Hit Hab Hin.
    etransitivity; [apply ask_after_store|]. rewrite decide_False; [by eapply mi_asks0|].
    specialize (Hk2 it Hit). intros E. subst k.
    destruct Hab as [Hab|Hab]; [rewrite Hab in Hk2; exact (irreflexivity _ _ Hk2)|].
    exact (irreflexivity _ _ (transitivity Hab Hk2)).
Qed.

Lemma collect_refeed m q b :
  refeed q (collect_market_fees m q b).1 ∧ refeed b (collect_market_fees m q b).2 ∧ ar_id (collect_market_fees m q b).1 = ar_id q ∧
  ar_id (collect_market_fees m q b).2 = ar_id b.
Proof.
  unfold collect_market_fees. destruct (_ =? ar_id b); [|destruct (_ =? ar_id q)]; cbn [fst snd];
    (split_and!; try done); first [by left|right; by eexists].
Qed.
Lemma market_inv_records q b q' b' g g' :
  market_inv q b g → ar_id q' = ar_id q → refeed q q' → ar_id b' = ar_id b →
  (∃ ts, g' = set_me_market_transactions ts g) → market_inv q' b' g'.
Proof.
  intros [] Eq Hr Eb [ts ->]. split; try done.
  - by rewrite Eq.
  - by rewrite Eb.
  - by rewrite (refeed_issuer _ _ Hr).
Qed.

Lemma push_books m g g' : push_market_transaction m g = Ok g' → books_at g' = books_at g.
Proof.
  unfold push_market_transaction. intros Hr. apply ensure_Ok in Hr as [_ Hr].
  by apply Ok_inj in Hr as <-.
Qed.
Lemma held_transactions id ts g : held id (set_me_market_transactions ts g) = held id g.
Proof. done. Qed.
Lemma user_trade bid ask m l l' :
  market_inv (ml_quote l) (ml_base l) (ml_engine l) → plain (me_pending (ml_engine l)) →
  me_current_bid (ml_engine l) = Some bid → me_current_ask (ml_engine l) = Some ask →
  settle_prices bid ask (ml_quote l) (ml_engine l) = Ok (trade m) → make_trade bid ask m l = Ok l' →
  market_inv (ml_quote l') (ml_base l') (ml_engine l') ∧ plain (me_pending (ml_engine l')) ∧
  (∀ id, ledger id l' ≡₆₄ ledger id l) ∧ me_prior (ml_engine l') = me_prior (ml_engine l) ∧
  others (ar_id (ml_quote l)) (ar_id (ml_base l)) (ml_engine l) (ml_engine l') ∧
  ar_is_market_issued (ml_base l') = ar_is_market_issued (ml_base l).
Proof.
  intros Hi Hpl Hb Ha Hset Hr.
  destruct (settle_user _ _ _ _ _ (mi_user _ _ _ Hi) Hset) as [Hns Hnc].
  destruct (mi_bid _ _ _ Hi _ Hb) as (Hbp & [Hbt|Hbt] & Hbk); [|done].
  destruct (mi_ask _ _ _ Hi _ Ha) as (Hap & [Hat|Hat] & Hak); [|done].
  destruct (Hbk Hbt) as [Hbk1 _]. destruct (Hak Hat) as [Hak1 _].
  assert (trade_ready bid ask (ml_quote l) (ml_base l) (ml_engine l)) as Hready.
  { pose proof Hi as []. split; try done; intros E; congruence. }
  destruct (settle_prices_pair _ _ _ _ _ _ Hready Hset) as (Hp & _ & Hfees).
  unfold make_trade, push_market_transaction in Hr. apply rbind_Ok in Hr as (t & Ht & Hr).
  cbv zeta in Hr. apply rbind_Ok in Hr as (g2 & Hg2 & Hr). apply ensure_Ok in Hg2 as [_ Hg2].
  apply Ok_inj in Hg2 as <-. apply rbind_Ok in Hr as (v & _ & Hr). apply Ok_inj in Hr as <-.
  pose proof (trade_ask_bid C bid ask _ _ m _ Hready Hp t Hbt Hat Ht)
    as (_ & _ & _ & dust & unpaid & _ & Hdust & _ & Hunp & Hled).
  assert (dust = 0) as -> by (destruct (decide (dust = 0)) as [|E]; [done|by destruct (Hdust E)]).
  assert (unpaid = 0) as -> by (destruct (decide (unpaid = 0)) as [|E]; [done|by destruct (Hnc (Hunp E))]).
  unfold execute_trade in Ht. rewrite Hbt, Hat in Ht.
  apply rbind_Ok in Ht as (m' & _ & Ht). apply rbind_Ok in Ht as (x & Hx & Ht).
  apply rbind_Ok in Ht as (y & Hy & Ht). apply Ok_inj in Ht as <-. cbn [fst snd] in *.
  pose proof (pay_current_bid_refeed _ _ _ _ Hx) as Hrf.
  apply (pay_current_bid_funds C _ _ _ _ bid) in Hx as ((b1 & Hform1) & _ & Eq1 & Hwf1 & _);
    [|apply Hi|done|done|].
  2: { rewrite (mi_quote _ _ _ Hi). by destruct Hbp. }
  assert (me_current_ask x.2 = Some ask ∧ me_prior x.2 = me_prior (ml_engine l) ∧
    get_ask_record (mo_market_index ask) (me_state x.2) = Some (mo_state ask)) as (Ha1 & Hpr1 & Hak2).
  { destruct Hform1 as (r & -> & _). done. }
  destruct (paid_bid_inv bid b1 _ _ _ _ _ Hi Hb Hbt Hform1 Hwf1 Eq1 Hrf Hpl) as [Hi1 Hpl1].
  pose proof (pay_current_ask_refeed _ _ _ _ Hy) as Hrf2.
  apply (pay_current_ask_funds C _ _ _ _ ask) in Hy as ((a1 & Hform2) & _ & Eb2 & Hwf2 & _);
    [|done|done|done].
  destruct (paid_ask_inv ask a1 _ _ _ _ _ Hi1 Ha1 Hat Hform2 Hwf2 Eb2 Hpl1) as [Hi2 Hpl2].
  destruct (collect_refeed m' x.1 y.1) as (Hc1 & Hc1' & Hc2 & Hc3).
  cbn [ml_quote ml_base ml_engine].
  split; [|split; [done|split; [|split; [|split]]]].
  - eapply market_inv_records; [exact Hi2|done|done|done|by eexists].
  - intros id. unfold ledger. cbn [ml_quote ml_base ml_engine].
    rewrite held_transactions, Hled, trade_lost_bid by done.
    rewrite !at_id_sub, !at_id_zero. apply eq64_eq. lia.
  - destruct Hform2 as (r & -> & _). exact Hpr1.
  - rewrite (mi_quote _ _ _ Hi), (mi_base _ _ _ Hi).
    apply (others_trans _ _ _ x.2);
      [exact (paid_bid_others _ _ _ _ _ _ Hbp Hform1)|exact (paid_ask_others _ _ _ _ _ _ Hap Hform2)].
  - by rewrite (refeed_issuer _ _ Hc1'), (refeed_issuer _ _ Hrf2).
Qed.

(** ** The loop *)
Definition user_loop l : Prop :=
  market_inv (ml_quote l) (ml_base l) (ml_engine l) ∧ plain (me_pending (ml_engine l)).
Definition kept l l' : Prop :=
  user_loop l' ∧ (∀ id, ledger id l' ≡₆₄ ledger id l) ∧
  me_prior (ml_engine l') = me_prior (ml_engine l) ∧
  ar_id (ml_quote l') = ar_id (ml_quote l) ∧ ar_id (ml_base l') = ar_id (ml_base l) ∧
  ar_is_market_issued (ml_base l') = ar_is_market_issued (ml_base l) ∧
  others (ar_id (ml_quote l)) (ar_id (ml_base l)) (ml_engine l) (ml_engine l').

Lemma kept_refl l : user_loop l → kept l l.
Proof. intros Hu. split_and!; try done; apply Hu. Qed.
Lemma kept_trans l l1 l2 : kept l l1 → kept l1 l2 → kept l l2.
Proof.
  intros (_ & E1 & P1 & Q1 & B1 & I1 & O1) (Hu & E2 & P2 & Q2 & B2 & I2 & O2).
  split; [done|]. split; [intros id; by rewrite E2|]. rewrite Q1, B1 in O2.
  split_and!; [congruence..|by eapply others_trans].
Qed.
Lemma kept_engine l g :
  user_loop l → market_inv (ml_quote l) (ml_base l) g → same_state (ml_engine l) g →
  kept l (set_ml_engine g l).
Proof.
  intros [Hi Hp] Hi' (Ep & Er & _). split; [split; [exact Hi'|]|].
  - simpl. by rewrite Ep.
  - split; [|split_and!; try done].
    + intros id. unfold ledger, held, me_state. simpl. by rewrite Ep, Er.
    + intros k _. unfold me_state. simpl. by rewrite Ep, Er.
Qed.
Lemma match_step_kept l c l' : user_loop l → match_step l = Ok (c, l') → kept l l'.
Proof.
  intros Hu. unfold match_step. intros Hr.
  apply rbind_Ok in Hr as ([ok1 g1] & Hb & Hr). cbn [fst snd] in Hr.
  pose proof (get_next_bid_inv _ _ _ _ (proj1 Hu) Hb) as [Hi1 Hs1].
  pose proof (kept_engine _ _ Hu Hi1 Hs1) as Hk1. cbn [snd] in *.
  destruct ok1; cbn [negb] in Hr; [|apply Ok_inj in Hr; by simplify_eq].
  apply rbind_Ok in Hr as ([ok2 g2] & Ha & Hr). cbn [fst snd] in Hr.
  pose proof (get_next_ask_inv _ _ _ _ Hi1 Ha) as [Hi2 Hs2]. cbn [snd] in *.
  pose proof (kept_engine _ g2 (proj1 Hk1) Hi2 Hs2) as Hk2.
  pose proof (kept_trans _ _ _ Hk1 Hk2) as Hk.
  change (set_ml_engine g2 (set_ml_engine g1 l)) with (set_ml_engine g2 l) in Hk.
  destruct ok2; cbn [negb] in Hr; [|apply Ok_inj in Hr; by simplify_eq].
  apply ensure_Ok in Hr as [_ Hr]. cbv zeta in Hr.
  apply rbind_Ok in Hr as (bid & Hbid & Hr). apply of_option_Ok in Hbid.
  apply rbind_Ok in Hr as (ask & Hask & Hr). apply of_option_Ok in Hask.
  apply rbind_Ok in Hr as (o & Ho & Hr).
  set (l1 := MatchLocals g2 (ml_quote l) (ml_base l) (me_orders_filled g2) (ml_trading_volume l)
    (ml_opening_price l) (ml_closing_price l)) in *.
  assert (kept l l1) as Hl1 by exact Hk.
  destruct o as [| | |m].
  - apply Ok_inj in Hr. simplify_eq. eapply kept_trans; [exact Hl1|].
    apply (kept_engine l1); [apply Hl1| |done]. destruct Hi2. by split.
  - apply Ok_inj in Hr. simplify_eq. eapply kept_trans; [exact Hl1|].
    apply (kept_engine l1); [apply Hl1| |done]. destruct Hi2. by split.
  - apply Ok_inj in Hr. by simplify_eq.
  - apply rbind_Ok in Hr as (l2 & Ht & Hr). apply Ok_inj in Hr. simplify_eq.
    eapply kept_trans; [exact Hl1|].
    pose proof (proj1 (proj1 Hl1)) as Hi.
    pose proof (user_trade bid ask m l1 l' Hi (proj2 (proj1 Hl1)) Hbid Hask Ho Ht)
      as (Hi' & Hp' & Hled & Hprior & Hoth & Hiss).
    split; [by split|]. split; [done|]. split; [done|].
    cut (ar_id (ml_quote l') = ar_id (ml_quote l1) ∧ ar_id (ml_base l') = ar_id (ml_base l1));
      [by intros []|].
    unfold make_trade in Ht. apply rbind_Ok in Ht as (t & Ht & Hr). cbv zeta in Hr.
    apply rbind_Ok in Hr as (g3 & Hg3 & Hr). apply rbind_Ok in Hr as (v & _ & Hr).
    apply push_books in Hg3. apply Ok_inj in Hr as <-.
    rewrite (mi_quote _ _ _ Hi'), (mi_base _ _ _ Hi'), (mi_quote _ _ _ Hi), (mi_base _ _ _ Hi).
    cbn [ml_engine]. apply execute_trade_at in Ht. unfold books_at in *. simplify_eq. split; congruence.
Qed.
Lemma match_orders_kept n l l' : user_loop l → match_orders n l = Some (Ok l') → kept l l'.
Proof.
  revert l. induction n as [|n IH]; intros l Hu; [done|]. simpl.
  destruct (match_step l) as [[[] l1]|e] eqn:E; [| |done].
  - intros Hr. pose proof (match_step_kept _ _ _ Hu E) as Hk. eapply kept_trans; [done|].
    apply IH; [apply Hk|done].
  - intros [= <-]. by eapply match_step_kept.
Qed.

Lemma run_market_kept q b g l :
  market_inv q b g → plain (me_pending g) → run_market q b g = Ok l →
  user_loop l ∧ (∀ id, ledger id l ≡₆₄ held id g + local_funds id q + local_funds id b) ∧
  me_prior (ml_engine l) = me_prior g ∧ ar_id (ml_quote l) = ar_id q ∧ ar_id (ml_base l) = ar_id b ∧
  ar_is_market_issued (ml_base l) = ar_is_market_issued b ∧
  others (ar_id q) (ar_id b) g (ml_engine l).
Proof.
  intros Hi Hp. unfold run_market. intros Hr. apply rbind_Ok in Hr as (u & _ & Hr).
  apply rbind_Ok in Hr as (x & Hx & Hr). apply rbind_Ok in Hr as (y & Hy & Hr). cbv zeta in Hr.
  pose proof (get_next_bid_inv _ _ _ _ Hi Hx) as [Hi1 (P1 & R1 & _)].
  pose proof (get_next_ask_inv _ _ _ _ Hi1 Hy) as [Hi2 (P2 & R2 & _)].
  set (l0 := MatchLocals y.2 q b (-1) _ _ _) in Hr.
  assert (user_loop l0) as Hu by (split; [done|simpl; by rewrite P2, P1]).
  destruct (match_orders _ l0) as [[l1|e]|] eqn:E; [|done..]. apply Ok_inj in Hr. simplify_eq.
  apply match_orders_kept in E as (Hu' & Hled & Hpr & Eq & Eb & Eiss & Hoth); [|done].
  assert (me_state y.2 = me_state g) as Est by (unfold me_state; by rewrite P2, P1, R2, R1).
  split; [done|]. split; [|split; [simpl in Hpr; congruence|split_and!; try done]].
  2: { intros k Hk. rewrite <- Est. exact (Hoth k Hk). }
  intros id. rewrite Hled. unfold ledger, l0. cbn [ml_engine ml_quote ml_base].
  unfold held. by rewrite Est.
Qed.

(** ** The end of a run *)
Lemma smoved_asset a0 a g :
  get_asset_record (ar_id a) (me_state g) = Some a0 → ar_id a0 = ar_id a →
  smoved (me_state g) (me_state (on_pending (p_store_asset_record a) g))
    (λ id, local_funds id a - local_funds id a0).
Proof.
  intros Ha Eid. eapply moved_ext; [apply (moved_asset a (view (me_state g)))|].
  intros id. change (es_current_state (view (me_state g))) with (me_state g). rewrite Ha.
  unfold local_funds, in_fees, in_supply. simpl. rewrite Eid. solve_at.
Qed.
(** Writes that no fund is kept in. *)
Definition quiet p p' : Prop :=
  funds_tables p' = funds_tables p ∧ p_feeds p' = p_feeds p ∧ p_transactions p' = p_transactions p.
Lemma quiet_held g g' id :
  quiet (me_pending g) (me_pending g') → me_prior g' = me_prior g → held id g' = held id g.
Proof.
  intros [E _] Ep. unfold held, excess, holdings, supply, get_fees, me_state, funds_tables in *.
  simpl. rewrite Ep. simplify_eq. unfold tsum. simpl. congruence.
Qed.
Lemma quiet_keyed p p' : quiet p p' → keyed p → keyed p'.
Proof.
  intros (E & Ef & _) Hk. destruct p, p'. unfold funds_tables in E. simpl in *. simplify_eq.
  destruct Hk; by split.
Qed.
Lemma quiet_trans p p1 p2 : quiet p p1 → quiet p1 p2 → quiet p p2.
Proof. unfold quiet. intros (?&?&?) (?&?&?). split_and!; congruence. Qed.

(** Taking orders writes nothing. *)
Lemma fetches_pending g :
  (∀ x, get_next_bid g = Ok x → me_pending x.2 = me_pending g ∧ me_prior x.2 = me_prior g) ∧
  (∀ x, get_next_ask g = Ok x → me_pending x.2 = me_pending g ∧ me_prior x.2 = me_prior g).
Proof.
  assert (∀ g x, get_next_short g = Ok x →
    me_pending x.2 = me_pending g ∧ me_prior x.2 = me_prior g) as Hs.
  { intros h x. unfold get_next_short. intros Hr. case_match; [|by apply Ok_inj in Hr as <-].
    apply rbind_Ok in Hr as (o & _ & Hr). destruct (in_market _ h); by apply Ok_inj in Hr as <-. }
  split; intros x Hr.
  - unfold get_next_bid in Hr. apply rbind_Ok in Hr as (b & _ & Hr).
    destruct b; [by apply Ok_inj in Hr as <-|]. unfold fetch_bid in Hr. case_match; [|by apply Hs in Hr].
    apply rbind_Ok in Hr as (o & _ & Hr). case_match; [|by apply Hs in Hr].
    apply rbind_Ok in Hr as ([ok h] & Hh & Hr). cbn [fst] in Hr.
    destruct ok; apply Ok_inj in Hr as <-; [|done]. cbn [snd] in *.
    repeat case_match; [by apply Hs in Hh|by apply Ok_inj in Hh; simplify_eq..].
  - unfold get_next_ask in Hr.
    match type of Hr with (if ?c then _ else _) = _ => destruct c end;
      [by apply Ok_inj in Hr as <-|].
    apply rbind_Ok in Hr as (c & Hc & Hr).
    assert (me_pending c.2 = me_pending g ∧ me_prior c.2 = me_prior g) as [E1 E2].
    { unfold fetch_cover in Hc. destruct (me_current_bid _); [|by apply Ok_inj in Hc as <-].
      destruct (me_collateral_itr _); [|by apply Ok_inj in Hc as <-].
      apply rbind_Ok in Hc as (? & _ & Hc). apply rbind_Ok in Hc as (? & _ & Hc).
      destruct (in_market _ _); [cbv zeta in Hc; destruct (_ || _)|]; by apply Ok_inj in Hc as <-. }
    destruct c.1; [by apply Ok_inj in Hr as <-|].
    unfold fetch_ask in Hr. case_match; [|by apply Ok_inj in Hr as <-].
    apply rbind_Ok in Hr as (? & _ & Hr). cbv zeta in Hr.
    rewrite <- E1, <- E2. case_match; by apply Ok_inj in Hr as <-.
Qed.
Lemma update_period_quiet gr sec t r g :
  quiet (me_pending g) (me_pending (update_period gr sec t r g)) ∧
  me_prior (update_period gr sec t r g) = me_prior g.
Proof. unfold update_period. repeat case_match; done. Qed.
Lemma update_block_quiet t r g :
  quiet (me_pending g) (me_pending (update_block t r g)) ∧ me_prior (update_block t r g) = me_prior g.
Proof. unfold update_block. by destruct (match _ with Some k => _ | None => false end). Qed.
Lemma update_market_history_quiet v o c t g g' :
  update_market_history v o c t g = Ok g' →
  quiet (me_pending g) (me_pending g') ∧ me_prior g' = me_prior g.
Proof.
  unfold update_market_history. intros Hr. destruct (negb _); [by apply Ok_inj in Hr as <-|].
  apply rbind_Ok in Hr as (x & Hx & Hr). apply (proj1 (fetches_pending g)) in Hx as [E1 E2].
  destruct (negb x.1); [apply Ok_inj in Hr as <-; by rewrite E1|].
  apply rbind_Ok in Hr as (y & Hy & Hr). apply (proj2 (fetches_pending x.2)) in Hy as [E3 E4].
  rewrite <- E1, <- E2, <- E3, <- E4. destruct (negb y.1); [by apply Ok_inj in Hr as <-|].
  cbv zeta in Hr. apply rbind_Ok in Hr as (? & _ & Hr). apply rbind_Ok in Hr as (? & _ & Hr).
  apply Ok_inj in Hr as <-.
  destruct (update_period_quiet each_day (60 * 60 * 24) t (MarketHistoryRecord (mo_get_price x0)
    (mo_get_price x1) o c (amount v)) (update_period each_hour (60 * 60) t (MarketHistoryRecord
    (mo_get_price x0) (mo_get_price x1) o c (amount v)) (update_block t (MarketHistoryRecord
    (mo_get_price x0) (mo_get_price x1) o c (amount v)) y.2))) as [Q1 ->].
  destruct (update_period_quiet each_hour (60 * 60) t (MarketHistoryRecord (mo_get_price x0)
    (mo_get_price x1) o c (amount v)) (update_block t (MarketHistoryRecord
    (mo_get_price x0) (mo_get_price x1) o c (amount v)) y.2)) as [Q2 ->].
  destruct (update_block_quiet t (MarketHistoryRecord
    (mo_get_price x0) (mo_get_price x1) o c (amount v)) y.2) as [Q3 ->].
  split; [|done]. eapply quiet_trans; [exact Q3|]. by eapply quiet_trans.
Qed.

Lemma apply_changes_excess p p0 prev s id :
  keyed p → p_transactions p = ∅ → apply_changes p (Pending p0 prev) = Ok s →
  excess id (view s) = excess id (view (Pending p (Pending p0 prev))).
Proof.
  intros Hk Ht Hr. apply apply_changes_pending in Hr as (q' & -> & []); [|done..].
  unfold excess, holdings, supply, tsum, get_fees. simpl.
  rewrite fm_assets, fm_accounts, fm_balances, fm_bids, fm_asks, fm_shorts, fm_collateral.
  by rewrite <- !(assoc_L (∪)).
Qed.

Lemma quiet_lookups g g' :
  quiet (me_pending g) (me_pending g') → me_prior g' = me_prior g →
  same_lookups (me_state g) (me_state g').
Proof.
  unfold quiet, funds_tables, same_lookups, me_state. intros [E _] ->. simplify_eq.
  unfold get_asset_record, get_account_record, get_balance_record, get_bid_record, get_ask_record,
    get_short_record, get_collateral_record. simpl.
  by split_and!; intros k; repeat match goal with H : _ (me_pending g') = _ |- _ => rewrite H; clear H end.
Qed.
Lemma same_lookups_trans s s1 s2 : same_lookups s s1 → same_lookups s1 s2 → same_lookups s s2.
Proof.
  unfold same_lookups. intros (?&?&?&?&?&?&?) (?&?&?&?&?&?&?).
  split_and!; intros k; etrans; eauto.
Qed.
Lemma same_lookups_wf s s' : same_lookups s s' → is_pending s' → funds_wf s → funds_wf s'.
Proof.
  intros (E1 & E2 & E3 & _) Hp [_ (Hb & Ha & Hc)]. split; [done|].
  split_and!; intros k r'; [rewrite E3; apply Hb|rewrite E1; apply Ha|rewrite E2; apply Hc].
Qed.

Lemma finish_market_kept t q0 b0 l r p0 prev :
  user_loop l → me_prior (ml_engine l) = Pending p0 prev →
  get_asset_record (me_quote_id (ml_engine l)) (Pending p0 prev) = Some q0 →
  get_asset_record (me_base_id (ml_engine l)) (Pending p0 prev) = Some b0 →
  ar_id q0 = ar_id (ml_quote l) → ar_id b0 = ar_id (ml_base l) →
  finish_market t l = Ok r →
  funds_wf r.2 ∧
  (∀ id, excess id (view r.2) ≡₆₄ ledger id l - local_funds id q0 - local_funds id b0) ∧
  (∀ k, get_bid_record k r.2 = get_bid_record k (me_state (ml_engine l)) ∧
        get_ask_record k r.2 = get_ask_record k (me_state (ml_engine l))) ∧
  ∀ k, get_asset_record k r.2
       = if decide (ar_id (ml_base l) = k) then Some (ml_base l)
         else if decide (ar_id (ml_quote l) = k) then Some (ml_quote l)
         else get_asset_record k (me_prior (ml_engine l)).
Proof.
  intros [Hi (Pa & Pt & Pk)] Hpr Hq Hb Eq Eb. unfold finish_market. intros Hr. cbv zeta in Hr.
  apply rbind_Ok in Hr as (st & _ & Hr). apply rbind_Ok in Hr as (g & Hg & Hr).
  apply rbind_Ok in Hr as (s & Hs & Hr). apply Ok_inj in Hr.
  remember r as r' eqn:Er. clear Er r. assert (r'.2 = s) as Es by by subst r'. rewrite <- Es in Hs.
  clear Hr Es s.
  set (g0 := ml_engine l) in *.
  assert (get_asset_record (ar_id (ml_quote l)) (me_state g0) = Some q0) as Hq0.
  { rewrite (mi_quote _ _ _ Hi). unfold get_asset_record, me_state. simpl.
    by rewrite Pa, lookup_empty, Hpr. }
  pose proof (smoved_asset q0 (ml_quote l) g0 Hq0 Eq) as Hm1.
  apply smoved_held in Hm1 as [Hwf1 Hm1]; [|apply Hi].
  set (g1 := on_pending (p_store_asset_record (ml_quote l)) g0) in *.
  assert (get_asset_record (ar_id (ml_base l)) (me_state g1) = Some b0) as Hb0.
  { unfold get_asset_record, g1. unfold me_state, on_pending. simpl.
    rewrite (mi_base _ _ _ Hi), (mi_quote _ _ _ Hi), lookup_insert_ne by (pose proof (mi_pair _ _ _ Hi); lia).
    by rewrite Pa, lookup_empty, Hpr. }
  pose proof (smoved_asset b0 (ml_base l) g1 Hb0 Eb) as Hm2.
  apply smoved_held in Hm2 as [Hwf2 Hm2]; [|done].
  set (g2 := on_pending (p_store_asset_record (ml_base l)) g1) in *.
  apply update_market_history_quiet in Hg as [Hquiet Hprior].
  assert (quiet (me_pending g2) (me_pending g)) as Hquiet2.
  { eapply quiet_trans; [|exact Hquiet]. done. }
  assert (me_prior g = Pending p0 prev) as Ep by (rewrite Hprior; exact Hpr).
  assert (keyed (me_pending g2)) as Hk2.
  { destruct Pk. split; try done. intros k a. simpl. rewrite !lookup_insert.
    repeat case_decide; [by intros [= <-]..|apply k_assets]. }
  assert (keyed (me_pending g)) as Hk3 by by eapply quiet_keyed.
  assert (p_transactions (me_pending g) = ∅) as Ht3 by (destruct Hquiet2 as (_ & _ & ->); exact Pt).
  assert (same_lookups (me_state g2) r'.2 ∧ is_pending r'.2) as [Hsame Hpend].
  { rewrite Ep in Hs. apply apply_changes_lookups in Hs as [Hs ?]; [|done..]. split; [|done].
    eapply same_lookups_trans; [apply (quiet_lookups g2 g Hquiet2)|].
    - by rewrite Ep.
    - unfold me_state. by rewrite Ep. }
  split; [by eapply same_lookups_wf|]. split; [|split].
  2: { intros k. destruct Hsame as (_ & _ & _ & Hb' & Ha' & _). by rewrite Hb', Ha'. }
  2: { intros k. destruct Hsame as (Ha' & _). rewrite Ha'. unfold g2, g1.
    unfold get_asset_record, me_state, on_pending. simpl. rewrite !lookup_insert, Pa, lookup_empty.
    by repeat case_decide. }
  intros id. rewrite Ep in Hs. apply (apply_changes_excess _ _ _ _ id) in Hs; [|done..].
  cbn [snd]. rewrite Hs, <- Ep. change (excess id (view (Pending (me_pending g) (me_prior g)))) with (held id g).
  rewrite (quiet_held g2 g id Hquiet2) by (by rewrite Ep; exact (eq_sym Hpr)).
  rewrite Hm2, Hm1. unfold ledger. fold g0. apply eq64_eq. lia.
Qed.

(** ** [execute] *)
Lemma median_pair quote_id base_id d p :
  get_median_delegate_price quote_id base_id (Database d) = Ok (Some p) →
  of_pair quote_id base_id p.
Proof.
  simpl. intros Hr. apply rbind_Ok in Hr as (active & _ & Hr).
  destruct (_ <? BTS_BLOCKCHAIN_MIN_FEEDS); [by apply Ok_inj in Hr|]. apply Ok_inj in Hr.
  apply list_elem_of_lookup_2 in Hr. rewrite merge_sort_Permutation in Hr.
  apply list_elem_of_omap in Hr as (x & _ & Hx). unfold usable_feed in Hx.
  repeat case_match; simplify_eq. split; lia.
Qed.
Lemma excess_view id s : excess id (view s) = holdings id s - supply id s.
Proof. unfold excess, get_fees. simpl. rewrite lookup_empty. simpl. lia. Qed.
Lemma excess_over_empty id s : excess id (view (Pending pending_chain_state_empty s)) = excess id (view s).
Proof.
  unfold excess, holdings, supply, tsum, get_fees. simpl. by rewrite !(left_id_L ∅ (∪)).
Qed.

(** The state of the block has the orders of the market as the database has. *)
Definition books_agree (quote_id base_id : Z) s d : Prop :=
  ∀ k, of_pair quote_id base_id (order_price k) →
    get_bid_record k s = db_bids d !! k ∧ get_ask_record k s = db_asks d !! k.

Lemma open_books_inv s d quote_id base_id q b g :
  funds_wf s → books_agree quote_id base_id s d →
  (∀ a, get_asset_record quote_id s = Some a → ar_is_market_issued a = false) →
  open_books (engine_new s d quote_id base_id) = Ok (q, b, g) →
  market_inv q b g ∧ me_pending g = pending_chain_state_empty ∧ me_prior g = s ∧
  me_quote_id g = quote_id ∧ me_base_id g = base_id ∧
  get_asset_record quote_id s = Some q ∧ get_asset_record base_id s = Some b.
Proof.
  intros [Hp Hk] Hagree Huser. unfold open_books. cbv zeta. intros Hr.
  apply rbind_Ok in Hr as (q' & Hq & Hr). apply of_option_Ok in Hq.
  apply rbind_Ok in Hr as (b' & Hb & Hr). apply of_option_Ok in Hb.
  apply rbind_Ok in Hr as (np & _ & Hr). apply rbind_Ok in Hr as (tp & Htp & Hr).
  apply rbind_Ok in Hr as (feed & Hfeed & Hr). apply Ok_inj in Hr. simplify_eq.
  apply ensure_Ok in Htp as [Hlt _]. apply Z.ltb_lt in Hlt.
  assert (get_asset_record quote_id s = Some q) as Hq' by exact Hq.
  assert (get_asset_record base_id s = Some b) as Hb' by exact Hb.
  pose proof Hk as (_ & Hka & _). split; [|done]. split; try done.
  - by apply Hka.
  - by apply Hka.
  - by apply Huser.
  - intros p Hf. cbn [me_feed_price] in Hf. subst feed. by apply median_pair in Hfeed.
  - intros it k _ _ Hin. apply in_market_pair in Hin. exact (proj1 (Hagree k Hin)).
  - intros it k _ _ Hin. apply in_market_pair in Hin. exact (proj2 (Hagree k Hin)).
Qed.

Lemma store_status_tables st s :
  (∀ k, get_asset_record k (store_market_status st s) = get_asset_record k s) ∧
  (∀ k, get_account_record k (store_market_status st s) = get_account_record k s) ∧
  (∀ k, get_balance_record k (store_market_status st s) = get_balance_record k s) ∧
  (∀ k, get_bid_record k (store_market_status st s) = get_bid_record k s) ∧
  (∀ k, get_ask_record k (store_market_status st s) = get_ask_record k s) ∧
  (∀ k, get_short_record k (store_market_status st s) = get_short_record k s) ∧
  (∀ k, get_collateral_record k (store_market_status st s) = get_collateral_record k s) ∧
  ∀ id, excess id (view (store_market_status st s)) = excess id (view s).
Proof. by destruct s. Qed.

(** What a step of a block keeps: the funds of every asset, who issues it, and
    the orders at the prices it does not touch. *)
Record funds_kept (touched : price → Prop) s s' : Prop := {
  fk_wf : funds_wf s';
  fk_excess : ∀ id, excess id (view s') ≡₆₄ excess id (view s);
  fk_orders : ∀ k, ¬ touched (order_price k) →
    get_bid_record k s' = get_bid_record k s ∧ get_ask_record k s' = get_ask_record k s;
  fk_issuer : ∀ id a', get_asset_record id s' = Some a' →
    ∃ a, get_asset_record id s = Some a ∧ ar_is_market_issued a' = ar_is_market_issued a
}.
Lemma funds_kept_refl touched s : funds_wf s → funds_kept touched s s.
Proof. split; eauto. reflexivity. Qed.
Lemma funds_kept_trans (touched touched1 touched2 : price → Prop) s s1 s2 :
  (∀ p, touched1 p ∨ touched2 p → touched p) →
  funds_kept touched1 s s1 → funds_kept touched2 s1 s2 → funds_kept touched s s2.
Proof.
  intros Ht [_ E1 O1 I1] [W2 E2 O2 I2]. split; [done| | |].
  - intros id. by rewrite E2.
  - intros k Hk. destruct (O1 k ltac:(auto)), (O2 k ltac:(auto)). split; congruence.
  - intros id a' Ha. destruct (I2 id a' Ha) as (a & Ha1 & E). destruct (I1 id a Ha1) as (a0 & ? & ?).
    exists a0. split; [done|congruence].
Qed.
Lemma market_failed_kept quote_id base_id e g r :
  funds_wf (me_prior g) → fail_market e g = Ok r → funds_kept (of_pair quote_id base_id) (me_prior g) r.2.
Proof.
  intros Hwf Hf. unfold fail_market in Hf. apply rbind_Ok in Hf as (st & _ & Hf).
  apply Ok_inj in Hf as <-. cbn [snd].
  destruct (store_status_tables st (me_prior g)) as (E1 & E2 & E3 & E4 & E5 & E6 & E7 & E8).
  split.
  - eapply same_lookups_wf; [split_and!; eassumption| |done]. destruct Hwf as [Hp _].
    by destruct (me_prior g).
  - intros id. by rewrite E8.
  - intros k _. by rewrite E4, E5.
  - intros id a'. rewrite E1. eauto.
Qed.
Lemma execute_kept t s d quote_id base_id r :
  funds_wf s → books_agree quote_id base_id s d →
  (∀ a, get_asset_record quote_id s = Some a → ar_is_market_issued a = false) →
  execute t (engine_new s d quote_id base_id) = Ok r →
  funds_kept (of_pair quote_id base_id) s r.2.
Proof.
  intros Hwf Hagree Huser. unfold execute. intros Hr.
  destruct (open_books _) as [[[q b] g]|e] eqn:Eo;
    [|exact (market_failed_kept quote_id base_id e (engine_new s d quote_id base_id) r Hwf Hr)].
  destruct (open_books_inv _ _ _ _ _ _ _ Hwf Hagree Huser Eo) as (Hi & Ep & Es & Eq & Eb & Hq & Hb).
  destruct (let* l := run_market q b g in finish_market t l) as [r'|e] eqn:Er.
  2: { rewrite <- Es. apply (market_failed_kept quote_id base_id e g); [by rewrite Es|exact Hr]. }
  apply Ok_inj in Hr as <-. apply rbind_Ok in Er as (l & Hl & Hf).
  destruct s as [|d0|p0 prev]; [by destruct Hwf..|].
  pose proof (mi_quote _ _ _ Hi) as Eqi. pose proof (mi_base _ _ _ Hi) as Ebi.
  pose proof (mi_user _ _ _ Hi) as Hqu.
  apply run_market_kept in Hl as (Hu & Hled & Hpr & Eq' & Eb' & Eiss & Hoth); [|done|by rewrite Ep].
  assert (me_quote_id (ml_engine l) = quote_id ∧ me_base_id (ml_engine l) = base_id) as [E1 E2].
  { pose proof (mi_quote _ _ _ (proj1 Hu)). pose proof (mi_base _ _ _ (proj1 Hu)). split; congruence. }
  destruct (finish_market_kept t q b l r' p0 prev Hu) as (Hwf' & Hheld & Hbooks & Hassets);
    [congruence|by rewrite E1|by rewrite E2|congruence..|exact Hf|].
  assert (get_asset_record (ar_id q) (Pending p0 prev) = Some q ∧
    get_asset_record (ar_id b) (Pending p0 prev) = Some b) as [Hq' Hb'].
  { split; [by rewrite Eqi, Eq|by rewrite Ebi, Eb]. }
  split; [done| | |].
  - intros id. rewrite Hheld, Hled.
    assert (held id g = excess id (view (Pending p0 prev))) as ->.
    { unfold held, me_state. rewrite Ep, Es. apply excess_over_empty. }
    apply eq64_eq. lia.
  - intros k Hk. destruct (Hbooks k) as [-> ->].
    rewrite Eqi, Ebi, Eq, Eb in Hoth. destruct (Hoth k Hk) as [-> ->].
    unfold me_state. rewrite Ep, Es. done.
  - intros id a'. rewrite Hassets, Eb', Eq', Hpr, Es. repeat case_decide; [..|by eauto].
    + intros [= <-]. exists b. split; [by subst id|done].
    + intros [= <-]. exists q. split; [by subst id|]. by rewrite Hqu, (mi_user _ _ _ (proj1 Hu)).
Qed.

(** C4 (market_conserves). Matching a market whose quote asset the market does not
    issue conserves every asset, however many orders it fills, whatever fees and
    remainders it collects, and also when it fails: what the chain holds of an
    asset, less its share supply, is the same after the run. *)
Theorem market_conserves t s d quote_id base_id r :
  funds_wf s → books_agree quote_id base_id s d →
  (∀ a, get_asset_record quote_id s = Some a → ar_is_market_issued a = false) →
  execute t (engine_new s d quote_id base_id) = Ok r →
  ∀ id, holdings id r.2 - supply id r.2 ≡₆₄ holdings id s - supply id s.
Proof.
  intros Hwf Hagree Huser Hr id.
  pose proof (fk_excess _ _ _ (execute_kept _ _ _ _ _ _ Hwf Hagree Huser Hr) id) as E.
  by rewrite !excess_view in E.
Qed.

(** A market whose run throws leaves every asset,
    account, balance, order and position of the block's state as it was, records
    no trade, and is marked with the error in its status. *)
Theorem failed_market_contained t g e r :
  (let* x := open_books g in let* l := run_market x.1.1 x.1.2 x.2 in finish_market t l) = Err e →
  is_pending (me_prior g) → execute t g = Ok r →
  r.1 = [] ∧
  (∀ k, get_asset_record k r.2 = get_asset_record k (me_prior g)) ∧
  (∀ k, get_account_record k r.2 = get_account_record k (me_prior g)) ∧
  (∀ k, get_balance_record k r.2 = get_balance_record k (me_prior g)) ∧
  (∀ k, get_bid_record k r.2 = get_bid_record k (me_prior g)) ∧
  (∀ k, get_ask_record k r.2 = get_ask_record k (me_prior g)) ∧
  (∀ k, get_short_record k r.2 = get_short_record k (me_prior g)) ∧
  (∀ k, get_collateral_record k r.2 = get_collateral_record k (me_prior g)) ∧
  ∃ st, get_market_status (ms_quote_id st) (ms_base_id st) r.2 = Ok (Some st) ∧
        ms_last_error st = Some e.
Proof.
  unfold execute. intros Hrun Hp Hr.
  assert (∃ g', me_prior g' = me_prior g ∧ fail_market e g' = Ok r) as (g' & Eg & Hf).
  { destruct (open_books g) as [[[q b] g']|e'] eqn:Eo; cbn [rbind] in Hrun.
    - cbn [fst snd] in Hrun. rewrite Hrun in Hr. exists g'. split; [|done].
      unfold open_books in Eo. cbv zeta in Eo. do 5 apply rbind_Ok in Eo as (? & _ & Eo).
      apply Ok_inj in Eo. by simplify_eq.
    - simplify_eq. by exists g. }
  unfold fail_market in Hf. apply rbind_Ok in Hf as (st & Hst & Hf). apply Ok_inj in Hf as <-.
  cbn [fst snd]. rewrite Eg.
  destruct (store_status_tables st (me_prior g)) as (E1 & E2 & E3 & E4 & E5 & E6 & E7 & _).
  split_and!; [done..|]. exists st. split.
  - destruct (me_prior g) as [|d|p prev]; [done|done|]. unfold get_market_status. simpl.
    by rewrite lookup_insert_eq.
  - unfold next_market_status in Hst. apply rbind_Ok in Hst as (? & _ & Hst).
    apply rbind_Ok in Hst as (? & _ & Hst). by apply Ok_inj in Hst as <-.
Qed.
End runs.
