(* ===== verification/MarketExamples.v ===== *)
(** Markets with a few orders, on which the theorems of the market engine are
    run, and runs that show where its bookkeeping leaks. *)
From S2P Require Export MarketRuns Divergences.

(** ** A market of a user's asset: one bid and one ask that cross *)
Definition mk_user : asset_record :=
  AssetRecord 3 "MYCOIN" "mine" "" v_null 1 10000 1 1 500 1000000 0.
Definition mk_bid_key : market_index_key := MarketIndexKey (Price (2 * 10 ^ 18) 0 3) 11.
Definition mk_ask_key : market_index_key := MarketIndexKey (Price (15 * 10 ^ 17) 0 3) 12.
Definition mk_bid : order_record := OrderRecord 200 None 900.
Definition mk_ask : order_record := OrderRecord 60 None 900.
Definition mk_db : chain_database :=
  set_db_head_block_header ex_header
    (set_db_assets {[0 := ex_core; 3 := mk_user]}
      (set_db_bids {[mk_bid_key := mk_bid]}
        (set_db_asks {[mk_ask_key := mk_ask]}
          (set_db_properties (list_to_map [(last_account_id_prop, v_int 4); (chain_id_prop, v_hash 1);
              (active_delegate_list_id, v_ids [])])
            (chain_database_empty 1))))).
Definition mk_state : chain_state := Pending pending_chain_state_empty (Database mk_db).
Definition mk_engine : market_engine := engine_new mk_state mk_db 3 0.

Lemma mk_state_wf : funds_wf mk_state.
Proof.
  split; [exact I|]. split_and!; intros k r Hr; unfold mk_state in Hr; cbn in Hr.
  - by apply lookup_none in Hr.
  - apply lookup_insert_Some in Hr as [[<- <-]|[_ Hr]]; [done|].
    by apply (lookup_one _ 3 _ mk_user) in Hr as [-> ->].
  - by apply lookup_none in Hr.
Defined.
Lemma mk_state_agrees : books_agree 3 0 mk_state mk_db.
Proof. intros k _. split; by_evaluation. Defined.
Lemma mk_user_issued a : get_asset_record 3 mk_state = Some a → ar_is_market_issued a = false.
Proof. intros [= <-]. reflexivity. Defined.

Definition mk_run : list market_transaction * chain_state :=
  ok_or ([], mk_state) (execute 1010 mk_engine).
Lemma mk_run_ok :
  execute 1010 mk_engine = Ok mk_run ∧ length mk_run.1 = 1%nat ∧
  get_bid_record mk_bid_key mk_run.2 = Some (OrderRecord 80 None 900).
Proof. split; [by_running|split; by_evaluation]. Qed.
Lemma market_conserves_witness :
  execute 1010 mk_engine = Ok mk_run ∧ length mk_run.1 = 1%nat ∧
  get_bid_record mk_bid_key mk_run.2 = Some (OrderRecord 80 None 900) ∧
  ∀ id, holdings id mk_run.2 - supply id mk_run.2 ≡₆₄ holdings id mk_state - supply id mk_state.
Proof.
  destruct mk_run_ok as (E & E1 & E2). split; [exact E|]. split; [exact E1|]. split; [exact E2|].
  exact (market_conserves _ 1010 mk_state mk_db 3 0 mk_run mk_state_wf mk_state_agrees
           mk_user_issued E).
Defined.

(** The engine with both orders taken, about to trade. *)
Definition mk_taken : market_engine :=
  ok_or mk_engine (let* x := open_books mk_engine in let* b := get_next_bid x.2 in
                   let* a := get_next_ask b.2 in Ok a.2).
Definition mk_locals : match_locals :=
  MatchLocals mk_taken mk_user ex_core (-1) (Asset 0 0) price_default price_default.
Definition mk_market_bid : market_order := MarketOrder bid_order mk_bid_key mk_bid None None None.
Definition mk_market_ask : market_order := MarketOrder ask_order mk_ask_key mk_ask None None None.
Definition mk_trade : market_transaction := initial_transaction mk_market_bid mk_market_ask.

Lemma mk_ready :
  trade_ready mk_market_bid mk_market_ask (ml_quote mk_locals) (ml_base mk_locals)
    (ml_engine mk_locals).
Proof.
  cbn [ml_quote ml_base ml_engine mk_locals].
  assert (funds_wf (me_state mk_taken)) as Hwf.
  { replace (me_state mk_taken) with (Pending pending_chain_state_empty mk_state)
      by (by_evaluation).
    destruct mk_state_wf as (_ & F1 & F2 & F3).
    split; [exact I|]. split_and!; intros k r Hr; [eapply F1|eapply F2|eapply F3]; exact Hr. }
  split; [exact Hwf|vm_compute; try reflexivity; try discriminate..].
  - split; reflexivity.
  - split; reflexivity.
Defined.
Definition mk_after_trade : match_locals :=
  ok_or mk_locals (make_trade mk_market_bid mk_market_ask mk_trade mk_locals).
Lemma mk_trade_ok :
  settle_prices mk_market_bid mk_market_ask (ml_quote mk_locals) (ml_engine mk_locals)
    = Ok (trade mk_trade) ∧
  make_trade mk_market_bid mk_market_ask mk_trade mk_locals = Ok mk_after_trade.
Proof. split; [by_evaluation|by_running]. Qed.

(** The same market for an asset the market issues, with no feeds. *)
Definition mk_dollar : asset_record :=
  AssetRecord 3 "DOLLAR" "dollar" "" v_null market_issued_asset 10000 1 1 500 1000000 0.
Definition mk_dollar_db : chain_database := set_db_assets {[0 := ex_core; 3 := mk_dollar]} mk_db.
Definition mk_dollar_state : chain_state :=
  Pending pending_chain_state_empty (Database mk_dollar_db).
Definition mk_dollar_engine : market_engine := engine_new mk_dollar_state mk_dollar_db 3 0.
Definition mk_failed_run : list market_transaction * chain_state :=
  ok_or ([], mk_state) (execute 1010 mk_dollar_engine).
Lemma mk_failed_ok :
  (let* x := open_books mk_dollar_engine in
   let* l := run_market x.1.1 x.1.2 x.2 in finish_market 1010 l) = Err insufficient_feeds ∧
  execute 1010 mk_dollar_engine = Ok mk_failed_run.
Proof. split; [by_evaluation|by_running]. Qed.
Lemma failed_market_contained_witness :
  execute 1010 mk_dollar_engine = Ok mk_failed_run ∧ mk_failed_run.1 = [] ∧
  get_bid_record mk_bid_key mk_failed_run.2 = Some mk_bid ∧
  ∃ st, get_market_status (ms_quote_id st) (ms_base_id st) mk_failed_run.2 = Ok (Some st) ∧
        ms_last_error st = Some insufficient_feeds.
Proof.
  destruct mk_failed_ok as [E1 E2]. split; [exact E2|].
  destruct (failed_market_contained 1010 mk_dollar_engine insufficient_feeds mk_failed_run E1 I E2)
    as (H1 & _ & _ & _ & H2 & _ & _ & _ & H3).
  split; [exact H1|]. split; [|exact H3]. rewrite H2. by_evaluation.
Defined.

Lemma overlay_applied_witness :
  ∃ s', apply_changes example_p mk_state = Ok s' ∧
    get_ask_record example_ask s' = Some (order_record_of 100) ∧
    get_ask_record mk_ask_key s' = Some mk_ask.
Proof.
  destruct (overlay_applied example_p pending_chain_state_empty (Database mk_db)
              (proj1 example_keyed) ltac:(by_evaluation))
    as (s' & E & _ & _ & _ & _ & Ha & _).
  exists s'. split; [exact E|]. rewrite !Ha. split; by_evaluation.
Defined.

(** ** Three leaks *)
Definition mk_feed : price := Price (5 * 10 ^ 17) 0 3.
Definition mk_short_key : market_index_key := MarketIndexKey (Price (10 ^ 17) 0 3) 13.
Definition mk_short : market_order :=
  MarketOrder short_order mk_short_key (OrderRecord 40 None 900) (Some 40)
    (Some (order_price mk_short_key)) None.
Definition mk_cheap_ask : market_order :=
  MarketOrder ask_order (MarketIndexKey mk_feed 12) (OrderRecord 21 None 900) None None None.
Definition mk_crumb_ask : market_order :=
  MarketOrder ask_order (MarketIndexKey mk_feed 15) (OrderRecord 1 None 900) None None None.
Definition mk_cheap_bid : market_order :=
  MarketOrder bid_order (MarketIndexKey mk_feed 11) (OrderRecord 50 None 900) None None None.
Definition mk_poor : collateral_record := CollateralRecord 20 100 (Price (10 ^ 17) 0 3) 500.
Definition mk_call : market_order :=
  MarketOrder cover_order (MarketIndexKey (Price (75 * 10 ^ 17) 0 3) 14) (order_record_of 100)
    (Some 20) (Some (cr_interest_rate mk_poor)) (Some 500).
(** The dollar market standing at a pair of orders, its books stored in the state. *)
Definition mk_standing (bid ask : market_order) : match_locals :=
  let s := store_short_record mk_short_key (mo_state mk_short)
    (store_ask_record (mo_market_index mk_crumb_ask) (mo_state mk_crumb_ask)
    (store_ask_record (mo_market_index mk_cheap_ask) (mo_state mk_cheap_ask)
      (store_bid_record (mo_market_index mk_cheap_bid) (mo_state mk_cheap_bid)
        (store_collateral_record (mo_market_index mk_call) mk_poor mk_dollar_state)))) in
  MatchLocals
    (MarketEngine pending_chain_state_empty s mk_dollar_db (Some bid) (Some ask) mk_poor 3 0
       (Some mk_feed) 0 [] None None None None)
    mk_dollar ex_core (-1) (Asset 0 0) price_default price_default.
Definition mk_traded (bid ask : market_order) : result match_locals :=
  let l := mk_standing bid ask in
  let* o := settle_prices bid ask (ml_quote l) (ml_engine l) in
  match o with trade m => make_trade bid ask m l | _ => Err assert_failure end.

Definition mk_after (bid ask : market_order) : match_locals :=
  ok_or (mk_standing bid ask) (mk_traded bid ask).

(** An ask that matches a short is paid with the
    record of the quote asset, so what is left of it, one unit of the core asset,
    becomes one unit of fees of the quote asset: the chain loses the one and
    gains the other. *)
Theorem short_dust_changes_asset :
  let l := mk_standing mk_short mk_cheap_ask in
  ∃ l', mk_traded mk_short mk_cheap_ask = Ok l' ∧
    or_balance <$> (mo_state <$> me_current_ask (ml_engine l')) = Some 0 ∧
    ledger 0 l' = ledger 0 l - 1 ∧ ledger 3 l' = ledger 3 l + 1 ∧
    ar_collected_fees (ml_quote l') = ar_collected_fees (ml_quote l) + 1 ∧
    ar_collected_fees (ml_base l') = ar_collected_fees (ml_base l).
Proof.
  intros l. exists (mk_after mk_short mk_cheap_ask).
  split; [by_running|split_and!; by_evaluation].
Qed.

(** An ask of a single unit is worth nothing of the
    quote asset: the unit is paid to the short, which receives no debt for it, opens
    no position and keeps it nowhere. *)
Theorem short_buys_nothing :
  let l := mk_standing mk_short mk_crumb_ask in
  ∃ l', mk_traded mk_short mk_crumb_ask = Ok l' ∧
    or_balance <$> (mo_state <$> me_current_ask (ml_engine l')) = Some 0 ∧
    ledger 0 l' = ledger 0 l - 1 ∧ ledger 3 l' = ledger 3 l.
Proof.
  intros l. exists (mk_after mk_short mk_crumb_ask).
  split; [by_running|split_and!; by_evaluation].
Qed.

(** A margin call on a position whose collateral pays
    10 of the 100 it owes forgives the other 90 by taking them out of the fees of
    the asset, which turn negative, and leaves them in the share supply: the
    chain then holds 90 less than the supply says. *)
Theorem bad_debt_stays_issued :
  let l := mk_standing mk_cheap_bid mk_call in
  ∃ l', mk_traded mk_cheap_bid mk_call = Ok l' ∧
    me_current_collat (ml_engine l')
      = CollateralRecord 0 0 (cr_interest_rate mk_poor) (cr_expiration mk_poor) ∧
    ar_current_share_supply (ml_quote l') = ar_current_share_supply (ml_quote l) - 10 ∧
    ar_collected_fees (ml_quote l') = -90 ∧
    ledger 0 l' = ledger 0 l ∧ ledger 3 l' = ledger 3 l - 90.
Proof.
  intros l. exists (mk_after mk_cheap_bid mk_call).
  split; [by_running|split_and!; by_evaluation].
Qed.
