(* ===== verification/BlockFacts.v ===== *)
(** The steps of a block: the shuffle permutes the delegates, the round is the
    delegates with the most votes, every slot since the head is accounted for,
    and the pay of a delegate comes out of the fees and the supply; proofs over
    [Blocks]. *)
From S2P Require Export MarketRuns Blocks.

(** ** The shuffle *)
Lemma swap_at_perm {A} i j (l : list A) : swap_at i j l ≡ₚ l.
Proof.
  unfold swap_at. destruct (l !! i) as [x|] eqn:Ei; [|done].
  destruct (l !! j) as [y|] eqn:Ej; [|done].
  destruct (decide (i = j)) as [->|Hij].
  { simplify_eq. rewrite list_insert_insert_eq. by rewrite list_insert_id. }
  apply Permutation_inj. split; [by rewrite !length_insert|].
  assert (i < length l)%nat by (by eapply lookup_lt_Some).
  assert (j < length l)%nat by (by eapply lookup_lt_Some).
  exists (λ k, if decide (k = i) then j else if decide (k = j) then i else k). split.
  - intros a b. repeat case_decide; congruence.
  - intros k. destruct (decide (k = j)) as [->|Hj].
    + rewrite list_lookup_insert_eq by (by rewrite length_insert).
      by rewrite decide_False, Ei by done.
    + rewrite list_lookup_insert_ne by done. case_decide as Hi; subst.
      * by rewrite list_lookup_insert_eq.
      * by rewrite list_lookup_insert_ne.
Qed.
Section facts.
Context `{!Fc, !Crypto}.
Implicit Types (b : full_block) (d : chain_database) (s : chain_state).

Lemma shuffle_words_spec ws i l :
  (shuffle_words ws i l).2 ≡ₚ l ∧ (i ≤ (shuffle_words ws i l).1)%nat.
Proof.
  revert i l. induction ws as [|w ws IH]; intros i l; [done|]. simpl.
  case_decide as Hi; [|done].
  destruct (IH (S i) (swap_at i (Z.to_nat (w mod Z.of_nat (length l))) l)) as [H1 H2].
  split; [by rewrite H1, swap_at_perm|lia].
Qed.

Lemma shuffle_from_spec n seed i l :
  (length l ≤ n + i)%nat → ∃ l', shuffle_from n seed i l = Some l' ∧ l' ≡ₚ l.
Proof.
  revert seed i l. induction n as [|n IH]; intros seed i l Hn; cbn [shuffle_from];
    case_decide as Hi; try (by eexists); [lia|].
  destruct (shuffle_words_spec (sha256_word seed <$> [0; 1; 2; 3]) i l) as [H1 H2].
  destruct (IH (sha256_of_sha256 seed) (S (shuffle_words (sha256_word seed <$> [0; 1; 2; 3]) i l).1)
              (shuffle_words (sha256_word seed <$> [0; 1; 2; 3]) i l).2) as (l' & E & Hp).
  { apply Permutation_length in H1. lia. }
  exists l'. split; [done|]. by rewrite Hp.
Qed.

(** ** The round *)
#[local] Instance vote_del_le_trans : Transitive vote_del_le.
Proof. intros [v i] [v' i'] [v'' i'']. unfold vote_del_le. simpl. lia. Qed.
#[local] Instance vote_del_le_total : Total vote_del_le.
Proof. intros [v i] [v' i']. unfold vote_del_le. simpl. lia. Qed.
Lemma elem_of_sorted_votes d x : x ∈ sorted_votes d ↔ x ∈ db_delegate_votes d.
Proof. unfold sorted_votes. by rewrite merge_sort_Permutation, elem_of_elements. Qed.
Lemma sorted_votes_split d x y n :
  x ∈ take n (sorted_votes d) → y ∈ drop n (sorted_votes d) → vote_del_le x y.
Proof.
  intros Hx Hy.
  assert (StronglySorted vote_del_le (sorted_votes d)) as Hs
    by (unfold sorted_votes; apply StronglySorted_merge_sort; apply _).
  rewrite <- (take_drop n (sorted_votes d)) in Hs. by eapply StronglySorted_app_1_elem_of.
Qed.
Lemma sorted_votes_ids d : vote_index d → NoDup (sorted_votes d).*2.
Proof.
  intros Hd. apply NoDup_fmap_2_strong.
  - intros [v i] [v' i'] Hx Hy Ei. simpl in Ei. subst i'.
    apply elem_of_sorted_votes, Hd in Hx as (r & st & Hr & Hi & <-).
    apply elem_of_sorted_votes, Hd in Hy as (r' & st' & Hr' & Hi' & <-). congruence.
  - unfold sorted_votes. rewrite merge_sort_Permutation. apply NoDup_elements.
Qed.

(** C31 (round_has_most_votes). The next round is made of delegates, each once; it
    has 101 of them or all there are; and a delegate that is left out has no more
    votes than any that is in, and at equal votes a greater id. *)
Theorem round_has_most_votes d :
  vote_index d →
  let round := next_round_active_delegates d in
  NoDup round ∧
  length round = Nat.min 101 (size (db_delegate_votes d)) ∧
  (∀ id, id ∈ round → ∃ v, (v, id) ∈ db_delegate_votes d) ∧
  ∀ id v id' v', id ∈ round → (v, id) ∈ db_delegate_votes d →
    id' ∉ round → (v', id') ∈ db_delegate_votes d → v' < v ∨ (v = v' ∧ id < id').
Proof.
  intros Hd round. pose proof (sorted_votes_ids d Hd) as Hnd.
  assert (round = (take 101 (sorted_votes d)).*2) as Eround.
  { unfold round, next_round_active_delegates, get_delegates_by_vote.
    change (Z.to_nat BTS_BLOCKCHAIN_NUM_DELEGATES) with 101%nat. by rewrite drop_0, fmap_take. }
  rewrite Eround. split_and!.
  - rewrite fmap_take. rewrite <- (take_drop 101 (sorted_votes d).*2) in Hnd.
    by apply NoDup_app in Hnd as (Hnd & _ & _).
  - rewrite length_fmap, length_take. f_equal. unfold sorted_votes.
    by rewrite merge_sort_Permutation.
  - intros id ([v i] & -> & Hx)%list_elem_of_fmap. exists v.
    apply elem_of_sorted_votes. eapply subseteq_take; exact Hx.
  - intros id v id' v' Hin Hv Hout Hv'.
    apply elem_of_sorted_votes in Hv, Hv'. apply list_elem_of_fmap in Hin as ([w i] & -> & Hx).
    assert ((w, i) = (v, i)) as [= ->].
    { pose proof (subseteq_take _ _ _ Hx) as Hk. apply elem_of_sorted_votes, Hd in Hk as (r & st & Hr & Hi & <-).
      apply elem_of_sorted_votes, Hd in Hv as (r' & st' & Hr' & Hi' & <-). simpl in *. congruence. }
    rewrite <- (take_drop 101 (sorted_votes d)) in Hv'. apply elem_of_app in Hv' as [Hv'|Hv'].
    { destruct Hout. apply list_elem_of_fmap. by exists (v', id'). }
    pose proof (sorted_votes_split _ _ _ _ Hx Hv') as Hle. unfold vote_del_le in Hle. simpl in Hle.
    assert (i ≠ id'); [|simpl; lia]. intros ->. apply Hout. apply list_elem_of_fmap. by exists (v, id').
Qed.

(** The shuffle of a round ends, whatever the seed, and
    only reorders the delegates: nobody joins, leaves or serves twice. *)
Theorem shuffle_permutes seed (l : list Z) : ∃ l', shuffle seed l = Some l' ∧ l' ≡ₚ l.
Proof. unfold shuffle. apply shuffle_from_spec. lia. Qed.

(** ** Funds *)
Lemma require_delegate_Ok r a : require_delegate r = Ok a → r = Some a ∧ is_Some (ac_delegate_info a).
Proof.
  unfold require_delegate. intros Hr. apply rbind_Ok in Hr as (a' & Ha & Hr).
  apply of_option_Ok in Ha. apply ensure_Ok in Hr as [Hd Hr]. apply Ok_inj in Hr as <-.
  split; [done|]. unfold ac_is_delegate in Hd. destruct (ac_delegate_info a'); [by eexists|done].
Qed.
Lemma pending_delegate_Ok id s x : pending_delegate id s = Ok x →
  get_account_record id s = Some x.1 ∧ ac_delegate_info x.1 = Some x.2.
Proof.
  unfold pending_delegate. intros Hr. apply rbind_Ok in Hr as (r & Ha & Hr).
  apply of_option_Ok in Ha. apply rbind_Ok in Hr as (i & Hi & Hr). apply of_option_Ok in Hi.
  by apply Ok_inj in Hr as <-.
Qed.
Lemma smoved_asset_update r0 r fees shares s :
  ar_id r = ar_id r0 → ar_collected_fees r ≡₆₄ ar_collected_fees r0 + fees →
  ar_current_share_supply r ≡₆₄ ar_current_share_supply r0 + shares →
  get_asset_record (ar_id r0) s = Some r0 →
  smoved s (store_asset_record r s) (λ id, at_id id (ar_id r0) (fees - shares)).
Proof. apply (moved_update_asset r0 r fees shares (view s)). Qed.
Lemma smoved_account_update r0 i0 i amount s :
  ac_delegate_info r0 = Some i0 → ds_pay_balance i ≡₆₄ ds_pay_balance i0 + amount →
  get_account_record (ac_id r0) s = Some r0 →
  smoved s (store_account_record (set_ac_delegate_info (Some i) r0) s) (λ id, at_id id 0 amount).
Proof.
  intros Ei Hp Hr. apply (moved_update_account r0 _ amount (view s)); [done| |by left].
  rewrite Ei. exact Hp.
Qed.

Lemma get_asset_store_account k r s : is_pending s →
  get_asset_record k (store_account_record r s) = get_asset_record k s.
Proof. by destruct s. Qed.
Lemma get_account_store_asset k r s : is_pending s →
  get_account_record k (store_asset_record r s) = get_account_record k s.
Proof. by destruct s. Qed.
Lemma get_asset_stored r s : is_pending s →
  get_asset_record (ar_id r) (store_asset_record r s) = Some r.
Proof. destruct s; [done|done|]. intros _. unfold get_asset_record. simpl. by rewrite lookup_insert_eq. Qed.

Lemma pay_delegate_kept key d s s' :
  pay_delegate key d s = Ok s' → smoved s s' (λ _, 0).
Proof.
  unfold pay_delegate. intros Hr Hwf. pose proof Hwf as [Hp (_ & Ha & Hc)].
  change (es_current_state (view s)) with s in *.
  apply rbind_Ok in Hr as (a & _ & Hr). apply rbind_Ok in Hr as ([r i] & Hi & Hr).
  apply pending_delegate_Ok in Hi as [Eacc Ei]. cbn [fst snd] in *. cbv zeta in Hr.
  apply ensure_Ok in Hr as [_ Hr]. apply rbind_Ok in Hr as (max & _ & Hr).
  apply rbind_Ok in Hr as (base & Hb & Hr). apply of_option_Ok in Hb.
  apply rbind_Ok in Hr as (base' & Hb' & Hr). apply of_option_Ok in Hb'.
  apply Ok_inj in Hr as <-. revert Hwf.
  set (acc := Z.quot (s64 (ds_pay_rate i * max)) 100) in *.
  set (base1 := set_ar_collected_fees _ base) in *. pose proof (Ha _ _ Hb) as Eb.
  assert (get_account_record (ac_id r) (store_asset_record base1 s) = Some r) as Eacc1.
  { rewrite get_account_store_asset by done. pose proof (Hc _ _ Eacc). congruence. }
  set (s1 := store_asset_record base1 s) in *.
  assert (is_pending s1) as Hp1 by (by destruct s).
  set (i1 := set_ds_votes_for _ _) in *. set (s2 := store_account_record _ s1) in *.
  unfold s2 in Hb'. rewrite get_asset_store_account in Hb' by done.
  assert (base' = base1) as ->.
  { change 0 with (ar_id base1) in Hb' || (rewrite <- Eb in Hb'; change (ar_id base) with (ar_id base1) in Hb').
    unfold s1 in Hb'. rewrite get_asset_stored in Hb' by done. by simplify_eq. }
  set (base2 := set_ar_current_share_supply _ base1).
  eapply (smoved_seq s s1); [|eapply (smoved_seq s1 s2)|].
  - apply (smoved_asset_update base base1 (- max) 0); [done| | |by rewrite Eb].
    + unfold base1. cbn [ar_collected_fees set_ar_collected_fees]. rewrite s64_eq64.
      apply eq64_eq. lia.
    + apply eq64_eq. cbn. lia.
  - apply (smoved_account_update r i i1 acc); [done| |done]. simpl. apply s64_eq64.
  - apply (smoved_asset_update base1 base2 0 (- (max - acc))); [done| | |].
    + apply eq64_eq. cbn. lia.
    + unfold base2. cbn [ar_current_share_supply set_ar_current_share_supply]. rewrite s64_eq64. apply eq64_eq. lia.
    + unfold s2. rewrite get_asset_store_account by done. apply get_asset_stored. done.
  - intros id. apply eq64_eq. reflexivity.
  - intros id. change (ar_id base1) with (ar_id base). rewrite Eb. unfold at_id.
    destruct (0 =? id); apply eq64_eq; lia.
Qed.

(** Paying the delegate of a block conserves every
    asset: the fees of the core asset go down by the most a block pays, the
    delegate is credited its share of that, and the rest leaves the share supply. *)
Theorem pay_delegate_conserves key d s s' :
  funds_wf s → pay_delegate key d s = Ok s' →
  funds_wf s' ∧ ∀ id, holdings id s' - supply id s' ≡₆₄ holdings id s - supply id s.
Proof.
  intros Hwf Hr. destruct (pay_delegate_kept _ _ _ _ Hr Hwf) as [Hwf' E]. split; [done|].
  intros id. specialize (E id). rewrite !excess_view in E. rewrite E. apply eq64_eq. lia.
Qed.

(** ** The slots since the head *)
Definition stat (f : delegate_stats → Z) (id : Z) s : Z :=
  from_option (λ r, from_option f 0 (ac_delegate_info r)) 0 (get_account_record id s).
Definition accounts_keyed s : Prop := ∀ k r, get_account_record k s = Some r → ac_id r = k.
Definition schedule_of (active : list Z) d (t : Z) : option Z :=
  match get_slot_signee t active d with Ok a => Some (ac_id a) | Err _ => None end.

Lemma get_account_stored k r s : is_pending s →
  get_account_record k (store_account_record r s)
  = if decide (k = ac_id r) then Some r else get_account_record k s.
Proof.
  destruct s; [done|done|]. intros _. unfold get_account_record. simpl.
  destruct (decide (k = ac_id r)) as [->|]; [by rewrite lookup_insert_eq|by rewrite lookup_insert_ne].
Qed.
Lemma get_slot_stored t r s : is_pending s →
  get_slot_record t (store_slot_record r s)
  = if decide (t = sl_start_time r) then Some r else get_slot_record t s.
Proof.
  destruct s; [done|done|]. intros _. unfold get_slot_record. simpl.
  destruct (decide (t = sl_start_time r)) as [->|]; [by rewrite lookup_insert_eq|by rewrite lookup_insert_ne].
Qed.

(** Storing statistics [i] of the delegate [r] and a slot. *)
Record slot_stored (r : account_record) (i : delegate_stats) (slot : slot_record) s s' : Prop := {
  ss_pending : is_pending s';
  ss_keyed : accounts_keyed s';
  ss_slot t : get_slot_record t s'
    = if decide (t = sl_start_time slot) then Some slot else get_slot_record t s;
  ss_stat f id : stat f id s' = if decide (id = ac_id r) then f i else stat f id s;
  ss_property k : get_property k s' = get_property k s
}.
Lemma store_slot_spec r i slot s :
  is_pending s → accounts_keyed s →
  slot_stored r i slot s
    (store_slot_record slot (store_account_record (set_ac_delegate_info (Some i) r) s)).
Proof.
  intros Hp Hk. set (s1 := store_account_record _ s).
  assert (is_pending s1) as Hp1 by (by destruct s).
  assert (∀ k, get_account_record k (store_slot_record slot s1) = get_account_record k s1) as E
    by (by destruct s).
  split.
  - by destruct s.
  - intros k r'. rewrite E. unfold s1. rewrite get_account_stored by done.
    case_decide as Hd; [|apply Hk]. by intros [= <-].
  - intros t. rewrite get_slot_stored by done. case_decide; [done|]. by destruct s.
  - intros f id. unfold stat. rewrite E. unfold s1. rewrite get_account_stored by done.
    by destruct (decide _).
  - intros k. by destruct s.
Qed.

Lemma record_missed_spec active t d s s' :
  is_pending s → accounts_keyed s → record_missed active t d s = Ok s' →
  ∃ id r i, schedule_of active d t = Some id ∧ get_account_record id s = Some r ∧
    ac_delegate_info r = Some i ∧ ac_id r = id ∧
    slot_stored r (set_ds_blocks_missed (u32 (ds_blocks_missed i + 1)) i) (SlotRecord t id None) s s'.
Proof.
  intros Hp Hk. unfold record_missed. intros Hr. apply rbind_Ok in Hr as (a & Ha & Hr).
  apply rbind_Ok in Hr as ([r i] & Hi & Hr). apply pending_delegate_Ok in Hi as [Er Ei].
  cbv zeta in Hr. apply Ok_inj in Hr as <-. exists (ac_id a), r, i. unfold schedule_of. rewrite Ha.
  split_and!; try done; [by apply Hk|]. by apply store_slot_spec.
Qed.

Fixpoint slots (t : Z) (n : nat) : list Z :=
  match n with O => [] | S n' => t :: slots (t + BTS_BLOCKCHAIN_BLOCK_INTERVAL_SEC) n' end.
Lemma elem_of_slots t n x :
  x ∈ slots t n ↔ ∃ k, (k < n)%nat ∧ x = t + BTS_BLOCKCHAIN_BLOCK_INTERVAL_SEC * Z.of_nat k.
Proof.
  revert t. induction n as [|n IH]; intros t; simpl.
  - split; [by intros ?%elem_of_nil|intros (k & Hk & _); lia].
  - rewrite elem_of_cons, IH. split.
    + intros [->|(k & Hk & ->)]; [exists 0%nat; lia|exists (S k); lia].
    + intros ([|k] & Hk & ->); [left; lia|right; exists k; lia].
Qed.

(** The loop is a fold over the slots it visits. *)
Lemma record_all_missed_fold `{!FcLaws _} n k active t produced conf d s :
  0 ≤ t → t + BTS_BLOCKCHAIN_BLOCK_INTERVAL_SEC * Z.of_nat n = produced → produced < 2 ^ 32 →
  0 ≤ conf → conf + 2 * Z.of_nat n < 2 ^ 63 →
  record_all_missed (n + k) active t produced conf d s =
  Some (let* s' := rfold (λ t s, record_missed active t d s) (slots t n) s in
        Ok (conf + 2 * Z.of_nat n, s')).
Proof.
  assert (BTS_BLOCKCHAIN_BLOCK_INTERVAL_SEC = 10) as E10 by reflexivity. rewrite E10.
  revert t conf s. induction n as [|n IH]; intros t conf s Ht Ep Hp Hc Hb.
  - assert (t <? produced = false) as El by lia. destruct k; cbn [Nat.add record_all_missed]; rewrite El;
      simpl; do 3 f_equal; lia.
  - cbn [Nat.add record_all_missed slots rfold]. rewrite (proj2 (Z.ltb_lt _ _)) by lia.
    destruct (record_missed active t d s) as [s1|e]; [|done]. cbn [rbind].
    rewrite E10, tps_add_spec by lia. rewrite s64_id by (unfold_int; lia).
    rewrite IH by lia. f_equal.
    destruct (rfold (λ t s, record_missed active t d s) (slots (t + 10) n) s1); [|done].
    simpl. do 2 f_equal. lia.
Qed.

Definition scheduled_in (active : list Z) d (id : Z) (l : list Z) : Z :=
  Z.of_nat (length (filter (λ t, schedule_of active d t = Some id) l)).
(** The slots [l] are recorded as missed, and nothing else. *)
Record slots_missed (active : list Z) d (l : list Z) s s' : Prop := {
  sm_pending : is_pending s';
  sm_keyed : accounts_keyed s';
  sm_slot t : t ∈ l → ∃ id, schedule_of active d t = Some id ∧
    get_slot_record t s' = Some (SlotRecord t id None);
  sm_other t : t ∉ l → get_slot_record t s' = get_slot_record t s;
  sm_missed id : u32 (stat ds_blocks_missed id s')
    = u32 (stat ds_blocks_missed id s + scheduled_in active d id l);
  sm_produced id : stat ds_blocks_produced id s' = stat ds_blocks_produced id s;
  sm_property k : get_property k s' = get_property k s
}.
Lemma u32_add_l x y : u32 (u32 x + y) = u32 (x + y).
Proof. unfold u32. by rewrite Zplus_mod_idemp_l. Qed.
Lemma scheduled_in_cons active d id t l :
  scheduled_in active d id (t :: l)
  = (if decide (schedule_of active d t = Some id) then 1 else 0) + scheduled_in active d id l.
Proof. unfold scheduled_in. rewrite filter_cons. case_decide; simpl; lia. Qed.
Lemma record_slots_spec active d l s s' :
  NoDup l → is_pending s → accounts_keyed s →
  rfold (λ t s, record_missed active t d s) l s = Ok s' → slots_missed active d l s s'.
Proof.
  intros Hnd. revert s. induction Hnd as [|t l Ht Hnd IH]; intros s Hp Hk Hr.
  - simpl in Hr. simplify_eq. split; try done; [by intros t ?%elem_of_nil|].
    intros id. f_equal. unfold scheduled_in. simpl. lia.
  - simpl in Hr. apply rbind_Ok in Hr as (s1 & H1 & Hr).
    apply record_missed_spec in H1 as (id & r & i & Es & Er & Ei & Eid & []); [|done..].
    destruct (IH _ ss_pending0 ss_keyed0 Hr) as []. split; try done.
    + intros x [->|Hx]%elem_of_cons; [|by apply sm_slot0]. exists id. split; [done|].
      rewrite sm_other0 by done. rewrite ss_slot0. simpl. by rewrite decide_True.
    + intros x Hx. rewrite not_elem_of_cons in Hx. rewrite sm_other0 by apply Hx.
      rewrite ss_slot0. simpl. rewrite decide_False; [done|]. apply Hx.
    + intros id'. rewrite sm_missed0, scheduled_in_cons, ss_stat0, Es.
      destruct (decide (id' = ac_id r)) as [->|Hne].
      * rewrite decide_True by congruence. simpl. rewrite u32_add_l. f_equal.
        unfold stat. rewrite Eid, Er. simpl. rewrite Ei. simpl. lia.
      * rewrite decide_False by congruence. f_equal; lia.
    + intros id'. rewrite sm_produced0, ss_stat0. case_decide as Hd; [|done]. subst id'. simpl.
      unfold stat. rewrite Eid, Er. simpl. by rewrite Ei.
    + intros k. by rewrite sm_property0, ss_property0.
Qed.
Lemma slots_NoDup t n : NoDup (slots t n).
Proof.
  revert t. induction n as [|n IH]; intros t; simpl; constructor; [|done].
  rewrite elem_of_slots. intros (k & _ & E). change BTS_BLOCKCHAIN_BLOCK_INTERVAL_SEC with 10 in E. lia.
Qed.

Lemma record_produced_spec b id s s' :
  is_pending s → accounts_keyed s → record_produced b id s = Ok s' →
  ∃ r i, get_account_record id s = Some r ∧ ac_delegate_info r = Some i ∧ ac_id r = id ∧
    secret_revealed b i = true ∧
    slot_stored r (produced_stats b i)
      (SlotRecord (bh_timestamp (fb_head b)) id (Some (fb_id b))) s s'.
Proof.
  intros Hp Hk. unfold record_produced. intros Hr. apply rbind_Ok in Hr as ([r i] & Hi & Hr).
  apply pending_delegate_Ok in Hi as [Er Ei]. apply ensure_Ok in Hr as [Hs Hr].
  apply Ok_inj in Hr as <-. exists r, i. split_and!; try done; [by apply Hk|].
  by apply store_slot_spec.
Qed.

(** The slots between the head and the block: none before the first block. *)
Definition missed_slots b d : list Z :=
  let head := sbh_header (db_head_block_header d) in
  if 0 <? bh_block_num head
  then slots (bh_timestamp head + BTS_BLOCKCHAIN_BLOCK_INTERVAL_SEC)
         (Z.to_nat ((bh_timestamp (fb_head b) - bh_timestamp head)
                    / BTS_BLOCKCHAIN_BLOCK_INTERVAL_SEC - 1))
  else [].
(** Both times are the starts of slots, in order. *)
Definition slot_times b d : Prop :=
  let head := sbh_header (db_head_block_header d) in
  0 ≤ bh_timestamp (fb_head b) < 2 ^ 32 ∧
  (0 < bh_block_num head → 0 ≤ bh_timestamp head < bh_timestamp (fb_head b) ∧
     (bh_timestamp (fb_head b) - bh_timestamp head) mod BTS_BLOCKCHAIN_BLOCK_INTERVAL_SEC = 0).
Lemma missed_loop `{!FcLaws _} b d active conf s :
  slot_times b d → 0 ≤ conf < 2 ^ 32 →
  let l := missed_slots b d in
  record_all_missed (missed_fuel (first_missed b d) (bh_timestamp (fb_head b))) active
    (first_missed b d) (bh_timestamp (fb_head b)) conf d s
  = Some (let* s' := rfold (λ t s, record_missed active t d s) l s in
          Ok (conf + 2 * Z.of_nat (length l), s')).
Proof.
  intros [Hb Hh] Hc l. unfold l, first_missed, missed_slots.
  assert (BTS_BLOCKCHAIN_BLOCK_INTERVAL_SEC = 10) as E10 by reflexivity. rewrite E10 in *.
  set (p := bh_timestamp (fb_head b)) in *. set (h := bh_timestamp (sbh_header (db_head_block_header d))) in *.
  destruct (0 <? _) eqn:E.
  - destruct Hh as [Hh Hm]; [lia|]. apply Z.mod_divide in Hm as [q Hq]; [|done].
    assert (length (slots (h + 10) (Z.to_nat ((p - h) / 10 - 1))) = Z.to_nat (q - 1)) as El.
    { assert (∀ t n, length (slots t n) = n) as El by (intros t n; revert t; induction n; simpl; auto).
      rewrite El, Hq, Z.div_mul by done. done. }
    rewrite El. clear El.
    destruct (decide (h + 10 < 2 ^ 32)).
    + rewrite tps_add_spec by lia. unfold missed_fuel. rewrite E10.
      replace (p - (h + 10)) with ((q - 1) * 10) by lia. rewrite Hq, !Z.div_mul by done.
      replace (Z.to_nat (q - 1 + 1)) with (Z.to_nat (q - 1) + 1)%nat by lia.
      apply record_all_missed_fold; rewrite ?E10; lia.
    + lia.
  - unfold missed_fuel. rewrite Z.sub_diag. change (Z.to_nat (0 / _ + 1)) with 1%nat.
    cbn [record_all_missed]. rewrite Z.ltb_irrefl. simpl. do 3 f_equal. lia.
Qed.

Lemma length_slots t n : length (slots t n) = n.
Proof. revert t. induction n; intros t; simpl; auto. Qed.
Lemma missed_slots_bound b d : slot_times b d → Z.of_nat (length (missed_slots b d)) < 2 ^ 32.
Proof.
  intros [Hb Hh]. unfold missed_slots. case_match; [|simpl; lia]. rewrite length_slots.
  destruct Hh as [Hh _]; [lia|]. change BTS_BLOCKCHAIN_BLOCK_INTERVAL_SEC with 10.
  pose proof (Z.div_le_upper_bound (bh_timestamp (fb_head b)
    - bh_timestamp (sbh_header (db_head_block_header d))) 10 (2 ^ 32) ltac:(lia) ltac:(lia)).
  lia.
Qed.
Lemma missed_slots_before b d : slot_times b d → bh_timestamp (fb_head b) ∉ missed_slots b d.
Proof.
  intros [Hb Hh]. unfold missed_slots. case_match; [|by apply not_elem_of_nil].
  destruct Hh as [Hh Hm]; [lia|]. rewrite elem_of_slots. intros (k & Hk & E).
  change BTS_BLOCKCHAIN_BLOCK_INTERVAL_SEC with 10 in *.
  pose proof (Z.div_mod (bh_timestamp (fb_head b)
    - bh_timestamp (sbh_header (db_head_block_header d))) 10 ltac:(done)). lia.
Qed.
Lemma slots_missed_NoDup b d : NoDup (missed_slots b d).
Proof. unfold missed_slots. case_match; [apply slots_NoDup|constructor]. Qed.
Lemma clamp_confirmations_spec n : clamp_confirmations n = Z.max 1 (Z.min 303 n).
Proof.
  unfold clamp_confirmations. change (BTS_BLOCKCHAIN_NUM_DELEGATES * 3) with 303.
  change (3 * BTS_BLOCKCHAIN_NUM_DELEGATES) with 303.
  destruct (n <? 1) eqn:E1; cbv zeta; case_match; lia.
Qed.

(** C30 (slots_accounted). Every slot from the head block to the new block is
    accounted for: the block's own is recorded with its producer and the block,
    each one in between with the delegate that was scheduled and no block; each
    delegate is counted as many missed blocks as it had of those slots, the
    producer one more produced block; and the required confirmations grow by two
    for each missed slot and shrink by one for the block, between 1 and 303. *)
Theorem slots_accounted `{!FcLaws _} b key d s s' active conf delegate :
  is_pending s → accounts_keyed s → slot_times b d →
  get_active_delegates (Database d) = Ok active →
  get_delegate_record_for_signee key d = Ok delegate →
  get_required_confirmations s = Ok conf → 0 ≤ conf ≤ 303 →
  update_delegate_production_info b key d s = Ok s' →
  let missed := missed_slots b d in
  (∀ t, t ∈ missed → ∃ id, schedule_of active d t = Some id ∧
     get_slot_record t s' = Some (SlotRecord t id None)) ∧
  get_slot_record (bh_timestamp (fb_head b)) s'
    = Some (SlotRecord (bh_timestamp (fb_head b)) (ac_id delegate) (Some (fb_id b))) ∧
  (∀ id, u32 (stat ds_blocks_missed id s')
     = u32 (stat ds_blocks_missed id s + scheduled_in active d id missed)) ∧
  (∀ id, u32 (stat ds_blocks_produced id s')
     = u32 (stat ds_blocks_produced id s + if id =? ac_id delegate then 1 else 0)) ∧
  get_required_confirmations s'
    = Ok (Z.max 1 (Z.min 303 (conf + 2 * Z.of_nat (length missed) - 1))).
Proof.
  intros Hp Hk Ht Hact Hdel Hconf Hc Hr missed. unfold update_delegate_production_info in Hr.
  rewrite Hdel in Hr. cbn [rbind] in Hr. apply rbind_Ok in Hr as (s1 & H1 & Hr).
  apply record_produced_spec in H1 as (r & i & Er & Ei & Eid & _ & Hs1); [|done..]. destruct Hs1.
  assert (get_required_confirmations s1 = Ok conf) as Hconf1
    by (unfold get_required_confirmations in *; by rewrite ss_property0).
  rewrite Hconf1, Hact in Hr. cbn [rbind] in Hr.
  rewrite missed_loop in Hr by (done || lia). fold missed in Hr. cbn [default] in Hr.
  apply rbind_Ok in Hr as (x & Hx & Hr). apply rbind_Ok in Hx as (s2 & H2 & Hx).
  apply Ok_inj in Hx as <-. cbn [fst snd] in Hr. apply Ok_inj in Hr as <-.
  pose proof (missed_slots_bound b d Ht) as Hlen. fold missed in Hlen.
  apply record_slots_spec in H2 as []; [|apply slots_missed_NoDup|done..].
  assert (∀ k v, get_account_record k (set_property confirmation_requirement v s2)
    = get_account_record k s2) as Eacc by (by destruct s2).
  assert (∀ k v, get_slot_record k (set_property confirmation_requirement v s2)
    = get_slot_record k s2) as Eslot by (by destruct s2).
  split_and!.
  - intros t Hin. rewrite Eslot. by apply sm_slot0.
  - rewrite Eslot, sm_other0 by (by apply missed_slots_before). rewrite ss_slot0. simpl.
    by rewrite decide_True.
  - intros id. unfold stat at 1. rewrite Eacc. fold (stat ds_blocks_missed id s2).
    rewrite sm_missed0, ss_stat0. case_decide as Hd; [|done]. f_equal. f_equal. subst id.
    unfold stat. rewrite Eid, Er. simpl. by rewrite Ei.
  - intros id. unfold stat at 1. rewrite Eacc. fold (stat ds_blocks_produced id s2).
    rewrite sm_produced0, ss_stat0. case_decide as Hd.
    + subst id. rewrite Eid, Z.eqb_refl. unfold stat. rewrite Er. simpl. rewrite Ei. simpl.
      unfold u32. by rewrite Zmod_mod.
    + rewrite (proj2 (Z.eqb_neq _ _)) by congruence. f_equal. lia.
  - unfold get_required_confirmations.
    replace (get_property confirmation_requirement (set_property confirmation_requirement _ s2))
      with (Ok (v_int (clamp_confirmations (s64 (conf + 2 * Z.of_nat (length missed) - 1)))))
      by (destruct s2; [done|done|]; simpl; by rewrite lookup_insert_eq).
    simpl. rewrite clamp_confirmations_spec, s64_id by (unfold_int; lia). done.
Qed.

(** ** The header *)

(** A block's id, and so what its delegate
    signs, and the checks on its header do not depend on its transactions: the
    digest compared with the header's is that of no transactions at all, and the
    check that no transaction occurs twice looks at none.  Any list of
    transactions may take the place of a block's own. *)
Theorem header_ignores_transactions h trxs trxs' key d :
  fb_id (FullBlock h trxs') = fb_id (FullBlock h trxs) ∧
  verify_header (FullBlock h trxs') key d = verify_header (FullBlock h trxs) key d ∧
  (bh_transaction_digest (sbh_header h) ≠ sha256_of_sha512 (sha512 (pack_ids [])) →
   verify_header (FullBlock h trxs) key d ≠ Ok ()).
Proof.
  split; [done|]. split; [done|]. intros Hne. unfold verify_header. cbv zeta. intros Hr.
  do 5 apply ensure_Ok in Hr as [_ Hr]. apply ensure_Ok in Hr as [Hd _].
  unfold validate_digest, calculate_transaction_digest in Hd. simpl in Hd.
  apply Z.eqb_eq in Hd. congruence.
Qed.
End facts.
