(* ===== verification/BlockFunds.v ===== *)
(** A block conserves funds: the steps of [apply_block] of [Blocks] over the sums
    of [Supply], the markets by [MarketRuns] and the transactions by [Conserve]. *)
From S2P Require Export BlockFacts MarketRuns.

Section block_funds.
Context `{!Fc, !Crypto} (C : CryptoLaws _).
Implicit Types (b : full_block) (d : chain_database) (s : chain_state).
Definition untouched (_ : price) : Prop := False.

(** ** Steps that write no order and issue nothing *)
Lemma neutral_kept f g s :
  holds_no_funds g → funds_wf s → funds_kept untouched s (on_state f g s).
Proof.
  intros Hg Hwf. destruct (moved_neutral f g (view s) Hg Hwf) as [Hwf' E].
  split; [exact Hwf'| | |].
  - intros id. rewrite E. apply eq64_eq. lia.
  - intros k _. destruct Hwf as [Hp _]. destruct s as [|d|p prev]; [done|done|].
    destruct (Hg p) as (_ & _ & Eb & Ea & _). unfold get_bid_record, get_ask_record. simpl.
    by rewrite Eb, Ea.
  - intros id a'. destruct Hwf as [Hp _]. destruct s as [|d|p prev]; [done|done|].
    destruct (Hg p) as (Ea & _). unfold get_asset_record. simpl. rewrite Ea. eauto.
Qed.
Lemma account_kept r0 i0 i s :
  funds_wf s → get_account_record (ac_id r0) s = Some r0 → ac_delegate_info r0 = Some i0 →
  ds_pay_balance i = ds_pay_balance i0 →
  funds_kept untouched s (store_account_record (set_ac_delegate_info (Some i) r0) s).
Proof.
  intros Hwf Hr Hi Hpay.
  destruct (smoved_account_update r0 i0 i 0 s Hi ltac:(rewrite Hpay; apply eq64_eq; lia) Hr Hwf) as [Hwf' E].
  split; [exact Hwf'| | |].
  - intros id. change (es_current_state (view ?x)) with x in E. rewrite E. rewrite at_id_zero.
    apply eq64_eq. lia.
  - intros k _. destruct Hwf as [Hp _]. by destruct s.
  - intros id a'. rewrite (get_asset_store_account _ _ _ (proj1 Hwf)). eauto.
Qed.
Lemma property_kept k v s : funds_wf s → funds_kept untouched s (set_property k v s).
Proof. apply neutral_kept. done. Qed.
Lemma untouched_trans s s1 s2 :
  funds_kept untouched s s1 → funds_kept untouched s1 s2 → funds_kept untouched s s2.
Proof. apply funds_kept_trans. by intros p []. Qed.

(** ** The delegates *)
Lemma delegate_slot_kept id s x i slot :
  funds_wf s → pending_delegate id s = Ok x → ds_pay_balance i = ds_pay_balance x.2 →
  funds_kept untouched s
    (store_slot_record slot (store_account_record (set_ac_delegate_info (Some i) x.1) s)).
Proof.
  intros Hwf Hx Hi. apply pending_delegate_Ok in Hx as [Ea Ei].
  pose proof Hwf as [_ (_ & _ & Hk)]. rewrite <- (Hk _ _ Ea) in Ea.
  pose proof (account_kept x.1 x.2 i s Hwf Ea Ei Hi) as Hs.
  eapply untouched_trans; [exact Hs|]. apply neutral_kept; [done|apply Hs].
Qed.
Lemma record_produced_kept b id s s' :
  funds_wf s → record_produced b id s = Ok s' → funds_kept untouched s s'.
Proof.
  intros Hwf. unfold record_produced. intros Hr. apply rbind_Ok in Hr as (x & Hx & Hr).
  apply ensure_Ok in Hr as [_ Hr]. cbv zeta in Hr. apply Ok_inj in Hr as <-.
  by eapply delegate_slot_kept.
Qed.
Lemma record_missed_kept active t d s s' :
  funds_wf s → record_missed active t d s = Ok s' → funds_kept untouched s s'.
Proof.
  intros Hwf. unfold record_missed. intros Hr. apply rbind_Ok in Hr as (a & _ & Hr).
  apply rbind_Ok in Hr as (x & Hx & Hr). cbv zeta in Hr. apply Ok_inj in Hr as <-.
  by eapply delegate_slot_kept.
Qed.
Lemma record_all_missed_kept n active t t' c d s x :
  funds_wf s → record_all_missed n active t t' c d s = Some (Ok x) → funds_kept untouched s x.2.
Proof.
  revert t c s. induction n as [|n IH]; intros t c s Hwf; simpl;
    (destruct (t <? t'); [|intros [= <-]; by apply funds_kept_refl]); [done|].
  destruct (record_missed active t d s) as [s1|e] eqn:E; [|done]. intros Hr.
  pose proof (record_missed_kept _ _ _ _ _ Hwf E) as Hs.
  eapply untouched_trans; [exact Hs|]. eapply IH; [apply Hs|exact Hr].
Qed.
Lemma production_kept b key d s s' :
  funds_wf s → update_delegate_production_info b key d s = Ok s' → funds_kept untouched s s'.
Proof.
  intros Hwf. unfold update_delegate_production_info. intros Hr.
  apply rbind_Ok in Hr as (a & _ & Hr). apply rbind_Ok in Hr as (s1 & H1 & Hr).
  apply rbind_Ok in Hr as (c & _ & Hr). apply rbind_Ok in Hr as (active & _ & Hr).
  apply rbind_Ok in Hr as (x & Hx & Hr). apply Ok_inj in Hr as <-.
  apply record_produced_kept in H1; [|done].
  destruct (record_all_missed _ _ _ _ _ _ _) as [r|] eqn:E; [|done]. simpl in Hx. subst r.
  apply record_all_missed_kept in E; [|apply H1].
  eapply untouched_trans; [exact H1|]. eapply untouched_trans; [exact E|].
  apply property_kept, E.
Qed.
Lemma pay_kept key d s s' :
  funds_wf s → pay_delegate key d s = Ok s' → funds_kept untouched s s'.
Proof.
  intros Hwf Hr. destruct (pay_delegate_kept _ _ _ _ Hr Hwf) as [Hwf' E].
  split; [exact Hwf'| | |].
  { intros id. rewrite E. apply eq64_eq. lia. }
  all: clear Hwf' E; unfold pay_delegate in Hr; destruct Hwf as [Hp (_ & Hka & _)].
  all: apply rbind_Ok in Hr as (a & _ & Hr); apply rbind_Ok in Hr as (r & _ & Hr); cbv zeta in Hr.
  all: apply ensure_Ok in Hr as [_ Hr]; apply rbind_Ok in Hr as (m & _ & Hr).
  all: apply rbind_Ok in Hr as (base & Hb & Hr); apply of_option_Ok in Hb.
  all: apply rbind_Ok in Hr as (base' & Hb' & Hr); apply of_option_Ok in Hb'; apply Ok_inj in Hr as <-.
  - intros k _. by destruct s.
  - rewrite get_asset_store_account in Hb' by (by destruct s).
    assert (ar_id base = 0) as E0 by by apply Hka.
    rewrite <- E0 in Hb'. change (ar_id base) with (ar_id (set_ar_collected_fees 0 base)) in Hb'.
    destruct s as [|d'|p prev]; [done|done|].
    unfold get_asset_record in *. simpl in *. rewrite E0, lookup_insert_eq in Hb'.
    assert (base' = set_ar_collected_fees (s64 (ar_collected_fees base - m)) base) as -> by by simplify_eq.
    intros id a'. simpl. rewrite E0, !lookup_insert.
    case_decide; [|by eauto]. intros [= <-]. exists base. subst id. done.
Qed.

(** ** The markets *)
Lemma market_kept d t pair x x' :
  funds_wf x.2 → books_agree pair.1 pair.2 x.2 d →
  (∀ a, get_asset_record pair.1 x.2 = Some a → ar_is_market_issued a = false) →
  execute_market d t pair x = Ok x' → funds_kept (of_pair pair.1 pair.2) x.2 x'.2.
Proof.
  intros Hwf Hag Huser. unfold execute_market. intros Hr. apply ensure_Ok in Hr as [_ Hr].
  apply rbind_Ok in Hr as (r & He & Hr). apply Ok_inj in Hr as <-.
  exact (execute_kept C t x.2 d pair.1 pair.2 r Hwf Hag Huser He).
Qed.
Lemma markets_kept d t l x x' :
  NoDup l → funds_wf x.2 → (∀ pair, pair ∈ l → books_agree pair.1 pair.2 x.2 d) →
  (∀ pair a, pair ∈ l → get_asset_record pair.1 x.2 = Some a → ar_is_market_issued a = false) →
  rfold (execute_market d t) l x = Ok x' → funds_kept (λ _, True) x.2 x'.2.
Proof.
  revert x. induction l as [|pair l IH]; intros x Hnd Hwf Hag Huser Hr; simpl in Hr.
  { apply Ok_inj in Hr as <-. by apply funds_kept_refl. }
  apply NoDup_cons in Hnd as [Hnew Hnd]. apply rbind_Ok in Hr as (x1 & H1 & Hr).
  apply market_kept in H1; [|done|by apply Hag; left|by intros a; apply Huser; left].
  eapply (funds_kept_trans _ _ (λ _, True)); [done|exact H1|].
  apply IH; [done|apply H1| | |done].
  - intros pair' Hin k Hk. destruct (Hag pair' ltac:(by right) k Hk) as [Eb Ea].
    destruct (fk_orders _ _ _ H1 k) as [-> ->]; [|done].
    intros [E1 E2]. destruct Hk as [E1' E2']. apply Hnew. destruct pair, pair'. simpl in *. congruence.
  - intros pair' a Hin Ha. destruct (fk_issuer _ _ _ H1 _ _ Ha) as (a0 & Ha0 & ->).
    eapply Huser; [by right|done].
Qed.
Lemma market_list_NoDup m : NoDup (market_list m).
Proof. apply map_asc_NoDup. Qed.
Lemma elem_of_market_list pair m : pair ∈ market_list m ↔ pair ∈ m.
Proof.
  unfold market_list. rewrite list_elem_of_fmap. split.
  - intros ([p []] & -> & Hin). apply elem_of_map_asc, lookup_set_to_map in Hin as (y & Hy & E); [|done].
    simpl in *. congruence.
  - intros Hin. exists (pair, ()). split; [done|]. apply elem_of_map_asc, lookup_set_to_map; [done|].
    by exists pair.
Qed.
(** The markets a block runs: none of them issues its quote asset, and their
    orders are those of the database. *)
Definition markets_ready d s : Prop :=
  ∀ pair, pair ∈ get_dirty_markets (Database d) →
    books_agree pair.1 pair.2 s d ∧
    ∀ a, get_asset_record pair.1 s = Some a → ar_is_market_issued a = false.
Lemma markets_ready_kept d s s' : markets_ready d s → funds_kept untouched s s' → markets_ready d s'.
Proof.
  intros Hm Hk pair Hin. destruct (Hm pair Hin) as [Hag Huser]. split.
  - intros k Hp. destruct (fk_orders _ _ _ Hk k (λ f, f)) as [-> ->]. by apply Hag.
  - intros a' Ha. destruct (fk_issuer _ _ _ Hk _ _ Ha) as (a & Ha' & ->). by apply Huser.
Qed.
Lemma execute_markets_kept d t s s' :
  funds_wf s → markets_ready d s → execute_markets d t s = Ok s' → funds_kept (λ _, True) s s'.
Proof.
  intros Hwf Hm. unfold execute_markets. intros Hr. apply rbind_Ok in Hr as (x & Hx & Hr).
  apply Ok_inj in Hr as <-. apply markets_kept in Hx.
  - eapply (funds_kept_trans _ _ untouched); [done|exact Hx|]. apply neutral_kept; [done|apply Hx].
  - apply market_list_NoDup.
  - done.
  - intros pair Hin%elem_of_market_list. by apply Hm.
  - intros pair a Hin%elem_of_market_list. by apply Hm.
Qed.

(** ** The transactions

    Regular ones: each finds the keys free that it creates ([ops_regular]). *)
Fixpoint transactions_regular b d (l : list signed_transaction) (x : Z * chain_state) : Prop :=
  match l with
  | [] => True
  | t :: l' =>
      (∀ e, begin_evaluate t (db_skip_signature_verification d)
              (BTS_CHECK_CANONICAL_SIGNATURE_FORK_BLOCK_NUM <? bh_block_num (fb_head b))
              (eval_state_new x.2 (db_chain_id d)) = Ok e →
            ops_regular (tx_operations (st_trx t)) (set_es_current_op_index 0 e)) ∧
      ∀ x', apply_transaction b d t x = Ok x' → transactions_regular b d l' x'
  end.
Lemma evaluate_begins t skip canonical e e' :
  evaluate t skip canonical e = Ok e' → ∃ e0, begin_evaluate t skip canonical e = Ok e0.
Proof. unfold evaluate. intros Hr. apply rbind_Ok in Hr as (e0 & Hb & _). by exists e0. Qed.
(** A transaction record moves no funds and no slates. *)
Lemma store_transaction_on id r p prev s' :
  store_transaction id r (Pending p prev) = Ok s' →
  ∃ h, s' = Pending (h p) prev ∧ holds_no_funds h ∧ ∀ q, p_slates (h q) = p_slates q.
Proof.
  intros Hr. simpl in Hr. apply rbind_Ok in Hr as (p' & Hp & Hr). apply Ok_inj in Hr as <-.
  unfold p_store_transaction in Hp. cbv zeta in Hp. apply rbind_Ok in Hp as (p1 & Hp1 & Hp).
  apply Ok_inj in Hp as <-.
  set (h := λ q, foldl (λ p o, p_store_recent_operation o p) q (tx_operations (st_trx (tr_trx r)))).
  assert (holds_no_funds h ∧ ∀ q, p_slates (h q) = p_slates q) as [Hh Hs].
  { unfold h. generalize (tx_operations (st_trx (tr_trx r))) as l. intros l.
    induction l as [|o l [IH IH']] using rev_ind; [done|].
    split; intros q; rewrite foldl_app; [apply IH|apply IH']. }
  set (g1 := λ q, set_p_transactions (<[id := r]> (p_transactions p)) q).
  assert (p1 = g1 p ∨ ∃ u, p1 = set_p_unique_transactions u (g1 p)) as [->|[u ->]].
  { destruct prev; [left; by apply Ok_inj in Hp1|right..];
      apply rbind_Ok in Hp1 as (? & _ & Hp1); apply rbind_Ok in Hp1 as (? & _ & Hp1);
      apply rbind_Ok in Hp1 as (? & _ & Hp1);
      apply ensure_Ok in Hp1 as [_ Hp1]; apply Ok_inj in Hp1 as <-; by eexists. }
  - exists (λ q, h (g1 q)). split; [done|]. split; intros q; [apply (Hh (g1 q))|apply (Hs (g1 q))].
  - set (g2 := λ q, set_p_unique_transactions u (g1 q)). exists (λ q, h (g2 q)).
    split; [done|]. split; intros q; [apply (Hh (g2 q))|apply (Hs (g2 q))].
Qed.
Lemma store_transaction_kept id r s s' :
  funds_wf s → store_transaction id r s = Ok s' → funds_kept untouched s s'.
Proof.
  intros Hwf Hr. destruct s as [|d|p prev]; [by destruct Hwf..|].
  apply store_transaction_on in Hr as (h & -> & Hh & _). by apply (neutral_kept (λ d, d) h).
Qed.
Lemma apply_transaction_moves b d t x x' :
  (∀ e, begin_evaluate t (db_skip_signature_verification d)
          (BTS_CHECK_CANONICAL_SIGNATURE_FORK_BLOCK_NUM <? bh_block_num (fb_head b))
          (eval_state_new x.2 (db_chain_id d)) = Ok e →
        ops_regular (tx_operations (st_trx t)) (set_es_current_op_index 0 e)) →
  apply_transaction b d t x = Ok x' → smoved x.2 x'.2 (λ _, 0).
Proof.
  intros Hreg. unfold apply_transaction. intros Hr Hwf. apply rbind_Ok in Hr as (e & He & Hr).
  apply rbind_Ok in Hr as (s & Hs & Hr). apply Ok_inj in Hr as <-.
  change (es_current_state (view ?s)) with s in *. cbn [snd] in *.
  destruct (evaluate_begins _ _ _ _ _ He) as [b0 Hb].
  destruct (evaluate_moves _ _ _ _ _ _ Hb (Hreg _ Hb) He Hwf) as [Hwf1 E1].
  destruct (store_transaction_kept _ _ _ _ Hwf1 Hs) as [Hwf2 E2 _ _].
  split; [done|]. intros id. rewrite E2, !excess_view, E1. apply eq64_eq. simpl. lia.
Qed.
Lemma transactions_moved b d l x x' :
  transactions_regular b d l x → rfold (apply_transaction b d) l x = Ok x' → smoved x.2 x'.2 (λ _, 0).
Proof.
  revert x. induction l as [|t l IH]; intros x Hreg Hr; simpl in Hr.
  { apply Ok_inj in Hr as <-. by apply moved_same. }
  destruct Hreg as [Ht Hreg]. apply rbind_Ok in Hr as (x1 & H1 & Hr).
  eapply (smoved_seq x.2 x1.2); [by eapply apply_transaction_moves|by eapply IH, Hr; apply Hreg|].
  intros id. reflexivity.
Qed.

(** ** The block *)
Definition before_transactions b key d s : result chain_state :=
  let* s := update_delegate_production_info b key d s in
  let* s := pay_delegate key d s in
  execute_markets d (bh_timestamp (fb_head b)) s.
Lemma before_transactions_kept b key d s s' :
  funds_wf s → markets_ready d s → before_transactions b key d s = Ok s' →
  funds_kept (λ _, True) s s'.
Proof.
  intros Hwf Hm. unfold before_transactions. intros Hr.
  apply rbind_Ok in Hr as (s1 & H1 & Hr). apply production_kept in H1; [|done].
  apply rbind_Ok in Hr as (s2 & H2 & Hr). apply pay_kept in H2; [|apply H1].
  pose proof (untouched_trans _ _ _ H1 H2) as H12.
  apply execute_markets_kept in Hr; [|apply H12|by eapply markets_ready_kept].
  by eapply (funds_kept_trans _ untouched).
Qed.
Lemma fresh_wf d : keyed_tables (Database d) → funds_wf (Pending pending_chain_state_empty (Database d)).
Proof.
  intros (Hb & Ha & Hc). split; [done|]. split_and!; intros k r.
  - exact (Hb k r).
  - exact (Ha k r).
  - exact (Hc k r).
Qed.
Lemma fresh_ready d :
  (∀ pair a, pair ∈ get_dirty_markets (Database d) → db_assets d !! pair.1 = Some a →
     ar_is_market_issued a = false) →
  markets_ready d (Pending pending_chain_state_empty (Database d)).
Proof. intros Hu pair Hin. split; [done|]. intros a. by apply Hu. Qed.

End block_funds.
