(* ===== verification/Tidy.v ===== *)
(** Every record a block stores is stored under its own key.

    [tidy d s]: [s] is a pending state over the database [d] that holds its records
    under the keys they name and sets only properties [d] has.  The steps of a block keep this; [keeps Q m] says that what [m] returns,
    if it returns, satisfies [Q]. *)
From S2P Require Export ApplyUndo Blocks.

(** ** What a computation returns *)
Definition keeps {A} (Q : A → Prop) (m : result A) : Prop := ∀ a, m = Ok a → Q a.

Lemma keeps_Ok {A} (Q : A → Prop) a : Q a → keeps Q (Ok a).
Proof. by intros HQ a' [= <-]. Qed.
Lemma keeps_Err {A} (Q : A → Prop) e : keeps Q (Err e).
Proof. by intros a [=]. Qed.
Lemma keeps_bind {A B} (R : A → Prop) (Q : B → Prop) (m : result A) (k : A → result B) :
  keeps R m → (∀ a, R a → keeps Q (k a)) → keeps Q (rbind m k).
Proof. intros Hm Hk b (a & Ha & Hb)%rbind_Ok. by eapply Hk; [apply Hm|]. Qed.
Lemma keeps_any {A B} (Q : B → Prop) (m : result A) (k : A → result B) :
  (∀ a, m = Ok a → keeps Q (k a)) → keeps Q (rbind m k).
Proof. intros Hk b (a & Ha & Hb)%rbind_Ok. by eapply Hk. Qed.
Lemma keeps_assoc {A B C} (Q : C → Prop) (m : result A) (k : A → result B) (k' : B → result C) :
  keeps Q (rbind m (λ x, rbind (k x) k')) → keeps Q (rbind (rbind m k) k').
Proof. by destruct m. Qed.
Lemma keeps_rfold {A S} (P : S → Prop) (f : A → S → result S) l s :
  P s → (∀ x s, x ∈ l → P s → keeps P (f x s)) → keeps P (rfold f l s).
Proof.
  intros Hs Hf s' Hr. eapply (rfold_inv P f l s s'); [|done|done].
  intros x s1 s2 Hx H1 E. by eapply Hf.
Qed.
Lemma fold_map_inv {K V S} `{Countable K} (P : S → Prop) (f : K → V → S → S) (m : gmap K V) s :
  P s → (∀ k v s, m !! k = Some v → P s → P (f k v s)) → P (fold_map f m s).
Proof.
  intros Hs Hf. unfold fold_map.
  assert (∀ l, (∀ x, x ∈ l → m !! x.1 = Some x.2) → ∀ s, P s → P (foldl (λ s x, f x.1 x.2 s) s l)) as Hl.
  { induction l as [|x l IH]; intros Hx s' Hs'; [done|]. simpl. apply IH; [|apply Hf; [|done]].
    - intros y Hy. apply Hx. by apply list_elem_of_further.
    - apply Hx, list_elem_of_here. }
  apply Hl; [|done]. intros [k v] Hx. by apply elem_of_map_to_list.
Qed.

(** ** Tidy states *)
Section tidy.
Context `{!Fc, !Crypto}.
Implicit Types (d : chain_database) (s : chain_state) (e : transaction_evaluation_state)
  (p : pending_chain_state) (g : market_engine) (m : market_transaction).

Record tidy_pending d p : Prop := {
  ty_keyed : keyed p;
  ty_trx : trx_keyed p;
  ty_props k : is_Some (p_properties p !! k) → is_Some (db_properties d !! k)
}.
Definition tidy d s : Prop := ∃ p, s = Pending p (Database d) ∧ tidy_pending d p.

Lemma tidy_empty d : tidy_pending d pending_chain_state_empty.
Proof.
  split; [split|..]; unfold trx_keyed; simpl;
    try (intros k r Hr; by rewrite lookup_empty in Hr). intros k [v Hv]. by rewrite lookup_empty in Hv.
Qed.
Lemma tidy_first d : tidy d (Pending pending_chain_state_empty (Database d)).
Proof. eexists. split; [done|apply tidy_empty]. Qed.
(** A property that can be read is one the database has. *)
Lemma tidy_read d s k v : tidy d s → get_property k s = Ok v → is_Some (db_properties d !! k).
Proof.
  intros (p & -> & [_ _ Hp]) Hv. simpl in Hv. destruct (p_properties p !! k) eqn:E; [by apply Hp|].
  by apply of_option_Ok in Hv as ->.
Qed.

(** The stores of a pending state. *)
Lemma tidy_other d p p' :
  p_properties p' = p_properties p → p_assets p' = p_assets p → p_accounts p' = p_accounts p →
  p_balances p' = p_balances p → p_feeds p' = p_feeds p → p_transactions p' = p_transactions p →
  tidy_pending d p → tidy_pending d p'.
Proof.
  intros E1 E2 E3 E4 E5 E6 [[] Ht Hp]. split; [split|..]; unfold trx_keyed in *;
    rewrite ?E1, ?E2, ?E3, ?E4, ?E5, ?E6; auto.
Qed.
Lemma insert_keyed {V} `{Countable K} (P : K → V → Prop) (m : gmap K V) k v :
  P k v → (∀ k v, m !! k = Some v → P k v) → ∀ k' v', <[k := v]> m !! k' = Some v' → P k' v'.
Proof. intros Hv Hm k' v' [[<- <-]|[_ Hk]]%lookup_insert_Some; auto. Qed.
Ltac stored_one := intros [[] Ht Hp]; split; [split|..]; simpl; try done;
  by apply (insert_keyed (λ k r, _ r = k)).
Lemma tidy_p_asset d r p : tidy_pending d p → tidy_pending d (p_store_asset_record r p).
Proof. stored_one. Qed.
Lemma tidy_p_balance d r p : tidy_pending d p → tidy_pending d (p_store_balance_record r p).
Proof. stored_one. Qed.
Lemma tidy_p_account d r p : tidy_pending d p → tidy_pending d (p_store_account_record r p).
Proof. stored_one. Qed.
Lemma tidy_p_feed d r p : tidy_pending d p → tidy_pending d (p_set_feed r p).
Proof. stored_one. Qed.
Lemma tidy_p_property d k v p :
  is_Some (db_properties d !! k) → tidy_pending d p → tidy_pending d (p_set_property k v p).
Proof.
  intros Hk [[] Ht Hp]. split; [split|..]; simpl; try done.
  intros k' [v' [[<- _]|[_ Hk']]%lookup_insert_Some]; eauto.
Qed.
Lemma tidy_recent d l p :
  tidy_pending d p → tidy_pending d (foldl (λ p o, p_store_recent_operation o p) p l).
Proof. revert p. induction l as [|o l IH]; intros p Hp; [done|]. by apply IH, (tidy_other d p). Qed.
Lemma tidy_p_transaction d k r p prev :
  tr_is_null r = true ∨ trx_id (tr_trx r) = k → tidy_pending d p →
  keeps (tidy_pending d) (p_store_transaction k r p prev).
Proof.
  intros Hk Hp. assert (tidy_pending d (set_p_transactions (<[k := r]> (p_transactions p)) p)) as H1.
  { destruct Hp as [[] Ht Hp]. split; [split|..]; simpl; try done.
    exact (insert_keyed (λ k r, tr_is_null r = true ∨ trx_id (tr_trx r) = k) _ _ _ Hk Ht). }
  unfold p_store_transaction. cbv zeta. apply (keeps_bind (tidy_pending d)).
  - destruct prev; [by apply keeps_Ok|..]; apply keeps_any; intros ? _; apply keeps_any; intros ? _;
      apply keeps_any; intros ? _; intros p' (_ & E)%ensure_Ok; injection E as <-;
      by eapply tidy_other; [..|exact H1].
  - intros p' Hp'. by apply keeps_Ok, tidy_recent.
Qed.

(** The stores of a state. *)
Lemma tidy_on d s f h :
  (∀ p, tidy_pending d p → tidy_pending d (h p)) → tidy d s → tidy d (on_state f h s).
Proof. intros Hf (p & -> & Hp). exists (h p). split; [done|by apply Hf]. Qed.
Lemma tidy_asset d r s : tidy d s → tidy d (store_asset_record r s).
Proof. apply tidy_on. intros. by apply tidy_p_asset. Qed.
Lemma tidy_balance d r s : tidy d s → tidy d (store_balance_record r s).
Proof. apply tidy_on. intros. by apply tidy_p_balance. Qed.
Lemma tidy_account d r s : tidy d s → tidy d (store_account_record r s).
Proof. apply tidy_on. intros. by apply tidy_p_account. Qed.
Lemma tidy_feed d r s : tidy d s → tidy d (set_feed r s).
Proof. apply tidy_on. intros. by apply tidy_p_feed. Qed.
Lemma tidy_property d k v s :
  is_Some (db_properties d !! k) → tidy d s → tidy d (set_property k v s).
Proof. intros Hk. apply tidy_on. intros. by apply tidy_p_property. Qed.
Lemma tidy_bid d k r s : tidy d s → tidy d (store_bid_record k r s).
Proof. apply tidy_on. intros p. by apply tidy_other. Qed.
Lemma tidy_ask d k r s : tidy d s → tidy d (store_ask_record k r s).
Proof. apply tidy_on. intros p. by apply tidy_other. Qed.
Lemma tidy_short d k r s : tidy d s → tidy d (store_short_record k r s).
Proof. apply tidy_on. intros p. by apply tidy_other. Qed.
Lemma tidy_collateral d k r s : tidy d s → tidy d (store_collateral_record k r s).
Proof. apply tidy_on. intros p. by apply tidy_other. Qed.
Lemma tidy_slate d k r s : tidy d s → tidy d (store_delegate_slate k r s).
Proof. apply tidy_on. intros p. by apply tidy_other. Qed.
Lemma tidy_slot d r s : tidy d s → tidy d (store_slot_record r s).
Proof. apply tidy_on. intros p. by apply tidy_other. Qed.
Lemma tidy_history d k r s : tidy d s → tidy d (store_market_history_record k r s).
Proof. apply tidy_on. intros p. by apply tidy_other. Qed.
Lemma tidy_status d r s : tidy d s → tidy d (store_market_status r s).
Proof. apply tidy_on. intros p. by apply tidy_other. Qed.
Lemma tidy_burn d k r s : tidy d s → tidy d (store_burn_record k r s).
Proof. apply tidy_on. intros p. by apply tidy_other. Qed.
Lemma tidy_operation d o s : tidy d s → tidy d (store_recent_operation o s).
Proof. apply tidy_on. intros p. by apply tidy_other. Qed.
Lemma tidy_trades d l s : tidy d s → tidy d (set_market_transactions l s).
Proof. apply tidy_on. intros p. by apply tidy_other. Qed.
Lemma tidy_transaction d k r s :
  tr_is_null r = true ∨ trx_id (tr_trx r) = k → tidy d s → keeps (tidy d) (store_transaction k r s).
Proof.
  intros Hk (p & -> & Hp). unfold store_transaction.
  apply (keeps_bind (tidy_pending d)); [by apply tidy_p_transaction|]. intros p' Hp'.
  apply keeps_Ok. by exists p'.
Qed.
End tidy.
Create HintDb tidy.
#[export] Hint Resolve tidy_asset tidy_balance tidy_account tidy_feed tidy_bid tidy_ask tidy_short
  tidy_collateral tidy_slate tidy_slot tidy_history tidy_status tidy_burn tidy_operation
  tidy_trades : tidy.

(** [walk]: through the binds and branches of a computation, whose calls are
    covered by the lemmas of [tidy] or return nothing that matters. *)
Ltac walk :=
  intros; cbv beta zeta in *;
  lazymatch goal with
  | |- keeps _ (Ok _) => apply keeps_Ok; simpl; try solve [eauto with tidy nocore]
  | |- keeps _ (Err _) => apply keeps_Err
  | |- keeps _ (rbind (Ok _) _) => cbn [rbind]; walk
  | |- keeps _ (rbind (Err _) _) => apply keeps_Err
  | |- keeps _ (rbind (match ?x with _ => _ end) _) => destruct x eqn:?; walk
  | |- keeps _ (rbind (rbind _ _) _) => apply keeps_assoc; walk
  | |- keeps _ (rbind _ _) =>
      first [eapply keeps_bind; [solve [eauto with tidy nocore]|]; walk
            |apply keeps_any; walk]
  | |- keeps _ (match ?x with _ => _ end) => destruct x eqn:?; walk
  | |- _ => try solve [eauto with tidy nocore]
  end.

(** ** Transactions *)
Section operations.
Context `{!Fc, !Crypto}.
Implicit Types (d : chain_database) (t : signed_transaction) (s : chain_state) (e : transaction_evaluation_state).

(** Over a tidy state, and evaluating [t]. *)
Definition tidy_eval d t e : Prop := tidy d (es_current_state e) ∧ es_trx e = t.
Lemma tidy_state d t e : tidy_eval d t e → tidy d (es_current_state e).
Proof. by intros []. Qed.
Lemma tidy_set d t s e : tidy d s → tidy_eval d t e → tidy_eval d t (set_es_current_state s e).
Proof. by intros ? []. Qed.
Lemma tidy_current d t f e :
  (∀ s, tidy d s → tidy d (f s)) → tidy_eval d t e → tidy_eval d t (on_current_state f e).
Proof. intros Hf []. split; [by apply Hf|done]. Qed.
Lemma keeps_same d t (m : result transaction_evaluation_state) e :
  (∀ e', m = Ok e' → es_current_state e' = es_current_state e ∧ es_trx e' = es_trx e) →
  tidy_eval d t e → keeps (tidy_eval d t) m.
Proof. intros Hm [He Ht] e' He'. destruct (Hm e' He') as [E1 E2]. split; congruence. Qed.
Lemma tidy_new_account d s : tidy d s → keeps (λ x, tidy d x.2) (new_account_id s).
Proof.
  intros Hs. unfold new_account_id. apply keeps_any. intros id Hid. apply keeps_Ok. simpl.
  apply tidy_property; [|done]. unfold last_account_id in Hid.
  apply rbind_Ok in Hid as (v & Hv & _). by eapply tidy_read.
Qed.
Lemma tidy_dirty d q b s : tidy d s → keeps (tidy d) (set_market_dirty q b s).
Proof.
  intros (p & -> & Hp). apply keeps_Ok. eexists. split; [done|]. by eapply tidy_other; [..|exact Hp].
Qed.
Lemma tidy_sub d t o a e : tidy_eval d t e → keeps (tidy_eval d t) (sub_balance o a e).
Proof. apply keeps_same. intros e' Hr. unfold sub_balance in Hr. by res_inv Hr. Qed.
Lemma tidy_add d t a e : tidy_eval d t e → keeps (tidy_eval d t) (add_balance a e).
Proof. apply keeps_same. intros e' Hr. unfold add_balance in Hr. by res_inv Hr. Qed.
Lemma tidy_adjust d t o a e : tidy_eval d t e → keeps (tidy_eval d t) (adjust_vote o a e).
Proof.
  apply keeps_same. intros e' Hr. unfold adjust_vote in Hr.
  destruct (o =? 0); by res_inv Hr.
Qed.
Lemma tidy_required d t o a e : tidy_eval d t e → keeps (tidy_eval d t) (add_required_deposit o a e).
Proof. apply keeps_same. intros e' Hr. unfold add_required_deposit in Hr. by res_inv Hr. Qed.
Lemma tidy_fee d t x e : tidy_eval d t e → keeps (tidy_eval d t) (require_fee x e).
Proof. apply keeps_same. intros e' Hr. unfold require_fee in Hr. by res_inv Hr. Qed.
End operations.
#[export] Hint Resolve tidy_sub tidy_add tidy_adjust tidy_required tidy_fee tidy_new_account
  tidy_dirty : tidy.
#[export] Hint Extern 5 (tidy_eval _ _ (on_current_state _ _)) => apply tidy_current; [intros|] : tidy.
#[export] Hint Resolve tidy_state tidy_set : tidy.
#[export] Hint Extern 5 (tidy_eval _ _ (add_yield _ _ _)) => eassumption : tidy.
#[export] Hint Extern 5 (tidy_eval _ _ (set_es_net_delegate_votes _ _)) => eassumption : tidy.

Section operations.
Context `{!Fc, !Crypto}.
Implicit Types (d : chain_database) (t : signed_transaction) (s : chain_state) (e : transaction_evaluation_state).
Lemma tidy_deposit d t a c e : tidy_eval d t e → keeps (tidy_eval d t) (deposit_evaluate a c e).
Proof. unfold deposit_evaluate. walk. Qed.
Lemma tidy_check_condition d t c a data e :
  tidy_eval d t e → keeps (tidy_eval d t) (check_withdraw_condition c a data e).
Proof. unfold check_withdraw_condition, check_option. walk. Qed.
Lemma tidy_yield d t r a now e :
  tidy_eval d t e → keeps (λ x, tidy_eval d t x.2) (pay_yield r a now e).
Proof. unfold pay_yield. walk. Qed.
End operations.
#[export] Hint Resolve tidy_deposit tidy_check_condition tidy_yield : tidy.

Section operations.
Context `{!Fc, !Crypto}.
Implicit Types (d : chain_database) (t : signed_transaction) (s : chain_state) (e : transaction_evaluation_state).
Lemma tidy_withdraw d t id a data e :
  tidy_eval d t e → keeps (tidy_eval d t) (withdraw_evaluate id a data e).
Proof. unfold withdraw_evaluate. walk. Qed.
Lemma tidy_claim d t id a src dst sig e :
  tidy_eval d t e → keeps (tidy_eval d t) (claim_evaluate id a src dst sig e).
Proof. unfold claim_evaluate, withdraw_claim_input. walk. Qed.
Lemma tidy_define_slate d t sl e :
  tidy_eval d t e → keeps (tidy_eval d t) (define_delegate_slate_evaluate sl e).
Proof. unfold define_delegate_slate_evaluate. walk. Qed.
Lemma tidy_burn_op d t a id msg sig e :
  tidy_eval d t e → keeps (tidy_eval d t) (burn_evaluate a id msg sig e).
Proof. unfold burn_evaluate. walk. Qed.
Lemma tidy_delegate_fee d t x e : tidy_eval d t e → keeps (tidy_eval d t) (require_delegate_fee x e).
Proof. unfold require_delegate_fee. walk. Qed.
End operations.
#[export] Hint Resolve tidy_withdraw tidy_claim tidy_define_slate tidy_burn_op tidy_delegate_fee : tidy.

Section operations.
Context `{!Fc, !Crypto}.
Implicit Types (d : chain_database) (t : signed_transaction) (s : chain_state) (e : transaction_evaluation_state).
Lemma tidy_delegate_info d t x r e :
  tidy_eval d t e → keeps (λ y, tidy_eval d t y.2) (update_delegate_info x r e).
Proof. unfold update_delegate_info. walk. Qed.
Lemma tidy_funds d t a delta c e :
  tidy_eval d t e → keeps (λ y, tidy_eval d t y.2) (move_order_funds a delta c e).
Proof. unfold move_order_funds. walk. Qed.
End operations.
#[export] Hint Resolve tidy_delegate_info tidy_funds : tidy.

Section evaluation.
Context `{!Fc, !Crypto}.
Implicit Types (d : chain_database) (t : signed_transaction) (s : chain_state) (e : transaction_evaluation_state).
Lemma tidy_register d t n v o a x i e :
  tidy_eval d t e → keeps (tidy_eval d t) (register_account_evaluate n v o a x i e).
Proof. unfold register_account_evaluate. walk. Qed.
Lemma tidy_update d t id v k x e :
  tidy_eval d t e → keeps (tidy_eval d t) (update_account_evaluate id v k x e).
Proof. unfold update_account_evaluate. walk. Qed.
Lemma tidy_pay d t x id e : tidy_eval d t e → keeps (tidy_eval d t) (withdraw_pay_evaluate x id e).
Proof. unfold withdraw_pay_evaluate. walk. Qed.
Lemma tidy_update_feed d t f v e : tidy_eval d t e → keeps (tidy_eval d t) (update_feed_evaluate f v e).
Proof. unfold update_feed_evaluate. walk. Qed.
Lemma tidy_bid_op d t a k e : tidy_eval d t e → keeps (tidy_eval d t) (bid_evaluate a k e).
Proof. unfold bid_evaluate. walk. Qed.
Lemma tidy_ask_op d t a k e : tidy_eval d t e → keeps (tidy_eval d t) (ask_evaluate a k e).
Proof. unfold ask_evaluate. walk. Qed.
Lemma tidy_short_op d t a k x e : tidy_eval d t e → keeps (tidy_eval d t) (short_evaluate a k x e).
Proof. unfold short_evaluate. walk. Qed.
Lemma tidy_settle d t a k x e :
  tidy_eval d t e → keeps (λ y, tidy_eval d t y.2) (cover_settle a k x e).
Proof. unfold cover_settle. walk. Qed.
Lemma tidy_reindex d t k x c e : tidy_eval d t e → keeps (tidy_eval d t) (reindex_cover k x c e).
Proof. unfold reindex_cover. walk. Qed.
Lemma tidy_cover d t a k x e : tidy_eval d t e → keeps (tidy_eval d t) (cover_evaluate a k x e).
Proof.
  intros He. unfold cover_evaluate. eapply keeps_bind; [by apply tidy_settle|].
  intros y Hy. by apply tidy_reindex.
Qed.
Lemma tidy_add_settle d t a k e :
  tidy_eval d t e → keeps (λ y, tidy_eval d t y.2) (add_collateral_settle a k e).
Proof. unfold add_collateral_settle. walk. Qed.
Lemma tidy_add_collateral d t a k e : tidy_eval d t e → keeps (tidy_eval d t) (add_collateral_evaluate a k e).
Proof.
  intros He. unfold add_collateral_evaluate. eapply keeps_bind; [by apply tidy_add_settle|]. walk.
Qed.
Lemma tidy_operation_run d t o e : tidy_eval d t e → keeps (tidy_eval d t) (evaluate_operation o e).
Proof.
  intros He. unfold evaluate_operation. destruct o; eauto using tidy_withdraw, tidy_deposit,
    tidy_register, tidy_update, tidy_pay, tidy_bid_op, tidy_ask_op, tidy_short_op, tidy_cover,
    tidy_add_collateral, tidy_define_slate, tidy_update_feed, tidy_burn_op, tidy_claim;
    try apply keeps_Err; by intros e' [=].
Qed.
Lemma tidy_begin d t skip canonical e :
  tidy d (es_current_state e) → keeps (tidy_eval d t) (begin_evaluate t skip canonical e).
Proof. intros He. unfold begin_evaluate. walk; by split. Qed.
Lemma tidy_post d t e : tidy_eval d t e → keeps (tidy_eval d t) (post_evaluate e).
Proof.
  intros He. unfold post_evaluate. cbv zeta.
  apply (keeps_bind (tidy_eval d t)); [apply keeps_rfold; [exact He|]|].
  { intros x e1 _ He1. unfold alt_fee. walk. }
  intros e1 He1. apply (keeps_bind (tidy_eval d t)); [apply keeps_rfold; [exact He1|]|].
  { intros x e2 _ He2. unfold collect_fee. walk. }
  intros e2 He2. apply keeps_rfold; [exact He2|].
  intros x e3 _ He3. unfold check_required_deposit. walk.
Qed.
Lemma tidy_votes d t e : tidy_eval d t e → keeps (tidy_eval d t) (update_delegate_votes e).
Proof.
  intros He. unfold update_delegate_votes. apply keeps_rfold; [done|].
  intros x e1 _ He1. walk.
Qed.
Lemma tidy_evaluate d t skip canonical e :
  tidy d (es_current_state e) → keeps (tidy_eval d t) (evaluate t skip canonical e).
Proof.
  intros He. unfold evaluate. eapply keeps_bind; [by apply tidy_begin|]. intros e1 H1.
  eapply keeps_bind; [|intros e2 H2; eapply keeps_bind; [by apply tidy_post|]].
  { unfold evaluate_operations. apply (keeps_rfold (tidy_eval d t)); [exact H1|].
    intros o e2 _ H2. eapply keeps_bind; [by apply tidy_operation_run|]. intros e3 H3. by apply keeps_Ok. }
  intros e3 H3. apply keeps_any. intros _ _. by apply tidy_votes.
Qed.
End evaluation.

(** ** Markets *)
Definition tidy_engine `{!Crypto} (d : chain_database) (g : market_engine) : Prop :=
  tidy_pending d (me_pending g) ∧ tidy d (me_prior g).
#[export] Hint Extern 6 (tidy_engine _ _) => eassumption : tidy.

Section engine.
Context `{!Fc, !Crypto}.
Implicit Types (d : chain_database) (s : chain_state) (g : market_engine) (m : market_transaction)
  (p : pending_chain_state).

Lemma tidy_on_pending d f g :
  (∀ p, tidy_pending d p → tidy_pending d (f p)) → tidy_engine d g → tidy_engine d (on_pending f g).
Proof. intros Hf [Hg Hp]. split; [by apply Hf|done]. Qed.
Lemma tidy_m_asset d r g : tidy_engine d g → tidy_engine d (on_pending (p_store_asset_record r) g).
Proof. apply tidy_on_pending. intros. by apply tidy_p_asset. Qed.
Lemma tidy_m_balance d r g : tidy_engine d g → tidy_engine d (on_pending (p_store_balance_record r) g).
Proof. apply tidy_on_pending. intros. by apply tidy_p_balance. Qed.
Lemma tidy_m_bid d k r g : tidy_engine d g → tidy_engine d (on_pending (p_store_bid_record k r) g).
Proof. apply tidy_on_pending. intros p. by apply tidy_other. Qed.
Lemma tidy_m_ask d k r g : tidy_engine d g → tidy_engine d (on_pending (p_store_ask_record k r) g).
Proof. apply tidy_on_pending. intros p. by apply tidy_other. Qed.
Lemma tidy_m_short d k r g : tidy_engine d g → tidy_engine d (on_pending (p_store_short_record k r) g).
Proof. apply tidy_on_pending. intros p. by apply tidy_other. Qed.
Lemma tidy_m_collateral d k r g :
  tidy_engine d g → tidy_engine d (on_pending (p_store_collateral_record k r) g).
Proof. apply tidy_on_pending. intros p. by apply tidy_other. Qed.
Lemma tidy_m_history d k r g :
  tidy_engine d g → tidy_engine d (on_pending (p_store_market_history_record k r) g).
Proof. apply tidy_on_pending. intros p. by apply tidy_other. Qed.
Lemma tidy_m_status d r g : tidy_engine d g → tidy_engine d (on_pending (p_store_market_status r) g).
Proof. apply tidy_on_pending. intros p. by apply tidy_other. Qed.
Lemma tidy_m_current_bid d o g : tidy_engine d g → tidy_engine d (set_me_current_bid o g).
Proof. done. Qed.
Lemma tidy_m_current_ask d o g : tidy_engine d g → tidy_engine d (set_me_current_ask o g).
Proof. done. Qed.
Lemma tidy_m_current_collat d o g : tidy_engine d g → tidy_engine d (set_me_current_collat o g).
Proof. done. Qed.
End engine.
#[export] Hint Resolve tidy_m_asset tidy_m_balance tidy_m_bid tidy_m_ask tidy_m_short
  tidy_m_collateral tidy_m_history tidy_m_status tidy_m_current_bid tidy_m_current_ask
  tidy_m_current_collat : tidy.

Section engine.
Context `{!Fc, !Crypto}.
Implicit Types (d : chain_database) (s : chain_state) (g : market_engine) (m : market_transaction).
Lemma tidy_next_short d g : tidy_engine d g → keeps (λ x, tidy_engine d x.2) (get_next_short g).
Proof. unfold get_next_short. walk. Qed.
Lemma tidy_pay_owner d o id x g : tidy_engine d g → keeps (tidy_engine d) (pay_owner o id x g).
Proof. unfold pay_owner. walk. Qed.
Lemma tidy_push_trade d m g : tidy_engine d g → keeps (tidy_engine d) (push_market_transaction m g).
Proof. unfold push_market_transaction. walk. Qed.
Lemma tidy_fetch_cover d g : tidy_engine d g → keeps (λ x, tidy_engine d x.2) (fetch_cover g).
Proof. unfold fetch_cover. walk. Qed.
Lemma tidy_fetch_ask d g : tidy_engine d g → keeps (λ x, tidy_engine d x.2) (fetch_ask g).
Proof. unfold fetch_ask. walk. Qed.
End engine.
#[export] Hint Resolve tidy_next_short tidy_pay_owner tidy_push_trade tidy_fetch_cover
  tidy_fetch_ask : tidy.

Section engine.
Context `{!Fc, !Crypto}.
Implicit Types (d : chain_database) (s : chain_state) (g : market_engine) (m : market_transaction).
Lemma tidy_next_bid d g : tidy_engine d g → keeps (λ x, tidy_engine d x.2) (get_next_bid g).
Proof. unfold get_next_bid, fetch_bid. walk. Qed.
Lemma tidy_next_ask d g : tidy_engine d g → keeps (λ x, tidy_engine d x.2) (get_next_ask g).
Proof. unfold get_next_ask. walk. Qed.
Lemma tidy_pay_short d m q b g :
  tidy_engine d g → keeps (λ x, tidy_engine d x.2) (pay_current_short m q b g).
Proof. unfold pay_current_short. walk. Qed.
Lemma tidy_pay_bid d m q g : tidy_engine d g → keeps (λ x, tidy_engine d x.2) (pay_current_bid m q g).
Proof. unfold pay_current_bid. walk. Qed.
Lemma tidy_pay_ask d m b g : tidy_engine d g → keeps (λ x, tidy_engine d x.2) (pay_current_ask m b g).
Proof. unfold pay_current_ask. walk. Qed.
Lemma tidy_return d o c m g :
  tidy_engine d g → keeps (λ x, tidy_engine d x.2) (return_collateral o c m g).
Proof. unfold return_collateral. walk. Qed.
End engine.
#[export] Hint Resolve tidy_next_bid tidy_next_ask tidy_pay_short tidy_pay_bid tidy_pay_ask
  tidy_return : tidy.

Section matching.
Context `{!Fc, !Crypto}.
Implicit Types (d : chain_database) (s : chain_state) (g : market_engine) (m : market_transaction)
  (p : pending_chain_state) (l : match_locals).
Lemma tidy_pay_cover d m q g :
  tidy_engine d g → keeps (λ x, tidy_engine d x.2) (pay_current_cover m q g).
Proof. unfold pay_current_cover. walk. Qed.
Lemma tidy_trade d bid ask m q b g :
  tidy_engine d g → keeps (λ x, tidy_engine d x.2) (execute_trade bid ask m q b g).
Proof. pose proof tidy_pay_cover. unfold execute_trade. walk. Qed.
Lemma tidy_make_trade d bid ask m l :
  tidy_engine d (ml_engine l) → keeps (λ l', tidy_engine d (ml_engine l')) (make_trade bid ask m l).
Proof. pose proof tidy_trade. unfold make_trade. walk. Qed.
Lemma tidy_match_step d l :
  tidy_engine d (ml_engine l) → keeps (λ x, tidy_engine d (ml_engine x.2)) (match_step l).
Proof. pose proof tidy_make_trade. unfold match_step. walk. Qed.
Lemma tidy_match d n l :
  tidy_engine d (ml_engine l) →
  keeps (λ l', tidy_engine d (ml_engine l')) (default (Err undefined) (match_orders n l)).
Proof.
  revert l. induction n as [|n IH]; intros l Hl; simpl; [apply keeps_Err|].
  pose proof (tidy_match_step d l Hl) as Hs. destruct (match_step l) as [[[] l']|e]; simpl.
  - apply IH. by apply (Hs (true, l')).
  - apply keeps_Ok. by apply (Hs (false, l')).
  - apply keeps_Err.
Qed.
Lemma tidy_run_market d q b g :
  tidy_engine d g → keeps (λ l, tidy_engine d (ml_engine l)) (run_market q b g).
Proof. pose proof tidy_match. unfold run_market. walk. Qed.
Lemma tidy_period d gr x t r g : tidy_engine d g → tidy_engine d (update_period gr x t r g).
Proof. unfold update_period. intros Hg. repeat case_match; eauto with tidy. Qed.
Lemma tidy_block_entry d t r g : tidy_engine d g → tidy_engine d (update_block t r g).
Proof.
  unfold update_block. intros Hg. destruct (match _ with Some k => _ | None => false end);
    eauto with tidy.
Qed.
Lemma tidy_update_history d v o c t g :
  tidy_engine d g → keeps (tidy_engine d) (update_market_history v o c t g).
Proof. unfold update_market_history. walk. by apply tidy_period, tidy_period, tidy_block_entry. Qed.

(** Applying a tidy state to a tidy state; the property [dirty_markets] is set on
    the way, so the database has to have it. *)
Lemma tidy_apply d p s :
  is_Some (db_properties d !! dirty_markets_prop) → tidy_pending d p → tidy d s →
  keeps (tidy d) (apply_changes p s).
Proof.
  intros Hd [Hk Ht Hp] Hs. unfold apply_changes. pose proof Hs as (p' & -> & _).
  apply (keeps_bind (tidy d)).
  - apply keeps_rfold.
    + unfold apply_tables. repeat apply fold_map_inv; eauto using tidy_property with tidy.
    + intros [k r] s' Hx Hs'. apply tidy_transaction; [|done]. by apply Ht, elem_of_map_to_list.
  - intros s' Hs'. apply keeps_Ok. unfold apply_rest, set_dirty_markets.
    apply tidy_property; [done|]. apply tidy_trades. apply fold_map_inv; [|eauto with tidy].
    apply fold_map_inv; [repeat apply fold_map_inv; eauto with tidy|].
    intros k l s1 _. revert s1. induction l as [|o l IH]; intros s1 H1; [done|].
    simpl. apply IH. by apply tidy_operation.
Qed.
Lemma tidy_finish d t l :
  is_Some (db_properties d !! dirty_markets_prop) → tidy_engine d (ml_engine l) →
  keeps (λ x, tidy d x.2) (finish_market t l).
Proof.
  intros Hd Hl. unfold finish_market. cbv zeta. apply keeps_any. intros st _.
  apply (keeps_bind (tidy_engine d)); [apply tidy_update_history; eauto with tidy|].
  intros g [Hg Hp]. apply (keeps_bind (tidy d)); [by apply tidy_apply|].
  intros s Hs. by apply keeps_Ok.
Qed.
Lemma tidy_fail d e g : tidy_engine d g → keeps (λ x, tidy d x.2) (fail_market e g).
Proof.
  intros [_ Hg]. unfold fail_market. apply keeps_any. intros st _. apply keeps_Ok. by apply tidy_status.
Qed.
Lemma tidy_execute d t g :
  is_Some (db_properties d !! dirty_markets_prop) → tidy_engine d g →
  keeps (λ x, tidy d x.2) (execute t g).
Proof.
  intros Hd Hg. unfold execute.
  assert (keeps (λ x, tidy_engine d x.2) (open_books g)) as Ho by (unfold open_books; walk).
  destruct (open_books g) as [[[q b] g']|e]; [|by apply tidy_fail].
  specialize (Ho _ eq_refl). simpl in Ho.
  assert (keeps (λ x, tidy d x.2) (let* l := run_market q b g' in finish_market t l)) as Hr.
  { eapply keeps_bind; [by apply tidy_run_market|]. intros l Hl. by apply tidy_finish. }
  destruct (let* l := run_market q b g' in finish_market t l) as [r|e]; [|by apply tidy_fail].
  apply keeps_Ok. by apply Hr.
Qed.
Lemma tidy_markets d t s : tidy d s → keeps (tidy d) (execute_markets d t s).
Proof.
  intros Hs. unfold execute_markets.
  destruct (db_properties d !! dirty_markets_prop) as [v|] eqn:Ev.
  - apply (keeps_bind (λ x : list market_transaction * chain_state, tidy d x.2)).
    + apply (keeps_rfold (λ x : list market_transaction * chain_state, tidy d x.2)); [done|].
      intros pair x _ Hx. unfold execute_market.
      destruct (pair.2 <? pair.1); [|apply keeps_Err].
      eapply keeps_bind; [apply tidy_execute; [by rewrite Ev|]|].
      { split; [apply tidy_empty|exact Hx]. }
      intros r Hr. by apply keeps_Ok.
    + intros x Hx. apply keeps_Ok. by apply tidy_trades.
  - assert (market_list (get_dirty_markets (Database d)) = []) as ->.
    { unfold get_dirty_markets. simpl. by rewrite Ev. }
    apply keeps_Ok. by apply tidy_trades.
Qed.
End matching.

(** ** Blocks *)
Section block.
Context `{!Fc, !Crypto}.
Implicit Types (b : full_block) (d : chain_database) (s : chain_state).
Lemma tidy_produced d b id s : tidy d s → keeps (tidy d) (record_produced b id s).
Proof. intros Hs. unfold record_produced. walk. Qed.
Lemma tidy_missed d a t s : tidy d s → keeps (tidy d) (record_missed a t d s).
Proof. intros Hs. unfold record_missed. walk. Qed.
Lemma tidy_all_missed d n a t p x s :
  tidy d s → keeps (λ y, tidy d y.2) (default (Err undefined) (record_all_missed n a t p x d s)).
Proof.
  revert t x s. induction n as [|n IH]; intros t x s Hs; simpl;
    (destruct (t <? p); [|by apply keeps_Ok]); [apply keeps_Err|].
  pose proof (tidy_missed d a t s Hs) as Hm. destruct (record_missed a t d s) as [s'|e].
  - apply IH. by apply Hm.
  - apply keeps_Err.
Qed.
Lemma tidy_production d b key s :
  tidy d s → keeps (tidy d) (update_delegate_production_info b key d s).
Proof.
  intros Hs. unfold update_delegate_production_info. apply keeps_any. intros r _.
  eapply keeps_bind; [by apply tidy_produced|]. intros s1 H1. apply keeps_any. intros n Hn.
  apply keeps_any. intros a _. eapply keeps_bind; [by apply tidy_all_missed|]. intros x Hx.
  apply keeps_Ok. apply tidy_property; [|done].
  unfold get_required_confirmations in Hn. apply rbind_Ok in Hn as (v & Hv & _).
  by eapply tidy_read.
Qed.
Lemma tidy_pay_delegate d key s : tidy d s → keeps (tidy d) (pay_delegate key d s).
Proof. intros Hs. unfold pay_delegate. walk. Qed.
Lemma tidy_transactions d b s : tidy d s → keeps (tidy d) (Blocks.apply_transactions b d s).
Proof.
  intros Hs. unfold Blocks.apply_transactions.
  apply (keeps_bind (λ x : Z * chain_state, tidy d x.2)); [|intros x Hx; by apply keeps_Ok].
  apply (keeps_rfold (λ x : Z * chain_state, tidy d x.2)); [done|].
  intros t x _ Hx. unfold apply_transaction. eapply keeps_bind; [by apply tidy_evaluate|].
  intros e [He Et]. apply (keeps_bind (tidy d)).
  - apply tidy_transaction; [|done]. right. simpl. by rewrite Et.
  - intros s' Hs'. by apply keeps_Ok.
Qed.
Lemma tidy_active_list d b s :
  is_Some (db_properties d !! active_delegate_list_id) → tidy d s →
  keeps (tidy d) (update_active_delegate_list b d s).
Proof.
  intros Ha Hs. unfold update_active_delegate_list.
  destruct (_ =? 0); [|by apply keeps_Ok]. apply keeps_any. intros x _. apply keeps_any. intros y _.
  apply keeps_Ok. by apply tidy_property.
Qed.
Lemma tidy_seed d x s : tidy d s → keeps (tidy d) (update_random_seed x s).
Proof.
  intros Hs. unfold update_random_seed. apply keeps_any. intros y Hy. apply keeps_Ok.
  apply tidy_property; [|done]. unfold get_current_random_seed in Hy.
  apply rbind_Ok in Hy as (v & Hv & _). by eapply tidy_read.
Qed.

(** The state a block leaves is tidy: no hypothesis on the block. *)
Lemma tidy_block d b key s : tidy d s → keeps (tidy d) (apply_block b key d s).
Proof.
  intros Hs s' Hr. unfold apply_block in Hr. apply rbind_Ok in Hr as (s1 & H1 & Hr).
  assert (is_Some (db_properties d !! active_delegate_list_id)) as Ha.
  { unfold update_delegate_production_info in H1. apply rbind_Ok in H1 as (? & _ & H1).
    apply rbind_Ok in H1 as (? & _ & H1). apply rbind_Ok in H1 as (? & _ & H1).
    apply rbind_Ok in H1 as (l & Hl & _). unfold get_active_delegates in Hl.
    apply rbind_Ok in Hl as (v & Hv & _). simpl in Hv. by apply of_option_Ok in Hv as ->. }
  apply (tidy_production d b key s Hs) in H1. revert s' Hr.
  change (keeps (tidy d) (let* s := pay_delegate key d s1 in
    let* s := execute_markets d (bh_timestamp (fb_head b)) s in
    let* s := Blocks.apply_transactions b d s in
    let* s := update_active_delegate_list b d s in
    update_random_seed (bh_previous_secret (fb_head b)) s)).
  eapply keeps_bind; [by apply tidy_pay_delegate|]. intros s2 H2.
  eapply keeps_bind; [by apply tidy_markets|]. intros s3 H3.
  eapply keeps_bind; [by apply tidy_transactions|]. intros s4 H4.
  eapply keeps_bind; [by apply tidy_active_list|]. intros s5 H5. by apply tidy_seed.
Qed.
End block.
