(* ===== verification/BlockVotes.v ===== *)
(** Votes over a whole block: producing and missing, pay, the markets and the
    transactions keep the votes of every delegate equal to its stake.

    Markets pay to balances that name no slate ([uncounted]); that no balance with
    a slate sits at their ids is what [no_condition_collision] is for. *)
From S2P Require Export Votes BlockFunds Tidy.

Section backed.
Context `{!Fc, !Crypto, !CryptoLaws _}.
Implicit Types (d : chain_database) (s : chain_state) (p : pending_chain_state) (r : balance_record)
  (a : asset_record) (g : market_engine) (m : market_transaction) (l : match_locals).

Definition vbacked s : Prop := votes_wf s ∧ votes_backed s.
Definition plain a : Prop := ar_id a = 0 → ar_is_market_issued a = false.

(** A step of a transaction that keeps the surplus keeps a backed state backed. *)
Lemma vbacked_step f s Δ :
  (∀ e, es_current_state e = s → vmoved e (on_current_state f e) Δ) → (∀ id, Δ id ≡₆₄ 0) →
  vbacked s → vbacked (f s).
Proof.
  intros Hf HΔ [Hwf Hb]. destruct (Hf (eval_state_new s 0) eq_refl Hwf) as [Hwf' E].
  split; [done|]. intros id. specialize (E id). specialize (Hb id). rewrite HΔ in E. unfold surplus in E.
  simpl in E. rewrite lookup_empty in E. simpl in E. destruct E as [k E], Hb as [k' Hb]. exists (k + k'). lia.
Qed.
Lemma vbacked_on f h s :
  votes_not h → (∀ p, p_assets (h p) = p_assets p) → vbacked s → vbacked (on_state f h s).
Proof. intros Hg Ha. apply (vbacked_step _ s (λ _, 0)); [|done]. intros e _. by apply vmoved_neutral. Qed.
Lemma vbacked_asset a s : plain a → vbacked s → vbacked (store_asset_record a s).
Proof. intros Ha. apply (vbacked_step _ s (λ _, 0)); [|done]. intros e _. by apply vmoved_asset. Qed.
Lemma vbacked_account (r0 r : account_record) s :
  get_account_record (ac_id r0) s = Some r0 → ac_id r = ac_id r0 → net_votes r ≡₆₄ net_votes r0 →
  vbacked s → vbacked (store_account_record r s).
Proof.
  intros Hr Ei En. apply (vbacked_step _ s (λ id, at_id id (ac_id r0) 0)); [|intros id; by rewrite at_id_zero].
  intros e Es. apply vmoved_update_account; [done|rewrite En; apply eq64_eq; lia|left; by rewrite Es].
Qed.
Lemma condition_of_id r r' : br_id r = br_id r' → br_condition r = br_condition r'.
Proof. apply no_condition_collision. Qed.
Lemma counted_condition r r' : br_condition r = br_condition r' → counted r = counted r'.
Proof. unfold counted, br_asset_id, br_delegate_slate_id. by intros ->. Qed.
Lemma vbacked_balance r s : counted r = false → vbacked s → vbacked (store_balance_record r s).
Proof.
  intros Hr Hs. pose proof Hs as [((_ & Hk & _) & _) _]. revert Hs.
  apply (vbacked_step _ s (λ id, contrib (in_backing (λ k, slate_at k s) id) (br_id r) (get_balance_record (br_id r) s)
    - in_backing (λ k, slate_at k s) id (br_id r) r)); [intros e <-; apply vmoved_balance; by rewrite Hr|].
  intros id. cbv beta. unfold in_backing at 2. rewrite Hr.
  destruct (get_balance_record (br_id r) s) as [r0|] eqn:E; [|done]. simpl. unfold in_backing.
  rewrite (counted_condition r0 r), Hr; [done|]. by apply condition_of_id, Hk.
Qed.
Lemma vbacked_plain s k a : vbacked s → get_asset_record k s = Some a → plain a.
Proof.
  intros [((_ & _ & Hk & _) & _ & Hc) _] Ha E. pose proof (Hk _ _ Ha) as Ek. rewrite Ek in E. subst k. by apply Hc.
Qed.
Lemma vbacked_keyed s k (r : account_record) : vbacked s → get_account_record k s = Some r → ac_id r = k.
Proof. intros [((_ & _ & _ & Hk) & _) _]. apply Hk. Qed.
Lemma vbacked_property k v s : vbacked s → vbacked (set_property k v s).
Proof. by apply vbacked_on. Qed.
Lemma vbacked_bid k (r : order_record) s : vbacked s → vbacked (store_bid_record k r s).
Proof. by apply vbacked_on. Qed.
Lemma vbacked_ask k (r : order_record) s : vbacked s → vbacked (store_ask_record k r s).
Proof. by apply vbacked_on. Qed.
Lemma vbacked_short k (r : order_record) s : vbacked s → vbacked (store_short_record k r s).
Proof. by apply vbacked_on. Qed.
Lemma vbacked_collateral k (r : collateral_record) s : vbacked s → vbacked (store_collateral_record k r s).
Proof. by apply vbacked_on. Qed.
Lemma vbacked_slot (r : slot_record) s : vbacked s → vbacked (store_slot_record r s).
Proof. by apply vbacked_on. Qed.
Lemma vbacked_history k (r : market_history_record) s : vbacked s → vbacked (store_market_history_record k r s).
Proof. by apply vbacked_on. Qed.
Lemma vbacked_status (r : market_status) s : vbacked s → vbacked (store_market_status r s).
Proof. by apply vbacked_on. Qed.
Lemma vbacked_feed (r : feed_record) s : vbacked s → vbacked (set_feed r s).
Proof. by apply vbacked_on. Qed.
Lemma vbacked_burn k (r : burn_record_value) s : vbacked s → vbacked (store_burn_record k r s).
Proof. by apply vbacked_on. Qed.
Lemma vbacked_operation o s : vbacked s → vbacked (store_recent_operation o s).
Proof. by apply vbacked_on. Qed.
Lemma vbacked_trades ts s : vbacked s → vbacked (set_market_transactions ts s).
Proof. by apply vbacked_on. Qed.
Lemma vbacked_transaction k (r : transaction_record) s : vbacked s → keeps vbacked (store_transaction k r s).
Proof.
  intros Hs. assert (is_pending s) as Hp by apply Hs. destruct s as [|d|p prev]; [done|done|].
  intros s' Hr. apply store_transaction_on in Hr as (h & -> & Hh & Hsl).
  apply (vbacked_on (λ d, d) h (Pending p prev)); [|intros q; apply (Hh q)|done].
  intros q. destruct (Hh q) as (_&?&_&_&_&_&?). by rewrite Hsl.
Qed.
End backed.

(** ** Markets

    A market's own pending state names no account and no slate, and its balances
    do not vote. *)
Section engine.
Context `{!Fc, !Crypto, !CryptoLaws _}.
Implicit Types (d : chain_database) (s : chain_state) (p : pending_chain_state) (r : balance_record)
  (a : asset_record) (g : market_engine) (m : market_transaction) (l : match_locals).

Record uncounted_pending p : Prop := {
  up_slates : p_slates p = ∅;
  up_accounts : p_accounts p = ∅;
  up_balances k r : p_balances p !! k = Some r → br_id r = k ∧ counted r = false;
  up_assets k a : p_assets p !! k = Some a → plain a
}.
Definition vengine g : Prop := uncounted_pending (me_pending g) ∧ vbacked (me_prior g).

Lemma uncounted_empty : uncounted_pending pending_chain_state_empty.
Proof. split; [done..| |]; intros k r Hr; by apply lookup_none in Hr. Qed.
Lemma uncounted_other p p' :
  p_slates p' = p_slates p → p_accounts p' = p_accounts p → p_balances p' = p_balances p →
  p_assets p' = p_assets p → uncounted_pending p → uncounted_pending p'.
Proof. intros E1 E2 E3 E4 []. split; rewrite ?E1, ?E2, ?E3, ?E4; auto. Qed.
Lemma vengine_on f g :
  (∀ p, uncounted_pending p → uncounted_pending (f p)) → vengine g → vengine (on_pending f g).
Proof. intros Hf [Hg Hp]. split; [by apply Hf|done]. Qed.
Lemma vengine_asset a g : plain a → vengine g → vengine (on_pending (p_store_asset_record a) g).
Proof.
  intros Ha. apply vengine_on. intros p []. split; simpl; try done.
  intros k a' [[<- <-]|[_ Hk]]%lookup_insert_Some; eauto.
Qed.
Lemma vengine_bid k o g : vengine g → vengine (on_pending (p_store_bid_record k o) g).
Proof. apply vengine_on. intros p. by apply uncounted_other. Qed.
Lemma vengine_ask k o g : vengine g → vengine (on_pending (p_store_ask_record k o) g).
Proof. apply vengine_on. intros p. by apply uncounted_other. Qed.
Lemma vengine_short k o g : vengine g → vengine (on_pending (p_store_short_record k o) g).
Proof. apply vengine_on. intros p. by apply uncounted_other. Qed.
Lemma vengine_collateral k c g : vengine g → vengine (on_pending (p_store_collateral_record k c) g).
Proof. apply vengine_on. intros p. by apply uncounted_other. Qed.
Lemma vengine_history k h g : vengine g → vengine (on_pending (p_store_market_history_record k h) g).
Proof. apply vengine_on. intros p. by apply uncounted_other. Qed.
Lemma vengine_status st g : vengine g → vengine (on_pending (p_store_market_status st) g).
Proof. apply vengine_on. intros p. by apply uncounted_other. Qed.
Lemma vengine_current_bid o g : vengine g → vengine (set_me_current_bid o g).
Proof. done. Qed.
Lemma vengine_current_ask o g : vengine g → vengine (set_me_current_ask o g).
Proof. done. Qed.
Lemma vengine_current_collat o g : vengine g → vengine (set_me_current_collat o g).
Proof. done. Qed.
Lemma vengine_plain k a g : vengine g → get_asset_record k (me_state g) = Some a → plain a.
Proof.
  intros [Hu Hs] Ha. unfold get_asset_record, me_state in Ha. simpl in Ha.
  destruct (p_assets (me_pending g) !! k) eqn:E; [|by eapply vbacked_plain].
  injection Ha as <-. by eapply up_assets.
Qed.
(** The balance that is paid names no slate. *)
Lemma vengine_pay_owner o id x g : vengine g → keeps vengine (pay_owner o id x g).
Proof.
  intros Hg g' Hr. unfold pay_owner in Hr. apply rbind_Ok in Hr as (t & _ & Hr). apply Ok_inj in Hr as <-.
  set (c := WithdrawCondition id 0 _). set (r0 := default _ _).
  assert (br_condition r0 = c) as Ec.
  { unfold r0. destruct (get_balance_record (address_of_condition c) (me_state g)) as [r1|] eqn:E; [|reflexivity].
    simpl. apply no_condition_collision. change (br_id r1 = address_of_condition c).
    destruct Hg as [Hu [((_ & Hk & _) & _) _]]. unfold get_balance_record, me_state in E. simpl in E.
    destruct (p_balances (me_pending g) !! address_of_condition c) eqn:E1; [|by apply Hk].
    injection E as ->. by apply (up_balances _ Hu). }
  assert (counted r0 = false) as Hn.
  { unfold counted, br_delegate_slate_id, br_asset_id. rewrite Ec. simpl. by rewrite andb_false_r. }
  clearbody r0. revert Hg. apply vengine_on. intros p []. split; simpl; try done.
  intros k r [[<- <-]|[_ Hk]]%lookup_insert_Some; [split; [done|]|eauto]. exact Hn.
Qed.
End engine.
#[export] Hint Resolve vengine_asset vengine_bid vengine_ask vengine_short vengine_collateral
  vengine_history vengine_status vengine_current_bid vengine_current_ask vengine_current_collat
  vengine_pay_owner vengine_plain : tidy.
#[export] Hint Extern 6 (vengine _) => eassumption : tidy.
#[export] Hint Extern 6 (plain _) => eassumption : tidy.

Section engine.
Context `{!Fc, !Crypto, !CryptoLaws _}.
Implicit Types (d : chain_database) (s : chain_state) (g : market_engine) (m : market_transaction) (a : asset_record).
Lemma vengine_next_short g : vengine g → keeps (λ x, vengine x.2) (get_next_short g).
Proof. unfold get_next_short. walk. Qed.
Lemma vengine_push_trade m g : vengine g → keeps vengine (push_market_transaction m g).
Proof. unfold push_market_transaction. walk. Qed.
Lemma vengine_fetch_cover g : vengine g → keeps (λ x, vengine x.2) (fetch_cover g).
Proof. unfold fetch_cover. walk. Qed.
Lemma vengine_fetch_ask g : vengine g → keeps (λ x, vengine x.2) (fetch_ask g).
Proof. unfold fetch_ask. walk. Qed.
End engine.
#[export] Hint Resolve vengine_next_short vengine_push_trade vengine_fetch_cover vengine_fetch_ask : tidy.

(** The quote and the base record stay with the engine. *)
Section engine.
Context `{!Fc, !Crypto, !CryptoLaws _}.
Implicit Types (g : market_engine) (a : asset_record).
Definition vtrade (x : asset_record * market_engine) : Prop := plain x.1 ∧ vengine x.2.
Definition vtrade_of {A} (x : A * asset_record * market_engine) : Prop := plain x.1.2 ∧ vengine x.2.
Lemma plain_fees f a : plain a → plain (add_fees f a).
Proof. done. Qed.
Lemma plain_supply x a : plain a → plain (add_supply x a).
Proof. done. Qed.
Lemma plain_if (b : bool) a a' : plain a → plain a' → plain (if b then a else a').
Proof. by destruct b. Qed.
Lemma vtrade_intro a g : plain a → vengine g → vtrade (a, g).
Proof. done. Qed.
Lemma vtrade_of_intro {A} (x : A) a g : plain a → vengine g → vtrade_of (x, a, g).
Proof. done. Qed.
Lemma vtrade_plain x : vtrade x → plain x.1.
Proof. by intros []. Qed.
Lemma vtrade_vengine x : vtrade x → vengine x.2.
Proof. by intros []. Qed.
Lemma vtrade_of_plain {A} (x : A * asset_record * market_engine) : vtrade_of x → plain x.1.2.
Proof. by intros []. Qed.
Lemma vtrade_of_vengine {A} (x : A * asset_record * market_engine) : vtrade_of x → vengine x.2.
Proof. by intros []. Qed.
End engine.
#[export] Hint Resolve plain_fees plain_supply plain_if vtrade_intro vtrade_of_intro vtrade_plain
  vtrade_vengine vtrade_of_plain vtrade_of_vengine : tidy.

Section engine.
Context `{!Fc, !Crypto, !CryptoLaws _}.
Implicit Types (d : chain_database) (s : chain_state) (g : market_engine) (m : market_transaction)
  (a quote base : asset_record).
Lemma vengine_next_bid g : vengine g → keeps (λ x, vengine x.2) (get_next_bid g).
Proof. unfold get_next_bid, fetch_bid. walk. Qed.
Lemma vengine_next_ask g : vengine g → keeps (λ x, vengine x.2) (get_next_ask g).
Proof. unfold get_next_ask. walk. Qed.
Lemma vengine_pay_short m quote base g :
  plain quote → vengine g → keeps vtrade_of (pay_current_short m quote base g).
Proof. unfold pay_current_short. walk. Qed.
Lemma vengine_pay_bid m quote g : plain quote → vengine g → keeps vtrade (pay_current_bid m quote g).
Proof. unfold pay_current_bid. walk. Qed.
Lemma vengine_pay_ask m base g : plain base → vengine g → keeps vtrade (pay_current_ask m base g).
Proof. unfold pay_current_ask. walk. Qed.
Lemma vengine_return o c m g : vengine g → keeps (λ x, vengine x.2) (return_collateral o c m g).
Proof. unfold return_collateral. walk. Qed.
End engine.
#[export] Hint Resolve vengine_next_bid vengine_next_ask vengine_pay_short vengine_pay_bid
  vengine_pay_ask vengine_return : tidy.

Section matching.
Context `{!Fc, !Crypto, !CryptoLaws _}.
Implicit Types (d : chain_database) (s : chain_state) (p : pending_chain_state) (g : market_engine)
  (m : market_transaction) (l : match_locals) (a quote base : asset_record).
Definition vlocals l : Prop := plain (ml_quote l) ∧ plain (ml_base l) ∧ vengine (ml_engine l).
Definition vtraded (x : market_transaction * asset_record * asset_record * market_engine) : Prop :=
  plain x.1.1.2 ∧ plain x.1.2 ∧ vengine x.2.

Lemma vengine_pay_cover m quote g : plain quote → vengine g → keeps vtrade_of (pay_current_cover m quote g).
Proof. unfold pay_current_cover. walk; eauto 10 with tidy nocore. Qed.
Lemma vtraded_intro m quote base g : plain quote → plain base → vengine g → vtraded (m, quote, base, g).
Proof. done. Qed.
Lemma vengine_trade bid ask m quote base g :
  plain quote → plain base → vengine g → keeps vtraded (execute_trade bid ask m quote base g).
Proof. pose proof vengine_pay_cover. pose proof vtraded_intro. unfold execute_trade. walk. Qed.
Lemma vlocals_make_trade bid ask m l : vlocals l → keeps vlocals (make_trade bid ask m l).
Proof.
  intros (Hq & Hb & Hg). unfold make_trade. eapply keeps_bind; [by apply vengine_trade|].
  intros t (Hq' & Hb' & Hg'). eapply keeps_bind; [by apply vengine_push_trade|]. intros g1 Hg1.
  apply keeps_any. intros v _. apply keeps_Ok. unfold collect_market_fees, vlocals. simpl.
  repeat case_match; simpl; auto using plain_fees.
Qed.
Lemma vlocals_engine l g : vlocals l → vengine g → vlocals (set_ml_engine g l).
Proof. by intros (?&?&_) ?. Qed.
Lemma vlocals_match_step l : vlocals l → keeps (λ x, vlocals x.2) (match_step l).
Proof.
  intros Hl. pose proof Hl as (_ & _ & Hg). unfold match_step.
  eapply keeps_bind; [by apply vengine_next_bid|]. intros b Hb.
  destruct (negb b.1); [by apply keeps_Ok, vlocals_engine|].
  eapply keeps_bind; [by apply vengine_next_ask|]. intros a Ha.
  destruct (negb a.1); [by apply keeps_Ok, vlocals_engine|]. cbv zeta.
  destruct (negb (me_orders_filled a.2 =? ml_last_orders_filled l)); [|apply keeps_Err].
  set (l1 := MatchLocals _ _ _ _ _ _ _). assert (vlocals l1) as Hl1 by (destruct Hl as (?&?&_); done).
  clearbody l1. do 2 (apply keeps_any; intros ? _). apply keeps_any. intros outcome _.
  destruct outcome as [| | |m].
  - apply keeps_Ok. by apply vlocals_engine.
  - apply keeps_Ok. by apply vlocals_engine.
  - by apply keeps_Ok.
  - eapply keeps_bind; [by apply vlocals_make_trade|]. intros l2 Hl2. by apply keeps_Ok.
Qed.
Lemma vlocals_match n l : vlocals l → keeps vlocals (default (Err undefined) (match_orders n l)).
Proof.
  revert l. induction n as [|n IH]; intros l Hl; simpl; [apply keeps_Err|].
  pose proof (vlocals_match_step l Hl) as Hs. destruct (match_step l) as [[[] l']|e]; simpl.
  - apply IH. by apply (Hs (true, l')).
  - apply keeps_Ok. by apply (Hs (false, l')).
  - apply keeps_Err.
Qed.
Lemma vlocals_run_market quote base g :
  plain quote → plain base → vengine g → keeps vlocals (run_market quote base g).
Proof.
  intros Hq Hb Hg. unfold run_market. apply keeps_any. intros _ _.
  eapply keeps_bind; [by apply vengine_next_bid|]. intros b Hb'.
  eapply keeps_bind; [by apply vengine_next_ask|]. intros a Ha. by apply vlocals_match.
Qed.
Lemma vengine_period gr x t r g : vengine g → vengine (update_period gr x t r g).
Proof. unfold update_period. intros Hg. repeat case_match; eauto using vengine_history. Qed.
Lemma vengine_block_entry t r g : vengine g → vengine (update_block t r g).
Proof.
  unfold update_block. intros Hg. destruct (match _ with Some k => _ | None => false end);
    eauto using vengine_history.
Qed.
Lemma vengine_update_history v o c t g : vengine g → keeps vengine (update_market_history v o c t g).
Proof. unfold update_market_history. walk. by apply vengine_period, vengine_period, vengine_block_entry. Qed.

(** Handing down what a market collected. *)
Lemma fold_map_empty {K V S} `{Countable K} (f : K → V → S → S) (m : gmap K V) (x : S) : m = ∅ → fold_map f m x = x.
Proof. intros ->. unfold fold_map. by rewrite map_to_list_empty. Qed.
Lemma vbacked_apply p s : uncounted_pending p → vbacked s → keeps vbacked (apply_changes p s).
Proof.
  intros [Hsl Hac Hba Has] Hs. assert (is_pending s) as Hp by apply Hs.
  unfold apply_changes. destruct s as [|d|p0 prev]; [done|done|]. apply (keeps_bind vbacked).
  - apply keeps_rfold; [|intros [k r] s' _ Hs'; by apply vbacked_transaction].
    unfold apply_tables. rewrite (fold_map_empty _ (p_accounts p)) by done.
    repeat apply fold_map_inv; eauto using vbacked_property, vbacked_bid, vbacked_ask, vbacked_short,
      vbacked_collateral, vbacked_asset.
    intros k r s1 Hr H1. apply vbacked_balance; [|done]. by apply (Hba k).
  - intros s' Hs'. apply keeps_Ok. unfold apply_rest, set_dirty_markets.
    rewrite (fold_map_empty _ (p_slates p)) by done.
    apply vbacked_property, vbacked_trades. apply fold_map_inv; [|eauto using vbacked_burn].
    apply fold_map_inv.
    + repeat apply fold_map_inv; eauto using vbacked_slot, vbacked_history, vbacked_status, vbacked_feed.
    + intros k l s1 _. revert s1. induction l as [|o l IH]; intros s1 H1; [done|].
      simpl. by apply IH, vbacked_operation.
Qed.
Lemma vbacked_finish t l : vlocals l → keeps (λ x, vbacked x.2) (finish_market t l).
Proof.
  intros (Hq & Hb & Hg). unfold finish_market. cbv zeta. apply keeps_any. intros st _.
  apply (keeps_bind vengine); [by apply vengine_update_history, vengine_status, vengine_asset, vengine_asset|].
  intros g [Hu Hs]. apply (keeps_bind vbacked); [by apply vbacked_apply|]. intros s Hs'. by apply keeps_Ok.
Qed.
Lemma vbacked_fail err g : vengine g → keeps (λ x, vbacked x.2) (fail_market err g).
Proof.
  intros [_ Hg]. unfold fail_market. apply keeps_any. intros st _. apply keeps_Ok. by apply vbacked_status.
Qed.
Lemma vbacked_execute t g : vengine g → keeps (λ x, vbacked x.2) (execute t g).
Proof.
  intros Hg. unfold execute.
  assert (keeps (λ x, plain x.1.1 ∧ plain x.1.2 ∧ vengine x.2) (open_books g)) as Ho.
  { unfold open_books. apply keeps_any. intros q Hq%of_option_Ok. apply keeps_any. intros b Hb%of_option_Ok.
    do 2 (apply keeps_any; intros ? _). apply keeps_any. intros f _. apply keeps_Ok.
    split; [by eapply vengine_plain|]. split; [by eapply vengine_plain|done]. }
  destruct (open_books g) as [[[q b] g']|err]; [|by apply vbacked_fail].
  specialize (Ho _ eq_refl). destruct Ho as (Hq & Hb & Hg'). simpl in *.
  assert (keeps (λ x, vbacked x.2) (let* l := run_market q b g' in finish_market t l)) as Hr.
  { eapply keeps_bind; [by apply vlocals_run_market|]. intros l Hl. by apply vbacked_finish. }
  destruct (let* l := run_market q b g' in finish_market t l) as [r|err]; [|by apply vbacked_fail].
  apply keeps_Ok. by apply Hr.
Qed.
Lemma vbacked_markets d t s : vbacked s → keeps vbacked (execute_markets d t s).
Proof.
  intros Hs. unfold execute_markets.
  apply (keeps_bind (λ x : list market_transaction * chain_state, vbacked x.2)).
  - apply (keeps_rfold (λ x : list market_transaction * chain_state, vbacked x.2)); [done|].
    intros pair x _ Hx. unfold execute_market.
    destruct (pair.2 <? pair.1); [|apply keeps_Err].
    eapply keeps_bind; [apply vbacked_execute; split; [apply uncounted_empty|exact Hx]|].
    intros r Hr. by apply keeps_Ok.
  - intros x Hx. apply keeps_Ok. by apply vbacked_trades.
Qed.
End matching.

(** ** Blocks *)
Section block.
Context `{!Fc, !Crypto, !CryptoLaws _}.
Implicit Types (b : full_block) (d : chain_database) (s : chain_state).
Lemma pending_delegate_known id s x : vbacked s → pending_delegate id s = Ok x →
  get_account_record (ac_id x.1) s = Some x.1 ∧ ac_delegate_info x.1 = Some x.2.
Proof.
  intros Hs Hr. unfold pending_delegate in Hr. res_inv Hr. simpl. split; [|done].
  by rewrite (vbacked_keyed _ _ _ Hs Hv).
Qed.
(** A delegate's figures other than its votes and its pay. *)
Lemma vbacked_stats id s x (i : delegate_stats) :
  vbacked s → pending_delegate id s = Ok x →
  ds_votes_for i - ds_pay_balance i ≡₆₄ ds_votes_for x.2 - ds_pay_balance x.2 →
  vbacked (store_account_record (set_ac_delegate_info (Some i) x.1) s).
Proof.
  intros Hs Hx Hi. destruct (pending_delegate_known _ _ _ Hs Hx) as [Hr Hd].
  apply (vbacked_account x.1); [done|done| |done]. unfold net_votes. by rewrite Hd.
Qed.
Lemma vbacked_produced b id s : vbacked s → keeps vbacked (record_produced b id s).
Proof.
  intros Hs. unfold record_produced. apply keeps_any. intros x Hx. destruct (secret_revealed b x.2); [|apply keeps_Err].
  apply keeps_Ok, vbacked_slot. by eapply vbacked_stats.
Qed.
Lemma vbacked_missed a t d s : vbacked s → keeps vbacked (record_missed a t d s).
Proof.
  intros Hs. unfold record_missed. apply keeps_any. intros y _. apply keeps_any. intros x Hx.
  apply keeps_Ok, vbacked_slot. by eapply vbacked_stats.
Qed.
Lemma vbacked_all_missed n a t p x d s :
  vbacked s → keeps (λ y, vbacked y.2) (default (Err undefined) (record_all_missed n a t p x d s)).
Proof.
  revert t x s. induction n as [|n IH]; intros t x s Hs; simpl;
    (destruct (t <? p); [|by apply keeps_Ok]); [apply keeps_Err|].
  pose proof (vbacked_missed a t d s Hs) as Hm. destruct (record_missed a t d s) as [s'|e].
  - apply IH. by apply Hm.
  - apply keeps_Err.
Qed.
Lemma vbacked_production b key d s : vbacked s → keeps vbacked (update_delegate_production_info b key d s).
Proof.
  intros Hs. unfold update_delegate_production_info. apply keeps_any. intros r _.
  eapply keeps_bind; [by apply vbacked_produced|]. intros s1 H1. apply keeps_any. intros n _.
  apply keeps_any. intros a _. eapply keeps_bind; [by apply vbacked_all_missed|]. intros x Hx.
  apply keeps_Ok. by apply vbacked_property.
Qed.
(** The pay a delegate accepts votes for it. *)
Lemma vbacked_pay key d s : vbacked s → keeps vbacked (pay_delegate key d s).
Proof.
  intros Hs. unfold pay_delegate. apply keeps_any. intros r _. apply keeps_any. intros x Hx. cbv zeta.
  destruct (_ && _); [|apply keeps_Err]. apply keeps_any. intros m _. apply keeps_any. intros base Hb%of_option_Ok.
  pose proof (vbacked_plain _ _ _ Hs Hb) as Hplain.
  destruct (pending_delegate_known _ _ _ Hs Hx) as [Hr Hd].
  set (s1 := store_asset_record _ s). assert (vbacked s1) as Hs1 by by apply vbacked_asset.
  assert (get_account_record (ac_id x.1) s1 = Some x.1) as Hr1.
  { rewrite <- Hr. unfold s1. assert (is_pending s) as Hp by apply Hs. by destruct s. }
  clearbody s1. set (s2 := store_account_record _ s1).
  assert (vbacked s2) as Hs2.
  { apply (vbacked_account x.1); [done|done| |done]. unfold net_votes. rewrite Hd. simpl.
    set (pc := Z.quot _ 100). clearbody pc. rewrite !s64_eq64. apply eq64_eq. lia. }
  clearbody s2. apply keeps_any. intros base' Hb'%of_option_Ok. apply keeps_Ok, vbacked_asset; [|done].
  pose proof (vbacked_plain _ _ _ Hs2 Hb') as Hp'. exact Hp'.
Qed.
Lemma vbacked_active_list b d s : vbacked s → keeps vbacked (update_active_delegate_list b d s).
Proof.
  intros Hs. unfold update_active_delegate_list. destruct (_ =? 0); [|by apply keeps_Ok].
  apply keeps_any. intros x _. apply keeps_any. intros y _. apply keeps_Ok. by apply vbacked_property.
Qed.
Lemma vbacked_seed x s : vbacked s → keeps vbacked (update_random_seed x s).
Proof.
  intros Hs. unfold update_random_seed. apply keeps_any. intros y _. apply keeps_Ok. by apply vbacked_property.
Qed.

(** The transactions of a block register accounts at free ids. *)
Fixpoint block_ids_free b d (l : list signed_transaction) (x : Z * chain_state) : Prop :=
  match l with
  | [] => True
  | t :: l' =>
      (∀ e, begin_evaluate t (db_skip_signature_verification d)
              (BTS_CHECK_CANONICAL_SIGNATURE_FORK_BLOCK_NUM <? bh_block_num (fb_head b))
              (eval_state_new x.2 (db_chain_id d)) = Ok e →
            ids_free (tx_operations (st_trx t)) (set_es_current_op_index 0 e)) ∧
      ∀ x', apply_transaction b d t x = Ok x' → block_ids_free b d l' x'
  end.
Lemma vbacked_transactions b d l x x' :
  block_ids_free b d l x → rfold (apply_transaction b d) l x = Ok x' → vbacked x.2 → vbacked x'.2.
Proof.
  revert x. induction l as [|t l IH]; intros x Hfree Hr Hx; simpl in Hr; [by apply Ok_inj in Hr as <-|].
  destruct Hfree as [Ht Hfree]. apply rbind_Ok in Hr as (x1 & H1 & Hr).
  eapply IH; [by apply Hfree|exact Hr|]. unfold apply_transaction in H1.
  apply rbind_Ok in H1 as (e & He & H1). apply rbind_Ok in H1 as (s & Hs & H1). apply Ok_inj in H1 as <-.
  destruct (evaluate_begins _ _ _ _ _ He) as [b0 Hb0].
  eapply vbacked_transaction; [|exact Hs]. destruct Hx as [Hwf Hbk].
  exact (evaluate_votes _ _ _ _ _ _ Hb0 (Ht _ Hb0) He Hwf Hbk).
Qed.

(** The votes of a database: what [vbacked] says of a fresh state over it. *)
Definition votes_in_order d : Prop :=
  keyed_tables (Database d) ∧ slates_known (Database d) ∧ core_plain (Database d) ∧ votes_backed (Database d).
Lemma vbacked_fresh d : votes_in_order d → vbacked (Pending pending_chain_state_empty (Database d)).
Proof.
  intros (Hk & Hs & Hc & Hb). split; [split_and!|].
  - by apply fresh_wf.
  - exact Hs.
  - exact Hc.
  - intros id. specialize (Hb id). rewrite (backing_ext id (Database d)); [exact Hb|done|].
    simpl. by rewrite map_empty_union.
Qed.

(** C10 (block_keeps_votes). A block that applies keeps the votes of every delegate
    equal to the stake behind it, over producing and missing, pay, markets and
    transactions: what its votes say is the sum of the balances whose slate names
    it and of its own pay. *)
Theorem block_keeps_votes b key d s' :
  votes_in_order d →
  (∀ s1, before_transactions b key d (Pending pending_chain_state_empty (Database d)) = Ok s1 →
     block_ids_free b d (fb_user_transactions b) (0, s1)) →
  apply_block b key d (Pending pending_chain_state_empty (Database d)) = Ok s' →
  (∀ k r i, get_account_record k s' = Some r → ac_delegate_info r = Some i →
     ds_votes_for i ≡₆₄ backing k s' + ds_pay_balance i) ∧
  ∀ k, (∀ r, get_account_record k s' = Some r → ac_delegate_info r = None) → backing k s' ≡₆₄ 0.
Proof.
  intros Hd Hfree Hr. apply vbacked_fresh in Hd.
  assert (vbacked s') as [_ Hb].
  { unfold apply_block in Hr. unfold before_transactions in Hfree.
    apply rbind_Ok in Hr as (s1 & H1 & Hr). rewrite H1 in Hfree. cbn [rbind] in Hfree.
    apply (vbacked_production b key d _ Hd) in H1.
    apply rbind_Ok in Hr as (s2 & H2 & Hr). rewrite H2 in Hfree. cbn [rbind] in Hfree.
    apply (vbacked_pay key d _ H1) in H2.
    apply rbind_Ok in Hr as (s3 & H3 & Hr). specialize (Hfree _ H3). apply (vbacked_markets d _ _ H2) in H3.
    apply rbind_Ok in Hr as (s4 & H4 & Hr). unfold Blocks.apply_transactions in H4.
    apply rbind_Ok in H4 as (x & H4 & E). apply Ok_inj in E as <-.
    apply (vbacked_transactions _ _ _ _ _ Hfree) in H4; [|done].
    apply rbind_Ok in Hr as (s5 & H5 & Hr). apply (vbacked_active_list _ _ _ H4) in H5.
    by apply (vbacked_seed _ _ H5) in Hr. }
  split.
  - intros k r i Hk Hi. specialize (Hb k). unfold vote_stats in Hb. rewrite Hk in Hb. simpl in Hb.
    unfold net_votes in Hb. rewrite Hi in Hb. simpl in Hb. destruct Hb as [x Hb]. exists x. lia.
  - intros k Hk. specialize (Hb k). unfold vote_stats in Hb.
    assert (from_option net_votes 0 (get_account_record k s') = 0) as E.
    { destruct (get_account_record k s') as [r|] eqn:Er; [|done]. simpl. unfold net_votes.
      by rewrite (Hk r eq_refl). }
    rewrite E in Hb. by symmetry.
Qed.
End block.
