(* ===== verification/ForkFacts.v ===== *)
(** The block tree: marking reaches exactly the blocks after a block, storing a
    block keeps the tree linked, and a block that cannot be applied leaves the
    chain as it was; proofs over [Forks]. *)
From S2P Require Export BlockFacts Forks.

(** ** The operations on the chain *)
Lemma mbnd_Ok {A B} (m : chain_m A) (k : A → chain_m B) c b c' :
  mbnd m k c = (Ok b, c') ↔ ∃ a c1, m c = (Ok a, c1) ∧ k a c1 = (Ok b, c').
Proof.
  unfold mbnd. split.
  - destruct (m c) as [[a|e] c1]; [eauto|done].
  - by intros (a & c1 & -> & ?).
Qed.
Lemma mbnd_Err {A B} (m : chain_m A) (k : A → chain_m B) c e c' :
  mbnd m k c = (Err e, c') ↔
    m c = (Err e, c') ∨ ∃ a c1, m c = (Ok a, c1) ∧ k a c1 = (Err e, c').
Proof.
  unfold mbnd. split.
  - destruct (m c) as [[a|e'] c1]; [eauto|]. intros [= <- <-]. by left.
  - by intros [->|(a & c1 & -> & ?)].
Qed.
Lemma mbnd_run {A B} (m : chain_m A) (k : A → chain_m B) c a c1 :
  m c = (Ok a, c1) → mbnd m k c = k a c1.
Proof. unfold mbnd. by intros ->. Qed.
Lemma lift_Ok {A} (r : chain → result A) c a c' : lift r c = (Ok a, c') ↔ r c = Ok a ∧ c' = c.
Proof. unfold lift. split; [by intros [= -> ->]|by intros [-> ->]]. Qed.
Lemma require_Ok p e c x c' : require p e c = (Ok x, c') ↔ p c = true ∧ c' = c.
Proof.
  unfold require. destruct (p c); split.
  - by intros [= _ ->].
  - intros [_ ->]. by destruct x.
  - done.
  - by intros [? _].
Qed.

(** ** Marking the blocks after a block *)
Definition follows (forks : gmap digest_type block_fork_data) (x y : digest_type) : Prop :=
  ∃ r, forks !! x = Some r ∧ y ∈ bf_next_blocks r.
Definition tree_closed (forks : gmap digest_type block_fork_data) : Prop :=
  ∀ x y, follows forks x y → is_Some (forks !! y).
(** No block comes after itself: ids are hashes over the id of the block before. *)
Definition ranked (forks : gmap digest_type block_fork_data) : Prop :=
  ∃ h : digest_type → nat, ∀ x y, follows forks x y → (h x < h y)%nat.

Section marking.
Context (forks : gmap digest_type block_fork_data) (f : block_fork_data → block_fork_data).

Definition marked (V : gset digest_type) : gmap digest_type block_fork_data :=
  map_imap (λ x r, Some (if decide (x ∈ V) then f r else r)) forks.
Definition nexts (S : gset digest_type) : gset digest_type :=
  ⋃ ((λ x, from_option bf_next_blocks ∅ (forks !! x)) <$> elements S).

Lemma lookup_marked V x :
  marked V !! x = (λ r, if decide (x ∈ V) then f r else r) <$> forks !! x.
Proof. unfold marked. rewrite map_lookup_imap. by destruct (forks !! x). Qed.
Lemma marked_empty : marked ∅ = forks.
Proof.
  apply map_eq. intros x. rewrite lookup_marked. destruct (forks !! x) as [r|]; [|done].
  simpl. by rewrite decide_False by apply not_elem_of_empty.
Qed.
Lemma marked_insert V x r :
  forks !! x = Some r → <[x := f r]> (marked V) = marked ({[x]} ∪ V).
Proof.
  intros Hx. apply map_eq. intros y. rewrite lookup_marked. destruct (decide (y = x)) as [->|Hy].
  - rewrite lookup_insert_eq, Hx. simpl. rewrite decide_True by set_solver. done.
  - rewrite lookup_insert_ne, lookup_marked by done. destruct (forks !! y) as [r'|]; [|done].
    simpl. destruct (decide (y ∈ V)); [by rewrite decide_True by set_solver|].
    by rewrite decide_False by set_solver.
Qed.
Lemma elem_of_nexts S y : y ∈ nexts S ↔ ∃ x, x ∈ S ∧ follows forks x y.
Proof.
  unfold nexts. rewrite elem_of_union_list. split.
  - intros (X & (x & -> & Hx)%list_elem_of_fmap & Hy). exists x. split; [by apply elem_of_elements|].
    unfold follows. destruct (forks !! x) as [r|]; [by exists r|]. by apply not_elem_of_empty in Hy.
  - intros (x & Hx & r & Er & Hy). exists (bf_next_blocks r). split; [|done].
    apply list_elem_of_fmap. exists x. rewrite Er. split; [done|by apply elem_of_elements].
Qed.

Lemma nexts_cons x r l : forks !! x = Some r →
  nexts (list_to_set (x :: l)) = bf_next_blocks r ∪ nexts (list_to_set l).
Proof.
  intros Hx. apply set_eq. intros y. rewrite elem_of_union, !elem_of_nexts. split.
  - intros (z & Hz & Hf). rewrite list_to_set_cons, elem_of_union, elem_of_singleton in Hz.
    destruct Hz as [->|Hz]; [left|right; eauto]. destruct Hf as (r' & Er' & Hy). congruence.
  - intros [Hy|(z & Hz & Hf)].
    + exists x. split; [set_solver|]. by exists r.
    + exists z. split; [set_solver|done].
Qed.

Hypothesis f_next : ∀ r, bf_next_blocks (f r) = bf_next_blocks r.
Hypothesis f_idem : ∀ r, f (f r) = f r.

(** A marker stores [f] of a block's data and returns it; what it accumulates
    may be anything. *)
Context {A : Type} (mark : digest_type → A → chain_m (block_fork_data * A)) (P : chain → Prop).
Context (known : digest_type → Prop).
Hypothesis known_next : ∀ x y, follows forks x y → known y.
Hypothesis mark_spec : ∀ x a c r, P c → known x → c_forks c !! x = Some r → ∃ a',
  mark x a c = (Ok (f r, a'), set_c_forks (<[x := f r]> (c_forks c)) c).
Hypothesis P_forks : ∀ c m, P c → (∀ x, is_Some (m !! x) → is_Some (c_forks c !! x)) →
  P (set_c_forks m c).

Definition round_step (item : digest_type) (x : gset digest_type * A)
    : chain_m (gset digest_type * A) :=
  do* y := mark item x.2 in mreturn (x.1 ∪ bf_next_blocks y.1, y.2).
Lemma round_spec l V X a c :
  P c → (∀ x, x ∈ l → known x ∧ is_Some (forks !! x)) → c_forks c = marked V →
  ∃ a', mfold round_step l (X, a) c
    = (Ok (X ∪ nexts (list_to_set l), a'), set_c_forks (marked (V ∪ list_to_set l)) c).
Proof.
  revert V X a c. induction l as [|x l IH]; intros V X a c Hc Hl Ef.
  - exists a. simpl. unfold mreturn. rewrite (right_id_L ∅ (∪) V), <- Ef.
    f_equal; [|by destruct c]. do 2 f_equal.
    apply set_eq. intros y. rewrite elem_of_union, elem_of_nexts. set_solver.
  - destruct (Hl x ltac:(left)) as [Hkx [r Hr]].
    set (r1 := if decide (x ∈ V) then f r else r).
    assert (c_forks c !! x = Some r1) as Hx by (by rewrite Ef, lookup_marked, Hr).
    destruct (mark_spec x a c r1 Hc Hkx Hx) as (a1 & Em).
    assert (f r1 = f r) as Er1 by (unfold r1; case_decide; [apply f_idem|done]).
    cbn [mfold]. unfold round_step at 1.
    erewrite mbnd_run; [|erewrite mbnd_run by exact Em; reflexivity].
    cbn [fst snd]. rewrite Er1, f_next, Ef, (marked_insert V x r Hr).
    set (c1 := set_c_forks (marked ({[x]} ∪ V)) c).
    destruct (IH ({[x]} ∪ V) (X ∪ bf_next_blocks r) a1 c1) as (a' & E).
    + apply P_forks; [done|]. intros y. rewrite lookup_marked, Ef, lookup_marked. by destruct (forks !! y).
    + intros y Hy. apply Hl. by right.
    + by destruct c.
    + exists a'. etransitivity; [exact E|].
      rewrite <- (assoc_L (∪) X), (nexts_cons x r) by done. unfold c1. simpl.
      by rewrite (comm_L (∪) {[x]} V), <- (assoc_L (∪) V).
Qed.

Lemma set_least (h : digest_type → nat) (S : gset digest_type) :
  S ≠ ∅ → ∃ m, m ∈ S ∧ ∀ y, y ∈ S → (h m ≤ h y)%nat.
Proof.
  induction S as [|x S Hx IH] using set_ind_L; [done|]. intros _.
  destruct (decide (S = ∅)) as [->|Hne]; [exists x; set_solver|].
  destruct (IH Hne) as (m & Hm & Hle). destruct (decide (h x ≤ h m)%nat).
  - exists x. split; [set_solver|]. intros y [->%elem_of_singleton|Hy]%elem_of_union; [done|].
    specialize (Hle y Hy). lia.
  - exists m. split; [set_solver|]. intros y [->%elem_of_singleton|Hy]%elem_of_union; [lia|auto].
Qed.
Definition above_height (h : digest_type → nat) (b : nat) : gset digest_type :=
  filter (λ x, b ≤ h x)%nat (dom forks).

Lemma rounds_spec h n b S V a c :
  tree_closed forks → (∀ x y, follows forks x y → (h x < h y)%nat) →
  P c → c_forks c = marked V → (∀ x, x ∈ S → known x ∧ is_Some (forks !! x)) →
  (∀ y, y ∈ S → b ≤ h y)%nat → (size (above_height h b) ≤ n)%nat →
  ∃ a' V', mark_rounds mark n S a c = (Ok a', set_c_forks (marked V') c) ∧
    ∀ x, x ∈ V' ↔ x ∈ V ∨ ∃ y, y ∈ S ∧ rtc (follows forks) y x.
Proof.
  intros Hcl Hh. revert b S V a c. induction n as [|n IH]; intros b S V a c Hc Ef HS Hb Hn;
    cbn [mark_rounds]; case_decide as HSe.
  1, 3: exists a, V; split; [rewrite <- Ef; by destruct c|set_solver].
  - exfalso. destruct (set_least h S HSe) as (m & Hm & _).
    assert (m ∈ above_height h b); [|assert (above_height h b ≡ ∅) by (apply size_empty_iff; lia); set_solver].
    apply elem_of_filter. split; [by apply Hb|]. by apply elem_of_dom, HS.
  - destruct (set_least h S HSe) as (m & Hm & Hle).
    destruct (round_spec (elements S) V ∅ a c) as (a1 & E); [done| |done|].
    { intros x Hx. by apply HS, elem_of_elements. }
    rewrite list_to_set_elements_L, (left_id_L ∅ (∪)) in E.
    set (c1 := set_c_forks (marked (V ∪ S)) c) in *.
    destruct (IH (Datatypes.S (h m)) (nexts S) (V ∪ S) a1 c1) as (a2 & V' & E2 & HV).
    + apply P_forks; [done|]. intros y. rewrite Ef, !lookup_marked. by destruct (forks !! y).
    + by destruct c.
    + intros y (x & Hx & Hf)%elem_of_nexts. split; [by eapply known_next|by eapply Hcl].
    + intros y (x & Hx & Hf)%elem_of_nexts. specialize (Hle x Hx). apply Hh in Hf. lia.
    + assert (above_height h (Datatypes.S (h m)) ⊂ above_height h b) as Hsub.
      { split.
        - intros y [Hy1 Hy2]%elem_of_filter. apply elem_of_filter. split; [|done].
          specialize (Hb m Hm). lia.
        - intros Hs. assert (m ∈ above_height h (Datatypes.S (h m))) as [Hx _]%elem_of_filter; [|lia].
          apply Hs, elem_of_filter. split; [by apply Hb|by apply elem_of_dom, HS]. }
      apply subset_size in Hsub. lia.
    + exists a2, V'. split.
      * erewrite mbnd_run by exact E. cbn [fst snd]. rewrite E2. unfold c1. by destruct c.
      * intros x. rewrite HV, elem_of_union. split.
        -- intros [[?|Hx]|(y & (z & Hz & Hf)%elem_of_nexts & Hr)]; [by left|right; by exists x|].
           right. exists z. split; [done|]. by eapply rtc_l.
        -- intros [?|(y & Hy & Hr)]; [by left; left|]. inversion Hr as [|? z ? Hf Hr']; subst.
           ++ left; by right.
           ++ right. exists z. split; [|done]. apply elem_of_nexts. by exists y.
Qed.
Lemma mark_recursively_spec S V a c :
  tree_closed forks → ranked forks → P c → c_forks c = marked V →
  (∀ x, x ∈ S → known x ∧ is_Some (forks !! x)) →
  ∃ a' V', mark_recursively mark S a c = (Ok a', set_c_forks (marked V') c) ∧
    ∀ x, x ∈ V' ↔ x ∈ V ∨ ∃ y, y ∈ S ∧ rtc (follows forks) y x.
Proof.
  intros Hcl [h Hh] Hc Ef HS. unfold mark_recursively, gets. rewrite mbnd_run with (a := size (c_forks c)) (c1 := c) by done.
  apply (rounds_spec h _ 0); try done; [intros; lia|].
  assert (size (c_forks c) = size (dom forks)) as ->.
  { rewrite <- size_dom. f_equal. rewrite Ef. apply set_eq. intros x.
    rewrite !elem_of_dom, lookup_marked. by destruct (forks !! x). }
  apply le_S. apply subseteq_size. intros x Hx. by apply elem_of_filter in Hx as [_ Hx].
Qed.
End marking.

Section tree.
Context `{!Fc, !Crypto}.
Implicit Types (c : chain) (b : full_block) (id : digest_type).

Lemma invalidated_next reason r : bf_next_blocks (invalidated reason r) = bf_next_blocks r.
Proof. done. Qed.
Lemma mark_one_invalid_run reason id r c :
  c_forks c !! id = Some r →
  mark_one_invalid reason id c
  = (Ok (invalidated reason r), set_c_forks (<[id := invalidated reason r]> (c_forks c)) c).
Proof. intros E. unfold mark_one_invalid, mbnd, fetch_fork, lift. by rewrite E. Qed.

Lemma mark_invalid_run id reason r c :
  tree_closed (c_forks c) → ranked (c_forks c) → c_forks c !! id = Some r →
  ∃ V, mark_invalid id reason c
      = (Ok (), set_c_forks (marked (c_forks c) (invalidated reason) V) c) ∧
    ∀ x, x ∈ V ↔ rtc (follows (c_forks c)) id x.
Proof.
  intros Hcl Hr Hid. unfold mark_invalid.
  erewrite mbnd_run by (by apply mark_one_invalid_run). rewrite invalidated_next.
  set (c1 := set_c_forks _ c).
  set (mark := λ id (_ : ()), do* r := mark_one_invalid reason id in mreturn (r, ())).
  destruct (mark_recursively_spec (c_forks c) (invalidated reason) (invalidated_next reason)
    ltac:(done) mark (λ _, True) (λ _, True) ltac:(done)) with (S := bf_next_blocks r)
    (V := {[id]} : gset digest_type) (a := ()) (c := c1) as ([] & V & E & HV).
  - intros x [] c0 r0 _ _ Hx. exists (). unfold mark. by rewrite (mbnd_run _ _ _ _ _ (mark_one_invalid_run _ _ _ _ Hx)).
  - done.
  - done.
  - done.
  - done.
  - rewrite <- (right_id_L ∅ (∪) {[id]}). erewrite <- marked_insert by exact Hid.
    by rewrite marked_empty.
  - intros x Hx. split; [done|]. eapply Hcl. by exists r.
  - exists V. split; [exact E|]. intros x. rewrite HV, elem_of_singleton. split.
    + intros [->|(y & Hy & Hx)]; [done|]. eapply rtc_l; [|done]. by exists r.
    + intros Hx. inversion Hx as [|? y ? Hf Hy]; subst; [by left|right]. exists y.
      split; [|done]. destruct Hf as (r' & Er' & ?). congruence.
Qed.

(** C33 (descendants_invalidated). Marking a block invalid ends, and marks with the
    reason exactly the block and the blocks that come after it, directly or not;
    nothing else changes. *)
Theorem descendants_invalidated id reason r c :
  tree_closed (c_forks c) → ranked (c_forks c) → c_forks c !! id = Some r →
  ∃ m, mark_invalid id reason c = (Ok (), set_c_forks m c) ∧
    (∀ x, rtc (follows (c_forks c)) id x → m !! x = invalidated reason <$> c_forks c !! x) ∧
    (∀ x, ¬ rtc (follows (c_forks c)) id x → m !! x = c_forks c !! x).
Proof.
  intros Hcl Hr Hid. destruct (mark_invalid_run id reason r c Hcl Hr Hid) as (V & E & HV).
  eexists. split; [exact E|]. split; intros x Hx; rewrite lookup_marked.
  - destruct (c_forks c !! x); [|done]. simpl. by rewrite decide_True by (by apply HV).
  - destruct (c_forks c !! x); [|done]. simpl. by rewrite decide_False by (by rewrite HV).
Qed.

(** ** The block tree *)
Definition previous_of (r : block_record) : digest_type := bh_previous (bkr_header r).
(** The tree matches the blocks that are stored: a block follows exactly the one
    its header names, it is linked exactly when that one is, and a block that is
    only named by others is linked when it is the one before the first. *)
Record tree_ok (forks : gmap digest_type block_fork_data)
    (records : gmap digest_type block_record) : Prop := {
  tk_next x y : follows forks x y →
    is_Some (forks !! y) ∧ ∃ rec, records !! y = Some rec ∧ previous_of rec = x;
  tk_record id rec : records !! id = Some rec →
    is_Some (forks !! id) ∧ follows forks (previous_of rec) id;
  tk_linked id rec r rp : records !! id = Some rec → forks !! id = Some r →
    forks !! previous_of rec = Some rp → bf_is_linked r = bf_is_linked rp;
  tk_root x r : forks !! x = Some r → records !! x = None → bf_is_linked r = (x =? 0)
}.
Definition chain_tree_ok c : Prop := tree_ok (c_forks c) (c_block_records c).

Lemma mark_linked_run x best c r :
  is_Some (c_block_records c !! x) → c_forks c !! x = Some r →
  ∃ best', mark_linked x best c = (Ok (set_bf_is_linked true r, best'),
    set_c_forks (<[x := set_bf_is_linked true r]> (c_forks c)) c).
Proof.
  intros [rec Hrec] Hx. unfold mark_linked, fetch_fork, store_fork, fetch_block_record, lift, modify.
  unfold mbnd. rewrite Hx. simpl. destruct c. simpl in *. rewrite Hrec. simpl. by eexists.
Qed.
Lemma recursive_mark_as_linked_spec S c :
  (∀ x y, follows (c_forks c) x y → is_Some (c_forks c !! y) ∧ is_Some (c_block_records c !! y)) →
  ranked (c_forks c) → (∀ y, y ∈ S → ∃ x, follows (c_forks c) x y) →
  ∃ best V, recursive_mark_as_linked S c
      = (Ok best, set_c_forks (marked (c_forks c) (set_bf_is_linked true) V) c) ∧
    ∀ x, x ∈ V ↔ ∃ y, y ∈ S ∧ rtc (follows (c_forks c)) y x.
Proof.
  intros Hok Hr HS. unfold recursive_mark_as_linked.
  set (recs := c_block_records c) in *.
  destruct (mark_recursively_spec (c_forks c) (set_bf_is_linked true) ltac:(done) ltac:(done)
    mark_linked (λ c, c_block_records c = recs) (λ y, is_Some (recs !! y))) with
    (S := S) (V := ∅ : gset digest_type) (a := (0, (0, block_fork_data_default))) (c := c)
    as (best & V & E & HV).
  - intros x y Hf. by apply Hok in Hf as [_ ?].
  - intros x a c0 r0 Hc0 Hk Hx. apply mark_linked_run; [by rewrite Hc0|done].
  - done.
  - intros x y Hf. by apply Hok in Hf as [? _].
  - done.
  - done.
  - by rewrite marked_empty.
  - intros y (x & Hf)%HS. by apply Hok in Hf as [? ?].
  - exists best.2, V. erewrite mbnd_run by exact E. split; [done|].
    intros x. rewrite HV. set_solver.
Qed.

(** After [link_previous]: the new block [id], after [prev]. *)
Definition linked_previous (forks : gmap digest_type block_fork_data) (prev id : digest_type)
    : block_fork_data :=
  match forks !! prev with
  | Some r => set_bf_next_blocks ({[id]} ∪ bf_next_blocks r) r
  | None => set_bf_is_linked (prev =? 0) (set_bf_next_blocks {[id]} block_fork_data_default)
  end.
Lemma link_previous_run id b c :
  let prev := bh_previous (fb_head b) in
  let r := linked_previous (c_forks c) prev id in
  link_previous id b c = (Ok r, set_c_forks (<[prev := r]> (c_forks c)) c).
Proof. done. Qed.

Lemma follows_linked forks prev id x y :
  follows (<[prev := linked_previous forks prev id]> forks) x y
  ↔ follows forks x y ∨ (x = prev ∧ y = id).
Proof.
  unfold follows, linked_previous. destruct (decide (x = prev)) as [->|Hx].
  - rewrite lookup_insert_eq. destruct (forks !! prev) as [rp|]; split.
    + intros (r & [= <-] & Hy). simpl in Hy. apply elem_of_union in Hy as [->%elem_of_singleton|Hy]; [by right|].
      left. by exists rp.
    + intros [(r & [= <-] & Hy)|[_ ->]]; eexists; (split; [done|]); simpl; set_solver.
    + intros (r & [= <-] & Hy). simpl in Hy. right. set_solver.
    + intros [(r & [=] & _)|[_ ->]]. eexists. split; [done|]. simpl. set_solver.
  - rewrite lookup_insert_ne by done. split; [by left|]. by intros [?|[? _]].
Qed.

Section stored.
Context (F : gmap digest_type block_fork_data) (recs0 recs : gmap digest_type block_record).
Context (prev id : digest_type) (rec : block_record).
Hypothesis F_ok : tree_ok F recs0.
Hypothesis rec_prev : previous_of rec = prev.
Hypothesis recs_known : recs0 !! id = Some rec ∧ recs = recs0 ∨
  recs0 !! id = None ∧ recs = <[id := rec]> recs0.
Hypothesis id_prev : id ≠ prev.
Hypothesis id_root : id ≠ 0.
Let F1 := <[prev := linked_previous F prev id]> F.

Lemma recs_other y : y ≠ id → recs !! y = recs0 !! y.
Proof. destruct recs_known as [[_ ->]|[_ ->]]; [done|]. intros. by rewrite lookup_insert_ne. Qed.
Lemma recs_id : recs !! id = Some rec.
Proof. destruct recs_known as [[? ->]|[_ ->]]; [done|]. by rewrite lookup_insert_eq. Qed.
Lemma F1_known y : is_Some (F !! y) → is_Some (F1 !! y).
Proof. unfold F1. intros Hy. destruct (decide (y = prev)) as [->|]; [rewrite lookup_insert_eq|rewrite lookup_insert_ne]; by eauto. Qed.
Lemma F1_next x y : follows F1 x y →
  (y = id ∨ is_Some (F1 !! y)) ∧ ∃ rec', recs !! y = Some rec' ∧ previous_of rec' = x.
Proof.
  unfold F1. intros [Hf|[-> ->]]%follows_linked.
  - destruct (tk_next _ _ F_ok _ _ Hf) as [Hy (rec' & Hrec & Hx)]. split; [right; by apply F1_known|].
    destruct (decide (y = id)) as [->|Hne].
    + exists rec. split; [apply recs_id|]. destruct recs_known as [[E _]|[E _]]; congruence.
    + exists rec'. by rewrite recs_other.
  - split; [by left|]. exists rec. by rewrite recs_id.
Qed.
Lemma F1_record y rec' : recs !! y = Some rec' →
  (y = id ∨ is_Some (F1 !! y)) ∧ follows F1 (previous_of rec') y.
Proof.
  intros Hy. unfold F1. destruct (decide (y = id)) as [->|Hne].
  - split; [by left|]. apply follows_linked. right. rewrite recs_id in Hy. split; congruence.
  - rewrite recs_other in Hy by done. destruct (tk_record _ _ F_ok _ _ Hy) as [H1 H2].
    split; [right; by apply F1_known|]. apply follows_linked. by left.
Qed.
(** The previous block keeps its link; a new one is linked as it should be. *)
Lemma F1_lookup y : F1 !! y = (if decide (y = prev) then Some (linked_previous F prev id) else F !! y).
Proof. unfold F1. case_decide; [subst; by rewrite lookup_insert_eq|by rewrite lookup_insert_ne]. Qed.
Lemma F1_is_linked y r : F !! y = Some r → ∃ r1, F1 !! y = Some r1 ∧ bf_is_linked r1 = bf_is_linked r.
Proof.
  intros Hy. rewrite F1_lookup. case_decide as Hd; [subst y|eauto].
  unfold linked_previous. rewrite Hy. by eexists.
Qed.
Lemma F1_linked y rec' r rp : y ≠ id → recs !! y = Some rec' → F1 !! y = Some r →
  F1 !! previous_of rec' = Some rp → bf_is_linked r = bf_is_linked rp.
Proof.
  intros Hne Hrec Hy Hp. rewrite recs_other in Hrec by done.
  destruct (tk_record _ _ F_ok _ _ Hrec) as [[r0 Hr0] (rp0 & Hrp & _)].
  destruct (F1_is_linked _ _ Hr0) as (r1 & E1 & L1). destruct (F1_is_linked _ _ Hrp) as (r2 & E2 & L2).
  pose proof (tk_linked _ _ F_ok _ _ _ _ Hrec Hr0 Hrp). congruence.
Qed.
Lemma F1_root x r : x ≠ id → F1 !! x = Some r → recs !! x = None → bf_is_linked r = (x =? 0).
Proof.
  intros Hne Hx Hrec. rewrite recs_other in Hrec by done.
  destruct (F !! x) as [r0|] eqn:E0.
  - destruct (F1_is_linked _ _ E0) as (r1 & E1 & L1).
    pose proof (tk_root _ _ F_ok _ _ E0 Hrec). congruence.
  - rewrite F1_lookup in Hx. case_decide; [|congruence]. subst x. unfold linked_previous in Hx.
    rewrite E0 in Hx. by simplify_eq.
Qed.
Lemma F1_prev : F1 !! prev = Some (linked_previous F prev id).
Proof. unfold F1. by rewrite lookup_insert_eq. Qed.
(** A block that was stored before is linked as its previous one; one that was
    only named is not linked. *)
Lemma F1_id r : F1 !! id = Some r →
  bf_is_linked r = bf_is_linked (linked_previous F prev id) ∨ bf_is_linked r = false.
Proof.
  rewrite F1_lookup, decide_False by done. intros Hid.
  destruct recs_known as [[E _]|[E _]].
  - left. destruct (tk_record _ _ F_ok _ _ E) as [_ (rp & H1 & _)].
    pose proof (tk_linked _ _ F_ok _ _ _ _ E Hid H1) as ->.
    unfold linked_previous. rewrite rec_prev in H1. by rewrite H1.
  - right. rewrite (tk_root _ _ F_ok _ _ Hid E). by apply Z.eqb_neq.
Qed.

(** The block is stored with the link of the previous one ... *)
Lemma plain_link_ok r :
  bf_next_blocks r = from_option bf_next_blocks ∅ (F1 !! id) →
  bf_is_linked r = bf_is_linked (linked_previous F prev id) →
  (∀ r0, F1 !! id = Some r0 → bf_is_linked r = bf_is_linked r0) →
  tree_ok (<[id := r]> F1) recs.
Proof.
  intros Hnext Hl Hsame.
  assert (∀ x y, follows (<[id := r]> F1) x y ↔ follows F1 x y) as Hf.
  { intros x y. unfold follows. destruct (decide (x = id)) as [->|Hx]; [|by rewrite lookup_insert_ne].
    rewrite lookup_insert_eq. split.
    - intros (r' & [= <-] & Hy). rewrite Hnext in Hy. destruct (F1 !! id) as [r1|]; [by eexists|].
      by apply not_elem_of_empty in Hy.
    - intros (r1 & E1 & Hy). exists r. split; [done|]. by rewrite Hnext, E1. }
  assert (∀ y, y = id ∨ is_Some (F1 !! y) → is_Some (<[id := r]> F1 !! y)) as Hsome.
  { intros y [->|Hy]; [by rewrite lookup_insert_eq|]. destruct (decide (y = id)) as [->|];
      [by rewrite lookup_insert_eq|by rewrite lookup_insert_ne]. }
  split.
  - intros x y [H1 H2]%Hf%F1_next. split; [by apply Hsome|done].
  - intros y rec' [H1 H2]%F1_record. split; [by apply Hsome|by apply Hf].
  - intros y rec' r1 rp Hrec Hy Hp. destruct (decide (y = id)) as [->|Hne].
    + rewrite recs_id in Hrec. rewrite lookup_insert_eq in Hy. injection Hrec as <-. injection Hy as <-.
      rewrite rec_prev, lookup_insert_ne in Hp by done. rewrite F1_prev in Hp. by injection Hp as <-.
    + rewrite lookup_insert_ne in Hy by done. destruct (decide (previous_of rec' = id)) as [Ep|Hpn].
      * rewrite Ep, lookup_insert_eq in Hp. injection Hp as <-.
        destruct (F1_record _ _ Hrec) as [_ (r0 & E0 & _)]. rewrite Ep in E0.
        rewrite (Hsame _ E0). eapply (F1_linked _ _ _ _ Hne Hrec Hy). by rewrite Ep.
      * rewrite lookup_insert_ne in Hp by done. exact (F1_linked _ _ _ _ Hne Hrec Hy Hp).
  - intros x r1 Hx Hrec. destruct (decide (x = id)) as [->|Hne]; [by rewrite recs_id in Hrec|].
    rewrite lookup_insert_ne in Hx by done. exact (F1_root _ _ Hne Hx Hrec).
Qed.

(** ... or it is the missing link, and every block after it gets linked. *)
Lemma missing_link_ok r V :
  F1 !! id = Some r → bf_is_linked (linked_previous F prev id) = true →
  ¬ follows F1 prev prev → ¬ rtc (follows F1) id prev →
  (∀ x, x ∈ V ↔ ∃ y, y ∈ bf_next_blocks r ∧ rtc (follows F1) y x) →
  tree_ok (<[id := set_bf_is_linked true r]> (marked F1 (set_bf_is_linked true) V)) recs.
Proof.
  intros Hid Hprev Hpp Hip HV.
  rewrite (marked_insert F1 (set_bf_is_linked true) V id r Hid). set (W := {[id]} ∪ V).
  assert (∀ x, x ∈ W ↔ rtc (follows F1) id x) as HW.
  { intros x. unfold W. rewrite elem_of_union, elem_of_singleton, HV. split.
    - intros [->|(y & Hy & Hr)]; [done|]. eapply rtc_l; [|done]. by exists r.
    - intros Hr. inversion Hr as [|? y ? (r' & E & Hy) Hr']; subst; [by left|right].
      exists y. split; [congruence|done]. }
  assert (∀ x y, follows (marked F1 (set_bf_is_linked true) W) x y ↔ follows F1 x y) as Hf.
  { intros x y. unfold follows. rewrite lookup_marked. destruct (F1 !! x) as [r'|]; simpl.
    - split; intros (r'' & [= <-] & Hy); eexists; (split; [done|]); revert Hy; by case_decide.
    - split; by intros (? & [=] & _). }
  assert (∀ y, y = id ∨ is_Some (F1 !! y) → is_Some (marked F1 (set_bf_is_linked true) W !! y)) as Hsome.
  { intros y Hy. rewrite lookup_marked. destruct Hy as [->|[r' ->]]; [rewrite Hid|]; by eexists. }
  split.
  - intros x y [H1 H2]%Hf%F1_next. split; [by apply Hsome|done].
  - intros y rec' [H1 H2]%F1_record. split; [by apply Hsome|by apply Hf].
  - intros y rec' r1 rp Hrec Hy Hp. rewrite lookup_marked in Hy, Hp.
    apply fmap_Some in Hy as (ry & Ey & ->). apply fmap_Some in Hp as (rp' & Ep & ->).
    destruct (F1_record _ _ Hrec) as [_ Hfy].
    destruct (decide (previous_of rec' ∈ W)) as [Hpw|Hpw].
    + rewrite (decide_True (P := y ∈ W)); [done|]. apply HW. apply HW in Hpw.
      by eapply rtc_r.
    + destruct (decide (y = id)) as [->|Hne].
      * rewrite decide_True by (by apply HW). rewrite recs_id in Hrec. injection Hrec as <-.
        rewrite rec_prev, F1_prev in Ep. injection Ep as <-. by rewrite Hprev.
      * rewrite decide_False; [exact (F1_linked _ _ _ _ Hne Hrec Ey Ep)|]. intros Hyw%HW. apply Hpw, HW.
        apply rtc_inv_r in Hyw as [->|(z & Hz & Hzy)]; [done|].
        apply F1_next in Hzy as [_ (rec2 & E2 & <-)]. congruence.
  - intros x r1 Hx Hrec. rewrite lookup_marked in Hx. apply fmap_Some in Hx as (rx & Ex & ->).
    assert (x ≠ id) as Hne by (intros ->; by rewrite recs_id in Hrec).
    rewrite decide_False; [exact (F1_root _ _ Hne Ex Hrec)|]. intros Hxw%HW.
    apply rtc_inv_r in Hxw as [->|(z & Hz & Hzx)]; [done|].
    apply F1_next in Hzx as [_ (rec2 & E2 & _)]. congruence.
Qed.
End stored.

Definition same_header b c : Prop :=
  ∀ rec, c_block_records c !! fb_id b = Some rec → db_header (bkr_digest_block rec) = fb_header b.
Lemma new_block_record_run b c seed :
  get_current_random_seed (Database (c_db c)) = Ok seed → same_header b c →
  ∃ recs rec, new_block_record (fb_id b) b c = (Ok (), set_c_block_records recs c) ∧
    db_header (bkr_digest_block rec) = fb_header b ∧
    (c_block_records c !! fb_id b = Some rec ∧ recs = c_block_records c ∨
     c_block_records c !! fb_id b = None ∧ recs = <[fb_id b := rec]> (c_block_records c)).
Proof.
  intros Hseed Hsame. unfold new_block_record, gets, lift, modify. unfold mbnd at 1.
  destruct (c_block_records c !! fb_id b) as [rec|] eqn:E.
  - exists (c_block_records c), rec. split; [by destruct c|]. split; [|by left]. by apply Hsame.
  - unfold mbnd. rewrite Hseed. eexists _, (BlockRecord (digest_block_of b) seed (block_size b)
      (tps_diff (db_wall_clock (c_db c)) (bh_timestamp (fb_head b)))).
    split; [reflexivity|]. split; [done|]. by right.
Qed.
Lemma index_number_run id b c :
  ∃ m, index_number id b c = (Ok (), set_c_fork_numbers m c).
Proof.
  unfold index_number, modify. case_bool_decide; [|by eexists]. exists (c_fork_numbers c).
  by destruct c.
Qed.

Lemma link_block_ok id b c recs0 rec :
  let prev := bh_previous (fb_head b) in
  tree_ok (c_forks c) recs0 → previous_of rec = prev →
  (recs0 !! id = Some rec ∧ c_block_records c = recs0 ∨
   recs0 !! id = None ∧ c_block_records c = <[id := rec]> recs0) →
  id ≠ 0 →
  (∃ h : digest_type → nat, (∀ x y, follows (c_forks c) x y → h x < h y)%nat ∧ (h prev < h id)%nat) →
  ∃ x m, (do* r := link_previous id b in link_block id r) c = (Ok x, set_c_forks m c) ∧
    tree_ok m (c_block_records c).
Proof.
  intros prev Hok Hprev Hrecs Hroot (h & Hh & Hhid).
  assert (id ≠ prev) as Hne by (intros ->; lia).
  erewrite mbnd_run by apply link_previous_run. fold prev.
  set (rp := linked_previous (c_forks c) prev id). set (F1 := <[prev := rp]> (c_forks c)).
  set (c1 := set_c_forks F1 c). unfold link_block, gets. unfold mbnd at 1.
  change (c_forks c1) with F1.
  assert (∀ x y, follows F1 x y → h x < h y)%nat as Hh1.
  { intros x y [Hf|[-> ->]]%follows_linked; [by apply Hh|done]. }
  destruct (F1 !! id) as [r|] eqn:Eid.
  - destruct (negb (bf_is_linked r) && bf_is_linked rp) eqn:Elink.
    + apply andb_true_iff in Elink as [_ Elink].
      destruct (recursive_mark_as_linked_spec (bf_next_blocks r) c1) as (best & V & E & HV).
      * intros x y Hf.
        destruct (F1_next _ _ _ prev id rec Hok Hprev Hrecs x y Hf) as [Hy (rec' & Hrec' & _)].
        split; [|by exists rec']. destruct Hy as [->|Hy]; [by exists r|done].
      * by exists h.
      * intros y Hy. exists id, r. done.
      * exists best. eexists. split.
        { erewrite mbnd_run by exact E. reflexivity. }
        apply (missing_link_ok _ _ _ _ id rec Hok Hprev Hrecs Hne Hroot r V Eid Elink); [| |exact HV].
        -- intros Hf. apply Hh1 in Hf. lia.
        -- intros Hr.
           assert (∀ x y, rtc (follows F1) x y → h x ≤ h y)%nat as Hle.
           { intros x y. induction 1 as [|x y z Hf _ IH]; [done|]. apply Hh1 in Hf. lia. }
           apply Hle in Hr. lia.
    + exists (id, r), (<[id := r]> F1). split; [reflexivity|].
      eapply (plain_link_ok _ _ _ _ id rec Hok Hprev Hrecs Hne); fold rp F1.
      * by rewrite Eid.
      * destruct (F1_id _ _ _ _ id rec Hok Hprev Hrecs Hne Hroot r Eid) as [E|E]; [done|].
        fold rp. rewrite E in *. simpl in Elink. by rewrite Elink.
      * intros r0. rewrite Eid. by intros [= <-].
  - eexists _, _. split; [reflexivity|].
    eapply (plain_link_ok _ _ _ _ id rec Hok Hprev Hrecs Hne); fold rp F1; try (by rewrite Eid).
    done.
Qed.

(** ** Blocks that extend the chain *)

(** What the chain says: its state, its numbering and what waits for a block. *)
Definition same_chain c c' : Prop :=
  c_db c' = c_db c ∧ c_block_ids c' = c_block_ids c ∧
  c_pending_transactions c' = c_pending_transactions c ∧
  c_pending_fees c' = c_pending_fees c ∧ c_pending_state c' = c_pending_state c.
#[local] Instance same_chain_refl : Reflexive same_chain.
Proof. by intros c. Qed.
#[local] Instance same_chain_trans : Transitive same_chain.
Proof. intros c1 c2 c3 (?&?&?&?&?) (?&?&?&?&?). split_and!; congruence. Qed.
Definition same_records c c' : Prop := c_block_records c' = c_block_records c.
#[local] Instance same_records_preorder : PreOrder same_records.
Proof. split; [by intros c|]. intros c1 c2 c3. unfold same_records. congruence. Qed.

(** An operation that stays within [R], also when it throws. *)
Definition leaves {A} (R : relation chain) (m : chain_m A) : Prop := ∀ c, R c (m c).2.
Section leaves.
Context (R : relation chain) `{!Reflexive R, !Transitive R}.
Lemma leaves_bind {A B} (m : chain_m A) (k : A → chain_m B) :
  leaves R m → (∀ a, leaves R (k a)) → leaves R (mbnd m k).
Proof.
  intros Hm Hk c. specialize (Hm c). unfold mbnd. destruct (m c) as [[a|e] c1]; [|done].
  etransitivity; [exact Hm|]. apply Hk.
Qed.
Lemma leaves_still {A} (r : chain → result A) : leaves R (λ c, (r c, c)).
Proof. by intros c. Qed.
Lemma leaves_mfold {A S} (f : A → S → chain_m S) l s :
  (∀ x s, leaves R (f x s)) → leaves R (mfold f l s).
Proof.
  intros Hf. revert s. induction l as [|x l IH]; intros s; [apply leaves_still|].
  apply leaves_bind; [apply Hf|done].
Qed.
Ltac leaves_step :=
  match goal with
  | |- leaves _ (mbnd _ _) => apply leaves_bind; [|intros ?]
  | |- leaves _ (lift _) => apply leaves_still
  | |- leaves _ (gets _) => apply leaves_still
  | |- leaves _ (throw _) => apply leaves_still
  | |- leaves _ (mreturn _) => apply leaves_still
  | |- leaves _ (require _ _) => apply leaves_still
  | |- leaves _ (modify _) => intros ?; cbn [modify snd]
  | |- leaves _ (mfold _ _ _) => apply leaves_mfold; intros ? ?
  | |- leaves _ (match ?x with _ => _ end) => destruct x
  | |- leaves _ (let _ := _ in _) => cbv zeta
  end.
Lemma mark_rounds_leaves {A} (mark : digest_type → A → chain_m (block_fork_data * A)) n S a :
  (∀ x a, leaves R (mark x a)) → leaves R (mark_rounds mark n S a).
Proof.
  intros Hm. revert S a. induction n as [|n IH]; intros S a; cbn [mark_rounds]; repeat leaves_step;
    [apply Hm|apply IH].
Qed.

Hypothesis R_forks : ∀ c m, R c (set_c_forks m c).
Lemma mark_one_invalid_leaves reason id : leaves R (mark_one_invalid reason id).
Proof. unfold mark_one_invalid, fetch_fork, store_fork. repeat leaves_step. apply R_forks. Qed.
Lemma mark_invalid_leaves id reason : leaves R (mark_invalid id reason).
Proof.
  unfold mark_invalid, recursive_mark_as_invalid, mark_recursively. leaves_step.
  { apply mark_one_invalid_leaves. }
  repeat leaves_step. apply mark_rounds_leaves. intros x ?. leaves_step; [|by intros ?].
  apply mark_one_invalid_leaves.
Qed.
Lemma mark_linked_leaves id best : leaves R (mark_linked id best).
Proof.
  unfold mark_linked, fetch_fork, store_fork, fetch_block_record. repeat leaves_step. apply R_forks.
Qed.
Lemma link_block_leaves id prev : leaves R (link_block id prev).
Proof.
  unfold link_block, store_fork, recursive_mark_as_linked, mark_recursively.
  repeat leaves_step; try apply R_forks. apply mark_rounds_leaves, mark_linked_leaves.
Qed.
Lemma link_previous_leaves id b : leaves R (link_previous id b).
Proof. unfold link_previous, store_fork. repeat leaves_step; apply R_forks. Qed.
Hypothesis R_undo : ∀ c m, R c (set_c_undo_states m c).
Lemma save_undo_state_leaves id p : leaves R (save_undo_state id p).
Proof. unfold save_undo_state. repeat leaves_step; apply R_undo. Qed.
End leaves.
Lemma index_number_same id b c :
  same_chain c (index_number id b c).2 ∧ same_records c (index_number id b c).2.
Proof. unfold index_number, modify. by case_bool_decide. Qed.
Lemma store_and_index_leaves id b : leaves same_chain (store_and_index id b).
Proof.
  unfold store_and_index. apply leaves_bind; [apply _|by intros ?|intros _].
  apply leaves_bind; [apply _| |intros _].
  { intros c. unfold new_block_record, mbnd, gets, lift, modify, mreturn.
    destruct (c_block_records c !! id); [done|]. by destruct (get_current_random_seed _). }
  apply leaves_bind; [apply _| |intros _].
  { intros c. apply index_number_same. }
  apply leaves_bind; [apply _| |intros ?].
  - by apply link_previous_leaves; try apply _.
  - by apply link_block_leaves; try apply _.
Qed.

Lemma store_and_index_run b c seed :
  chain_tree_ok c → get_current_random_seed (Database (c_db c)) = Ok seed →
  same_header b c → fb_id b ≠ 0 →
  (∃ h : digest_type → nat, (∀ x y, follows (c_forks c) x y → h x < h y)%nat ∧
     (h (bh_previous (fb_head b)) < h (fb_id b))%nat) →
  ∃ x c', store_and_index (fb_id b) b c = (Ok x, c') ∧ chain_tree_ok c' ∧ same_chain c c' ∧
    c_blocks c' !! fb_id b = Some b ∧
    (∃ rec, c_block_records c' !! fb_id b = Some rec ∧
            db_header (bkr_digest_block rec) = fb_header b) ∧
    ∀ id, id ≠ fb_id b → c_block_records c' !! id = c_block_records c !! id.
Proof.
  intros Hok Hseed Hsame Hroot Hrank.
  pose proof (store_and_index_leaves (fb_id b) b c) as Hl. unfold store_and_index in *.
  set (c1 := set_c_blocks (<[fb_id b := b]> (c_blocks c)) c) in *.
  rewrite (mbnd_run _ _ c () c1) in * by done.
  destruct (new_block_record_run b c1 seed Hseed Hsame) as (recs & rec & E & Hhead & Hrecs).
  rewrite (mbnd_run _ _ _ _ _ E) in *.
  destruct (index_number_run (fb_id b) b (set_c_block_records recs c1)) as (m & E2).
  rewrite (mbnd_run _ _ _ _ _ E2) in *.
  set (c3 := set_c_fork_numbers m _) in *.
  assert (previous_of rec = bh_previous (fb_head b)) as Hprev
    by (unfold previous_of, bkr_header; by rewrite Hhead).
  destruct (link_block_ok (fb_id b) b c3 (c_block_records c) rec) as (x & F & E3 & Hok3); try done.
  rewrite E3 in Hl. exists x, (set_c_forks F c3). split; [exact E3|]. split; [exact Hok3|].
  split; [exact Hl|]. split; [apply lookup_insert_eq|].
  change (c_block_records (set_c_forks F c3)) with recs.
  destruct Hrecs as [[Hid ->]|[_ ->]]; [split; [by exists rec|done]|].
  split; [exists rec; by rewrite lookup_insert_eq|]. intros id Hne. by rewrite lookup_insert_ne.
Qed.

(** C14 (store_keeps_tree). Storing a block succeeds and keeps the block tree
    matching the stored blocks: each follows the one its header names and is
    linked exactly when that one is, also when the block is the missing link to a
    branch that arrived before it; the chain itself does not change. *)
Theorem store_keeps_tree b c seed :
  chain_tree_ok c → get_current_random_seed (Database (c_db c)) = Ok seed →
  same_header b c → fb_id b ≠ 0 →
  (∃ h : digest_type → nat, (∀ x y, follows (c_forks c) x y → h x < h y)%nat ∧
     (h (bh_previous (fb_head b)) < h (fb_id b))%nat) →
  ∃ x c', store_and_index (fb_id b) b c = (Ok x, c') ∧ chain_tree_ok c' ∧
    c_db c' = c_db c ∧ c_blocks c' !! fb_id b = Some b ∧
    is_Some (c_block_records c' !! fb_id b).
Proof.
  intros Hok Hseed Hsame Hroot Hrank.
  destruct (store_and_index_run b c seed Hok Hseed Hsame Hroot Hrank)
    as (x & c' & E & Hok' & (Hdb & _) & Hb & (rec & Hrec & _) & _).
  exists x, c'. by split_and!.
Qed.

Lemma save_undo_state_forks id p c : c_forks (save_undo_state id p c).2 = c_forks c.
Proof.
  unfold save_undo_state, mbnd, gets, lift, modify. case_match; [done|].
  destruct (get_undo_state _ _); [|done]. case_match; [|done]. by destruct (of_option _ _).
Qed.
Lemma apply_pending_forks p c : c_forks (apply_pending p c).2 = c_forks c.
Proof.
  unfold apply_pending, mbnd, lift. destruct (apply_changes _ _) as [[]|]; done.
Qed.
Lemma apply_pending_err p c e c' : apply_pending p c = (Err e, c') → c' = c.
Proof.
  unfold apply_pending, mbnd, lift, modify, throw.
  destruct (apply_changes _ _) as [[]|]; by intros [=].
Qed.
Lemma mark_included_run id v c r : c_forks c !! id = Some r →
  mark_included id v c = (Ok (), set_c_forks
    (<[id := if v then set_bf_is_valid (Some true) (set_bf_is_included v r)
             else set_bf_is_included v r]> (c_forks c)) c).
Proof. intros E. unfold mark_included, fetch_fork, lift, mbnd. by rewrite E. Qed.

Lemma save_undo_state_kept id p c :
  c_block_records (save_undo_state id p c).2 = c_block_records c ∧
  c_blocks (save_undo_state id p c).2 = c_blocks c.
Proof.
  unfold save_undo_state, mbnd, gets, lift, modify. case_match; [done|].
  destruct (get_undo_state _ _); [|done]. case_match; [|done]. by destruct (of_option _ _).
Qed.
(** An extension that fails has not touched the chain. *)
Definition same_tree c c' : Prop :=
  c_forks c' = c_forks c ∧ c_block_records c' = c_block_records c.
Lemma extend_with_err b c e c' :
  is_Some (c_forks c !! fb_id b) → extend_with b c = (Err e, c') →
  same_chain c c' ∧ same_tree c c'.
Proof.
  intros [r Hid]. unfold extend_with. intros Hr.
  apply mbnd_Err in Hr as [[= _ <-]|(key & c1 & [_ ->]%lift_Ok & Hr)]; [done|].
  apply mbnd_Err in Hr as [Hr|(u & c1 & [_ ->]%require_Ok & Hr)]; [by injection Hr as _ <-|].
  apply mbnd_Err in Hr as [[= _ <-]|(u' & c1 & [_ ->]%lift_Ok & Hr)]; [done|].
  apply mbnd_Err in Hr as [[= _ <-]|(s & c1 & [_ ->]%lift_Ok & Hr)]; [done|].
  destruct s as [|d|p prev]; [by injection Hr as _ <-..|].
  pose proof (save_undo_state_leaves same_chain ltac:(done) (fb_id b) p c) as Hl.
  pose proof (save_undo_state_forks (fb_id b) p c) as Hf.
  pose proof (proj1 (save_undo_state_kept (fb_id b) p c)) as Hk.
  apply mbnd_Err in Hr as [Hr|(w & c1 & Hu & Hr)]; [by rewrite Hr in *|].
  rewrite Hu in *. cbn [snd] in *.
  apply mbnd_Err in Hr as [->%apply_pending_err|(w' & c2 & Ha & Hr)]; [done|].
  pose proof (apply_pending_forks p c1) as Hf'. rewrite Ha in Hf'. cbn [snd] in Hf'.
  erewrite mbnd_run in Hr by (apply mark_included_run; by rewrite Hf', Hf). discriminate.
Qed.
Lemma extend_chain_err b c e c' :
  is_Some (c_forks c !! fb_id b) → extend_chain b c = (Err e, c') → same_chain c c'.
Proof.
  intros Hid. unfold extend_chain. intros Hr.
  apply mbnd_Err in Hr as [Hr|(u & c1 & _ & Hr)]; [|discriminate].
  unfold catch in Hr. destruct (extend_with b c) as [[u|e'] c1] eqn:E; [discriminate|].
  etransitivity; [by eapply (extend_with_err b c e')|].
  apply mbnd_Err in Hr as [Hr|(w & c2 & Hm & Hr)].
  - pose proof (mark_invalid_leaves same_chain ltac:(done) (fb_id b) e' c1) as Hl. by rewrite Hr in Hl.
  - pose proof (mark_invalid_leaves same_chain ltac:(done) (fb_id b) e' c1) as Hl. rewrite Hm in Hl.
    by injection Hr as _ <-.
Qed.
Lemma link_block_stored id prev c x c' :
  link_block id prev c = (Ok x, c') → is_Some (c_forks c' !! id).
Proof.
  unfold link_block. intros Hr. apply mbnd_Ok in Hr as (known & c1 & _ & Hr).
  assert (∀ (y : digest_type * block_fork_data) r c2,
    (do* _ := store_fork id r in mreturn y) c2 = (Ok x, c') → is_Some (c_forks c' !! id)) as Hs.
  { intros y r c2 Hr2. injection Hr2 as _ <-. simpl. by rewrite lookup_insert_eq. }
  destruct known as [r|]; [|by eapply Hs].
  destruct (_ && _); [|by eapply Hs].
  apply mbnd_Ok in Hr as (best & c2 & _ & Hr). by eapply Hs.
Qed.
Lemma new_block_record_stored id b c u c' :
  new_block_record id b c = (Ok u, c') → is_Some (c_block_records c' !! id).
Proof.
  unfold new_block_record, mbnd, gets, lift, modify, mreturn.
  destruct (c_block_records c !! id) as [r|] eqn:E; [intros [= _ <-]; by exists r|].
  destruct (get_current_random_seed _); [|done]. intros [= _ <-]. simpl. by rewrite lookup_insert_eq.
Qed.
Lemma store_and_index_stored id b c x c' :
  store_and_index id b c = (Ok x, c') → is_Some (c_forks c' !! id) ∧ is_Some (c_block_records c' !! id).
Proof.
  unfold store_and_index. intros Hr. apply mbnd_Ok in Hr as (u1 & c1 & _ & Hr).
  apply mbnd_Ok in Hr as (u2 & c2 & Hrec%new_block_record_stored & Hr).
  apply mbnd_Ok in Hr as (u3 & c3 & Hi & Hr). apply mbnd_Ok in Hr as (prev & c4 & Hp & Hr).
  split; [by eapply link_block_stored|].
  pose proof (proj2 (index_number_same id b c2)) as E1. rewrite Hi in E1.
  pose proof (link_previous_leaves same_records ltac:(done) id b c3) as E2. rewrite Hp in E2.
  pose proof (link_block_leaves same_records ltac:(done) id prev c4) as E3. rewrite Hr in E3.
  unfold same_records in *. simpl in *. by rewrite E3, E2, E1.
Qed.
Lemma apply_pending_Ok p c u c' : apply_pending p c = (Ok u, c') →
  ∃ d, apply_changes p (Database (c_db c)) = Ok (Database d) ∧ c' = set_c_db d c.
Proof.
  unfold apply_pending, mbnd, lift, modify, throw.
  destruct (apply_changes _ _) as [[]|]; try done. intros [= _ <-]. by eexists.
Qed.

Definition included (r : block_fork_data) : block_fork_data :=
  set_bf_is_valid (Some true) (set_bf_is_included true r).
(** What a successful extension checked and did. *)
Record extended (key : public_key_type) b c c' : Prop := {
  ex_signee : block_signee_of b c = (Ok key, c);
  ex_header : verify_header b key (c_db c) = Ok ();
  ex_forks : ∃ r, c_forks c !! fb_id b = Some r ∧
    c_forks c' = <[fb_id b := included r]> (c_forks c);
  ex_applied : ∃ p prev d,
    apply_block b key (c_db c) (fresh_pending c) = Ok (Pending p prev) ∧
    apply_changes p (Database (c_db c)) = Ok (Database d) ∧
    db_properties (c_db c') = db_properties d ∧ db_assets (c_db c') = db_assets d ∧
    db_accounts (c_db c') = db_accounts d ∧ db_balances (c_db c') = db_balances d;
  ex_head : db_head_block_header (c_db c') = fb_header b ∧ db_head_block_id (c_db c') = fb_id b;
  ex_ids : c_block_ids c' = <[bh_block_num (fb_head b) := fb_id b]> (c_block_ids c);
  ex_records : c_block_records c' = c_block_records c ∧ c_blocks c' = c_blocks c
}.
Lemma extend_chain_Ok b c u c' : extend_chain b c = (Ok u, c') → ∃ key, extended key b c c'.
Proof.
  unfold extend_chain. intros Hr. apply mbnd_Ok in Hr as (w & c5 & Hr & Hp).
  injection Hp as _ <-. unfold catch in Hr.
  destruct (extend_with b c) as [[u'|e] c6] eqn:E.
  2: { apply mbnd_Ok in Hr as (? & ? & _ & Hr). discriminate. }
  injection Hr as _ <-. unfold extend_with in E.
  apply mbnd_Ok in E as (key & c1 & Hkey & E). pose proof Hkey as [_ ->]%lift_Ok.
  apply mbnd_Ok in E as (w1 & c1 & [_ ->]%require_Ok & E).
  apply mbnd_Ok in E as ([] & c1 & [Hh ->]%lift_Ok & E).
  apply mbnd_Ok in E as (s & c1 & [Hs ->]%lift_Ok & E).
  destruct s as [|d|p prev]; [discriminate..|].
  apply mbnd_Ok in E as (w2 & c1 & Hu & E).
  pose proof (save_undo_state_leaves same_chain ltac:(done) (fb_id b) p c) as Hl. rewrite Hu in Hl. cbn [snd] in Hl.
  pose proof (save_undo_state_forks (fb_id b) p c) as Hf. rewrite Hu in Hf. cbn [snd] in Hf.
  pose proof (save_undo_state_kept (fb_id b) p c) as Hk. rewrite Hu in Hk. cbn [snd] in Hk.
  apply mbnd_Ok in E as (w3 & c2 & Ha & E).
  apply apply_pending_Ok in Ha as (d & Ha & ->). destruct Hl as (Hdb & Hids & _). rewrite Hdb in Ha.
  destruct (c_forks c !! fb_id b) as [r|] eqn:Er.
  2: { apply mbnd_Ok in E as (? & ? & E & _). unfold mark_included, fetch_fork, mbnd, lift in E.
       cbn in E. by rewrite Hf, Er in E. }
  erewrite mbnd_run in E by (apply mark_included_run; simpl; by rewrite Hf, Er).
  injection E as _ <-. exists key. split; try done.
  - exists r. split; [done|]. simpl. by rewrite Hf.
  - by exists p, prev, d.
  - simpl. by rewrite Hids.
Qed.

(** C9 (rejected_block_contained). A block on top of the head that is refused, for
    whatever reason, leaves the chain exactly as it was: its state, its head and
    numbering, and the transactions waiting for a block. *)
Theorem rejected_block_contained b c e c' :
  bh_previous (fb_head b) = c_head_id c → push_block b c = (Err e, c') → same_chain c c'.
Proof.
  intros Hprev. unfold push_block. intros Hr.
  apply mbnd_Err in Hr as [Hr|(u & c1 & [_ ->]%require_Ok & Hr)]; [by injection Hr as _ <-|].
  cbv zeta in Hr. apply mbnd_Err in Hr as [Hr|(h & c1 & [= <- <-] & Hr)]; [discriminate|].
  pose proof (store_and_index_leaves (fb_id b) b c) as Hl.
  apply mbnd_Err in Hr as [Hr|(x & c1 & Hst & Hr)]; [by rewrite Hr in Hl|].
  rewrite Hst in Hl. cbn [snd] in Hl. etransitivity; [exact Hl|].
  apply store_and_index_stored in Hst as [Hid Hrec].
  apply mbnd_Err in Hr as [Hr|(r & c2 & [_ ->]%lift_Ok & Hr)]; [by injection Hr as _ <-|].
  rewrite (proj2 (Z.eqb_eq _ _) Hprev) in Hr.
  apply mbnd_Err in Hr as [Hr|(r' & c2 & Hx & Hr)].
  - apply mbnd_Err in Hr as [Hr|(w & c2 & Hx & Hr)]; [by eapply extend_chain_err|].
    apply extend_chain_Ok in Hx as [key [_ _ (r0 & _ & Ef) _ _ _ _]].
    unfold new_fork_data, lift in Hr. rewrite Ef, lookup_insert_eq in Hr. discriminate.
  - apply mbnd_Ok in Hx as (w & c3 & Hx & Hf). apply lift_Ok in Hf as [_ ->].
    apply extend_chain_Ok in Hx as [key [_ _ _ _ _ _ [Erec _]]].
    apply mbnd_Err in Hr as [Hr|(? & ? & _ & Hr)]; [|discriminate].
    unfold require in Hr. rewrite Erec, bool_decide_eq_true_2 in Hr by done. discriminate.
Qed.

Lemma verify_header_Ok b key d : verify_header b key d = Ok () →
  let h := fb_head b in let head := sbh_header (db_head_block_header d) in
  (1 < bh_block_num h →
     bh_block_num h = u32 (bh_block_num head + 1) ∧ bh_timestamp head < bh_timestamp h) ∧
  bh_previous h = db_head_block_id d ∧
  bh_timestamp h mod BTS_BLOCKCHAIN_BLOCK_INTERVAL_SEC = 0 ∧
  bh_timestamp h ≤ tps_add (db_wall_clock d) (BTS_BLOCKCHAIN_BLOCK_INTERVAL_SEC * 2) ∧
  ∃ active a, get_active_delegates (Database d) = Ok active ∧
    get_slot_signee (bh_timestamp h) active d = Ok a ∧ key = ac_active_key a.
Proof.
  unfold verify_header. cbv zeta. intros Hr.
  apply ensure_Ok in Hr as [H1 Hr]. apply ensure_Ok in Hr as [H2 Hr].
  apply ensure_Ok in Hr as [H3 Hr]. apply ensure_Ok in Hr as [H4 Hr].
  apply ensure_Ok in Hr as [H5 Hr]. do 2 apply ensure_Ok in Hr as [_ Hr].
  apply rbind_Ok in Hr as (active & Ha & Hr). apply rbind_Ok in Hr as (a & Hs & Hr).
  apply ensure_Ok in Hr as [Hk _]. split_and!; [|lia..|].
  - intros Hn. rewrite (proj2 (Z.ltb_lt _ _) Hn) in H1, H4. simpl in H1, H4. lia.
  - exists active, a. split_and!; [done..|lia].
Qed.

(** C8 (accepted_block_scheduled). A block that is accepted on top of the head is
    signed with the active key of the delegate the active list schedules for its
    slot, starts a slot and is not from the future; if its number is greater than
    1, it is the number after the head's and its time is later than the head's;
    and the block is then the head, found under its number and marked as part of
    the chain.  For a block numbered 0 or 1 the number and the time are not
    compared with the head's ([renumbered_block_accepted]). *)
Theorem accepted_block_scheduled b c r c' :
  0 ≤ bh_block_num (fb_head b) →
  bh_previous (fb_head b) = c_head_id c → push_block b c = (Ok r, c') →
  (∃ key active a,
     signee (BTS_CHECK_CANONICAL_SIGNATURE_FORK_BLOCK_NUM <? bh_block_num (fb_head b))
       (fb_header b) = Ok key ∧
     get_active_delegates (Database (c_db c)) = Ok active ∧
     get_slot_signee (bh_timestamp (fb_head b)) active (c_db c) = Ok a ∧ key = ac_active_key a) ∧
  (1 < bh_block_num (fb_head b) →
     bh_block_num (fb_head b) = u32 (bh_block_num (c_head c) + 1) ∧
     bh_timestamp (c_head c) < bh_timestamp (fb_head b)) ∧
  bh_timestamp (fb_head b) mod BTS_BLOCKCHAIN_BLOCK_INTERVAL_SEC = 0 ∧
  bh_timestamp (fb_head b)
    ≤ tps_add (db_wall_clock (c_db c)) (BTS_BLOCKCHAIN_BLOCK_INTERVAL_SEC * 2) ∧
  c_head c' = fb_head b ∧ c_head_id c' = fb_id b ∧
  c_block_ids c' !! bh_block_num (fb_head b) = Some (fb_id b) ∧
  c_forks c' !! fb_id b = Some r ∧ bf_is_included r = true ∧ bf_is_valid r = Some true.
Proof.
  intros Hn Hprev. unfold push_block. intros Hr.
  apply mbnd_Ok in Hr as (u & c1 & [_ ->]%require_Ok & Hr). cbv zeta in Hr.
  apply mbnd_Ok in Hr as (h & c1 & [= <- <-] & Hr).
  pose proof (store_and_index_leaves (fb_id b) b c) as Hl.
  apply mbnd_Ok in Hr as (x & c1 & Hst & Hr). rewrite Hst in Hl. destruct Hl as (Edb & _).
  cbn [snd] in Edb. apply mbnd_Ok in Hr as (r0 & c2 & [_ ->]%lift_Ok & Hr).
  rewrite (proj2 (Z.eqb_eq _ _) Hprev) in Hr. apply mbnd_Ok in Hr as (r1 & c2 & Hx & Hr).
  apply mbnd_Ok in Hr as (u' & c3 & [_ ->]%require_Ok & Hr). injection Hr as -> <-.
  apply mbnd_Ok in Hx as (u'' & c3 & Hx & Hf). apply lift_Ok in Hf as [Hf ->].
  apply of_option_Ok in Hf. apply extend_chain_Ok in Hx as [key [Hs Hh Hforks _ [Eh Eid] Eids _]].
  rewrite Edb in Hh. apply verify_header_Ok in Hh as (H1 & _ & H2 & H3 & active & a & Ha & Hsl & Hk).
  split_and!; try done.
  - exists key, active, a. split_and!; try done.
    apply lift_Ok in Hs as [Hs _].
    assert (last_checkpoint_block_num = 0) as E0 by (vm_compute; reflexivity).
    rewrite E0, (proj2 (Z.ltb_ge _ _)) in Hs by lia. exact Hs.
  - unfold c_head. by rewrite Eh.
  - rewrite Eids. by rewrite lookup_insert_eq.
  - destruct Hforks as (rr & _ & Ef). rewrite Ef, lookup_insert_eq in Hf. by injection Hf as <-.
  - destruct Hforks as (rr & _ & Ef). rewrite Ef, lookup_insert_eq in Hf. by injection Hf as <-.
Qed.

(** ** The history of a fork *)

(** The blocks of a fork, each before the one it follows, back to one that is part
    of the chain, or to the place before the first block. *)
Inductive history_from c : digest_type → list digest_type → Prop :=
  | history_root id h :
      get_block_header id c = (Ok h, c) → bh_previous h = 0 → history_from c id [id; 0]
  | history_included id h r :
      get_block_header id c = (Ok h, c) → c_forks c !! bh_previous h = Some r →
      bf_is_linked r = true → bf_is_included r = true →
      history_from c id [id; bh_previous h]
  | history_step id h r l :
      get_block_header id c = (Ok h, c) → bh_previous h ≠ 0 →
      c_forks c !! bh_previous h = Some r → bf_is_linked r = true → bf_is_included r = false →
      history_from c (bh_previous h) l → history_from c id (id :: l).
Definition records_ranked c : Prop :=
  ∃ h : digest_type → nat, ∀ id rec, c_block_records c !! id = Some rec →
    (h (previous_of rec) < h id)%nat.

Definition at_most_height c (h : digest_type → nat) id : gset digest_type :=
  filter (λ x, h x ≤ h id)%nat (dom (c_block_records c)).
Lemma fork_history_from_spec n h id c :
  (∀ x rec, c_block_records c !! x = Some rec → h (previous_of rec) < h x)%nat →
  (size (at_most_height c h id) < n)%nat →
  ∃ r, fork_history_from n id c = (r, c) ∧ r ≠ Err undefined ∧
    ∀ l, r = Ok l → history_from c id (id :: l).
Proof.
  intros Hh. revert id. induction n as [|n IH]; intros id Hn; [lia|]. cbn [fork_history_from].
  destruct (c_block_records c !! id) as [rec|] eqn:Er.
  2: { exists (Err unknown_block). unfold mbnd at 1. unfold get_block_header, lift. by rewrite Er. }
  assert (get_block_header id c = (Ok (bkr_header rec), c)) as Eh
    by (unfold get_block_header, lift; by rewrite Er).
  rewrite (mbnd_run _ _ _ _ _ Eh).
  destruct (bh_previous (bkr_header rec) =? 0) eqn:E0.
  { eexists. split; [done|]. split; [done|]. intros l [= <-]. apply Z.eqb_eq in E0. rewrite E0.
    by eapply history_root. }
  apply Z.eqb_neq in E0.
  destruct (c_forks c !! bh_previous (bkr_header rec)) as [rp|] eqn:Ef.
  2: { exists (Err key_not_found). unfold mbnd at 1. unfold fetch_fork, lift. by rewrite Ef. }
  rewrite (mbnd_run _ _ c rp c) by (unfold fetch_fork, lift; by rewrite Ef).
  destruct (bf_is_linked rp) eqn:El.
  2: { exists (Err assert_failure). done. }
  rewrite (mbnd_run _ _ c () c) by done.
  destruct (bf_is_included rp) eqn:Ei.
  { eexists. split; [done|]. split; [done|]. intros l [= <-]. by eapply history_included. }
  destruct (IH (bh_previous (bkr_header rec))) as (r & E & Hne & Hr).
  { assert (at_most_height c h (bh_previous (bkr_header rec)) ⊂ at_most_height c h id) as Hsub.
    { pose proof (Hh _ _ Er) as Hlt. unfold previous_of in Hlt. split.
      - intros y [Hy1 Hy2]%elem_of_filter. apply elem_of_filter. split; [lia|done].
      - intros Hs. assert (id ∈ at_most_height c h (bh_previous (bkr_header rec)))
          as [Hx _]%elem_of_filter; [|lia].
        apply Hs, elem_of_filter. split; [done|]. apply elem_of_dom. by exists rec. }
    apply subset_size in Hsub. lia. }
  unfold mbnd. rewrite E. destruct r as [l|e]; [|exists (Err e); split; [done|]; split; [congruence|done]].
  eexists. split; [done|]. split; [done|]. intros l' [= <-]. eapply history_step; try done. by apply Hr.
Qed.

(** C34 (fork_history_linked). Looking for the history of a block ends and changes
    nothing; what it returns is the chain of previous blocks from the block on,
    linked and not yet included, up to the first one that is included or to the
    place before the first block; so popping to its last element and applying the
    others in reverse builds the fork. *)
Theorem fork_history_linked id c :
  records_ranked c →
  ∃ r, get_fork_history id c = (r, c) ∧ r ≠ Err undefined ∧ ∀ l, r = Ok l → history_from c id l.
Proof.
  intros [h Hh]. unfold get_fork_history.
  rewrite (mbnd_run _ _ c (size (c_block_records c)) c) by done.
  destruct (fork_history_from_spec (S (size (c_block_records c))) h id c Hh) as (r & E & Hne & Hr).
  { rewrite <- size_dom. apply le_n_S, subseteq_size. intros x Hx. by apply elem_of_filter in Hx as [_ Hx]. }
  unfold mbnd. rewrite E. destruct r as [l|e].
  - eexists. split; [done|]. split; [done|]. intros l' [= <-]. by apply Hr.
  - exists (Err e). split; [done|]. split; [congruence|done].
Qed.
End tree.
