(* ===== verification/ChainRuns.v ===== *)
(** Whole runs over the chain: a valid block on top of the head is accepted and
    leaves a chain in order, and popping it brings the chain back; proofs over
    [Forks] with the tables of [ApplyUndo] and the tree of [ForkFacts]. *)
From S2P Require Export Tidy ForkFacts.

Section chain_runs.
Context `{!Fc, !Crypto}.
Implicit Types (c : chain) (b : full_block) (d : chain_database) (p u : pending_chain_state)
  (id : digest_type).

(** ** Databases without null records *)
Lemma merged_wf {V} `{Countable K} (null : V → bool) (P : K → V → Prop) (m t t' : gmap K V) k v :
  (∀ k, t' !! k = merged null m t k) →
  (∀ k v, m !! k = Some v → null v = false → P k v) → (∀ k v, t !! k = Some v → null v = false ∧ P k v) →
  t' !! k = Some v → null v = false ∧ P k v.
Proof.
  intros E Hm Ht. rewrite E. unfold merged, drop_null. destruct (m !! k) as [w|] eqn:Ek; [|apply Ht].
  simpl. destruct (null w) eqn:En; [done|]. intros [= <-]. auto.
Qed.
Lemma applied_wf p d d' : db_wf d → keyed p → trx_keyed p → applied p d d' → db_wf d'.
Proof.
  intros [] [] Ht []. split.
  - intros k v Hv. destruct (decide (k = dirty_markets_prop)) as [->|Hk].
    + rewrite a_dirty in Hv. by injection Hv as <-.
    + rewrite a_properties in Hv by done. unfold merged, drop_null in Hv.
      destruct (p_properties p !! k); [|by eapply w_properties]. simpl in Hv.
      destruct (variant_is_null v0) eqn:En; [done|]. by injection Hv as <-.
  - intros k r. apply (merged_wf ar_is_null (λ k r, ar_id r = k) _ _ _ k r a_assets); eauto.
  - intros k r. apply (merged_wf ac_is_null (λ k r, ac_id r = k) _ _ _ k r a_accounts); eauto.
  - intros k r Hr. rewrite a_balances in Hr. unfold merged in Hr.
    destruct (p_balances p !! k) eqn:E; [|by apply w_balances]. injection Hr as <-. eauto.
  - intros k r Hr.
    apply (merged_wf or_is_null (λ _ _, True) _ _ _ k r a_bids) in Hr as [? _]; eauto.
  - intros k r Hr.
    apply (merged_wf or_is_null (λ _ _, True) _ _ _ k r a_asks) in Hr as [? _]; eauto.
  - intros k r Hr.
    apply (merged_wf or_is_null (λ _ _, True) _ _ _ k r a_shorts) in Hr as [? _]; eauto.
  - intros k r Hr.
    apply (merged_wf cr_is_null (λ _ _, True) _ _ _ k r a_collateral) in Hr as [? _]; eauto.
  - intros k s Hs.
    apply (merged_wf slate_is_null (λ _ _, True) _ _ _ k s a_slates) in Hs as [Hn _]; [|done|].
    + by apply bool_decide_eq_false in Hn.
    + intros k' s' Hs'. split; [|done]. apply bool_decide_eq_false_2. by eapply w_slates.
  - intros k r. apply (merged_wf fr_is_null (λ k r, fr_feed r = k) _ _ _ k r a_feeds); eauto.
  - intros k r. apply (merged_wf tr_is_null (λ k r, trx_id (tr_trx r) = k) _ _ _ k r a_transactions);
      [|eauto]. intros k' r' Hr' Hn. destruct (Ht k' r' Hr'); congruence.
Qed.
Lemma same_tables_wf d d' : same_tables d d' → db_wf d → db_wf d'.
Proof.
  intros (E1 & E2 & E3 & E4 & E5 & E6 & E7 & E8 & E9 & E10 & E11) [].
  split; rewrite ?E1, ?E2, ?E3, ?E4, ?E5, ?E6, ?E7, ?E8, ?E9, ?E10, ?E11; done.
Qed.

(** ** A block that is valid on a chain in order *)
Record chain_ok c : Prop := {
  co_tree : chain_tree_ok c;
  co_ranked : ranked (c_forks c);
  co_zero : c_block_records c !! 0 = None;
  co_linked : ∃ r, c_forks c !! c_head_id c = Some r ∧ bf_is_linked r = true;
  co_db : db_wf (c_db c);
  co_num : 0 ≤ bh_block_num (c_head c);
  co_ids n : 0 < n ≤ bh_block_num (c_head c) →
    ∃ id, c_block_ids c !! n = Some id ∧ is_Some (c_block_records c !! id);
  co_head : 0 < bh_block_num (c_head c) → ∃ rec, c_block_records c !! c_head_id c = Some rec ∧
    db_header (bkr_digest_block rec) = db_head_block_header (c_db c);
  co_seed : ∃ seed, get_current_random_seed (Database (c_db c)) = Ok seed
}.
(** A block that is not stored yet, follows the head, is numbered and signed as
    it should, and can be applied. *)
Record block_valid (key : public_key_type) b c : Prop := {
  bv_new : c_block_records c !! fb_id b = None;
  bv_id : fb_id b ≠ 0;
  bv_previous : bh_previous (fb_head b) = c_head_id c;
  bv_num : bh_block_num (fb_head b) = bh_block_num (c_head c) + 1 ∧ bh_block_num (fb_head b) < FORK_25;
  bv_signee : signee (BTS_CHECK_CANONICAL_SIGNATURE_FORK_BLOCK_NUM <? bh_block_num (fb_head b))
                (fb_header b) = Ok key;
  bv_header : verify_header b key (c_db c) = Ok ();
  bv_applied : is_ok (apply_block b key (c_db c) (fresh_pending c))
}.
(** What the block changes. *)
Lemma block_changes key b c s :
  apply_block b key (c_db c) (fresh_pending c) = Ok s →
  ∃ p, s = Pending p (Database (c_db c)) ∧ keyed p ∧ trx_keyed p ∧
    ∀ k, is_Some (p_properties p !! k) → is_Some (db_properties (c_db c) !! k).
Proof.
  intros Hb. apply (tidy_block _ _ _ _ (tidy_first (c_db c))) in Hb.
  destruct Hb as (p & -> & [Hk Ht Hp]). by exists p.
Qed.

(** *** A new block does not come before the head *)
Lemma ancestor_linked c x y r :
  chain_tree_ok c → rtc (follows (c_forks c)) x y →
  c_forks c !! y = Some r → bf_is_linked r = true →
  ∃ rx, c_forks c !! x = Some rx ∧ bf_is_linked rx = true.
Proof.
  intros [Hnext Hrec Hlink _] Hxy Hr Hl. revert r Hr Hl.
  induction Hxy as [|x z y Hf _ IH]; intros r Hr Hl; [eauto|].
  destruct (IH r Hr Hl) as (rz & Hz & Hlz). destruct (Hnext x z Hf) as (_ & rec & Hc & Ep).
  destruct Hf as (rx & Hx & _). exists rx. split; [done|]. rewrite <- Hlz. symmetry.
  eapply Hlink; [exact Hc|done|by rewrite Ep].
Qed.
Lemma new_not_before id c :
  chain_ok c → c_block_records c !! id = None → id ≠ 0 → ¬ rtc (follows (c_forks c)) id (c_head_id c).
Proof.
  intros [] Hn Hid Hr. destruct co_linked0 as (r & Hr1 & Hl).
  destruct (ancestor_linked c id _ r co_tree0 Hr Hr1 Hl) as (rx & Hx & Hlx).
  apply (tk_root _ _ co_tree0) in Hx; [|done]. rewrite Hlx in Hx. symmetry in Hx. by apply Z.eqb_eq in Hx.
Qed.
Lemma descendants_set id c :
  chain_tree_ok c → ranked (c_forks c) →
  ∃ V : gset digest_type, ∀ x, x ∈ V ↔ rtc (follows (c_forks c)) id x.
Proof.
  intros [Hnext _ _ _] Hr. destruct (c_forks c !! id) as [r|] eqn:E.
  - destruct (recursive_mark_as_linked_spec (bf_next_blocks r) c) as (_ & V & _ & HV).
    + intros x y (? & rec & Hc & _)%Hnext. split; [done|by exists rec].
    + done.
    + intros y Hy. exists id. by exists r.
    + exists ({[id]} ∪ V). intros x. rewrite elem_of_union, elem_of_singleton, HV. split.
      * intros [->|(y & Hy & Hx)]; [done|]. eapply rtc_l; [|exact Hx]. by exists r.
      * intros Hx. inversion Hx as [|? y ? Hf Hy]; subst; [by left|right]. exists y. split; [|done].
        destruct Hf as (r' & Er' & ?). congruence.
  - exists {[id]}. intros x. rewrite elem_of_singleton. split; [by intros ->|].
    intros Hx. inversion Hx as [|? y ? Hf Hy]; subst; [done|]. destruct Hf as (r' & Er' & _). congruence.
Qed.
(** A link that closes no circle leaves the tree ranked. *)
Lemma ranked_link prev id c :
  chain_tree_ok c → ranked (c_forks c) → ¬ rtc (follows (c_forks c)) id prev →
  ∃ h : digest_type → nat, (∀ x y, follows (c_forks c) x y → (h x < h y)%nat) ∧ (h prev < h id)%nat.
Proof.
  intros Hok Hr Hn. destruct (descendants_set id c Hok Hr) as (V & HV). destruct Hr as [h Hh].
  exists (λ x, if decide (x ∈ V) then h x + S (h prev) else h x)%nat. split.
  - intros x y Hf. pose proof (Hh x y Hf). case_decide as Hx; [|by case_decide; lia].
    rewrite decide_True; [lia|]. apply HV. apply HV in Hx. by eapply rtc_r.
  - rewrite decide_False by (by rewrite HV). rewrite decide_True by (by apply HV). lia.
Qed.
Lemma new_block_ranked id c :
  chain_ok c → c_block_records c !! id = None → id ≠ 0 →
  ∃ h : digest_type → nat, (∀ x y, follows (c_forks c) x y → (h x < h y)%nat) ∧
    (h (c_head_id c) < h id)%nat.
Proof.
  intros Hok Hn Hid. pose proof (new_not_before id c Hok Hn Hid). destruct Hok.
  by apply ranked_link.
Qed.
Lemma no_checkpoints : last_checkpoint_block_num = 0.
Proof. vm_compute. reflexivity. Qed.
Lemma num_range n : 0 ≤ n → n + 1 < FORK_25 →
  s32 (n - BTS_BLOCKCHAIN_MAX_UNDO_HISTORY) ≤ 0 ∨
  (0 < n - BTS_BLOCKCHAIN_MAX_UNDO_HISTORY ≤ n ∧
   u32 (n - BTS_BLOCKCHAIN_MAX_UNDO_HISTORY) = n - BTS_BLOCKCHAIN_MAX_UNDO_HISTORY).
Proof.
  change FORK_25 with 4294967295. change BTS_BLOCKCHAIN_MAX_UNDO_HISTORY with 404.
  intros Hn0 Hn1. destruct (decide (404 < n)) as [Hn|Hn].
  - right. split; [lia|]. apply Z.mod_small. change (2 ^ 32) with 4294967296. lia.
  - left. unfold s32. change (2 ^ 31) with 2147483648. change (2 ^ 32) with 4294967296.
    rewrite Z.mod_small; lia.
Qed.

Lemma save_undo_state_run id p c u :
  get_undo_state p (Database (c_db c)) = Ok u → 0 ≤ bh_block_num (c_head c) →
  bh_block_num (c_head c) + 1 < FORK_25 →
  (∀ n, 0 < n ≤ bh_block_num (c_head c) → ∃ id', c_block_ids c !! n = Some id' ∧ id' ≠ id) →
  ∃ U, save_undo_state id p c = (Ok (), set_c_undo_states U c) ∧
    U !! id = Some (pending_chain_state_reflected u).
Proof.
  intros Hu Hn0 Hn1 Hids. unfold save_undo_state, mbnd, gets, lift, modify, mreturn.
  rewrite no_checkpoints, (proj2 (Z.ltb_ge _ _) Hn0), Hu.
  destruct (num_range _ Hn0 Hn1) as [Hs|[Hr ->]].
  - rewrite (proj2 (Z.ltb_ge _ _) Hs). eexists. split; [reflexivity|]. apply lookup_insert_eq.
  - destruct (0 <? s32 _).
    + destruct (Hids _ Hr) as (old & Hold & Hne).
      change (c_block_ids (set_c_undo_states ?m c)) with (c_block_ids c). rewrite Hold. cbn [of_option].
      eexists. split; [reflexivity|]. rewrite lookup_delete_ne by done. apply lookup_insert_eq.
    + eexists. split; [reflexivity|]. apply lookup_insert_eq.
Qed.
Lemma apply_pending_run p c d :
  apply_changes p (Database (c_db c)) = Ok (Database d) → apply_pending p c = (Ok (), set_c_db d c).
Proof. intros E. unfold apply_pending, mbnd, lift. by rewrite E. Qed.
Lemma apply_block_seed b key d s p prev :
  apply_block b key d s = Ok (Pending p prev) →
  ∃ x, p_properties p !! last_random_seed_id = Some (v_hash x).
Proof.
  unfold apply_block. intros Hr. do 5 apply rbind_Ok in Hr as (? & _ & Hr).
  unfold update_random_seed in Hr. apply rbind_Ok in Hr as (seed & _ & Hr). apply Ok_inj in Hr.
  match type of Hr with set_property _ _ ?s = _ => destruct s as [|d'|q prev'] end; [done..|].
  cbn [set_property on_state] in Hr. injection Hr as <- _. eexists. apply lookup_insert_eq.
Qed.

(** What extending the chain by a valid block does. *)
Record grown p u b c c' : Prop := {
  gr_undone : undone p u (c_db c);
  gr_applied : ∃ d, applied p (c_db c) d ∧ same_tables d (c_db c');
  gr_undo : c_undo_states c' !! fb_id b = Some (pending_chain_state_reflected u);
  gr_forks : ∃ r, c_forks c !! fb_id b = Some r ∧
    c_forks c' = <[fb_id b := included r]> (c_forks c);
  gr_ids : c_block_ids c' = <[bh_block_num (fb_head b) := fb_id b]> (c_block_ids c);
  gr_records : c_block_records c' = c_block_records c;
  gr_head : db_head_block_header (c_db c') = fb_header b;
  gr_head_id : db_head_block_id (c_db c') = fb_id b
}.
Lemma extend_chain_run key p prev b c :
  db_wf (c_db c) → 0 ≤ bh_block_num (c_head c) → bh_block_num (c_head c) + 1 < FORK_25 →
  (∀ n, 0 < n ≤ bh_block_num (c_head c) → ∃ id', c_block_ids c !! n = Some id' ∧ id' ≠ fb_id b) →
  is_Some (c_forks c !! fb_id b) → block_signee_of b c = (Ok key, c) →
  verify_header b key (c_db c) = Ok () →
  apply_block b key (c_db c) (fresh_pending c) = Ok (Pending p prev) →
  keyed p → trx_keyed p →
  (∀ k, is_Some (p_properties p !! k) → is_Some (db_properties (c_db c) !! k)) →
  ∃ u c', extend_chain b c = (Ok (), c') ∧ grown p u b c c'.
Proof.
  intros Hd Hn0 Hn1 Hids [r Hr] Hkey Hh Hb Hk Ht Hp.
  destruct (get_undo_state_undone p (c_db c) Hk Hd Hp) as (u & Eu & Hu).
  destruct (apply_changes_applied p (c_db c) Hk Ht) as (d1 & E1 & H1); [unfold head_num, c_head in *; lia|].
  destruct (save_undo_state_run (fb_id b) p c u Eu Hn0 Hn1 Hids) as (U & EU & HU).
  exists u. unfold extend_chain. unfold mbnd at 1, catch, extend_with. cbv zeta.
  rewrite (mbnd_run _ _ _ _ _ Hkey).
  rewrite (mbnd_run _ _ c () c) by (unfold require, checkpoint_passed, CHECKPOINT_BLOCKS; by rewrite lookup_empty).
  rewrite (mbnd_run _ _ c () c) by (unfold lift; by rewrite Hh).
  rewrite (mbnd_run _ _ c (Pending p prev) c) by (unfold lift; by rewrite Hb).
  rewrite (mbnd_run _ _ _ _ _ EU).
  rewrite (mbnd_run _ _ _ _ _ (apply_pending_run p (set_c_undo_states U c) d1 E1)).
  rewrite (mbnd_run _ _ _ _ _ (mark_included_run (fb_id b) true (set_c_db d1 (set_c_undo_states U c)) r Hr)).
  eexists. split; [reflexivity|]. split; try done.
  - exists d1. split; [done|]. repeat split.
  - by exists r.
Qed.

(** ** The tree does not change when a block is included or not *)
Lemma tree_ok_flags forks records id r r' :
  forks !! id = Some r → bf_next_blocks r' = bf_next_blocks r → bf_is_linked r' = bf_is_linked r →
  tree_ok forks records → tree_ok (<[id := r']> forks) records.
Proof.
  intros Hr En El [Hnext Hrec Hlink Hroot].
  assert (∀ x rx', <[id := r']> forks !! x = Some rx' →
    ∃ rx, forks !! x = Some rx ∧ bf_next_blocks rx' = bf_next_blocks rx ∧ bf_is_linked rx' = bf_is_linked rx)
    as Hx.
  { intros x rx'. rewrite lookup_insert. case_decide; [intros [= <-]; subst x; by exists r|eauto]. }
  assert (∀ x, is_Some (forks !! x) → is_Some (<[id := r']> forks !! x)) as Hs.
  { intros x ?. rewrite lookup_insert. by case_decide. }
  split.
  - intros x y (rx' & Hx' & Hy). destruct (Hx _ _ Hx') as (rx & Ex & E & _). rewrite E in Hy.
    destruct (Hnext x y) as [H1 H2]; [by exists rx|]. auto.
  - intros y rec Hy. destruct (Hrec y rec Hy) as [H1 (rx & Ex & Hin)]. split; [auto|].
    unfold follows. rewrite lookup_insert. case_decide as Hd; [|by exists rx].
    exists r'. split; [done|]. rewrite En. subst id. congruence.
  - intros y rec ry' rp' Hy H1 H2. destruct (Hx _ _ H1) as (ry & E1 & _ & ->).
    destruct (Hx _ _ H2) as (rp & E2 & _ & ->). by eapply Hlink.
  - intros x rx' H1 Hn. destruct (Hx _ _ H1) as (rx & E1 & _ & ->). by apply Hroot.
Qed.

Lemma follows_flags forks id r r' x y :
  forks !! id = Some r → bf_next_blocks r' = bf_next_blocks r →
  follows (<[id := r']> forks) x y → follows forks x y.
Proof.
  intros Hr En (rx & Hx & Hy). rewrite lookup_insert in Hx. case_decide as Hd; [|by exists rx].
  subst x. injection Hx as <-. exists r. split; [done|]. by rewrite <- En.
Qed.

(** ** The tree with a new block *)
Lemma linked_path c x r :
  chain_tree_ok c → ranked (c_forks c) → c_forks c !! x = Some r → bf_is_linked r = true →
  rtc (follows (c_forks c)) 0 x.
Proof.
  intros [Hnext Hrec Hlink Hroot] [h Hh]. remember (h x) as n eqn:En. revert x r En.
  induction (lt_wf n) as [n _ IH]. intros x r -> Hx Hl.
  destruct (c_block_records c !! x) as [rec|] eqn:Er.
  - destruct (Hrec x rec Er) as [_ Hf]. pose proof Hf as (rp & Hp & _).
    assert (bf_is_linked rp = true) as Hlp by (by rewrite <- (Hlink _ _ _ _ Er Hx Hp)).
    eapply rtc_r; [|exact Hf]. by eapply (IH _ (Hh _ _ Hf)).
  - rewrite (Hroot x r Hx Er) in Hl. apply Z.eqb_eq in Hl. by subst x.
Qed.
Lemma path_linked c x r :
  chain_tree_ok c → c_block_records c !! 0 = None → rtc (follows (c_forks c)) 0 x →
  c_forks c !! x = Some r → bf_is_linked r = true.
Proof.
  intros [Hnext Hrec Hlink Hroot] Hz Hx. revert r. eapply (rtc_ind_r (λ x, ∀ r, c_forks c !! x = Some r → bf_is_linked r = true)); [| |exact Hx].
  { intros r Hr. by rewrite (Hroot 0 r Hr Hz). }
  intros y z _ Hf IH r Hr.
  destruct (Hnext y z Hf) as (_ & rec & Hc & Ep). destruct Hf as (ry & Ery & _).
  rewrite (Hlink z rec r ry Hc Hr) by (by rewrite Ep). by apply IH.
Qed.
(** [c0] is [c] with the new block [b] stored. *)
Section stored_block.
Context (b : full_block) (c c0 : chain).
Hypothesis Hc : chain_tree_ok c.
Hypothesis Hc0 : chain_tree_ok c0.
Hypothesis Hnew : c_block_records c !! fb_id b = None.
Hypothesis Hstored : ∃ rec, c_block_records c0 !! fb_id b = Some rec ∧
  db_header (bkr_digest_block rec) = fb_header b.
Hypothesis Hrecs : ∀ id, id ≠ fb_id b → c_block_records c0 !! id = c_block_records c !! id.

Lemma stored_follows x y :
  follows (c_forks c0) x y ↔ follows (c_forks c) x y ∨ (x = bh_previous (fb_head b) ∧ y = fb_id b).
Proof.
  destruct Hstored as (rb & Hb & Eb). split.
  - intros Hf. destruct (tk_next _ _ Hc0 _ _ Hf) as (_ & rec & Hy & Ep).
    destruct (decide (y = fb_id b)) as [->|Hne]; [right|left].
    + rewrite Hb in Hy. injection Hy as <-. split; [|done]. subst x. unfold previous_of, bkr_header. by rewrite Eb.
    + rewrite Hrecs in Hy by done. apply (tk_record _ _ Hc) in Hy as [_ Hy]. by rewrite Ep in Hy.
  - intros [Hf|[-> ->]].
    + destruct (tk_next _ _ Hc _ _ Hf) as (_ & rec & Hy & Ep).
      assert (y ≠ fb_id b) by (intros ->; congruence).
      rewrite <- Hrecs in Hy by done. apply (tk_record _ _ Hc0) in Hy as [_ Hy]. by rewrite Ep in Hy.
    + apply (tk_record _ _ Hc0) in Hb as [_ Hf]. unfold previous_of, bkr_header in Hf.
      by rewrite Eb in Hf.
Qed.
Lemma stored_ranked :
  (∃ h : digest_type → nat, (∀ x y, follows (c_forks c) x y → (h x < h y)%nat) ∧
    (h (bh_previous (fb_head b)) < h (fb_id b))%nat) → ranked (c_forks c0).
Proof.
  intros (h & Hh & Hb). exists h. intros x y [Hf|[-> ->]]%stored_follows; [by apply Hh|done].
Qed.
(** A block is linked when the one before it was. *)
Lemma stored_linked :
  ranked (c_forks c) → c_block_records c !! 0 = None → fb_id b ≠ 0 →
  (∃ r, c_forks c !! bh_previous (fb_head b) = Some r ∧ bf_is_linked r = true) →
  ∃ r, c_forks c0 !! fb_id b = Some r ∧ bf_is_linked r = true.
Proof.
  intros Hr Hz Hne (rp & Hp & Hl). destruct Hstored as (rec & Hrec & _).
  destruct (tk_record _ _ Hc0 _ _ Hrec) as [[r E] _]. exists r. split; [done|].
  eapply (path_linked c0); [done|by rewrite Hrecs by congruence| |done].
  eapply rtc_r; [|apply stored_follows; right; done].
  apply (rtc_subrel (follows (c_forks c))); [|by eapply linked_path].
  intros x y Hf. apply stored_follows. by left.
Qed.
End stored_block.

(** ** [push_block] *)
Lemma within_history b c :
  0 ≤ bh_block_num (c_head c) → bh_block_num (fb_head b) = bh_block_num (c_head c) + 1 →
  bh_block_num (fb_head b) < FORK_25 → within_undo_history b c = true.
Proof.
  unfold within_undo_history. change FORK_25 with 4294967295.
  change BTS_BLOCKCHAIN_MAX_UNDO_HISTORY with 404. intros Hn0 -> Hn1.
  destruct (Z.ltb_spec 404 (bh_block_num (c_head c))) as [Hm|]; [|done]. simpl.
  apply negb_true_iff, Z.leb_gt. unfold u32. change (2 ^ 32) with 4294967296.
  rewrite Z.mod_small; lia.
Qed.
Lemma signee_read key b c :
  0 ≤ bh_block_num (fb_head b) →
  signee (BTS_CHECK_CANONICAL_SIGNATURE_FORK_BLOCK_NUM <? bh_block_num (fb_head b)) (fb_header b) = Ok key →
  block_signee_of b c = (Ok key, c).
Proof.
  intros Hn E. unfold block_signee_of, lift. rewrite no_checkpoints, (proj2 (Z.ltb_ge _ _) Hn).
  by rewrite E.
Qed.
Lemma push_valid_run key b c :
  chain_ok c → block_valid key b c →
  ∃ p u c0 c' r, apply_block b key (c_db c) (fresh_pending c) = Ok (Pending p (Database (c_db c))) ∧
    (keyed p ∧ trx_keyed p ∧ ∀ k, is_Some (p_properties p !! k) → is_Some (db_properties (c_db c) !! k)) ∧
    push_block b c = (Ok r, c') ∧
    c_db c0 = c_db c ∧ c_block_ids c0 = c_block_ids c ∧
    (∀ id, id ≠ fb_id b → c_block_records c0 !! id = c_block_records c !! id) ∧
    chain_tree_ok c0 ∧ ranked (c_forks c0) ∧
    (∃ rec, c_block_records c0 !! fb_id b = Some rec ∧ db_header (bkr_digest_block rec) = fb_header b) ∧
    (∃ rl, c_forks c0 !! fb_id b = Some rl ∧ bf_is_linked rl = true) ∧
    grown p u b c0 c' ∧ c_forks c' !! fb_id b = Some r.
Proof.
  intros Hok [Hnew Hid Hprev [Hnum Hlt] Hsig Hh [s Hb]].
  pose proof (new_block_ranked _ _ Hok Hnew Hid) as Hrank. rewrite <- Hprev in Hrank.
  destruct Hok as [Htree Hr0 Hz Hl0 Hdb Hn0 Hids Hhead [seed Hseed]].
  destruct (block_changes key b c s Hb) as (p & -> & Hk & Ht & Hp). exists p.
  destruct (store_and_index_run b c seed Htree Hseed) as (x & c0 & E0 & Htree0 & Hsame & _ & Hrec & Hrecs);
    [by intros rec; rewrite Hnew|done..|].
  destruct Hsame as (Edb & Eids & _). rewrite <- Hprev in Hl0.
  pose proof (stored_linked b c c0 Htree Htree0 Hnew Hrec Hrecs Hr0 Hz Hid Hl0) as Hl.
  pose proof (stored_ranked b c c0 Htree Htree0 Hnew Hrec Hrecs Hrank) as Hranked.
  assert (c_head c0 = c_head c) as Ehead by (unfold c_head; by rewrite Edb).
  destruct (extend_chain_run key p (Database (c_db c)) b c0) as (u & c' & E1 & Hg).
  - by rewrite Edb.
  - by rewrite Ehead.
  - rewrite Ehead. lia.
  - rewrite Ehead, Eids. intros n Hn. destruct (Hids n Hn) as (id' & H1 & H2). exists id'.
    split; [done|]. intros ->. rewrite Hnew in H2. by destruct H2.
  - by destruct Hl as (rl & -> & _).
  - apply signee_read; [lia|done].
  - by rewrite Edb.
  - unfold fresh_pending in *. by rewrite Edb.
  - done.
  - done.
  - by rewrite Edb.
  - destruct (gr_forks _ _ _ _ _ Hg) as (r & Hr & Ef).
    exists u, c0, c', (included r).
    assert (c_forks c' !! fb_id b = Some (included r)) as Efr by (rewrite Ef; apply lookup_insert_eq).
    split; [done|]. split; [done|]. split; [|split_and!; done].
    unfold push_block.
    rewrite (mbnd_run _ _ c () c) by (unfold require; by rewrite within_history).
    cbv zeta. rewrite (mbnd_run _ _ c (c_head_id c) c) by done.
    rewrite (mbnd_run _ _ _ _ _ E0).
    rewrite (mbnd_run _ _ c0 r c0) by (unfold new_fork_data, lift; by rewrite Hr).
    rewrite (proj2 (Z.eqb_eq _ _) Hprev).
    rewrite (mbnd_run _ _ c0 (included r) c').
    2: { rewrite (mbnd_run _ _ _ _ _ E1). unfold new_fork_data, lift. by rewrite Efr. }
    rewrite (mbnd_run _ _ c' () c'); [done|]. unfold require.
    rewrite bool_decide_eq_true_2; [done|]. rewrite (gr_records _ _ _ _ _ Hg).
    destruct Hrec as (rec & Hrec & _). by exists rec.
Qed.

Lemma seed_kept p d d' d1 x :
  applied p d d1 → same_tables d1 d' → p_properties p !! last_random_seed_id = Some (v_hash x) →
  get_current_random_seed (Database d') = Ok x.
Proof.
  intros Ha (E & _) Hx. unfold get_current_random_seed, get_property. rewrite E.
  rewrite (a_properties _ _ _ Ha) by done. unfold merged. rewrite Hx. done.
Qed.
Lemma valid_block_run key b c :
  chain_ok c → block_valid key b c →
  ∃ r c', push_block b c = (Ok r, c') ∧ chain_ok c' ∧
    db_head_block_header (c_db c') = fb_header b ∧ c_head_id c' = fb_id b ∧
    c_block_ids c' !! bh_block_num (fb_head b) = Some (fb_id b) ∧
    bf_is_included r = true ∧ bf_is_valid r = Some true ∧
    ∃ p d, apply_block b key (c_db c) (fresh_pending c) = Ok (Pending p (Database (c_db c))) ∧
      applied p (c_db c) d ∧ same_tables d (c_db c').
Proof.
  intros Hok Hv. destruct (push_valid_run key b c Hok Hv)
    as (p & u & c0 & c' & r & Hb & (Hk & Ht & Hp) & E & Edb & Eids & Hrecs & Htree & Hrank &
        (rec & Hrec & Eh) & (rl & Hrl & Hl) & Hg & Hr).
  pose proof Hg as [_ (d & Hap & Hsame) _ (r0 & Hr0 & Ef) Eids' Erecs Ehd Ehid]. rewrite Edb in Hap.
  assert (r = included r0) as -> by (rewrite Ef, lookup_insert_eq in Hr; congruence).
  exists (included r0), c'. split; [done|]. split.
  2: { split_and!; try done; [|by exists p, d]. rewrite Eids'. apply lookup_insert_eq. }
  pose proof Hok as []. pose proof Hv as [? ? _ [En Hlt] _ _ _].
  assert (bh_block_num (c_head c') = bh_block_num (fb_head b)) as En' by (unfold c_head; by rewrite Ehd).
  split.
  - unfold chain_tree_ok. rewrite Ef, Erecs. by apply (tree_ok_flags _ _ _ r0).
  - destruct Hrank as [h Hh]. exists h. intros x y Hf. apply Hh. rewrite Ef in Hf.
    by apply (follows_flags _ _ r0 (included r0)) in Hf.
  - by rewrite Erecs, Hrecs.
  - change (c_head_id c') with (db_head_block_id (c_db c')). rewrite Ehid, Ef, lookup_insert_eq.
    exists (included r0). split; [done|]. simpl. congruence.
  - eapply same_tables_wf; [exact Hsame|]. by eapply applied_wf.
  - lia.
  - rewrite En', Eids', Erecs, Eids. intros n Hn. rewrite lookup_insert. case_decide as Hd.
    + exists (fb_id b). split; [done|]. by exists rec.
    + destruct (co_ids0 n ltac:(lia)) as (id & H1 & H2). exists id. split; [done|].
      rewrite Hrecs; [done|]. intros ->. rewrite bv_new0 in H2. by destruct H2.
  - intros _. rewrite Erecs. exists rec. change (c_head_id c') with (db_head_block_id (c_db c')).
    rewrite Ehid, Ehd. done.
  - destruct (apply_block_seed _ _ _ _ _ _ Hb) as (y & Hy). exists y. by eapply seed_kept.
Qed.

(** C3 (valid_block_accepted). A new block that names the head, carries the next
    number, is signed and scheduled as the header checks ask, and whose
    transactions and markets evaluate, is accepted: [push_block] returns, the
    block is the head and part of the chain, its changes are in the database, and
    the chain is in order again, ready for the next block. *)
Theorem valid_block_accepted key b c :
  chain_ok c → block_valid key b c →
  ∃ r c', push_block b c = (Ok r, c') ∧ chain_ok c' ∧
    db_head_block_header (c_db c') = fb_header b ∧ c_head_id c' = fb_id b ∧
    c_block_ids c' !! bh_block_num (fb_head b) = Some (fb_id b) ∧
    bf_is_included r = true ∧ bf_is_valid r = Some true ∧
    ∃ p d, apply_block b key (c_db c) (fresh_pending c) = Ok (Pending p (Database (c_db c))) ∧
      applied p (c_db c) d ∧ same_tables d (c_db c').
Proof. apply valid_block_run. Qed.

End chain_runs.
