(* ===== verification/PendingFacts.v ===== *)
(** Transactions waiting for a block and the blocks made of them: proofs over
    [Forks]. *)
From S2P Require Export ForkFacts.

(** ** The order of the waiting transactions *)
#[export] Instance fee_index_le_total : Total fee_index_le.
Proof. intros [a i] [b j]. unfold fee_index_le. simpl. lia. Qed.
#[export] Instance fee_index_le_trans : Transitive fee_index_le.
Proof. intros [a i] [b j] [c k]. unfold fee_index_le. simpl. lia. Qed.

Section pending.
Context `{!Fc, !Crypto}.
Implicit Types (c : chain) (b : full_block) (s : chain_state) (t : signed_transaction)
  (e : transaction_evaluation_state).

Definition fee_keys c : list (Z * digest_type) :=
  merge_sort fee_index_le (elements (dom (c_pending_fees c))).
Lemma fee_keys_sorted c : StronglySorted fee_index_le (fee_keys c).
Proof. apply Sorted_StronglySorted; [apply _|]. apply (Sorted_merge_sort fee_index_le). Qed.
Lemma omap_Forall2 {A B} (f : A → option B) l :
  Forall (λ x, is_Some (f x)) l → Forall2 (λ x y, f x = Some y) l (omap f l).
Proof.
  induction 1 as [|x l [y Hy] _ IH]; simpl; [constructor|]. rewrite Hy. by constructor.
Qed.
Lemma pending_by_fees c :
  Forall2 (λ k e, c_pending_fees c !! k = Some e) (fee_keys c) (get_pending_transactions c) ∧
  fee_keys c ≡ₚ elements (dom (c_pending_fees c)).
Proof.
  assert (fee_keys c ≡ₚ elements (dom (c_pending_fees c))) as Hp by apply merge_sort_Permutation.
  split; [|done]. apply omap_Forall2. rewrite Hp. apply Forall_forall. intros k Hk.
  by apply elem_of_elements, elem_of_dom in Hk.
Qed.

(** ** Filling a block *)
Definition block_bytes (l : list signed_transaction) : Z := foldr (λ t n, trx_data_size t + n) 0 l.
Lemma trx_size_nonneg t : 0 ≤ trx_data_size t.
Proof. unfold trx_data_size. lia. Qed.
Lemma fill_block_spec elapsed n chain_id size pending s :
  size ≤ BTS_BLOCKCHAIN_MAX_BLOCK_SIZE →
  let l := fill_block elapsed n chain_id size pending s in
  l `sublist_of` (es_trx <$> pending) ∧ size + block_bytes l ≤ BTS_BLOCKCHAIN_MAX_BLOCK_SIZE ∧
  ∃ s', rfold (try_transaction chain_id) l s = Ok s'.
Proof.
  revert n size s. induction pending as [|e pending IH]; intros n size s Hsize.
  { simpl. split; [done|]. split; [lia|by exists s]. }
  cbn [fill_block fmap list_fmap]. cbv zeta.
  destruct (Z.ltb_spec BTS_BLOCKCHAIN_MAX_BLOCK_SIZE (size + trx_data_size (es_trx e))) as [|Hnext].
  { split; [apply sublist_nil_l|]. split; [simpl; lia|by exists s]. }
  pose proof (trx_size_nonneg (es_trx e)) as Hpos.
  assert (∀ s, let l := (if elapsed n then [] else
      fill_block elapsed (S n) chain_id (size + trx_data_size (es_trx e)) pending s) in
    l `sublist_of` (es_trx <$> pending) ∧
    size + trx_data_size (es_trx e) + block_bytes l ≤ BTS_BLOCKCHAIN_MAX_BLOCK_SIZE ∧
    ∃ s', rfold (try_transaction chain_id) l s = Ok s') as Hl.
  { intros s0. destruct (elapsed n); [|by apply IH].
    split; [apply sublist_nil_l|]. split; [simpl; lia|by exists s0]. }
  destruct (try_transaction chain_id (es_trx e) s) as [s1|] eqn:E.
  - destruct (Hl s1) as (Hs & Hb & Hr). split; [by apply sublist_skip|].
    split; [simpl; lia|]. cbn [rfold]. rewrite E. exact Hr.
  - destruct (Hl s) as (Hs & Hb & Hr). split; [by apply sublist_cons|]. split; [lia|done].
Qed.

Lemma generate_block_same elapsed timestamp c : (generate_block elapsed timestamp c).2 = c.
Proof. done. Qed.

(** C28 (generated_block_fits). A block that is generated follows the head: it names
    the id of the head block as the previous one (none, when no block is applied
    yet) and carries the next number and the time it is asked for.  It carries the
    digest the header check asks for, and holds waiting transactions in the order
    of their fees, highest first, that fit the size limit together and evaluate
    one after the other on the state the markets leave; generating it changes
    nothing. *)
Theorem generated_block_fits elapsed timestamp c b c' :
  generate_block elapsed timestamp c = (Ok b, c') →
  c' = c ∧
  bh_previous (fb_head b)
    = (if bh_block_num (c_head c) =? 0 then 0 else block_id (db_head_block_header (c_db c))) ∧
  bh_block_num (fb_head b) = u32 (bh_block_num (c_head c) + 1) ∧
  bh_timestamp (fb_head b) = timestamp ∧ validate_digest (header_digest_block b) = true ∧
  StronglySorted fee_index_le (fee_keys c) ∧
  Forall2 (λ k e, c_pending_fees c !! k = Some e) (fee_keys c) (get_pending_transactions c) ∧
  fb_user_transactions b `sublist_of` (es_trx <$> get_pending_transactions c) ∧
  block_bytes (fb_user_transactions b) ≤ BTS_BLOCKCHAIN_MAX_BLOCK_SIZE ∧
  ∃ s s', execute_markets (c_db c) timestamp (fresh_pending c) = Ok s ∧
    rfold (try_transaction (db_chain_id (c_db c))) (fb_user_transactions b) s = Ok s'.
Proof.
  unfold generate_block. intros [Hr ->]%lift_Ok. split; [done|].
  apply rbind_Ok in Hr as (s & Hs & Hr). cbv zeta in Hr. apply Ok_inj in Hr as <-.
  cbn [fb_user_transactions].
  destruct (fill_block_spec elapsed 0 (db_chain_id (c_db c)) 0 (get_pending_transactions c) s)
    as (Hsub & Hsize & s' & Hs'); [done|].
  do 3 (split; [done|]). split.
  { unfold validate_digest. apply Z.eqb_refl. }
  split; [apply fee_keys_sorted|]. split; [apply pending_by_fees|]. split; [done|].
  split; [lia|]. by exists s, s'.
Qed.

(** ** Admitting a transaction *)
Definition queue_same c c' : Prop :=
  c_db c' = c_db c ∧ c_forks c' = c_forks c ∧ c_block_ids c' = c_block_ids c ∧
  c_block_records c' = c_block_records c ∧ c_blocks c' = c_blocks c.
Lemma evaluate_transaction_spec t fee c r c' :
  evaluate_transaction t fee c = (r, c') →
  queue_same c c' ∧ c_pending_transactions c' = c_pending_transactions c ∧
  c_pending_fees c' = c_pending_fees c ∧
  match r with
  | Ok e => fee ≤ relay_fees e
  | Err _ => default pending_chain_state_empty (c_pending_state c')
             = default pending_chain_state_empty (c_pending_state c)
  end.
Proof.
  unfold evaluate_transaction. intros Hr.
  set (c1 := set_c_pending_state (Some (default pending_chain_state_empty (c_pending_state c))) c).
  rewrite (mbnd_run _ _ c () c1) in Hr by done.
  unfold mbnd at 1, lift at 1 in Hr.
  match type of Hr with (match ?x with _ => _ end = _) => destruct x as [e|x'] end;
    [|by injection Hr as <- <-].
  unfold mbnd at 1, require in Hr.
  destruct (Z.leb_spec fee (relay_fees e)) as [Hf|]; [|by injection Hr as <- <-].
  destruct (es_current_state e) as [|d|p prev]; [by injection Hr as <- <-..|].
  unfold mbnd at 1, lift in Hr.
  destruct (apply_changes p prev) as [[|d|q prev']|]; by injection Hr as <- <-.
Qed.

(** C29 (pending_transaction_admitted). Offering a transaction never changes the chain
    itself.  One that is waiting already changes nothing; one that is refused, for
    whatever reason, leaves the queue and the state it is evaluated on as they
    were; one that is admitted has paid the fee the length of the queue asks for,
    and is added under its digest and its fees. *)
Theorem pending_transaction_admitted t override_limits c r c' :
  store_pending_transaction t override_limits c = (r, c') →
  let id := trx_digest (db_chain_id (c_db c)) (st_trx t) in
  queue_same c c' ∧
  match r with
  | Ok None => c' = c ∧ is_Some (c_pending_transactions c !! id)
  | Ok (Some e) =>
      c_pending_transactions c !! id = None ∧
      required_relay_fee override_limits c ≤ relay_fees e ∧
      c_pending_transactions c' = <[id := t]> (c_pending_transactions c) ∧
      c_pending_fees c' = <[(get_fees 0 e, trx_id t) := e]> (c_pending_fees c)
  | Err _ =>
      c_pending_transactions c' = c_pending_transactions c ∧
      c_pending_fees c' = c_pending_fees c ∧
      default pending_chain_state_empty (c_pending_state c')
      = default pending_chain_state_empty (c_pending_state c)
  end.
Proof.
  intros Hr id. unfold store_pending_transaction in Hr.
  rewrite (mbnd_run _ _ c id c) in Hr by done.
  rewrite (mbnd_run _ _ c (c_pending_transactions c !! id) c) in Hr by done.
  destruct (c_pending_transactions c !! id) as [t'|] eqn:Ek.
  { injection Hr as <- <-. split; [done|]. split; [done|by exists t']. }
  rewrite (mbnd_run _ _ c (required_relay_fee override_limits c) c) in Hr by done.
  unfold mbnd at 1 in Hr.
  destruct (evaluate_transaction t _ c) as [[e|x] c1] eqn:E;
    apply evaluate_transaction_spec in E as (Hq & Et & Ef & Hx).
  - unfold remember_fees, mbnd, modify, mreturn in Hr. injection Hr as <- <-. simpl.
    rewrite Et, Ef. done.
  - injection Hr as <- <-. done.
Qed.
End pending.
