(* ===== verification/Reach.v ===== *)
(** The chain stays in order: whatever is pushed on top of the head, accepted or
    refused, and blocks stored beside it, lead from a chain in order to one in
    order, so every chain that is reached is; proofs over [ChainRuns]. *)
From S2P Require Export ChainRuns PendingFacts.

Section reach.
Context `{!Fc, !Crypto}.
Implicit Types (c : chain) (b : full_block) (d : chain_database) (id : digest_type).

(** ** Flags do not change the tree *)
Definition same_shape (forks forks' : gmap digest_type block_fork_data) : Prop :=
  ∀ x, (λ r, (bf_next_blocks r, bf_is_linked r)) <$> forks' !! x
     = (λ r, (bf_next_blocks r, bf_is_linked r)) <$> forks !! x.
Lemma same_shape_lookup forks forks' x r' :
  same_shape forks forks' → forks' !! x = Some r' →
  ∃ r, forks !! x = Some r ∧ bf_next_blocks r' = bf_next_blocks r ∧ bf_is_linked r' = bf_is_linked r.
Proof.
  intros Hsh Hx. specialize (Hsh x). rewrite Hx in Hsh. destruct (forks !! x) as [r|]; [|done].
  simpl in Hsh. injection Hsh as -> ->. by exists r.
Qed.
Lemma same_shape_sym forks forks' : same_shape forks forks' → same_shape forks' forks.
Proof. intros Hsh x. by rewrite Hsh. Qed.
Lemma same_shape_follows forks forks' x y :
  same_shape forks forks' → follows forks x y → follows forks' x y.
Proof.
  intros Hsh (r & Hr & Hy). destruct (same_shape_lookup _ _ x r (same_shape_sym _ _ Hsh) Hr) as (r' & E & En & _).
  exists r'. split; [done|]. by rewrite <- En.
Qed.
Lemma same_shape_some forks forks' x :
  same_shape forks forks' → is_Some (forks !! x) → is_Some (forks' !! x).
Proof. intros Hsh [r Hr]. specialize (Hsh x). rewrite Hr in Hsh. destruct (forks' !! x); [done|discriminate]. Qed.
Lemma same_shape_tree forks forks' records :
  same_shape forks forks' → tree_ok forks records → tree_ok forks' records.
Proof.
  intros Hsh [Hnext Hrec Hlink Hroot]. pose proof (same_shape_sym _ _ Hsh) as Hs. split.
  - intros x y Hf%(same_shape_follows _ _ _ _ Hs). apply Hnext in Hf as [H1 H2].
    split; [by eapply same_shape_some|done].
  - intros id rec Hr. destruct (Hrec id rec Hr). split; [by eapply same_shape_some|by eapply same_shape_follows].
  - intros id rec r rp Hr Hi Hp. destruct (same_shape_lookup _ _ _ _ Hsh Hi) as (r0 & E & _ & ->).
    destruct (same_shape_lookup _ _ _ _ Hsh Hp) as (rp0 & Ep & _ & ->). by eapply Hlink.
  - intros x r Hx Hn. destruct (same_shape_lookup _ _ _ _ Hsh Hx) as (r0 & E & _ & ->). by apply Hroot.
Qed.
Lemma same_shape_ranked forks forks' : same_shape forks forks' → ranked forks → ranked forks'.
Proof.
  intros Hsh [h Hh]. exists h. intros x y Hf. apply Hh. by eapply same_shape_follows, Hf; apply same_shape_sym.
Qed.
Lemma marked_shape forks reason V : same_shape forks (marked forks (invalidated reason) V).
Proof. intros x. rewrite lookup_marked. destruct (forks !! x); [simpl; by case_decide|done]. Qed.

(** ** Order is kept *)
(** The parts of [chain_ok] beside the tree do not see what [same_chain] leaves. *)
Lemma chain_ok_tree c c' :
  chain_ok c → same_chain c c' → c_block_records c' !! 0 = None →
  (∀ id, is_Some (c_block_records c !! id) → c_block_records c' !! id = c_block_records c !! id) →
  chain_tree_ok c' → ranked (c_forks c') →
  (∃ r, c_forks c' !! c_head_id c' = Some r ∧ bf_is_linked r = true) → chain_ok c'.
Proof.
  intros [] (Edb & Eids & _) Hz Hrecs Ht Hr Hl. split; try done; unfold c_head, c_head_id in *;
    rewrite ?Edb, ?Eids; [done|done| |  |done].
  - intros n Hn. destruct (co_ids n Hn) as (id & H1 & H2). exists id. split; [done|].
    by rewrite Hrecs.
  - intros Hn. destruct (co_head Hn) as (rec & H1 & H2). exists rec. split; [|done].
    rewrite Hrecs; [done|by eexists].
Qed.
(** Storing a new block, on the head or beside it. *)
Lemma store_ok b c :
  chain_ok c → c_block_records c !! fb_id b = None → fb_id b ≠ 0 →
  ¬ rtc (follows (c_forks c)) (fb_id b) (bh_previous (fb_head b)) →
  (bh_previous (fb_head b) = c_head_id c ∨ c_head_id c ≠ 0) →
  ∃ x c', store_and_index (fb_id b) b c = (Ok x, c') ∧ chain_ok c' ∧ same_chain c c' ∧
    is_Some (c_forks c' !! fb_id b).
Proof.
  intros Hok Hnew Hid Hac Hpos. pose proof Hok as [Htree Hr0 Hz Hl0 _ _ _ _ [seed Hseed]].
  pose proof (ranked_link _ _ _ Htree Hr0 Hac) as Hrank.
  destruct (store_and_index_run b c seed Htree Hseed) as (x & c0 & E0 & Htree0 & Hsame & _ & Hrec & Hrecs);
    [by intros rec; rewrite Hnew|done..|].
  exists x, c0. split; [done|].
  pose proof (stored_ranked b c c0 Htree Htree0 Hnew Hrec Hrecs Hrank) as Hranked.
  assert (is_Some (c_forks c0 !! fb_id b)) as Hsome.
  { destruct Hrec as (rec & Hrec & _). by eapply tk_record. }
  split; [|done].
  assert (c_head_id c0 = c_head_id c) as Eh by (unfold c_head_id; by rewrite (proj1 Hsame)).
  eapply (chain_ok_tree c); try done.
  - by rewrite Hrecs by congruence.
  - intros id [r Hr]. apply Hrecs. intros ->. congruence.
  - destruct Hl0 as (r & Hr & Hlr). rewrite Eh.
    assert (rtc (follows (c_forks c0)) 0 (c_head_id c)) as Hpath.
    { apply (rtc_subrel (follows (c_forks c))); [|by eapply linked_path].
      intros y z Hf. apply (stored_follows b c c0); try done. by left. }
    assert (is_Some (c_forks c0 !! c_head_id c)) as [r' Hr'].
    { destruct Hpos as [Hp|Hp].
      - destruct Hrec as (rec & Hrec & Eh'). destruct (tk_record _ _ Htree0 _ _ Hrec) as [_ (rp & Hrp & _)].
        unfold previous_of, bkr_header in Hrp. rewrite Eh' in Hrp. change (sbh_header (fb_header b)) with (fb_head b) in Hrp.
        rewrite Hp in Hrp. by eexists.
      - apply rtc_inv_r in Hpath as [Hp0|(y & _ & Hf)]; [congruence|]. by apply (tk_next _ _ Htree0) in Hf as [? _]. }
    exists r'. split; [done|]. apply (path_linked c0 (c_head_id c)); [done| |done..].
    by rewrite Hrecs by congruence.
Qed.
Lemma mark_invalid_ok id e c :
  chain_ok c → is_Some (c_forks c !! id) → ∃ c', mark_invalid id e c = (Ok (), c') ∧ chain_ok c'.
Proof.
  intros Hok [r Hr]. pose proof Hok as [].
  destruct (mark_invalid_run id e r c) as (V & E & _); [|done..|].
  { intros x y Hf. by apply (tk_next _ _ co_tree) in Hf as [? _]. }
  eexists. split; [exact E|]. pose proof (marked_shape (c_forks c) e V) as Hs.
  destruct co_linked as (rh & Hrh & Hlh).
  apply (chain_ok_tree c); try done.
  - by apply (same_shape_tree (c_forks c)).
  - by apply (same_shape_ranked (c_forks c)).
  - destruct (same_shape_lookup _ _ _ _ (same_shape_sym _ _ Hs) Hrh) as (r' & E' & _ & El).
    exists r'. split; [done|]. congruence.
Qed.

(** ** Pushing on top of the head *)
Lemma accepted_valid b c r c' :
  bh_previous (fb_head b) = c_head_id c → c_block_records c !! fb_id b = None → fb_id b ≠ 0 →
  bh_block_num (fb_head b) = bh_block_num (c_head c) + 1 → bh_block_num (fb_head b) < FORK_25 →
  0 ≤ bh_block_num (c_head c) → push_block b c = (Ok r, c') → ∃ key, block_valid key b c.
Proof.
  intros Hprev Hnew Hid Hnum Hlt Hn0. unfold push_block. intros Hr.
  apply mbnd_Ok in Hr as (u & c1 & [_ ->]%require_Ok & Hr). cbv zeta in Hr.
  apply mbnd_Ok in Hr as (h & c1 & [= <- <-] & Hr).
  pose proof (store_and_index_leaves (fb_id b) b c) as Hl.
  apply mbnd_Ok in Hr as (x & c1 & Hst & Hr). rewrite Hst in Hl. destruct Hl as (Edb & _).
  cbn [snd] in Edb. apply mbnd_Ok in Hr as (r0 & c2 & [_ ->]%lift_Ok & Hr).
  rewrite (proj2 (Z.eqb_eq _ _) Hprev) in Hr. apply mbnd_Ok in Hr as (r1 & c2 & Hx & Hr).
  apply mbnd_Ok in Hx as (u'' & c3 & Hx & Hf).
  apply extend_chain_Ok in Hx as [key [Hs Hh _ (p & prev & d & Hb & _) _ _ _]].
  unfold fresh_pending in Hb. rewrite Edb in Hh, Hb. exists key. split; try done.
  - apply lift_Ok in Hs as [Hs _]. rewrite no_checkpoints, (proj2 (Z.ltb_ge _ _)) in Hs by lia. exact Hs.
  - by exists (Pending p prev).
Qed.
Lemma accepted_ok key b c r c' :
  chain_ok c → block_valid key b c → push_block b c = (Ok r, c') → chain_ok c'.
Proof.
  intros Hok Hv Hp. destruct (valid_block_run key b c Hok Hv) as (r' & c1 & E & Hok' & _).
  rewrite E in Hp. by injection Hp as _ <-.
Qed.
Lemma refused_ok b c e c' :
  chain_ok c → bh_previous (fb_head b) = c_head_id c → c_block_records c !! fb_id b = None →
  fb_id b ≠ 0 → push_block b c = (Err e, c') → chain_ok c'.
Proof.
  intros Hok Hprev Hnew Hid. unfold push_block. intros Hr.
  apply mbnd_Err in Hr as [Hr|(u & c1 & [_ ->]%require_Ok & Hr)]; [by injection Hr as _ <-|].
  cbv zeta in Hr. apply mbnd_Err in Hr as [Hr|(h & c1 & [= <- <-] & Hr)]; [discriminate|].
  destruct (store_ok b c Hok Hnew Hid) as (x & c0 & E0 & Hok0 & Hsame & Hf0);
    [rewrite Hprev; by apply new_not_before|by left|].
  rewrite (mbnd_run _ _ _ _ _ E0) in Hr.
  apply mbnd_Err in Hr as [Hr|(r & c2 & [_ ->]%lift_Ok & Hr)]; [by injection Hr as _ <-|].
  rewrite (proj2 (Z.eqb_eq _ _) Hprev) in Hr.
  apply mbnd_Err in Hr as [Hr|(r' & c2 & Hx & Hr)].
  - apply mbnd_Err in Hr as [Hr|(w & c2 & Hx & Hr)].
    + unfold extend_chain in Hr. apply mbnd_Err in Hr as [Hr|(w & c1 & _ & Hr)]; [|discriminate].
      unfold catch in Hr. destruct (extend_with b c0) as [[w|e'] c1] eqn:E; [discriminate|].
      apply extend_with_err in E as [Hs [Ef Er]]; [|done]. pose proof Hok0 as [].
      assert (chain_ok c1) as Hok1.
      { apply (chain_ok_tree c0); try done.
        - by rewrite Er.
        - by intros id _; rewrite Er.
        - unfold chain_tree_ok. by rewrite Ef, Er.
        - by rewrite Ef.
        - unfold c_head_id. rewrite Ef, (proj1 Hs). done. }
      destruct (mark_invalid_ok (fb_id b) e' c1 Hok1) as (c3 & E3 & Hok3); [by rewrite Ef|].
      rewrite (mbnd_run _ _ _ _ _ E3) in Hr. injection Hr as _ <-. exact Hok3.
    + apply extend_chain_Ok in Hx as [key [_ _ (r0 & _ & Ef) _ _ _ _]].
      unfold new_fork_data, lift in Hr. rewrite Ef, lookup_insert_eq in Hr. discriminate.
  - apply mbnd_Ok in Hx as (w & c3 & Hx & Hf). apply lift_Ok in Hf as [_ ->].
    apply extend_chain_Ok in Hx as [key [_ _ _ _ _ _ [Erec _]]].
    apply store_and_index_stored in E0 as [_ Hrec].
    apply mbnd_Err in Hr as [Hr|(? & ? & _ & Hr)]; [|discriminate].
    unfold require in Hr. rewrite Erec, bool_decide_eq_true_2 in Hr by done. discriminate.
Qed.
(** A block beside the head whose fork is not longer is only stored. *)
Lemma beside_ok b c x c0 r c' :
  chain_ok c → c_block_records c !! fb_id b = None → fb_id b ≠ 0 → c_head_id c ≠ 0 →
  bh_previous (fb_head b) ≠ c_head_id c →
  ¬ rtc (follows (c_forks c)) (fb_id b) (bh_previous (fb_head b)) →
  store_and_index (fb_id b) b c = (Ok x, c0) → longer_fork x c0 = (Ok false, c0) →
  push_block b c = (r, c') → chain_ok c'.
Proof.
  intros Hok Hnew Hid Hh Hprev Hac Est Hlong Hr.
  destruct (store_ok b c Hok Hnew Hid Hac (or_intror Hh)) as (x' & c1 & E & Hok0 & _ & Hf).
  rewrite Est in E. injection E as <- <-. unfold push_block in Hr.
  unfold mbnd at 1, require in Hr. destruct (within_undo_history b c); [|by injection Hr as _ <-].
  cbv zeta in Hr. rewrite (mbnd_run _ _ c (c_head_id c) c) in Hr by done.
  rewrite (mbnd_run _ _ _ _ _ Est) in Hr. destruct Hf as [rf Hf].
  rewrite (mbnd_run _ _ c0 rf c0) in Hr by (unfold new_fork_data, lift; by rewrite Hf).
  rewrite (proj2 (Z.eqb_neq _ _) Hprev) in Hr.
  rewrite (mbnd_run _ _ c0 rf c0) in Hr; [|by rewrite (mbnd_run _ _ _ _ _ Hlong)].
  unfold mbnd, require in Hr. destruct (bool_decide _) in Hr; by injection Hr as _ <-.
Qed.

(** ** The queue of transactions is beside the chain *)
#[local] Instance queue_same_preorder : PreOrder queue_same.
Proof.
  split; [by intros c|]. intros c1 c2 c3 (?&?&?&?&?) (?&?&?&?&?). unfold queue_same. split_and!; congruence.
Qed.
Lemma queue_same_ok c c' : queue_same c c' → chain_ok c → chain_ok c'.
Proof.
  intros (Ed & Ef & Ei & Er & _) []. split; unfold chain_tree_ok, c_head, c_head_id in *;
    rewrite ?Ed, ?Ef, ?Ei, ?Er; done.
Qed.
Lemma evaluate_transaction_leaves t fee : leaves queue_same (evaluate_transaction t fee).
Proof.
  intros c. destruct (evaluate_transaction t fee c) as [r c'] eqn:E.
  by apply evaluate_transaction_spec in E as [? _].
Qed.
Lemma store_pending_leaves t o : leaves queue_same (store_pending_transaction t o).
Proof.
  unfold store_pending_transaction, remember_fees.
  apply leaves_bind; [apply _|(apply leaves_still; apply _)|intros id].
  apply leaves_bind; [apply _|(apply leaves_still; apply _)|]. intros [t'|]; [(apply leaves_still; apply _)|].
  apply leaves_bind; [apply _|(apply leaves_still; apply _)|intros fee].
  apply leaves_bind; [apply _|apply evaluate_transaction_leaves|intros e].
  apply leaves_bind; [apply _|by intros c|intros _].
  apply leaves_bind; [apply _|by intros c|intros _]. (apply leaves_still; apply _).
Qed.
Lemma revalidate_leaves : leaves queue_same revalidate_pending.
Proof.
  unfold revalidate_pending. apply leaves_bind; [apply _|by intros c|intros _].
  apply leaves_bind; [apply _|(apply leaves_still; apply _)|intros l].
  apply leaves_bind; [apply _| |intros discard; by intros c].
  apply leaves_mfold; try apply _. intros x discard c. unfold revalidate_one, catch.
  set (m := do* fee := _ in _). assert (leaves queue_same m) as Hm.
  { unfold m, remember_fees. apply leaves_bind; [apply _|(apply leaves_still; apply _)|intros fee].
    apply leaves_bind; [apply _|apply evaluate_transaction_leaves|intros e].
    apply leaves_bind; [apply _|by intros c'|intros _]. (apply leaves_still; apply _). }
  specialize (Hm c). destruct (m c) as [[y|e] c1]; exact Hm.
Qed.

(** ** Everything that is reached is in order *)
Inductive chain_step c : chain → Prop :=
  | step_push b r c' :
      bh_previous (fb_head b) = c_head_id c → c_block_records c !! fb_id b = None → fb_id b ≠ 0 →
      bh_block_num (fb_head b) = bh_block_num (c_head c) + 1 → bh_block_num (fb_head b) < FORK_25 →
      push_block b c = (r, c') → chain_step c c'
  | step_beside b x c0 r c' :
      c_block_records c !! fb_id b = None → fb_id b ≠ 0 → c_head_id c ≠ 0 →
      bh_previous (fb_head b) ≠ c_head_id c →
      ¬ rtc (follows (c_forks c)) (fb_id b) (bh_previous (fb_head b)) →
      store_and_index (fb_id b) b c = (Ok x, c0) → longer_fork x c0 = (Ok false, c0) →
      push_block b c = (r, c') → chain_step c c'
  | step_offer t o r c' : store_pending_transaction t o c = (r, c') → chain_step c c'
  | step_revalidate r c' : revalidate_pending c = (r, c') → chain_step c c'
  | step_generate elapsed timestamp r c' :
      generate_block elapsed timestamp c = (r, c') → chain_step c c'.
Lemma step_ok c c' : chain_ok c → chain_step c c' → chain_ok c'.
Proof.
  intros Hok Hs. destruct Hs as [b r c' Hp Hn Hid Hnum Hlt Hr|b x c0 r c' Hn Hid Hh Hp Hac Hst Hl Hr|t o r c' Hr|r c' Hr|el ts r c' Hr].
  - destruct r as [r|e]; [|by eapply refused_ok].
    destruct (accepted_valid b c r c') as [key Hv]; try done; [by destruct Hok|]. by eapply accepted_ok.
  - by eapply beside_ok.
  - apply (queue_same_ok c); [|done]. pose proof (store_pending_leaves t o c) as Hl. by rewrite Hr in Hl.
  - apply (queue_same_ok c); [|done]. pose proof (revalidate_leaves c) as Hl. by rewrite Hr in Hl.
  - pose proof (generate_block_same el ts c) as Hl. rewrite Hr in Hl. simpl in Hl. by subst c'.
Qed.

Lemma steps_ok c c' : chain_ok c → rtc chain_step c c' → chain_ok c'.
Proof. intros Hok Hs. induction Hs as [|c c1 c' Hs _ IH]; [done|]. by eapply IH, step_ok. Qed.

(** C11 (reachable_in_order). From a chain in order, pushing new blocks on top of the
    head, whether they are accepted or refused, storing blocks beside it, and
    offering, revalidating and packing transactions, in any order and number,
    only reaches chains in order: the block tree matches the stored blocks and
    the head is linked to its root, every number up to the head's names a stored
    block, and the database holds every record under its key. *)
Theorem reachable_in_order c c' : chain_ok c → rtc chain_step c c' → chain_ok c'.
Proof. apply steps_ok. Qed.
End reach.
