(* ===== verification/GenesisFacts.v ===== *)
(** Facts about the initial state: drawing a random slate ends, a well-formed
    configuration gives a chain, and the chain it gives is in order. *)
From S2P Require Export Genesis ChainRuns.

(** ** What a computation settles on with enough fuel *)
Definition settles {A} (f : nat → result A) (a : A) : Prop := ∃ n, ∀ fuel, (n ≤ fuel)%nat → f fuel = Ok a.
Lemma settles_const {A} (m : result A) (a : A) : m = Ok a → settles (λ _, m) a.
Proof. intros ->. by exists 0%nat. Qed.
Lemma settles_bind {A B} (f : nat → result A) (k : nat → A → result B) a b :
  settles f a → settles (λ n, k n a) b → settles (λ n, rbind (f n) (k n)) b.
Proof.
  intros [n Hf] [m Hk]. exists (n + m)%nat. intros fuel Hn. rewrite Hf by lia. apply Hk. lia.
Qed.
(** A loop whose body settles under an invariant that counts what is done. *)
Lemma settles_rfold {A S} (P : list A → S → Prop) (f : nat → A → S → result S) l s :
  (∀ l1 x l2 s, l = l1 ++ x :: l2 → P l1 s → ∃ s', settles (λ n, f n x s) s' ∧ P (l1 ++ [x]) s') →
  P [] s → ∃ s', settles (λ n, rfold (f n) l s) s' ∧ P l s'.
Proof.
  assert (∀ l2 l1 s, l = l1 ++ l2 →
    (∀ l1 x l2 s, l = l1 ++ x :: l2 → P l1 s → ∃ s', settles (λ n, f n x s) s' ∧ P (l1 ++ [x]) s') →
    P l1 s → ∃ s', settles (λ n, rfold (f n) l2 s) s' ∧ P l s') as Hgo.
  { clear s. intros l2. induction l2 as [|x l2 IH]; intros l1 s E Hf Hs.
    - exists s. split; [by exists 0%nat|]. by rewrite E, app_nil_r.
    - destruct (Hf l1 x l2 s E Hs) as (s1 & Hx & H1).
      destruct (IH (l1 ++ [x]) s1) as (s2 & Hl & H2); [by rewrite <- app_assoc|done|done|].
      exists s2. split; [|done]. by eapply settles_bind. }
  intros Hf Hs. by apply (Hgo l []).
Qed.

Section slates.
Context `{!Fc, !Crypto, P : !Prng, !PrngLaws P}.
Implicit Types (g : prng) (slate : gset Z) (ids : list Z) (d : chain_database).

Lemma slate_id_nonzero `{!CryptoLaws _} (slate : delegate_slate) : slate ≠ [] → slate_id slate ≠ 0.
Proof. destruct slate; [done|]. intros _. apply slate_hash_nonzero. Qed.

Definition distance (a b : nat) : nat := (a - b) + (b - a).

(** One effective move: draws are repeated until one of them changes the size. *)
Definition move ids slate g (target : nat) : result (gset Z * prng) :=
  if decide (target < size slate)%nat then remove_one_from_slate ids slate g
  else add_one_to_slate ids slate g.
Lemma adjust_slate_move n ids slate g target slate' g' :
  size slate ≠ target → move ids slate g target = Ok (slate', g') →
  adjust_slate (S n) ids slate g target = adjust_slate n ids slate' g' target.
Proof. intros Hs Hm. cbn [adjust_slate]. rewrite decide_False by done. unfold move in Hm. by rewrite Hm. Qed.
Lemma move_draw ids slate g target id i :
  Z.of_nat (length ids) ≤ 2 ^ 64 → (0 < length ids)%nat →
  (uniform_int 0 (Z.of_nat (length ids) - 1) g).1 = i → ids !! Z.to_nat i = Some id →
  move ids slate g target =
    Ok (if decide (target < size slate)%nat then slate ∖ {[id]} else {[id]} ∪ slate,
        (uniform_int 0 (Z.of_nat (length ids) - 1) g).2).
Proof.
  intros Hl Hl' Hi Hid. unfold move, remove_one_from_slate, add_one_to_slate, draw_delegate.
  rewrite u64_id by lia. destruct (uniform_int _ _ g) as [v g'] eqn:E. simpl in Hi. subst v.
  rewrite Hid. by case_decide.
Qed.
Lemma draw_id ids g : (0 < length ids)%nat →
  ∃ id, ids !! Z.to_nat (uniform_int 0 (Z.of_nat (length ids) - 1) g).1 = Some id.
Proof.
  intros Hl. apply lookup_lt_is_Some.
  destruct (uniform_int_range 0 (Z.of_nat (length ids) - 1) g); lia.
Qed.

(** The draw of [id] some draws ahead moves the slate towards its target. *)
Lemma move_settles ids slate g target id n :
  Z.of_nat (length ids) ≤ 2 ^ 64 → (0 < length ids)%nat → size slate ≠ target →
  slate ⊆ list_to_set ids →
  ids !! Z.to_nat (uniform_int 0 (Z.of_nat (length ids) - 1)
                     (draws n 0 (Z.of_nat (length ids) - 1) g)).1 = Some id →
  (if decide (target < size slate)%nat then id ∈ slate else id ∉ slate) →
  ∃ k slate' g', (∀ fuel, adjust_slate (k + fuel) ids slate g target = adjust_slate fuel ids slate' g' target) ∧
    slate' ⊆ list_to_set ids ∧ S (distance (size slate') target) = distance (size slate) target.
Proof.
  intros Hl Hl' Hs Hsub. revert g. induction n as [|n IH]; intros g Hid Hin.
  all: destruct (draw_id ids g Hl') as [id0 Hid0].
  all: pose proof (move_draw ids slate g target id0 _ Hl Hl' eq_refl Hid0) as Hm.
  all: set (slate' := if decide (target < size slate)%nat then _ else _) in Hm.
  all: set (g' := (uniform_int _ _ g).2) in *.
  - simpl in Hid. rewrite Hid in Hid0. injection Hid0 as <-.
    exists 1%nat, slate', g'. split; [intros fuel; by apply adjust_slate_move|].
    assert (id ∈ (list_to_set ids : gset Z)) by (apply elem_of_list_to_set; by eapply list_elem_of_lookup_2).
    unfold slate', distance. case_decide.
    + split; [set_solver|]. assert (size (slate ∖ {[id]}) = size slate - 1)%nat as ->; [|lia].
      rewrite size_difference by set_solver. by rewrite size_singleton.
    + split; [set_solver|]. rewrite size_union by set_solver. rewrite size_singleton. lia.
  - destruct (decide (id0 ∈ slate ↔ target < size slate)%nat) as [Hd|Hd].
    + exists 1%nat, slate', g'. split; [intros fuel; by apply adjust_slate_move|].
      assert (id0 ∈ (list_to_set ids : gset Z)) by (apply elem_of_list_to_set; by eapply list_elem_of_lookup_2).
      unfold slate', distance. case_decide.
      * assert (id0 ∈ slate) by tauto. split; [set_solver|].
        rewrite size_difference by set_solver. rewrite size_singleton. lia.
      * assert (id0 ∉ slate) by tauto. split; [set_solver|].
        rewrite size_union by set_solver. rewrite size_singleton. lia.
    + assert (slate' = slate) as E.
      { unfold slate'. case_decide; apply set_eq; intros y; set_unfold; split; try tauto.
        - intros Hy. split; [done|]. intros ->. tauto.
        - intros [->|Hy]; [|done]. destruct (decide (id0 ∈ slate)); tauto. }
      destruct (IH g') as (k & slate'' & g'' & Hk & H1 & H2); [done|done|].
      exists (S k), slate'', g''. split; [|done]. intros fuel.
      cbn [Nat.add]. rewrite <- Hk, (adjust_slate_move _ _ _ _ _ slate' g') by done. by rewrite E.
Qed.
Lemma useful_id ids slate target :
  (target ≤ size (list_to_set (C := gset Z) ids))%nat → slate ⊆ list_to_set ids → size slate ≠ target →
  ∃ id, id ∈ ids ∧ (if decide (target < size slate)%nat then id ∈ slate else id ∉ slate).
Proof.
  intros Ht Hsub Hs. case_decide as Hd.
  - destruct (set_choose_or_empty slate) as [[id Hid]|He].
    + exists id. split; [|done]. apply Hsub, elem_of_list_to_set in Hid. done.
    + apply leibniz_equiv in He. rewrite He, size_empty in Hd. lia.
  - destruct (set_choose_or_empty (list_to_set ids ∖ slate)) as [[id Hid]|He].
    + exists id. apply elem_of_difference in Hid as [H1 H2]. by apply elem_of_list_to_set in H1.
    + assert (list_to_set ids ⊆ slate) as H1%subseteq_size by set_solver. lia.
Qed.
Lemma adjust_slate_settles ids slate g target :
  Z.of_nat (length ids) ≤ 2 ^ 64 → (0 < length ids)%nat →
  (target ≤ size (list_to_set (C := gset Z) ids))%nat → slate ⊆ list_to_set ids →
  ∃ slate' g', settles (λ n, adjust_slate n ids slate g target) (slate', g') ∧
    size slate' = target ∧ slate' ⊆ list_to_set ids.
Proof.
  intros Hl Hl' Ht. remember (distance (size slate) target) as m eqn:Em. revert slate g Em.
  induction m as [m IH] using lt_wf_ind. intros slate g -> Hsub.
  destruct (decide (size slate = target)) as [E|E].
  - exists slate, g. split; [|done]. exists 0%nat. intros fuel _. destruct fuel; simpl; by rewrite decide_True.
  - destruct (useful_id ids slate target Ht Hsub E) as (id & Hid & Hu).
    apply list_elem_of_lookup in Hid as [i Hi]. pose proof (lookup_lt_Some _ _ _ Hi) as Hlt.
    destruct (uniform_int_fair 0 (Z.of_nat (length ids) - 1) g (Z.of_nat i)) as [n Hn]; [lia|].
    destruct (move_settles ids slate g target id n) as (k & slate1 & g1 & Hk & Hsub1 & Hd); try done.
    { by rewrite Hn, Nat2Z.id. }
    destruct (IH (distance (size slate1) target)) with (slate := slate1) (g := g1)
      as (slate' & g' & [n' Hs] & Hsz & Hs'); [lia|done|done|].
    exists slate', g'. split; [|done]. exists (k + n')%nat. intros fuel Hf.
    replace fuel with (k + (fuel - k))%nat by lia. rewrite Hk. apply Hs. lia.
Qed.

(** The slate of a balance: eight delegates, sometimes nine. *)
Definition is_selection ids slate : Prop :=
  slate ⊆ list_to_set ids ∧ (size slate = 8 ∨ size slate = 9)%nat.
Lemma select_slate_settles ids g :
  Z.of_nat (length ids) ≤ 2 ^ 64 → (9 ≤ size (list_to_set (C := gset Z) ids))%nat →
  ∃ slate g', settles (λ n, select_slate n ids g) (slate, g') ∧ is_selection ids slate.
Proof.
  intros Hl Hids. assert (0 < length ids)%nat as Hl'.
  { destruct ids; [|simpl; lia]. change (9 ≤ 0)%nat in Hids. lia. }
  destruct (adjust_slate_settles ids (list_to_set ids) g 8) as (s1 & g1 & H1 & Hz1 & Hs1); [done|done|lia|done|].
  unfold select_slate, prefill_slate. change slate_target with 8%nat. change (GENESIS_VOTE_PERMILLE <? 500) with true.
  assert (∃ s2 g2, settles (λ n, fill_remaining_slate n ids s1 g1) (s2, g2) ∧ is_selection ids s2)
    as (s2 & g2 & H2 & Hsel).
  { unfold fill_remaining_slate. rewrite Hz1.
    change (BTS_BLOCKCHAIN_NUM_DELEGATES * GENESIS_VOTE_PERMILLE - Z.of_nat 8 * 1000) with 80. cbn -[uniform_int].
    destruct (uniform_int 0 999 g1) as [v g2]. destruct (80 <=? v) eqn:E.
    - exists s1, g2. split; [by exists 0%nat|]. split; [done|by left].
    - destruct (adjust_slate_settles ids s1 g2 9) as (s2 & g3 & H2 & Hz2 & Hs2); [done|done|lia|done|].
      exists s2, g3. split; [done|]. split; [done|by right]. }
  exists s2, g2. split; [|done]. by apply settles_bind with (a := (s1, g1)) (k := λ n x, fill_remaining_slate n ids x.1 x.2).
Qed.
(** The slate is stored under its id unless another one already is. *)
Definition stored_slate (slate : delegate_slate) d : Z * chain_database :=
  (slate_id slate,
   match db_slates d !! slate_id slate with
   | Some _ => d
   | None => set_db_slates (<[slate_id slate := slate]> (db_slates d)) d
   end).
Lemma store_slate_nonempty (slate : delegate_slate) d : slate ≠ [] → store_slate slate d = stored_slate slate d.
Proof.
  intros Hs. unfold store_slate, stored_slate, db_store_delegate_slate, put.
  destruct slate as [|x l]; [done|]. cbv zeta. by case_match.
Qed.
(** A slate the generator may draw. *)
Record drawn_slate ids (slate : delegate_slate) : Prop := {
  dr_nodup : NoDup slate;
  dr_ids : slate ⊆ ids;
  dr_size : length slate = 8%nat ∨ length slate = 9%nat;
  dr_sorted : Sorted Z.le slate
}.
Lemma drawn_nonempty ids (slate : delegate_slate) : drawn_slate ids slate → slate ≠ [].
Proof. intros [_ _ Hs _] ->. simpl in Hs. lia. Qed.
Lemma selection_drawn ids slate :
  is_selection ids slate → drawn_slate ids (merge_sort Z.le (elements slate)).
Proof.
  intros [Hsub Hs]. split.
  - rewrite merge_sort_Permutation. apply NoDup_elements.
  - intros x Hx. rewrite merge_sort_Permutation in Hx. by apply elem_of_elements, Hsub, elem_of_list_to_set in Hx.
  - by rewrite merge_sort_Permutation.
  - apply Sorted_merge_sort, _.
Qed.
Lemma generate_slate_settles ids g d :
  Z.of_nat (length ids) ≤ 2 ^ 64 → (9 ≤ size (list_to_set (C := gset Z) ids))%nat →
  ∃ (slate : delegate_slate) g', settles (λ n, generate_random_slate n ids g d)
                ((stored_slate slate d).1, g', (stored_slate slate d).2) ∧ drawn_slate ids slate.
Proof.
  intros Hl Hids. destruct (select_slate_settles ids g Hl Hids) as (sel & g' & Hs & Hsel).
  apply selection_drawn in Hsel. exists (merge_sort Z.le (elements sel)), g'. split; [|done].
  unfold generate_random_slate.
  eapply (settles_bind _ (λ n x, let '(id, d) := store_slate (merge_sort Z.le (elements x.1)) d in
                                 Ok (id, x.2, d))); [exact Hs|].
  exists 0%nat. intros fuel _. cbn [fst snd].
  by rewrite store_slate_nonempty by by eapply drawn_nonempty.
Qed.

(** C20 (random_slate_drawn). Drawing a slate ends, however the generator behaves as
    long as every value comes up sooner or later: it gives eight or nine
    different delegates of the configuration in order of their ids, stores them
    under the id that is returned, which never is the id of no slate, and leaves
    the other slates alone. *)
Theorem random_slate_drawn `{!CryptoLaws _} ids g d :
  Z.of_nat (length ids) ≤ 2 ^ 64 → (9 ≤ size (list_to_set (C := gset Z) ids))%nat →
  ∃ (slate : delegate_slate) g' d', (∃ n, ∀ fuel, (n ≤ fuel)%nat →
      generate_random_slate fuel ids g d = Ok (slate_id slate, g', d')) ∧
    slate_id slate ≠ 0 ∧ NoDup slate ∧ slate ⊆ ids ∧ Sorted Z.le slate ∧
    (length slate = 8%nat ∨ length slate = 9%nat) ∧
    is_Some (db_slates d' !! slate_id slate) ∧
    (db_slates d !! slate_id slate = None → db_slates d' !! slate_id slate = Some slate) ∧
    ∀ k, k ≠ slate_id slate → db_slates d' !! k = db_slates d !! k.
Proof.
  intros Hl Hids. destruct (generate_slate_settles ids g d Hl Hids) as (slate & g' & Hs & Hd).
  exists slate, g', (stored_slate slate d).2. split; [exact Hs|].
  split; [by eapply slate_id_nonzero, drawn_nonempty|]. destruct Hd as [H1 H2 H3 H4].
  split_and!; try done; unfold stored_slate; destruct (db_slates d !! slate_id slate) eqn:E; simpl.
  - by rewrite E.
  - by rewrite lookup_insert_eq.
  - done.
  - intros _. apply lookup_insert_eq.
  - done.
  - intros k Hk. by rewrite lookup_insert_ne.
Qed.
End slates.

(** A generator that counts is fair. *)
#[export] Instance prng_reference_laws : PrngLaws prng_reference.
Proof.
  split; simpl.
  - intros lo hi g Hl. pose proof (Z.mod_pos_bound g (hi - lo + 1)). lia.
  - assert (∀ n lo hi g, draws n lo hi g = g + Z.of_nat n) as Hd.
    { intros n lo hi. induction n as [|n IH]; intros g; simpl; [lia|]. rewrite IH. simpl. lia. }
    intros lo hi g v Hv. exists (Z.to_nat ((v - lo - g) mod (hi - lo + 1))). rewrite Hd.
    pose proof (Z.mod_pos_bound (v - lo - g) (hi - lo + 1)) as Hb. rewrite Z2Nat.id by lia.
    rewrite Z.add_mod_idemp_r by lia. replace (g + (v - lo - g)) with (v - lo) by lia.
    rewrite Z.mod_small by lia. lia.
Qed.
Definition nine_ids : list Z := [1; 2; 3; 4; 5; 6; 7; 8; 9].
Lemma random_slate_drawn_witness :
  ∃ (slate : delegate_slate) g' d', (∃ n, ∀ fuel, (n ≤ fuel)%nat →
      generate_random_slate fuel nine_ids (mt11213b 7) (chain_database_empty 0) = Ok (slate_id slate, g', d')) ∧
    slate ⊆ nine_ids ∧ is_Some (db_slates d' !! slate_id slate).
Proof.
  destruct (random_slate_drawn nine_ids (mt11213b 7) (chain_database_empty 0))
    as (slate & g' & d' & Hr & _ & _ & Hsub & _ & _ & Hst & _);
    [apply Z.leb_le; reflexivity|apply Nat.leb_le; reflexivity|by exists slate, g', d'].
Defined.

(** ** The record of god

    It has no owner key, so storing it is a removal: the account that issues
    the base asset does not exist. *)
Lemma god_not_stored `{!Fc, !Crypto} d :
  db_accounts d !! 0 = None → db_store_account_record god d = d.
Proof.
  intros Hn. unfold db_store_account_record. change (ac_id god) with 0. by rewrite Hn.
Qed.
