(* ===== verification/GenesisChain.v ===== *)
(** The chain a well-formed configuration starts: the loops of [initialize_genesis]
    end and leave the accounts, balances, slates and votes in order. *)
From S2P Require Export GenesisFacts Reach BlockVotes ChainFacts.

(** A loop that does not throw. *)
Lemma rfold_ok {A S} (P : list A → S → Prop) (f : A → S → result S) l s :
  (∀ l1 x l2 s, l = l1 ++ x :: l2 → P l1 s → ∃ s', f x s = Ok s' ∧ P (l1 ++ [x]) s') →
  P [] s → ∃ s', rfold f l s = Ok s' ∧ P l s'.
Proof.
  intros Hf Hs. destruct (settles_rfold P (λ _, f) l s) as (s' & [n Hr] & Hs'); [|done|].
  - intros l1 x l2 s1 E H1. destruct (Hf l1 x l2 s1 E H1) as (s2 & E2 & H2).
    exists s2. split; [by apply settles_const|done].
  - exists s'. split; [by apply (Hr n)|done].
Qed.
Lemma foldl_keeps {A S} (P : S → Prop) (f : S → A → S) l s :
  (∀ s x, x ∈ l → P s → P (f s x)) → P s → P (foldl f s l).
Proof.
  revert s. induction l as [|x l IH]; intros s Hf Hs; simpl; [done|].
  apply IH; [|apply Hf; [by left|done]]. intros s' y Hy. apply Hf. by right.
Qed.

(** ** Configurations *)
Definition zsum (l : list Z) : Z := foldr Z.add 0 l.
Definition delegates_of (names : list name_config) : list name_config :=
  filter (λ name, is_delegate_config name = true) names.
Record config_wf `{!Crypto} (config : genesis_block_config) : Prop := {
  cw_time : gc_timestamp config ≠ 0;
  cw_delegates : BTS_BLOCKCHAIN_NUM_DELEGATES ≤ Z.of_nat (length (delegates_of (gc_names config)));
  cw_owners : Forall (λ n, nc_owner n ≠ 0) (gc_names config);
  cw_names : Z.of_nat (length (gc_names config)) < 2 ^ 31;
  cw_assets : Z.of_nat (length (gc_market_assets config)) < 2 ^ 31;
  cw_balances : Forall (λ x, 0 ≤ x.2 ≤ INT64_MAX) (gc_balances config);
  cw_positive : gc_balances config = [] ∨ Exists (λ x, 0 < x.2) (gc_balances config);
  cw_many : Z.of_nat (length (gc_balances config)) < 2 ^ 64;
  cw_addresses a b : a ∈ (gc_balances config).*1 → b ∈ (gc_balances config).*1 →
    address_of_pts a = address_of_pts b → a = b
}.
Lemma zsum_app l l' : zsum (l ++ l') = zsum l + zsum l'.
Proof. induction l as [|x l IH]; simpl; [done|]. unfold zsum in IH |- *. simpl. lia. Qed.
Lemma zsum_nonneg l : Forall (λ x, 0 ≤ x) l → 0 ≤ zsum l.
Proof. unfold zsum. induction 1; simpl; lia. Qed.
Lemma zsum_bound l n : Forall (λ x, x ≤ n) l → zsum l ≤ Z.of_nat (length l) * n.
Proof. unfold zsum. induction 1; cbn [foldr length]; lia. Qed.

Section shares.
Context `{!Fc, !FcLaws _}.
Lemma total_unscaled_sum l :
  Forall (λ x : list Z * Z, 0 ≤ x.2 ≤ INT64_MAX) l → Z.of_nat (length l) < 2 ^ 64 →
  total_unscaled l = Ok (zsum l.*2).
Proof.
  intros Hl Hn. destruct (rfold_ok (λ l1 t, t = zsum l1.*2)
    (λ item total, ensure (0 <=? item.2) && (item.2 <? 2 ^ 64) else undefined in
                   Ok (u128_add total (u128_of_uint64 item.2))) l 0) as (s & E & ->); [|done|exact E].
  intros l1 x l2 t -> ->. rewrite Forall_app, Forall_cons in Hl. destruct Hl as (H1 & Hx & _).
  assert (0 ≤ zsum l1.*2 ≤ Z.of_nat (length l1) * INT64_MAX) as Hs.
  { split; [apply zsum_nonneg|rewrite <- (length_fmap snd); apply zsum_bound];
      apply Forall_fmap; (eapply Forall_impl; [exact H1|]); simpl; tauto. }
  rewrite length_app in Hn. cbn [length] in Hn. unfold INT64_MAX in *.
  rewrite (proj2 (Z.leb_le 0 x.2)), (proj2 (Z.ltb_lt x.2 (2 ^ 64))) by lia. cbn [andb].
  eexists. split; [reflexivity|]. rewrite u128_of_uint64_spec by lia.
  assert (2 ^ 128 = 2 ^ 64 * 2 ^ 64) as E by done.
  rewrite u128_add_spec by nia. rewrite fmap_app, zsum_app. simpl. lia.
Qed.

(** The share of an amount [a] in a total. *)
Definition share (total a : Z) : Z := a * BTS_BLOCKCHAIN_INITIAL_SHARES / total.
Lemma initial_shares_share total a :
  0 < total < 2 ^ 128 → 0 ≤ a ≤ total → a ≤ INT64_MAX → initial_shares total a = Ok (share total a) ∧ 0 ≤ share total a.
Proof.
  intros Ht Ha Hm. unfold initial_shares, share.
  assert (0 ≤ a * BTS_BLOCKCHAIN_INITIAL_SHARES < 2 ^ 128) as Hp.
  { split; [apply Z.mul_nonneg_nonneg; [lia|by apply Z.leb_le]|].
    apply Z.le_lt_trans with (INT64_MAX * BTS_BLOCKCHAIN_INITIAL_SHARES); [|by apply Z.ltb_lt].
    apply Z.mul_le_mono_nonneg_r; [by apply Z.leb_le|done]. }
  assert (0 ≤ a * BTS_BLOCKCHAIN_INITIAL_SHARES / total) as H0 by (apply Z.div_pos; lia).
  split; [|done].
  rewrite (proj2 (Z.leb_le 0 a)), (proj2 (Z.leb_le a INT64_MAX)) by lia. cbn [andb].
  rewrite (proj2 (Z.eqb_neq total 0)) by lia. cbn [negb].
  rewrite !u128_of_int64_spec by first [lia|split; by apply Z.leb_le].
  rewrite u128_mul_spec by first [lia|by apply Z.leb_le]. rewrite u128_div_spec by (unfold in_u128; lia).
  rewrite u128_low_bits_spec; [done|]. split; [done|].
  apply Z.le_lt_trans with BTS_BLOCKCHAIN_INITIAL_SHARES; [|by apply Z.ltb_lt].
  apply Z.div_le_upper_bound; [lia|]. apply Z.mul_le_mono_nonneg_r; [by apply Z.leb_le|lia].
Qed.
Lemma shares_bounded total l :
  0 < total → zsum l * BTS_BLOCKCHAIN_INITIAL_SHARES ≤ total * BTS_BLOCKCHAIN_INITIAL_SHARES →
  zsum (share total <$> l) ≤ BTS_BLOCKCHAIN_INITIAL_SHARES.
Proof.
  intros Ht Hl. apply Z.mul_le_mono_pos_l with total; [done|]. etransitivity; [|exact Hl]. clear Hl.
  unfold zsum, share. induction l as [|x l IH]; cbn [foldr fmap list_fmap]; [lia|].
  rewrite Z.mul_add_distr_l, Z.mul_add_distr_r.
  apply Z.add_le_mono; [by apply Z.mul_div_le|exact IH].
Qed.
End shares.

(** ** Accounts *)
Section accounts.
Context `{!Fc, !Crypto}.
Implicit Types (d : chain_database) (ids : list Z) (m : gmap Z account_record).

(** Storing accounts changes the account tables only. *)
Definition accounts_from d d' : Prop := ∃ a i x v,
  d' = set_db_delegate_votes v (set_db_address_to_account x (set_db_account_index i (set_db_accounts a d))).
Lemma accounts_from_refl d : accounts_from d d.
Proof. destruct d. by do 4 eexists. Qed.
Lemma accounts_from_trans d d1 d2 : accounts_from d d1 → accounts_from d1 d2 → accounts_from d d2.
Proof. intros (a & i & x & v & ->) (a' & i' & x' & v' & ->). by exists a', i', x', v'. Qed.
Lemma store_account_from r d : accounts_from d (db_store_account_record r d).
Proof.
  unfold db_store_account_record. destruct (ac_is_null r), (db_accounts d !! ac_id r);
    first [apply accounts_from_refl|by do 4 eexists].
Qed.
Lemma store_account_accounts r d :
  ac_is_null r = false → db_accounts (db_store_account_record r d) = <[ac_id r := r]> (db_accounts d).
Proof. intros Hn. unfold db_store_account_record. by rewrite Hn. Qed.

(** A delegate of the configuration with its votes, and any other account. *)
Definition delegate_with (votes k : Z) (r : account_record) : Prop :=
  ac_id r = k ∧ ac_is_null r = false ∧
  ∃ i, ac_delegate_info r = Some i ∧ ds_votes_for i ≡₆₄ votes ∧ ds_pay_balance i = 0.
Definition plain_account (k : Z) (r : account_record) : Prop :=
  ac_id r = k ∧ ac_is_null r = false ∧ ac_delegate_info r = None.
Lemma genesis_account_made timestamp id name :
  timestamp ≠ 0 → nc_owner name ≠ 0 →
  ∃ r, genesis_account timestamp id name = Ok r ∧
    if is_delegate_config name then delegate_with 0 id r else plain_account id r.
Proof.
  intros Ht Ho. unfold genesis_account, ac_set_active_key. rewrite (proj2 (Z.eqb_neq _ _) Ht). cbn [negb rbind].
  eexists. split; [reflexivity|]. assert ((nc_owner name =? 0) = false) as En by by apply Z.eqb_neq.
  destruct (is_delegate_config name); split_and!; try done. by eexists.
Qed.

Record named d0 (l : list name_config) (x : genesis_names) : Prop := {
  nm_next : gn_account_id x = 1 + Z.of_nat (length l);
  nm_nodup : NoDup (gn_delegate_ids x);
  nm_range k : k ∈ gn_delegate_ids x → 1 ≤ k < gn_account_id x;
  nm_count : length (gn_delegate_ids x) = length (delegates_of l);
  nm_delegates k : k ∈ gn_delegate_ids x → ∃ r, gn_delegates x !! k = Some r ∧ delegate_with 0 k r;
  nm_others k : k ∉ gn_delegate_ids x → gn_delegates x !! k = None;
  nm_from : accounts_from d0 (gn_db x);
  nm_accounts k r : db_accounts (gn_db x) !! k = Some r →
    plain_account k r ∧ k ∉ gn_delegate_ids x ∧ k < gn_account_id x;
  nm_index : vote_index (gn_db x)
}.
Lemma named_start d : db_accounts d = ∅ → vote_index d → named d [] (GenesisNames 1 [] ∅ d).
Proof.
  intros Ha Hv. split; try done; simpl.
  - constructor.
  - by intros k ?%elem_of_nil.
  - by intros k ?%elem_of_nil.
  - apply accounts_from_refl.
  - intros k r. by rewrite Ha.
Qed.
Lemma named_delegate d0 l name x r :
  named d0 l x → is_delegate_config name = true → delegate_with 0 (gn_account_id x) r →
  named d0 (l ++ [name]) (GenesisNames (gn_account_id x + 1) (gn_delegate_ids x ++ [gn_account_id x])
    (<[gn_account_id x := r]> (gn_delegates x)) (gn_db x)).
Proof.
  intros [] Hd Hr. assert (gn_account_id x ∉ gn_delegate_ids x) as Hnew.
  { intros Hin. apply nm_range0 in Hin. lia. }
  split; simpl; try done.
  - rewrite length_app. cbn [length]. lia.
  - apply NoDup_app. split_and!; [done| |apply NoDup_singleton].
    intros k Hk ->%list_elem_of_singleton. done.
  - intros k [Hk| ->%list_elem_of_singleton]%elem_of_app; [apply nm_range0 in Hk|]; lia.
  - unfold delegates_of. rewrite filter_app, filter_cons_True, filter_nil, !length_app by done. cbn [length].
    by rewrite nm_count0.
  - intros k Hk. destruct (decide (k = gn_account_id x)) as [->|Hne].
    + exists r. by rewrite lookup_insert_eq.
    + rewrite lookup_insert_ne by done. apply nm_delegates0.
      by apply elem_of_app in Hk as [?|?%list_elem_of_singleton].
  - intros k Hk. apply not_elem_of_app in Hk as [Hk Hne].
    rewrite lookup_insert_ne by (intros <-; apply Hne; by left). by apply nm_others0.
  - intros k r' Hk. destruct (nm_accounts0 k r' Hk) as (H1 & H2 & H3). split_and!; [done| |lia].
    intros [?|E%list_elem_of_singleton]%elem_of_app; [done|lia].
Qed.
Lemma named_plain d0 l name x r :
  named d0 l x → is_delegate_config name = false → plain_account (gn_account_id x) r →
  named d0 (l ++ [name]) (GenesisNames (gn_account_id x + 1) (gn_delegate_ids x) (gn_delegates x)
    (db_store_account_record r (gn_db x))).
Proof.
  intros [] Hd (Hid & Hn & Hi). split; simpl; try done.
  - rewrite length_app. cbn [length]. lia.
  - intros k Hk. apply nm_range0 in Hk. lia.
  - unfold delegates_of. rewrite filter_app, (filter_cons_False _ name) by congruence. rewrite filter_nil, app_nil_r.
    by rewrite nm_count0.
  - by eapply accounts_from_trans, store_account_from.
  - intros k r'. rewrite store_account_accounts by done.
    intros [[<- <-]|[Hne Hk]]%lookup_insert_Some.
    + rewrite Hid. split_and!; [done| |lia]. intros Hin. apply nm_range0 in Hin. lia.
    + destruct (nm_accounts0 k r' Hk) as (H1 & H2 & H3). split_and!; [done|done|lia].
  - by apply store_account_indexed.
Qed.
Lemma genesis_accounts_named timestamp names d :
  timestamp ≠ 0 → Forall (λ n, nc_owner n ≠ 0) names → db_accounts d = ∅ → vote_index d →
  ∃ x, genesis_accounts timestamp names d = Ok x ∧ named d names x.
Proof.
  intros Ht Ho Ha Hv. apply rfold_ok; [|by apply named_start].
  intros l1 name l2 x -> Hx. rewrite Forall_app, Forall_cons in Ho. destruct Ho as (_ & Ho & _).
  destruct (genesis_account_made timestamp (gn_account_id x) name Ht Ho) as (r & Hr & Hm).
  unfold genesis_name. rewrite Hr. cbn [rbind]. eexists. split; [reflexivity|].
  destruct (is_delegate_config name) eqn:E; [by apply named_delegate|by apply named_plain].
Qed.
End accounts.

(** ** Balances and votes *)
Lemma supports_once (sl : list Z) id :
  NoDup sl → Forall (λ x, 0 ≤ x) sl → supports sl id = if decide (id ∈ sl) then 1 else 0.
Proof.
  intros Hn Hp. unfold supports. induction Hn as [|x sl Hx Hn IH].
  { rewrite decide_False by by apply not_elem_of_nil. done. }
  apply Forall_cons in Hp as [H0 Hp]. specialize (IH Hp). destruct (decide (Z.abs x = id)) as [E|E].
  - rewrite filter_cons_True by done. rewrite Z.abs_eq in E by done. subst x.
    rewrite decide_False in IH by done. rewrite decide_True by by left. cbn [length]. lia.
  - rewrite filter_cons_False by done. rewrite IH. rewrite Z.abs_eq in E by done.
    destruct (decide (id ∈ sl)); [by rewrite decide_True by by right|].
    rewrite decide_False; [done|]. by intros [->|?]%elem_of_cons.
Qed.

Section votes.
Context `{!Fc, !Crypto}.
Implicit Types (m : gmap Z account_record) (ids : list Z).
Lemma delegate_with_eq v v' k r : v ≡₆₄ v' → delegate_with v k r → delegate_with v' k r.
Proof. intros E (H1 & H2 & i & H3 & H4 & H5). split_and!; [done|done|]. exists i. by rewrite <- E. Qed.

(** [add_votes] on delegates that have [f] votes. *)
Lemma add_votes_run (f : Z → Z) sl n m :
  NoDup sl → (∀ k, k ∈ sl → ∃ r, m !! k = Some r ∧ delegate_with (f k) k r) →
  ∃ m', add_votes sl n m = Ok m' ∧ (∀ k, k ∉ sl → m' !! k = m !! k) ∧
    ∀ k, k ∈ sl → ∃ r, m' !! k = Some r ∧ delegate_with (f k + n) k r.
Proof.
  intros Hn. revert m. induction Hn as [|x sl Hx Hn IH]; intros m Hm.
  { exists m. split_and!; [done|done|]. by intros k ?%elem_of_nil. }
  destruct (Hm x) as (r & Hr & Hid & Hnull & i & Hi & Hv & Hp); [by left|].
  unfold add_votes. cbn [rfold]. rewrite Hr. simpl. unfold ac_adjust_votes_for at 1. rewrite Hi.
  cbn [of_option rbind]. set (r' := set_ac_delegate_info _ r).
  assert (delegate_with (f x + n) x r') as Hr'.
  { split_and!; [done|done|]. eexists. split; [reflexivity|]. split; [|done]. simpl. by rewrite s64_eq64, Hv. }
  destruct (IH (<[x := r']> m)) as (m' & E & Ho & Hs).
  { intros k Hk. rewrite lookup_insert_ne by (intros ->; done). apply Hm. by right. }
  exists m'. split; [exact E|]. split.
  - intros k [H1 H2]%not_elem_of_cons. rewrite Ho by done. by rewrite lookup_insert_ne.
  - intros k [->|Hk]%elem_of_cons; [|by apply Hs]. exists r'. by rewrite Ho, lookup_insert_eq.
Qed.
End votes.

Section balance_loop.
Context `{!Fc, !FcLaws _, !Crypto, !CryptoLaws _, P : !Prng, !PrngLaws P}.
Context (ids : list Z) (ids_nodup : NoDup ids) (ids_range : ∀ k, k ∈ ids → 0 ≤ k)
  (ids_many : (9 ≤ length ids)%nat) (ids_length : Z.of_nat (length ids) ≤ 2 ^ 64).
Context (d0 : chain_database) (addresses : list (list Z)).
Hypothesis addresses_inj : ∀ a b, a ∈ addresses → b ∈ addresses → address_of_pts a = address_of_pts b → a = b.
Implicit Types (x : genesis_state) (a : list Z).

Notation "'slates' x" := (db_slates (gs_db x)) (at level 9, x at level 8).
Notation "'balances' x" := (db_balances (gs_db x)) (at level 9, x at level 8).
Definition slate_in x (i : Z) : list Z := match (slates x !! i : option delegate_slate) with Some s => s | None => [] end.
Definition genesis_backing x (k : Z) : Z := gsum (in_backing (slate_in x) k) (balances x).
(** The condition under which a configured address may withdraw. *)
Definition genesis_condition a (r : balance_record) : Prop :=
  br_condition r = WithdrawCondition 0 (br_delegate_slate_id r) (withdraw_with_signature (address_of_pts a) None).
(** What the loop over the balances keeps, when [done_] are the addresses so far and
    [total] what they were given. *)
Record balanced (done_ : list (list Z)) (total : Z) x : Prop := {
  bl_db : gs_db x = set_db_balances (balances x) (set_db_slates (slates x) d0);
  bl_slates k s : slates x !! k = Some s → drawn_slate ids s ∧ k ≠ 0;
  bl_address a r : gs_balance_by_address x !! a = Some r →
    a ∈ done_ ∧ genesis_condition a r ∧ is_Some (slates x !! br_delegate_slate_id r) ∧
    balances x !! br_id r = Some r;
  bl_balance k r : balances x !! k = Some r →
    br_id r = k ∧ 0 ≤ br_balance r ∧ ∃ a, gs_balance_by_address x !! a = Some r;
  bl_total : gsum (λ _ r, br_balance r) (balances x) = total;
  bl_votes k : k ∈ ids → ∃ r, gs_delegates x !! k = Some r ∧ delegate_with (genesis_backing x k) k r;
  bl_others k : k ∉ ids → gs_delegates x !! k = None
}.

Lemma drawn_supports s k : drawn_slate ids s → supports s k = if decide (k ∈ s) then 1 else 0.
Proof.
  intros [H1 H2 _ _]. apply supports_once; [done|]. apply Forall_forall. intros y Hy. by apply ids_range, H2.
Qed.

(** Storing a drawn slate. *)
Definition with_slate (slate : delegate_slate) (g : prng) x : genesis_state :=
  GenesisState g (gs_balance_by_address x) (gs_delegates x) (stored_slate slate (gs_db x)).2.
Lemma with_slate_slates (slate : delegate_slate) g x k s :
  slates x !! k = Some s → slates (with_slate slate g x) !! k = Some s.
Proof.
  intros Hk. unfold with_slate, stored_slate. simpl. case_match eqn:E; simpl; [done|].
  rewrite lookup_insert_ne; [done|]. intros <-. congruence.
Qed.
Lemma with_slate_known (slate : delegate_slate) g x :
  is_Some (slates (with_slate slate g x) !! slate_id slate).
Proof.
  unfold with_slate, stored_slate. simpl. case_match eqn:E; simpl; [by rewrite E|by rewrite lookup_insert_eq].
Qed.
Lemma with_slate_balances (slate : delegate_slate) g x : balances (with_slate slate g x) = balances x.
Proof. unfold with_slate, stored_slate. simpl. by case_match. Qed.
Lemma with_slate_backing (slate : delegate_slate) g done_ total x k :
  balanced done_ total x → genesis_backing (with_slate slate g x) k = genesis_backing x k.
Proof.
  intros []. unfold genesis_backing. rewrite with_slate_balances. apply gsum_ext. intros a r Hr.
  destruct (bl_balance0 a r Hr) as (_ & _ & b & Hb). destruct (bl_address0 b r Hb) as (_ & _ & [s Hs] & _).
  unfold in_backing, slate_in. by rewrite (with_slate_slates slate g x _ s Hs), Hs.
Qed.
Lemma with_slate_balanced (slate : delegate_slate) g done_ total x :
  drawn_slate ids slate → balanced done_ total x → balanced done_ total (with_slate slate g x).
Proof.
  intros Hd Hx. pose proof (λ k, with_slate_backing slate g _ _ x k Hx) as Hb. destruct Hx.
  split; rewrite ?with_slate_balances; try done.
  - unfold with_slate, stored_slate. simpl. case_match; simpl; [done|]. by rewrite bl_db0.
  - intros k s. unfold with_slate, stored_slate. simpl. case_match eqn:E; simpl; [by apply bl_slates0|].
    intros [[<- <-]|[_ Hk]]%lookup_insert_Some; [|by apply bl_slates0].
    split; [done|]. by eapply slate_id_nonzero, drawn_nonempty.
  - intros a r Hr. destruct (bl_address0 a r Hr) as (H1 & H2 & [s Hs] & H3). split_and!; try done.
    by rewrite (with_slate_slates slate g x _ s Hs).
  - intros k Hk. rewrite Hb. by apply bl_votes0.
Qed.


(** The record an amount goes to, with the amount added. *)
Record chosen (done_ : list (list Z)) (total : Z) a (n : Z) (cur : balance_record) x : Prop := {
  ch_balanced : balanced done_ total x;
  ch_condition : genesis_condition a cur;
  ch_slate : is_Some (slates x !! br_delegate_slate_id cur);
  ch_amount : br_balance cur = from_option br_balance 0 (balances x !! br_id cur) + n;
  ch_old r : balances x !! br_id cur = Some r → br_condition r = br_condition cur;
  ch_same b r : gs_balance_by_address x !! b = Some r → (b = a ↔ br_id r = br_id cur)
}.
Lemma condition_address a r b r' :
  a ∈ addresses → b ∈ addresses → genesis_condition a r → genesis_condition b r' → br_id r = br_id r' →
  a = b ∧ br_condition r = br_condition r'.
Proof.
  intros Ha Hb Hr Hr' E. unfold br_id, address_of_condition in E. apply no_condition_collision in E.
  split; [|done]. apply addresses_inj; [done|done|]. unfold genesis_condition in *. congruence.
Qed.
Lemma genesis_record_settles timestamp a n x done_ total :
  balanced done_ total x → done_ ⊆ addresses → a ∈ addresses →
  0 ≤ n → 0 ≤ total → total + n ≤ BTS_BLOCKCHAIN_INITIAL_SHARES →
  ∃ cur x', settles (λ fuel, genesis_record_of fuel ids timestamp n a x) (cur, x') ∧ chosen done_ total a n cur x'.
Proof.
  intros Hx Hdone Ha Hn Ht Hb. assert (BTS_BLOCKCHAIN_INITIAL_SHARES ≤ INT64_MAX) as Hmax by by apply Z.leb_le.
  assert (∀ m, 0 ≤ m ≤ total → in_s64 (m + n)) as H64 by (unfold_int; intros m; lia).
  unfold genesis_record_of. destruct (gs_balance_by_address x !! a) as [r|] eqn:Er.
  - exists (set_br_balance (s64 (br_balance r + n)) r), x. split; [by exists 0%nat|].
    destruct (bl_address _ _ _ Hx a r Er) as (_ & Hc & Hs & Hr). split; try done.
    + change (br_id (set_br_balance _ r)) with (br_id r). rewrite Hr. simpl. apply s64_id, H64.
      destruct (bl_balance _ _ _ Hx _ _ Hr) as (_ & Hpos & _). split; [done|].
      rewrite <- (bl_total _ _ _ Hx). apply (gsum_ge_elem (λ _ r, br_balance r) _ (br_id r)); [|done].
      intros k v Hk. by destruct (bl_balance _ _ _ Hx _ _ Hk) as (_ & ? & _).
    + change (br_id (set_br_balance _ r)) with (br_id r). intros r' E. by simplify_eq.
    + intros b r' Hb'. split; [intros ->; by simplify_eq|]. intros E.
      destruct (bl_address _ _ _ Hx b r' Hb') as (Hbd & Hc' & _).
      destruct (condition_address b r' a r) as [-> _]; try done. by apply Hdone.
  - destruct (generate_slate_settles ids (gs_prng x) (gs_db x)) as (slate & g & Hs & Hd); [done|by rewrite size_list_to_set|].
    set (x' := with_slate slate g x).
    set (cur := set_br_last_update timestamp (balance_record_owned (address_of_pts a) (Asset (s64 n) 0) (slate_id slate))).
    exists cur, x'. split.
    { eapply (settles_bind _ (λ _ y, let '(slate_id, g, d) := y in
        let r := balance_record_owned (address_of_pts a) (Asset (s64 n) 0) slate_id in
        Ok (set_br_last_update timestamp r, GenesisState g (gs_balance_by_address x) (gs_delegates x) d)));
        [exact Hs|by apply settles_const]. }
    assert (balances x' !! br_id cur = None) as Hnew.
    { unfold x'. rewrite with_slate_balances. destruct (balances x !! br_id cur) as [r|] eqn:E; [|done].
      destruct (bl_balance _ _ _ Hx _ _ E) as (Eid & _ & b & Hb').
      destruct (bl_address _ _ _ Hx b r Hb') as (Hbd & Hc & _).
      destruct (condition_address b r a cur) as [-> _]; try done; [by apply Hdone|congruence]. }
    split.
    + by apply with_slate_balanced.
    + done.
    + apply with_slate_known.
    + rewrite Hnew. simpl. change (br_balance cur) with (s64 n). apply s64_id, (H64 0). lia.
    + intros r. by rewrite Hnew.
    + intros b r Hb'. change (gs_balance_by_address x !! b = Some r) in Hb'. split; [intros ->; by rewrite Er in Hb'|]. intros E.
      destruct (bl_address _ _ _ Hx b r Hb') as (_ & _ & _ & Hr). unfold x' in Hnew. rewrite with_slate_balances, <- E, Hr in Hnew. done.
Qed.

(** Storing the record moves the backing of the delegates its slate names. *)
Lemma chosen_backing done_ total a n cur x i bba m k :
  chosen done_ total a n cur x →
  genesis_backing (GenesisState (gs_prng x) bba m
    (db_store_balance_record (set_br_genesis_info i cur) (gs_db x))) k
  = genesis_backing x k + supports (slate_in x (br_delegate_slate_id cur)) k * n.
Proof.
  intros [Hx Hc Hs Ha Ho _]. unfold genesis_backing.
  match goal with |- gsum (in_backing (slate_in ?y) _) _ = _ => change (slate_in y) with (slate_in x) end.
  cbn [gs_db db_slates db_balances db_store_balance_record set_db_balances].
  change (br_id (set_br_genesis_info i cur)) with (br_id cur). rewrite gsum_insert.
  destruct Hs as [s Hs]. assert (br_delegate_slate_id cur ≠ 0) as Hne by by apply (bl_slates _ _ _ Hx _ s).
  assert (∀ r, br_condition r = br_condition cur → counted r = true) as Hcount.
  { intros r E. unfold counted, br_asset_id, br_delegate_slate_id in *. rewrite E.
    rewrite (proj2 (Z.eqb_neq _ _) Hne). unfold genesis_condition in Hc. by rewrite Hc. }
  unfold in_backing at 3. rewrite Hcount by done.
  change (br_balance (set_br_genesis_info i cur)) with (br_balance cur).
  change (br_delegate_slate_id (set_br_genesis_info i cur)) with (br_delegate_slate_id cur).
  unfold contrib. destruct (balances x !! br_id cur) as [r|] eqn:E; simpl in Ha |- *; [|rewrite Ha; lia].
  unfold in_backing at 2. rewrite Hcount by by apply Ho.
  assert (br_delegate_slate_id r = br_delegate_slate_id cur) as ->
    by (unfold br_delegate_slate_id; by rewrite (Ho r eq_refl)).
  rewrite Ha. lia.
Qed.
Lemma balance_added done_ total a n cur x i :
  chosen done_ total a n cur x → 0 ≤ n →
  ∃ sl m', slates x !! br_delegate_slate_id cur = Some sl ∧ add_votes sl n (gs_delegates x) = Ok m' ∧
    balanced (done_ ++ [a]) (total + n) (GenesisState (gs_prng x)
      (<[a := set_br_genesis_info i cur]> (gs_balance_by_address x)) m'
      (db_store_balance_record (set_br_genesis_info i cur) (gs_db x))).
Proof.
  intros Hch Hn. pose proof (λ bba m k, chosen_backing _ _ _ _ _ _ i bba m k Hch) as Hb.
  destruct Hch as [Hx Hc [sl Hs] Ha Ho Hsame]. unfold slate_in in Hb. rewrite Hs in Hb.
  destruct (bl_slates _ _ _ Hx _ _ Hs) as [Hd _].
  destruct (add_votes_run (genesis_backing x) sl n (gs_delegates x)) as (m' & Em & Hother & Hin).
  { by destruct Hd. }
  { intros k Hk. apply (bl_votes _ _ _ Hx). by apply (dr_ids _ _ Hd). }
  exists sl, m'. split_and!; [done|done|]. set (cur' := set_br_genesis_info i cur) in *.
  assert (0 ≤ from_option br_balance 0 (balances x !! br_id cur)) as Hold.
  { destruct (balances x !! br_id cur) as [r|] eqn:E; [|done]. by destruct (bl_balance _ _ _ Hx _ _ E) as (_ & ? & _). }
  assert (balances x !! br_id cur' = balances x !! br_id cur) as Eid by done.
  split; cbn [gs_db gs_balance_by_address gs_delegates db_store_balance_record set_db_balances db_balances db_slates].
  - by rewrite (bl_db _ _ _ Hx).
  - apply (bl_slates _ _ _ Hx).
  - intros b r [[<- <-]|[Hne Hb']]%lookup_insert_Some.
    + split_and!; [apply elem_of_app; right; by left|done|by exists sl|by rewrite lookup_insert_eq].
    + destruct (bl_address _ _ _ Hx b r Hb') as (H1 & H2 & H3 & H4).
      split_and!; [apply elem_of_app; by left|done|done|].
      rewrite lookup_insert_ne; [done|]. intros E. by apply Hne, eq_sym, (Hsame b r Hb').
  - intros k r [[<- <-]|[Hne Hk]]%lookup_insert_Some.
    + split_and!; [done| |exists a; by rewrite lookup_insert_eq].
      change (br_balance cur') with (br_balance cur). lia.
    + destruct (bl_balance _ _ _ Hx k r Hk) as (H1 & H2 & b & H3). split_and!; [done|done|].
      exists b. rewrite lookup_insert_ne; [done|]. intros <-. apply Hne.
      rewrite <- H1. symmetry. by apply (Hsame a r H3).
  - rewrite gsum_insert, (bl_total _ _ _ Hx), Eid. change (br_balance cur') with (br_balance cur). rewrite Ha.
    unfold contrib. destruct (balances x !! br_id cur); simpl; lia.
  - intros k Hk. rewrite Hb. destruct (decide (k ∈ sl)) as [Hin'|Hout].
    + destruct (Hin k Hin') as (r & Er & Hr). exists r. split; [done|].
      rewrite (drawn_supports sl k Hd), decide_True by done. by rewrite Z.mul_1_l.
    + rewrite (Hother k Hout). destruct (bl_votes _ _ _ Hx k Hk) as (r & Er & Hr). exists r. split; [done|].
      rewrite (drawn_supports sl k Hd), decide_False by done. by rewrite Z.mul_0_l, Z.add_0_r.
  - intros k Hk. rewrite Hother; [by apply (bl_others _ _ _ Hx)|]. intros Hin'. by apply Hk, (dr_ids _ _ Hd).
Qed.

Lemma genesis_balance_settles timestamp tot item x done_ total n :
  initial_shares tot item.2 = Ok n → balanced done_ total x → done_ ⊆ addresses → item.1 ∈ addresses →
  0 ≤ n → 0 ≤ total → total + n ≤ BTS_BLOCKCHAIN_INITIAL_SHARES →
  ∃ x', settles (λ fuel, genesis_balance fuel ids timestamp tot item x) x' ∧ balanced (done_ ++ [item.1]) (total + n) x'.
Proof.
  intros Hi Hx Hd Ha Hn Ht Hb.
  destruct (genesis_record_settles timestamp item.1 n x done_ total) as (cur & x1 & Hr & Hch); try done.
  assert (s64 n = n) as E64.
  { assert (BTS_BLOCKCHAIN_INITIAL_SHARES ≤ INT64_MAX) by by apply Z.leb_le. apply s64_id. unfold_int. lia. }
  set (i := Some (GenesisRecord (br_get_balance cur) (string_of_pts_address item.1))).
  destruct (balance_added done_ total item.1 n cur x1 i Hch Hn) as (sl & m' & Hs & Em & Hx').
  eexists. split; [|exact Hx']. unfold genesis_balance. rewrite Hi. cbn [rbind].
  eapply (settles_bind _ (λ _ y, _)); [exact Hr|]. cbn [fst snd]. apply settles_const.
  rewrite Hs. cbn [of_option rbind]. rewrite E64, Em. reflexivity.
Qed.
Lemma balanced_start g m :
  db_slates d0 = ∅ → db_balances d0 = ∅ →
  (∀ k, k ∈ ids → ∃ r, m !! k = Some r ∧ delegate_with 0 k r) → (∀ k, k ∉ ids → m !! k = None) →
  balanced [] 0 (GenesisState g ∅ m d0).
Proof.
  intros Es Eb Hin Hout. split; cbn [gs_db gs_balance_by_address gs_delegates].
  - by destruct d0.
  - intros k s. by rewrite Es.
  - intros a r. by rewrite lookup_empty.
  - intros k r. by rewrite Eb.
  - by rewrite Eb, gsum_empty.
  - intros k Hk. destruct (Hin k Hk) as (r & Er & Hr). exists r. split; [done|].
    unfold genesis_backing. cbn [gs_db]. by rewrite Eb, gsum_empty.
  - done.
Qed.
Lemma genesis_balances_settles timestamp tot l x :
  addresses = l.*1 → Forall (λ y, 0 ≤ y.2 ≤ INT64_MAX) l → tot = zsum l.*2 → l = [] ∨ 0 < tot → tot < 2 ^ 128 →
  balanced [] 0 x →
  ∃ x', settles (λ fuel, rfold (genesis_balance fuel ids timestamp tot) l x) x' ∧
    balanced l.*1 (zsum (share tot <$> l.*2)) x' ∧ 0 ≤ zsum (share tot <$> l.*2) ≤ BTS_BLOCKCHAIN_INITIAL_SHARES.
Proof.
  intros Ea Hl Htot Hpos Hbig Hx. assert (Forall (λ y, 0 ≤ y) l.*2) as Hnn.
  { apply Forall_fmap. eapply Forall_impl; [exact Hl|]. simpl. tauto. }
  assert (0 < tot → Forall (λ y, 0 ≤ y) (share tot <$> l.*2)) as Hsn.
  { intros Hp. apply Forall_fmap. eapply Forall_impl; [exact Hnn|]. intros y Hy. unfold share. simpl.
    apply Z.div_pos; [|done]. apply Z.mul_nonneg_nonneg; [done|by apply Z.leb_le]. }
  assert (∀ l1 l2, l = l1 ++ l2 → 0 < tot → 0 ≤ zsum (share tot <$> l1.*2) ∧
            zsum (share tot <$> l1.*2) ≤ BTS_BLOCKCHAIN_INITIAL_SHARES) as Hbound.
  { intros l1 l2 -> Hp. rewrite !fmap_app in *. apply Forall_app in Hnn as [Hn1 Hn2].
    apply Forall_app in Hsn as [Hs1 Hs2]; [|done]. split; [by apply zsum_nonneg|].
    apply shares_bounded; [done|]. apply Z.mul_le_mono_nonneg_r; [by apply Z.leb_le|].
    rewrite Htot, zsum_app. apply zsum_nonneg in Hn2. lia. }
  destruct (settles_rfold (λ l1 y, balanced l1.*1 (zsum (share tot <$> l1.*2)) y)
    (λ fuel, genesis_balance fuel ids timestamp tot) l x) as (x' & Hr & Hx'); [|done|].
  - intros l1 item l2 y E Hy. assert (0 < tot) as Hp.
    { destruct Hpos as [->|?]; [by destruct l1|done]. }
    destruct (Hbound l1 (item :: l2) E Hp) as [H1 _].
    destruct (Hbound (l1 ++ [item]) l2) as [H2 H3]; [by rewrite <- app_assoc|done|].
    rewrite E, Forall_app, Forall_cons in Hl. destruct Hl as (_ & Hit & _).
    assert (item.2 ≤ tot) as Hle.
    { rewrite Htot, E, fmap_app, zsum_app. rewrite E, fmap_app, Forall_app in Hnn. cbn in Hnn.
      destruct Hnn as [Hn1 Hn2]. apply Forall_cons in Hn2 as [_ Hn2]. apply zsum_nonneg in Hn1, Hn2.
      cbn. unfold zsum in *. lia. }
    destruct (initial_shares_share tot item.2) as [Hi H0']; [lia|lia|lia|].
    assert (zsum (share tot <$> (l1 ++ [item]).*2) = zsum (share tot <$> l1.*2) + share tot item.2) as Es.
    { rewrite !fmap_app, zsum_app. simpl. lia. }
    rewrite Es in H2, H3 |- *. rewrite (fmap_app fst).
    apply (genesis_balance_settles timestamp tot item y _ _ _ Hi Hy); try done.
    + rewrite Ea, E, fmap_app. intros a Ha'. apply elem_of_app. by left.
    + rewrite Ea, E, fmap_app. apply elem_of_app. right. by left.
  - exists x'. split_and!; try done; (destruct Hpos as [->|Hp]; [by apply Z.leb_le|]);
      destruct (Hbound l []); by rewrite ?app_nil_r.
Qed.
End balance_loop.

(** ** Storing the delegates *)
Section finish.
Context `{!Fc, !FcLaws _, !Crypto}.
Implicit Types (d : chain_database).
Lemma store_all_accounts (l : list (Z * account_record)) d :
  NoDup l.*1 → (∀ k r, (k, r) ∈ l → ac_id r = k ∧ ac_is_null r = false) → vote_index d →
  let d' := foldl (λ d x, db_store_account_record x.2 d) d l in
  accounts_from d d' ∧ vote_index d' ∧
  ∀ k, db_accounts d' !! k =
    match (list_to_map l : gmap Z account_record) !! k with Some r => Some r | None => db_accounts d !! k end.
Proof.
  revert d. induction l as [|[k r] l IH]; intros d Hn Hl Hv; cbn [foldl].
  { split_and!; [apply accounts_from_refl|done|]. intros k. by rewrite list_to_map_nil, lookup_empty. }
  rewrite fmap_cons in Hn. apply NoDup_cons in Hn as [Hk Hn]. cbn [fst snd] in *.
  destruct (Hl k r) as [Hid Hnull]; [by left|].
  destruct (IH (db_store_account_record r d)) as (H1 & H2 & H3); [done| |by apply store_account_indexed|].
  { intros k' r' Hin. apply Hl. by right. }
  split_and!; [by eapply accounts_from_trans, H1; apply store_account_from|done|].
  intros k'. rewrite H3, store_account_accounts, Hid by done. rewrite list_to_map_cons.
  destruct (decide (k' = k)) as [->|Hne].
  - rewrite (not_elem_of_list_to_map_1 l k Hk), !lookup_insert_eq. done.
  - by rewrite !lookup_insert_ne.
Qed.
Lemma store_delegates_accounts (m : gmap Z account_record) d :
  (∀ k r, m !! k = Some r → ac_id r = k ∧ ac_is_null r = false) → vote_index d →
  accounts_from d (store_delegates m d) ∧ vote_index (store_delegates m d) ∧
  ∀ k, db_accounts (store_delegates m d) !! k =
    match m !! k with Some r => Some r | None => db_accounts d !! k end.
Proof.
  intros Hm Hv. pose proof (store_all_accounts (map_asc m) d (map_asc_NoDup m)) as Hs.
  rewrite (list_to_map_proper _ (map_to_list m)), list_to_map_to_list in Hs;
    [|apply map_asc_NoDup|apply map_asc_perm].
  apply Hs; [|done]. intros k r Hin. by apply Hm, elem_of_map_asc.
Qed.

(** ** The counts at the end *)
Lemma list_sum_zsum {K V} (g : V → Z) (l : list (K * V)) : list_sum (λ _, g) l = zsum (g ∘ snd <$> l).
Proof. unfold list_sum, zsum. induction l as [|x l IH]; simpl; [done|]. by rewrite IH. Qed.
(** Adding up what is not negative ends with the sum, if that fits. *)
Lemma add_up {K V} (g : V → Z) (step : K * V → asset → result asset) (l : list (K * V)) t :
  (∀ x a, x ∈ l → asset_id a = 0 → step x a = asset_add a (Asset (g x.2) 0)) →
  Forall (λ x, 0 ≤ g x.2) l → 0 ≤ t → t + zsum (g ∘ snd <$> l) ≤ INT64_MAX →
  rfold step l (Asset t 0) = Ok (Asset (t + zsum (g ∘ snd <$> l)) 0).
Proof.
  intros Hf Hp Ht Hm.
  destruct (rfold_ok (λ l1 a, a = Asset (t + zsum (g ∘ snd <$> l1)) 0) step l (Asset t 0)) as (s & E & ->);
    [|simpl; f_equal; unfold zsum; simpl; lia|exact E].
  intros l1 x l2 a E ->. rewrite Hf by (try done; rewrite E; apply elem_of_app; right; by left).
  rewrite E, fmap_app, fmap_cons, zsum_app in Hm. rewrite E, Forall_app, Forall_cons in Hp.
  destruct Hp as (H1 & Hx & H2). assert (0 ≤ zsum (g ∘ snd <$> l1)) as S1 by by apply zsum_nonneg, Forall_fmap.
  assert (0 ≤ zsum (g ∘ snd <$> l2)) as S2 by by apply zsum_nonneg, Forall_fmap.
  assert (zsum ((g ∘ snd) x :: (g ∘ snd <$> l2)) = g x.2 + zsum (g ∘ snd <$> l2)) as Ec by done.
  rewrite Ec in Hm. rewrite fmap_app, zsum_app. change (zsum (g ∘ snd <$> [x])) with (g x.2 + 0).
  eexists. split; [|reflexivity]. unfold asset_add. cbn [asset_id amount]. rewrite Z.eqb_refl. cbn [negb].
  rewrite (proj2 (Z.ltb_ge (INT64_MAX - g x.2) _)) by lia. rewrite (proj2 (Z.ltb_ge (g x.2) 0)) by lia.
  rewrite andb_false_r. cbn [orb andb]. do 2 f_equal. rewrite s64_id by (unfold_int; unfold INT64_MAX in *; lia). lia.
Qed.
Lemma at_id_sum id (g : asset_record → Z) (m : gmap Z asset_record) :
  gsum (λ k r, at_id id k (g r)) m = from_option g 0 (m !! id).
Proof.
  destruct (m !! id) as [r|] eqn:E; simpl.
  - rewrite (gsum_delete _ m id r E), gsum_zero.
    + unfold at_id. rewrite Z.eqb_refl. lia.
    + intros k v Hk. apply lookup_delete_Some in Hk as [Hne _]. unfold at_id. by destruct (Z.eqb_spec k id).
  - apply gsum_zero. intros k v Hk. unfold at_id. destruct (Z.eqb_spec k id); congruence.
Qed.

(** ** Assets and properties *)
Lemma genesis_market_assets_stored timestamp n assets d :
  ∃ i a, genesis_market_assets timestamp n assets d = set_db_symbol_index i (set_db_assets a d) ∧
    (∀ k, k ≤ n → a !! k = db_assets d !! k) ∧
    ∀ k r, a !! k = Some r → db_assets d !! k = Some r ∨ n < k ∧ ∃ x, r = genesis_market_asset timestamp k x.
Proof.
  revert n d. induction assets as [|x assets IH]; intros n d; cbn [genesis_market_assets].
  { exists (db_symbol_index d), (db_assets d). split_and!; [by destruct d|done|by left]. }
  destruct (IH (n + 1) (db_store_asset_record (genesis_market_asset timestamp (n + 1) x) d)) as (i & a & E & Hlow & Hk).
  exists i, a. unfold db_store_asset_record in E, Hlow, Hk. cbn in E, Hlow, Hk. split_and!; [done| |].
  - intros k Hle. rewrite Hlow by lia. by rewrite lookup_insert_ne by lia.
  - intros k r Hr. destruct (Hk k r Hr) as [[[<- <-]|[Hne Hd]]%lookup_insert_Some|(Hlt & y & ->)].
    + right. split; [lia|]. by exists x.
    + by left.
    + right. split; [lia|]. by exists y.
Qed.

(** ** What the accounts, balances and slates are before the assets are made *)
Record stocked (ids : list Z) (total : Z) d0 d : Prop := {
  st_from : ∃ b s, accounts_from (set_db_balances b (set_db_slates s d0)) d;
  st_index : vote_index d;
  st_accounts k r : db_accounts d !! k = Some r →
    ac_id r = k ∧ ac_is_null r = false ∧ from_option ds_pay_balance 0 (ac_delegate_info r) = 0;
  st_delegates k : k ∈ ids → ∃ r, db_accounts d !! k = Some r ∧ delegate_with (backing k (Database d)) k r;
  st_others k r : k ∉ ids → db_accounts d !! k = Some r → ac_delegate_info r = None;
  st_balances k r : db_balances d !! k = Some r →
    br_id r = k ∧ 0 ≤ br_balance r ∧ br_asset_id r = 0 ∧ is_Some (db_slates d !! br_delegate_slate_id r);
  st_slates k s : db_slates d !! k = Some s → drawn_slate ids s;
  st_total : gsum (λ _ r, br_balance r) (db_balances d) = total
}.
Lemma backing_database k d :
  backing k (Database d)
  = gsum (in_backing (λ i, match (db_slates d !! i : option delegate_slate) with Some s => s | None => [] end) k)
      (db_balances d).
Proof. done. Qed.
Lemma stocked_delegates `{!Prng} ids d0 d1 y total done_ :
  accounts_from d0 d1 → vote_index d1 →
  (∀ k r, db_accounts d1 !! k = Some r → plain_account k r ∧ k ∉ ids) →
  balanced ids d1 done_ total y → stocked ids total d0 (store_delegates (gs_delegates y) (gs_db y)).
Proof.
  intros Hfrom Hindex Hplain [Hdb Hsl Had Hba Htot Hvo Hot].
  destruct (store_delegates_accounts (gs_delegates y) (gs_db y)) as (Hf & Hi & Ha).
  { intros k r Hk. destruct (decide (k ∈ ids)) as [Hin|Hout]; [|by rewrite Hot in Hk].
    destruct (Hvo k Hin) as (r' & Er & G1 & G2 & _). by simplify_eq. }
  { rewrite Hdb. exact Hindex. }
  set (d := store_delegates (gs_delegates y) (gs_db y)) in *. clearbody d.
  assert (db_balances d = db_balances (gs_db y) ∧ db_slates d = db_slates (gs_db y)) as [Eb Es].
  { by destruct Hf as (a & i & x & v & ->). }
  assert (∀ k r, db_accounts (gs_db y) !! k = Some r → plain_account k r ∧ k ∉ ids) as Hplain'.
  { rewrite Hdb. exact Hplain. }
  split.
  - exists (db_balances (gs_db y)), (db_slates (gs_db y)). eapply accounts_from_trans; [|exact Hf].
    rewrite Hdb. destruct Hfrom as (a & i & x & v & ->). by exists a, i, x, v.
  - done.
  - intros k r. rewrite Ha. destruct (gs_delegates y !! k) as [r'|] eqn:E.
    + intros [= ->]. destruct (decide (k ∈ ids)) as [Hin|Hout]; [|by rewrite Hot in E].
      destruct (Hvo k Hin) as (r' & Er & G1 & G2 & i & G3 & _ & G5). simplify_eq. by rewrite G3.
    + intros Hk. destruct (Hplain' k r Hk) as [(G1 & G2 & G3) _]. by rewrite G3.
  - intros k Hk. destruct (Hvo k Hk) as (r & Er & Hr). exists r. rewrite Ha, Er. split; [done|].
    rewrite backing_database, Eb, Es. exact Hr.
  - intros k r Hk. rewrite Ha, Hot by done. intros Hr. by destruct (Hplain' k r Hr) as [(_ & _ & ?) _].
  - intros k r. rewrite Eb, Es. intros Hk. destruct (Hba k r Hk) as (G1 & G2 & a & G3).
    destruct (Had a r G3) as (_ & Hc & Hs & _). split_and!; try done.
    unfold br_asset_id. by rewrite Hc.
  - intros k s. rewrite Es. apply Hsl.
  - by rewrite Eb.
Qed.

(** ** The finished database *)
Definition fresh_database (wall : Z) : chain_database := set_db_wall_clock wall (chain_database_empty 0).
Definition identified (chain_id : digest_type) d : chain_database :=
  db_set_property chain_id_prop (v_hash chain_id) (set_db_chain_id chain_id d).
Definition with_assets config total d : chain_database :=
  genesis_market_assets (gc_timestamp config) 0 (gc_market_assets config)
    (db_store_asset_record (genesis_base_asset (gc_timestamp config) total) d).
Lemma with_assets_stored config total d :
  db_assets d = ∅ →
  ∃ i a, with_assets config total d = set_db_symbol_index i (set_db_assets a d) ∧
    a !! 0 = Some (genesis_base_asset (gc_timestamp config) total) ∧
    ∀ k r, a !! k = Some r → ar_id r = k ∧ ar_is_null r = false ∧ ar_collected_fees r = 0 ∧
      (k ≠ 0 → ar_current_share_supply r = 0).
Proof.
  intros Ed. unfold with_assets.
  destruct (genesis_market_assets_stored (gc_timestamp config) 0 (gc_market_assets config)
    (db_store_asset_record (genesis_base_asset (gc_timestamp config) total) d)) as (i & a & E & Hlow & Hk).
  unfold db_store_asset_record in E, Hlow, Hk. cbn in E, Hlow, Hk. exists i, a. split_and!; [done| |].
  - rewrite Hlow by done. by rewrite lookup_insert_eq.
  - intros k r Hr. destruct (Hk k r Hr) as [Hb|(Hlt & x & ->)]; [|by split_and!].
    rewrite Ed in Hb. apply lookup_insert_Some in Hb as [[<- <-]|[_ Hb]]; [by split_and!|].
    by rewrite lookup_empty in Hb.
Qed.
Lemma put_wf {K} `{Countable K} (m : gmap K variant) (P : variant → Prop) k v :
  (∀ k v, m !! k = Some v → P v) → P v → ∀ k' v', put variant_is_null k v m !! k' = Some v' → P v'.
Proof.
  intros Hm Hv k' v'. unfold put. destruct (variant_is_null v).
  - intros [_ Hk]%lookup_delete_Some. by eapply Hm.
  - intros [[<- <-]|[_ Hk]]%lookup_insert_Some; [done|by eapply Hm].
Qed.
Lemma genesis_properties_set config d :
  (∀ k v, db_properties d !! k = Some v → variant_is_null v = false) →
  ∃ m, genesis_properties config d = set_db_properties m d ∧
    (∀ k v, m !! k = Some v → variant_is_null v = false) ∧
    m !! last_random_seed_id = Some (v_hash 0) ∧
    m !! active_delegate_list_id = Some (v_ids (next_round_active_delegates d)).
Proof.
  intros Hd. unfold genesis_properties, db_set_property. cbv zeta.
  eexists. split; [by destruct d|]. cbn [db_properties set_db_properties].
  split; [by repeat apply (put_wf _ (λ v, variant_is_null v = false))|].
  unfold put. cbn [variant_is_null].
  split; repeat first [rewrite lookup_insert_ne by done|apply lookup_insert_eq].
Qed.

Lemma stocked_balances ids total d0 d k r :
  stocked ids total d0 d → db_balances d !! k = Some r → 0 ≤ br_balance r ∧ br_get_balance r = Asset (br_balance r) 0.
Proof.
  intros Hd Hk. destruct (st_balances _ _ _ _ Hd k r Hk) as (_ & Hp & Ha & _).
  split; [done|]. unfold br_get_balance. by rewrite Ha.
Qed.
Lemma stocked_sum ids total d0 d (l : list (address * balance_record)) step :
  stocked ids total d0 d → l ≡ₚ map_to_list (db_balances d) → total ≤ INT64_MAX →
  (∀ k r a, db_balances d !! k = Some r → step (k, r) a = asset_add a (br_get_balance r)) →
  rfold step l asset_default = Ok (Asset total 0).
Proof.
  intros Hd Hl Hm Hf.
  assert (zsum (br_balance ∘ snd <$> l) = total) as E.
  { rewrite <- list_sum_zsum, (list_sum_perm _ _ _ Hl), <- gsum_list. apply (st_total _ _ _ _ Hd). }
  assert (∀ x, x ∈ l → db_balances d !! x.1 = Some x.2) as Hin.
  { intros [k r] Hx. rewrite Hl in Hx. by apply elem_of_map_to_list in Hx. }
  change asset_default with (Asset 0 0). assert (rfold step l (Asset 0 0) = Ok (Asset (0 + zsum (br_balance ∘ snd <$> l)) 0)) as ->.
  { apply add_up; [| |done|by rewrite E].
    - intros [k r] a Hx _. rewrite (Hf k r a) by by apply (Hin (k, r)).
      by destruct (stocked_balances _ _ _ _ k r Hd (Hin (k, r) Hx)) as [_ ->].
    - apply Forall_forall. intros x Hx. by destruct (stocked_balances _ _ _ _ x.1 x.2 Hd (Hin x Hx)). }
  by rewrite E.
Qed.
Lemma genesis_total_counts ids total d0 d :
  stocked ids total d0 d → total ≤ INT64_MAX → genesis_total d = Ok (Asset total 0).
Proof.
  intros Hd Hm. apply (stocked_sum ids total d0 d); [done|apply map_asc_perm|done|].
  intros k r a Hk. cbn [snd]. destruct (stocked_balances _ _ _ _ k r Hd Hk) as [Hp _].
  by rewrite (proj2 (Z.leb_le _ _) Hp).
Qed.
Lemma no_pay_counted (l : list (Z * account_record)) t :
  in_s64 t → (∀ x, x ∈ l → from_option ds_pay_balance 0 (ac_delegate_info x.2) = 0) →
  rfold (λ x total,
      match ac_delegate_info x.2 with
      | Some i => asset_add total (Asset (ds_pay_balance i) 0)
      | None => Ok total
      end) l (Asset t 0) = Ok (Asset t 0).
Proof.
  intros Ht Hl. induction l as [|x l IH]; [done|]. cbn [rfold].
  assert (Asset (s64 (t + 0)) 0 = Asset t 0) as E by by rewrite Z.add_0_r, s64_id.
  pose proof (Hl x ltac:(by left)) as Hx. destruct (ac_delegate_info x.2) as [i|]; cbn [rbind].
  - simpl in Hx. rewrite Hx. unfold asset_add. cbn [asset_id amount]. rewrite Z.eqb_refl. cbn.
    rewrite E. apply IH. intros y Hy. apply Hl. by right.
  - apply IH. intros y Hy. apply Hl. by right.
Qed.
Lemma stocked_sane ids total d0 d config i a m :
  stocked ids total d0 d → 0 ≤ total ≤ BTS_BLOCKCHAIN_INITIAL_SHARES →
  a !! 0 = Some (genesis_base_asset (gc_timestamp config) total) →
  sanity_check (set_db_properties m (set_db_symbol_index i (set_db_assets a d))) = Ok ().
Proof.
  intros Hd Ht Ha. assert (BTS_BLOCKCHAIN_INITIAL_SHARES ≤ INT64_MAX) as Hmax by by apply Z.leb_le.
  unfold sanity_check. cbn [db_balances db_accounts db_assets set_db_properties set_db_symbol_index set_db_assets].
  rewrite (stocked_sum ids total d0 d); [|done|done|lia|].
  2:{ intros k r t Hk. cbn [snd]. destruct (st_balances _ _ _ _ Hd k r Hk) as (_ & Hp & Hz & _).
      by rewrite Hz, (proj2 (Z.leb_le _ _) Hp). }
  cbn [rbind]. rewrite no_pay_counted; [|unfold_int; lia|].
  2:{ intros [k r] Hx%elem_of_map_asc. by destruct (st_accounts _ _ _ _ Hd k r Hx) as (_ & _ & ?). }
  cbn [rbind amount]. rewrite Ha. cbn [of_option rbind genesis_base_asset ar_current_share_supply ar_maximum_share_supply].
  rewrite Z.eqb_refl. rewrite (proj2 (Z.leb_le total BTS_BLOCKCHAIN_MAX_SHARES)); [done|].
  assert (BTS_BLOCKCHAIN_INITIAL_SHARES ≤ BTS_BLOCKCHAIN_MAX_SHARES) by by apply Z.leb_le. lia.
Qed.

Definition finished chain_id wall config total d d' : Prop :=
  ∃ ids i a m, stocked ids total (identified chain_id (fresh_database wall)) d ∧ NoDup ids ∧
    (101 ≤ length ids)%nat ∧ (∀ k, k ∈ ids → 0 ≤ k) ∧ 0 ≤ total ≤ BTS_BLOCKCHAIN_INITIAL_SHARES ∧
    d' = set_db_properties m (set_db_symbol_index i (set_db_assets a d)) ∧
    a !! 0 = Some (genesis_base_asset (gc_timestamp config) total) ∧
    (∀ k r, a !! k = Some r → ar_id r = k ∧ ar_is_null r = false ∧ ar_collected_fees r = 0 ∧
      (k ≠ 0 → ar_current_share_supply r = 0)) ∧
    (∀ k v, m !! k = Some v → variant_is_null v = false) ∧
    m !! last_random_seed_id = Some (v_hash 0) ∧
    m !! active_delegate_list_id = Some (v_ids (next_round_active_delegates d)).
(** The tables a genesis leaves empty. *)
Lemma finished_tables chain_id wall config total d d' :
  finished chain_id wall config total d d' →
  db_bids d' = ∅ ∧ db_asks d' = ∅ ∧ db_shorts d' = ∅ ∧ db_collateral d' = ∅ ∧ db_feeds d' = ∅ ∧
  db_transactions d' = ∅ ∧ db_head_block_header d' = signed_block_header_default ∧ db_head_block_id d' = 0.
Proof.
  intros (ids & i & a & m & [(b & s & a' & i' & x & v & ->) _ _ _ _ _ _ _] & _ & _ & _ & _ & -> & _). by split_and!.
Qed.
Lemma finished_wf chain_id wall config total d d' :
  finished chain_id wall config total d d' → db_wf d' ∧ vote_index d'.
Proof.
  intros Hd. destruct (finished_tables _ _ _ _ _ _ Hd) as (E1 & E2 & E3 & E4 & E5 & E6 & _).
  destruct Hd as (ids & i & a & m & Hst & _ & _ & _ & _ & -> & _ & Ha & Hm & _). split; [|exact (st_index _ _ _ _ Hst)].
  split; rewrite ?E1, ?E2, ?E3, ?E4, ?E5, ?E6; try by (intros k r; rewrite lookup_empty).
  - exact Hm.
  - intros k r Hr. by destruct (Ha k r Hr) as (? & ? & _).
  - intros k r Hr. by destruct (st_accounts _ _ _ _ Hst k r Hr) as (? & ? & _).
  - intros k r Hr. by destruct (st_balances _ _ _ _ Hst k r Hr) as (? & _).
  - intros k s Hs. by eapply drawn_nonempty, st_slates.
Qed.
Lemma finished_votes chain_id wall config total d d' :
  finished chain_id wall config total d d' → votes_in_order d'.
Proof.
  intros (ids & i & a & m & Hst & _ & _ & Hpos & _ & -> & H0a & Ha & _).
  set (d' := set_db_properties _ _). split_and!.
  - split_and!; intros k r Hr.
    + by destruct (st_balances _ _ _ _ Hst k r Hr) as (? & _).
    + by destruct (Ha k r Hr) as (? & _).
    + by destruct (st_accounts _ _ _ _ Hst k r Hr) as (? & _).
  - intros k r Hr _. by destruct (st_balances _ _ _ _ Hst k r Hr) as (_ & _ & _ & ?).
  - intros r Hr. change (a !! 0 = Some r) in Hr. rewrite H0a in Hr. by injection Hr as <-.
  - intros k. change (backing k (Database d')) with (backing k (Database d)).
    change (vote_stats k (Database d')) with (from_option net_votes 0 (db_accounts d !! k)).
    destruct (decide (k ∈ ids)) as [Hin|Hout].
    + destruct (st_delegates _ _ _ _ Hst k Hin) as (r & -> & _ & _ & x & Hi & Hv & Hp). simpl.
      unfold net_votes. rewrite Hi. simpl. rewrite Hp, Hv. apply eq64_eq. lia.
    + apply eq64_eq. trans 0.
      * destruct (db_accounts d !! k) as [r|] eqn:Er; [|done]. simpl. unfold net_votes.
        by rewrite (st_others _ _ _ _ Hst k r Hout Er).
      * symmetry. apply backing_unnamed. intros i0 sl Hs. apply Forall_forall. intros y Hy E.
        pose proof (dr_ids _ _ (st_slates _ _ _ _ Hst i0 sl Hs) y Hy) as Hin.
        apply Hout. by rewrite <- E, Z.abs_eq by by apply Hpos.
Qed.
Lemma finished_funds chain_id wall config total d d' id :
  finished chain_id wall config total d d' →
  holdings id (Database d') = supply id (Database d') ∧ supply id (Database d') = at_id id 0 total.
Proof.
  intros Hd. destruct (finished_tables _ _ _ _ _ _ Hd) as (E1 & E2 & E3 & E4 & _).
  destruct Hd as (ids & i & a & m & Hst & _ & _ & _ & _ & Ed & H0a & Ha & _).
  assert (supply id (Database d') = at_id id 0 total) as Es.
  { rewrite Ed. unfold supply, tsum. change (eff _ _ _) with a. unfold in_supply. rewrite at_id_sum. unfold at_id.
    destruct (Z.eqb_spec 0 id) as [<-|Hne]; [by rewrite H0a|].
    destruct (a !! id) as [r|] eqn:Er; [|done]. destruct (Ha id r Er) as (_ & _ & _ & Hz). by apply Hz. }
  split; [|done]. rewrite Es. unfold holdings, tsum. cbn [eff]. rewrite E1, E2, E3, E4, !gsum_empty.
  assert (gsum (in_fees id) (db_assets d') = 0) as ->.
  { rewrite Ed. apply gsum_zero. intros k r Hr. destruct (Ha k r Hr) as (_ & _ & Hz & _).
    unfold in_fees, at_id. rewrite Hz. by case_match. }
  assert (gsum (in_pay id) (db_accounts d') = 0) as ->.
  { rewrite Ed. apply gsum_zero. intros k r Hr. destruct (st_accounts _ _ _ _ Hst k r Hr) as (_ & _ & Hz).
    unfold in_pay, at_id. rewrite Hz. by case_match. }
  assert (gsum (in_balance id) (db_balances d') = at_id id 0 total) as ->; [|lia].
  rewrite Ed. change (db_balances _) with (db_balances d). rewrite <- (st_total _ _ _ _ Hst). unfold at_id.
  destruct (Z.eqb_spec 0 id) as [<-|Hne].
  - apply gsum_ext. intros k r Hr. destruct (st_balances _ _ _ _ Hst k r Hr) as (_ & _ & Hz & _).
    unfold in_balance, at_id. by rewrite Hz.
  - apply gsum_zero. intros k r Hr. destruct (st_balances _ _ _ _ Hst k r Hr) as (_ & _ & Hz & _).
    unfold in_balance, at_id. rewrite Hz. by destruct (Z.eqb_spec 0 id).
Qed.
(** The first round: as many delegates as there should be, each once. *)
Lemma finished_active chain_id wall config total d d' :
  finished chain_id wall config total d d' →
  ∃ l, get_active_delegates (Database d') = Ok l ∧ length l = Z.to_nat BTS_BLOCKCHAIN_NUM_DELEGATES ∧ NoDup l ∧
    ∀ k, k ∈ l → ∃ r, get_account_record k (Database d') = Some r ∧ ac_is_delegate r = true.
Proof.
  intros (ids & i & a & m & Hst & Hn & Hlen & _ & _ & -> & _ & _ & _ & _ & Hact).
  pose proof (st_index _ _ _ _ Hst) as Hi.
  exists (next_round_active_delegates d). split_and!.
  - unfold get_active_delegates, get_property. simpl. by rewrite Hact.
  - unfold next_round_active_delegates, get_delegates_by_vote. rewrite drop_0, length_take.
    assert (length ids ≤ length (sorted_votes d).*2)%nat as Hle; [|change (Z.to_nat BTS_BLOCKCHAIN_NUM_DELEGATES) with 101%nat; lia].
    apply submseteq_length, NoDup_submseteq; [done|]. intros k Hk.
    destruct (st_delegates _ _ _ _ Hst k Hk) as (r & Er & _ & _ & x & Hx & _).
    apply list_elem_of_fmap. exists (ds_votes_for x, k). split; [done|].
    apply elem_of_sorted_votes, Hi. by exists r, x.
  - unfold next_round_active_delegates, get_delegates_by_vote. rewrite drop_0.
    eapply sublist_NoDup; [apply (sorted_votes_ids d Hi)|apply sublist_take].
  - intros k Hk. unfold next_round_active_delegates, get_delegates_by_vote in Hk. rewrite drop_0 in Hk.
    apply elem_of_take in Hk as (n & Hk & _). apply list_elem_of_lookup_2, list_elem_of_fmap in Hk as ([v k'] & -> & Hk).
    apply elem_of_sorted_votes, Hi in Hk as (r & x & Hr & Hx & _). exists r. split; [exact Hr|].
    unfold ac_is_delegate. cbn [snd] in *. by rewrite Hx.
Qed.
End finish.

(** ** The whole initial state *)
Section genesis.
Context `{!Fc, !FcLaws _, !Crypto, !CryptoLaws _, P : !Prng, !PrngLaws P}.
Lemma genesis_database_settles config chain_id wall :
  config_wf config →
  ∃ d', settles (λ fuel, genesis_database fuel chain_id config (fresh_database wall)) d' ∧
    ∃ total d, finished chain_id wall config total d d'.
Proof.
  intros [Htime Hdel Hown Hnames _ Hbal Hpos Hmany Haddr].
  assert (vote_index (identified chain_id (fresh_database wall))) as Hvi.
  { intros v id. split; [by intros ?%elem_of_empty|]. intros (r & x & Hr & _). change ((∅ : gmap Z account_record) !! id = Some r) in Hr. by rewrite lookup_empty in Hr. }
  destruct (genesis_accounts_named (gc_timestamp config) (gc_names config)
    (identified chain_id (fresh_database wall))) as (x & Ex & Hx); [done|done|done|done|].
  set (tot := zsum (gc_balances config).*2).
  assert (Forall (λ y, 0 ≤ y) (gc_balances config).*2) as Hnn.
  { apply Forall_fmap. eapply Forall_impl; [exact Hbal|]. simpl. tauto. }
  assert (gc_balances config = [] ∨ 0 < tot) as Htot.
  { destruct Hpos as [|Hp]; [by left|right]. apply Exists_exists in Hp as (y & Hy & Hlt).
    apply list_elem_of_split in Hy as (l1 & l2 & E). unfold tot. rewrite E in Hnn |- *.
    rewrite fmap_app, fmap_cons in Hnn |- *. apply Forall_app in Hnn as [Hn1 Hn2].
    apply Forall_cons in Hn2 as [_ Hn2]. apply zsum_nonneg in Hn1, Hn2. rewrite zsum_app.
    change (zsum (y.2 :: l2.*2)) with (y.2 + zsum l2.*2). lia. }
  assert (tot < 2 ^ 128) as Hbig.
  { assert (2 ^ 128 = 2 ^ 64 * 2 ^ 64) as E by done.
    assert (tot ≤ Z.of_nat (length (gc_balances config).*2) * INT64_MAX) as Hle.
    { apply zsum_bound, Forall_fmap. eapply Forall_impl; [exact Hbal|]. simpl. tauto. }
    rewrite length_fmap in Hle. unfold INT64_MAX in Hle. nia. }
  assert (length (delegates_of (gc_names config)) ≤ length (gc_names config))%nat as Hflt by apply length_filter.
  pose proof (nm_count _ _ _ Hx) as Hcount. change BTS_BLOCKCHAIN_NUM_DELEGATES with 101 in Hdel.
  assert (∀ k, k ∈ gn_delegate_ids x → 0 ≤ k) as Hids by (intros k Hk; apply (nm_range _ _ _ Hx) in Hk; lia).
  destruct (genesis_balances_settles (gn_delegate_ids x) (nm_nodup _ _ _ Hx) Hids ltac:(lia) ltac:(lia)
    (gn_db x) (gc_balances config).*1 Haddr (gc_timestamp config) tot (gc_balances config)
    (GenesisState (create_rng chain_id) ∅ (gn_delegates x) (gn_db x))) as (y & Hy & Hby & Hb); try done.
  { apply balanced_start; [| |apply (nm_delegates _ _ _ Hx)|apply (nm_others _ _ _ Hx)];
      by destruct (nm_from _ _ _ Hx) as (a & i & z & v & ->). }
  apply (stocked_delegates _ (identified chain_id (fresh_database wall))) in Hby;
    [|apply (nm_from _ _ _ Hx)|apply (nm_index _ _ _ Hx)|].
  2:{ intros k r Hk. by destruct (nm_accounts _ _ _ Hx k r Hk) as (? & ? & _). }
  set (total := zsum (share tot <$> (gc_balances config).*2)) in *.
  set (d := store_delegates (gs_delegates y) (gs_db y)) in *.
  assert (BTS_BLOCKCHAIN_INITIAL_SHARES ≤ INT64_MAX) as Hmax by by apply Z.leb_le.
  destruct (with_assets_stored config total d) as (i & a & Ea & H0a & Ha).
  { by destruct (st_from _ _ _ _ Hby) as (b & s & a & i & z & v & ->). }
  destruct (genesis_properties_set config (with_assets config total d)) as (m & Em & Hm & Hseed & Hact).
  { rewrite Ea. destruct (st_from _ _ _ _ Hby) as (b & s & a' & i' & z & v & ->).
    apply (put_wf (∅ : gmap Z variant) (λ v, variant_is_null v = false)); [|done].
    intros k w. by rewrite lookup_empty. }
  exists (set_db_properties m (set_db_symbol_index i (set_db_assets a d))). split.
  - unfold genesis_database. cbv zeta. fold (identified chain_id (fresh_database wall)).
    rewrite total_unscaled_sum by done. cbn [rbind]. fold (delegates_of (gc_names config)).
    rewrite (proj2 (Z.leb_le BTS_BLOCKCHAIN_NUM_DELEGATES _)) by done.
    rewrite god_not_stored by done. rewrite Ex. cbn [rbind]. fold tot.
    eapply (settles_bind _ (λ _ y, _)); [exact Hy|]. cbv beta. fold d. apply settles_const.
    rewrite (genesis_total_counts _ total _ d Hby) by lia. cbn [rbind amount].
    fold (with_assets config total d). rewrite Em, Ea.
    by rewrite (stocked_sane _ total _ d config i a m Hby).
  - exists total, d. exists (gn_delegate_ids x), i, a, m. split_and!; try done; try lia.
    { apply (nm_nodup _ _ _ Hx). }
    rewrite Hact, Ea. done.
Qed.

(** The chain on an empty directory. *)
Definition fresh_chain (wall : Z) : chain :=
  Chain (fresh_database wall) ∅ ∅ ∅ ∅ ∅ ∅ ∅ ∅ (Some pending_chain_state_empty).
Definition genesis_chain d wall : chain :=
  set_c_forks (<[0 := genesis_fork]> (c_forks (fresh_chain wall))) (set_c_db d (fresh_chain wall)).
Lemma genesis_chain_ok chain_id wall config total d d' :
  finished chain_id wall config total d d' → chain_ok (genesis_chain d' wall).
Proof.
  intros Hd. pose proof (finished_wf _ _ _ _ _ _ Hd) as [Hwf _].
  destruct (finished_tables _ _ _ _ _ _ Hd) as (_ & _ & _ & _ & _ & _ & Eh & Ei).
  assert (∀ x y, ¬ follows {[0 := genesis_fork]} x y) as Hno.
  { intros x y (r & Hr & Hy). apply lookup_singleton_Some in Hr as [_ <-]. by apply not_elem_of_empty in Hy. }
  split; unfold c_head, c_head_id, genesis_chain; cbn [c_db c_forks c_block_records set_c_forks set_c_db fresh_chain];
    rewrite ?Eh, ?Ei; try done.
  - unfold chain_tree_ok, genesis_chain. cbn [c_forks c_block_records set_c_forks set_c_db fresh_chain]. split; change (<[0:=genesis_fork]> ∅) with ({[0 := genesis_fork]} : gmap digest_type _).
    + intros x y Hf. by apply Hno in Hf.
    + intros id rec. by rewrite lookup_empty.
    + intros id rec. by rewrite lookup_empty.
    + intros x r [<- <-]%lookup_singleton_Some _. done.
  - exists (λ _, 0%nat). intros x y Hf. by apply Hno in Hf.
  - exists genesis_fork. by rewrite lookup_insert_eq.
  - simpl. lia.
  - destruct Hd as (ids & i & a & m & _ & _ & _ & _ & _ & -> & _ & _ & _ & Hs & _).
    exists 0. unfold get_current_random_seed, get_property. simpl. by rewrite Hs.
Qed.

(** C12 (genesis_in_order). From a well-formed configuration the initial state of an
    empty chain is always made, however the slates are drawn: the chain is in
    order, and so is every chain reached from it; every delegate has the votes
    its stake gives it; what the chain holds of every asset is its share supply,
    at most the initial shares of the core asset and none of the others; and a
    full round of delegates is active. *)
Theorem genesis_in_order config chain_id wall :
  config_wf config →
  ∃ c, (∃ n, ∀ fuel, (n ≤ fuel)%nat →
      initialize_genesis fuel config chain_id false (fresh_chain wall) = Ok (chain_id, c)) ∧
    (∀ c', rtc chain_step c c' → chain_ok c') ∧
    votes_in_order (c_db c) ∧ vote_index (c_db c) ∧
    (∀ id, holdings id (Database (c_db c)) = supply id (Database (c_db c)) ∧
           0 ≤ supply id (Database (c_db c)) ≤ if id =? 0 then BTS_BLOCKCHAIN_INITIAL_SHARES else 0) ∧
    ∃ l, get_active_delegates (Database (c_db c)) = Ok l ∧ NoDup l ∧
      length l = Z.to_nat BTS_BLOCKCHAIN_NUM_DELEGATES ∧
      ∀ k, k ∈ l → ∃ r, get_account_record k (Database (c_db c)) = Some r ∧ ac_is_delegate r = true.
Proof.
  intros Hc. destruct (genesis_database_settles config chain_id wall Hc) as (d' & [n Hr] & total & d & Hd).
  exists (genesis_chain d' wall). pose proof (finished_wf _ _ _ _ _ _ Hd) as [_ Hi].
  pose proof (finished_votes _ _ _ _ _ _ Hd) as Hv. pose proof (genesis_chain_ok _ _ _ _ _ _ Hd) as Hok.
  destruct (finished_active _ _ _ _ _ _ Hd) as (l & Hl & Hlen & Hn & Hk).
  split_and!; [|intros c' Hs; by apply (steps_ok (genesis_chain d' wall))|done|done| |by exists l].
  - exists n. intros fuel Hf. unfold initialize_genesis. cbn [fresh_chain c_db].
    change (db_chain_id (fresh_database wall)) with 0. cbn [Z.eqb negb andb]. by rewrite Hr.
  - intros id. destruct (finished_funds _ _ _ _ _ _ id Hd) as [Hh Hs]. split; [exact Hh|].
    change (c_db (genesis_chain d' wall)) with d'. rewrite Hs.
    destruct Hd as (_ & _ & _ & _ & _ & _ & _ & _ & Hb & _). unfold at_id. rewrite (Z.eqb_sym id).
    by case_match.
Qed.
End genesis.

(** A hundred and one delegates, one other account, and two addresses of which one
    is listed twice. *)
Definition example_config : genesis_block_config :=
  GenesisBlockConfig 1000 [AssetConfig "USD" "Dollar" "A dollar" 10000]
    (((λ i, NameConfig "delegate" (Z.of_nat i) 3) <$> seq 1 101) ++ [NameConfig "user" 500 255])
    [([1], 5); ([2], 7); ([1], 9)].
Lemma example_config_wf : config_wf example_config.
Proof.
  split.
  - done.
  - apply Z.leb_le. by_evaluation.
  - apply Forall_forall. intros n [(i & -> & Hi)%list_elem_of_fmap| ->%list_elem_of_singleton]%elem_of_app; [|done].
    apply elem_of_seq in Hi. simpl. lia.
  - apply Z.ltb_lt. by_evaluation.
  - apply Z.ltb_lt. by_evaluation.
  - repeat constructor; apply Z.leb_le; reflexivity.
  - right. by left.
  - apply Z.ltb_lt. by_evaluation.
  - assert (address_of_pts [1] ≠ address_of_pts [2]) as Hne by (apply Z.eqb_neq; by_evaluation).
    intros a b Ha Hb. apply elem_of_cons in Ha as [->|[->|[->|[]%elem_of_nil]%elem_of_cons]%elem_of_cons];
      apply elem_of_cons in Hb as [->|[->|[->|[]%elem_of_nil]%elem_of_cons]%elem_of_cons]; try done;
      intros E; by rewrite E in Hne.
Qed.
Lemma genesis_in_order_witness :
  ∃ c n, initialize_genesis n example_config 77 false (fresh_chain 12) = Ok (77, c) ∧
    chain_ok c ∧ vote_index (c_db c) ∧ holdings 0 (Database (c_db c)) = supply 0 (Database (c_db c)).
Proof.
  destruct (genesis_in_order example_config 77 12 example_config_wf)
    as (c & (n & Hn) & Hok & _ & Hi & Hf & _).
  exists c, n. split_and!; [by apply Hn|by apply Hok|exact Hi|by apply Hf].
Defined.
