(* ===== verification/QueryFacts.v ===== *)
(** What the queries answer: the listings of the order books hold the orders of
    their pair, best first; the audit of the votes finds nothing exactly when
    every delegate's votes are the stake behind it; and where a query does not
    answer what it is asked. *)
From S2P Require Export Queries GenesisChain.

Lemma filter_none {A} (P : A → Prop) `{!∀ x, Decision (P x)} (l : list A) :
  (∀ x, x ∈ l → ¬ P x) → filter P l = [].
Proof.
  induction l as [|x l IH]; intros Hl; [done|]. rewrite filter_cons_False by (apply Hl; by left).
  apply IH. intros y Hy. apply Hl. by right.
Qed.
Lemma filter_all {A} (P : A → Prop) `{!∀ x, Decision (P x)} (l : list A) :
  (∀ x, x ∈ l → P x) → filter P l = l.
Proof.
  induction l as [|x l IH]; intros Hl; [done|]. rewrite filter_cons_True by (apply Hl; by left).
  f_equal. apply IH. intros y Hy. apply Hl. by right.
Qed.

Lemma filter_ext_in {A} (P Q : A → Prop) `{!∀ x, Decision (P x), !∀ x, Decision (Q x)} (l : list A) :
  (∀ x, x ∈ l → P x ↔ Q x) → filter P l = filter Q l.
Proof.
  induction l as [|x l IH]; intros Hl; [done|]. rewrite !filter_cons.
  assert (P x ↔ Q x) as Hx by (apply Hl; by left).
  rewrite IH by (intros y Hy; apply Hl; by right). repeat case_decide; tauto.
Qed.

Lemma s32_id z : - 2 ^ 31 ≤ z < 2 ^ 31 → s32 z = z.
Proof. intros Hz. unfold s32. rewrite Z.mod_small; lia. Qed.

Lemma s64_proper x y : x ≡₆₄ y → s64 x = s64 y.
Proof.
  intros [k Hk]. unfold s64. replace (x + 2 ^ 63) with (y + 2 ^ 63 + k * 2 ^ 64) by lia.
  by rewrite Z.mod_add.
Qed.

(** ** Walks over a part of a table *)
Section walks.
Context {K V : Type} `{Countable K, !KeyOrder K}.
Implicit Types (m : gmap K V) (l : list (K * V)).
Lemma it_prev_split m l1 k v l2 :
  map_asc m = l1 ++ (k, v) :: l2 → it_prev k m = fst <$> last l1.
Proof.
  intros E. destruct (map_asc_split m l1 (k, v) l2 E) as [H1 H2]. unfold it_prev. rewrite E.
  rewrite filter_app, filter_cons_False by (simpl; intros Hx; exact (irreflexivity _ _ Hx)).
  assert (filter (λ x : K * V, key_lt x.1 k) l2 = []) as ->.
  { clear E. induction H2 as [|y l2 Hy _ IH]; [done|]. rewrite filter_cons_False; [done|].
    simpl in *. intros Hk. exact (irreflexivity _ _ (transitivity Hy Hk)). }
  rewrite app_nil_r. f_equal. f_equal. clear E. induction H1 as [|y l1 Hy _ IH]; [done|].
  rewrite filter_cons_True by done. by f_equal.
Qed.
(** A sorted list is in classes that grow. *)
Lemma sorted_classes (cls : K * V → Z) (c : Z) l :
  StronglySorted key_le l → (∀ x y, x ∈ l → y ∈ l → key_le x y → cls x ≤ cls y) →
  l = filter (λ x, cls x < c) l ++ filter (λ x, cls x = c) l ++ filter (λ x, c < cls x) l.
Proof.
  intros Hs. induction Hs as [|x l Hs IH Hx]; intros Hc; [done|].
  assert (l = filter (λ x, cls x < c) l ++ filter (λ x, cls x = c) l ++ filter (λ x, c < cls x) l) as E.
  { apply IH. intros y z Hy Hz. apply Hc; by right. }
  assert (∀ y, y ∈ l → cls x ≤ cls y) as Hle.
  { intros y Hy. apply Hc; [by left|by right|]. by eapply Forall_forall in Hx. }
  destruct (Z.lt_trichotomy (cls x) c) as [Hlt|[Heq|Hgt]].
  - rewrite filter_cons_True by done. rewrite !filter_cons_False by lia. simpl. by rewrite <- E.
  - rewrite (filter_cons_False (λ x, cls x < c)), (filter_cons_True (λ x, cls x = c)), filter_cons_False by lia.
    assert (filter (λ x, cls x < c) l = []) as E0.
    { apply filter_none. intros y Hy. specialize (Hle y Hy). lia. }
    rewrite E0 in E |- *. simpl in *. by rewrite <- E.
  - rewrite !filter_cons_False, filter_cons_True by lia.
    assert (filter (λ x, cls x < c) l = []) as E0.
    { apply filter_none. intros y Hy. specialize (Hle y Hy). lia. }
    assert (filter (λ x, cls x = c) l = []) as E1.
    { apply filter_none. intros y Hy. specialize (Hle y Hy). lia. }
    rewrite E0, E1 in E |- *. simpl in *. by rewrite <- E.
Qed.
End walks.

(** ** The orders of a pair *)
Section books.
Context `{!Fc, !Crypto} {V : Type}.
Implicit Types (table : gmap market_index_key V) (k : market_index_key) (quote base limit : Z).

(** The keys of a book: unsigned ratios and owners, a base asset below the quote
    asset, and ids that fit their type. *)
Definition typed_key k : Prop :=
  0 ≤ ratio (order_price k) ∧ 0 ≤ owner k ∧
  0 ≤ base_asset_id (order_price k) < quote_asset_id (order_price k) ∧
  quote_asset_id (order_price k) < 2 ^ 31 - 1.
Definition typed_book table : Prop := ∀ k v, table !! k = Some v → typed_key k.
Definition pair_entries quote base table : list (market_index_key * V) :=
  filter (λ x, in_pair quote base x.1 = true) (map_asc table).
(** What a limit leaves: a limit of 0 is none. *)
Definition cut {A} limit (l : list A) : list A := if limit =? 0 then l else take (Z.to_nat limit) l.

Lemma cut_nil {A} limit : cut limit (@nil A) = [].
Proof. unfold cut. rewrite take_nil. by destruct (limit =? 0). Qed.

Definition pair_class k : Z := quote_asset_id (order_price k) * 2 ^ 32 + base_asset_id (order_price k).
Lemma pair_class_in quote base k :
  0 ≤ base < 2 ^ 32 → typed_key k →
  (in_pair quote base k = true ↔ pair_class k = quote * 2 ^ 32 + base).
Proof.
  unfold in_pair, pair_class, typed_key. intros Hb Hk.
  rewrite andb_true_iff, !Z.eqb_eq. lia.
Qed.
Lemma pair_class_le (x y : market_index_key * V) :
  typed_key x.1 → typed_key y.1 → key_le x y → pair_class x.1 ≤ pair_class y.1.
Proof.
  unfold key_le, pair_class, typed_key. intros Hx Hy Hle.
  cbn [key_lt mik_order] in Hle. unfold mik_ltb in Hle.
  destruct (price_ltb (order_price y.1) (order_price x.1)) eqn:E1; [done|].
  rewrite <- not_true_iff_false, price_ltb_spec in E1. lia.
Qed.
(** The entries of a pair are one run of the table. *)
Lemma pair_entries_run quote base table :
  typed_book table → 0 ≤ base < 2 ^ 32 →
  ∃ lo hi, map_asc table = lo ++ pair_entries quote base table ++ hi ∧
    Forall (λ x, pair_class x.1 < quote * 2 ^ 32 + base) lo ∧
    Forall (λ x, quote * 2 ^ 32 + base < pair_class x.1) hi.
Proof.
  intros Ht Hb. assert (∀ x, x ∈ map_asc table → typed_key x.1) as Hk.
  { intros [k v] Hx%elem_of_map_asc. by eapply Ht. }
  exists (filter (λ x, pair_class x.1 < quote * 2 ^ 32 + base) (map_asc table)),
    (filter (λ x, quote * 2 ^ 32 + base < pair_class x.1) (map_asc table)).
  split_and!.
  - assert (pair_entries quote base table
      = filter (λ x, pair_class x.1 = quote * 2 ^ 32 + base) (map_asc table)) as ->.
    { unfold pair_entries. apply filter_ext_in. intros x Hx. apply pair_class_in; [done|by apply Hk]. }
    apply (sorted_classes (λ x, pair_class x.1)); [apply map_asc_sorted|].
    intros x y Hx Hy. apply pair_class_le; by apply Hk.
  - apply Forall_forall. by intros x [? _]%list_elem_of_filter.
  - apply Forall_forall. by intros x [? _]%list_elem_of_filter.
Qed.

Lemma walk_pair_run fuel (step : market_index_key → gmap market_index_key V → option market_index_key)
    quote base limit n table mid (rest : list (market_index_key * V)) :
  (∀ l k v l', mid ++ rest = l ++ (k, v) :: l' → table !! k = Some v ∧ step k table = fst <$> head l') →
  Forall (λ x, in_pair quote base x.1 = true) mid → (∀ x, head rest = Some x → in_pair quote base x.1 = false) →
  (length mid ≤ fuel)%nat → 0 ≤ n → limit = 0 ∨ n < limit →
  walk_pair fuel step quote base limit n table (fst <$> head (mid ++ rest)) = cut (if limit =? 0 then 0 else limit - n) mid.
Proof.
  revert n mid. induction fuel as [|fuel IH]; intros n mid Hstep Hmid Hrest Hf Hn Hl.
  { destruct mid; [|simpl in Hf; lia]. by rewrite cut_nil. }
  destruct mid as [|[k v] mid].
  - cbn [app]. rewrite cut_nil. destruct rest as [|[k v] rest]; [done|].
    cbn [head fmap option_fmap option_map fst walk_pair]. destruct (Hstep [] k v rest eq_refl) as [-> _].
    specialize (Hrest (k, v) eq_refl). cbn [fst] in Hrest. by rewrite Hrest.
  - cbn [app head fmap option_fmap option_map fst walk_pair].
    destruct (Hstep [] k v (mid ++ rest) eq_refl) as [-> Hs]. apply Forall_cons in Hmid as [Hk Hmid].
    cbn [fst] in Hk. rewrite Hk, Hs. simpl in Hf. unfold cut in *.
    destruct (Z.eqb_spec limit 0) as [->|Hne].
    + destruct (Z.eqb_spec (n + 1) 0); [lia|]. f_equal.
      rewrite IH; [done| |done|done|lia|lia|by left].
      intros l k' v' l' E. apply (Hstep ((k, v) :: l) k' v' l'). cbn. by rewrite E.
    + destruct Hl as [?|Hl]; [done|]. destruct (Z.eqb_spec (limit - n) 0); [lia|].
      replace (Z.to_nat (limit - n)) with (S (Z.to_nat (limit - (n + 1)))) by lia. cbn [take].
      f_equal. destruct (Z.eqb_spec (n + 1) limit) as [E|E].
      * replace (limit - (n + 1)) with 0 by lia. done.
      * rewrite IH; [|intros l k' v' l' E'; apply (Hstep ((k, v) :: l) k' v' l'); cbn; by rewrite E'|done|done|lia|lia|right; lia].
        destruct (Z.eqb_spec (limit - (n + 1)) 0); [lia|done].
Qed.

Lemma entries_in_pair quote base table : Forall (λ x, in_pair quote base x.1 = true) (pair_entries quote base table).
Proof. apply Forall_forall. by intros x [? _]%list_elem_of_filter. Qed.
Lemma outside_pair quote base (x : market_index_key * V) :
  0 ≤ base < 2 ^ 32 → typed_key x.1 → pair_class x.1 ≠ quote * 2 ^ 32 + base → in_pair quote base x.1 = false.
Proof.
  intros Hb Hx Hc. apply not_true_iff_false. intros E. by apply (pair_class_in quote base) in E.
Qed.
(** The first key of a pair, and what stands before it. *)
Lemma before_first quote base k :
  0 ≤ base < quote → typed_key k →
  (key_lt k (MarketIndexKey (Price 0 base quote) 0) ↔ pair_class k < quote * 2 ^ 32 + base).
Proof.
  unfold typed_key, pair_class. intros Hb Hk. cbn [key_lt mik_order]. unfold mik_ltb.
  destruct (price_ltb (order_price k) _) eqn:E1; [apply price_ltb_spec in E1; simpl in *; split; [lia|done]|].
  rewrite <- not_true_iff_false, price_ltb_spec in E1. cbn in E1.
  destruct (price_ltb _ (order_price k)); simpl; rewrite ?Z.ltb_lt; lia.
Qed.
Lemma table_entry table x : x ∈ map_asc table → table !! x.1 = Some x.2.
Proof. destruct x as [k v]. apply elem_of_map_asc. Qed.

Lemma walk_on_listed quote base limit table :
  typed_book table → 0 ≤ base < quote → quote < 2 ^ 31 - 1 → 0 ≤ limit →
  walk_on quote base limit table = Ok (cut limit (pair_entries quote base table)).
Proof.
  intros Ht Hb Hq Hl. unfold walk_on, price_zero. rewrite (proj2 (Z.ltb_lt base quote)) by lia. cbn [rbind]. f_equal.
  destruct (pair_entries_run quote base table Ht ltac:(lia)) as (lo & hi & E & Hlo & Hhi).
  set (mid := pair_entries quote base table) in *.
  assert (∀ x, x ∈ map_asc table → typed_key x.1) as Hk.
  { intros x Hx. eapply Ht. by apply table_entry. }
  assert (it_lower_bound (MarketIndexKey (Price 0 base quote) 0) table = fst <$> head (mid ++ hi)) as ->.
  { unfold it_lower_bound. rewrite E, filter_app, filter_none, filter_all; [done| |].
    - intros x Hx. rewrite before_first; [|lia|apply Hk; rewrite E; apply elem_of_app; by right].
      apply elem_of_app in Hx as [Hx|Hx]; [|eapply Forall_forall in Hhi; [|done]; lia].
      apply (proj1 (Forall_forall _ _) (entries_in_pair quote base table)) in Hx as Hi.
      apply pair_class_in in Hi; [lia|lia|]. apply Hk. rewrite E. apply elem_of_app. right. apply elem_of_app. by left.
    - intros x Hx Hn. apply Hn, before_first; [lia|apply Hk; rewrite E; apply elem_of_app; by left|].
      by eapply Forall_forall in Hlo. }
  rewrite walk_pair_run; [destruct (Z.eqb_spec limit 0) as [->|]; [done|by rewrite Z.sub_0_r]
    | |apply entries_in_pair| | |lia|lia].
  - intros l k v l' El. assert (map_asc table = (lo ++ l) ++ (k, v) :: l') as E'.
    { rewrite E, El. by rewrite app_assoc. }
    split; [|by apply (it_next_split table (lo ++ l) k v)].
    apply elem_of_map_asc. rewrite E'. apply elem_of_app. right. by left.
  - intros x Hx. apply outside_pair; [lia| |].
    + apply Hk. rewrite E. do 2 (apply elem_of_app; right). destruct hi; [done|]. injection Hx as ->. by left.
    + destruct hi; [done|]. injection Hx as ->. apply Forall_cons in Hhi as [? _]. lia.
  - rewrite <- map_asc_length, E, !length_app. lia.
Qed.
Lemma next_pair_key quote base :
  0 ≤ base < quote → quote < 2 ^ 31 - 1 →
  ∃ next, next_pair quote base = Ok next ∧
    ∀ k, typed_key k → (key_lt k next ↔ pair_class k ≤ quote * 2 ^ 32 + base).
Proof.
  intros Hb Hq. unfold next_pair, price_zero.
  rewrite (s32_id (base + 1)), (s32_id (quote + 1)) by lia.
  destruct (Z.eqb_spec (base + 1) quote) as [E|E].
  - rewrite (proj2 (Z.ltb_lt 0 (quote + 1))) by lia. cbn [rbind]. eexists. split; [reflexivity|].
    intros k Hk. rewrite before_first by (try done; lia). unfold typed_key, pair_class in *. lia.
  - rewrite (proj2 (Z.ltb_lt (base + 1) quote)) by lia. cbn [rbind]. eexists. split; [reflexivity|].
    intros k Hk. rewrite before_first by (try done; lia). lia.
Qed.
Lemma walk_back_listed quote base limit table :
  typed_book table → 0 ≤ base < quote → quote < 2 ^ 31 - 1 → 0 ≤ limit →
  walk_back quote base limit table = Ok (cut limit (reverse (pair_entries quote base table))).
Proof.
  intros Ht Hb Hq Hl. unfold walk_back. destruct (next_pair_key quote base Hb Hq) as (next & -> & Hnext).
  cbn [rbind]. f_equal.
  destruct (pair_entries_run quote base table Ht ltac:(lia)) as (lo & hi & E & Hlo & Hhi).
  set (mid := pair_entries quote base table) in *.
  assert (∀ x, x ∈ map_asc table → typed_key x.1) as Hk.
  { intros x Hx. eapply Ht. by apply table_entry. }
  assert (before_pair next table = fst <$> head (reverse mid ++ reverse lo)) as ->.
  { unfold before_pair. assert (it_lower_bound next table = fst <$> head hi) as ->.
    { unfold it_lower_bound. rewrite E, app_assoc, filter_app, filter_none, filter_all; [done| |].
      - intros x Hx Hn. apply Hnext in Hn; [|apply Hk; rewrite E; do 2 (apply elem_of_app; right); done].
        eapply Forall_forall in Hhi; [|done]. lia.
      - intros x Hx Hn. apply Hn, Hnext; [apply Hk; rewrite E, app_assoc; apply elem_of_app; by left|].
        apply elem_of_app in Hx as [Hx|Hx]; [eapply Forall_forall in Hlo; [|done]; lia|].
        apply (proj1 (Forall_forall _ _) (entries_in_pair quote base table)) in Hx as Hi.
        apply pair_class_in in Hi; [lia|lia|]. apply Hk. rewrite E. apply elem_of_app. right. apply elem_of_app. by left. }
    rewrite <- reverse_app, head_reverse. destruct hi as [|[k v] hi]; cbn [head fmap option_fmap option_map fst].
    - unfold it_last. by rewrite E, app_nil_r.
    - rewrite app_assoc in E. by apply (it_prev_split table (lo ++ mid) k v hi). }
  rewrite walk_pair_run; [destruct (Z.eqb_spec limit 0) as [->|]; [done|by rewrite Z.sub_0_r]
    | |by apply Forall_reverse, entries_in_pair| | |lia|lia].
  - intros l k v l' El. rewrite <- reverse_app in El. apply (f_equal reverse) in El.
    rewrite reverse_involutive, reverse_app, reverse_cons in El.
    assert (map_asc table = reverse l' ++ (k, v) :: (reverse l ++ hi)) as E'.
    { rewrite E, app_assoc, El. by rewrite <- !app_assoc. }
    split; [|rewrite (it_prev_split table _ k v _ E'); by rewrite last_reverse].
    apply elem_of_map_asc. rewrite E'. apply elem_of_app. right. by left.
  - intros x Hx. assert (x ∈ lo) as Hin.
    { rewrite <- elem_of_reverse. destruct (reverse lo); [done|]. injection Hx as ->. by left. }
    apply outside_pair; [lia|apply Hk; rewrite E; apply elem_of_app; by left|].
    eapply Forall_forall in Hlo; [|done]. lia.
  - rewrite length_reverse, <- map_asc_length, E, !length_app. lia.
Qed.
End books.

Section listings.
Context `{!Fc, !Crypto}.
Implicit Types (d : chain_database).

(** C26 (market_orders_listed). Listing a book gives exactly the orders of the pair,
    the dearest bid and the cheapest ask first, up to the limit, and all of them
    when the limit is 0; the walks back and forth over the whole table never
    take in an order of another pair nor stop short of one of this. *)
Theorem market_orders_listed quote_symbol base_symbol quote base limit d :
  get_asset_id quote_symbol d = Ok quote → get_asset_id base_symbol d = Ok base →
  0 ≤ base < quote → quote < 2 ^ 31 - 1 → 0 ≤ limit →
  typed_book (db_bids d) → typed_book (db_asks d) →
  get_market_bids quote_symbol base_symbol limit d =
    Ok (bid_of <$> cut limit (reverse (pair_entries quote base (db_bids d)))) ∧
  get_market_asks quote_symbol base_symbol limit d =
    Ok (ask_of <$> cut limit (pair_entries quote base (db_asks d))).
Proof.
  intros Eq Eb Hb Hq Hl Hbids Hasks. unfold get_market_bids, get_market_asks. rewrite Eq, Eb. cbn [rbind].
  rewrite (proj2 (Z.ltb_lt base quote)) by lia.
  rewrite (walk_back_listed quote base limit (db_bids d)), (walk_on_listed quote base limit (db_asks d)) by done.
  done.
Qed.

(** ** The audit of the votes *)
Definition own_slates d : Prop := ∀ k s, db_slates d !! k = Some s → Forall (λ x, 0 ≤ x) s.
Definition counted_for (id : Z) d (r : balance_record) : Z :=
  in_backing (λ k, slate_at k (Database d)) id 0 r.
Lemma count_votes_lookup sl amount m k :
  default 0 (count_votes sl amount m !! k) ≡₆₄
    default 0 (m !! k) + Z.of_nat (length (filter (λ x, x = k) sl)) * amount.
Proof.
  revert m. unfold count_votes. induction sl as [|x sl IH]; intros m; cbn [foldl].
  { apply eq64_eq. simpl. lia. }
  rewrite IH, filter_cons. destruct (decide (x = k)) as [->|Hne].
  - rewrite lookup_insert_eq. cbn [default from_option length]. rewrite s64_eq64. apply eq64_eq. simpl. lia.
  - by rewrite lookup_insert_ne.
Qed.
Lemma count_votes_range sl amount m :
  (∀ k, in_s64 (default 0 (m !! k))) → ∀ k, in_s64 (default 0 (count_votes sl amount m !! k)).
Proof.
  revert m. unfold count_votes. induction sl as [|x sl IH]; intros m Hm; cbn [foldl]; [done|].
  apply IH. intros k. destruct (decide (k = x)) as [->|Hne].
  - rewrite lookup_insert_eq. apply s64_range.
  - by rewrite lookup_insert_ne.
Qed.

Lemma count_votes_supports sl k : Forall (λ x, 0 ≤ x) sl → Z.of_nat (length (filter (λ x, x = k) sl)) = supports sl k.
Proof.
  intros Hs. unfold supports. do 2 f_equal. apply filter_ext_in. intros x Hx.
  eapply Forall_forall in Hs; [|done]. by rewrite Z.abs_eq.
Qed.
Lemma votes_calculated d :
  slates_known (Database d) → own_slates d →
  ∃ m, rfold (λ x m, count_balance d x.2 m) (map_asc (db_balances d)) ∅ = Ok m ∧
    ∀ k, in_s64 (default 0 (m !! k)) ∧ default 0 (m !! k) ≡₆₄ backing k (Database d).
Proof.
  intros Hk Hs. set (slates := λ k, slate_at k (Database d)).
  destruct (rfold_ok (λ l1 m, (∀ k, in_s64 (default 0 (m !! k))) ∧
      ∀ k, default 0 (m !! k) ≡₆₄ list_sum (in_backing slates k) l1)
    (λ x m, count_balance d x.2 m) (map_asc (db_balances d)) ∅) as (m & E & Hr & Hm).
  - intros l1 [a r] l2 m E [Hr Hm].
    assert (get_balance_record a (Database d) = Some r) as Ha.
    { apply elem_of_map_asc. rewrite E. apply elem_of_app. right. by left. }
    assert (∀ k, list_sum (in_backing slates k) (l1 ++ [(a, r)])
                 = list_sum (in_backing slates k) l1 + in_backing slates k a r) as Hsum.
    { intros k. clear. induction l1 as [|x l1 IH]; simpl; [lia|]. rewrite IH. lia. }
    cbn [snd]. unfold count_balance. destruct (Z.eqb_spec (br_delegate_slate_id r) 0) as [E0|E0].
    { exists m. split; [done|]. split; [done|]. intros k. rewrite Hm, Hsum. unfold in_backing at 3, counted.
      rewrite E0. rewrite andb_false_r. apply eq64_eq. lia. }
    destruct (Z.eqb_spec (br_asset_id r) 0) as [Ea|Ea].
    2:{ exists m. split; [done|]. split; [done|]. intros k. rewrite Hm, Hsum. unfold in_backing at 3, counted.
      rewrite (proj2 (Z.eqb_neq _ _) Ea). apply eq64_eq. simpl. lia. }
    assert (counted r = true) as Hc.
    { unfold counted. rewrite Ea, (proj2 (Z.eqb_neq _ _) E0). done. }
    destruct (Hk a r Ha Hc) as [sl Hsl].
    rewrite Hsl. cbn [of_option rbind]. eexists. split; [reflexivity|]. split; [by apply count_votes_range|].
    intros k. rewrite count_votes_lookup, Hm, Hsum, count_votes_supports by by eapply Hs.
    apply eq64_eq. f_equal. unfold in_backing, slates, slate_at. by rewrite Hc, Hsl.
  - split; intros k; rewrite lookup_empty; [by split|done].
  - exists m. split; [exact E|]. intros k. split; [apply Hr|]. rewrite Hm.
    rewrite <- gsum_asc. done.
Qed.

(** What the audit compares the votes of a delegate with. *)
Definition due_votes d (id : Z) : Z :=
  s64 (backing id (Database d) + from_option ds_pay_balance 0 (db_accounts d !! id ≫= ac_delegate_info)).
Lemma audit_step d (m : gmap Z Z) entry (x : gmap Z Z * gmap string vote_discrepancy) :
  vote_index d → (∀ k r, db_accounts d !! k = Some r → ac_id r = k) →
  (∀ k, default 0 (m !! k) ≡₆₄ backing k (Database d)) → entry ∈ db_delegate_votes d →
  default 0 (x.1 !! entry.2) = default 0 (m !! entry.2) →
  ∃ x', audit_votes d entry x = Ok x' ∧
    (∀ k, k ≠ entry.2 → x'.1 !! k = x.1 !! k) ∧
    (x'.2 = ∅ ↔ x.2 = ∅ ∧ entry.1 = due_votes d entry.2).
Proof.
  destruct entry as [v id]. cbn [fst snd]. intros Hi Hk Hm He Hx.
  apply Hi in He as (r & i & Er & Ei & <-). unfold audit_votes, ac_delegate_pay_balance, ac_net_votes. cbn [fst snd].
  rewrite Er. cbn [of_option rbind]. rewrite Ei. cbn [of_option rbind]. rewrite (Hk id r Er).
  rewrite lookup_insert_eq. cbn [default from_option]. rewrite Hx, Z.eqb_refl. cbn [negb orb].
  assert (s64 (default 0 (m !! id) + ds_pay_balance i) = due_votes d id) as ->.
  { unfold due_votes. rewrite Er. cbn [option_bind mbind]. rewrite Ei. cbn [from_option]. apply s64_proper. by rewrite Hm. }
  change (Datatypes.id (due_votes d id)) with (due_votes d id).
  destruct (Z.eqb_spec (ds_votes_for i) (due_votes d id)) as [E|E];
    cbn [negb]; (eexists; split; [reflexivity|]); cbn [fst snd].
  - split; [intros k Hne; by rewrite !lookup_insert_ne by done|]. tauto.
  - split; [intros k Hne; by rewrite !lookup_insert_ne by done|].
    split; [intros He; exfalso; by apply insert_non_empty in He|tauto].
Qed.

(** C27 (vote_audit_exact). When no slate names a delegate by a negative id, the audit
    of the votes ends without throwing and finds nothing exactly when every delegate
    has the votes of the balances whose slate names it and of its own pay; over a
    chain that keeps votes it then finds nothing.  A negative id, which gives the
    delegate votes, is audited under the negative number, so that the audit reports
    votes that are right ([negative_slate_misreported]). *)
Theorem vote_audit_exact d :
  vote_index d → slates_known (Database d) → own_slates d →
  (∀ k r, db_accounts d !! k = Some r → ac_id r = k) →
  ∃ found, find_delegate_vote_discrepancies d = Ok found ∧
    (found = ∅ ↔ ∀ id r i, db_accounts d !! id = Some r → ac_delegate_info r = Some i →
       ds_votes_for i = s64 (backing id (Database d) + ds_pay_balance i)) ∧
    (votes_backed (Database d) → (∀ v id, (v, id) ∈ db_delegate_votes d → in_s64 v) → found = ∅).
Proof.
  intros Hi Hk Hs Hid. unfold find_delegate_vote_discrepancies.
  destruct (votes_calculated d Hk Hs) as (m & -> & Hm). cbn [rbind].
  destruct (rfold_ok (λ l1 x, (∀ k, k ∉ l1.*2 → default 0 (x.1 !! k) = default 0 (m !! k)) ∧
      (x.2 = ∅ ↔ ∀ e, e ∈ l1 → e.1 = due_votes d e.2))
    (audit_votes d) (sorted_votes d) (m, ∅)) as (x & -> & _ & Hx).
  - intros l1 e l2 x E [Hsame Hx]. pose proof (sorted_votes_ids d Hi) as Hn.
    rewrite E, fmap_app, fmap_cons in Hn. apply NoDup_app in Hn as (_ & Hd & _).
    assert (e.2 ∉ l1.*2) as Hnew by (intros Hin; apply (Hd e.2 Hin); by left).
    destruct (audit_step d m e x) as (x' & Ex & Ho & Hf); [done|done|apply Hm| |by apply Hsame|].
    { apply elem_of_sorted_votes. rewrite E. apply elem_of_app. right. by left. }
    exists x'. split; [done|]. split.
    + intros k Hk'. rewrite fmap_app in Hk'. apply not_elem_of_app in Hk' as [H1' H2']. rewrite Ho, Hsame; [done|done|].
      intros ->. apply H2'. by left.
    + rewrite Hf, Hx. split.
      * intros [H1' H2'] y [Hy| ->%list_elem_of_singleton]%elem_of_app; [by apply H1'|done].
      * intros Ha. split; [intros y Hy; apply Ha, elem_of_app; by left|apply Ha, elem_of_app; right; by left].
  - split; [done|]. split; [by intros _ y ?%elem_of_nil|done].
  - cbn [rbind]. exists x.2. split; [done|]. split.
    2:{ intros Hb Hr. apply Hx. intros [v id] He. apply elem_of_sorted_votes in He. pose proof (Hr v id He) as Hv.
        apply Hi in He as (r & i & Hr' & Hinfo & <-). unfold due_votes. cbn [fst snd].
        rewrite Hr'. cbn [mbind option_bind]. rewrite Hinfo. cbn [from_option]. rewrite <- (s64_id _ Hv) at 1.
        apply s64_proper. specialize (Hb id). unfold vote_stats in Hb.
        change (get_account_record id (Database d)) with (db_accounts d !! id) in Hb. rewrite Hr' in Hb.
        cbn [from_option] in Hb. unfold net_votes in Hb. rewrite Hinfo in Hb. cbn [from_option] in Hb.
        rewrite <- Hb. apply eq64_eq. lia. }
    rewrite Hx. unfold due_votes. split.
    + intros Ha id r i Hr Hinfo. specialize (Ha (ds_votes_for i, id)). cbn [fst snd] in Ha.
      rewrite Hr in Ha. cbn [mbind option_bind] in Ha. rewrite Hinfo in Ha. apply Ha.
      apply elem_of_sorted_votes, Hi. by exists r, i.
    + intros Ha [v id] He. apply elem_of_sorted_votes, Hi in He as (r & i & Hr & Hinfo & <-). cbn [fst snd].
      rewrite Hr. cbn [mbind option_bind]. rewrite Hinfo. by apply (Ha id r i).
Qed.

(** ** Where a query does not answer what it is asked *)

(** The records of the delegates by vote dereference the account 0 for every
    entry, which a genesis does not store. *)
Lemma records_by_vote_undefined first count d :
  db_accounts d !! 0 = None → 0 ≤ first < Z.of_nat (size (db_delegate_votes d)) → 0 < count →
  get_delegate_records_by_vote first count d = Err undefined.
Proof.
  intros Hd Hf Hc. unfold get_delegate_records_by_vote.
  assert (length (sorted_votes d) = size (db_delegate_votes d)) as Hl.
  { unfold sorted_votes. by rewrite merge_sort_Permutation. }
  destruct (drop (Z.to_nat first) (sorted_votes d)) as [|e l] eqn:E.
  { apply (f_equal length) in E. rewrite length_drop, Hl in E. simpl in E. lia. }
  destruct (Z.to_nat count) eqn:En; [lia|]. cbn [take rfold]. by rewrite Hd.
Qed.
End listings.
