(* ===== verification/WalletFacts.v ===== *)
(** What the database of the wallet keeps: memory and disk agree, every record has
    an index of its own, and the indices of the accounts lead to them. *)
From S2P Require Import WalletDb.

(** ** Slots: where a record is held in memory *)
Inductive slot :=
  | s_master | s_account (i : Z) | s_key (a : address) | s_transaction (id : digest_type)
  | s_balance (a : address) | s_property (p : property_enum) | s_setting (name : string) | s_other (i : Z).
#[export] Instance slot_eq_dec : EqDecision slot.
Proof. solve_decision. Defined.

Section facts.
Context `{!Crypto, !Ecc}.
Implicit Types (w : wallet_db) (g : generic_wallet_record) (D : slot → Prop).

Definition slot_of g : slot :=
  match g with
  | g_master_key _ => s_master
  | g_account r => s_account (wa_index r)
  | g_key r => s_key (kd_get_address (wk_data r))
  | g_transaction r => s_transaction (td_record_id (wt_data r))
  | g_balance r => s_balance (br_id (wb_record r))
  | g_property r => s_property (wp_key r)
  | g_setting r => s_setting (wse_name r)
  | g_other i => s_other i
  end.
Definition held w (s : slot) : option generic_wallet_record :=
  match s with
  | s_master => g_master_key <$> w_master_key w
  | s_account i => g_account <$> w_accounts w !! i
  | s_key a => g_key <$> w_keys w !! a
  | s_transaction id => g_transaction <$> w_transactions w !! id
  | s_balance a => g_balance <$> w_balances w !! a
  | s_property p => g_property <$> w_properties w !! p
  | s_setting n => g_setting <$> w_settings w !! n
  | s_other _ => None
  end.
Definition known g : Prop := match g with g_other _ => False | _ => True end.

(** The addresses an account is found under. *)
Definition account_addresses (r : wallet_account_record) : list address :=
  wa_account_address r :: ((λ k, address_of_key k.2) <$> ac_active_key_history (wa_account r)).

(** *** Memory and disk agree, but for the slots of [D] *)
Record synced D w : Prop := {
  sy_index i g : w_records w !! i = Some g → get_wallet_record_index g = i;
  sy_disk i g : w_records w !! i = Some g → ¬ D (slot_of g) → held w (slot_of g) = Some g;
  sy_held s g : held w s = Some g → ¬ D s →
    slot_of g = s ∧ w_records w !! get_wallet_record_index g = Some g;
  sy_unique i j g g' : w_records w !! i = Some g → w_records w !! j = Some g' →
    slot_of g = slot_of g' → i = j
}.

(** *** Every record has a number of its own *)
Definition next_index w : Z :=
  match w_get_property next_record_number w with v_int n => n | _ => 2 end.
Definition number_ok (next i : Z) (s : slot) : Prop :=
  match s with
  | s_master => i = -1
  | s_property next_record_number => i = 1
  | s_other _ => False
  | _ => 2 ≤ i < next
  end.
Record numbered w : Prop := {
  nu_next r : w_properties w !! next_record_number = Some r →
    wp_index r = 1 ∧ wp_value r = v_int (next_index w);
  nu_range : 2 ≤ next_index w < 2 ^ 31;
  nu_records i g : w_records w !! i = Some g → number_ok (next_index w) i (slot_of g)
}.

(** *** The indices of the accounts *)
Definition account_ok w (i : Z) (r : wallet_account_record) : Prop :=
  wa_index r = i ∧ wa_account_address r = address_of_key (ac_owner_key (wa_account r)) ∧
  w_name_index w !! ac_name (wa_account r) = Some i ∧
  (ac_id (wa_account r) ≠ 0 → w_id_index w !! ac_id (wa_account r) = Some i).
Record indexed w : Prop := {
  ix_account i r : w_accounts w !! i = Some r → account_ok w i r;
  ix_name n i : w_name_index w !! n = Some i →
    ∃ r, w_accounts w !! i = Some r ∧ ac_name (wa_account r) = n;
  ix_id id i : w_id_index w !! id = Some i →
    id ≠ 0 ∧ ∃ r, w_accounts w !! i = Some r ∧ ac_id (wa_account r) = id;
  ix_address a i : w_address_index w !! a = Some i →
    ∃ r, w_accounts w !! i = Some r ∧ a ∈ account_addresses r
}.

Record wallet_but D w : Prop := {
  wb_open : w_is_open w = true;
  wb_synced : synced D w;
  wb_numbered : numbered w;
  wb_indexed : indexed w
}.
Definition clean (s : slot) : Prop := False.
Definition wallet_ok w : Prop := wallet_but clean w.

(** ** Loading *)
Definition account_loaded (r : wallet_account_record) w : wallet_db :=
  let i := wa_index r in
  let a := wa_account r in
  let w := index_addresses r (set_w_accounts (<[i := r]> (w_accounts w)) w) in
  let w := if ac_id a =? 0 then w else set_w_id_index (<[ac_id a := i]> (w_id_index w)) w in
  set_w_name_index (<[ac_name a := i]> (w_name_index w)) w.
Definition id_free w (r : wallet_account_record) : Prop :=
  ac_id (wa_account r) ≠ 0 →
  ∀ j, w_id_index w !! ac_id (wa_account r) = Some j → j = wa_index r.

Ltac solve_held :=
  let s := fresh in intros s; destruct s; simpl; rewrite ?lookup_insert;
  repeat case_decide; simplify_eq/=; done.

Lemma load_account_Ok r w : id_free w r →
  load_account_record r true w = (Ok (), account_loaded r w).
Proof.
  intros Hid. unfold load_account_record, account_loaded, sbind, smodify, sassert, sret.
  cbn [orb]. destruct (ac_id (wa_account r) =? 0) eqn:E0; [done|].
  apply Z.eqb_neq in E0. cbn [w_id_index index_addresses set_w_address_index set_w_accounts].
  destruct (w_id_index w !! ac_id (wa_account r)) as [j|] eqn:Ej; [|done].
  by rewrite (Hid E0 j Ej), Z.eqb_refl.
Qed.

Definition fits w g : Prop := match g with g_account r => id_free w r | _ => True end.

(** Loading a record changes what its slot holds, and nothing else that is held. *)
Lemma load_held g w : known g → fits w g →
  ∃ w', load_generic_record g true w = (Ok (), w') ∧
    w_records w' = w_records w ∧ w_is_open w' = w_is_open w ∧
    ∀ s, held w' s = if decide (s = slot_of g) then Some g else held w s.
Proof.
  intros Hk Hf.
  assert (∃ w', load_generic_record g true w = (Ok (), w')) as [w' Hw].
  { destruct g; try by eexists. eexists. by apply load_account_Ok. }
  exists w'. split; [done|].
  destruct g as [r|r|r|r|r|r|r|i]; try done; cbn [load_generic_record] in Hw;
    try (injection Hw as <-; split_and!; [done|done|]; solve_held).
  rewrite load_account_Ok in Hw by done. injection Hw as <-.
  unfold account_loaded, index_addresses.
  destruct (_ =? 0); (split_and!; [done|done|]); solve_held.
Qed.

Definition same_indices w w' : Prop :=
  w_address_index w' = w_address_index w ∧ w_name_index w' = w_name_index w ∧
  w_id_index w' = w_id_index w.
Lemma load_indices g w w' : load_generic_record g true w = (Ok (), w') →
  match g with g_account r => w' = account_loaded r w | _ => same_indices w w' end.
Proof.
  intros Hw. destruct g as [r|r|r|r|r|r|r|i]; cbn [load_generic_record] in Hw;
    try (injection Hw as <-; done).
  unfold load_account_record, sbind, smodify, sassert, sret in Hw. cbn [orb] in Hw.
  unfold account_loaded. destruct (_ =? 0); [by injection Hw as <-|].
  destruct (match _ with Some _ => _ | None => _ end); [by injection Hw as <-|done].
Qed.

Lemma held_accounts w w' : (∀ s, held w' s = held w s) → w_accounts w' = w_accounts w.
Proof.
  intros Hh. apply map_eq. intros i. specialize (Hh (s_account i)). simpl in Hh.
  by destruct (w_accounts w !! i), (w_accounts w' !! i); simplify_eq/=.
Qed.

(** ** Storing *)

(** [g] takes the place of what was held in its slot, under the same index, or is new. *)
Record storable D g w : Prop := {
  sb_nonzero : get_wallet_record_index g ≠ 0;
  sb_index g' : w_records w !! get_wallet_record_index g = Some g' → slot_of g' = slot_of g;
  sb_slot j g' : w_records w !! j = Some g' → slot_of g' = slot_of g → j = get_wallet_record_index g;
  sb_number : number_ok (next_index w) (get_wallet_record_index g) (slot_of g);
  sb_next r : g = g_property r → wp_key r = next_record_number →
    ∃ n, wp_value r = v_int n ∧ next_index w ≤ n < 2 ^ 31
}.
(** Where an account is stored, it keeps its name and what it is found under. *)
Record account_fits w (r : wallet_account_record) : Prop := {
  af_address : wa_account_address r = address_of_key (ac_owner_key (wa_account r));
  af_name j : w_name_index w !! ac_name (wa_account r) = Some j → j = wa_index r;
  af_id : id_free w r;
  af_old old : w_accounts w !! wa_index r = Some old →
    ac_name (wa_account old) = ac_name (wa_account r) ∧
    (ac_id (wa_account old) = 0 ∨ ac_id (wa_account old) = ac_id (wa_account r)) ∧
    account_addresses old ⊆ account_addresses r
}.

Definition but D (s : slot) : slot → Prop := λ s', D s' ∧ s' ≠ s.

Lemma number_ok_known next i g : number_ok next i (slot_of g) → known g.
Proof. by destruct g. Qed.
Lemma number_ok_mono n n' i s : n ≤ n' → number_ok n i s → number_ok n' i s.
Proof. destruct s as [| | | | |[]| |]; simpl; lia. Qed.

Lemma synced_store D g w w' :
  (∀ i, w_records w' !! i = if decide (i = get_wallet_record_index g) then Some g else w_records w !! i) →
  (∀ s, held w' s = if decide (s = slot_of g) then Some g else held w s) →
  storable D g w → synced D w → synced (but D (slot_of g)) w'.
Proof.
  intros Hr Hh Hs [S1 S2 S3 S4]. split.
  - intros i g' Hi. rewrite Hr in Hi. case_decide; simplify_eq; [done|by apply S1].
  - intros i g' Hi HD. rewrite Hr in Hi. rewrite Hh. case_decide; simplify_eq; [by rewrite decide_True|].
    case_decide as Hsl.
    + destruct H1. by eapply sb_slot.
    + apply (S2 i); [done|]. intros HD'. by apply HD.
  - intros s g' Hg HD. rewrite Hh in Hg. rewrite Hr. case_decide; simplify_eq; [by rewrite decide_True|].
    destruct (S3 s g' Hg) as [<- Hi]; [intros HD'; by apply HD|]. split; [done|].
    case_decide as Hj; [|done]. rewrite Hj in Hi. by apply (sb_index _ _ _ Hs) in Hi.
  - intros i j g1 g2 Hi Hj Heq. rewrite Hr in Hi, Hj. repeat case_decide; simplify_eq;
      [done|..|by eapply S4]; first [by eapply (sb_slot _ _ _ Hs)|symmetry; by eapply (sb_slot _ _ _ Hs)].
Qed.

Lemma next_index_property w w' :
  w_properties w' !! next_record_number = w_properties w !! next_record_number →
  next_index w' = next_index w.
Proof. unfold next_index, w_get_property. by intros ->. Qed.
Lemma held_property w w' p :
  held w' (s_property p) = held w (s_property p) → w_properties w' !! p = w_properties w !! p.
Proof. simpl. intros Hp. by destruct (w_properties w !! p), (w_properties w' !! p); simplify_eq/=. Qed.

Lemma numbered_store D g w w' :
  (∀ i, w_records w' !! i = if decide (i = get_wallet_record_index g) then Some g else w_records w !! i) →
  (∀ s, held w' s = if decide (s = slot_of g) then Some g else held w s) →
  storable D g w → numbered w → numbered w'.
Proof.
  intros Hr Hh Hs [N1 N2 N3].
  assert (next_index w ≤ next_index w' < 2 ^ 31 ∧
    ∀ r, w_properties w' !! next_record_number = Some r → wp_index r = 1 ∧ wp_value r = v_int (next_index w'))
    as [Hn Hnext].
  { destruct (decide (slot_of g = s_property next_record_number)) as [Hsl|Hsl].
    - destruct g as [| | | | |r| |]; try done. injection Hsl as Hk.
      destruct (sb_next _ _ _ Hs r eq_refl Hk) as (n & Hv & Hn).
      pose proof (sb_number _ _ _ Hs) as Hnum. simpl in Hnum. rewrite Hk in Hnum.
      specialize (Hh (s_property next_record_number)). simpl in Hh.
      rewrite Hk, decide_True in Hh by done. unfold next_index, w_get_property in *.
      destruct (w_properties w' !! next_record_number); simplify_eq/=. rewrite Hv.
      split; [done|]. intros ? [= <-]. done.
    - specialize (Hh (s_property next_record_number)).
      rewrite decide_False in Hh by congruence. apply held_property in Hh.
      rewrite (next_index_property w w'), Hh by done. split; [lia|]. intros r Hp. by apply N1. }
  split; [done|lia|].
  intros i g' Hi. rewrite Hr in Hi. apply (number_ok_mono (next_index w)); [lia|].
  case_decide; simplify_eq; [by apply Hs|by apply N3].
Qed.

(** ** The indices of the accounts *)
Lemma fold_addresses {A} (f : A → address) (l : list A) (i : Z) (m : gmap address Z) a :
  foldl (λ m k, <[f k := i]> m) m l !! a = if decide (a ∈ f <$> l) then Some i else m !! a.
Proof.
  revert m. induction l as [|x l IH]; intros m; [done|].
  cbn [foldl]. rewrite fmap_cons, IH, lookup_insert.
  repeat case_decide; rewrite ?elem_of_cons in *; naive_solver.
Qed.

Lemma account_loaded_parts r w :
  w_accounts (account_loaded r w) = <[wa_index r := r]> (w_accounts w) ∧
  w_name_index (account_loaded r w) = <[ac_name (wa_account r) := wa_index r]> (w_name_index w) ∧
  w_id_index (account_loaded r w) = (if ac_id (wa_account r) =? 0 then w_id_index w
    else <[ac_id (wa_account r) := wa_index r]> (w_id_index w)) ∧
  ∀ a, w_address_index (account_loaded r w) !! a
       = if decide (a ∈ account_addresses r) then Some (wa_index r) else w_address_index w !! a.
Proof.
  unfold account_loaded, index_addresses. destruct (_ =? 0); split_and!; try done; intros a;
    cbn [w_address_index set_w_name_index set_w_id_index set_w_address_index set_w_accounts];
    rewrite fold_addresses, lookup_insert; unfold account_addresses;
    repeat case_decide; rewrite ?elem_of_cons in *; naive_solver.
Qed.

Lemma indexed_load r w : account_fits w r → indexed w → indexed (account_loaded r w).
Proof.
  intros [F1 F2 F3 F4] [I1 I2 I3 I4].
  destruct (account_loaded_parts r w) as (Ea & En & Ei & Ead).
  assert (∀ j, ac_id (wa_account r) ≠ 0 → w_id_index w !! ac_id (wa_account r) = Some j → j = wa_index r)
    as F3' by auto.
  assert (∀ i r', w_accounts w !! i = Some r' → ∃ r'', w_accounts (account_loaded r w) !! i = Some r'' ∧
    ac_name (wa_account r'') = ac_name (wa_account r') ∧
    (ac_id (wa_account r') ≠ 0 → ac_id (wa_account r'') = ac_id (wa_account r')) ∧
    account_addresses r' ⊆ account_addresses r'') as Hkeep.
  { intros i r' Hi. rewrite Ea, lookup_insert. case_decide; [subst|by exists r'].
    exists r. destruct (F4 r' Hi) as (? & [|] & ?); (split_and!; [done..| |done]); congruence. }
  split.
  - intros i r' Hi. rewrite Ea, lookup_insert in Hi. unfold account_ok. rewrite En, Ei.
    case_decide; simplify_eq; [split_and!; try done; [by rewrite lookup_insert_eq|]|].
    + intros Hid. rewrite (proj2 (Z.eqb_neq _ _) Hid). by rewrite lookup_insert_eq.
    + destruct (I1 i r' Hi) as (? & ? & Hn & Hid). split_and!; [done|done| |].
      * rewrite lookup_insert. case_decide as Hc; [|done]. rewrite <- Hc in Hn.
        apply F2 in Hn. by subst.
      * intros Hne. specialize (Hid Hne). destruct (_ =? 0) eqn:E0; [done|].
        rewrite lookup_insert. case_decide as Hc; [|done]. rewrite <- Hc in Hid, Hne.
        apply F3' in Hid; [by subst|done].
  - intros n i. rewrite En, lookup_insert. case_decide.
    + intros [= <-]. exists r. by rewrite Ea, lookup_insert_eq.
    + intros (r' & Hi & Hn)%I2. destruct (Hkeep i r' Hi) as (r'' & ? & ? & ?).
      exists r''. split; [done|congruence].
  - intros id i. rewrite Ei. intros Hid.
    assert ((id = ac_id (wa_account r) ∧ id ≠ 0 ∧ i = wa_index r) ∨ w_id_index w !! id = Some i)
      as [(-> & Hne & ->)|Hold].
    { destruct (_ =? 0) eqn:E0; [by right|]. apply Z.eqb_neq in E0. rewrite lookup_insert in Hid.
      case_decide; simplify_eq; auto. }
    + split; [done|]. exists r. by rewrite Ea, lookup_insert_eq.
    + apply I3 in Hold as (Hne & r' & Hi & Hn). split; [done|].
      destruct (Hkeep i r' Hi) as (r'' & ? & ? & Hk & ?). exists r''. split; [done|].
      rewrite Hk; congruence.
  - intros a i. rewrite Ead. case_decide.
    + intros [= <-]. exists r. by rewrite Ea, lookup_insert_eq.
    + intros (r' & Hi & Hin)%I4. destruct (Hkeep i r' Hi) as (r'' & ? & ? & ? & Hsub). exists r''. auto.
Qed.

Lemma indexed_same w w' : same_indices w w' → w_accounts w' = w_accounts w → indexed w → indexed w'.
Proof.
  intros (Ha & Hn & Hi) Hacc [I1 I2 I3 I4].
  split; unfold account_ok; rewrite ?Ha, ?Hn, ?Hi, ?Hacc; done.
Qed.

(** ** Storing a record keeps the wallet in order *)
Definition indices_fit w g : Prop := match g with g_account r => account_fits w r | _ => True end.

Definition with_record g w : wallet_db :=
  set_w_records (<[get_wallet_record_index g := g]> (w_records w)) w.
Lemma with_record_held g w s : held (with_record g w) s = held w s.
Proof. by destruct s. Qed.

Lemma store_generic_Ok g w : w_is_open w = true → get_wallet_record_index g ≠ 0 →
  store_generic_record g w = load_generic_record g true (with_record g w).
Proof.
  intros Ho Hi. unfold store_generic_record, sbind, sassert, smodify.
  by rewrite Ho, (proj2 (Z.eqb_neq _ _) Hi).
Qed.

Lemma store_storable_ok D g w : wallet_but D w → storable D g w → indices_fit w g →
  ∃ w', store_generic_record g w = (Ok (), w') ∧ wallet_but (but D (slot_of g)) w' ∧
    (∀ i, w_records w' !! i = if decide (i = get_wallet_record_index g) then Some g else w_records w !! i) ∧
    (∀ s, held w' s = if decide (s = slot_of g) then Some g else held w s).
Proof.
  intros [Ho Hsy Hnu Hix] Hs Hfit. rewrite store_generic_Ok by (done || apply Hs).
  destruct (load_held g (with_record g w)) as (w' & Hl & Hrec & Hop & Hheld).
  { by eapply number_ok_known, Hs. }
  { destruct g; try done. apply Hfit. }
  assert (∀ i, w_records w' !! i = if decide (i = get_wallet_record_index g) then Some g else w_records w !! i) as Hr.
  { intros i. rewrite Hrec. simpl. rewrite lookup_insert. repeat case_decide; congruence. }
  assert (∀ s, held w' s = if decide (s = slot_of g) then Some g else held w s) as Hheld'
    by (intros s; by rewrite Hheld, with_record_held). clear Hheld. rename Hheld' into Hheld.
  exists w'. split; [done|]. split; [|done]. split.
  - by rewrite Hop.
  - by eapply synced_store.
  - by eapply numbered_store.
  - apply load_indices in Hl. destruct g as [r|r|r|r|r|r|r|i].
    2: { subst w'. apply indexed_load; [by destruct Hfit; split|by destruct Hix; split]. }
    all: apply (indexed_same w); [done| |done]; apply map_eq; intros j;
      specialize (Hheld (s_account j)); rewrite decide_False in Hheld by done; simpl in Hheld;
      by destruct (w_accounts w !! j), (w_accounts w' !! j); simplify_eq/=.
Qed.

Lemma wallet_but_weaken D D' w : (∀ s, D s → D' s) → wallet_but D w → wallet_but D' w.
Proof.
  intros HD [Ho [S1 S2 S3 S4] Hn Hi]. split; try done. split; try done.
  - intros i g Hg HD'. apply (S2 i); [done|]. intros ?. by apply HD', HD.
  - intros s g Hg HD'. apply S3; [done|]. intros ?. by apply HD', HD.
Qed.

(** The slots other than the record counter. *)
Definition counter : slot := s_property next_record_number.
Definition on_disk w (s : slot) (i : Z) : Prop := ∃ g, w_records w !! i = Some g ∧ slot_of g = s.

Lemma storable_update D g w : wallet_but D w → on_disk w (slot_of g) (get_wallet_record_index g) →
  slot_of g ≠ counter → storable D g w.
Proof.
  intros [Ho [S1 S2 S3 S4] [N1 N2 N3] Hi] (g0 & Hg & Hs) Hc. pose proof (N3 _ _ Hg) as Hn.
  rewrite Hs in Hn. split.
  - intros Hz. rewrite Hz in Hn. destruct (slot_of g) as [| | | | |[]| |]; simpl in Hn; lia.
  - intros g' Hg'. congruence.
  - intros j g' Hj Hs'. apply (S4 j _ g' g0); congruence.
  - done.
  - intros r -> Hr. by destruct Hc; simpl; rewrite Hr.
Qed.

Definition slot_free w (s : slot) : Prop := ∀ j g, w_records w !! j = Some g → slot_of g ≠ s.
Lemma free_slot D w s : wallet_but D w → ¬ D s → held w s = None → slot_free w s.
Proof. intros [_ [_ S2 _ _] _ _] HD Hh j g Hj <-. by rewrite (S2 j g Hj HD) in Hh. Qed.
Lemma storable_fresh D g w : wallet_but D w → w_records w !! get_wallet_record_index g = None →
  slot_free w (slot_of g) → number_ok (next_index w) (get_wallet_record_index g) (slot_of g) →
  slot_of g ≠ counter → storable D g w.
Proof.
  intros Hw Hi Hf Hn Hc. split; try done.
  - intros Hz. rewrite Hz in Hn. destruct (slot_of g) as [| | | | |[]| |]; simpl in Hn; lia.
  - intros g'. by rewrite Hi.
  - intros j g' Hj Hs. by apply Hf in Hj.
  - intros r -> Hr. by destruct Hc; simpl; rewrite Hr.
Qed.

(** *** The counter *)
Record counted D w (n : Z) w' : Prop := {
  ct_ok : wallet_but D w';
  ct_range : 2 ≤ n < next_index w';
  ct_fresh : w_records w' !! n = None;
  ct_records i : i ≠ 1 → w_records w' !! i = w_records w !! i;
  ct_held s : s ≠ counter → held w' s = held w s;
  ct_free s : s ≠ counter → slot_free w s → slot_free w' s;
  ct_indices : same_indices w w'
}.
Lemma counter_on_disk D w : wallet_but D w → ¬ D counter →
  on_disk w counter 1 ∨ slot_free w counter ∧ w_records w !! 1 = None.
Proof.
  intros [Ho [S1 S2 S3 S4] [N1 N2 N3] Hi] HD.
  destruct (w_properties w !! next_record_number) as [r|] eqn:Hp.
  - left. destruct (N1 r eq_refl) as [Hr _].
    destruct (S3 counter (g_property r)) as [Hs Hg]; [by simpl; rewrite Hp|done|].
    exists (g_property r). simpl in Hg. by rewrite Hr in Hg.
  - right. assert (slot_free w counter) as Hf.
    { intros j g Hj Hs. specialize (S2 j g Hj). rewrite Hs in S2. specialize (S2 HD). simpl in S2.
      by rewrite Hp in S2. }
    split; [done|]. destruct (w_records w !! 1) as [g|] eqn:H1; [|done].
    pose proof (N3 1 g H1) as Hn. specialize (Hf 1 g H1). unfold counter in Hf.
    destruct (slot_of g) as [| | | | |[]| |]; simpl in Hn; try lia; done.
Qed.

Definition counter_record (n : Z) : wallet_property_record :=
  WalletPropertyRecord 1 next_record_number (v_int n).
Lemma storable_counter D w : wallet_but D w → ¬ D counter → next_index w ≠ 2 ^ 31 - 1 →
  storable D (g_property (counter_record (next_index w + 1))) w.
Proof.
  intros Hw HD Hn. pose proof Hw as [_ [S1 S2 S3 S4] [N1 N2 N3] _].
  destruct (counter_on_disk D w Hw HD) as [(g0 & Hg & Hs)|[Hf H1]]; split; cbn; try done.
  - intros g'. rewrite Hg. by intros [= <-].
  - intros j g' Hj Hs'. apply (S4 j 1 g' g0); [done|done|]. by rewrite Hs, Hs'.
  - intros r [= <-] _. exists (next_index w + 1). split; [done|lia].
  - intros g'. by rewrite H1.
  - intros j g' Hj Hs'. by apply Hf in Hj.
  - intros r [= <-] _. exists (next_index w + 1). split; [done|lia].
Qed.

Lemma new_index_eq D w : wallet_but D w → ¬ D counter →
  new_wallet_record_index w = if next_index w =? 2 ^ 31 - 1 then (Err undefined, w) else
    sbind (store_generic_record (g_property (counter_record (next_index w + 1))))
      (λ _, sret (next_index w)) w.
Proof.
  intros [Ho [S1 S2 S3 S4] [N1 N2 N3] Hix] HD.
  unfold new_wallet_record_index, set_next_record_number, w_get_property, sbind at 1 2 3 4, sgets, slift, sthrow, sret.
  destruct (w_properties w !! next_record_number) as [[i k v]|] eqn:Hp.
  - destruct (N1 _ eq_refl) as [Hi Hv]. simpl in Hi, Hv. subst i v.
    destruct (S3 counter (g_property (WalletPropertyRecord 1 k (v_int (next_index w))))) as [Hk _];
      [by simpl; rewrite Hp|done|]. injection Hk as ->.
    cbn -[Z.pow Z.sub Z.eqb]. assert (s32 (next_index w) = next_index w) as ->.
    { unfold s32. rewrite Z.mod_small; lia. }
    destruct (_ =? _); [done|]. rewrite Hp. reflexivity.
  - cbn -[Z.pow Z.sub Z.eqb]. assert (next_index w = 2) as -> by (unfold next_index, w_get_property; by rewrite Hp).
    destruct (_ =? _); [done|]. rewrite Hp. reflexivity.
Qed.

Lemma new_index_ok D w : wallet_but D w → ¬ D counter →
  new_wallet_record_index w = (Err undefined, w) ∨
  ∃ n w', new_wallet_record_index w = (Ok n, w') ∧ counted D w n w'.
Proof.
  intros Hw HD. pose proof Hw as [Ho Hsy [N1 N2 N3] Hix].
  set (n := next_index w) in *.
  assert (new_wallet_record_index w = if n =? 2 ^ 31 - 1 then (Err undefined, w) else
    sbind (store_generic_record (g_property (counter_record (n + 1)))) (λ _, sret n) w) as ->.
  { by apply (new_index_eq D). }
  destruct (n =? 2 ^ 31 - 1) eqn:En; [by left|right]. apply Z.eqb_neq in En.
  destruct (store_storable_ok D (g_property (counter_record (n + 1))) w) as (w' & Hst & Hw' & Hr & Hh); [done| |done|].
  { by apply storable_counter. }
  exists n, w'. unfold sbind. rewrite Hst. split; [done|].
  assert (next_index w' = n + 1) as Hn'.
  { specialize (Hh counter). rewrite decide_True in Hh by done. unfold next_index, w_get_property.
    simpl in Hh. by destruct (w_properties w' !! next_record_number); simplify_eq/=. }
  split.
  - eapply wallet_but_weaken; [|done]. by intros s [].
  - lia.
  - rewrite Hr. rewrite decide_False by (simpl; lia).
    destruct (w_records w !! n) as [g|] eqn:Hg; [|done]. apply N3 in Hg. fold n in Hg.
    destruct (slot_of g) as [| | | | |[]| |]; simpl in Hg; lia.
  - intros i Hi. rewrite Hr. by rewrite decide_False.
  - intros s Hs. rewrite Hh. by rewrite decide_False.
  - intros s Hs Hf j g Hj. rewrite Hr in Hj. case_decide; [|by eapply Hf].
    injection Hj as <-. by intros <-.
  - rewrite store_generic_Ok in Hst by (done || by simpl). by apply load_indices in Hst.
Qed.
End facts.
