(* ===== verification/WalletOrder.v ===== *)
(** The operations of the wallet's database keep it in order. *)
From S2P Require Import WalletDb WalletFacts.

Section order.
Context `{!Crypto, !Ecc}.
Implicit Types (w : wallet_db) (g : generic_wallet_record) (D : slot → Prop).

(** ** Storing what is held, and what is new *)

(** [w'] is [w] with [g] stored. *)
Record stored D g w w' : Prop := {
  st_ok : wallet_but (but D (slot_of g)) w';
  st_records i : w_records w' !! i = if decide (i = get_wallet_record_index g) then Some g else w_records w !! i;
  st_held s : held w' s = if decide (s = slot_of g) then Some g else held w s
}.
Lemma store_storable D g w : wallet_but D w → storable D g w → indices_fit w g →
  ∃ w', store_record g w = (Ok (), w') ∧ stored D g w w'.
Proof.
  intros Hw Hs Hf. destruct (store_storable_ok D g w Hw Hs Hf) as (w' & Hst & Hw' & Hr & Hh).
  exists w'. split; [|done]. unfold store_record.
  by rewrite (proj2 (Z.eqb_neq _ _)) by apply Hs.
Qed.
Lemma held_on_disk D w s g : wallet_but D w → ¬ D s → held w s = Some g →
  slot_of g = s ∧ on_disk w s (get_wallet_record_index g).
Proof.
  intros [_ [_ _ S3 _] _ _] HD Hh. destruct (S3 s g Hh HD) as [Hs Hg]. split; [done|]. by exists g.
Qed.
Lemma on_disk_stored D g w w' s i : stored D g w w' → storable D g w → on_disk w s i → on_disk w' s i.
Proof.
  intros [_ Hr _] Hs (g' & Hi & Hg'). unfold on_disk. rewrite Hr. case_decide as Hd; [|by exists g'].
  exists g. split; [done|]. subst i. apply (sb_index _ _ _ Hs) in Hi. congruence.
Qed.
Lemma stored_clean g w w' : stored clean g w w' → wallet_ok w'.
Proof. intros [Hw _ _]. eapply wallet_but_weaken; [|done]. by intros s []. Qed.
Lemma stored_dirty g w w' : stored (λ s, s = slot_of g) g w w' → wallet_ok w'.
Proof. intros [Hw _ _]. eapply wallet_but_weaken; [|done]. intros s []. done. Qed.

Lemma store_update D g w : wallet_but D w → on_disk w (slot_of g) (get_wallet_record_index g) →
  slot_of g ≠ counter → indices_fit w g → ∃ w', store_record g w = (Ok (), w') ∧ stored D g w w'.
Proof. intros Hw Hd Hc Hf. apply store_storable; [done| |done]. by apply storable_update. Qed.

(** A change of memory alone. *)
Lemma memory_synced D D' w w' : synced D w → w_records w' = w_records w →
  (∀ s, ¬ D' s → ¬ D s ∧ held w' s = held w s) → synced D' w'.
Proof.
  intros [S1 S2 S3 S4] Hr Hh. split; rewrite ?Hr; try done.
  - intros i g Hg HD. destruct (Hh _ HD) as [HD' ->]. by apply (S2 i).
  - intros s g Hg HD. destruct (Hh _ HD) as [HD' Heq]. rewrite Heq in Hg. by apply S3.
Qed.
Lemma memory_numbered w w' : numbered w → w_records w' = w_records w →
  w_properties w' = w_properties w → numbered w'.
Proof.
  intros [N1 N2 N3] Hr Hp.
  assert (next_index w' = next_index w) as Hn by (apply next_index_property; by rewrite Hp).
  split; rewrite ?Hn, ?Hp, ?Hr; done.
Qed.
Lemma memory_only D D' w w' : wallet_but D w →
  w_is_open w' = w_is_open w → w_records w' = w_records w → same_indices w w' →
  w_accounts w' = w_accounts w → w_properties w' = w_properties w →
  (∀ s, ¬ D' s → ¬ D s ∧ held w' s = held w s) → wallet_but D' w'.
Proof.
  intros [Ho Hsy Hn Hi] Ho' Hr Hix Ha Hp Hh. split.
  - congruence.
  - by eapply memory_synced.
  - by eapply memory_numbered.
  - by eapply indexed_same.
Qed.

(** ** New records *)
Lemma bind_new_index {A} D (D' : slot → Prop) (k : Z → wallet_m A) w : wallet_but D w → ¬ D counter →
  (∀ s, D s → D' s) → (∀ n w1, counted D w n w1 → wallet_but D' (k n w1).2) →
  wallet_but D' (sbind new_wallet_record_index k w).2.
Proof.
  intros Hw HD Hsub Hk. unfold sbind. destruct (new_index_ok D w Hw HD) as [->|(n & w1 & -> & Hc)].
  - by apply (wallet_but_weaken D).
  - by apply Hk.
Qed.
(** A record of a kind that is numbered from the counter. *)
Definition counted_slot (s : slot) : Prop :=
  match s with s_master | s_other _ => False | s_property next_record_number => False | _ => True end.
Lemma counted_slot_number next i s : counted_slot s → 2 ≤ i < next → number_ok next i s.
Proof. by destruct s as [| | | | |[]| |]. Qed.
Lemma counted_slot_counter s : counted_slot s → s ≠ counter.
Proof. by intros Hs ->. Qed.

Lemma storable_counted D g w n w1 : counted D w n w1 → get_wallet_record_index g = n →
  counted_slot (slot_of g) → slot_free w (slot_of g) → storable D g w1.
Proof.
  intros [Hw Hn Hf Hr Hh Hfree Hix] Hg Hs Hsf. apply storable_fresh; [done|by rewrite Hg| | |].
  - apply Hfree; [by apply counted_slot_counter|done].
  - rewrite Hg. by apply counted_slot_number.
  - by apply counted_slot_counter.
Qed.
Lemma store_counted D g w n w1 : counted D w n w1 → get_wallet_record_index g = n →
  counted_slot (slot_of g) → slot_free w (slot_of g) → indices_fit w1 g →
  ∃ w', store_record g w1 = (Ok (), w') ∧ stored D g w1 w'.
Proof.
  intros Hc Hg Hs Hsf Hf. apply store_storable; [apply Hc| |done]. by eapply storable_counted.
Qed.

(** ** Properties, settings, balances and transactions *)
Lemma set_property_ok p v w : p ≠ next_record_number → wallet_ok w → wallet_ok (w_set_property p v w).2.
Proof.
  intros Hp Hw. unfold w_set_property, sbind at 1, sgets.
  destruct (w_properties w !! p) as [r|] eqn:Hr.
  - destruct (held_on_disk clean w (s_property p) (g_property r)) as [Hs Hd];
      [done|by intros []|by simpl; rewrite Hr|]. injection Hs as Hs.
    destruct (store_update clean (g_property (set_wp_value v r)) w) as (w' & -> & Hst); [done| | |done|].
    + simpl. by rewrite Hs.
    + unfold counter. simpl. congruence.
    + by eapply stored_clean.
  - rewrite decide_False by done. apply (bind_new_index clean); [done|by intros []|done|].
    intros n w1 Hc.
    destruct (store_counted clean (g_property (WalletPropertyRecord n p v)) w n w1)
      as (w' & -> & Hst); [done|done|by destruct p| |done|by eapply stored_clean].
    eapply free_slot; [done|by intros []|]. simpl. by rewrite Hr.
Qed.

(** A setting is put into memory before it is stored. *)
Lemma setting_dirty name r w : wallet_ok w →
  wallet_but (λ s, s = s_setting name) (set_w_settings (<[name := r]> (w_settings w)) w).
Proof.
  intros Hw. apply (memory_only clean _ w); try done.
  intros s Hs. split; [by intros []|]. destruct s; simpl; try done.
  rewrite lookup_insert_ne; [done|]. intros <-. by apply Hs.
Qed.
Lemma store_setting_ok name v w : wallet_ok w → wallet_ok (store_setting name v w).2.
Proof.
  intros Hw. unfold store_setting, sbind, sgets, sret, smodify.
  destruct (lookup_setting name w) as [r|] eqn:Hr; unfold lookup_setting in Hr.
  - destruct (held_on_disk clean w (s_setting name) (g_setting r)) as [Hs Hd];
      [done|by intros []|by simpl; rewrite Hr|]. injection Hs as Hs.
    set (r' := set_wse_value v r).
    destruct (store_update (λ s, s = slot_of (g_setting r')) (g_setting r')
      (set_w_settings (<[name := r']> (w_settings w)) w)) as (w' & -> & Hst); try done.
    + unfold r'. simpl. rewrite Hs. by apply setting_dirty.
    + unfold r'. simpl. by rewrite Hs.
    + by apply stored_dirty in Hst.
  - destruct (new_index_ok clean w) as [->|(n & w1 & -> & Hc)]; [done|by intros []|done|].
    set (r' := WalletSettingRecord n name v).
    assert (slot_free w (s_setting name)) as Hfree.
    { eapply free_slot; [done|by intros []|]. simpl. by rewrite Hr. }
    destruct (store_storable (λ s, s = s_setting name) (g_setting r')
      (set_w_settings (<[name := r']> (w_settings w1)) w1)) as (w' & -> & Hst); try done.
    + apply setting_dirty, Hc.
    + destruct (storable_counted clean (g_setting r') w n w1 Hc) as [B1 B2 B3 B4 B5]; try done.
    + exact (stored_dirty (g_setting r') _ _ Hst).
Qed.

Lemma cache_balance_ok b w : wallet_ok w → wallet_ok (cache_balance b w).2.
Proof.
  intros Hw. unfold cache_balance, sbind at 1, sgets, lookup_balance.
  destruct (w_balances w !! br_id b) as [r|] eqn:Hr.
  - destruct (held_on_disk clean w (s_balance (br_id b)) (g_balance r)) as [Hs Hd];
      [done|by intros []|by simpl; rewrite Hr|].
    destruct (store_update clean (g_balance (set_wb_record b r)) w) as (w' & -> & Hst); try done.
    by apply stored_clean in Hst.
  - apply (bind_new_index clean); [done|by intros []|done|]. intros n w1 Hc.
    destruct (store_counted clean (g_balance (WalletBalanceRecord n b)) w n w1)
      as (w' & -> & Hst); try done; [|by apply stored_clean in Hst].
    eapply free_slot; [done|by intros []|]. simpl. by rewrite Hr.
Qed.

(** The record of a transaction is new, or has the index of the one the wallet holds. *)
Definition transaction_fits (r : wallet_transaction_record) w : Prop :=
  match w_transactions w !! td_record_id (wt_data r) with
  | Some old => wt_index r = wt_index old
  | None => wt_index r = 0
  end.
Lemma transaction_cached r w : w_transactions w !! td_record_id (wt_data r) = Some r →
  set_w_transactions (<[td_record_id (wt_data r) := r]> (w_transactions w)) w = w.
Proof. intros Hr. unfold set_w_transactions. rewrite insert_id by done. by destruct w. Qed.
Lemma stored_transaction D r w w' : stored D (g_transaction r) w w' →
  w_transactions w' !! td_record_id (wt_data r) = Some r.
Proof.
  intros [_ _ Hh]. specialize (Hh (slot_of (g_transaction r))). rewrite decide_True in Hh by done.
  simpl in Hh. by destruct (w_transactions w' !! _); simplify_eq/=.
Qed.
Lemma store_transaction_ok r w : transaction_fits r w → wallet_ok w → wallet_ok (w_store_transaction r w).2.
Proof.
  unfold transaction_fits. intros Hf Hw. unfold w_store_transaction, sbind, sret, smodify.
  destruct (w_transactions w !! td_record_id (wt_data r)) as [old|] eqn:Hr.
  - destruct (held_on_disk clean w (s_transaction (td_record_id (wt_data r))) (g_transaction old)) as [Hs Hd];
      [done|by intros []|by simpl; rewrite Hr|].
    assert (wt_index r ≠ 0) as Hi.
    { destruct Hd as (g' & Hg & Hs'). intros Hz. apply (nu_records _ (wb_numbered _ _ Hw)) in Hg.
      rewrite Hs' in Hg. simpl in Hg. lia. }
    rewrite (proj2 (Z.eqb_neq _ _) Hi).
    destruct (store_update clean (g_transaction r) w) as (w' & -> & Hst); try done.
    { simpl in *. by rewrite Hf. }
    cbn. rewrite transaction_cached by (by eapply stored_transaction). by apply stored_clean in Hst.
  - rewrite Hf. cbn -[store_record new_wallet_record_index].
    destruct (new_index_ok clean w) as [->|(n & w1 & -> & Hc)]; [done|by intros []|done|].
    destruct (store_counted clean (g_transaction (set_wt_index n r)) w n w1) as (w' & -> & Hst); try done.
    { eapply free_slot; [done|by intros []|]. simpl. by rewrite Hr. }
    cbn. rewrite (transaction_cached (set_wt_index n r)) by (by eapply stored_transaction).
    by apply stored_clean in Hst.
Qed.

(** ** Removing a record *)
Lemma removed_ok (s : slot) i w w' : wallet_ok w →
  w_is_open w' = w_is_open w → w_records w' = delete i (w_records w) → same_indices w w' →
  w_accounts w' = w_accounts w → w_properties w' = w_properties w →
  (∀ s', held w' s' = if decide (s' = s) then None else held w s') →
  (∀ g, w_records w !! i = Some g → slot_of g = s) →
  (∀ g, held w s = Some g → get_wallet_record_index g = i) → wallet_ok w'.
Proof.
  intros [Ho [S1 S2 S3 S4] [N1 N2 N3] Hi] Ho' Hr Hix Ha Hp Hh Hslot Hheld.
  assert (∀ j g, w_records w' !! j = Some g → w_records w !! j = Some g ∧ j ≠ i) as Hd.
  { intros j g. rewrite Hr. intros [? ?]%lookup_delete_Some. done. }
  split; [congruence| | |by eapply indexed_same].
  - split.
    + intros j g [Hg _]%Hd. by apply S1.
    + intros j g [Hg Hj]%Hd HD. rewrite Hh. pose proof (S2 j g Hg ltac:(by intros [])) as Hhg.
      case_decide as Hs; [|done]. rewrite Hs in Hhg.
      destruct Hj. transitivity (get_wallet_record_index g); [symmetry; by apply S1|by apply Hheld].
    + intros s' g Hg HD. rewrite Hh in Hg. case_decide; [done|].
      destruct (S3 s' g Hg) as [<- Hg']; [by intros []|]. split; [done|].
      rewrite Hr. apply lookup_delete_Some. split; [|done]. intros Heq. rewrite <- Heq in Hg'. by apply Hslot in Hg'.
    + intros j k g g' [Hg _]%Hd [Hg' _]%Hd. by apply S4.
  - assert (next_index w' = next_index w) as Hn by (apply next_index_property; by rewrite Hp).
    split; rewrite ?Hn, ?Hp; try done. intros j g [Hg _]%Hd. by apply N3.
Qed.
Lemma removal_fits w s i : wallet_ok w →
  match held w s with Some g => i = get_wallet_record_index g | None => i = 0 end →
  (∀ g, w_records w !! i = Some g → slot_of g = s) ∧
  (∀ g, held w s = Some g → get_wallet_record_index g = i).
Proof.
  intros Hw Hi. destruct (held w s) as [g|] eqn:Hs.
  - destruct (held_on_disk clean w s g) as [Hsl (g' & Hg & Hs')]; [done|by intros []|done|].
    subst i. split; [intros g''; congruence|by intros ? [= <-]].
  - subst i. split; [|done]. intros g Hg. apply (nu_records _ (wb_numbered _ _ Hw)) in Hg.
    destruct (slot_of g) as [| | | | |[]| |]; simpl in Hg; lia.
Qed.
Ltac solve_removed := simpl; rewrite ?lookup_delete; repeat case_decide; simplify_eq/=; done.
Lemma remove_balance_ok id w : wallet_ok w → wallet_ok (remove_balance id w).2.
Proof.
  intros Hw. unfold remove_balance, remove_item, sbind, sgets, sassert, smodify. rewrite (wb_open _ _ Hw).
  set (i := match w_balances w !! id with Some r => wb_index r | None => 0 end).
  destruct (removal_fits w (s_balance id) i Hw) as [H1 H2].
  { unfold i. simpl. by destruct (w_balances w !! id). }
  apply (removed_ok (s_balance id) i w); try done. intros []; solve_removed.
Qed.
Lemma remove_transaction_ok id w : wallet_ok w → wallet_ok (remove_transaction id w).2.
Proof.
  intros Hw. unfold remove_transaction, remove_item, sbind, sgets, sassert, smodify, lookup_transaction, sret.
  destruct (w_transactions w !! id) as [r|] eqn:Hr; [|done]. rewrite (wb_open _ _ Hw).
  destruct (removal_fits w (s_transaction id) (wt_index r) Hw) as [H1 H2]; [by simpl; rewrite Hr|].
  apply (removed_ok (s_transaction id) (wt_index r) w); try done. intros []; solve_removed.
Qed.

(** ** Accounts *)

(** A newer record of an account the wallet has. *)
Record account_update w (war : wallet_account_record) : Prop := {
  au_old : ∃ old, w_accounts w !! wa_index war = Some old ∧
    ac_name (wa_account war) = ac_name (wa_account old) ∧
    ac_owner_key (wa_account war) = ac_owner_key (wa_account old) ∧
    wa_account_address war = wa_account_address old ∧
    (ac_id (wa_account old) = ac_id (wa_account war) ∨
     ac_id (wa_account old) = 0 ∧ w_id_index w !! ac_id (wa_account war) = None) ∧
    account_addresses old ⊆ account_addresses war
}.
Lemma account_update_fits w war : indexed w → account_update w war → account_fits w war.
Proof.
  intros [I1 I2 I3 I4] [(old & Ho & Hn & Hk & Ha & Hid & Hs)].
  destruct (I1 _ _ Ho) as (_ & Had & Hname & Hidx). split.
  - congruence.
  - intros j. rewrite Hn, Hname. congruence.
  - intros Hne j Hj. destruct Hid as [Hid|[_ Hid]]; [|congruence].
    rewrite <- Hid in Hj, Hne. specialize (Hidx Hne). congruence.
  - intros old'. rewrite Ho. intros [= <-]. split; [done|]. split; [|done]. destruct Hid as [|[]]; auto.
Qed.
Lemma cache_account_eq w war : w_is_open w = true → wa_index war ≠ 0 → id_free w war →
  cache_account war w = store_record (g_account war) w.
Proof.
  intros Ho Hi Hid. unfold cache_account, store_record. change (get_wallet_record_index (g_account war)) with (wa_index war).
  rewrite (proj2 (Z.eqb_neq _ _) Hi). unfold sbind, smodify, sret. cbv beta iota zeta.
  assert (∀ w1, w_is_open w1 = true → id_free w1 war → store_generic_record (g_account war) w1
    = (Ok (), account_loaded war (with_record (g_account war) w1))) as Hst.
  { intros w1 Ho1 Hid1. rewrite store_generic_Ok by done. by apply load_account_Ok. }
  rewrite (Hst w) by done.
  destruct (ac_id (wa_account war) =? 0) eqn:E0; rewrite Hst; try done.
  - f_equal. unfold account_loaded, index_addresses. rewrite E0. simpl. by rewrite insert_insert_eq.
  - f_equal. unfold account_loaded, index_addresses. rewrite E0. simpl. by rewrite !insert_insert_eq.
  - intros _ j. simpl. rewrite lookup_insert_eq. congruence.
Qed.
Lemma account_on_disk D w i r : wallet_but D w → ¬ D (s_account i) → w_accounts w !! i = Some r →
  wa_index r = i ∧ on_disk w (s_account i) i.
Proof.
  intros Hw HD Hr. destruct (held_on_disk D w (s_account i) (g_account r)) as [Hs Hd];
    [done|done|by simpl; rewrite Hr|]. injection Hs as Hs. split; [done|]. simpl in Hd. by rewrite Hs in Hd.
Qed.
Lemma on_disk_nonzero D w s i : wallet_but D w → on_disk w s i → i ≠ 0.
Proof.
  intros Hw (g & Hg & <-) ->. apply (nu_records _ (wb_numbered _ _ Hw)) in Hg.
  destruct (slot_of g) as [| | | | |[]| |]; simpl in Hg; lia.
Qed.
Lemma cache_account_ok D w war : wallet_but D w → ¬ D (s_account (wa_index war)) → account_update w war →
  ∃ w', cache_account war w = (Ok (), w') ∧ stored D (g_account war) w w' ∧ storable D (g_account war) w.
Proof.
  intros Hw HD Hu. pose proof (account_update_fits w war (wb_indexed _ _ Hw) Hu) as Hf.
  pose proof Hu as [(old & Ho & _)]. destruct (account_on_disk D w _ old Hw HD Ho) as [_ Hd].
  assert (storable D (g_account war) w) as Hs by (by apply storable_update).
  rewrite cache_account_eq; [|apply Hw|by eapply on_disk_nonzero|apply Hf].
  destruct (store_storable D (g_account war) w) as (w' & Hst & Hst'); [done..|]. by exists w'.
Qed.

(** In an ordered wallet no lookup of an account finds the database inconsistent. *)
Lemma account_at w i : indexed w → is_Some (w_accounts w !! i) →
  ∃ r, lookup_account_at i w = Ok (Some r) ∧ w_accounts w !! wa_index r = Some r ∧ wa_index r = i.
Proof.
  intros Hw [r Hr]. exists r. unfold lookup_account_at. rewrite Hr.
  destruct (ix_account _ Hw i r Hr) as (-> & _). done.
Qed.
Lemma account_by_address_ok a w : indexed w → account_by_address a w = Ok None ∨
  ∃ r, account_by_address a w = Ok (Some r) ∧ w_accounts w !! wa_index r = Some r.
Proof.
  intros Hw. unfold account_by_address. destruct (w_address_index w !! a) as [i|] eqn:Hi; [|by left].
  right. destruct (ix_address _ Hw a i Hi) as (r & Hr & _).
  destruct (account_at w i) as (r' & ? & ? & _); [done|by exists r|]. by exists r'.
Qed.
Lemma account_update_self w r r' : w_accounts w !! wa_index r = Some r → wa_index r' = wa_index r →
  wa_account r' = wa_account r → wa_account_address r' = wa_account_address r → account_update w r'.
Proof.
  intros Hr Hi Ha Had. split. exists r. rewrite Hi, Ha, Had. split_and!; try done; [by left|].
  unfold account_addresses. by rewrite Ha, Had.
Qed.

(** ** Keys *)
Lemma key_dirty a r w : wallet_ok w →
  wallet_but (λ s, s = s_key a) (set_w_keys (<[a := r]> (w_keys w)) w).
Proof.
  intros Hw. apply (memory_only clean _ w); try done.
  intros s Hs. split; [by intros []|]. destruct s; simpl; try done.
  rewrite lookup_insert_ne; [done|]. intros <-. by apply Hs.
Qed.
Lemma index_key_ok D d l w : wallet_but D w → wallet_but D (index_key d l w).
Proof. intros Hw. by apply (memory_only D _ w). Qed.

(** Marking the account of a key as the wallet's own. *)
Definition mark_mine (d : key_data) : stateful wallet_db () :=
  if kd_has_private_key d then
    do! oacct := slift (account_by_address (kd_account_address d)) in
    match oacct with Some r => cache_account (set_wa_is_my_account true r) | None => sret () end
  else sret ().
Lemma mark_mine_ok a d w : wallet_but (λ s, s = s_key a) w → ∃ w', mark_mine d w = (Ok (), w') ∧
  wallet_but (λ s, s = s_key a) w' ∧ w_keys w' = w_keys w ∧
  ∀ b i, on_disk w (s_key b) i → on_disk w' (s_key b) i.
Proof.
  intros Hw. unfold mark_mine, sbind, slift, sret. destruct (kd_has_private_key d); [|by exists w].
  destruct (account_by_address_ok (kd_account_address d) w (wb_indexed _ _ Hw)) as [->|(r & -> & Hr)];
    [by exists w|].
  destruct (cache_account_ok (λ s, s = s_key a) w (set_wa_is_my_account true r)) as (w' & -> & Hst & Hs);
    [done|done|by apply (account_update_self w r)|].
  exists w'. split; [done|]. split; [|split].
  - eapply wallet_but_weaken; [|apply Hst]. by intros s [].
  - apply map_eq. intros b. pose proof (st_held _ _ _ _ Hst (s_key b)) as Hh. simpl in Hh.
    by destruct (w_keys w !! b), (w_keys w' !! b); simplify_eq/=.
  - intros b i. by apply (on_disk_stored (λ s, s = s_key a) (g_account (set_wa_is_my_account true r))).
Qed.

(** Storing a key the wallet does not have. *)
Lemma store_key_new d w : wallet_ok w → w_keys w !! kd_get_address d = None →
  store_key d w = (Err undefined, w) ∨
  ∃ r w', store_key d w = (Ok (), w') ∧ wk_data r = d ∧ wallet_ok w' ∧
    ∀ s, s ≠ counter → held w' s = if decide (s = s_key (kd_get_address d)) then Some (g_key r) else held w s.
Proof.
  intros Hw Hk. unfold store_key, sbind, sgets, smodify. rewrite Hk.
  destruct (new_index_ok clean w) as [->|(n & w1 & -> & Hc)]; [done|by intros []|by left|right].
  set (r := WalletKeyRecord n d). exists r.
  assert (slot_free w (s_key (kd_get_address d))) as Hfree.
  { eapply free_slot; [done|by intros []|]. simpl. by rewrite Hk. }
  set (w2 := set_w_keys (<[kd_get_address d := r]> (w_keys w1)) w1).
  destruct (store_storable (λ s, s = slot_of (g_key r)) (g_key r) w2) as (w' & -> & Hst); try done.
  - apply key_dirty, Hc.
  - destruct (storable_counted clean (g_key r) w n w1 Hc) as [B1 B2 B3 B4 B5]; try done.
  - eexists; split; [done|]. split; [done|]. split.
    + apply (index_key_ok clean). by apply stored_dirty in Hst.
    + intros s Hs. transitivity (held w' s); [by destruct s|]. rewrite (st_held _ _ _ _ Hst). simpl.
      case_decide as Hd; [done|]. rewrite <- (ct_held _ _ _ _ Hc) by done.
      destruct s; simpl; try done. rewrite lookup_insert_ne; [done|]. intros <-. by apply Hd.
Qed.

Lemma store_key_ok d w : wallet_ok w → wallet_ok (store_key d w).2.
Proof.
  intros Hw. unfold store_key. unfold sbind at 1, sgets.
  destruct (w_keys w !! kd_get_address d) as [old|] eqn:Hk.
  - destruct (held_on_disk clean w (s_key (kd_get_address d)) (g_key old)) as [_ Hd];
      [done|by intros []|by simpl; rewrite Hk|].
    set (r := set_wk_data d old).
    destruct (mark_mine_ok (kd_get_address d) d (set_w_keys (<[kd_get_address d := r]> (w_keys w)) w))
      as (w2 & Hm & Hw2 & Hk2 & Hd2); [by apply key_dirty|].
    unfold sbind, smodify, slift. unfold mark_mine, sbind, slift in Hm. rewrite Hm. rewrite Hk2. simpl w_keys. rewrite lookup_insert_eq. simpl of_option.
    destruct (store_update (λ s, s = slot_of (g_key r)) (g_key r) w2) as (w' & -> & Hst); try done.
    + by apply Hd2.
    + by apply stored_dirty in Hst.
  - destruct (store_key_new d w Hw Hk) as [Hs|(r & w' & Hs & _ & Hw' & _)];
      unfold store_key, sbind at 1, sgets in Hs; rewrite Hk in Hs; rewrite Hs; done.
Qed.

Lemma new_key_child_index_ok a w : wallet_ok w → wallet_ok (new_key_child_index a w).2.
Proof.
  intros Hw. unfold new_key_child_index, sbind at 1, slift.
  destruct (account_by_address_ok a w (wb_indexed _ _ Hw)) as [->|(r & -> & Hr)].
  - unfold sbind, sgets, slift, sret, sthrow.
    destruct (variant_is_null _); [|destruct (as_int _) as [z|e]; [simpl|done]];
      (case_match; [done|]);
      pose proof (λ v, set_property_ok next_child_key_index v w ltac:(done) Hw) as Hs;
      match goal with |- context [w_set_property _ ?v w] => specialize (Hs v); destruct (w_set_property _ v w) as [[] ?] end; done.
  - set (r' := set_wa_last_used_gen_sequence _ r). unfold sbind, sret.
    destruct (cache_account_ok clean w r') as (w' & -> & Hst & _);
      [done|by intros []|by apply (account_update_self w r)|]. by apply stored_clean in Hst.
Qed.

(** A bind keeps the wallet in order when its parts do. *)
Lemma bind_ok {A B} (m : wallet_m A) (k : A → wallet_m B) w : wallet_ok (m w).2 →
  (∀ a w', wallet_ok w' → wallet_ok (k a w').2) → wallet_ok (sbind m k w).2.
Proof. intros Hm Hk. unfold sbind. destruct (m w) as [[a|e] w']; [by apply Hk|done]. Qed.

Lemma new_private_key_ok password parent do_store w :
  wallet_ok w → wallet_ok (new_private_key password parent do_store w).2.
Proof.
  intros Hw. unfold new_private_key. apply bind_ok; [done|]. intros master w1 Hw1.
  apply bind_ok; [by apply new_key_child_index_ok|]. intros i w2 Hw2.
  destruct do_store; simpl; [|done]. apply bind_ok; [done|]. intros d w3 Hw3.
  apply bind_ok; [by apply store_key_ok|]. done.
Qed.
Lemma cache_memo_ok memo k password w : wallet_ok w → wallet_ok (cache_memo memo k password w).2.
Proof.
  intros Hw. unfold cache_memo. apply bind_ok; [done|]. intros d w1 Hw1. by apply store_key_ok.
Qed.

(** ** New accounts *)
Lemma fresh_account D n w w1 : counted D w n w1 → ¬ D (s_account n) → w_accounts w1 !! n = None.
Proof.
  intros Hc HD. destruct (w_accounts w1 !! n) as [r|] eqn:Hr; [|done].
  destruct (account_on_disk D w1 n r (ct_ok _ _ _ _ Hc) HD Hr) as [_ (g & Hg & _)].
  by rewrite (ct_fresh _ _ _ _ Hc) in Hg.
Qed.
(** Nothing is found under the name or the id of a new account. *)
Record account_new w (war : wallet_account_record) : Prop := {
  an_address : wa_account_address war = address_of_key (ac_owner_key (wa_account war));
  an_name : w_name_index w !! ac_name (wa_account war) = None;
  an_id : ac_id (wa_account war) ≠ 0 → w_id_index w !! ac_id (wa_account war) = None
}.
Lemma store_new_account_ok war w : account_new w war → wallet_ok w →
  wallet_ok (store_new_account war w).2.
Proof.
  intros [Ha Hn Hid] Hw. unfold store_new_account.
  apply (bind_new_index clean); [done|by intros []|done|]. intros n w1 Hc.
  unfold sbind, sgets. set (war' := WalletAccountRecord n _ _ _ _ _ _ _ _).
  pose proof (fresh_account clean n w w1 Hc ltac:(by intros [])) as Hfresh.
  destruct (ct_indices _ _ _ _ Hc) as (_ & Hn1 & Hi1).
  destruct (store_counted clean (g_account war') w n w1) as (w' & -> & Hst); try done.
  - intros j g Hj Hs. apply (sy_index _ _ (wb_synced _ _ Hw)) in Hj as Hi.
    assert (j = n) as -> by (destruct g; simplify_eq/=; done).
    apply (nu_records _ (wb_numbered _ _ Hw)) in Hj as Hnum. rewrite Hs in Hnum. simpl in Hnum.
    rewrite <- (ct_records _ _ _ _ Hc), (ct_fresh _ _ _ _ Hc) in Hj by lia. done.
  - split; simpl; [done| | |].
    + intros j. by rewrite Hn1, Hn.
    + intros Hne j. simpl in *. by rewrite Hi1, Hid.
    + intros old. by rewrite Hfresh.
  - by apply stored_clean in Hst.
Qed.

(** Storing the public key that is in memory already. *)
Lemma store_key_held d r w : w_keys w !! kd_get_address d = Some r → wk_data r = d →
  kd_has_private_key d = false → store_key d w = store_record (g_key r) w.
Proof.
  intros Hk Hd Hp. unfold store_key, sbind, sgets, smodify, slift, sret. rewrite Hk, Hp.
  assert (set_wk_data d r = r) as -> by (destruct r; simpl in *; by subst).
  replace (set_w_keys _ w) with w; [by rewrite Hk|].
  unfold set_w_keys. rewrite insert_id by done. by destruct w.
Qed.
Lemma new_public_key_ok a k w : wallet_ok w → wallet_ok (new_public_key a k w).2.
Proof.
  intros Hw. unfold new_public_key. apply (bind_new_index clean); [done|by intros []|done|]. intros n w1 Hc.
  set (d := set_kd_public_key k _). set (r := WalletKeyRecord n d).
  pose proof (ct_ok _ _ _ _ Hc) as Hw1.
  unfold sbind at 1, load_key_record, sassert. unfold sbind at 1. simpl orb.
  change (wk_data r) with d. destruct (w_keys w1 !! kd_get_address d) as [old|] eqn:Hk; [exact Hw1|].
  unfold sbind, smodify. simpl is_noneb. cbv iota.
  set (w2 := index_key _ _ _).
  assert (w_keys w2 !! kd_get_address d = Some r) as Hk2 by (unfold w2; simpl; by rewrite lookup_insert_eq).
  rewrite (store_key_held d r w2) by done.
  assert (slot_free w (s_key (kd_get_address d))) as Hfree.
  { eapply free_slot; [done|by intros []|]. pose proof (ct_held _ _ _ _ Hc (s_key (kd_get_address d)) ltac:(done)) as Hh.
    rewrite <- Hh. simpl. by rewrite Hk. }
  destruct (store_storable (λ s, s = slot_of (g_key r)) (g_key r) w2) as (w' & -> & Hst); try done.
  - apply index_key_ok, key_dirty, Hw1.
  - destruct (storable_counted clean (g_key r) w n w1 Hc) as [B1 B2 B3 B4 B5]; try done.
  - by apply stored_dirty in Hst.
Qed.
Lemma claim_key_ok a b r w : wallet_ok w → lookup_key a w = Some r → wallet_ok (claim_key r b w).2.
Proof.
  intros Hw Hr. unfold lookup_key in Hr. destruct (w_btc_to_bts w !! a) as [c|]; [|done].
  destruct (held_on_disk clean w (s_key c) (g_key r)) as [Hs Hd];
    [done|by intros []|by simpl; rewrite Hr|]. injection Hs as Hs. unfold claim_key.
  set (r' := set_wk_data _ r).
  destruct (store_update clean (g_key r') w) as (w' & -> & Hst); try done.
  - change (slot_of (g_key r')) with (s_key (kd_get_address (wk_data r))). by rewrite Hs.
  - by apply stored_clean in Hst.
Qed.
Lemma seach_ok {A} (f : A → wallet_m ()) (l : list A) w : wallet_ok w →
  (∀ x w', x ∈ l → wallet_ok w' → wallet_ok (f x w').2) → wallet_ok (seach f l w).2.
Proof.
  revert w. induction l as [|x l IH]; intros w Hw Hf; simpl; [done|].
  apply bind_ok; [apply Hf; [set_solver|done]|]. intros _ w' Hw'. apply IH; [done|]. intros; apply Hf; set_solver.
Qed.

Lemma add_chain_account_ok a private_data w : account_new w (wallet_account_new a private_data) →
  wallet_ok w → wallet_ok (add_chain_account a private_data w).2.
Proof.
  intros Hnew Hw. unfold add_chain_account. apply bind_ok; [by apply store_new_account_ok|]. intros _ w1 Hw1.
  unfold sbind at 1, sgets. destruct (lookup_key _ w1) as [r|] eqn:Hr; [by eapply claim_key_ok|].
  apply bind_ok; [by apply new_public_key_ok|]. intros _ w2 Hw2. apply seach_ok; [done|].
  intros k w3 _ Hw3. destruct (_ =? _); [done|]. by apply new_public_key_ok.
Qed.
Lemma add_contact_account_ok now name key private_data w :
  wallet_ok w → wallet_ok (add_contact_account now name key private_data w).2.
Proof.
  intros Hw. unfold add_contact_account. unfold sbind at 1, sassert.
  destruct (w_name_index w !! name) as [|] eqn:Hn; [done|]. simpl is_noneb. cbv iota.
  unfold sbind at 1. destruct (is_noneb _); [|done].
  unfold sbind at 1, slift. destruct (ac_set_active_key _ _ _) as [a|e] eqn:Ha; [|done].
  apply bind_ok.
  - apply store_new_account_ok; [|done]. unfold ac_set_active_key in Ha. res_inv Ha.
    by split.
  - intros _ w1 Hw1. unfold sbind at 1, sgets. destruct (lookup_key _ w1) as [r|] eqn:Hr.
    + by eapply claim_key_ok.
    + by apply new_public_key_ok.
Qed.

(** ** Renaming an account to a name the wallet does not know *)
Lemma move_name_lookup old new i m n : m !! old = Some i → m !! new = None →
  move_name old new i m !! n = if decide (n = new) then Some i else if decide (n = old) then None else m !! n.
Proof.
  intros Ho Hn. assert (old ≠ new) as Hne by congruence. unfold move_name.
  rewrite lookup_insert_ne, Ho by done. simpl. rewrite Z.eqb_refl.
  rewrite lookup_delete, lookup_insert. repeat case_decide; simplify_eq; done.
Qed.
(** The wallet in memory when the account is renamed and not stored yet. *)
Definition renamed (r : wallet_account_record) (name : string) w : wallet_db :=
  let r' := set_account_name name r in
  let w := set_w_name_index (move_name (ac_name (wa_account r)) name (wa_index r) (w_name_index w)) w in
  let w := set_w_accounts (<[wa_index r := r']> (w_accounts w)) w in
  set_w_address_index
    (foldl (λ m k, <[address_of_key k.2 := wa_index r]> m)
       (<[address_of_key (ac_owner_key (wa_account r)) := wa_index r]> (w_address_index w))
       (ac_active_key_history (wa_account r))) w.
Lemma renamed_indexed r name w : indexed w → w_accounts w !! wa_index r = Some r →
  w_name_index w !! name = None → indexed (renamed r name w).
Proof.
  intros [I1 I2 I3 I4] Hr Hn. destruct (I1 _ _ Hr) as (_ & Had & Hname & Hid).
  assert (∀ n, w_name_index (renamed r name w) !! n = if decide (n = name) then Some (wa_index r)
    else if decide (n = ac_name (wa_account r)) then None else w_name_index w !! n) as En
    by (intros n; by apply move_name_lookup).
  assert (∀ j, w_accounts (renamed r name w) !! j
    = if decide (j = wa_index r) then Some (set_account_name name r) else w_accounts w !! j) as Ea.
  { intros j. simpl. rewrite lookup_insert. repeat case_decide; congruence. }
  split.
  - intros j r'. rewrite Ea. unfold account_ok. rewrite En. simpl w_id_index. case_decide as Hj.
    + intros [= <-]. subst j. simpl. rewrite decide_True by done. done.
    + intros Hr'. destruct (I1 j r' Hr') as (? & ? & Hn' & ?). split_and!; try done.
      rewrite !decide_False by congruence. done.
  - intros n j. rewrite En. case_decide; [intros [= <-]|case_decide; [done|intros (r' & Hr' & Hn')%I2]].
    + exists (set_account_name name r). rewrite Ea, decide_True by done. done.
    + exists r'. rewrite Ea, decide_False; [done|]. intros ->. congruence.
  - intros id j (Hne & r' & Hr' & Hi')%I3. split; [done|]. setoid_rewrite Ea.
    case_decide; [|by exists r']. exists (set_account_name name r). simplify_eq. done.
  - intros a j Hl.
    assert ((j = wa_index r ∧ a ∈ account_addresses r) ∨ w_address_index w !! a = Some j)
      as [[-> Hin]|(r' & Hr' & Hin)%I4].
    { simpl in Hl. rewrite fold_addresses, lookup_insert in Hl. unfold account_addresses.
      rewrite elem_of_cons. repeat case_decide; [left|left|by right]; split; try congruence; auto.
      left. congruence. }
    + exists (set_account_name name r). by rewrite Ea, decide_True.
    + setoid_rewrite Ea. case_decide; [|by exists r'].
      exists (set_account_name name r). simplify_eq. done.
Qed.
Lemma rename_account_ok key name w : w_name_index w !! name = None → wallet_ok w →
  wallet_ok (rename_account key name w).2.
Proof.
  intros Hn Hw. unfold rename_account. unfold sbind at 1, sassert. rewrite (wb_open _ _ Hw). cbv iota.
  unfold sbind at 1, slift.
  destruct (account_by_address_ok (address_of_key key) w (wb_indexed _ _ Hw)) as [->|(r & -> & Hr)]; [done|].
  simpl rbind. cbv iota. set (r' := set_account_name name r).
  destruct (account_on_disk clean w _ r Hw ltac:(by intros []) Hr) as [_ Hd].
  pose proof (renamed_indexed r name w (wb_indexed _ _ Hw) Hr Hn) as Hix.
  assert (wallet_but (λ s, s = slot_of (g_account r')) (renamed r name w)) as Hw1.
  { split; [apply Hw| | |done].
    - eapply memory_synced; [apply Hw|done|]. intros s Hs. split; [by intros []|].
      destruct s; try done. simpl. rewrite lookup_insert_ne; [done|]. intros Heq. destruct Hs. by subst.
    - eapply memory_numbered; [apply Hw|done|done]. }
  change (wallet_ok (store_record (g_account r') (renamed r name w)).2).
  destruct (store_update (λ s, s = slot_of (g_account r')) (g_account r') (renamed r name w))
    as (w' & -> & Hst); try done.
  - apply account_update_fits; [done|]. apply (account_update_self _ r'); try done.
    simpl. by rewrite lookup_insert_eq.
  - by apply stored_dirty in Hst.
Qed.

(** ** The master key and the password *)
Lemma store_master_ok r w : wallet_ok w → wm_index r = -1 →
  ∃ w', store_record (g_master_key r) w = (Ok (), w') ∧ stored clean (g_master_key r) w w'.
Proof.
  intros Hw Hr. pose proof Hw as [Ho Hsy [N1 N2 N3] Hi].
  apply store_storable; [done| |done].
  assert (∀ j g, w_records w !! j = Some g → slot_of g = s_master → j = -1) as Hm.
  { intros j g Hj Hs. apply N3 in Hj. by rewrite Hs in Hj. }
  split; simpl; rewrite ?Hr; try done.
  intros g Hg. apply N3 in Hg. destruct (slot_of g) as [| | | | |[]| |]; simpl in Hg; lia || done.
Qed.
Lemma encrypt_key_index password k i r : encrypt_key password k i = Ok r → wm_index r = i.
Proof. unfold encrypt_key. intros Hr. by res_inv Hr. Qed.
Lemma set_master_cases k password w : wallet_ok w → (∃ e, set_master_key k password w = (Err e, w)) ∨
  ∃ r w', encrypt_key password k (-1) = Ok r ∧ set_master_key k password w = (Ok (), w') ∧
    stored clean (g_master_key r) w w'.
Proof.
  intros Hw. unfold set_master_key, sbind, slift.
  destruct (encrypt_key password k (-1)) as [r|e] eqn:Hr; [right|left; by exists e].
  destruct (store_master_ok r w Hw (encrypt_key_index _ _ _ _ Hr)) as (w' & -> & Hst). by exists r, w'.
Qed.
Lemma set_master_key_ok k password w : wallet_ok w → wallet_ok (set_master_key k password w).2.
Proof.
  intros Hw. destruct (set_master_cases k password w Hw) as [[e ->]|(r & w' & _ & -> & Hst)]; [done|].
  by apply stored_clean in Hst.
Qed.

(** The public key of a key record is that of the private key it holds. *)
Definition key_matches (password : digest_type) (r : wallet_key_record) : Prop :=
  ∀ k, decrypt_private_key password (wk_data r) = Ok k → get_public_key k = kd_public_key (wk_data r).
Definition keys_match (password : digest_type) w : Prop :=
  ∀ a r, w_keys w !! a = Some r → key_matches password r.

Lemma encrypt_private_key_spec password k d d' : encrypt_private_key password k d = Ok d' →
  kd_public_key d' = get_public_key k ∧ kd_account_address d' = kd_account_address d ∧
  kd_gen_seq_number d' = kd_gen_seq_number d ∧
  kd_encrypted_private_key d' = aes_encrypt password (pack_private_key k) ∧
  decrypt_private_key password d' = Ok k.
Proof.
  unfold encrypt_private_key. intros Hd. res_inv Hd. apply Z.eqb_eq in Hg0. subst. done.
Qed.

Lemma reencrypt_disk old new r w : wallet_ok w → key_matches old r →
  on_disk w (s_key (kd_get_address (wk_data r))) (wk_index r) →
  wallet_ok (reencrypt old new r w).2 ∧
  ∀ a i, on_disk w (s_key a) i → on_disk (reencrypt old new r w).2 (s_key a) i.
Proof.
  intros Hw Hm Hd. unfold reencrypt. destruct (negb (kd_has_private_key _)); [done|].
  unfold sbind, slift. destruct (decrypt_private_key old (wk_data r)) as [k|] eqn:Hk; [simpl|done].
  destruct (encrypt_private_key new k (wk_data r)) as [d|] eqn:He; [|done].
  apply encrypt_private_key_spec in He as (Hpub & _). rewrite (Hm k Hk) in Hpub.
  set (g := g_key (set_wk_data d r)).
  assert (slot_of g = s_key (kd_get_address (wk_data r))) as Hs.
  { unfold g. simpl. unfold kd_get_address. by rewrite Hpub. }
  destruct (store_update clean g w) as (w' & -> & Hst); try done; [by rewrite Hs|].
  split; [by apply stored_clean in Hst|]. intros a i.
  apply (on_disk_stored clean g); [done|]. apply storable_update; [done|by rewrite Hs|by rewrite Hs].
Qed.
Lemma reencrypt_all old new l w : wallet_ok w → Forall (key_matches old) l →
  (∀ r, r ∈ l → on_disk w (s_key (kd_get_address (wk_data r))) (wk_index r)) →
  wallet_ok (seach (reencrypt old new) l w).2.
Proof.
  revert w. induction l as [|r l IH]; intros w Hw Hm Hd; simpl; [done|].
  apply Forall_cons in Hm as [Hm Hm'].
  destruct (reencrypt_disk old new r w Hw Hm) as [Hw' Hd']; [apply Hd; set_solver|].
  unfold sbind. destruct (reencrypt old new r w) as [[[]|] w']; [|done].
  apply IH; [done|done|]. intros r' Hr'. apply Hd', Hd. set_solver.
Qed.
Lemma same_keys w w' : (∀ a, held w' (s_key a) = held w (s_key a)) → w_keys w' = w_keys w.
Proof.
  intros Hh. apply map_eq. intros a. specialize (Hh a). simpl in Hh.
  by destruct (w_keys w !! a), (w_keys w' !! a); simplify_eq/=.
Qed.
Lemma key_held w a r : wallet_ok w → w_keys w !! a = Some r →
  kd_get_address (wk_data r) = a ∧ on_disk w (s_key a) (wk_index r).
Proof.
  intros Hw Hr. destruct (held_on_disk clean w (s_key a) (g_key r)) as [Hs Hd];
    [done|by intros []|by simpl; rewrite Hr|]. by injection Hs as Hs.
Qed.
Lemma in_keys w r : r ∈ (map_to_list (w_keys w)).*2 ↔ ∃ a, w_keys w !! a = Some r.
Proof.
  rewrite list_elem_of_fmap. split.
  - intros ([a r'] & -> & Hin%elem_of_map_to_list). by exists a.
  - intros [a Ha]. exists (a, r). by rewrite elem_of_map_to_list.
Qed.
(** The password is changed when every key can be read with the old one; otherwise
    the wallet stays in order, but some keys keep the old password. *)
Lemma change_password_ok old new w : keys_match old w → wallet_ok w → wallet_ok (change_password old new w).2.
Proof.
  intros Hm Hw. unfold change_password. unfold sbind at 1, slift.
  destruct (master_key old w) as [k|]; [|done]. unfold sbind at 1.
  destruct (set_master_cases k new w Hw) as [[e ->]|(r & w1 & He & -> & Hst)]; [done|].
  apply encrypt_key_index in He. apply stored_clean in Hst as Hw1. unfold sbind, sgets.
  rewrite (same_keys w w1) by (intros a; by rewrite (st_held _ _ _ _ Hst)).
  apply reencrypt_all; [done| |].
  - apply Forall_forall. intros r' [a Ha]%in_keys. by eapply Hm.
  - intros r' [a Ha]%in_keys. destruct (key_held w a r' Hw Ha) as [<- (g & Hg & Hs)].
    exists g. split; [|done]. rewrite (st_records _ _ _ _ Hst). rewrite decide_False; [done|].
    intros Heq. apply (nu_records _ (wb_numbered _ _ Hw)) in Hg. rewrite Hs in Hg. simpl in *. lia.
Qed.
End order.
