(* ===== verification/WalletRuns.v ===== *)
(** Runs of the wallet's database: the operations of [wallet_step] keep it in order,
    what is on disk brings back what is in memory, and a new password opens every
    key. *)
From S2P Require Import WalletDb WalletFacts WalletOrder.

Section runs.
Context `{!Crypto, !Ecc}.
Implicit Types (w : wallet_db) (g : generic_wallet_record).

(** ** Closing and opening *)
Definition reopen : wallet_m () :=
  do! file := sgets w_records in do! _ := wallet_close in wallet_open file.

(** What is held after the records of a list are loaded. *)
Record loaded (file : gmap Z generic_wallet_record) (l : list (Z * generic_wallet_record)) w : Prop := {
  ld_open : w_is_open w = true;
  ld_records : w_records w = file;
  ld_held s g : held w s = Some g ↔ g ∈ l.*2 ∧ slot_of g = s;
  ld_indexed : indexed w
}.
Lemma indexed_empty w : w_accounts w = ∅ → w_name_index w = ∅ → w_id_index w = ∅ →
  w_address_index w = ∅ → indexed w.
Proof. intros Ha Hn Hi Had. split; intros *; rewrite ?Ha, ?Hn, ?Hi, ?Had; done. Qed.

(** The accounts on the disk of an ordered wallet can be loaded in any order. *)
Lemma loaded_fits w w1 l r : wallet_ok w → loaded (w_records w) l w1 →
  (∀ g, g ∈ l.*2 → held w (slot_of g) = Some g) → held w (slot_of (g_account r)) = Some (g_account r) →
  (∀ g, g ∈ l.*2 → slot_of g ≠ slot_of (g_account r)) → account_fits w1 r.
Proof.
  intros Hw [_ _ Hh [J1 J2 J3 J4]] Hl Hr Hd. pose proof (wb_indexed _ _ Hw) as [I1 I2 I3 I4].
  assert (∀ i r', w_accounts w1 !! i = Some r' → w_accounts w !! i = Some r' ∧ i ≠ wa_index r) as Hacc.
  { intros i r' Hr'. destruct (proj1 (Hh (s_account i) (g_account r'))) as [Hin Hs]; [by simpl; rewrite Hr'|].
    apply Hl in Hin as Hin'. rewrite Hs in Hin'. simpl in Hin'.
    split; [by destruct (w_accounts w !! i); simplify_eq/=|]. intros ->. by apply Hd in Hin. }
  assert (w_accounts w !! wa_index r = Some r) as Hr0.
  { simpl in Hr. by destruct (w_accounts w !! wa_index r); simplify_eq/=. }
  destruct (I1 _ _ Hr0) as (_ & Had & Hn & Hid). split.
  - done.
  - intros j (r' & Hr' & Hn')%J2. apply Hacc in Hr' as [Hr' _].
    destruct (I1 _ _ Hr') as (_ & _ & Hn'' & _). congruence.
  - intros Hne j (_ & r' & Hr' & Hn')%J3. apply Hacc in Hr' as [Hr' _].
    destruct (I1 _ _ Hr') as (_ & _ & _ & Hid'). rewrite <- Hn' in Hne. specialize (Hid' Hne).
    rewrite Hn' in Hid', Hne. specialize (Hid Hne). congruence.
  - intros old Hold. by apply Hacc in Hold as [_ []].
Qed.

Lemma load_one w w1 l i g : wallet_ok w → loaded (w_records w) l w1 →
  (∀ g, g ∈ l.*2 → held w (slot_of g) = Some g) → held w (slot_of g) = Some g →
  (∀ g', g' ∈ l.*2 → slot_of g' ≠ slot_of g) →
  ∃ w2, load_generic_record g true w1 = (Ok (), w2) ∧ loaded (w_records w) (l ++ [(i, g)]) w2.
Proof.
  intros Hw Hl Hin Hg Hd.
  assert (indices_fit w1 g) as Hfit by (destruct g; try done; by eapply loaded_fits).
  destruct (load_held g w1) as (w2 & Hld & Hrec & Hop & Hh).
  { destruct g; done. }
  { destruct g; try done. apply Hfit. }
  exists w2. split; [done|]. destruct Hl as [Ho Hr Hheld Hix]. split; [congruence|congruence| |].
  - intros s g'. rewrite Hh, fmap_app. change ([(i, g)].*2) with [g].
    rewrite elem_of_app, list_elem_of_singleton. case_decide as Hs.
    + subst s. split; [intros [= <-]; by split; [right|]|].
      intros [[Hg'| ->] Hs]; [by apply Hd in Hg'|done].
    + rewrite Hheld. split; [intros [? ?]; by split; [left|]|]. intros [[Hg'| ->] Hs']; [done|congruence].
  - apply load_indices in Hld. destruct g as [r|r|r|r|r|r|r|j].
    2: { subst w2. by apply indexed_load. }
    all: apply (indexed_same w1); [done| |done]; apply map_eq; intros j';
      specialize (Hh (s_account j')); rewrite decide_False in Hh by done; simpl in Hh;
      by destruct (w_accounts w1 !! j'), (w_accounts w2 !! j'); simplify_eq/=.
Qed.
Lemma load_all w l2 l1 w1 : wallet_ok w → loaded (w_records w) l1 w1 →
  (∀ g, g ∈ (l1 ++ l2).*2 → held w (slot_of g) = Some g) → NoDup (slot_of <$> (l1 ++ l2).*2) →
  ∃ w2, seach (λ item, stry (load_generic_record item.2 true)) l2 w1 = (Ok (), w2) ∧
    loaded (w_records w) (l1 ++ l2) w2.
Proof.
  revert l1 w1. induction l2 as [|[i g] l2 IH]; intros l1 w1 Hw Hl Hin Hnd.
  - rewrite app_nil_r. by exists w1.
  - assert (l1 ++ (i, g) :: l2 = (l1 ++ [(i, g)]) ++ l2) as Heq by (by rewrite <- app_assoc).
    destruct (load_one w w1 l1 i g) as (w2 & Hld & Hl2); try done.
    + intros g' Hg'. apply Hin. rewrite fmap_app. by apply elem_of_app; left.
    + apply Hin. rewrite fmap_app. apply elem_of_app. right. by left.
    + intros g' Hg' Hs. rewrite !fmap_app in Hnd. apply NoDup_app in Hnd as (_ & Hnd & _).
      apply (Hnd (slot_of g')); [by apply list_elem_of_fmap_2|]. rewrite Hs. simpl. by left.
    + simpl. unfold sbind, stry. rewrite Hld. rewrite Heq. apply IH; [done..| |]; by rewrite <- Heq.
Qed.

(** Closing the wallet and opening it brings back everything that was held. *)
Lemma reopen_ok w : wallet_ok w → ∃ w', reopen w = (Ok (), w') ∧ wallet_ok w' ∧
  w_records w' = w_records w ∧ ∀ s, held w' s = held w s.
Proof.
  intros Hw. pose proof Hw as [Ho [S1 S2 S3 S4] Hn Hix].
  unfold reopen, wallet_open, wallet_close, sbind, sgets, smodify.
  set (w0 := set_w_is_open true _).
  destruct (load_all w (map_asc (w_records w)) [] w0) as (w' & Hl & [L1 L2 L3 L4]); [done|..].
  - split; [done|done| |by apply indexed_empty]. intros s g. split; [by destruct s|]. by intros [[]%elem_of_nil _].
  - intros g Hg. apply list_elem_of_fmap in Hg as ([i g'] & -> & Hin%elem_of_map_asc).
    apply (S2 i); [done|by intros []].
  - rewrite <- list_fmap_compose. apply NoDup_fmap_2_strong.
    + intros [i g] [j g'] Hi%elem_of_map_asc Hj%elem_of_map_asc Hs. simpl in Hs.
      assert (i = j) as -> by by eapply S4. congruence.
    + eapply NoDup_fmap_1, map_asc_NoDup.
  - assert (∀ s, held w' s = held w s) as Hh.
    { intros s. apply option_eq. intros g. rewrite L3. split.
      - intros [Hg <-]. apply list_elem_of_fmap in Hg as ([i g'] & -> & Hin%elem_of_map_asc).
        apply (S2 i); [done|by intros []].
      - intros Hg. destruct (S3 s g Hg) as [Hs Hr]; [by intros []|]. split; [|done].
        apply list_elem_of_fmap. exists (get_wallet_record_index g, g). split; [done|]. by apply elem_of_map_asc. }
    exists w'. split; [done|]. split; [|done]. split; [done| | |done].
    + eapply memory_synced; [by split|done|]. intros s _. split; [by intros []|done].
    + eapply memory_numbered; [done..|]. apply map_eq. intros p. apply held_property, Hh.
Qed.

(** ** What the wallet is used for *)
Inductive wallet_step w : wallet_db → Prop :=
  | step_property p v : p ≠ next_record_number → wallet_step w (w_set_property p v w).2
  | step_setting name v : wallet_step w (store_setting name v w).2
  | step_cache_balance b : wallet_step w (cache_balance b w).2
  | step_remove_balance id : wallet_step w (remove_balance id w).2
  | step_store_transaction r : transaction_fits r w → wallet_step w (w_store_transaction r w).2
  | step_remove_transaction id : wallet_step w (remove_transaction id w).2
  | step_cache_account r : account_update w r → wallet_step w (cache_account r w).2
  | step_store_key d : wallet_step w (store_key d w).2
  | step_new_private_key password parent do_store :
      wallet_step w (new_private_key password parent do_store w).2
  | step_cache_memo memo k password : wallet_step w (cache_memo memo k password w).2
  | step_add_chain_account a private_data : account_new w (wallet_account_new a private_data) →
      wallet_step w (add_chain_account a private_data w).2
  | step_add_contact now name key private_data :
      wallet_step w (add_contact_account now name key private_data w).2
  | step_rename key name : w_name_index w !! name = None → wallet_step w (rename_account key name w).2
  | step_master_key k password : wallet_step w (set_master_key k password w).2
  | step_change_password old new : keys_match old w → wallet_step w (change_password old new w).2
  | step_reopen : wallet_step w (reopen w).2.
Definition new_wallet : wallet_db := (wallet_open ∅ wallet_db_empty).2.

Lemma new_wallet_ok : wallet_ok new_wallet.
Proof.
  split; [done| | |by apply indexed_empty].
  - split; try done. by intros [].
  - split; done.
Qed.
Lemma wallet_step_ok w w' : wallet_ok w → wallet_step w w' → wallet_ok w'.
Proof.
  intros Hw []; eauto using set_property_ok, store_setting_ok, cache_balance_ok, remove_balance_ok,
    store_transaction_ok, remove_transaction_ok, store_key_ok, new_private_key_ok, cache_memo_ok,
    add_chain_account_ok, add_contact_account_ok, rename_account_ok, set_master_key_ok, change_password_ok.
  - destruct (cache_account_ok clean w r) as (w1 & -> & Hst & _); [done|by intros []|done|].
    by apply stored_clean in Hst.
  - by destruct (reopen_ok w Hw) as (w1 & -> & Hw1 & _).
Qed.

Lemma held_tables w w' : (∀ s, held w' s = held w s) →
  w_master_key w' = w_master_key w ∧ w_accounts w' = w_accounts w ∧ w_keys w' = w_keys w ∧
  w_transactions w' = w_transactions w ∧ w_balances w' = w_balances w ∧
  w_properties w' = w_properties w ∧ w_settings w' = w_settings w.
Proof.
  intros Hh. split_and!; try (apply map_eq; intros x).
  - specialize (Hh s_master). simpl in Hh. by destruct (w_master_key w), (w_master_key w'); simplify_eq/=.
  - specialize (Hh (s_account x)). simpl in Hh. by destruct (w_accounts w !! x), (w_accounts w' !! x); simplify_eq/=.
  - specialize (Hh (s_key x)). simpl in Hh. by destruct (w_keys w !! x), (w_keys w' !! x); simplify_eq/=.
  - specialize (Hh (s_transaction x)). simpl in Hh.
    by destruct (w_transactions w !! x), (w_transactions w' !! x); simplify_eq/=.
  - specialize (Hh (s_balance x)). simpl in Hh. by destruct (w_balances w !! x), (w_balances w' !! x); simplify_eq/=.
  - by apply held_property.
  - specialize (Hh (s_setting x)). simpl in Hh. by destruct (w_settings w !! x), (w_settings w' !! x); simplify_eq/=.
Qed.
(** The names and the ids of the accounts determine their indices. *)
Lemma indexed_names w w' : indexed w → indexed w' → w_accounts w' = w_accounts w →
  w_name_index w' = w_name_index w ∧ w_id_index w' = w_id_index w.
Proof.
  intros Hw Hw' Ha.
  assert (∀ w1 w2 n i, indexed w1 → indexed w2 → w_accounts w2 = w_accounts w1 →
    w_name_index w1 !! n = Some i → w_name_index w2 !! n = Some i) as Hn.
  { intros w1 w2 n i H1 H2 Heq (r & Hr & <-)%(ix_name _ H1). rewrite <- Heq in Hr.
    by destruct (ix_account _ H2 _ _ Hr) as (_ & _ & ? & _). }
  assert (∀ w1 w2 n i, indexed w1 → indexed w2 → w_accounts w2 = w_accounts w1 →
    w_id_index w1 !! n = Some i → w_id_index w2 !! n = Some i) as Hi.
  { intros w1 w2 n i H1 H2 Heq (Hne & r & Hr & <-)%(ix_id _ H1). rewrite <- Heq in Hr.
    destruct (ix_account _ H2 _ _ Hr) as (_ & _ & _ & Hid). by apply Hid. }
  split; apply map_eq; intros n; apply option_eq; intros i; split; eauto.
Qed.

(** ** Changing the password *)
Definition readable (password : digest_type) (r : wallet_key_record) : Prop :=
  kd_has_private_key (wk_data r) = true →
  ∃ k, decrypt_private_key password (wk_data r) = Ok k ∧ get_public_key k = kd_public_key (wk_data r).
(** [r'] is [r] with its private key under another password. *)
Definition rekeyed (old new : digest_type) (r r' : wallet_key_record) : Prop :=
  wk_index r' = wk_index r ∧ kd_public_key (wk_data r') = kd_public_key (wk_data r) ∧
  kd_account_address (wk_data r') = kd_account_address (wk_data r) ∧
  kd_has_private_key (wk_data r') = kd_has_private_key (wk_data r) ∧
  (kd_has_private_key (wk_data r) = true →
   decrypt_private_key new (wk_data r') = decrypt_private_key old (wk_data r)).

Context `{!EccLaws _}.
Lemma encrypt_private_key_Ok password k d : password ≠ 0 →
  ∃ d', encrypt_private_key password k d = Ok d' ∧ kd_has_private_key d' = true.
Proof.
  intros Hp. unfold encrypt_private_key, decrypt_private_key. rewrite (proj2 (Z.eqb_neq _ _) Hp).
  simpl. rewrite aes_roundtrip. simpl. rewrite private_key_roundtrip. simpl. rewrite Z.eqb_refl.
  eexists; split; [done|]. unfold kd_has_private_key. simpl.
  by rewrite bool_decide_eq_false_2 by apply aes_encrypt_padded.
Qed.
Lemma reencrypt_Ok old new r w : new ≠ 0 → wallet_ok w → readable old r →
  w_keys w !! kd_get_address (wk_data r) = Some r →
  ∃ r' w', reencrypt old new r w = (Ok (), w') ∧ wallet_ok w' ∧ rekeyed old new r r' ∧
    ∀ s, held w' s = if decide (s = s_key (kd_get_address (wk_data r))) then Some (g_key r') else held w s.
Proof.
  intros Hnew Hw Hread Hr. unfold reencrypt. destruct (kd_has_private_key (wk_data r)) eqn:Hp; simpl.
  2: { exists r, w. split; [done|]. split; [done|]. split; [by unfold rekeyed; rewrite Hp|].
       intros s. case_decide; [|done]. subst. simpl. by rewrite Hr. }
  destruct (Hread Hp) as (k & Hk & Hpub). unfold sbind, slift. rewrite Hk. simpl.
  destruct (encrypt_private_key_Ok new k (wk_data r) Hnew) as (d & He & Hp'). rewrite He.
  apply encrypt_private_key_spec in He as (E1 & E2 & E3 & E4 & E5).
  set (r' := set_wk_data d r).
  assert (slot_of (g_key r') = s_key (kd_get_address (wk_data r))) as Hs.
  { simpl. unfold kd_get_address. by rewrite E1, Hpub. }
  destruct (key_held w _ r Hw Hr) as [_ Hd].
  destruct (store_update clean (g_key r') w) as (w' & -> & Hst); [done|by rewrite Hs|by rewrite Hs|done|].
  exists r', w'. split; [done|]. split; [by apply stored_clean in Hst|]. split.
  - unfold rekeyed, r'. simpl. rewrite Hp, Hp', E1, Hpub, E2, E5, Hk. done.
  - intros s. by rewrite (st_held _ _ _ _ Hst), Hs.
Qed.
Lemma reencrypt_each old new l w : new ≠ 0 → wallet_ok w → Forall (readable old) l →
  NoDup ((λ r, kd_get_address (wk_data r)) <$> l) →
  (∀ r, r ∈ l → w_keys w !! kd_get_address (wk_data r) = Some r) →
  ∃ w', seach (reencrypt old new) l w = (Ok (), w') ∧ wallet_ok w' ∧
    (∀ r, r ∈ l → ∃ r', w_keys w' !! kd_get_address (wk_data r) = Some r' ∧ rekeyed old new r r') ∧
    (∀ s, (∀ r, r ∈ l → s ≠ s_key (kd_get_address (wk_data r))) → held w' s = held w s).
Proof.
  intros Hnew. revert w. induction l as [|r l IH]; intros w Hw Hread Hnd Hin; simpl.
  - exists w. split_and!; try done. intros r Hr. by apply elem_of_nil in Hr.
  - apply Forall_cons in Hread as [Hr Hread]. rewrite fmap_cons in Hnd. apply NoDup_cons in Hnd as [Hnr Hnd].
    destruct (reencrypt_Ok old new r w Hnew Hw Hr) as (r' & w1 & Hre & Hw1 & Hrk & Hh); [apply Hin; by left|].
    assert (∀ r0, r0 ∈ l → kd_get_address (wk_data r0) ≠ kd_get_address (wk_data r)) as Hne.
    { intros r0 Hr0 Heq. apply Hnr. rewrite <- Heq. by apply (list_elem_of_fmap_2 (λ r, kd_get_address (wk_data r))). }
    unfold sbind. rewrite Hre. destruct (IH w1) as (w2 & Hl & Hw2 & Hall & Hh2); [done|done|done| |].
    { intros r0 Hr0. specialize (Hh (s_key (kd_get_address (wk_data r0)))). specialize (Hne r0 Hr0).
      rewrite decide_False in Hh by congruence. simpl in Hh. rewrite Hin in Hh by (by right).
      by destruct (w_keys w1 !! _); simplify_eq/=. }
    exists w2. split; [done|]. split; [done|]. split.
    + intros r0 [->|Hr0]%elem_of_cons; [|by apply Hall]. exists r'. split; [|done].
      assert (held w2 (s_key (kd_get_address (wk_data r))) = Some (g_key r')) as Hr2.
      { rewrite Hh2, Hh, decide_True; [done..|]. intros r1 Hr1 [= Heq]. by apply (Hne r1). }
      simpl in Hr2. by destruct (w_keys w2 !! _); simplify_eq/=.
    + intros s Hs. rewrite Hh2, Hh; [|intros r0 Hr0; apply Hs; by right].
      rewrite decide_False; [done|]. apply Hs. by left.
Qed.

Lemma addresses_NoDup w : wallet_ok w →
  NoDup ((λ r, kd_get_address (wk_data r)) <$> (map_to_list (w_keys w)).*2).
Proof.
  intros Hw. rewrite <- list_fmap_compose. apply NoDup_fmap_2_strong; [|apply NoDup_map_to_list].
  intros [a r] [b r'] Ha%elem_of_map_to_list Hb%elem_of_map_to_list. simpl.
  destruct (key_held w a r Hw Ha) as [-> _], (key_held w b r' Hw Hb) as [-> _]. congruence.
Qed.
Lemma set_master_Ok k password w : wallet_ok w → password ≠ 0 → ∃ r w',
  set_master_key k password w = (Ok (), w') ∧ stored clean (g_master_key r) w w' ∧
  wm_index r = -1 ∧ decrypt_key password r = Ok k ∧ wm_checksum r = sha512 (be_bytes 64 password).
Proof.
  intros Hw Hp. unfold set_master_key, encrypt_key. rewrite (proj2 (Z.eqb_neq _ _) Hp). simpl negb. cbv iota.
  set (r := WalletMasterKeyRecord _ _ _).
  assert (decrypt_key password r = Ok k) as Hd.
  { unfold decrypt_key. rewrite (proj2 (Z.eqb_neq _ _) Hp). simpl.
    rewrite bool_decide_eq_false_2 by apply aes_encrypt_padded. simpl.
    rewrite aes_roundtrip. simpl. apply extended_private_key_roundtrip. }
  unfold sbind, slift. rewrite Hd. simpl rbind.
  destruct (store_master_ok r w Hw eq_refl) as (w' & Hst & Hst'). exists r, w'. by rewrite Hst.
Qed.
End runs.


(** C22 (wallet_reopens). A wallet in order that is closed and opened again holds what it held: the master
    key, every account, key, transaction, balance, property and setting, and its
    accounts are found under the same names and ids. *)
Theorem wallet_reopens `{!Crypto, !Ecc} w : wallet_ok w →
  ∃ w', reopen w = (Ok (), w') ∧ wallet_ok w' ∧ w_records w' = w_records w ∧
    w_master_key w' = w_master_key w ∧ w_accounts w' = w_accounts w ∧ w_keys w' = w_keys w ∧
    w_transactions w' = w_transactions w ∧ w_balances w' = w_balances w ∧
    w_properties w' = w_properties w ∧ w_settings w' = w_settings w ∧
    w_name_index w' = w_name_index w ∧ w_id_index w' = w_id_index w.
Proof.
  intros Hw. destruct (reopen_ok w Hw) as (w' & Hr & Hw' & Hrec & Hh). exists w'.
  destruct (held_tables w w' Hh) as (Hm & Ha & Htables).
  destruct (indexed_names w w') as [Hn Hi]; [apply Hw|apply Hw'|done|].
  destruct Htables as (? & ? & ? & ? & ?). by split_and!.
Qed.

(** C23 (password_changed). If the old password opens the master key and every private key, changing it to
    another one succeeds: the new password is the valid one, it opens the same
    master key and, in every key record, the same private key, and nothing else
    that the wallet holds has changed. *)
Theorem password_changed `{!Crypto, !Ecc, !EccLaws _} old new w k : wallet_ok w → new ≠ 0 →
  master_key old w = Ok k → (∀ a r, w_keys w !! a = Some r → readable old r) →
  ∃ w', change_password old new w = (Ok (), w') ∧ wallet_ok w' ∧
    validate_password new w' = Ok true ∧ master_key new w' = Ok k ∧
    (∀ a r, w_keys w !! a = Some r → ∃ r', w_keys w' !! a = Some r' ∧ rekeyed old new r r') ∧
    (∀ s, s ≠ s_master → (∀ a, s ≠ s_key a) → held w' s = held w s).
Proof.
  intros Hw Hnew Hk Hread. unfold change_password, sbind at 1, slift. rewrite Hk.
  destruct (set_master_Ok k new w Hw Hnew) as (r & w1 & Hset & Hst & Hi & Hd & Hc).
  unfold sbind at 1. rewrite Hset. unfold sbind at 1, sgets. apply stored_clean in Hst as Hw1.
  assert (w_keys w1 = w_keys w) as Hkeys by (apply same_keys; intros a; by rewrite (st_held _ _ _ _ Hst)).
  assert (∀ r', r' ∈ (map_to_list (w_keys w)).*2 → w_keys w !! kd_get_address (wk_data r') = Some r') as Hin.
  { intros r' [a Ha]%in_keys. destruct (key_held w a r' Hw Ha) as [-> _]. done. }
  destruct (reencrypt_each old new (map_to_list (w_keys w)).*2 w1) as (w' & Hl & Hw' & Hall & Hh); try done.
  - apply Forall_forall. intros r' [a Ha]%in_keys. by eapply Hread.
  - by apply addresses_NoDup.
  - rewrite Hkeys. done.
  - exists w'. rewrite Hkeys. split; [done|]. split; [done|].
    assert (held w' s_master = Some (g_master_key r)) as Hm.
    { rewrite Hh by done. by rewrite (st_held _ _ _ _ Hst), decide_True. }
    simpl in Hm. unfold validate_password, master_key.
    destruct (w_master_key w') as [r0|]; [|done]. injection Hm as ->. simpl. rewrite Hc, Z.eqb_refl.
    split_and!; try done.
    + intros a r' Ha. destruct (key_held w a r' Hw Ha) as [<- _]. apply Hall, in_keys. by exists (kd_get_address (wk_data r')).
    + intros s Hs Hs'. rewrite Hh by (intros; apply Hs'). by rewrite (st_held _ _ _ _ Hst), decide_False.
Qed.
