(* ===== verification/BlockExamples.v ===== *)
(** A chain of a few blocks with two delegates, on which the theorems of the
    blocks and of the block tree are run, and runs that show what popping the
    first block and storing an announced block get wrong. *)
From S2P Require Export BlockFunds ChainRuns PendingFacts Reach MarketExamples.

(** ** The state: two delegates with votes, producing in turn *)
Definition bk_delegate (id key votes rate : Z) : account_record :=
  AccountRecord id "delegate" v_null (key + 100) [(5, key)] 5 5
    (Some (set_ds_votes_for votes (delegate_stats_new rate))) None.
Definition bk_head : signed_block_header := SignedBlockHeader (BlockHeader 0 1 10100 0 0 0) 21.
Definition bk_head_id : digest_type := block_id bk_head.
Definition bk_db : chain_database :=
  db_store_account_record (bk_delegate 5 21 40 50)
    (db_store_account_record (bk_delegate 6 22 60 100)
      (set_db_wall_clock 10130
        (set_db_head_block_id bk_head_id
          (set_db_head_block_header bk_head
            (set_db_assets {[0 := ex_core]}
              (set_db_properties (list_to_map [(last_account_id_prop, v_int 6);
                  (chain_id_prop, v_hash 1); (active_delegate_list_id, v_ids [5; 6; 6; 5]);
                  (last_random_seed_id, v_hash 9); (confirmation_requirement, v_int 202);
                  (dirty_markets_prop, v_pairs [])])
                (chain_database_empty 1))))))).
Definition bk_state : chain_state := Pending pending_chain_state_empty (Database bk_db).
(** Two slots after the head, signed by delegate 5. *)
Definition no_transactions_digest : digest_type := sha256_of_sha512 (sha512 (pack_ids [])).
Definition bk_block : full_block :=
  FullBlock (SignedBlockHeader (BlockHeader bk_head_id 2 10130 no_transactions_digest 55 0) 21) [].
Definition bk_record (h : signed_block_header) : block_record := BlockRecord (DigestBlock h []) 9 100 0.
Definition bk_included : block_fork_data := BlockForkData ∅ true (Some true) None true true.
Definition bk_chain : chain :=
  Chain bk_db {[1 := [bk_head_id]]}
    {[0 := set_bf_next_blocks {[bk_head_id]} bk_included; bk_head_id := bk_included]}
    ∅ {[1 := bk_head_id]} {[bk_head_id := bk_record bk_head]} ∅ ∅ ∅ None.

Lemma bk_account k r : db_accounts bk_db !! k = Some r →
  (k = 5 ∧ r = bk_delegate 5 21 40 50) ∨ (k = 6 ∧ r = bk_delegate 6 22 60 100).
Proof.
  change (<[5 := bk_delegate 5 21 40 50]> (<[6 := bk_delegate 6 22 60 100]> ∅ : gmap Z _) !! k
      = Some r → (k = 5 ∧ r = bk_delegate 5 21 40 50) ∨ (k = 6 ∧ r = bk_delegate 6 22 60 100)).
  intros [[<- <-]|[_ Hr]]%lookup_insert_Some; [by left|right].
  by apply (lookup_one _ 6 _ (bk_delegate 6 22 60 100)) in Hr as [-> ->].
Qed.
Lemma bk_votes : vote_index bk_db.
Proof.
  intros v id.
  assert (db_delegate_votes bk_db = {[(40, 5); (60, 6)]}) as -> by by_evaluation.
  rewrite elem_of_union, !elem_of_singleton. split.
  - intros [[= -> ->]|[= -> ->]]; [exists (bk_delegate 5 21 40 50)|exists (bk_delegate 6 22 60 100)];
      eexists; by vm_compute.
  - intros (r & i & [[-> ->]|[-> ->]]%bk_account & [= <-] & <-); [by left|by right].
Qed.
Lemma bk_wf : funds_wf bk_state.
Proof.
  split; [exact I|]. split_and!; intros k r Hr.
  - by apply lookup_none in Hr.
  - by apply (lookup_one _ 0 _ ex_core) in Hr as [-> ->].
  - by apply bk_account in Hr as [[-> ->]|[-> ->]].
Qed.
Lemma bk_slot_times : slot_times bk_block bk_db.
Proof. split; [vm_compute; split; congruence|]. intros _. vm_compute. repeat split; congruence. Qed.

Lemma round_has_most_votes_witness :
  next_round_active_delegates bk_db = [6; 5] ∧ NoDup (next_round_active_delegates bk_db).
Proof. split; [vm_compute; reflexivity|]. exact (proj1 (round_has_most_votes bk_db bk_votes)). Defined.

Definition bk_paid : chain_state :=
  ok_or bk_state (pay_delegate 21 bk_db bk_state).
Lemma bk_paid_ok : pay_delegate 21 bk_db bk_state = Ok bk_paid ∧
  stat ds_pay_balance 5 bk_paid = 50000 ∧ supply 0 bk_paid = supply 0 bk_state - 50000.
Proof. split; [by_running|split; by_evaluation]. Qed.
Lemma pay_delegate_conserves_witness :
  stat ds_pay_balance 5 bk_paid = 50000 ∧ supply 0 bk_paid = supply 0 bk_state - 50000 ∧
  ∀ id, holdings id bk_paid - supply id bk_paid ≡₆₄ holdings id bk_state - supply id bk_state.
Proof.
  destruct bk_paid_ok as (E & E1 & E2). split; [exact E1|]. split; [exact E2|].
  exact (proj2 (pay_delegate_conserves 21 bk_db bk_state bk_paid bk_wf E)).
Defined.

Definition bk_counted : chain_state :=
  ok_or bk_state (update_delegate_production_info bk_block 21 bk_db bk_state).
Lemma bk_counted_ok :
  update_delegate_production_info bk_block 21 bk_db bk_state = Ok bk_counted ∧
  get_delegate_record_for_signee 21 bk_db = Ok (bk_delegate 5 21 40 50) ∧
  missed_slots bk_block bk_db = [10110; 10120].
Proof. split; [by_running|split; by_evaluation]. Qed.
Lemma slots_accounted_witness :
  get_slot_record (bh_timestamp (fb_head bk_block)) bk_counted
    = Some (SlotRecord (bh_timestamp (fb_head bk_block)) (ac_id (bk_delegate 5 21 40 50))
              (Some (fb_id bk_block))) ∧
  (∃ id, get_slot_record 10120 bk_counted = Some (SlotRecord 10120 id None)) ∧
  get_required_confirmations bk_counted = Ok (Z.max 1 (Z.min 303 (202 + 2 * 2 - 1))).
Proof.
  destruct bk_counted_ok as (E & Ed & Em).
  destruct (slots_accounted bk_block 21 bk_db bk_state bk_counted [5; 6; 6; 5] 202
              (bk_delegate 5 21 40 50) I (proj2 (proj2 (proj2 bk_wf))) bk_slot_times
              eq_refl Ed eq_refl ltac:(lia) E) as (H1 & H2 & _ & _ & H3).
  rewrite Em in H1, H3. cbn [length] in H3. split; [exact H2|]. split; [|exact H3].
  destruct (H1 10120) as (id & _ & Hs); [do 2 constructor|]. exists id. exact Hs.
Defined.

(** ** A block with a market to run and a transaction *)
Definition bf_db : chain_database :=
  set_db_assets {[0 := ex_core; 3 := mk_user]}
    (set_db_bids {[mk_bid_key := mk_bid]}
      (set_db_asks {[mk_ask_key := mk_ask]}
        (set_db_balances {[br_id (ex_balance 11 980) := ex_balance 11 980]}
          (db_set_property dirty_markets_prop (v_pairs [(3, 0)]) bk_db)))).
Definition bf_trx : signed_transaction :=
  SignedTransaction (Transaction 10200 None (tx_operations (st_trx ex_trx))) [11].
Definition bf_block : full_block := FullBlock (fb_header bk_block) [bf_trx].
Definition bf_state : chain_state := Pending pending_chain_state_empty (Database bf_db).
Definition bf_applied : chain_state :=
  ok_or bf_state (apply_block bf_block 21 bf_db bf_state).
Lemma bf_applied_ok :
  apply_block bf_block 21 bf_db bf_state = Ok bf_applied ∧
  get_bid_record mk_bid_key bf_applied = Some (OrderRecord 80 None 900) ∧
  (br_balance <$> get_balance_record (br_id (ex_balance 12 0)) bf_applied) = Some 60 ∧
  stat ds_pay_balance 5 bf_applied = 50000.
Proof. split; [by_running|split_and!; by_evaluation]. Qed.
Lemma bf_keyed : keyed_tables (Database bf_db).
Proof.
  split_and!; intros k r Hr; cbn in Hr.
  - by apply (lookup_one _ (br_id (ex_balance 11 980)) _ (ex_balance 11 980)) in Hr as [-> ->].
  - apply lookup_insert_Some in Hr as [[<- <-]|[_ Hr]]; [done|].
    by apply (lookup_one _ 3 _ mk_user) in Hr as [-> ->].
  - change (db_accounts bk_db !! k = Some r) in Hr.
    by apply bk_account in Hr as [[-> ->]|[-> ->]].
Qed.

(** ** The tree: the place before the first block, and the head after it *)
Definition bk_height (x : digest_type) : nat :=
  if x =? 0 then 0 else if x =? bk_head_id then 1 else 2.
Lemma bk_follows x y : follows (c_forks bk_chain) x y → x = 0 ∧ y = bk_head_id.
Proof.
  intros (r & Hr & Hy). unfold bk_chain in Hr. cbn [c_forks] in Hr.
  apply lookup_insert_Some in Hr as [[<- <-]|[_ Hr]].
  - simpl in Hy. by apply elem_of_singleton in Hy.
  - apply (lookup_one _ bk_head_id _ bk_included) in Hr as [-> ->]; [|done].
    simpl in Hy. by apply not_elem_of_empty in Hy.
Qed.
Lemma bk_heights : bk_height 0 = 0%nat ∧ bk_height bk_head_id = 1%nat ∧
  bk_height (fb_id bk_block) = 2%nat ∧ fb_id bk_block ≠ 0.
Proof. split_and!; vm_compute; congruence. Qed.
Lemma bk_ranked : ranked (c_forks bk_chain).
Proof.
  exists bk_height. intros x y [-> ->]%bk_follows. destruct bk_heights as (-> & -> & _). lia.
Qed.
Lemma bk_head_known : c_forks bk_chain !! bk_head_id = Some bk_included ∧
  c_block_records bk_chain !! bk_head_id = Some (bk_record bk_head).
Proof. split; by_evaluation. Qed.
Lemma bk_records id rec : c_block_records bk_chain !! id = Some rec →
  id = bk_head_id ∧ rec = bk_record bk_head.
Proof. intros Hr. by apply (lookup_one _ bk_head_id _ (bk_record bk_head)) in Hr. Qed.
Lemma bk_tree : chain_tree_ok bk_chain.
Proof.
  destruct bk_head_known as [Ef Er].
  assert (follows (c_forks bk_chain) 0 bk_head_id) as Hf.
  { exists (set_bf_next_blocks {[bk_head_id]} bk_included). split; [by_evaluation|set_solver]. }
  split.
  - intros x y [-> ->]%bk_follows. rewrite Ef, Er. split; [by eexists|]. by eexists.
  - intros id rec [-> ->]%bk_records. rewrite Ef. split; [by eexists|exact Hf].
  - intros id rec r rp [-> ->]%bk_records Hr Hrp. rewrite Ef in Hr. injection Hr as <-.
    change (previous_of (bk_record bk_head)) with 0 in Hrp.
    assert (c_forks bk_chain !! 0 = Some (set_bf_next_blocks {[bk_head_id]} bk_included)) as E
      by by_evaluation.
    rewrite E in Hrp. by injection Hrp as <-.
  - intros x r Hr Hrec. unfold bk_chain in Hr. cbn [c_forks] in Hr.
    apply lookup_insert_Some in Hr as [[<- <-]|[_ Hr]]; [done|].
    apply (lookup_one _ bk_head_id _ bk_included) in Hr as [-> ->]; [|done]. by rewrite Er in Hrec.
Qed.

Lemma descendants_invalidated_witness :
  ∃ m, mark_invalid 0 expired_transaction bk_chain = (Ok (), set_c_forks m bk_chain) ∧
    m !! bk_head_id = Some (invalidated expired_transaction bk_included).
Proof.
  destruct (descendants_invalidated 0 expired_transaction
              (set_bf_next_blocks {[bk_head_id]} bk_included) bk_chain) as (m & E & H1 & _).
  - intros x y [-> ->]%bk_follows. destruct bk_head_known as [-> _]. by eexists.
  - exact bk_ranked.
  - by_evaluation.
  - exists m. split; [exact E|]. rewrite H1; [by rewrite (proj1 bk_head_known)|].
    apply rtc_once. exists (set_bf_next_blocks {[bk_head_id]} bk_included).
    split; [by_evaluation|]. cbn. set_solver.
Defined.
Lemma store_keeps_tree_witness :
  ∃ x c', store_and_index (fb_id bk_block) bk_block bk_chain = (Ok x, c') ∧ chain_tree_ok c'.
Proof.
  destruct (store_keeps_tree bk_block bk_chain 9 bk_tree) as (x & c' & E & Hok & _).
  - vm_compute. reflexivity.
  - intros rec [Ei _]%bk_records. exfalso.
    destruct bk_heights as (_ & E1 & E2 & _). rewrite Ei, E1 in E2. discriminate.
  - apply bk_heights.
  - exists bk_height. destruct bk_heights as (E0 & E1 & E2 & _). split.
    + intros x y [-> ->]%bk_follows. rewrite E0, E1. lia.
    + change (bh_previous (fb_head bk_block)) with bk_head_id. rewrite E1, E2. lia.
  - exists x, c'. split; [exact E|exact Hok].
Defined.
Lemma fork_history_linked_witness :
  get_fork_history bk_head_id bk_chain = (Ok [bk_head_id; 0], bk_chain) ∧
  history_from bk_chain bk_head_id [bk_head_id; 0].
Proof.
  assert (get_fork_history bk_head_id bk_chain = (Ok [bk_head_id; 0], bk_chain)) as E
    by by_evaluation.
  split; [exact E|]. destruct (fork_history_linked bk_head_id bk_chain) as (r & E' & _ & Hr).
  - exists bk_height. intros id rec [-> ->]%bk_records. change (previous_of (bk_record bk_head)) with 0.
    destruct bk_heights as (-> & -> & _). lia.
  - rewrite E in E'. injection E' as <-. by apply Hr.
Defined.

Definition bk_pushed : result block_fork_data * chain := push_block bk_block bk_chain.
Definition bk_data : block_fork_data := ok_or bk_included bk_pushed.1.
Lemma bk_pushed_ok : push_block bk_block bk_chain = (Ok bk_data, bk_pushed.2).
Proof. by_running. Qed.
Lemma accepted_block_scheduled_witness :
  c_head_id bk_pushed.2 = fb_id bk_block ∧ bf_is_included bk_data = true ∧
  ∃ key active a, get_active_delegates (Database bk_db) = Ok active ∧
    get_slot_signee (bh_timestamp (fb_head bk_block)) active bk_db = Ok a ∧ key = ac_active_key a.
Proof.
  destruct (accepted_block_scheduled bk_block bk_chain bk_data bk_pushed.2)
    as ((key & active & a & _ & H1) & _ & _ & _ & _ & H2 & _ & _ & H3 & _).
  - vm_compute. congruence.
  - reflexivity.
  - exact bk_pushed_ok.
  - split; [exact H2|]. split; [exact H3|]. exists key, active, a. exact H1.
Defined.
(** The same block signed by the other delegate. *)
Definition bk_forged : full_block :=
  FullBlock (SignedBlockHeader (fb_head bk_block) 22) [].
Lemma bk_forged_err :
  push_block bk_forged bk_chain = (Err invalid_delegate_signee, (push_block bk_forged bk_chain).2).
Proof. by_running. Qed.
Lemma rejected_block_contained_witness :
  c_db (push_block bk_forged bk_chain).2 = bk_db ∧
  bf_is_valid <$> c_forks (push_block bk_forged bk_chain).2 !! fb_id bk_forged = Some (Some false).
Proof.
  split; [|by_evaluation].
  exact (proj1 (rejected_block_contained bk_forged bk_chain invalid_delegate_signee _ eq_refl
                  bk_forged_err)).
Defined.

(** ** The block pushed and popped *)
Lemma bk_valid : block_valid 21 bk_block bk_chain.
Proof.
  destruct bk_heights as (E0 & E1 & E2 & Ene). split.
  - apply eq_None_not_Some. intros [rec [Ei _]%bk_records]. rewrite Ei, E1 in E2. discriminate.
  - exact Ene.
  - reflexivity.
  - split; [by_evaluation|by vm_compute].
  - by_evaluation.
  - by_evaluation.
  - exists (ok_or bk_state (apply_block bk_block 21 bk_db (fresh_pending bk_chain))). by_running.
Qed.
Lemma bk_wf_db : db_wf bk_db.
Proof.
  assert (map_Forall (λ _ v, variant_is_null v = false) (db_properties bk_db)) as Hp
    by (apply (bool_decide_eq_true _); by_evaluation).
  split.
  - exact Hp.
  - intros k r Hr. by apply (lookup_one _ 0 _ ex_core) in Hr as [-> ->].
  - intros k r [[-> ->]|[-> ->]]%bk_account; split; by_evaluation.
  - intros k r Hr. by apply lookup_none in Hr.
  - intros k r Hr. by apply lookup_none in Hr.
  - intros k r Hr. by apply lookup_none in Hr.
  - intros k r Hr. by apply lookup_none in Hr.
  - intros k r Hr. by apply lookup_none in Hr.
  - intros k r Hr. by apply lookup_none in Hr.
  - intros k r Hr. by apply lookup_none in Hr.
  - intros k r Hr. by apply lookup_none in Hr.
Qed.
Lemma bk_ok : chain_ok bk_chain.
Proof.
  split; [exact bk_tree| | | |exact bk_wf_db|by vm_compute| | |].
  - destruct bk_heights as (E0 & E1 & _). exists bk_height. intros x y [-> ->]%bk_follows. lia.
  - apply eq_None_not_Some. intros [rec [Ei _]%bk_records]. destruct bk_heights as (E0 & E1 & _).
    rewrite <- Ei, E0 in E1. discriminate.
  - eexists. split; [reflexivity|reflexivity].
  - intros n Hn. change (bh_block_num (c_head bk_chain)) with 1 in Hn. assert (n = 1) as -> by lia.
    exists bk_head_id. split; [done|]. rewrite (proj2 bk_head_known). by eexists.
  - intros _. exists (bk_record bk_head). split; [apply bk_head_known|done].
  - exists 9. by_evaluation.
Qed.
Lemma valid_block_accepted_witness :
  ∃ r c', push_block bk_block bk_chain = (Ok r, c') ∧ c_head_id c' = fb_id bk_block ∧ chain_ok c'.
Proof.
  destruct (valid_block_accepted 21 bk_block bk_chain bk_ok bk_valid)
    as (r & c' & E & Hok & _ & Eh & _). exists r, c'. split; [exact E|]. split; [exact Eh|exact Hok].
Defined.
Lemma reachable_in_order_witness :
  c_head_id bk_pushed.2 = fb_id bk_block ∧ chain_ok (revalidate_pending bk_pushed.2).2.
Proof.
  split; [by_evaluation|].
  apply (reachable_in_order bk_chain); [exact bk_ok|].
  apply rtc_l with bk_pushed.2.
  - eapply step_push with (b := bk_block) (r := Ok bk_data);
      [reflexivity|apply bk_valid|apply bk_valid|by_evaluation|by vm_compute|exact bk_pushed_ok].
  - apply rtc_once. apply (step_revalidate _ (revalidate_pending bk_pushed.2).1).
    apply surjective_pairing.
Defined.

(** ** A transaction offered and put into a block *)
Definition bq_chain : chain := set_c_db (set_db_relay_fee 20 bf_db) bk_chain.
Definition bq_offered : result (option transaction_evaluation_state) * chain :=
  store_pending_transaction bf_trx false bq_chain.
Definition bq_eval : transaction_evaluation_state := default ex_eval (ok_or None bq_offered.1).
Lemma bq_offered_ok :
  store_pending_transaction bf_trx false bq_chain = (Ok (Some bq_eval), bq_offered.2) ∧
  size (c_pending_transactions bq_chain) = 0%nat ∧ get_fees 0 bq_eval = 30.
Proof.
  split; [|split; by_evaluation].
  transitivity (Ok (ok_or None bq_offered.1), bq_offered.2); [by_running|].
  refine (f_equal (λ o, (Ok o, bq_offered.2)) _). refine (some_or ex_eval _ _). by_evaluation.
Qed.
Lemma pending_transaction_admitted_witness :
  c_pending_transactions bq_offered.2 !! trx_digest 1 (st_trx bf_trx) = Some bf_trx ∧
  c_pending_fees bq_offered.2 !! (30, trx_id bf_trx) = Some bq_eval ∧ 20 ≤ relay_fees bq_eval.
Proof.
  destruct bq_offered_ok as (E & _ & Ef).
  destruct (pending_transaction_admitted bf_trx false bq_chain (Ok (Some bq_eval)) bq_offered.2 E)
    as (_ & _ & Hfee & Et & Ep).
  rewrite Et, Ep, Ef. split_and!; [apply lookup_insert_eq|apply lookup_insert_eq|exact Hfee].
Defined.
Definition bq_block : full_block :=
  ok_or bk_block (generate_block (λ _, false) 10130 bq_offered.2).1.
Lemma bq_block_ok :
  generate_block (λ _, false) 10130 bq_offered.2 = (Ok bq_block, bq_offered.2) ∧
  length (fb_user_transactions bq_block) = 1%nat.
Proof.
  split; [|by_evaluation].
  transitivity (Ok bq_block, (generate_block (λ _, false) 10130 bq_offered.2).2); [by_running|].
  refine (f_equal (pair (Ok bq_block)) _). apply generate_block_same.
Qed.
Lemma generated_block_fits_witness :
  length (fb_user_transactions bq_block) = 1%nat ∧ bh_block_num (fb_head bq_block) = 2 ∧
  bh_previous (fb_head bq_block) = block_id (db_head_block_header (c_db bq_offered.2)) ∧
  validate_digest (header_digest_block bq_block) = true.
Proof.
  destruct bq_block_ok as [E El]. split; [exact El|].
  destruct (generated_block_fits (λ _, false) 10130 bq_offered.2 bq_block bq_offered.2 E)
    as (_ & Ep & En & _ & Hd & _).
  split; [rewrite En; by_evaluation|]. split; [|exact Hd].
  rewrite Ep. assert (bh_block_num (c_head bq_offered.2) = 1) as -> by by_evaluation. reflexivity.
Defined.

(** ** A block numbered 1 on top of a later head

    The chain after [bk_block], whose number is 2; the block is a thousand
    seconds older than the head. *)
Definition bk_renumbered : full_block :=
  FullBlock (SignedBlockHeader (BlockHeader (fb_id bk_block) 1 9100 no_transactions_digest 56 0) 22) [].
Definition bk_rewound : chain := (push_block bk_renumbered bk_pushed.2).2.

(** The checks on numbers and times are skipped for
    a block numbered 1, whatever it follows: such a block is accepted on top of
    block 2, with a time before it, takes the head's number back to 1 and takes
    the place of the first block in the index by number. *)
Theorem renumbered_block_accepted :
  bh_block_num (c_head bk_pushed.2) = 2 ∧
  bh_timestamp (fb_head bk_renumbered) < bh_timestamp (c_head bk_pushed.2) ∧
  (∃ r, push_block bk_renumbered bk_pushed.2 = (Ok r, bk_rewound) ∧ bf_is_included r = true) ∧
  c_head_id bk_rewound = fb_id bk_renumbered ∧ bh_block_num (c_head bk_rewound) = 1 ∧
  c_block_ids bk_rewound !! 1 = Some (fb_id bk_renumbered) ∧
  c_block_ids bk_pushed.2 !! 1 = Some bk_head_id.
Proof.
  split; [by_evaluation|]. split; [by vm_compute|]. split.
  - exists (ok_or bk_included (push_block bk_renumbered bk_pushed.2).1). split; [by_running|by_evaluation].
  - split_and!; by_evaluation.
Qed.

(** ** A block announced by the one after it *)
Definition bk_next : full_block :=
  FullBlock (SignedBlockHeader (BlockHeader (fb_id bk_block) 3 10140 no_transactions_digest 56 0) 22) [].
Definition bk_announced : chain := (push_block bk_next bk_chain).2.
Definition bk_linked : chain := (push_block bk_block bk_announced).2.

(** A block that arrives after a block that names it
    is stored, checked, applied and becomes the head, and still does not count as
    known: the flag is set on the new data and lost when the data the later block
    left there replaces it. *)
Theorem announced_block_not_known :
  (∃ r, push_block bk_block bk_announced = (Ok r, bk_linked) ∧ bf_is_included r = true) ∧
  c_head_id bk_linked = fb_id bk_block ∧
  c_blocks bk_linked !! fb_id bk_block = Some bk_block ∧
  is_included_block (fb_id bk_block) bk_linked = true ∧
  is_known_block (fb_id bk_block) bk_linked = false ∧
  is_known_block (fb_id bk_block) bk_pushed.2 = true.
Proof.
  split.
  - exists (ok_or bk_included (push_block bk_block bk_announced).1). split; [by_running|by_evaluation].
  - split_and!; by_evaluation.
Qed.

(** ** Popping the first block *)
Definition bk_genesis : chain :=
  Chain (set_db_head_block_id 0 (set_db_head_block_header signed_block_header_default bk_db)) ∅
    {[0 := BlockForkData ∅ true (Some true) None true true]} ∅ ∅ ∅ ∅ ∅ ∅ None.
Definition bk_first_block : full_block :=
  FullBlock (SignedBlockHeader (BlockHeader 0 1 10130 no_transactions_digest 55 0) 21) [].
Definition bk_first : chain := (push_block bk_first_block bk_genesis).2.
Definition bk_popped : chain := (pop_block bk_first).2.

(** The first block of the chain can be added but not
    popped: there is no record of the block before it, so [pop_block] throws
    after it has undone the block and moved the head id back, and leaves a head
    whose id and header do not belong together. *)
Theorem first_block_not_popped :
  c_head_id bk_first = fb_id bk_first_block ∧ bh_block_num (c_head bk_first) = 1 ∧
  pop_block bk_first = (Err unknown_block, bk_popped) ∧
  c_head_id bk_popped = 0 ∧ bh_block_num (c_head bk_popped) = 1 ∧
  db_assets (c_db bk_first) !! 0 ≠ Some ex_core ∧ db_assets (c_db bk_popped) !! 0 = Some ex_core ∧
  is_included_block (fb_id bk_first_block) bk_popped = false.
Proof.
  do 2 (split; [by_evaluation|]). split; [by_running|]. do 2 (split; [by_evaluation|]).
  split; [|split; by_evaluation].
  intros E. apply (f_equal (fmap ar_collected_fees)) in E. revert E. by vm_compute.
Qed.
