(* ===== verification/VoteExamples.v ===== *)
(** Two delegates with stake behind them: a transaction and a block that move it. *)
From S2P Require Export BlockVotes BlockExamples.

(** Delegate 5 is on one slate, delegate 6 on two; a negative id names it too. *)
Definition vt_slates : gmap Z delegate_slate := {[7 := [5; 6]; 8 := [-6]]}.
Definition vt_condition (key slate : Z) : withdraw_condition :=
  WithdrawCondition 0 slate (withdraw_with_signature (address_of_key key) None).
Definition vt_balance (key slate b : Z) : balance_record :=
  BalanceRecord b (vt_condition key slate) None 500 500.
Definition vt_db : chain_database :=
  set_db_slates vt_slates
    (set_db_balances {[br_id (vt_balance 11 7 0) := vt_balance 11 7 40; br_id (vt_balance 12 8 0) := vt_balance 12 8 20]}
      bk_db).
Definition vt_state : chain_state := Pending pending_chain_state_empty (Database vt_db).
(** 30 leave the first slate, 10 arrive on the second, 20 are the fee. *)
Definition vt_trx : signed_transaction :=
  SignedTransaction
    (Transaction 10200 None
       [withdraw_operation (br_id (vt_balance 11 7 0)) 30 [];
        deposit_operation 10 (vt_condition 12 8)]) [11].

Lemma vt_balances k r : db_balances vt_db !! k = Some r →
  (k = br_id (vt_balance 11 7 0) ∧ r = vt_balance 11 7 40) ∨
  (k = br_id (vt_balance 12 8 0) ∧ r = vt_balance 12 8 20).
Proof.
  unfold vt_db. cbn [db_balances set_db_balances set_db_slates].
  intros [[<- <-]|[_ Hr]]%lookup_insert_Some; [by left|right].
  by apply (lookup_one _ (br_id (vt_balance 12 8 0)) _ (vt_balance 12 8 20)) in Hr as [-> ->].
Qed.
Lemma accounts_under sl b d : db_accounts (set_db_slates sl (set_db_balances b d)) = db_accounts d.
Proof. reflexivity. Qed.
Lemma vt_account k r : get_account_record k (Database vt_db) = Some r → db_accounts bk_db !! k = Some r.
Proof. change (db_accounts vt_db !! k = Some r → db_accounts bk_db !! k = Some r). unfold vt_db. by rewrite accounts_under. Qed.
Lemma vt_in_order : votes_in_order vt_db.
Proof.
  split_and!.
  - split_and!; intros k r Hr.
    + apply vt_balances in Hr as [[-> ->]|[-> ->]]; reflexivity.
    + by apply (lookup_one _ 0 _ ex_core) in Hr as [-> ->].
    + by apply vt_account, bk_account in Hr as [[-> ->]|[-> ->]].
  - intros k r Hr _. apply vt_balances in Hr as [[-> ->]|[-> ->]]; eexists; reflexivity.
  - intros a Ha. by apply (lookup_one _ 0 _ ex_core) in Ha as [_ ->].
  - intros id. destruct (decide (id = 5)) as [->|H5]; [apply eq64_eq; by_evaluation|].
    destruct (decide (id = 6)) as [->|H6]; [apply eq64_eq; by_evaluation|].
    rewrite backing_unnamed.
    + unfold vote_stats. destruct (get_account_record id (Database vt_db)) as [r|] eqn:E; [|reflexivity].
      by apply vt_account, bk_account in E as [[-> _]|[-> _]].
    + intros k sl Hk. change (vt_slates !! k = Some sl) in Hk. unfold vt_slates in Hk.
      apply lookup_insert_Some in Hk as [[_ <-]|[_ Hk]].
      * rewrite !Forall_cons. simpl. split_and!; first [lia|done].
      * apply (lookup_one _ 8 _ [-6]) in Hk as [_ ->]; [|reflexivity]. rewrite !Forall_cons. simpl. split_and!; first [lia|done].
Qed.

Definition vt_eval : transaction_evaluation_state := eval_state_new vt_state 1.
Definition vt_begun : transaction_evaluation_state := ok_or vt_eval (begin_evaluate vt_trx false false vt_eval).
Definition vt_final : transaction_evaluation_state := ok_or vt_eval (evaluate vt_trx false false vt_eval).
Lemma vt_run_ok :
  begin_evaluate vt_trx false false vt_eval = Ok vt_begun ∧
  evaluate vt_trx false false vt_eval = Ok vt_final ∧
  vote_stats 5 (es_current_state vt_final) = 10 ∧ vote_stats 6 (es_current_state vt_final) = 40.
Proof. split; [by_running|]. split; [by_running|]. split; by_evaluation. Qed.
Lemma votes_follow_stake_witness :
  vote_stats 5 (es_current_state vt_final) = 10 ∧ backing 5 (es_current_state vt_final) ≡₆₄ 10 ∧
  vote_stats 6 (es_current_state vt_final) = 40 ∧ backing 6 (es_current_state vt_final) ≡₆₄ 40.
Proof.
  destruct vt_run_ok as (Eb & E & E5 & E6). destruct (vbacked_fresh vt_db vt_in_order) as [Hwf Hbk].
  assert (ids_free (tx_operations (st_trx vt_trx)) (set_es_current_op_index 0 vt_begun)) as Hfree.
  { split; [exact I|]. intros e1 _. split; [exact I|]. intros e2 _. exact I. }
  destruct (votes_follow_stake vt_trx false false vt_eval vt_begun vt_final Eb Hfree E Hwf Hbk) as [_ Hv].
  split; [exact E5|]. split; [rewrite <- (Hv 5), E5; reflexivity|].
  split; [exact E6|]. rewrite <- (Hv 6), E6. reflexivity.
Defined.

Definition vt_block : full_block := FullBlock (fb_header bk_block) [vt_trx].
Definition vt_applied : chain_state := ok_or vt_state (apply_block vt_block 21 vt_db vt_state).
Lemma vt_applied_ok :
  apply_block vt_block 21 vt_db vt_state = Ok vt_applied ∧
  stat ds_votes_for 5 vt_applied = 50010 ∧ stat ds_pay_balance 5 vt_applied = 50000.
Proof. split; [by_running|]. split; by_evaluation. Qed.
Lemma block_keeps_votes_witness :
  stat ds_votes_for 5 vt_applied = 50010 ∧ stat ds_pay_balance 5 vt_applied = 50000 ∧
  ∀ r i, get_account_record 5 vt_applied = Some r → ac_delegate_info r = Some i →
    ds_votes_for i ≡₆₄ backing 5 vt_applied + ds_pay_balance i.
Proof.
  destruct vt_applied_ok as (E & E1 & E2). split; [exact E1|]. split; [exact E2|].
  destruct (block_keeps_votes vt_block 21 vt_db vt_applied vt_in_order) as [H1 _]; [|exact E|exact (H1 5)].
  intros s1 _. split; [|done]. intros e _.
  split; [exact I|]. intros e1 _. split; [exact I|]. intros e2 _. exact I.
Defined.
