(* ===== verification/QueryExamples.v ===== *)
(** Small chains on which the queries are run. *)
From S2P Require Export QueryFacts VoteExamples.

(** ** Orders of two pairs *)
Definition qx_key (ratio quote base owner : Z) : market_index_key := MarketIndexKey (Price ratio base quote) owner.
Definition qx_bids : gmap market_index_key order_record :=
  {[qx_key 50 4 0 1 := order_record_of 10; qx_key 70 4 0 2 := order_record_of 20;
    qx_key 60 4 0 3 := order_record_of 30; qx_key 90 5 4 3 := order_record_of 40;
    qx_key 90 3 0 3 := order_record_of 50]}.
Definition qx_asks : gmap market_index_key order_record :=
  {[qx_key 80 4 0 1 := order_record_of 10; qx_key 75 4 0 2 := order_record_of 20]}.
Definition qx_asset (id : Z) (symbol : string) : asset_record :=
  AssetRecord id symbol symbol symbol v_null 1 100 5 5 0 1000 0.
Definition qx_db : chain_database :=
  set_db_asks qx_asks (set_db_bids qx_bids
    (set_db_symbol_index {["USD" := 4; "XCL" := 0]}
      (set_db_assets {[0 := qx_asset 0 "XCL"; 4 := qx_asset 4 "USD"]} (chain_database_empty 1)))).
Lemma qx_typed : typed_book (db_bids qx_db) ∧ typed_book (db_asks qx_db).
Proof.
  split; intros k v Hk.
  - cbn in Hk. unfold qx_bids in Hk.
    repeat (apply lookup_insert_Some in Hk as [[<- <-]|[_ Hk]]; [by repeat split|]).
    by apply (lookup_one _ (qx_key 90 3 0 3) _ (order_record_of 50)) in Hk as [-> _].
  - cbn in Hk. unfold qx_asks in Hk.
    apply lookup_insert_Some in Hk as [[<- <-]|[_ Hk]]; [by repeat split|].
    by apply (lookup_one _ (qx_key 75 4 0 2) _ (order_record_of 20)) in Hk as [-> _].
Qed.
Lemma market_orders_listed_witness :
  ∃ bids asks, get_market_bids "USD" "XCL" 2 qx_db = Ok bids ∧ get_market_asks "USD" "XCL" 0 qx_db = Ok asks ∧
    (mo_get_owner <$> bids) = [2; 3] ∧ (mo_get_owner <$> asks) = [2; 1].
Proof.
  destruct qx_typed as [Hb Ha].
  destruct (market_orders_listed "USD" "XCL" 4 0 2 qx_db) as [Eb _];
    [by_evaluation|by_evaluation|lia|lia|lia|exact Hb|exact Ha|].
  destruct (market_orders_listed "USD" "XCL" 4 0 0 qx_db) as [_ Ea];
    [by_evaluation|by_evaluation|lia|lia|lia|exact Hb|exact Ha|].
  eexists _, _. split; [exact Eb|]. split; [exact Ea|]. split; by_evaluation.
Defined.

(** ** The votes of the examples, under slates of positive ids *)
Definition qx_votes : chain_database := set_db_slates {[7 := [5; 6]; 8 := [6]]} vt_db.
Lemma index_under sl sl' b d : vote_index d → vote_index (set_db_slates sl (set_db_slates sl' (set_db_balances b d))).
Proof. intros Hd v id. exact (Hd v id). Qed.
Lemma tables_under sl d :
  db_balances (set_db_slates sl d) = db_balances d ∧ db_accounts (set_db_slates sl d) = db_accounts d ∧
  db_slates (set_db_slates sl d) = sl.
Proof. by split_and!. Qed.
Lemma vote_audit_exact_witness :
  ∃ found, find_delegate_vote_discrepancies qx_votes = Ok found ∧ found = ∅.
Proof.
  destruct (tables_under {[7 := [5; 6]; 8 := [6]]} vt_db) as (Eb & Ea & Es).
  destruct (vote_audit_exact qx_votes) as (found & E & Hf & _).
  - unfold qx_votes, vt_db. apply index_under, bk_votes.
  - intros k r Hr _. change (db_balances qx_votes !! k = Some r) in Hr. unfold qx_votes in Hr. rewrite Eb in Hr.
    apply vt_balances in Hr as [[-> ->]|[-> ->]]; eexists; reflexivity.
  - intros k s Hs. unfold qx_votes in Hs. rewrite Es in Hs.
    apply lookup_insert_Some in Hs as [[_ <-]|[_ Hs]]; [by repeat constructor|].
    apply (lookup_one _ 8 _ [6]) in Hs as [_ ->]; [|reflexivity]. by repeat constructor.
  - intros k r Hr. unfold qx_votes in Hr. rewrite Ea in Hr. fold (get_account_record k (Database vt_db)) in Hr.
    by apply vt_account, bk_account in Hr as [[-> ->]|[-> ->]].
  - exists found. split; [exact E|]. apply Hf. intros id r i Hr Hi.
    unfold qx_votes in Hr. rewrite Ea in Hr. fold (get_account_record id (Database vt_db)) in Hr.
    apply vt_account, bk_account in Hr as [[-> ->]|[-> ->]]; injection Hi as <-; by_evaluation.
Defined.

(** A slate may name a delegate by a negative id, which gives it the votes
    ([adjust_vote] takes the absolute value); the audit counts them for the negative
    id instead, and reports a delegate whose votes are the stake behind it. *)
Theorem negative_slate_misreported :
  votes_backed (Database vt_db) ∧
  ∃ found, find_delegate_vote_discrepancies vt_db = Ok found ∧
    found !! "delegate"%string = Some (VoteDiscrepancy 40 60 60).
Proof.
  split; [exact (proj2 (proj2 (proj2 vt_in_order)))|].
  exists (ok_or ∅ (find_delegate_vote_discrepancies vt_db)). split; [by_running|by_evaluation].
Qed.

(** ** The history of trades leaves blocks out

    Trades in the blocks 4, 5 and 6, of which 6 is the head: only those of block 5
    are listed. *)
Definition qx_trade (owner : Z) : market_transaction :=
  MarketTransaction owner owner (Price 5 0 4) (Price 5 0 4) asset_default asset_default None
    asset_default asset_default None bid_order ask_order asset_default.
Definition qx_record (n : Z) : block_record :=
  BlockRecord (DigestBlock (SignedBlockHeader (BlockHeader 0 n (1000 * n) 0 0 0) 21) []) 0 100 0.
Definition qx_chain : chain :=
  Chain (set_db_market_transactions {[4 := [qx_trade 4]; 5 := [qx_trade 5]; 6 := [qx_trade 6]]}
           (set_db_head_block_header (SignedBlockHeader (BlockHeader 0 6 6000 0 0 0) 21) (chain_database_empty 1)))
    ∅ ∅ ∅ {[1 := 101; 4 := 104; 5 := 105; 6 := 106]}
    {[101 := qx_record 1; 104 := qx_record 4; 105 := qx_record 5; 106 := qx_record 6]} ∅ ∅ ∅ None.
Lemma order_history_skips :
  market_order_history 4 0 0 10 0 qx_chain = Ok [OrderHistoryRecord (qx_trade 5) 5000].
Proof. by_evaluation. Qed.
