(* ===== verification/WalletExamples.v ===== *)
(** Wallets the theorems of [WalletRuns] are applied to, and what the code does not
    keep in order. *)
From S2P Require Import WalletDb WalletFacts WalletOrder WalletRuns.

(** A wallet with a setting and a contact. *)
Definition wx_used : wallet_db :=
  (add_contact_account 100 "alice" 77 v_null (store_setting "language" (v_int 1) new_wallet).2).2.
Lemma wx_used_steps : rtc wallet_step new_wallet wx_used.
Proof.
  eapply rtc_l; [apply (step_setting new_wallet "language" (v_int 1))|].
  apply rtc_once, step_add_contact.
Qed.

Lemma wallet_reopens_witness : ∃ w',
  reopen wx_used = (Ok (), w') ∧ wallet_ok w' ∧ w_records w' = w_records wx_used ∧
  w_master_key w' = w_master_key wx_used ∧ w_accounts w' = w_accounts wx_used ∧
  w_keys w' = w_keys wx_used ∧ w_transactions w' = w_transactions wx_used ∧
  w_balances w' = w_balances wx_used ∧ w_properties w' = w_properties wx_used ∧
  w_settings w' = w_settings wx_used ∧ w_name_index w' = w_name_index wx_used ∧
  w_id_index w' = w_id_index wx_used.
Proof.
  apply wallet_reopens. eapply wallet_step_ok; [|apply step_add_contact].
  eapply wallet_step_ok; [apply new_wallet_ok|apply step_setting].
Defined.

(** A wallet with a master key and one private key. *)
Definition wx_master : extended_private_key := ExtendedPrivateKey 1000 0.
Definition wx_key : key_data := KeyData 0 9 (aes_encrypt 5 (pack_private_key 9)) true None 0.
Definition wx_opened : wallet_db := (set_master_key wx_master 5 new_wallet).2.
Definition wx_keyed : wallet_db := (store_key wx_key wx_opened).2.

Lemma wx_opened_ok : wallet_ok wx_opened ∧ w_keys wx_opened = ∅ ∧ master_key 5 wx_opened = Ok wx_master.
Proof.
  destruct (set_master_Ok wx_master 5 new_wallet new_wallet_ok ltac:(done)) as (r & w' & Hs & Hst & _ & Hd & _).
  unfold wx_opened. rewrite Hs. split; [by eapply stored_clean|]. split.
  - apply (same_keys new_wallet). intros a. by rewrite (st_held _ _ _ _ Hst).
  - pose proof (st_held _ _ _ _ Hst s_master) as Hm. rewrite decide_True in Hm by done. simpl in Hm.
    unfold master_key. cbn [snd]. destruct (w_master_key w') as [r'|]; [|done]. by injection Hm as ->.
Qed.
Lemma wx_keyed_ok : wallet_ok wx_keyed ∧ master_key 5 wx_keyed = Ok wx_master ∧
  ∀ a r, w_keys wx_keyed !! a = Some r → wk_data r = wx_key.
Proof.
  destruct wx_opened_ok as (Hw & Hk & Hm). unfold wx_keyed.
  destruct (store_key_new wx_key wx_opened Hw) as [->|(r & w' & -> & Hr & Hw' & Hh)]; [by rewrite Hk| |].
  - split; [done|]. split; [done|]. intros a r. simpl. by rewrite Hk.
  - split; [done|]. split.
    + specialize (Hh s_master ltac:(done)). rewrite decide_False in Hh by done. simpl in Hh.
      revert Hm. unfold master_key. cbn [snd].
      by destruct (w_master_key wx_opened), (w_master_key w'); simplify_eq/=.
    + intros a r' Ha. specialize (Hh (s_key a) ltac:(done)). simpl in Ha, Hh. rewrite Ha, Hk in Hh.
      case_decide; by simplify_eq/=.
Qed.
Lemma password_changed_witness : ∃ w',
  change_password 5 6 wx_keyed = (Ok (), w') ∧ wallet_ok w' ∧ validate_password 6 w' = Ok true ∧
  master_key 6 w' = Ok wx_master ∧
  (∀ a r, w_keys wx_keyed !! a = Some r → ∃ r', w_keys w' !! a = Some r' ∧ rekeyed 5 6 r r') ∧
  (∀ s, s ≠ s_master → (∀ a, s ≠ s_key a) → held w' s = held wx_keyed s).
Proof.
  apply password_changed; [apply wx_keyed_ok|discriminate|apply wx_keyed_ok|].
  intros a r Hr. destruct wx_keyed_ok as (_ & _ & Hk). apply Hk in Hr. unfold readable. rewrite Hr.
  intros _. exists 9. split; reflexivity.
Defined.

(** ** What is left behind

    Removing a contact erases its keys from memory only: the record of its owner
    key stays on disk, and is loaded when the wallet is opened again. *)
Lemma contact_key_stays `{!Crypto, !Ecc} name acct r w w' : wallet_ok w →
  account_by_name name w = Ok (Some acct) →
  w_keys w !! address_of_key (ac_owner_key (wa_account acct)) = Some r →
  remove_contact_account name w = (Ok (), w') →
  w_keys w' !! address_of_key (ac_owner_key (wa_account acct)) = None ∧
  w_records w' !! wk_index r = Some (g_key r).
Proof.
  intros Hw Ha Hr Hrm. destruct (key_held w _ r Hw Hr) as [Hs (g & Hg & Hsg)].
  assert (g = g_key r) as ->.
  { pose proof (sy_disk _ _ (wb_synced _ _ Hw) _ _ Hg ltac:(by intros [])) as Hh.
    rewrite Hsg in Hh. simpl in Hh. rewrite Hr in Hh. by simplify_eq/=. }
  assert (wk_index r ≠ wa_index acct) as Hne.
  { intros Heq. unfold account_by_name in Ha. destruct (w_name_index w !! name) as [i|] eqn:Hi; [|done].
    destruct (ix_name _ (wb_indexed _ _ Hw) _ _ Hi) as (acct' & Hacct & _).
    unfold lookup_account_at in Ha. rewrite Hacct in Ha. injection Ha as ->.
    destruct (account_on_disk clean w i acct Hw ltac:(by intros []) Hacct) as [Hidx (g & Hg' & Hsg')].
    rewrite <- Hidx, <- Heq, Hg in Hg'. injection Hg' as <-. done. }
  unfold remove_contact_account, remove_item, sbind, slift, sassert, smodify in Hrm. rewrite Ha in Hrm. simpl in Hrm.
  destruct (negb _); [|done].
  set (w1 := foldl _ w _) in Hrm.
  assert (w_records w1 = w_records w) as Hrec.
  { unfold w1. clear. generalize (ac_active_key_history (wa_account acct)). intros l. revert w.
    induction l as [|k l IH]; intros w; simpl; [done|]. by rewrite IH. }
  destruct (w_is_open w1); [|done]. injection Hrm as <-. simpl. rewrite Hrec. split.
  - apply lookup_delete_eq.
  - by rewrite lookup_delete_ne.
Qed.

(** A public key the wallet already has is refused, after the account it belongs to
    was stored: an account with such an active key and a new owner key, or whose
    history returns to an earlier key, is added in part. *)
Lemma known_key_refused `{!Crypto, !Ecc} a k r w : wallet_ok w → w_keys w !! address_of_key k = Some r →
  ∃ e w', new_public_key a k w = (Err e, w').
Proof.
  intros Hw Hr. unfold new_public_key, sbind.
  destruct (new_index_ok clean w Hw) as [->|(n & w1 & -> & Hc)]; [by intros []|by eauto|].
  assert (held w1 (s_key (address_of_key k)) = Some (g_key r)) as Hh.
  { rewrite (ct_held _ _ _ _ Hc) by done. simpl. by rewrite Hr. }
  simpl in Hh. unfold load_key_record, sbind, sassert. simpl. unfold kd_get_address. simpl.
  destruct (w_keys w1 !! address_of_key k); [simpl; by eauto|done].
Qed.
